(* ===== verification/_CoqProject ===== *)
-Q . S2P
Prelude.v
Ieee80211.v
WlState.v
ChipOps.v
Io.v
Mailbox.v
Queues.v
LinkQueues.v
PowerSave.v
TxPath.v
TxAllocFacts.v
TxSched.v
TxInv.v
SchedFacts.v
TxMoves.v
TxPrep.v
TxWork.v
TxDone.v
TxDoneFacts.v
FwStatus.v
MemPool.v
TxExact.v
Rx.v
RxFacts.v
Event.v
EventFacts.v
Irq.v
Links.v
Roles.v
LinksFacts.v
RolesFacts.v
Init.v
BaFacts.v
Iface.v
IfaceFacts.v
Recovery.v
VifData.v
Keys.v
KeysFacts.v
Scan.v
ScanFacts.v
Boot.v
Boot12xx.v
Boot18xx.v
BootFacts.v
NvsFacts.v
BootOrder.v
VersionFacts.v
Driver.v
Wl12xx.v
Wl18xx.v
Examples.v
DriverTheorems.v
TxTheorems.v
RxTheorems.v
LinkTheorems.v
IfaceTheorems.v
KeyTheorems.v
ScanTheorems.v
BootTheorems.v
