(* ===== verification/Prelude.v ===== *)
(** * The TI wlcore driver: a verification development

    The repository holds Texas Instruments' WLAN drivers for Android.  This
    library models the core of the current one, under
    src/mac80211/compat_wl18xx/drivers/net/wireless/ti: the common driver
    (wlcore/), between mac80211 above and the firmware of the chip below, and
    the parts of the two chip families (wl12xx/, wl18xx/) its data path calls.

    ** The program and its model

    The driver keeps one [struct wl1271] per device, with its interfaces
    ([struct wl12xx_vif]) and its twelve host links ([struct wl1271_link]), each
    with a queue of buffers per access category.  mac80211 hands over frames
    ([wl1271_op_tx]); the transmit work takes them from the queues, gives each a
    descriptor, memory blocks of the firmware and a place in the aggregation
    buffer, and writes the buffer to the chip.  The interrupt handler reads the
    firmware status, settles the accounts, completes transmitted frames,
    receives, and dispatches firmware events.  Before any of it the chip is
    booted: powered and identified, its clocks set, the NVS file and the
    firmware image written through moving partition windows, the processor
    started and the version it reports checked.  When the firmware fails the
    recovery work removes every interface, stops the device and asks mac80211
    to start it again.

    Pure C functions are Rocq functions of the same name.  A function that
    changes the device takes [wl : wl1271] and returns the new state, with its
    [int] result first.  Interfaces and buffers live in finite maps of the state
    and are named by keys, as C names them by pointers.  Integers are [Z]; their
    width is written out ([u8], [u32], [s32], ...) wherever C arithmetic can
    wrap.  A loop that is not bounded by its data runs on fuel; the result type
    [outcome] tells a return, a crash (a NULL dereference or a BUG_ON) and a
    loop out of fuel apart, and the theorems show which fuel is enough: twice
    the number of queued frames for the transmit loop ([fuel_for] in Driver.v),
    a turn per byte of the log page for the log of a crashed firmware, a turn
    per interface for recovery, a turn per byte of the image for the chunks of
    a firmware ([upload_image_fuel]; each takes eight) and of the NVS section
    for its bursts.  The polls of the boot are bounded as in the code (20000 for
    the initialisation, 32 for a top register) or, where it compares jiffies, by
    the parameter [reset_polls].  What the driver asks
    of mac80211, of the kernel and of the bus is appended to [log]; what the bus
    answers is taken from [bus], which is arbitrary, so every theorem holds for
    any behaviour of the chip.  One request runs to its end at a time: the C
    code holds [wl->mutex], or [wl->wl_lock] for [wl1271_op_tx].

    ** Files

    - Prelude.v: record update, machine integers, bits, byte strings, loops,
      finite sums, and the tactics of the development.
    - Ieee80211.v: frame headers (include/linux/ieee80211.h,
      net/wireless/util.c).  WlState.v: the state ([wl1271], [wl12xx_vif],
      [wl1271_link], buffers, firmware commands, the event log).
    - ChipOps.v: the interface to the chip families, [struct wlcore_ops], as a
      typeclass [wlcore_ops] with the laws the common code relies on
      ([wlcore_ops_laws]); Wl12xx.v and Wl18xx.v are its two instances and
      discharge the laws.
    - Io.v: transfers, address translation, the command mailbox, recovery
      requests (io.h, io.c, cmd.c, main.c).
    - Queues.v: flow control; LinkQueues.v: the link queues and their counts;
      TxPath.v: acceptance, descriptors, preparation; TxSched.v: the scheduler
      and the transmit work; TxDone.v: completion, reset, flush (tx.c, main.c).
    - PowerSave.v: ps.c.  FwStatus.v: [wlcore_fw_status] (main.c).  Rx.v: rx.c.
      Event.v: event.c and RX streaming.  Irq.v: [wlcore_irq] (main.c).
    - Links.v: links, peers, the station state machine, block-ack sessions;
      Roles.v: starting and stopping roles, remain-on-channel (cmd.c, main.c).
      Init.v: [wlcore_alloc_hw] (main.c).
    - Iface.v: the data and the removal of an interface, station power save,
      stopping the device, recovery (main.c, ps.c).  Keys.v: keys (main.c,
      cmd.c), with the chip families' part as the typeclass [key_ops].  Scan.v:
      scans on request and periodic scans (scan.c, main.c, cmd.c).
    - Boot.v: power-on, firmware and NVS files, uploads, version check, start,
      MAC addresses (boot.c, main.c), with the chip families' hooks as the
      typeclass [wlcore_boot_ops]; Boot12xx.v and Boot18xx.v: the boot of each
      family (main.c and io.c of wl12xx/ and wl18xx/).
    - TxAllocFacts.v, TxInv.v, SchedFacts.v, TxMoves.v, TxPrep.v, TxWork.v,
      TxDoneFacts.v, MemPool.v, RxFacts.v, EventFacts.v, LinksFacts.v,
      RolesFacts.v, BaFacts.v, IfaceFacts.v, Recovery.v, VifData.v,
      KeysFacts.v, ScanFacts.v: the invariants and the lemmas about the operations.
    - BootFacts.v: the chip as the memory its logged writes produce, replayed
      through the partition windows, and the upload against it; NvsFacts.v: the
      NVS format; BootOrder.v: what the steps of a boot write and in which order;
      VersionFacts.v: versions as text and their order.
    - Driver.v: the driver as a reactive system: [request], [serve] and the
      [reachable] states, with a [ledger] of what each history asked for.
      Examples.v: a concrete device for the witnesses.
    - DriverTheorems.v, TxTheorems.v, RxTheorems.v, LinkTheorems.v,
      IfaceTheorems.v, KeyTheorems.v, ScanTheorems.v, BootTheorems.v: the
      theorems, C1 to C40.

    ** What the theorems show

    - The whole driver (C1 to C4): in every reachable state the invariant
      [driver_inv] holds and every buffer handed over is in exactly one place or
      was given back exactly once; every admissible request ends, without a
      crash, the removal of interfaces, keys, scans and recovery included; an allocated
      device satisfies the invariant; the queues mac80211 believes stopped are
      those with a stop reason.
    - Transmission (C5 to C10, C12 to C15, C17, C19): what queueing, scheduling,
      requeueing, preparing, completing and flushing do; the round trip of
      the private header; the books of
      firmware memory agree with the firmware's counters, wrap-around included;
      the length fields of both chip families.
    - Reception and commands (C23, C24, C26, C27): reception terminates for any ring
      contents, takes whole packets within the aggregation buffer, delivers
      their frames in order and catches up with the firmware; the log page is
      never overrun; a failed command leads to recovery.
    - Links (C28, C30, C32, C34, C38): links, stations, access points and block-ack
      sessions are handed out once, rolled back on failure and counted exactly.
    - Interfaces and recovery (C36, C37, C39, C40): recovery ends with the
      device stopped and every buffer returned; removing an interface clears
      it; the log of a crashed firmware is read to an end within its page; rate
      policies and templates are given back to the last bit.
    - Keys (C20, C21): the record of keys of an access point is well formed and
      replayed in full; the spare-block count of the 18xx.
    - Scans (C16, C18, C31, C33): every accepted scan is running, reported
      exactly once or dropped by a wake-up that failed; the completion work ends
      a scan; the channels of a command are sorted and each is scanned once; the
      SSID list of a periodic scan is what its filters call for.
    - Boot (C11, C22, C25, C29, C35): a well-formed image ends up in the memory
      of the chip byte for byte, whatever windows it is written through; the
      processor is started only after that; a file of the right size is
      uploaded without a read outside it and without looping, and a well-formed
      one burst for burst and table for table, with the device's address in it;
      the version check is the order on versions.

    C21 and C34 record divergences: a spare block forgotten while a key needs it
    and a block-ack session that is counted but cannot be recorded; so do, at
    the end of TxTheorems.v and BootTheorems.v, [checksum_byte] (a comment that
    swaps TCP and UDP), [requeue_without_vif_oopses] (a NULL dereference) and
    six lemmas on the boot (files and registers trusted without a check, a test
    of the clock switch that is inverted, an address bit set in the wrong
    byte).  Conditions of [admissible] (Driver.v) exclude what the
    code does not survive: a frame belongs to an interface, and fits the
    aggregation buffer (a larger one is retried without end); and what the
    proofs do not cover: an interface removed while it remains on a channel.  A
    scan dropped by the completion work (C16) is a divergence too.  The boot
    theorems say what a boot leaves behind when the bus reports no failure
    ([bus_quiet]) or the host controller's transfers return no positive value
    ([nonpos]); any other boot returns the error.

    ** Not modelled

    Failing kernel allocations (command and upload buffers, copies of the files,
    status buffers); wake locks; the kernel's timers and
    work queues beyond the requests to run them; interleaving inside a critical
    section (an entry point that drops [wl->mutex] while it waits for its own
    timers is taken as one step).  Of wlcore: adding
    interfaces with the retries of [wl12xx_init_fw], the configuration commands
    of init.c, BSS and channel changes, suspend and resume with their filters,
    the production line test mode, debugfs, testmode and sysfs, and the byte
    layout of commands (a command is a value with the arguments the code fills
    in).  The SDIO and SPI glue is the parameter [bus].  mac80211 and
    cfg80211 are the backported kernel stack; the compat_wl12xx tree is an older
    copy of the same driver; ti-utils and wpa_supplicant_lib are tools and
    library glue. *)

From stdpp Require Export base tactics numbers list gmap.
From Stdlib Require Export ZArith Lia.

#[global] Open Scope Z_scope.

(** ** Record update

    C code assigns struct fields one at a time; [r <| f := v |>] is the record
    [r] with its field [f] set to [v], and [r <| f ::= g |>] applies [g] to it.
    A record type becomes updatable by one [Eta] instance that rebuilds a value
    from its projections; the setter of a projection is then derived. *)

Class Eta (R : Type) := eta_expand : R -> R.

Class Setter {R E : Type} (proj : R -> E) := upd : (E -> E) -> R -> R.
Arguments upd {R E} proj {Setter} f r : simpl nomatch.

Ltac derive_setter :=
  match goal with
  | |- @Setter ?R ?E ?p =>
      let inst := constr:(_ : Eta R) in
      let body := eval hnf in inst in
      match eval pattern p in body with
      | ?abs _ =>
          let s := eval cbv beta in (fun (g : E -> E) => abs (fun r => g (p r))) in
          exact s
      end
  end.

#[export] Hint Extern 1 (Setter _) => derive_setter : typeclass_instances.

Declare Scope field_scope.
Delimit Scope field_scope with field.
#[global] Open Scope field_scope.

Notation "r <| f ::= g |>" := (upd f g r)
  (at level 1, f at level 99, g at level 99, left associativity) : field_scope.
Notation "r <| f := v |>" := (upd f (fun _ => v) r)
  (at level 1, f at level 99, v at level 99, left associativity) : field_scope.

(** ** Machine integers

    A C integer of width [w] is a [Z]; the definitions below are the implicit
    conversions the source performs when it stores a value in such a type. *)

Definition wrap (w x : Z) : Z := x mod 2 ^ w.

Definition u8 (x : Z) : Z := wrap 8 x.
Definition u16 (x : Z) : Z := wrap 16 x.
Definition u32 (x : Z) : Z := wrap 32 x.
Definition u64 (x : Z) : Z := wrap 64 x.

(** Conversion to a two's complement signed type of width [w]. *)
Definition swrap (w x : Z) : Z := wrap w (x + 2 ^ (w - 1)) - 2 ^ (w - 1).

Definition s8 (x : Z) : Z := swrap 8 x.
Definition s32 (x : Z) : Z := swrap 32 x.

Lemma wrap_range w x : 0 <= w -> 0 <= wrap w x < 2 ^ w.
Proof. intros Hw. apply Z.mod_pos_bound, Z.pow_pos_nonneg; lia. Qed.

Lemma wrap_id w x : 0 <= x < 2 ^ w -> wrap w x = x.
Proof. apply Z.mod_small. Qed.

Lemma wrap_wrap w x : 0 <= w -> wrap w (wrap w x) = wrap w x.
Proof. intros Hw. apply wrap_id, wrap_range, Hw. Qed.

Lemma wrap_sub_l w x y : wrap w (wrap w x - y) = wrap w (x - y).
Proof. apply Zminus_mod_idemp_l. Qed.

Lemma wrap_sub_r w x y : wrap w (x - wrap w y) = wrap w (x - y).
Proof. apply Zminus_mod_idemp_r. Qed.

Lemma wrap_add_l w x y : wrap w (wrap w x + y) = wrap w (x + y).
Proof. apply Zplus_mod_idemp_l. Qed.

Lemma wrap_add_r w x y : wrap w (x + wrap w y) = wrap w (x + y).
Proof. apply Zplus_mod_idemp_r. Qed.

Lemma u8_range x : 0 <= u8 x < 256.
Proof. apply (wrap_range 8); lia. Qed.

Lemma u16_range x : 0 <= u16 x < 65536.
Proof. apply (wrap_range 16); lia. Qed.

Lemma u32_range x : 0 <= u32 x < 4294967296.
Proof. apply (wrap_range 32); lia. Qed.

Lemma u8_id x : 0 <= x < 256 -> u8 x = x.
Proof. apply (wrap_id 8). Qed.

Lemma u16_id x : 0 <= x < 65536 -> u16 x = x.
Proof. apply (wrap_id 16). Qed.

Lemma u32_id x : 0 <= x < 4294967296 -> u32 x = x.
Proof. apply (wrap_id 32). Qed.

Lemma s32_id x : - 2 ^ 31 <= x < 2 ^ 31 -> s32 x = x.
Proof. intros Hx. unfold s32, swrap. rewrite wrap_id by lia. lia. Qed.

Lemma land_255 x : Z.land x 255 = u8 x.
Proof. change 255 with (Z.ones 8). rewrite Z.land_ones by lia. reflexivity. Qed.

(** ** Results of fallible C code with loops

    [Ret] is a normal return, [Oops] a NULL pointer dereference or a [BUG_ON],
    and [OutOfFuel] a loop that has not ended within the fuel given. *)
Inductive outcome (A : Type) :=
| Ret (a : A)
| Oops
| OutOfFuel.
Arguments Ret {A} a.
Arguments Oops {A}.
Arguments OutOfFuel {A}.

Definition obind {A B : Type} (m : outcome A) (f : A -> outcome B) : outcome B :=
  match m with
  | Ret a => f a
  | Oops => Oops
  | OutOfFuel => OutOfFuel
  end.

Notation "'let*' x := m 'in' f" := (obind m (fun x => f))
  (at level 10, x pattern, m at level 100, f at level 200) : field_scope.

(** ** Errno values returned (negated) by the code *)

Definition ENOENT := 2.
Definition EIO := 5.
Definition EAGAIN := 11.
Definition ENOMEM := 12.
Definition EBUSY := 16.
Definition EINVAL := 22.
Definition ETIMEDOUT := 110.
Definition ENOTSUPP := 524.
Definition EOPNOTSUPP := 95.

(** ** Bitmaps

    The kernel's bit operations on [unsigned long] words, on the [Z] whose
    binary digits are the bits of the word. *)

Definition BIT (n : Z) : Z := Z.shiftl 1 n.
Definition test_bit (i m : Z) : bool := Z.testbit m i.
Definition set_bit (i m : Z) : Z := Z.setbit m i.
Definition clear_bit (i m : Z) : Z := Z.clearbit m i.

(** [has m f] is the C test [m & f]. *)
Definition has (m f : Z) : bool := negb (Z.land m f =? 0).

Lemma test_set_bit i j m : 0 <= i ->
  test_bit j (set_bit i m) = (i =? j) || test_bit j m.
Proof. intros. unfold test_bit, set_bit. apply Z.setbit_eqb; lia. Qed.

Lemma test_clear_bit i j m :
  test_bit j (clear_bit i m) = test_bit j m && negb (i =? j).
Proof. apply Z.clearbit_eqb. Qed.

(** Indices [0 .. n-1], the range of a C [for] loop. *)
Definition zseq (n : Z) : list Z := Z.of_nat <$> seq 0 (Z.to_nat n).

Lemma elem_of_zseq n i : i ∈ zseq n <-> 0 <= i < n.
Proof.
  unfold zseq. rewrite list_elem_of_fmap. split.
  - intros (k & -> & Hk%elem_of_seq). lia.
  - intros Hi. exists (Z.to_nat i). rewrite elem_of_seq. lia.
Qed.

Lemma NoDup_zseq n : NoDup (zseq n).
Proof. apply NoDup_fmap_2; [intros ???; lia | apply NoDup_seq]. Qed.

Lemma length_zseq n : length (zseq n) = Z.to_nat n.
Proof. unfold zseq. by rewrite length_fmap, length_seq. Qed.

Lemma zseq_succ n : 0 <= n -> zseq (n + 1) = zseq n ++ [n].
Proof.
  intros. unfold zseq. replace (Z.to_nat (n + 1)) with (Z.to_nat n + 1)%nat by lia.
  rewrite seq_app, fmap_app. simpl. do 2 f_equal. lia.
Qed.

Lemma zseq_cons n : 0 < n -> zseq n = 0 :: ((fun k => k + 1) <$> zseq (n - 1)).
Proof.
  intros Hn. unfold zseq. replace (Z.to_nat n) with (S (Z.to_nat (n - 1))) by lia. cbn [seq fmap list_fmap].
  f_equal. rewrite <- fmap_S_seq, <- !list_fmap_compose. apply list_fmap_ext. intros _ k _. simpl. lia.
Qed.

(** [for (i = 0; i < n; i++) s = body(i, s);] *)
Definition for_range {T : Type} (n : Z) (body : Z -> T -> T) (s : T) : T :=
  fold_left (fun s i => body i s) (zseq n) s.

Lemma fold_left_inv {A T : Type} (P : T -> Prop) (f : T -> A -> T) l s :
  P s -> (forall s a, a ∈ l -> P s -> P (f s a)) -> P (fold_left f l s).
Proof.
  revert s. induction l as [|a l IH]; intros s Hs Hf; simpl; [done|].
  apply IH; [apply Hf; [left | done] | intros; apply Hf; [by right | done]].
Qed.

Lemma for_range_inv {T : Type} (P : T -> Prop) n (body : Z -> T -> T) s :
  P s -> (forall s i, 0 <= i < n -> P s -> P (body i s)) -> P (for_range n body s).
Proof.
  intros Hs Hf. unfold for_range. apply fold_left_inv; [done|].
  intros s' i Hi%elem_of_zseq. by apply Hf.
Qed.

(** Loop rule with an invariant that depends on the iteration. *)
Lemma for_range_comm {T} (g : T -> T) n (f : Z -> T -> T) s :
  (forall i s, f i (g s) = g (f i s)) -> for_range n f (g s) = g (for_range n f s).
Proof.
  intros Hc. unfold for_range. revert s. induction (zseq n) as [|i l IH]; intros s; simpl; [done|].
  by rewrite Hc, IH.
Qed.

Lemma for_range_ind {T : Type} (P : Z -> T -> Prop) n (body : Z -> T -> T) s :
  0 <= n -> P 0 s ->
  (forall s i, 0 <= i < n -> P i s -> P (i + 1) (body i s)) ->
  P n (for_range n body s).
Proof.
  intros Hn H0 Hstep. unfold for_range.
  cut (forall k : nat, Z.of_nat k <= n ->
         P (Z.of_nat k) (fold_left (fun s i => body i s) (zseq (Z.of_nat k)) s)).
  { intros H. specialize (H (Z.to_nat n)). rewrite Z2Nat.id in H by lia. apply H. lia. }
  induction k as [|k IH]; intros Hk; [exact H0|].
  replace (Z.of_nat (S k)) with (Z.of_nat k + 1) by lia.
  rewrite zseq_succ, fold_left_app by lia. simpl.
  apply Hstep; [lia | apply IH; lia].
Qed.

(** First index below [n] (given as a loop counter) satisfying [p], else [n]. *)
Fixpoint find_from (p : Z -> bool) (i : Z) (k : nat) : Z :=
  match k with
  | O => i
  | S k => if p i then i else find_from p (i + 1) k
  end.

Definition find_first_zero_bit (m n : Z) : Z :=
  find_from (fun i => negb (test_bit i m)) 0 (Z.to_nat n).

Definition find_first_bit (m n : Z) : Z :=
  find_from (fun i => test_bit i m) 0 (Z.to_nat n).

Lemma find_from_spec p i k :
  let r := find_from p i k in
  i <= r <= i + Z.of_nat k /\
  (forall j, i <= j < r -> p j = false) /\
  (r < i + Z.of_nat k -> p r = true).
Proof.
  revert i. induction k as [|k IH]; intros i; cbn [find_from].
  - split; [lia|]. split; intros; lia.
  - destruct (p i) eqn:Hp.
    + split; [lia|]. split; [intros; lia | done].
    + destruct (IH (i + 1)) as (H1 & H2 & H3). cbv zeta in *.
      split; [lia|]. split; [|intros; apply H3; lia].
      intros j Hj. destruct (Z.eq_dec j i) as [->|]; [done | apply H2; lia].
Qed.

Lemma find_first_zero_bit_spec m n : 0 <= n ->
  let r := find_first_zero_bit m n in
  0 <= r <= n /\
  (forall j, 0 <= j < r -> test_bit j m = true) /\
  (r < n -> test_bit r m = false).
Proof.
  intros Hn. destruct (find_from_spec (fun i => negb (test_bit i m)) 0 (Z.to_nat n))
    as (H1 & H2 & H3).
  unfold find_first_zero_bit. cbv zeta in *. split; [lia|]. split.
  - intros j Hj. specialize (H2 j Hj). by apply negb_false_iff in H2.
  - intros Hr. apply negb_true_iff, H3. lia.
Qed.

(** ** Sums *)

Definition zsum (l : list Z) : Z := fold_right Z.add 0 l.

Lemma zsum_nonneg {A} (f : A -> Z) l : (forall x, 0 <= f x) -> 0 <= zsum (f <$> l).
Proof.
  intros Hf. induction l as [|y l IH]; csimpl; [lia|].
  specialize (Hf y). lia.
Qed.

Lemma zsum_ext {A} (f g : A -> Z) l :
  (forall x, x ∈ l -> f x = g x) -> zsum (f <$> l) = zsum (g <$> l).
Proof.
  induction l as [|y l IH]; intros H; csimpl; [done|].
  rewrite H by left. rewrite IH; [done|]. intros x Hx. apply H. by right.
Qed.

Lemma zsum_le {A} (f g : A -> Z) l :
  (forall x, x ∈ l -> f x <= g x) -> zsum (f <$> l) <= zsum (g <$> l).
Proof.
  induction l as [|y l IH]; intros H; csimpl; [lia|].
  pose proof (H y ltac:(left)). assert (zsum (f <$> l) <= zsum (g <$> l)); [|lia].
  apply IH. intros x Hx. apply H. by right.
Qed.

Lemma zsum_app l l' : zsum (l ++ l') = zsum l + zsum l'.
Proof. induction l as [|x l IH]; simpl; [done|]. unfold zsum in *. lia. Qed.

(** Two functions that differ at one point of a duplicate-free list. *)
Lemma zsum_change {A} (f g : A -> Z) l a :
  NoDup l -> a ∈ l -> (forall x, x ∈ l -> x <> a -> f x = g x) ->
  zsum (g <$> l) = zsum (f <$> l) + g a - f a.
Proof.
  induction 1 as [|y l Hy Hnd IH]; intros Ha Hfg; [by apply elem_of_nil in Ha|].
  csimpl. apply elem_of_cons in Ha as [->|Ha].
  - rewrite (zsum_ext g f); [lia|]. intros x Hx. symmetry. apply Hfg; [by right|].
    intros ->. contradiction.
  - assert (y <> a) by (intros ->; contradiction).
    rewrite IH, (Hfg y); [lia | by left | done | done |].
    intros x Hx. apply Hfg. by right.
Qed.

Lemma clear_set_bit m i : 0 <= i -> test_bit i m = false -> clear_bit i (set_bit i m) = m.
Proof.
  intros Hi Hb. apply Z.bits_inj. intros j.
  change (test_bit j (clear_bit i (set_bit i m)) = test_bit j m).
  rewrite test_clear_bit, test_set_bit by done. destruct (Z.eqb_spec i j) as [<-|]; simpl.
  - by rewrite Hb.
  - apply andb_true_r.
Qed.

Lemma clear_bit_comm i j m : clear_bit i (clear_bit j m) = clear_bit j (clear_bit i m).
Proof.
  apply Z.bits_inj. intros k. change (test_bit k (clear_bit i (clear_bit j m)) = test_bit k (clear_bit j (clear_bit i m))).
  rewrite !test_clear_bit, <- !andb_assoc. f_equal. apply andb_comm.
Qed.

Lemma clear_unset_bit m i : test_bit i m = false -> clear_bit i m = m.
Proof.
  intros Hb. apply Z.bits_inj. intros j. change (test_bit j (clear_bit i m) = test_bit j m).
  rewrite test_clear_bit. destruct (Z.eqb_spec i j) as [<-|]; simpl; [by rewrite Hb | apply andb_true_r].
Qed.

(** Number of bits set below [n]. *)
Definition weight (m n : Z) : Z := zsum ((fun i => Z.b2z (test_bit i m)) <$> zseq n).

Lemma weight_0 n : weight 0 n = 0.
Proof.
  unfold weight. induction (zseq n) as [|x l IH]; [done|]. csimpl. rewrite IH.
  unfold test_bit. by rewrite Z.bits_0.
Qed.

Lemma weight_set m n i : 0 <= i < n -> test_bit i m = false ->
  weight (set_bit i m) n = weight m n + 1.
Proof.
  intros Hi Hb. unfold weight.
  rewrite (zsum_change (fun i => Z.b2z (test_bit i m)) _ _ i).
  - rewrite test_set_bit, Hb, Z.eqb_refl by lia. simpl. lia.
  - apply NoDup_zseq.
  - by apply elem_of_zseq.
  - intros x _ Hx. rewrite test_set_bit by lia. by rewrite (proj2 (Z.eqb_neq i x)).
Qed.

Lemma weight_clear m n i : 0 <= i < n -> test_bit i m = true ->
  weight (clear_bit i m) n = weight m n - 1.
Proof.
  intros Hi Hb. unfold weight.
  rewrite (zsum_change (fun i => Z.b2z (test_bit i m)) _ _ i).
  - rewrite test_clear_bit, Hb, Z.eqb_refl. simpl. lia.
  - apply NoDup_zseq.
  - by apply elem_of_zseq.
  - intros x _ Hx. rewrite test_clear_bit, (proj2 (Z.eqb_neq i x)) by done.
    by rewrite andb_true_r.
Qed.

Lemma weight_full m n : 0 <= n -> (forall i, 0 <= i < n -> test_bit i m = true) ->
  weight m n = n.
Proof.
  intros Hn H. unfold weight.
  rewrite (zsum_ext _ (fun _ => 1)) by (intros x Hx%elem_of_zseq; by rewrite H).
  clear H. transitivity (Z.of_nat (length (zseq n))); [|rewrite length_zseq; lia].
  induction (zseq n) as [|y l IH]; csimpl; lia.
Qed.

Lemma weight_bound m n : 0 <= n -> 0 <= weight m n <= n.
Proof.
  intros Hn. unfold weight.
  assert (forall l, 0 <= zsum ((fun i => Z.b2z (test_bit i m)) <$> l) <= Z.of_nat (length l)) as H.
  { induction l as [|y l IH]; csimpl; [lia|]. destruct (test_bit y m); simpl; lia. }
  specialize (H (zseq n)). rewrite length_zseq in H. lia.
Qed.

(** A clear bit leaves room below the bound. *)
Lemma weight_lt m n i : 0 <= i < n -> test_bit i m = false -> weight m n < n.
Proof.
  intros Hi Hb. pose proof (weight_set m n i Hi Hb).
  pose proof (weight_bound (set_bit i m) n). lia.
Qed.

(** ** Arrays

    A C array is a list; [zget] reads at a C index ([d] stands for the value of
    an out-of-range read, which the source never performs on the paths the
    theorems cover) and [zset] writes (no effect out of range). *)

Definition zget {A : Type} (d : A) (l : list A) (i : Z) : A :=
  if i <? 0 then d else nth (Z.to_nat i) l d.

Definition zset {A : Type} (l : list A) (i : Z) (v : A) : list A :=
  if i <? 0 then l else <[Z.to_nat i := v]> l.

Definition zlen {A : Type} (l : list A) : Z := Z.of_nat (length l).

Lemma zlen_zset {A} (l : list A) i v : zlen (zset l i v) = zlen l.
Proof. unfold zlen, zset. case_match; [done | by rewrite length_insert]. Qed.

Lemma zget_zset_eq {A} (d : A) l i v : 0 <= i < zlen l -> zget d (zset l i v) i = v.
Proof.
  unfold zlen, zget, zset. intros Hi.
  destruct (i <? 0) eqn:E; [lia|]. rewrite nth_lookup, list_lookup_insert_eq by lia. done.
Qed.

Lemma zget_zset_ne {A} (d : A) l i j v : i <> j -> zget d (zset l i v) j = zget d l j.
Proof.
  unfold zget, zset. intros Hij.
  destruct (i <? 0) eqn:Ei; [done|]. destruct (j <? 0) eqn:Ej; [done|].
  rewrite !nth_lookup, list_lookup_insert_ne by lia. done.
Qed.

Lemma zget_zset {A} (d : A) l i j v :
  0 <= i < zlen l -> zget d (zset l i v) j = if i =? j then v else zget d l j.
Proof.
  intros Hi. destruct (i =? j) eqn:E.
  - apply Z.eqb_eq in E as <-. by apply zget_zset_eq.
  - apply Z.eqb_neq in E. by apply zget_zset_ne.
Qed.

Lemma zset_zset_eq {A} (l : list A) i v w : zset (zset l i v) i w = zset l i w.
Proof. unfold zset. case_match; [done | by rewrite list_insert_insert_eq]. Qed.

Lemma zset_same {A} (d : A) l i : zset l i (zget d l i) = l.
Proof.
  unfold zset, zget. destruct (i <? 0) eqn:E; [done|].
  destruct (decide (Z.to_nat i < length l)%nat).
  - apply list_insert_id. rewrite nth_lookup.
    destruct (lookup_lt_is_Some_2 l (Z.to_nat i)) as [x Hx]; [done|]. by rewrite Hx.
  - apply list_insert_ge. lia.
Qed.

Lemma Forall_zset {A} (P : A -> Prop) l i x : Forall P l -> P x -> Forall P (zset l i x).
Proof. intros. unfold zset. case_match; [done | by apply Forall_insert]. Qed.

Lemma zlen_nonneg {A} (l : list A) : 0 <= zlen l.
Proof. unfold zlen. lia. Qed.

Lemma zlen_app {A} (l r : list A) : zlen (l ++ r) = zlen l + zlen r.
Proof. unfold zlen. rewrite length_app. lia. Qed.

(** ** Little-endian byte sequences *)

Fixpoint le_bytes (n : nat) (x : Z) : list Z :=
  match n with
  | O => []
  | S n => (x mod 256) :: le_bytes n (x / 256)
  end.

Fixpoint le_value (l : list Z) : Z :=
  match l with
  | [] => 0
  | b :: l => b + 256 * le_value l
  end.

Lemma length_le_bytes n x : length (le_bytes n x) = n.
Proof. revert x. induction n; intros; simpl; auto. Qed.

Lemma le_value_bytes n x : 0 <= x < 256 ^ Z.of_nat n -> le_value (le_bytes n x) = x.
Proof.
  revert x. induction n as [|n IH]; intros x Hx.
  - simpl in *. lia.
  - cbn [le_bytes le_value]. rewrite IH.
    + pose proof (Z.div_mod x 256). lia.
    + rewrite Nat2Z.inj_succ, Z.pow_succ_r in Hx by lia.
      split; [apply Z.div_pos; lia | apply Z.div_lt_upper_bound; lia].
Qed.

Definition byte_ok (b : Z) : Prop := 0 <= b < 256.

Lemma le_bytes_ok n x : Forall byte_ok (le_bytes n x).
Proof.
  revert x. induction n; intros; simpl; constructor; auto.
  unfold byte_ok. apply Z.mod_pos_bound. lia.
Qed.

(** ** Alignment

    The kernel's [ALIGN(x, a)]: round [x] up to a multiple of the power of
    two [a], in 32-bit arithmetic. *)
Definition ALIGN (x a : Z) : Z := Z.land (u32 (x + (a - 1))) (u32 (Z.lnot (a - 1))).

Lemma land_clear_low k y : 0 <= k <= 32 -> 0 <= y < 2 ^ 32 ->
  Z.land y (wrap 32 (Z.lnot (2 ^ k - 1))) = 2 ^ k * (y / 2 ^ k).
Proof.
  intros Hk Hy.
  assert (wrap 32 (Z.lnot (2 ^ k - 1)) = Z.shiftl (Z.ones (32 - k)) k) as ->.
  { rewrite Z.shiftl_mul_pow2 by lia. rewrite Z.ones_equiv. unfold wrap.
    replace (Z.lnot (2 ^ k - 1)) with (- 2 ^ k) by (unfold Z.lnot; lia).
    assert (2 ^ 32 = 2 ^ k * 2 ^ (32 - k)) as E by (rewrite <- Z.pow_add_r by lia; f_equal; lia).
    assert (0 < 2 ^ k) by (apply Z.pow_pos_nonneg; lia).
    assert (0 < 2 ^ (32 - k)) by (apply Z.pow_pos_nonneg; lia).
    symmetry. apply Z.mod_unique with (q := -1); [left; nia | nia]. }
  rewrite Z.mul_comm, <- Z.shiftr_div_pow2, <- Z.shiftl_mul_pow2 by lia.
  apply Z.bits_inj'. intros n Hn.
  rewrite Z.land_spec, !Z.shiftl_spec by lia.
  destruct (Z.ltb_spec n k).
  - rewrite (Z.testbit_neg_r (Z.ones (32 - k))), (Z.testbit_neg_r (Z.shiftr y k)) by lia.
    apply andb_false_r.
  - rewrite Z.shiftr_spec by lia. replace (n - k + k) with n by lia.
    destruct (Z.ltb_spec n 32).
    + rewrite Z.ones_spec_low by lia. apply andb_true_r.
    + rewrite Z.ones_spec_high, andb_false_r by lia. symmetry.
      destruct (Z.eq_dec y 0) as [->|]; [apply Z.testbit_0_l|].
      apply Z.bits_above_log2; [lia|]. apply Z.lt_le_trans with 32; [|lia].
      apply Z.log2_lt_pow2; lia.
Qed.

Lemma ALIGN_spec k x : 0 <= k < 32 -> 0 <= x -> x + 2 ^ k <= 2 ^ 32 ->
  x <= ALIGN x (2 ^ k) < x + 2 ^ k /\ (2 ^ k | ALIGN x (2 ^ k)).
Proof.
  intros Hk Hx Hle.
  assert (0 < 2 ^ k) by (apply Z.pow_pos_nonneg; lia).
  unfold ALIGN, u32. rewrite (wrap_id 32 (x + _)) by lia.
  rewrite land_clear_low by lia. split.
  - pose proof (Z.div_mod (x + (2 ^ k - 1)) (2 ^ k)).
    pose proof (Z.mod_pos_bound (x + (2 ^ k - 1)) (2 ^ k)). lia.
  - apply Z.divide_factor_l.
Qed.

(** ** Automation *)

Create HintDb wl discriminated.
Create Rewrite HintDb wl.

#[export] Hint Rewrite @zlen_zset @length_insert : wl.

(** Turn the boolean comparisons the code branches on into propositions. *)
Ltac bool_to_prop :=
  repeat match goal with
  | H : (_ && _) = true |- _ => apply andb_prop in H as [? ?]
  | H : (_ || _) = false |- _ => apply orb_false_elim in H as [? ?]
  | H : negb _ = true |- _ => apply negb_true_iff in H
  | H : negb _ = false |- _ => apply negb_false_iff in H
  | H : (_ <? _) = true |- _ => apply Z.ltb_lt in H
  | H : (_ <? _) = false |- _ => apply Z.ltb_ge in H
  | H : (_ <=? _) = true |- _ => apply Z.leb_le in H
  | H : (_ <=? _) = false |- _ => apply Z.leb_gt in H
  | H : (_ =? _) = true |- _ => apply Z.eqb_eq in H
  | H : (_ =? _) = false |- _ => apply Z.eqb_neq in H
  end.

(** Split on the first [if] or [match] of the goal, keeping the equation. *)
Ltac split_if :=
  match goal with
  | |- context [if ?b then _ else _] => let E := fresh "E" in destruct b eqn:E
  end.
