(* ===== verification/Ieee80211.v ===== *)
(** * 802.11 frame headers

    The frame-control predicates of include/linux/ieee80211.h and the header
    length computation of net/wireless/util.c, on frames given as byte lists. *)

From S2P Require Import Prelude.

Definition IEEE80211_FCTL_FTYPE := 0x000c.
Definition IEEE80211_FCTL_STYPE := 0x00f0.
Definition IEEE80211_FCTL_TODS := 0x0100.
Definition IEEE80211_FCTL_FROMDS := 0x0200.
Definition IEEE80211_FCTL_MOREFRAGS := 0x0400.
Definition IEEE80211_FCTL_RETRY := 0x0800.
Definition IEEE80211_FCTL_PROTECTED := 0x4000.
Definition IEEE80211_FCTL_ORDER := 0x8000.
Definition IEEE80211_SCTL_FRAG := 0x000F.
Definition IEEE80211_SCTL_SEQ := 0xFFF0.
Definition IEEE80211_FTYPE_MGMT := 0x0000.
Definition IEEE80211_FTYPE_CTL := 0x0004.
Definition IEEE80211_FTYPE_DATA := 0x0008.
Definition IEEE80211_STYPE_BEACON := 0x0080.
Definition IEEE80211_STYPE_AUTH := 0x00B0.
Definition IEEE80211_STYPE_NULLFUNC := 0x0040.
Definition IEEE80211_STYPE_QOS_DATA := 0x0080.
Definition IEEE80211_STYPE_BACK_REQ := 0x0080.
Definition IEEE80211_QOS_CTL_LEN := 2.
Definition IEEE80211_HT_CTL_LEN := 4.
Definition ETH_ALEN := 6.

(** Byte and little-endian 16-bit reads of a frame ([u8 *] memory). *)
Definition byte_at (frame : list Z) (i : Z) : Z := u8 (zget 0 frame i).
Definition le16_at (frame : list Z) (i : Z) : Z :=
  byte_at frame i + 256 * byte_at frame (i + 1).

Lemma byte_at_range frame i : 0 <= byte_at frame i < 256.
Proof. apply u8_range. Qed.

Definition bytes_at (frame : list Z) (i n : Z) : list Z :=
  take (Z.to_nat n) (drop (Z.to_nat i) frame).

(** [struct ieee80211_hdr]: frame_control, duration_id, addr1, addr2, addr3,
    seq_ctrl, addr4. *)
Definition frame_control (frame : list Z) : Z := le16_at frame 0.
Definition hdr_addr1 (frame : list Z) : list Z := bytes_at frame 4 ETH_ALEN.
Definition hdr_addr2 (frame : list Z) : list Z := bytes_at frame 10 ETH_ALEN.
Definition hdr_addr3 (frame : list Z) : list Z := bytes_at frame 16 ETH_ALEN.
Definition hdr_seq_ctrl (frame : list Z) : Z := le16_at frame 22.

Definition ieee80211_has_tods (fc : Z) : bool :=
  negb (Z.land fc IEEE80211_FCTL_TODS =? 0).

Definition ieee80211_has_a4 (fc : Z) : bool :=
  let tmp := Z.lor IEEE80211_FCTL_TODS IEEE80211_FCTL_FROMDS in
  Z.land fc tmp =? tmp.

Definition ieee80211_has_morefrags (fc : Z) : bool :=
  negb (Z.land fc IEEE80211_FCTL_MOREFRAGS =? 0).

Definition ieee80211_has_protected (fc : Z) : bool :=
  negb (Z.land fc IEEE80211_FCTL_PROTECTED =? 0).

Definition ieee80211_has_order (fc : Z) : bool :=
  negb (Z.land fc IEEE80211_FCTL_ORDER =? 0).

Definition ieee80211_is_ctl (fc : Z) : bool :=
  Z.land fc IEEE80211_FCTL_FTYPE =? IEEE80211_FTYPE_CTL.

Definition ieee80211_is_data (fc : Z) : bool :=
  Z.land fc IEEE80211_FCTL_FTYPE =? IEEE80211_FTYPE_DATA.

Definition ieee80211_is_data_qos (fc : Z) : bool :=
  Z.land fc (Z.lor IEEE80211_FCTL_FTYPE IEEE80211_STYPE_QOS_DATA)
  =? Z.lor IEEE80211_FTYPE_DATA IEEE80211_STYPE_QOS_DATA.

Definition ieee80211_is_data_present (fc : Z) : bool :=
  Z.land fc (Z.lor IEEE80211_FCTL_FTYPE 0x40) =? IEEE80211_FTYPE_DATA.

Definition ieee80211_is_beacon (fc : Z) : bool :=
  Z.land fc (Z.lor IEEE80211_FCTL_FTYPE IEEE80211_FCTL_STYPE)
  =? Z.lor IEEE80211_FTYPE_MGMT IEEE80211_STYPE_BEACON.

Definition ieee80211_is_auth (fc : Z) : bool :=
  Z.land fc (Z.lor IEEE80211_FCTL_FTYPE IEEE80211_FCTL_STYPE)
  =? Z.lor IEEE80211_FTYPE_MGMT IEEE80211_STYPE_AUTH.

Definition ieee80211_is_back_req (fc : Z) : bool :=
  Z.land fc (Z.lor IEEE80211_FCTL_FTYPE IEEE80211_FCTL_STYPE)
  =? Z.lor IEEE80211_FTYPE_CTL IEEE80211_STYPE_BACK_REQ.

Definition ieee80211_get_DA (frame : list Z) : list Z :=
  if ieee80211_has_tods (frame_control frame) then hdr_addr3 frame
  else hdr_addr1 frame.

(** [is_multicast_ether_addr]: the group bit of the first octet. *)
Definition is_multicast_ether_addr (addr : list Z) : bool :=
  negb (Z.land (zget 0 addr 0) 1 =? 0).

Definition ieee80211_hdrlen (fc : Z) : Z :=
  if ieee80211_is_data fc then
    let hdrlen := if ieee80211_has_a4 fc then 30 else 24 in
    if ieee80211_is_data_qos fc then
      let hdrlen := hdrlen + IEEE80211_QOS_CTL_LEN in
      if ieee80211_has_order fc then hdrlen + IEEE80211_HT_CTL_LEN else hdrlen
    else hdrlen
  else if ieee80211_is_ctl fc then
    if Z.land fc 0x00E0 =? 0x00C0 then 10 else 16
  else 24.

Definition ieee80211_get_hdrlen_from_skb (frame : list Z) : Z :=
  if zlen frame <? 10 then 0
  else
    let hdrlen := ieee80211_hdrlen (frame_control frame) in
    if zlen frame <? hdrlen then 0 else hdrlen.

Lemma ieee80211_hdrlen_bounds fc : 10 <= ieee80211_hdrlen fc <= 36.
Proof.
  unfold ieee80211_hdrlen, IEEE80211_QOS_CTL_LEN, IEEE80211_HT_CTL_LEN.
  repeat split_if; lia.
Qed.

Lemma ieee80211_get_hdrlen_bounds frame :
  0 <= ieee80211_get_hdrlen_from_skb frame <= zlen frame.
Proof.
  pose proof (ieee80211_hdrlen_bounds (frame_control frame)).
  pose proof (zlen_nonneg frame).
  unfold ieee80211_get_hdrlen_from_skb.
  repeat split_if; bool_to_prop; lia.
Qed.
