(* ===== verification/WlState.v ===== *)
(** * The driver's data

    [struct wl1271], [struct wl12xx_vif], [struct wl1271_link] and the socket
    buffers they share (wlcore/wlcore.h, wlcore/wlcore_i.h), restricted to the
    fields the modelled functions read or write.

    Pointers.  An [sk_buff] or a [wl12xx_vif] is named by a number and lives in
    the heaps [skbs] and [vifs] of the driver state, so two pointers to one
    buffer (a queue entry and [wl->dummy_packet], say) are aliases here as they
    are in C.  A NULL pointer is [None].

    Environment.  The bus, the clock and the other kernel subsystems are not
    code of this driver.  [bus] lists the results the bus will return, one
    (return value, bytes read) per transfer, in order; [clock] lists the
    successive readings of the time of day; [cmd_polls] is the number of times
    the command mailbox may be polled before its deadline passes, [event_polls]
    the same for the event mailbox; [find_sta]
    answers mac80211's station lookup and [rx_alloc] says whether the buffer
    of the n-th received packet can be allocated.  What the driver asks others to do is
    recorded in [log], most recent first. *)

From S2P Require Import Prelude.

(** ** Constants of wlcore_i.h, wlcore.h and conf.h *)

Definition WL12XX_MAX_LINKS := 12.
Definition WL12XX_SYSTEM_HLID := 0.
Definition WL12XX_MAX_ROLES := 4.
Definition WL12XX_MAX_RATE_POLICIES := 16.
Definition WLCORE_MAX_KLV_TEMPLATES := 4.
Definition WL12XX_INVALID_ROLE_ID := 0xff.
Definition WL12XX_INVALID_LINK_ID := 0xff.
Definition NUM_TX_QUEUES := 4.
Definition AP_MAX_STATIONS := 8.
Definition WL1271_PS_STA_MAX_PACKETS := 2.
Definition WL1271_TX_QUEUE_LOW_WATERMARK := 32.
Definition WL1271_TX_QUEUE_HIGH_WATERMARK := 256.
Definition WL1271_DEFERRED_QUEUE_LIMIT := 64.
Definition SESSION_COUNTER_MAX := 6.
Definition SESSION_COUNTER_INVALID := 7.
Definition WL1271_CIPHER_SUITE_GEM := 0x00147201.
Definition WLAN_CIPHER_SUITE_WEP40 := 0x000FAC01.
Definition WLAN_CIPHER_SUITE_TKIP := 0x000FAC02.
Definition WLAN_CIPHER_SUITE_CCMP := 0x000FAC04.
Definition WLAN_CIPHER_SUITE_WEP104 := 0x000FAC05.

Definition WLCORE_QUIRK_END_OF_TRANSACTION := BIT 0.
Definition WLCORE_QUIRK_TX_BLOCKSIZE_ALIGN := BIT 2.
Definition WLCORE_QUIRK_RX_BLOCKSIZE_ALIGN := BIT 3.
Definition WLCORE_QUIRK_FWLOG_NOT_IMPLEMENTED := BIT 4.
Definition WLCORE_QUIRK_TX_PAD_LAST_FRAME := BIT 7.
Definition WLCORE_QUIRK_TKIP_HEADER_SPACE := BIT 8.

(** Size of the firmware log page, and of the 18xx ring of transmit releases. *)
Definition PAGE_SIZE := 4096.
Definition WL18XX_FW_MAX_TX_STATUS_DESC := 33.

Definition CHIP_ID_1271_PG20 := 0x4030111.
Definition CHIP_ID_1283_PG20 := 0x05030111.

(** [enum wl12xx_flags]: bit numbers of [wl->flags]. *)
Definition WL1271_FLAG_GPIO_POWER := 0.
Definition WL1271_FLAG_TX_PENDING := 2.
Definition WL1271_FLAG_IN_ELP := 3.
Definition WL1271_FLAG_ELP_REQUESTED := 4.
Definition WL1271_FLAG_IRQ_RUNNING := 6.
Definition WL1271_FLAG_FW_TX_BUSY := 7.
Definition WL1271_FLAG_DUMMY_PACKET_PENDING := 8.
Definition WL1271_FLAG_SOFT_GEMINI := 11.
Definition WL1271_FLAG_RECOVERY_IN_PROGRESS := 12.
Definition WL1271_FLAG_VIF_CHANGE_IN_PROGRESS := 13.
Definition WL1271_FLAG_INTENDED_FW_RECOVERY := 14.
Definition WL1271_FLAG_IO_FAILED := 15.

(** [enum wl12xx_vif_flags]: bit numbers of [wlvif->flags]. *)
Definition WLVIF_FLAG_INITIALIZED := 0.
Definition WLVIF_FLAG_STA_ASSOCIATED := 1.
Definition WLVIF_FLAG_STA_AUTHORIZED := 2.
Definition WLVIF_FLAG_AP_STARTED := 4.
Definition WLVIF_FLAG_IN_PS := 5.
Definition WLVIF_FLAG_STA_STATE_SENT := 6.
Definition WLVIF_FLAG_RX_STREAMING_STARTED := 7.
Definition WLVIF_FLAG_CS_PROGRESS := 9.
Definition WLVIF_FLAG_IN_USE := 11.

Definition CONF_TX_AC_BE := 0.
Definition CONF_TX_AC_BK := 1.
Definition CONF_TX_AC_VI := 2.
Definition CONF_TX_AC_VO := 3.

Definition CONF_HW_RXTX_RATE_UNSUPPORTED := 0xff.

(** Power modes ([enum wl1271_psm]). *)
Definition WL1271_PSM_CAM := 0.
Definition WL1271_PSM_ELP := 2.
Definition WL1271_PSM_ILLEGAL := 0xff.

Definition WL1271_DEFAULT_POWER_LEVEL := 0.

(** [enum nl80211_channel_type] *)
Definition NL80211_CHAN_NO_HT := 0.
Definition NL80211_CHAN_HT20 := 1.
Definition NL80211_CHAN_HT40MINUS := 2.
Definition NL80211_CHAN_HT40PLUS := 3.

Inductive wlcore_state :=
| WLCORE_STATE_OFF
| WLCORE_STATE_RESTARTING
| WLCORE_STATE_ON.

#[export] Instance wlcore_state_eq_dec : EqDecision wlcore_state.
Proof. solve_decision. Defined.

Inductive bss_types :=
| BSS_TYPE_IBSS
| BSS_TYPE_STA_BSS
| BSS_TYPE_AP_BSS
| MAX_BSS_TYPE.

#[export] Instance bss_types_eq_dec : EqDecision bss_types.
Proof. solve_decision. Defined.

Inductive ieee80211_band := IEEE80211_BAND_2GHZ | IEEE80211_BAND_5GHZ.

(** ** Socket buffers *)

(** [struct ieee80211_key_conf], the fields the transmit path looks at. *)
Record key_conf := {
  cipher : Z;
  hw_key_idx : Z;
  key_flags : Z;
  keyidx : Z;
  keylen : Z;
  key_data : list Z
}.
#[export] Instance eta_key_conf : Eta key_conf := fun r =>
  Build_key_conf (cipher r) (hw_key_idx r) (key_flags r) (keyidx r) (keylen r) (key_data r).

(** [struct ieee80211_tx_info] in [skb->cb]; [control_sta] is the host link id
    the driver keeps in the station's private area. *)
Record tx_info := {
  info_flags : Z;
  control_vif : option nat;
  control_hw_key : option key_conf;
  control_sta : option Z;
  status_rate_idx : Z;
  status_rate_count : Z;
  status_rate_flags : Z;
  status_ack_signal : Z
}.
#[export] Instance eta_tx_info : Eta tx_info := fun r =>
  Build_tx_info (info_flags r) (control_vif r) (control_hw_key r) (control_sta r)
    (status_rate_idx r) (status_rate_count r) (status_rate_flags r)
    (status_ack_signal r).

Definition IEEE80211_TX_CTL_NO_ACK := BIT 2.
Definition IEEE80211_TX_STAT_TX_FILTERED := BIT 8.
Definition IEEE80211_TX_STAT_ACK := BIT 9.
Definition IEEE80211_TX_CTL_TX_OFFCHAN := BIT 25.
Definition IEEE80211_TX_CTL_NO_CCK_RATE := BIT 27.

(** A linear [struct sk_buff]: the bytes from [skb->data] on ([skb->len] is
    their number), the bytes of the headroom in front of them (nearest first),
    the header offsets relative to [skb->data], and the control buffer. *)
Record sk_buff := {
  skb_data : list Z;
  skb_headroom : list Z;
  skb_queue_mapping : Z;
  skb_priority : Z;
  skb_protocol : Z;
  skb_csum_partial : bool;
  skb_network_offset : Z;
  skb_mac_offset : Z;
  skb_cb : tx_info
}.
#[export] Instance eta_sk_buff : Eta sk_buff := fun r =>
  Build_sk_buff (skb_data r) (skb_headroom r) (skb_queue_mapping r) (skb_priority r)
    (skb_protocol r) (skb_csum_partial r) (skb_network_offset r) (skb_mac_offset r)
    (skb_cb r).

Definition tx_info0 : tx_info := Build_tx_info 0 None None None 0 0 0 0.
Definition sk_buff0 : sk_buff := Build_sk_buff [] [] 0 0 0 false 0 0 tx_info0.
#[export] Instance sk_buff_inhabited : Inhabited sk_buff := populate sk_buff0.

Definition skb_len (skb : sk_buff) : Z := zlen (skb_data skb).

(** [skb_push(skb, n)]: the [n] nearest bytes of the headroom become the front
    of the data; header offsets, being absolute, move by [n] relative to the
    new start.  (mac80211 reserves [hw->extra_tx_headroom] bytes; a shorter
    headroom, a panic in C, reads as zeros.) *)
Definition skb_push (n : Z) (skb : sk_buff) : sk_buff :=
  let k := Z.to_nat n in
  skb <| skb_data ::= app (rev (take k (skb_headroom skb ++ replicate k 0))) |>
      <| skb_headroom ::= drop k |>
      <| skb_network_offset ::= Z.add n |>
      <| skb_mac_offset ::= Z.add n |>.

(** [skb_pull(skb, n)]; no effect when the data is shorter than [n]. *)
Definition skb_pull (n : Z) (skb : sk_buff) : sk_buff :=
  if skb_len skb <? n then skb
  else
    let k := Z.to_nat n in
    skb <| skb_data ::= drop k |>
        <| skb_headroom ::= app (rev (take k (skb_data skb))) |>
        <| skb_network_offset ::= fun o => o - n |>
        <| skb_mac_offset ::= fun o => o - n |>.

(** [struct ieee80211_rx_status] (the fields the driver sets) and a received
    buffer with it; [rx_csum_ok] is [ip_summed == CHECKSUM_UNNECESSARY]. *)
Record ieee80211_rx_status := {
  rx_band : ieee80211_band;
  rx_rate_idx : Z;
  rx_flag : Z;
  rx_signal : Z;
  rx_freq : Z
}.

Record rx_skb := {
  rx_data : list Z;
  rx_cb : ieee80211_rx_status;
  rx_csum_ok : bool
}.
#[export] Instance eta_rx_skb : Eta rx_skb := fun r =>
  Build_rx_skb (rx_data r) (rx_cb r) (rx_csum_ok r).

(** ** Links and virtual interfaces *)

Record wl1271_link := {
  tx_queue : list (list nat);
  allocated_pkts : Z;
  prev_freed_pkts : Z;
  link_addr : list Z;
  ba_bitmap : Z
}.
#[export] Instance eta_wl1271_link : Eta wl1271_link := fun r =>
  Build_wl1271_link (tx_queue r) (allocated_pkts r) (prev_freed_pkts r) (link_addr r)
    (ba_bitmap r).

Definition link0 : wl1271_link := Build_wl1271_link [[]; []; []; []] 0 0 [0;0;0;0;0;0] 0.

(** [struct wl1271_ap_key] (wlcore_i.h): a key set before its access point runs. *)
Record wl1271_ap_key := {
  ak_id : Z;
  ak_key_type : Z;
  ak_key_size : Z;
  ak_key : list Z;
  ak_hlid : Z;
  ak_tx_seq_32 : Z;
  ak_tx_seq_16 : Z
}.

(** [struct wl12xx_vif], followed by what the driver reads of the
    [struct ieee80211_vif] around it.  The C struct keeps the station and access-point data
    in a union; the two arms are separate fields here, and every access is
    under the test of [bss_type] the source makes. *)
Record wl12xx_vif := {
  vif_flags : Z;
  bss_type : bss_types;
  role_id : Z;
  dev_role_id : Z;
  dev_hlid : Z;
  sta_hlid : Z;
  sta_ba_rx_bitmap : Z;
  sta_basic_rate_idx : Z;
  sta_ap_rate_idx : Z;
  sta_p2p_rate_idx : Z;
  ap_global_hlid : Z;
  ap_bcast_hlid : Z;
  ap_sta_hlid_map : Z;
  ap_mgmt_rate_idx : Z;
  ap_bcast_rate_idx : Z;
  ap_ucast_rate_idx : list Z;
  last_tx_hlid : Z;
  vif_links_map : Z;
  vif_band : ieee80211_band;
  basic_rate : Z;
  default_key : Z;
  session_counter : Z;
  rssi_thold : Z;
  last_rssi_event : Z;
  ba_support : bool;
  ba_allowed : bool;
  dummy_p2p : bool;
  tx_security_seq : Z;
  tx_security_last_seq_lsb : Z;
  vif_bssid : list Z;
  wmm_enabled : bool;
  p2p : bool;
  sta_klv_template_id : Z;
  sta_role_chan_type : Z;
  ap_recorded_keys : list (option wl1271_ap_key);
  vif_ssid : list Z;
  vif_channel : Z;
  vif_channel_type : Z;
  bitrate_masks : list Z;
  basic_rate_set : Z;
  rate_set : Z;
  probereq : option (list Z);
  beacon_int : Z;
  vif_power_level : Z;
  vif_addr : list Z;
  hidden_ssid : bool;
  bss_conf_ssid : list Z;
  dtim_period : Z;
  sta_qos : bool;
  encryption_type : Z;
  ip_addr : list Z
}.
#[export] Instance eta_wl12xx_vif : Eta wl12xx_vif := fun r =>
  Build_wl12xx_vif
    (vif_flags r) (bss_type r) (role_id r) (dev_role_id r) (dev_hlid r) (sta_hlid r)
    (sta_ba_rx_bitmap r) (sta_basic_rate_idx r) (sta_ap_rate_idx r)
    (sta_p2p_rate_idx r) (ap_global_hlid r) (ap_bcast_hlid r) (ap_sta_hlid_map r)
    (ap_mgmt_rate_idx r) (ap_bcast_rate_idx r) (ap_ucast_rate_idx r)
    (last_tx_hlid r) (vif_links_map r) (vif_band r) (basic_rate r) (default_key r)
    (session_counter r) (rssi_thold r) (last_rssi_event r) (ba_support r)
    (ba_allowed r) (dummy_p2p r) (tx_security_seq r) (tx_security_last_seq_lsb r)
    (vif_bssid r) (wmm_enabled r) (p2p r) (sta_klv_template_id r)
    (sta_role_chan_type r) (ap_recorded_keys r) (vif_ssid r) (vif_channel r)
    (vif_channel_type r) (bitrate_masks r) (basic_rate_set r) (rate_set r)
    (probereq r) (beacon_int r) (vif_power_level r) (vif_addr r) (hidden_ssid r)
    (bss_conf_ssid r) (dtim_period r) (sta_qos r) (encryption_type r) (ip_addr r).

Definition vif0 : wl12xx_vif :=
  Build_wl12xx_vif 0 MAX_BSS_TYPE 0xff 0xff 0xff 0xff 0 0 0 0 0xff 0xff 0 0 0 [0;0;0;0]
    0 0 IEEE80211_BAND_2GHZ 0 0 0 0 0 false false false 0 0 [0;0;0;0;0;0] false
    false 0 0 (replicate 14 None) [] 0 0 [0;0] 0 0 None 0 0 [0;0;0;0;0;0] false [] 0
    false 0 [0;0;0;0].
#[export] Instance wl12xx_vif_inhabited : Inhabited wl12xx_vif := populate vif0.

(** ** What the driver asks of the firmware, of mac80211 and of the kernel *)

(** [struct conn_scan_ch_params] (scan.h) *)
Record conn_scan_ch_params := {
  min_duration : Z;
  max_duration : Z;
  passive_duration : Z;
  scan_channel : Z;
  tx_power_att : Z;
  ch_params_flags : Z
}.
#[export] Instance eta_conn_scan_ch_params : Eta conn_scan_ch_params := fun r =>
  Build_conn_scan_ch_params (min_duration r) (max_duration r) (passive_duration r)
    (scan_channel r) (tx_power_att r) (ch_params_flags r).

(** [struct wl1271_cmd_scan_params] (scan.h); the fields no code sets are left out. *)
Record wl1271_cmd_scan_params := {
  scan_role_id : Z;
  scan_type : Z;
  rssi_threshold : Z;
  snr_threshold : Z;
  scan_bss_type : Z;
  ssid_from_list : Z;
  scan_filter : Z;
  n_probe_reqs : Z;
  scan_passive : list Z;
  scan_active : list Z;
  scan_dfs : Z;
  passive_active : Z;
  short_cycles_sec : Z;
  long_cycles_sec : Z;
  short_cycles_count : Z;
  total_cycles : Z;
  channels_2 : list conn_scan_ch_params;
  channels_5 : list conn_scan_ch_params;
  scan_cmd_ssid : list Z;
  scan_tag : Z;
  scan_rate : Z
}.
#[export] Instance eta_wl1271_cmd_scan_params : Eta wl1271_cmd_scan_params := fun r =>
  Build_wl1271_cmd_scan_params (scan_role_id r) (scan_type r) (rssi_threshold r) (snr_threshold r)
    (scan_bss_type r) (ssid_from_list r) (scan_filter r) (n_probe_reqs r) (scan_passive r)
    (scan_active r) (scan_dfs r) (passive_active r) (short_cycles_sec r) (long_cycles_sec r)
    (short_cycles_count r) (total_cycles r) (channels_2 r) (channels_5 r) (scan_cmd_ssid r)
    (scan_tag r) (scan_rate r).

(** Firmware commands and configuration requests the modelled code issues. *)
Inductive fw_cmd :=
| CMD_SET_DEFAULT_WEP_KEY (id hlid : Z)
| CMD_INCONNECTION_STA (addr : list Z)
| CMD_ROLE_ENABLE (role_id role_type : Z) (mac_address : list Z)
| CMD_ROLE_DISABLE (role_id : Z)
| CMD_SET_PS_MODE (role_id mode timeout : Z)
| CMD_WAKE_UP_CONDITIONS (role_id wake_up_event listen_interval : Z)
| CMD_BET_ENABLE (role_id : Z) (enable : bool) (max_consecutive : Z)
| CMD_PS_RX_STREAMING (role_id tid enable period : Z)
| CMD_ADD_PEER (addr : list Z) (hlid aid : Z) (psd_type : list Z)
    (supported_rates bss_index sp_len wmm : Z)
| CMD_REMOVE_PEER (hlid : Z)
| CMD_SET_PEER_STATE (hlid state wmm : Z)
| CMD_SET_HT_CAP (hlid ht_capabilites ampdu_max_length ampdu_min_spacing : Z)
| CMD_SET_BA_RX (tid ssn : Z) (enable : bool) (hlid : Z)
| CMD_HOST_IF_CFG_BITMAP (host_cfg_bitmap host_sdio_block_size extra_mem_blocks length_field_size : Z)
| CMD_SET_RX_FILTER (index : Z) (enable : bool)
| CMD_SET_KEYS (hlid lid_key_type key_id key_action key_size key_type : Z) (key : list Z)
    (ac_seq_num16 ac_seq_num32 : Z)
| CMD_SET_TEMPLATE (role_id template_type enabled_rates index short_retry_limit long_retry_limit : Z)
    (template_data : list Z)
| CMD_SLEEP_AUTH (sleep_auth : Z)
| CMD_STOP_FWLOGGER
| CMD_ROLE_START_DEV (role_id band channel hlid session : Z)
| CMD_ROLE_START_STA (role_id band channel basic_rate_set beacon_interval : Z)
    (ssid bssid : list Z) (local_rates channel_type hlid session remote_rates : Z)
| CMD_ROLE_START_AP (role_id aging_period bss_index global_hlid broadcast_hlid basic_rate_set
    beacon_interval dtim_interval beacon_expiry reset_tsf wmm channel channel_type ssid_type : Z)
    (ssid : list Z) (local_rates band : Z)
| CMD_ROLE_START_IBSS (role_id band channel basic_rate_set beacon_interval dtim_interval : Z)
    (ssid bssid : list Z) (local_rates hlid remote_rates : Z)
| CMD_ROLE_STOP (role_id disc_type reason : Z)
| CMD_REMAIN_ON_CHANNEL (role_id channel band : Z)
| CMD_CANCEL_REMAIN_ON_CHANNEL (role_id : Z)
| CMD_SCAN (params : wl1271_cmd_scan_params)
| CMD_STOP_SCAN (stop : option (Z * Z))
| CMD_CONNECTION_SCAN_SSID_CFG (role_id : Z) (ssids : list (Z * list Z))
| CMD_EVENT_MBOX_MASK (high_event_mask event_mask : Z).

Inductive event :=
| EvStopQueue (q : Z)
| EvWakeQueue (q : Z)
| EvTxStatus (skb : nat)
| EvFreeTxskb (skb : nat)
| EvQueueTxWork
| EvQueueNetstackWork
| EvQueueRecoveryWork
| EvDisableIrq
| EvStaPs (addr : list Z) (start : bool)
| EvQueueRxStreamingEnable (vif : nat)
| EvModRxStreamingTimer (vif : nat)
| EvDelRxStreamingTimer (vif : nat)
| EvWrite (addr : Z) (bytes : list Z)
| EvRead (addr : Z) (len : Z)
| EvCmdWrite (addr : Z) (c : fw_cmd)
| EvRx (frame : rx_skb)
| EvStopRxBa (bitmap : Z) (addr : list Z)
| EvCqmRssi (vif : nat) (event : Z)
| EvChswitchDone (vif : nat) (success : bool)
| EvReportLowAck (addr : list Z)
| EvReadyOnChannel
| EvSchedScanStopped
| EvScanCompleted (aborted : bool)
| EvQueueScanComplete (delay : Z)
| EvCancelScanComplete
| EvEnableIrq
| EvPower (on : bool)
| EvWakeFwlog
| EvRocExpired
| EvRestartHw
| EvQueueConnLoss
| EvCancelConnLoss.

(** ** Constant configuration: what probe and chip identification set once *)

Record wlcore_partition := { part_size : Z; part_start : Z }.
Record wlcore_partition_set := {
  part_mem : wlcore_partition;
  part_reg : wlcore_partition;
  part_mem2 : wlcore_partition;
  part_mem3 : wlcore_partition
}.

(** [struct conf_scan_settings] and [struct conf_sched_scan_settings] (conf.h);
    times in TU/1000. *)
Record conf_scan_settings := {
  min_dwell_time_active : Z;
  max_dwell_time_active : Z;
  scan_dwell_time_passive : Z;
  scan_dwell_time_dfs : Z;
  scan_num_probe_reqs : Z
}.

Record conf_sched_scan_settings := {
  base_dwell_time : Z;
  max_dwell_time_delta : Z;
  dwell_time_delta_per_probe : Z;
  dwell_time_delta_per_probe_5 : Z;
  sched_dwell_time_passive : Z;
  sched_dwell_time_dfs : Z;
  sched_num_probe_reqs : Z;
  sched_rssi_threshold : Z;
  sched_snr_threshold : Z
}.

Record wl_hw := {
  quirks : Z;
  chip_id : Z;
  num_tx_desc : Z;
  num_rx_desc : Z;
  aggr_buf_size : Z;
  system_hlid : Z;
  dummy_packet : nat;
  hw_tx_rate_tbl_size : Z;
  hw_min_ht_rate : Z;
  band_rate_to_idx : ieee80211_band -> list Z;
  rx_streaming_interval : Z;
  rx_streaming_always : bool;
  rx_streaming_queues : Z;
  packet_memory_pool_start : Z;
  tx_result_addr : Z;
  rtable_slv_mem_data : Z;
  rtable_raw_fw_status : Z;
  rtable_interrupt_no_clear : Z;
  rtable_interrupt_ack : Z;
  rtable_interrupt_trig : Z;
  cmd_box_addr : Z;
  mbox_ptr : list Z;
  edge_irq : bool;
  checksum_param : bool;
  fw_status_priv_len : Z;
  aggr_pkts_reason_num : Z;
  cmd_polls : nat;
  event_polls : nat;
  bitrates : ieee80211_band -> list Z;
  fwlog_mem_blocks : Z;
  fwlog_dbg_pins : bool;
  fwlog_continuous : bool;
  bug_on_recovery : bool;
  no_recovery : bool;
  sta_sleep_auth : Z;
  conf_basic_rate : Z;
  conf_basic_rate_5 : Z;
  ap_aging_period : Z;
  mr_fw : bool;
  have_fw_stats : bool;
  ptable_boot : wlcore_partition_set;
  ptable_work : wlcore_partition_set;
  rtable_pc_on_recovery : Z;
  number_of_assembled_ant2_4 : Z;
  conf_scan : conf_scan_settings;
  conf_sched_scan : conf_sched_scan_settings;
  tmpl_short_retry_limit : Z;
  tmpl_long_retry_limit : Z;
  dynamic_ps_timeout : Z;
  wake_up_event : Z;
  listen_interval : Z;
  bet_enable : bool;
  bet_max_consecutive : Z;
  find_sta : nat -> list Z -> bool;
  rx_alloc : Z -> bool
}.

#[export] Instance eta_wl_hw : Eta wl_hw := fun r =>
  Build_wl_hw
    (quirks r) (chip_id r) (num_tx_desc r) (num_rx_desc r) (aggr_buf_size r)
    (system_hlid r) (dummy_packet r) (hw_tx_rate_tbl_size r) (hw_min_ht_rate r)
    (band_rate_to_idx r) (rx_streaming_interval r) (rx_streaming_always r)
    (rx_streaming_queues r) (packet_memory_pool_start r) (tx_result_addr r)
    (rtable_slv_mem_data r) (rtable_raw_fw_status r) (rtable_interrupt_no_clear r)
    (rtable_interrupt_ack r) (rtable_interrupt_trig r) (cmd_box_addr r) (mbox_ptr r)
    (edge_irq r) (checksum_param r) (fw_status_priv_len r) (aggr_pkts_reason_num r)
    (cmd_polls r) (event_polls r) (bitrates r) (fwlog_mem_blocks r)
    (fwlog_dbg_pins r) (fwlog_continuous r) (bug_on_recovery r) (no_recovery r)
    (sta_sleep_auth r) (conf_basic_rate r) (conf_basic_rate_5 r) (ap_aging_period r)
    (mr_fw r) (have_fw_stats r) (ptable_boot r) (ptable_work r)
    (rtable_pc_on_recovery r) (number_of_assembled_ant2_4 r) (conf_scan r) (conf_sched_scan r)
    (tmpl_short_retry_limit r) (tmpl_long_retry_limit r)
    (dynamic_ps_timeout r)
    (wake_up_event r) (listen_interval r) (bet_enable r) (bet_max_consecutive r)
    (find_sta r) (rx_alloc r).

Inductive wl12xx_fw_type :=
| WL12XX_FW_TYPE_NONE
| WL12XX_FW_TYPE_NORMAL
| WL12XX_FW_TYPE_MULTI
| WL12XX_FW_TYPE_PLT.

#[export] Instance fw_type_eq_dec : EqDecision wl12xx_fw_type.
Proof. solve_decision. Defined.

(** [struct wlcore_aggr_reason]: statistics of why an aggregate was sent. *)
Record wlcore_aggr_reason := {
  ag_buffer_full : Z;
  ag_fw_buffer_full : Z;
  ag_other : Z;
  ag_no_data : Z
}.
#[export] Instance eta_aggr_reason : Eta wlcore_aggr_reason := fun r =>
  Build_wlcore_aggr_reason (ag_buffer_full r) (ag_fw_buffer_full r) (ag_other r)
    (ag_no_data r).
Definition aggr_reason0 : wlcore_aggr_reason := Build_wlcore_aggr_reason 0 0 0 0.

(** ** What only identifying and booting the chip uses of [struct wl1271] *)

(** The files loaded from user space ([fw], [nvs]), the tables the lower
    drivers set at probe ([ptable], [rtable], [min_fw_ver], the clocks of
    [struct wl12xx_priv], the PHY parameters of [struct wl18xx_priv]) and what
    is read from the chip. *)
Record wl_boot := {
  fw : list Z;
  nvs : option (list Z);
  nvs_len : Z;
  enable_11a : bool;
  fw_ver_str : list Z;
  fw_ver : list Z;
  phy_fw_ver_str : list Z;
  min_fw_ver : list Z;
  hw_pg_ver : Z;
  event_mask : Z;
  fuse_oui_addr : Z;
  fuse_nic_addr : Z;
  num_mac_addr : Z;
  addresses : list (list Z);
  static_data_priv_len : Z;
  ptable_down : wlcore_partition_set;
  ptable_drpw : wlcore_partition_set;
  ptable_top_prcm_elp_soc : wlcore_partition_set;
  ptable_phy_init : wlcore_partition_set;
  rtable_ecpu_control : Z;
  rtable_chip_id_b : Z;
  rtable_command_mailbox_ptr : Z;
  rtable_event_mailbox_ptr : Z;
  rtable_cmd_mbox_address : Z;
  rtable_interrupt_mask : Z;
  ref_clock : Z;
  tcxo_clock : Z;
  phy_params : list Z;
  mac80211_registered : bool
}.
#[export] Instance eta_wl_boot : Eta wl_boot := fun r =>
  Build_wl_boot
    (fw r) (nvs r) (nvs_len r) (enable_11a r) (fw_ver_str r) (fw_ver r) (phy_fw_ver_str r)
    (min_fw_ver r) (hw_pg_ver r) (event_mask r) (fuse_oui_addr r) (fuse_nic_addr r)
    (num_mac_addr r) (addresses r) (static_data_priv_len r) (ptable_down r) (ptable_drpw r)
    (ptable_top_prcm_elp_soc r) (ptable_phy_init r) (rtable_ecpu_control r)
    (rtable_chip_id_b r) (rtable_command_mailbox_ptr r) (rtable_event_mailbox_ptr r)
    (rtable_cmd_mbox_address r) (rtable_interrupt_mask r) (ref_clock r) (tcxo_clock r)
    (phy_params r) (mac80211_registered r).

(** ** The driver state, [struct wl1271] *)

Record wl1271 := {
  hw : wl_hw;
  state : wlcore_state;
  plt : bool;
  flags : Z;
  curr_part : wlcore_partition_set;
  links_map : Z;
  roles_map : Z;
  roc_map : Z;
  rate_policies_map : Z;
  klv_templates_map : Z;
  wlvif_list : list nat;
  tx_blocks_freed : Z;
  tx_blocks_available : Z;
  tx_allocated_blocks : Z;
  tx_results_count : Z;
  tx_pkts_freed : list Z;
  tx_allocated_pkts : list Z;
  tx_packets_count : Z;
  time_offset : Z;
  tx_queue_count : list Z;
  queue_stop_reasons : list Z;
  deferred_rx_queue : list rx_skb;
  deferred_tx_queue : list nat;
  tx_frames_map : Z;
  tx_frames : list (option nat);
  tx_frames_cnt : Z;
  rx_counter : Z;
  aggr_buf : list Z;
  fwlog : list Z;
  watchdog_recovery : bool;
  scan_idle : bool;
  noise : Z;
  links : list wl1271_link;
  ap_fw_ps_map : Z;
  ap_ps_map : Z;
  ba_rx_session_count : Z;
  active_sta_count : Z;
  last_wlvif : option nat;
  tx_watchdog_armed : bool;
  elp_work_queued : bool;
  sleep_auth : Z;
  retry_count : Z;
  excessive_retries : Z;
  aggr_pkts_reason : list wlcore_aggr_reason;
  rx_filter_enabled : list bool;
  sched_vif : option nat;
  last_fw_rls_idx : Z;
  extra_spare_vif_count : Z;
  ap_count : Z;
  sta_count : Z;
  scan_vif : option nat;
  scan_req : bool;
  scanned_ch : Z;
  scan_failed : bool;
  scan_ssid : list Z;
  roc_vif : option nat;
  recovery_count : Z;
  wl_band : ieee80211_band;
  wl_channel : Z;
  wl_power_level : Z;
  wl_channel_type : Z;
  last_vif_count : Z;
  fw_type : wl12xx_fw_type;
  have_fw_status : bool;
  have_tx_res_if : bool;
  have_mem_map : bool;
  boot : wl_boot;
  vifs : gmap nat wl12xx_vif;
  skbs : gmap nat sk_buff;
  bus : list (Z * list Z);
  clock : list Z;
  log : list event
}.
#[export] Instance eta_wl1271 : Eta wl1271 := fun r =>
  Build_wl1271
    (hw r) (state r) (plt r) (flags r) (curr_part r) (links_map r) (roles_map r)
    (roc_map r) (rate_policies_map r) (klv_templates_map r) (wlvif_list r)
    (tx_blocks_freed r) (tx_blocks_available r) (tx_allocated_blocks r)
    (tx_results_count r) (tx_pkts_freed r) (tx_allocated_pkts r)
    (tx_packets_count r) (time_offset r) (tx_queue_count r) (queue_stop_reasons r)
    (deferred_rx_queue r) (deferred_tx_queue r) (tx_frames_map r) (tx_frames r)
    (tx_frames_cnt r) (rx_counter r) (aggr_buf r) (fwlog r) (watchdog_recovery r)
    (scan_idle r) (noise r) (links r) (ap_fw_ps_map r) (ap_ps_map r)
    (ba_rx_session_count r) (active_sta_count r) (last_wlvif r)
    (tx_watchdog_armed r) (elp_work_queued r) (sleep_auth r) (retry_count r)
    (excessive_retries r) (aggr_pkts_reason r) (rx_filter_enabled r) (sched_vif r)
    (last_fw_rls_idx r) (extra_spare_vif_count r) (ap_count r) (sta_count r)
    (scan_vif r) (scan_req r) (scanned_ch r) (scan_failed r) (scan_ssid r) (roc_vif r) (recovery_count r)
    (wl_band r) (wl_channel r) (wl_power_level r) (wl_channel_type r)
    (last_vif_count r) (fw_type r) (have_fw_status r) (have_tx_res_if r)
    (have_mem_map r) (boot r) (vifs r) (skbs r) (bus r) (clock r) (log r).

(** Accessors for the C expressions [wl->links[hlid]], [*wlvif] and [*skb]. *)
Definition link_at (wl : wl1271) (hlid : Z) : wl1271_link := zget link0 (links wl) hlid.
Definition upd_link (hlid : Z) (f : wl1271_link -> wl1271_link) (wl : wl1271) : wl1271 :=
  wl <| links ::= fun l => zset l hlid (f (zget link0 l hlid)) |>.

Definition vif_at (wl : wl1271) (v : nat) : wl12xx_vif := vifs wl !!! v.
Definition upd_vif (v : nat) (f : wl12xx_vif -> wl12xx_vif) (wl : wl1271) : wl1271 :=
  wl <| vifs ::= alter f v |>.

Definition skb_at (wl : wl1271) (s : nat) : sk_buff := skbs wl !!! s.
Definition upd_skb (s : nat) (f : sk_buff -> sk_buff) (wl : wl1271) : wl1271 :=
  wl <| skbs ::= alter f s |>.

Definition emit (e : event) (wl : wl1271) : wl1271 := wl <| log ::= cons e |>.

Definition has_quirk (wl : wl1271) (q : Z) : bool := has (quirks (hw wl)) q.
Definition flag (wl : wl1271) (i : Z) : bool := test_bit i (flags wl).
#[global] Arguments flag : simpl never.
Definition set_flag (i : Z) (wl : wl1271) : wl1271 := wl <| flags ::= set_bit i |>.
Definition clear_flag (i : Z) (wl : wl1271) : wl1271 := wl <| flags ::= clear_bit i |>.
Definition vif_flag (w : wl12xx_vif) (i : Z) : bool := test_bit i (vif_flags w).

Lemma flag_clear_same i wl : flag (clear_flag i wl) i = false.
Proof.
  change (test_bit i (clear_bit i (flags wl)) = false).
  rewrite test_clear_bit, Z.eqb_refl. apply andb_false_r.
Qed.

Lemma flag_set_same i wl : 0 <= i -> flag (set_flag i wl) i = true.
Proof.
  intros Hi. change (test_bit i (set_bit i (flags wl)) = true).
  by rewrite test_set_bit, Z.eqb_refl.
Qed.

Lemma flag_set_other i j wl : 0 <= i -> i <> j -> flag (set_flag i wl) j = flag wl j.
Proof.
  intros Hi Hne. change (test_bit j (set_bit i (flags wl)) = flag wl j).
  by rewrite test_set_bit, (proj2 (Z.eqb_neq i j) Hne).
Qed.

Lemma flag_clear_other i j wl : i <> j -> flag (clear_flag i wl) j = flag wl j.
Proof.
  intros Hne. change (test_bit j (clear_bit i (flags wl)) = flag wl j).
  by rewrite test_clear_bit, (proj2 (Z.eqb_neq i j) Hne), andb_true_r.
Qed.

Lemma clear_flag_comm i j wl : clear_flag i (clear_flag j wl) = clear_flag j (clear_flag i wl).
Proof.
  change (wl <| flags := clear_bit i (clear_bit j (flags wl)) |>
          = wl <| flags := clear_bit j (clear_bit i (flags wl)) |>).
  by rewrite clear_bit_comm.
Qed.

Lemma clear_flag_id i wl : flag wl i = false -> clear_flag i wl = wl.
Proof.
  intros H. change (wl <| flags := clear_bit i (flags wl) |> = wl).
  rewrite clear_unset_bit by done. by destruct wl.
Qed.

(** [getnstimeofday]: the next reading of the clock, in nanoseconds. *)
Definition getnstimeofday (wl : wl1271) : Z * wl1271 :=
  match clock wl with
  | [] => (0, wl)
  | t :: ts => (t, wl <| clock := ts |>)
  end.

Definition is_ap (w : wl12xx_vif) : bool := bool_decide (bss_type w = BSS_TYPE_AP_BSS).

(** What does not change while an interface exists: whether the driver has
    set it up, and its type. *)
Definition vif_kind (w : wl12xx_vif) : bool * bss_types :=
  (vif_flag w WLVIF_FLAG_INITIALIZED, bss_type w).

(** The links an interface owns, those of them that are its stations', and its kind. *)
Definition vif_own (w : wl12xx_vif) : Z * Z * (bool * bss_types) :=
  (vif_links_map w, ap_sta_hlid_map w, vif_kind w).

(** The part of it the ownership of links is about. *)
Definition vif_maps (w : wl12xx_vif) : Z * Z * bss_types :=
  (vif_links_map w, ap_sta_hlid_map w, bss_type w).

Lemma kind_flag w w' : vif_kind w = vif_kind w' ->
  vif_flag w WLVIF_FLAG_INITIALIZED = vif_flag w' WLVIF_FLAG_INITIALIZED.
Proof. intros E. exact (f_equal fst E). Qed.

Lemma own_maps w w' : vif_own w = vif_own w' -> vif_maps w = vif_maps w'.
Proof. unfold vif_own, vif_kind, vif_maps. by intros [= -> -> _ ->]. Qed.

Definition is_sta (w : wl12xx_vif) : bool := bool_decide (bss_type w = BSS_TYPE_STA_BSS).

(** ** Frames: what an I/O operation may touch *)

(** Events of the bus, as opposed to requests to mac80211 or the kernel. *)
Definition io_event (e : event) : bool :=
  match e with
  | EvWrite _ _ | EvRead _ _ | EvCmdWrite _ _ | EvQueueRecoveryWork | EvDisableIrq => true
  | _ => false
  end.

(** The driver state only moves from ON to RESTARTING. *)
Definition state_le (s s' : wlcore_state) : Prop :=
  s' = s \/ (s = WLCORE_STATE_ON /\ s' = WLCORE_STATE_RESTARTING).

#[export] Instance state_le_refl : Reflexive state_le.
Proof. intros s. by left. Qed.

#[export] Instance state_le_trans : Transitive state_le.
Proof. intros a b c [->|[-> ->]] [->|[? ->]]; unfold state_le; auto. Qed.

(** [wl'] differs from [wl] only in what bus accesses and a recovery request
    change: the remaining bus results, the driver state, the two flags about
    failed I/O and recovery, and the recorded I/O events. *)
Record io_frame (wl wl' : wl1271) : Prop := IoFrame {
  io_frame_eq : exists f s b l,
    wl' = wl <| flags := f |> <| state := s |> <| bus := b |> <| log := l |>;
  io_frame_flags : forall i, i <> WL1271_FLAG_IO_FAILED ->
    i <> WL1271_FLAG_RECOVERY_IN_PROGRESS -> flag wl' i = flag wl i;
  io_frame_log : exists l, log wl' = l ++ log wl /\ Forall (fun e => io_event e = true) l;
  io_frame_state : state_le (state wl) (state wl')
}.

Ltac io_witness wl :=
  match goal with
  | |- exists f s b l, ?w = _ =>
      exists (flags w), (state w), (bus w), (log w); destruct wl; reflexivity
  end.

#[export] Instance io_frame_refl : Reflexive io_frame.
Proof. intros wl. split; [io_witness wl | done | by exists [] | reflexivity]. Qed.

#[export] Instance io_frame_trans : Transitive io_frame.
Proof.
  intros a b c [(f & s & u & l & E1) F1 (l1 & L1 & A1) S1]
    [(f' & s' & u' & l' & E2) F2 (l2 & L2 & A2) S2].
  split.
  - exists f', s', u', l'. by rewrite E2, E1.
  - intros i H1 H2. by rewrite F2, F1.
  - exists (l2 ++ l1). rewrite L2, L1, app_assoc. split; [done|]. by apply Forall_app.
  - by etrans.
Qed.

#[export] Hint Extern 0 (io_frame ?x ?x) => reflexivity : wl.

(** Every field but the four of the frame is unchanged. *)
Lemma io_frame_field {A} (f : wl1271 -> A) wl wl' :
  io_frame wl wl' ->
  (forall w a s b l, f (w <| flags := a |> <| state := s |> <| bus := b |> <| log := l |>) = f w) ->
  f wl' = f wl.
Proof. intros [(? & ? & ? & ? & ->) _ _ _] H. apply H. Qed.

(** Rewrite every field of the post-state of an I/O step to the pre-state. *)
Ltac io_field H f :=
  let E := fresh in
  pose proof (io_frame_field f _ _ H (fun _ _ _ _ _ => eq_refl)) as E; cbv beta in E;
  rewrite ?E.
