(* ===== verification/ChipOps.v ===== *)
(** * The lower-driver interface

    wlcore drives two chip families through the function table
    [struct wlcore_ops] (wlcore/wlcore.h, called through wlcore/hw_ops.h).  The
    table is a typeclass here: the data path is written and proved against it,
    and Wl12xx.v and Wl18xx.v give its two instances.  The file also holds the
    hardware transmit descriptor both sides write (wlcore/tx.h). *)

From S2P Require Import Prelude Ieee80211 WlState.

(** ** The transmit descriptor *)

(** [struct wl1271_tx_hw_descr]; [d_mem0]/[d_mem1] are the two bytes of the
    per-family memory union and [d_csum] the byte of the checksum union. *)
Record tx_hw_descr := {
  d_length : Z;
  d_mem0 : Z;
  d_mem1 : Z;
  d_start_time : Z;
  d_life_time : Z;
  d_tx_attr : Z;
  d_id : Z;
  d_tid : Z;
  d_hlid : Z;
  d_csum : Z
}.
#[export] Instance eta_tx_hw_descr : Eta tx_hw_descr := fun r =>
  Build_tx_hw_descr (d_length r) (d_mem0 r) (d_mem1 r) (d_start_time r) (d_life_time r)
    (d_tx_attr r) (d_id r) (d_tid r) (d_hlid r) (d_csum r).

(** [sizeof(struct wl1271_tx_hw_descr)] *)
Definition TX_DESC_SIZE := 16.

Definition encode_desc (d : tx_hw_descr) : list Z :=
  le_bytes 2 (d_length d) ++ le_bytes 1 (d_mem0 d) ++ le_bytes 1 (d_mem1 d)
  ++ le_bytes 4 (d_start_time d) ++ le_bytes 2 (d_life_time d) ++ le_bytes 2 (d_tx_attr d)
  ++ le_bytes 1 (d_id d) ++ le_bytes 1 (d_tid d) ++ le_bytes 1 (d_hlid d)
  ++ le_bytes 1 (d_csum d).

Definition decode_desc (l : list Z) : tx_hw_descr :=
  let field i n := le_value (take n (drop i l)) in
  Build_tx_hw_descr (field 0%nat 2%nat) (field 2%nat 1%nat) (field 3%nat 1%nat)
    (field 4%nat 4%nat) (field 8%nat 2%nat) (field 10%nat 2%nat) (field 12%nat 1%nat)
    (field 13%nat 1%nat) (field 14%nat 1%nat) (field 15%nat 1%nat).

(** Assignments through a descriptor pointer into [skb->data]. *)
Definition with_desc (f : tx_hw_descr -> tx_hw_descr) (data : list Z) : list Z :=
  encode_desc (f (decode_desc data)) ++ drop (Z.to_nat TX_DESC_SIZE) data.

(** ** Buffer alignment (tx.c, shared with wl12xx) *)

Definition WL1271_TX_ALIGN_TO := 4.
Definition WL12XX_BUS_BLOCK_SIZE := 256.

Definition wlcore_calc_packet_alignment (wl : wl1271) (packet_length : Z) : Z :=
  if has_quirk wl WLCORE_QUIRK_TX_PAD_LAST_FRAME
     || negb (has_quirk wl WLCORE_QUIRK_TX_BLOCKSIZE_ALIGN)
  then ALIGN packet_length WL1271_TX_ALIGN_TO
  else ALIGN packet_length WL12XX_BUS_BLOCK_SIZE.

(** ** [struct wlcore_ops] *)

Inductive wl_rx_buf_align :=
| WLCORE_RX_BUF_ALIGNED
| WLCORE_RX_BUF_UNALIGNED
| WLCORE_RX_BUF_PADDED.

Class wlcore_ops := {
  trigger_cmd : Z -> fw_cmd -> wl1271 -> Z * wl1271;
  ack_event : wl1271 -> Z * wl1271;
  calc_tx_blocks : wl1271 -> Z -> Z -> Z;
  set_tx_desc_blocks : wl1271 -> tx_hw_descr -> Z -> Z -> tx_hw_descr;
  set_tx_desc_data_len : wl1271 -> tx_hw_descr -> sk_buff -> tx_hw_descr;
  set_tx_desc_csum : wl1271 -> tx_hw_descr -> sk_buff -> tx_hw_descr;
  get_spare_blocks : wl1271 -> bool -> Z;
  pre_pkt_send : option (wl1271 -> Z -> Z -> Z * wl1271);
  get_rx_buf_align : wl1271 -> Z -> wl_rx_buf_align;
  prepare_read : option (wl1271 -> Z -> Z -> Z * wl1271);
  get_rx_packet_len : wl1271 -> list Z -> Z -> Z;
  set_rx_csum : wl1271 -> option (list Z -> rx_skb -> rx_skb);
  tx_delayed_compl : option (Z -> wl1271 -> outcome (Z * wl1271));
  tx_immediate_compl : option (list Z -> wl1271 -> outcome wl1271);
  sta_get_ap_rate_mask : wl1271 -> wl12xx_vif -> Z;
  ap_get_mimo_wide_rate_mask : option (wl1271 -> wl12xx_vif -> Z)
}.

(** [wlcore_hw_pre_pkt_send]: the optional hook, or no change. *)
Definition wlcore_hw_pre_pkt_send `{wlcore_ops} (wl : wl1271) (buf_offset last_len : Z)
    : Z * wl1271 :=
  match pre_pkt_send with
  | Some f => f wl buf_offset last_len
  | None => (buf_offset, wl)
  end.

Definition wlcore_hw_prepare_read `{wlcore_ops} (wl : wl1271) (rx_desc len : Z)
    : Z * wl1271 :=
  match prepare_read with
  | Some f => f wl rx_desc len
  | None => (0, wl)
  end.

Definition wlcore_hw_set_rx_csum `{wlcore_ops} (wl : wl1271) (desc : list Z) (skb : rx_skb)
    : rx_skb :=
  match set_rx_csum wl with
  | Some f => f desc skb
  | None => skb
  end.

(** [counter] is [tx_results_counter] of the firmware status just read. *)
Definition wlcore_hw_tx_delayed_compl `{wlcore_ops} (counter : Z) (wl : wl1271)
    : outcome (Z * wl1271) :=
  match tx_delayed_compl with
  | Some f => f counter wl
  | None => Ret (0, wl)
  end.

(** The status bytes are the private part of the firmware status. *)
Definition wlcore_hw_tx_immediate_compl `{wlcore_ops} (priv : list Z) (wl : wl1271)
    : outcome wl1271 :=
  match tx_immediate_compl with
  | Some f => f priv wl
  | None => Ret wl
  end.

Definition wlcore_hw_ap_get_mimo_wide_rate_mask `{wlcore_ops} (wl : wl1271) (w : wl12xx_vif) : Z :=
  match ap_get_mimo_wide_rate_mask with
  | Some f => f wl w
  | None => 0
  end.

(** Rate sets shared by the families (conf.h). *)
Definition CONF_TX_RATE_MASK_BASIC := Z.lor (BIT 0) (BIT 1).
Definition CONF_TX_AP_ENABLED_RATES := 0x1eff.
Definition CONF_TX_CCK_RATES := Z.lor (Z.lor (BIT 0) (BIT 1)) (Z.lor (BIT 2) (BIT 5)).
Definition CONF_TX_MCS_RATES := Z.shiftl 0xff 13.
Definition CONF_TX_MIMO_RATES := Z.shiftl 0xff 21.

(** ** The receive descriptor in front of each received packet (rx.h) *)

(** [sizeof(struct wl1271_rx_descriptor)] *)
Definition RX_DESC_SIZE := 16.
Definition rx_desc_length (desc : list Z) : Z := le_value (take 2 desc).
Definition rx_desc_status (desc : list Z) : Z := byte_at desc 2.
Definition rx_desc_flags (desc : list Z) : Z := byte_at desc 3.
Definition rx_desc_rate (desc : list Z) : Z := byte_at desc 4.
Definition rx_desc_channel (desc : list Z) : Z := byte_at desc 5.
Definition rx_desc_rssi (desc : list Z) : Z := s8 (byte_at desc 6).
Definition rx_desc_snr (desc : list Z) : Z := byte_at desc 7.
Definition rx_desc_packet_class (desc : list Z) : Z := byte_at desc 12.
Definition rx_desc_hlid (desc : list Z) : Z := byte_at desc 13.
Definition rx_desc_pad_len (desc : list Z) : Z := byte_at desc 14.

(** ** Lemmas *)

Definition desc_ok (d : tx_hw_descr) : Prop :=
  0 <= d_length d < 65536 /\ 0 <= d_mem0 d < 256 /\ 0 <= d_mem1 d < 256 /\
  0 <= d_start_time d < 4294967296 /\ 0 <= d_life_time d < 65536 /\
  0 <= d_tx_attr d < 65536 /\ 0 <= d_id d < 256 /\ 0 <= d_tid d < 256 /\
  0 <= d_hlid d < 256 /\ 0 <= d_csum d < 256.

Lemma length_encode_desc d : length (encode_desc d) = 16%nat.
Proof. unfold encode_desc. rewrite !length_app, !length_le_bytes. reflexivity. Qed.

Lemma decode_encode_desc d rest : desc_ok d -> decode_desc (encode_desc d ++ rest) = d.
Proof.
  destruct d. unfold desc_ok, decode_desc, encode_desc.
  cbn [d_length d_mem0 d_mem1 d_start_time d_life_time d_tx_attr d_id d_tid d_hlid d_csum].
  intros. destruct_and!.
  f_equal; rewrite <- !app_assoc; simpl;
    lazymatch goal with
    | |- _ = ?x =>
        first [ transitivity (le_value (le_bytes 1 x));
                [simpl; lia | apply le_value_bytes; simpl; lia]
              | transitivity (le_value (le_bytes 2 x));
                [simpl; lia | apply le_value_bytes; simpl; lia]
              | transitivity (le_value (le_bytes 4 x));
                [simpl; lia | apply le_value_bytes; simpl; lia] ]
    end.
Qed.

Lemma length_with_desc f data : (16 <= length data)%nat ->
  length (with_desc f data) = length data.
Proof.
  intros. unfold with_desc, TX_DESC_SIZE.
  rewrite length_app, length_encode_desc, length_drop. lia.
Qed.

(** Both alignments round up, to a multiple of four, by less than a block. *)
Lemma calc_packet_alignment_spec wl n :
  0 <= n <= 2 ^ 32 - 256 ->
  n <= wlcore_calc_packet_alignment wl n < n + 256 /\
  (4 | wlcore_calc_packet_alignment wl n).
Proof.
  intros Hn. unfold wlcore_calc_packet_alignment, WL1271_TX_ALIGN_TO, WL12XX_BUS_BLOCK_SIZE.
  split_if.
  - destruct (ALIGN_spec 2 n) as [? ?]; [lia..|]. change (2 ^ 2) with 4 in *.
    split; [lia | done].
  - destruct (ALIGN_spec 8 n) as [? ?]; [lia..|]. change (2 ^ 8) with 256 in *.
    split; [lia|]. etrans; [|eassumption]. by exists 64.
Qed.

Lemma calc_packet_alignment_nonneg wl n : 0 <= wlcore_calc_packet_alignment wl n.
Proof.
  unfold wlcore_calc_packet_alignment, ALIGN.
  split_if; apply Z.land_nonneg; left; apply u32_range.
Qed.

(** The boundary packets are aligned to: 4 bytes, or a bus block. *)
Definition tx_alignment (wl : wl1271) : Z :=
  if has_quirk wl WLCORE_QUIRK_TX_PAD_LAST_FRAME
     || negb (has_quirk wl WLCORE_QUIRK_TX_BLOCKSIZE_ALIGN)
  then WL1271_TX_ALIGN_TO else WL12XX_BUS_BLOCK_SIZE.

Lemma tx_alignment_pos wl : 0 < tx_alignment wl.
Proof. unfold tx_alignment, WL1271_TX_ALIGN_TO, WL12XX_BUS_BLOCK_SIZE. split_if; lia. Qed.

Lemma calc_packet_alignment_divide wl n :
  0 <= n <= 2 ^ 32 - 256 ->
  n <= wlcore_calc_packet_alignment wl n < n + tx_alignment wl /\
  (tx_alignment wl | wlcore_calc_packet_alignment wl n).
Proof.
  intros Hn. unfold wlcore_calc_packet_alignment, tx_alignment,
    WL1271_TX_ALIGN_TO, WL12XX_BUS_BLOCK_SIZE.
  split_if; [apply (ALIGN_spec 2) | apply (ALIGN_spec 8)]; lia.
Qed.

(** Rounding up never crosses a multiple of the alignment. *)
Lemma align_within a n m x : 0 < a -> (a | m) -> (a | x) -> x < n + a -> n <= m -> x <= m.
Proof.
  intros Ha [j ->] [k ->] Hx Hn.
  destruct (Z.le_gt_cases k j); [nia|]. exfalso. nia.
Qed.

(** ** What wlcore relies on from a lower driver *)

Class wlcore_ops_laws (ops : wlcore_ops) : Prop := {
  (** commands and event acknowledgements only do I/O *)
  trigger_cmd_io_frame addr c wl : io_frame wl (snd (trigger_cmd addr c wl));
  ack_event_io_frame wl : io_frame wl (snd (ack_event wl));
  (** a packet always needs at least its spare blocks, and one more *)
  calc_tx_blocks_pos wl len spare :
    0 < len <= 65536 -> 0 <= spare <= 256 -> spare < calc_tx_blocks wl len spare;
  calc_tx_blocks_hw wl wl' len spare : hw wl' = hw wl ->
    calc_tx_blocks wl' len spare = calc_tx_blocks wl len spare;
  get_spare_blocks_bound wl gem : 0 <= get_spare_blocks wl gem <= 2;
  (** the descriptor hooks write only their own fields *)
  set_tx_desc_blocks_frame wl d b s :
    set_tx_desc_blocks wl d b s =
      d <| d_mem0 := d_mem0 (set_tx_desc_blocks wl d b s) |>
        <| d_mem1 := d_mem1 (set_tx_desc_blocks wl d b s) |>;
  set_tx_desc_data_len_frame wl d skb :
    let d' := set_tx_desc_data_len wl d skb in
    d' = d <| d_length := d_length d' |> <| d_mem0 := d_mem0 d' |>
           <| d_mem1 := d_mem1 d' |> <| d_tx_attr := d_tx_attr d' |>;
  set_tx_desc_csum_frame wl d skb :
    set_tx_desc_csum wl d skb = d <| d_csum := d_csum (set_tx_desc_csum wl d skb) |>;
  (** the last-frame hook edits the aggregation buffer in place and only
      extends the transfer, to at most the end of the current bus block *)
  pre_pkt_send_frame f wl off last :
    pre_pkt_send = Some f -> 0 <= off <= 2 ^ 32 - 256 ->
    let '(off', wl') := f wl off last in
    wl' = wl <| aggr_buf := aggr_buf wl' |> /\
    zlen (aggr_buf wl') = zlen (aggr_buf wl) /\
    off <= off' < off + WL12XX_BUS_BLOCK_SIZE /\
    (off' = off \/ (WL12XX_BUS_BLOCK_SIZE | off'));
  (** preparing a read only does I/O, and the packet data the chip announces
      lies behind the descriptor, inside the packet *)
  prepare_read_io_frame f wl des len :
    prepare_read = Some f -> io_frame wl (snd (f wl des len));
  get_rx_packet_len_bound wl data len : 0 <= len ->
    0 <= get_rx_packet_len wl data len /\
    (get_rx_packet_len wl data len <> 0 ->
     RX_DESC_SIZE + get_rx_packet_len wl data len <= len);
  (** the receive hooks look at nothing but the configuration *)
  get_rx_packet_len_hw wl wl' data len : hw wl' = hw wl ->
    get_rx_packet_len wl' data len = get_rx_packet_len wl data len;
  get_rx_buf_align_hw wl wl' des : hw wl' = hw wl ->
    get_rx_buf_align wl' des = get_rx_buf_align wl des;
  set_rx_csum_hw wl wl' : hw wl' = hw wl -> set_rx_csum wl' = set_rx_csum wl
}.
