(* ===== verification/Io.v ===== *)
(** * Bus access, address translation and firmware commands

    wlcore/io.h, wlcore/io.c and the command mailbox of wlcore/cmd.c, with
    [wl12xx_queue_recovery_work] (main.c), which every failing command calls.
    The host controller ([wl->if_ops->read/write]) is the environment: its
    results are taken from [bus]. *)

From S2P Require Import Prelude WlState ChipOps.

(** ** Recovery *)

(** [wl12xx_queue_recovery_work]: leave the ON state, once. *)
Definition wl12xx_queue_recovery_work (wl : wl1271) : wl1271 :=
  match state wl with
  | WLCORE_STATE_ON =>
      emit EvQueueRecoveryWork
        (emit EvDisableIrq
           (set_flag WL1271_FLAG_RECOVERY_IN_PROGRESS
              (wl <| state := WLCORE_STATE_RESTARTING |>)))
  | _ => wl
  end.

(** ** Raw transfers *)

(** One transfer on the host controller: the next result of [bus]. *)
Definition bus_next (wl : wl1271) : Z * list Z * wl1271 :=
  match bus wl with
  | [] => (0, [], wl)
  | (ret, data) :: rest => (ret, data, wl <| bus := rest |>)
  end.

(** [if (ret && wl->state != WLCORE_STATE_OFF) set_bit(IO_FAILED)] *)
Definition note_io_failure (ret : Z) (wl : wl1271) : wl1271 :=
  if negb (ret =? 0) && negb (bool_decide (state wl = WLCORE_STATE_OFF))
  then set_flag WL1271_FLAG_IO_FAILED wl else wl.

(** A write transfer, recorded as [e]. *)
Definition raw_write_as (e : event) (wl : wl1271) : Z * wl1271 :=
  if flag wl WL1271_FLAG_IO_FAILED then (- EIO, wl)
  else
    let '(ret, _, wl) := bus_next (emit e wl) in
    (ret, note_io_failure ret wl).

Definition wlcore_raw_write (addr : Z) (buf : list Z) (wl : wl1271) : Z * wl1271 :=
  raw_write_as (EvWrite addr buf) wl.

(** A read transfer fills exactly [len] bytes. *)
Definition bus_data (len : Z) (data : list Z) : list Z :=
  u8 <$> take (Z.to_nat len) (data ++ replicate (Z.to_nat len) 0).

Definition wlcore_raw_read (addr len : Z) (wl : wl1271) : Z * list Z * wl1271 :=
  if flag wl WL1271_FLAG_IO_FAILED then (- EIO, [], wl)
  else
    let '(ret, data, wl) := bus_next (emit (EvRead addr len) wl) in
    (ret, bus_data len data, note_io_failure ret wl).

Definition wlcore_raw_read32 (addr : Z) (wl : wl1271) : Z * Z * wl1271 :=
  let '(ret, data, wl) := wlcore_raw_read addr 4 wl in
  if ret <? 0 then (ret, 0, wl) else (0, u32 (le_value (take 4 data)), wl).

Definition wlcore_raw_write32 (addr val : Z) (wl : wl1271) : Z * wl1271 :=
  wlcore_raw_write addr (le_bytes 4 (u32 val)) wl.

(** ** Address translation *)

Definition in_window (p : wlcore_partition) (addr : Z) : bool :=
  (part_start p <=? addr) && (addr <? u32 (part_start p + part_size p)).

Definition wlcore_translate_addr (wl : wl1271) (addr : Z) : Z :=
  let part := curr_part wl in
  if in_window (part_mem part) addr then
    u32 (addr - part_start (part_mem part))
  else if in_window (part_reg part) addr then
    u32 (addr - part_start (part_reg part) + part_size (part_mem part))
  else if in_window (part_mem2 part) addr then
    u32 (addr - part_start (part_mem2 part) + part_size (part_mem part)
         + part_size (part_reg part))
  else if in_window (part_mem3 part) addr then
    u32 (addr - part_start (part_mem3 part) + part_size (part_mem part)
         + part_size (part_reg part) + part_size (part_mem2 part))
  else 0.

Definition wlcore_read (addr len : Z) (wl : wl1271) : Z * list Z * wl1271 :=
  wlcore_raw_read (wlcore_translate_addr wl addr) len wl.

Definition wlcore_write (addr : Z) (buf : list Z) (wl : wl1271) : Z * wl1271 :=
  wlcore_raw_write (wlcore_translate_addr wl addr) buf wl.

Definition wlcore_read32 (addr : Z) (wl : wl1271) : Z * Z * wl1271 :=
  wlcore_raw_read32 (wlcore_translate_addr wl addr) wl.

Definition wlcore_write32 (addr val : Z) (wl : wl1271) : Z * wl1271 :=
  wlcore_raw_write32 (wlcore_translate_addr wl addr) val wl.

Definition HW_PARTITION_REGISTERS_ADDR := 0x1FFC0.
Definition HW_PART0_SIZE_ADDR := HW_PARTITION_REGISTERS_ADDR.
Definition HW_PART0_START_ADDR := HW_PARTITION_REGISTERS_ADDR + 4.
Definition HW_PART1_SIZE_ADDR := HW_PARTITION_REGISTERS_ADDR + 8.
Definition HW_PART1_START_ADDR := HW_PARTITION_REGISTERS_ADDR + 12.
Definition HW_PART2_SIZE_ADDR := HW_PARTITION_REGISTERS_ADDR + 16.
Definition HW_PART2_START_ADDR := HW_PARTITION_REGISTERS_ADDR + 20.
Definition HW_PART3_START_ADDR := HW_PARTITION_REGISTERS_ADDR + 24.

(** [wlcore_set_partition]: the seven register writes, stopping at the first
    failure; the software copy is replaced first in any case. *)
Definition wlcore_set_partition (p : wlcore_partition_set) (wl : wl1271) : Z * wl1271 :=
  let wl := wl <| curr_part := p |> in
  let '(ret, wl) := wlcore_raw_write32 HW_PART0_START_ADDR (part_start (part_mem p)) wl in
  if ret <? 0 then (ret, wl) else
  let '(ret, wl) := wlcore_raw_write32 HW_PART0_SIZE_ADDR (part_size (part_mem p)) wl in
  if ret <? 0 then (ret, wl) else
  let '(ret, wl) := wlcore_raw_write32 HW_PART1_START_ADDR (part_start (part_reg p)) wl in
  if ret <? 0 then (ret, wl) else
  let '(ret, wl) := wlcore_raw_write32 HW_PART1_SIZE_ADDR (part_size (part_reg p)) wl in
  if ret <? 0 then (ret, wl) else
  let '(ret, wl) := wlcore_raw_write32 HW_PART2_START_ADDR (part_start (part_mem2 p)) wl in
  if ret <? 0 then (ret, wl) else
  let '(ret, wl) := wlcore_raw_write32 HW_PART2_SIZE_ADDR (part_size (part_mem2 p)) wl in
  if ret <? 0 then (ret, wl) else
  wlcore_raw_write32 HW_PART3_START_ADDR (part_start (part_mem3 p)) wl.

(** ** The command mailbox *)

Definition WL1271_ACX_INTR_CMD_COMPLETE := BIT 4.
Definition MAX_COMMAND_STATUS := 25.
Definition CMD_STATUS_SUCCESS := 1.

(** Poll the interrupt register until the command completes; [polls] is how
    often it can be polled before the deadline. *)
Fixpoint cmd_poll (polls : nat) (intr : Z) (wl : wl1271) : Z * wl1271 :=
  if has intr WL1271_ACX_INTR_CMD_COMPLETE then (0, wl)
  else
    match polls with
    | O => (- ETIMEDOUT, wl)
    | S polls =>
        let '(ret, intr, wl) := wlcore_read32 (rtable_interrupt_no_clear (hw wl)) wl in
        if ret <? 0 then (ret, wl) else cmd_poll polls intr wl
    end.

(** The command structure itself, written at a (translated) address. *)
Definition wlcore_write_cmd (addr : Z) (c : fw_cmd) (wl : wl1271) : Z * wl1271 :=
  raw_write_as (EvCmdWrite (wlcore_translate_addr wl addr) c) wl.

Section Cmd.
Context `{ops : wlcore_ops}.

Definition __wlcore_cmd_send (c : fw_cmd) (wl : wl1271) : Z * wl1271 :=
  if bool_decide (state wl = WLCORE_STATE_RESTARTING) then (- EIO, wl)
  else
    let '(ret, wl) := wlcore_write_cmd (cmd_box_addr (hw wl)) c wl in
    if ret <? 0 then (ret, wl) else
    let '(ret, wl) := trigger_cmd (cmd_box_addr (hw wl)) c wl in
    if ret <? 0 then (ret, wl) else
    let '(ret, intr, wl) := wlcore_read32 (rtable_interrupt_no_clear (hw wl)) wl in
    if ret <? 0 then (ret, wl) else
    let '(ret, wl) := cmd_poll (cmd_polls (hw wl)) intr wl in
    if ret <? 0 then (ret, wl) else
    let '(ret, data, wl) := wlcore_read (cmd_box_addr (hw wl)) 4 wl in
    if ret <? 0 then (ret, wl) else
    let status := u16 (le_value (take 2 (drop 2 data))) in
    let '(ret, wl) := wlcore_write32 (rtable_interrupt_ack (hw wl))
                        WL1271_ACX_INTR_CMD_COMPLETE wl in
    if ret <? 0 then (ret, wl) else (status, wl).

Definition wlcore_cmd_send_failsafe (c : fw_cmd) (valid_rets : Z) (wl : wl1271)
    : Z * wl1271 :=
  let '(ret, wl) := __wlcore_cmd_send c wl in
  if ret <? 0 then (ret, wl12xx_queue_recovery_work wl)
  else
    let valid_rets := Z.lor valid_rets (BIT CMD_STATUS_SUCCESS) in
    if (MAX_COMMAND_STATUS <=? ret) || negb (test_bit ret valid_rets)
    then (- EIO, wl12xx_queue_recovery_work wl)
    else (ret, wl).

Definition wl1271_cmd_send (c : fw_cmd) (wl : wl1271) : Z * wl1271 :=
  let '(ret, wl) := wlcore_cmd_send_failsafe c 0 wl in
  if ret <? 0 then (ret, wl) else (0, wl).

End Cmd.

(** ** Frames *)

Lemma emit_io_frame e wl : io_event e = true -> io_frame wl (emit e wl).
Proof.
  intros He. split; [io_witness wl | done | | reflexivity].
  exists [e]. split; [done|]. by constructor.
Qed.

Lemma set_flag_io_frame i wl :
  i = WL1271_FLAG_IO_FAILED \/ i = WL1271_FLAG_RECOVERY_IN_PROGRESS ->
  io_frame wl (set_flag i wl).
Proof.
  intros Hi. split; [io_witness wl | | by exists [] | reflexivity].
  intros j Hj1 Hj2. unfold flag, set_flag. simpl. rewrite test_set_bit.
  - destruct (i =? j) eqn:E; [|done]. bool_to_prop. subst j. destruct Hi; contradiction.
  - unfold WL1271_FLAG_IO_FAILED, WL1271_FLAG_RECOVERY_IN_PROGRESS in Hi. lia.
Qed.

Lemma queue_recovery_io_frame wl : io_frame wl (wl12xx_queue_recovery_work wl).
Proof.
  unfold wl12xx_queue_recovery_work. destruct (state wl) eqn:E; [reflexivity..|].
  etrans; [|by apply emit_io_frame]. etrans; [|by apply emit_io_frame].
  etrans; [|apply set_flag_io_frame; by right].
  split; [io_witness wl | done | by exists [] | right; by rewrite E].
Qed.

Lemma bus_next_io_frame wl : io_frame wl (snd (bus_next wl)).
Proof.
  unfold bus_next. destruct (bus wl) as [|[ret data] rest] eqn:E; [reflexivity|].
  simpl. split; [io_witness wl | done | by exists [] | reflexivity].
Qed.

Lemma note_io_failure_io_frame ret wl : io_frame wl (note_io_failure ret wl).
Proof.
  unfold note_io_failure. split_if; [|reflexivity].
  apply set_flag_io_frame. by left.
Qed.

Lemma raw_write_as_io_frame e wl : io_event e = true -> io_frame wl (snd (raw_write_as e wl)).
Proof.
  intros He. unfold raw_write_as. split_if; [reflexivity|].
  pose proof (bus_next_io_frame (emit e wl)) as B.
  destruct (bus_next (emit e wl)) as [[ret d] wl']. simpl in *.
  etrans; [exact (emit_io_frame e wl He)|]. etrans; [exact B|]. apply note_io_failure_io_frame.
Qed.

Lemma raw_read_io_frame addr len wl : io_frame wl (snd (wlcore_raw_read addr len wl)).
Proof.
  unfold wlcore_raw_read. split_if; [reflexivity|].
  pose proof (bus_next_io_frame (emit (EvRead addr len) wl)) as B.
  destruct (bus_next (emit (EvRead addr len) wl)) as [[ret d] wl']. simpl in *.
  etrans; [exact (emit_io_frame (EvRead addr len) wl eq_refl)|]. etrans; [exact B|]. apply note_io_failure_io_frame.
Qed.

Lemma bus_data_ok len data : 0 <= len ->
  zlen (bus_data len data) = len /\ Forall byte_ok (bus_data len data).
Proof.
  intros Hl. unfold bus_data, zlen. split.
  - rewrite length_fmap, length_take, length_app, length_replicate. lia.
  - apply Forall_fmap, Forall_true. intros x. apply u8_range.
Qed.

(** A successful read returns the bytes asked for. *)
Lemma raw_read_data addr len wl : 0 <= len ->
  let '(ret, data, _) := wlcore_raw_read addr len wl in
  Forall byte_ok data /\ (zlen data = len \/ (ret < 0 /\ data = [])).
Proof.
  intros Hl. unfold wlcore_raw_read. split_if; [split; [done | by right]|].
  destruct (bus_next _) as [[ret d] w]. destruct (bus_data_ok len d Hl). split; [done | by left].
Qed.

Lemma raw_write32_io_frame addr val wl : io_frame wl (snd (wlcore_raw_write32 addr val wl)).
Proof. apply (raw_write_as_io_frame (EvWrite _ _)). reflexivity. Qed.

Lemma write_io_frame addr buf wl : io_frame wl (snd (wlcore_write addr buf wl)).
Proof. apply (raw_write_as_io_frame (EvWrite _ _)). reflexivity. Qed.

Lemma write32_io_frame addr val wl : io_frame wl (snd (wlcore_write32 addr val wl)).
Proof. apply (raw_write_as_io_frame (EvWrite _ _)). reflexivity. Qed.

Lemma read_io_frame addr len wl : io_frame wl (snd (wlcore_read addr len wl)).
Proof. apply raw_read_io_frame. Qed.

Lemma raw_read32_io_frame addr wl : io_frame wl (snd (wlcore_raw_read32 addr wl)).
Proof.
  unfold wlcore_raw_read32. pose proof (raw_read_io_frame addr 4 wl) as R.
  destruct (wlcore_raw_read addr 4 wl) as [[ret d] wl']. simpl in R.
  split_if; exact R.
Qed.

Lemma read32_io_frame addr wl : io_frame wl (snd (wlcore_read32 addr wl)).
Proof. apply raw_read32_io_frame. Qed.

Lemma cmd_poll_io_frame polls intr wl : io_frame wl (snd (cmd_poll polls intr wl)).
Proof.
  revert intr wl. induction polls as [|polls IH]; intros intr wl; cbn [cmd_poll];
    (split_if; [reflexivity|]); [reflexivity|].
  pose proof (read32_io_frame (rtable_interrupt_no_clear (hw wl)) wl) as R.
  destruct (wlcore_read32 _ wl) as [[ret i] wl']. simpl in R.
  split_if; [exact R|]. etrans; [exact R | apply IH].
Qed.

Lemma write_cmd_io_frame addr c wl : io_frame wl (snd (wlcore_write_cmd addr c wl)).
Proof. apply (raw_write_as_io_frame (EvCmdWrite _ _)). reflexivity. Qed.

Section CmdFrames.
Context `{laws : wlcore_ops_laws}.

Lemma __cmd_send_io_frame c wl : io_frame wl (snd (__wlcore_cmd_send c wl)).
Proof.
  unfold __wlcore_cmd_send. case_bool_decide; [reflexivity|].
  pose proof (write_cmd_io_frame (cmd_box_addr (hw wl)) c wl) as R1.
  destruct (wlcore_write_cmd _ c wl) as [r1 w1]. simpl in R1. split_if; [exact R1|].
  pose proof (trigger_cmd_io_frame (cmd_box_addr (hw w1)) c w1) as R2.
  destruct (trigger_cmd _ c w1) as [r2 w2]. simpl in R2. split_if; [by etrans|].
  pose proof (read32_io_frame (rtable_interrupt_no_clear (hw w2)) w2) as R3.
  destruct (wlcore_read32 _ w2) as [[r3 i3] w3]. simpl in R3.
  split_if; [by do 2 (etrans; [eassumption|])|].
  pose proof (cmd_poll_io_frame (cmd_polls (hw w3)) i3 w3) as R4.
  destruct (cmd_poll _ i3 w3) as [r4 w4]. simpl in R4.
  split_if; [by do 3 (etrans; [eassumption|])|].
  pose proof (read_io_frame (cmd_box_addr (hw w4)) 4 w4) as R5.
  destruct (wlcore_read _ 4 w4) as [[r5 d5] w5]. simpl in R5.
  split_if; [by do 4 (etrans; [eassumption|])|].
  pose proof (write32_io_frame (rtable_interrupt_ack (hw w5)) WL1271_ACX_INTR_CMD_COMPLETE w5) as R6.
  destruct (wlcore_write32 _ _ w5) as [r6 w6]. simpl in R6.
  split_if; by do 5 (etrans; [eassumption|]).
Qed.

Lemma cmd_send_failsafe_io_frame c v wl :
  io_frame wl (snd (wlcore_cmd_send_failsafe c v wl)).
Proof.
  unfold wlcore_cmd_send_failsafe. pose proof (__cmd_send_io_frame c wl) as R.
  destruct (__wlcore_cmd_send c wl) as [ret w]. simpl in R.
  repeat split_if; simpl; try exact R; (etrans; [exact R | apply queue_recovery_io_frame]).
Qed.

Lemma cmd_send_io_frame c wl : io_frame wl (snd (wl1271_cmd_send c wl)).
Proof.
  unfold wl1271_cmd_send. pose proof (cmd_send_failsafe_io_frame c 0 wl) as R.
  destruct (wlcore_cmd_send_failsafe c 0 wl) as [ret w]. simpl in R. split_if; exact R.
Qed.

End CmdFrames.

(** ** A failing command stops the driver *)

Section CmdFailure.
Context `{laws : wlcore_ops_laws}.

Lemma recovery_restarting wl : state wl <> WLCORE_STATE_OFF ->
  state (wl12xx_queue_recovery_work wl) = WLCORE_STATE_RESTARTING.
Proof. unfold wl12xx_queue_recovery_work. by destruct (state wl) eqn:E. Qed.

Lemma state_le_not_off s s' : state_le s s' -> s <> WLCORE_STATE_OFF -> s' <> WLCORE_STATE_OFF.
Proof. intros [->|[-> ->]]; done. Qed.

Lemma cmd_send_failsafe_fails c valid wl :
  state wl <> WLCORE_STATE_OFF ->
  let '(ret, wl') := wlcore_cmd_send_failsafe c valid wl in
  ret < 0 -> state wl' = WLCORE_STATE_RESTARTING.
Proof.
  intros Hs. unfold wlcore_cmd_send_failsafe.
  pose proof (__cmd_send_io_frame c wl) as R. destruct (__wlcore_cmd_send c wl) as [ret w]. simpl in R.
  assert (state w <> WLCORE_STATE_OFF) as Hw by (eapply state_le_not_off; [apply R | done]).
  split_if; [intros _; by apply recovery_restarting|].
  split_if; bool_to_prop; [intros _; by apply recovery_restarting | intros; lia].
Qed.

Lemma cmd_send_fails c wl :
  state wl <> WLCORE_STATE_OFF ->
  let '(ret, wl') := wl1271_cmd_send c wl in
  ret < 0 -> state wl' = WLCORE_STATE_RESTARTING.
Proof.
  intros Hs. unfold wl1271_cmd_send. pose proof (cmd_send_failsafe_fails c 0 wl Hs) as F.
  destruct (wlcore_cmd_send_failsafe c 0 wl) as [ret w]. split_if; bool_to_prop; [|lia].
  intros _. by apply F.
Qed.

(** While restarting, commands are refused without touching the bus. *)
Lemma cmd_send_restarting c wl : state wl = WLCORE_STATE_RESTARTING ->
  wl1271_cmd_send c wl = (- EIO, wl).
Proof.
  intros Hs. unfold wl1271_cmd_send, wlcore_cmd_send_failsafe, __wlcore_cmd_send.
  rewrite bool_decide_eq_true_2 by done. simpl. unfold wl12xx_queue_recovery_work. by rewrite Hs.
Qed.

End CmdFailure.
