(* ===== verification/Mailbox.v ===== *)
(** * What the firmware's command mailbox receives

    [sent] is the history of the mailbox.  A command is written to it by
    [__wlcore_cmd_send] and again by the chip's [trigger_cmd]; one that is
    accepted has been written exactly twice, one that fails at most twice, and
    nothing else is written meanwhile. *)

From S2P Require Import Prelude Ieee80211 WlState ChipOps Io.

(** The commands written so far, latest first. *)
Definition sent (wl : wl1271) : list fw_cmd :=
  omap (fun e => match e with EvCmdWrite _ c => Some c | _ => None end) (log wl).

(** Commands accepted one after the other, as the mailbox sees them. *)
Definition twice (cs : list fw_cmd) : list fw_cmd := rev (flat_map (fun c => [c; c]) cs).

Lemma twice_cons c cs : twice (c :: cs) = twice cs ++ [c; c].
Proof. unfold twice. simpl. by rewrite <- !app_assoc. Qed.

Lemma twice_snoc c cs : twice (cs ++ [c]) = c :: c :: twice cs.
Proof. unfold twice. by rewrite flat_map_app, rev_app_distr. Qed.

(** A chip's trigger writes its command once more. *)
Class mailbox_laws (ops : wlcore_ops) : Prop :=
  trigger_cmd_sent addr c wl : exists n, (n <= 1)%nat /\
    sent (snd (trigger_cmd addr c wl)) = replicate n c ++ sent wl /\
    (0 <= fst (trigger_cmd addr c wl) -> n = 1%nat).

Lemma bus_next_sent wl : sent (snd (bus_next wl)) = sent wl.
Proof. unfold bus_next. by destruct (bus wl) as [|[] ?]. Qed.

Lemma note_io_failure_sent ret wl : sent (note_io_failure ret wl) = sent wl.
Proof. unfold note_io_failure. by split_if. Qed.

Lemma queue_recovery_sent wl : sent (wl12xx_queue_recovery_work wl) = sent wl.
Proof. unfold wl12xx_queue_recovery_work. by case_match. Qed.

Lemma raw_write_sent addr buf wl : sent (snd (wlcore_raw_write addr buf wl)) = sent wl.
Proof.
  unfold wlcore_raw_write, raw_write_as. split_if; [done|].
  pose proof (bus_next_sent (emit (EvWrite addr buf) wl)) as B.
  destruct (bus_next (emit (EvWrite addr buf) wl)) as [[ret d] w]. simpl in *. by rewrite note_io_failure_sent.
Qed.

Lemma raw_read_sent addr len wl : sent (snd (wlcore_raw_read addr len wl)) = sent wl.
Proof.
  unfold wlcore_raw_read. split_if; [done|].
  pose proof (bus_next_sent (emit (EvRead addr len) wl)) as B.
  destruct (bus_next (emit (EvRead addr len) wl)) as [[ret d] w]. simpl in *. by rewrite note_io_failure_sent.
Qed.

Lemma read32_sent addr wl : sent (snd (wlcore_read32 addr wl)) = sent wl.
Proof.
  unfold wlcore_read32, wlcore_raw_read32.
  pose proof (raw_read_sent (wlcore_translate_addr wl addr) 4 wl) as R.
  destruct (wlcore_raw_read (wlcore_translate_addr wl addr) 4 wl) as [[ret d] w]. simpl in R. by split_if.
Qed.

Lemma cmd_poll_sent polls : forall intr wl, sent (snd (cmd_poll polls intr wl)) = sent wl.
Proof.
  induction polls as [|polls IH]; intros intr wl; simpl; split_if; try done.
  pose proof (read32_sent (rtable_interrupt_no_clear (hw wl)) wl) as R.
  destruct (wlcore_read32 _ wl) as [[ret i] w]. simpl in R. split_if; [done|]. by rewrite IH.
Qed.

(** Writing the command structure. *)
Lemma write_cmd_sent addr c wl : exists n, (n <= 1)%nat /\
  sent (snd (wlcore_write_cmd addr c wl)) = replicate n c ++ sent wl /\
  (0 <= fst (wlcore_write_cmd addr c wl) -> n = 1%nat).
Proof.
  unfold wlcore_write_cmd, raw_write_as. split_if.
  { exists 0%nat. split_and!; [lia | done | simpl; unfold EIO; lia]. }
  exists 1%nat. set (a := wlcore_translate_addr wl addr). pose proof (bus_next_sent (emit (EvCmdWrite a c) wl)) as B.
  destruct (bus_next (emit (EvCmdWrite a c) wl)) as [[ret d] w]. simpl in *. rewrite note_io_failure_sent, B. done.
Qed.

Section Mailbox.
Context `{mlaws : mailbox_laws}.

Lemma __cmd_send_sent c wl : exists n, (n <= 2)%nat /\
  sent (snd (__wlcore_cmd_send c wl)) = replicate n c ++ sent wl /\
  (0 <= fst (__wlcore_cmd_send c wl) -> n = 2%nat).
Proof.
  unfold __wlcore_cmd_send. split_if.
  { exists 0%nat. split_and!; [lia | done | simpl; unfold EIO; lia]. }
  destruct (write_cmd_sent (cmd_box_addr (hw wl)) c wl) as (n1 & L1 & S1 & H1).
  destruct (wlcore_write_cmd _ c wl) as [r1 w1]. cbn [fst snd] in *.
  split_if; bool_to_prop; [exists n1; split_and!; [lia | done | simpl; lia]|]. specialize (H1 ltac:(done)). subst n1.
  destruct (trigger_cmd_sent (cmd_box_addr (hw w1)) c w1) as (n2 & L2 & S2 & H2).
  destruct (trigger_cmd _ c w1) as [r2 w2]. cbn [fst snd] in *. exists (n2 + 1)%nat.
  rewrite S1, (app_assoc _ _ (sent wl)), <- replicate_add in S2. rewrite <- S2.
  split_if; bool_to_prop; [split_and!; [lia | done | simpl; lia]|]. specialize (H2 ltac:(done)). subst n2.
  split_and!; [lia | | done].
  pose proof (read32_sent (rtable_interrupt_no_clear (hw w2)) w2) as S3.
  destruct (wlcore_read32 _ w2) as [[r3 intr] w3]. simpl in S3. split_if; [done|].
  pose proof (cmd_poll_sent (cmd_polls (hw w3)) intr w3) as S4.
  destruct (cmd_poll _ intr w3) as [r4 w4]. simpl in S4. split_if; [simpl; congruence|].
  pose proof (raw_read_sent (wlcore_translate_addr w4 (cmd_box_addr (hw w4))) 4 w4) as S5.
  unfold wlcore_read. destruct (wlcore_raw_read _ 4 w4) as [[r5 d] w5]. simpl in S5. split_if; [simpl; congruence|].
  set (ack := WL1271_ACX_INTR_CMD_COMPLETE). unfold wlcore_write32, wlcore_raw_write32.
  match goal with |- context [wlcore_raw_write ?a ?b w5] => pose proof (raw_write_sent a b w5) as S6;
    destruct (wlcore_raw_write a b w5) as [r6 w6] end. simpl in S6. split_if; simpl; congruence.
Qed.

(** A command that is accepted is written twice. *)
Lemma cmd_send_sent c wl : exists n, (n <= 2)%nat /\
  sent (snd (wl1271_cmd_send c wl)) = replicate n c ++ sent wl /\
  (0 <= fst (wl1271_cmd_send c wl) -> n = 2%nat).
Proof.
  destruct (__cmd_send_sent c wl) as (n & L & S & H). exists n. split; [done|].
  unfold wl1271_cmd_send, wlcore_cmd_send_failsafe. destruct (__wlcore_cmd_send c wl) as [ret w].
  cbn [fst snd] in *. destruct (Z.ltb_spec ret 0) as [Hr|Hr].
  - rewrite (proj2 (Z.ltb_lt _ _)) by done. cbn [fst snd]. rewrite queue_recovery_sent. split; [done | lia].
  - specialize (H Hr). subst n. cbv zeta. destruct ((MAX_COMMAND_STATUS <=? ret) || _).
    + rewrite (proj2 (Z.ltb_lt _ _)) by (unfold EIO; lia). cbn [fst snd]. by rewrite queue_recovery_sent.
    + rewrite (proj2 (Z.ltb_ge _ _)) by done. done.
Qed.

Lemma cmd_send_ok c ret wl wl' : wl1271_cmd_send c wl = (ret, wl') -> 0 <= ret -> sent wl' = c :: c :: sent wl.
Proof.
  intros E Hr. destruct (cmd_send_sent c wl) as (n & _ & S & H). rewrite E in S, H. cbn [fst snd] in *.
  by rewrite (H Hr) in S.
Qed.

End Mailbox.
