(* ===== verification/Queues.v ===== *)
(** * Transmit-queue flow control

    The per-queue stop reasons of wlcore/tx.c (and the queue numbering of
    wlcore/tx.h): a mac80211 queue is stopped while at least one reason holds.
    [queue_ok] states the contract with mac80211: the last request sent for a
    queue says "stopped" exactly when the queue's reason set is not empty. *)

From S2P Require Import Prelude WlState.

(** [enum wlcore_queue_stop_reason]: bit numbers of [queue_stop_reasons]. *)
Inductive wlcore_queue_stop_reason :=
| WLCORE_QUEUE_STOP_REASON_WATERMARK
| WLCORE_QUEUE_STOP_REASON_FW_RESTART
| WLCORE_QUEUE_STOP_REASON_FLUSH
| WLCORE_QUEUE_STOP_REASON_SPARE_BLK.

#[export] Instance stop_reason_eq_dec : EqDecision wlcore_queue_stop_reason.
Proof. solve_decision. Defined.

Definition reason_bit (r : wlcore_queue_stop_reason) : Z :=
  match r with
  | WLCORE_QUEUE_STOP_REASON_WATERMARK => 0
  | WLCORE_QUEUE_STOP_REASON_FW_RESTART => 1
  | WLCORE_QUEUE_STOP_REASON_FLUSH => 2
  | WLCORE_QUEUE_STOP_REASON_SPARE_BLK => 3
  end.

Definition wl1271_tx_get_queue (queue : Z) : Z :=
  if queue =? 0 then CONF_TX_AC_VO
  else if queue =? 1 then CONF_TX_AC_VI
  else if queue =? 2 then CONF_TX_AC_BE
  else if queue =? 3 then CONF_TX_AC_BK
  else CONF_TX_AC_BE.

Definition wl1271_tx_get_mac80211_queue (queue : Z) : Z :=
  if queue =? CONF_TX_AC_VO then 0
  else if queue =? CONF_TX_AC_VI then 1
  else if queue =? CONF_TX_AC_BE then 2
  else if queue =? CONF_TX_AC_BK then 3
  else 2.

Definition wl1271_tx_total_queue_count (wl : wl1271) : Z :=
  for_range NUM_TX_QUEUES (fun i count => count + zget 0 (tx_queue_count wl) i) 0.

Definition reasons_at (wl : wl1271) (q : Z) : Z := zget 0 (queue_stop_reasons wl) q.
Definition set_reasons (q v : Z) (wl : wl1271) : wl1271 :=
  wl <| queue_stop_reasons ::= fun l => zset l q v |>.

Definition wlcore_is_queue_stopped_by_reason (wl : wl1271) (queue : Z)
    (reason : wlcore_queue_stop_reason) : bool :=
  test_bit (reason_bit reason) (reasons_at wl queue).

Definition wlcore_is_queue_stopped (wl : wl1271) (queue : Z) : bool :=
  negb (reasons_at wl queue =? 0).

Definition wlcore_stop_queue_locked (queue : Z) (reason : wlcore_queue_stop_reason)
    (wl : wl1271) : wl1271 :=
  let stopped := negb (reasons_at wl queue =? 0) in
  let wl := set_reasons queue (set_bit (reason_bit reason) (reasons_at wl queue)) wl in
  if stopped then wl
  else emit (EvStopQueue (wl1271_tx_get_mac80211_queue queue)) wl.

Definition wlcore_stop_queue (queue : Z) (reason : wlcore_queue_stop_reason)
    (wl : wl1271) : wl1271 := wlcore_stop_queue_locked queue reason wl.

Definition wlcore_wake_queue (queue : Z) (reason : wlcore_queue_stop_reason)
    (wl : wl1271) : wl1271 :=
  let wl := set_reasons queue (clear_bit (reason_bit reason) (reasons_at wl queue)) wl in
  if negb (reasons_at wl queue =? 0) then wl
  else emit (EvWakeQueue (wl1271_tx_get_mac80211_queue queue)) wl.

Definition wlcore_stop_queues (reason : wlcore_queue_stop_reason) (wl : wl1271) : wl1271 :=
  for_range NUM_TX_QUEUES (fun i => wlcore_stop_queue i reason) wl.

Definition wlcore_wake_queues (reason : wlcore_queue_stop_reason) (wl : wl1271) : wl1271 :=
  for_range NUM_TX_QUEUES (fun i => wlcore_wake_queue i reason) wl.

Definition wlcore_reset_stopped_queues (wl : wl1271) : wl1271 :=
  for_range NUM_TX_QUEUES
    (fun i wl =>
       if reasons_at wl i =? 0 then wl
       else emit (EvWakeQueue (wl1271_tx_get_mac80211_queue i)) (set_reasons i 0 wl)) wl.

Definition wl1271_handle_tx_low_watermark (wl : wl1271) : wl1271 :=
  for_range NUM_TX_QUEUES
    (fun i wl =>
       if wlcore_is_queue_stopped_by_reason wl i WLCORE_QUEUE_STOP_REASON_WATERMARK
          && (zget 0 (tx_queue_count wl) i <=? WL1271_TX_QUEUE_LOW_WATERMARK)
       then wlcore_wake_queue i WLCORE_QUEUE_STOP_REASON_WATERMARK wl
       else wl) wl.

(** ** The contract with mac80211 *)

(** What mac80211 knows of a queue: the most recent request about it. *)
Fixpoint mac_stopped (q : Z) (l : list event) : bool :=
  match l with
  | [] => false
  | EvStopQueue q' :: l => if q' =? q then true else mac_stopped q l
  | EvWakeQueue q' :: l => if q' =? q then false else mac_stopped q l
  | _ :: l => mac_stopped q l
  end.

Definition is_queue (q : Z) : Prop := 0 <= q < NUM_TX_QUEUES.

Record queues_ok (wl : wl1271) : Prop := {
  reasons_len : zlen (queue_stop_reasons wl) = NUM_TX_QUEUES;
  queue_ok q : is_queue q ->
    mac_stopped (wl1271_tx_get_mac80211_queue q) (log wl) = wlcore_is_queue_stopped wl q
}.

(** ** Lemmas *)

Lemma get_queue_range q : is_queue (wl1271_tx_get_queue q).
Proof.
  unfold is_queue, NUM_TX_QUEUES, wl1271_tx_get_queue, CONF_TX_AC_VO, CONF_TX_AC_VI,
    CONF_TX_AC_BE, CONF_TX_AC_BK. repeat split_if; lia.
Qed.

(** The two numberings are inverse to each other. *)
Lemma get_queue_mac80211 q : is_queue q ->
  wl1271_tx_get_queue (wl1271_tx_get_mac80211_queue q) = q.
Proof.
  unfold is_queue, NUM_TX_QUEUES. intros Hq.
  assert (q = 0 \/ q = 1 \/ q = 2 \/ q = 3) as [-> | [-> | [-> | ->]]] by lia; reflexivity.
Qed.

Lemma mac80211_queue_inj q q' : is_queue q -> is_queue q' ->
  wl1271_tx_get_mac80211_queue q = wl1271_tx_get_mac80211_queue q' -> q = q'.
Proof.
  intros Hq Hq' E. rewrite <- (get_queue_mac80211 q), <- (get_queue_mac80211 q') by done.
  by rewrite E.
Qed.

Lemma reason_bit_nonneg r : 0 <= reason_bit r.
Proof. destruct r; simpl; lia. Qed.

Lemma set_bit_nonzero i m : 0 <= i -> set_bit i m <> 0.
Proof.
  intros Hi E. assert (test_bit i (set_bit i m) = true) as H.
  { rewrite test_set_bit, Z.eqb_refl by done. done. }
  rewrite E in H. unfold test_bit in H. by rewrite Z.testbit_0_l in H.
Qed.

Lemma reasons_at_set wl q q' v : zlen (queue_stop_reasons wl) = NUM_TX_QUEUES ->
  is_queue q -> reasons_at (set_reasons q v wl) q' = if q =? q' then v else reasons_at wl q'.
Proof. intros Hlen Hq. unfold reasons_at, set_reasons. simpl. apply zget_zset. by rewrite Hlen. Qed.

Lemma mac_stopped_other q l e :
  match e with EvStopQueue q' | EvWakeQueue q' => q' <> q | _ => True end ->
  mac_stopped q (e :: l) = mac_stopped q l.
Proof. destruct e; simpl; intros; try done; by rewrite (proj2 (Z.eqb_neq _ _)). Qed.

Lemma mac_stopped_io q l l' : Forall (fun e => io_event e = true) l ->
  mac_stopped q (l ++ l') = mac_stopped q l'.
Proof. induction 1 as [|e l He _ IH]; simpl; [done|]. by destruct e. Qed.

(** [queues_ok] looks only at the reasons and the log. *)
Lemma queues_ok_frame wl wl' :
  queue_stop_reasons wl' = queue_stop_reasons wl ->
  (forall q, mac_stopped q (log wl') = mac_stopped q (log wl)) ->
  queues_ok wl -> queues_ok wl'.
Proof.
  intros Hr Hl [H1 H2]. split; [by rewrite Hr|].
  intros q Hq. rewrite Hl, (H2 q Hq). unfold wlcore_is_queue_stopped, reasons_at. by rewrite Hr.
Qed.

(** Common step: replace the reasons of one queue, emitting the request that
    tells mac80211 when the set becomes non-empty or empty. *)
Lemma queues_ok_update wl q v (l : list event) :
  queues_ok wl -> is_queue q ->
  (forall q', is_queue q' -> q' <> q ->
     mac_stopped (wl1271_tx_get_mac80211_queue q') l
     = mac_stopped (wl1271_tx_get_mac80211_queue q') (log wl)) ->
  mac_stopped (wl1271_tx_get_mac80211_queue q) l = negb (v =? 0) ->
  queues_ok ((set_reasons q v wl) <| log := l |>).
Proof.
  intros [Hlen Hok] Hq Hother Hself. split.
  - simpl. by rewrite zlen_zset.
  - intros q' Hq'. unfold wlcore_is_queue_stopped.
    change (reasons_at ((set_reasons q v wl) <| log := l |>) q')
      with (reasons_at (set_reasons q v wl) q').
    rewrite (reasons_at_set _ _ _ _ Hlen Hq). simpl log. split_if; bool_to_prop.
    + by subst q'.
    + rewrite Hother by congruence. by apply Hok.
Qed.

Lemma log_update_id wl q v : (set_reasons q v wl) <| log := log wl |> = set_reasons q v wl.
Proof. by destruct wl. Qed.

Lemma emit_set_reasons e q v wl :
  emit e (set_reasons q v wl) = (set_reasons q v wl) <| log := e :: log wl |>.
Proof. done. Qed.

Lemma stop_queue_ok queue reason wl :
  queues_ok wl -> is_queue queue -> queues_ok (wlcore_stop_queue_locked queue reason wl).
Proof.
  intros Hok Hq. unfold wlcore_stop_queue_locked.
  pose proof (set_bit_nonzero (reason_bit reason) (reasons_at wl queue)
                (reason_bit_nonneg reason)) as Hnz.
  split_if.
  - rewrite <- log_update_id. apply queues_ok_update; [done..|].
    rewrite (queue_ok _ Hok) by done. unfold wlcore_is_queue_stopped. rewrite E.
    symmetry. by apply negb_true_iff, Z.eqb_neq.
  - rewrite emit_set_reasons. apply queues_ok_update; [done..| |].
    + intros q' Hq' Hne. apply mac_stopped_other. intros Heq. apply Hne.
      symmetry. by apply mac80211_queue_inj.
    + simpl. rewrite Z.eqb_refl. symmetry. by apply negb_true_iff, Z.eqb_neq.
Qed.

(** Waking for a reason is correct whether or not the reason was set. *)
Lemma wake_queue_ok queue reason wl :
  queues_ok wl -> is_queue queue -> queues_ok (wlcore_wake_queue queue reason wl).
Proof.
  intros Hok Hq. unfold wlcore_wake_queue. cbv zeta.
  rewrite (reasons_at_set _ _ _ _ (reasons_len _ Hok) Hq), Z.eqb_refl.
  destruct (clear_bit (reason_bit reason) (reasons_at wl queue) =? 0) eqn:E; simpl negb; cbv iota.
  - rewrite emit_set_reasons. apply queues_ok_update; [done..| |].
    + intros q' Hq' Hne. apply mac_stopped_other. intros Heq. apply Hne.
      symmetry. by apply mac80211_queue_inj.
    + simpl. by rewrite Z.eqb_refl, E.
  - rewrite <- log_update_id. apply queues_ok_update; [done..|].
    rewrite (queue_ok _ Hok) by done. unfold wlcore_is_queue_stopped. rewrite E.
    destruct (reasons_at wl queue =? 0) eqn:E'; [|done].
    bool_to_prop. rewrite E' in E. exfalso. apply E.
    unfold clear_bit. apply Z.bits_inj'. intros n Hn.
    by rewrite Z.clearbit_eqb, Z.testbit_0_l.
Qed.

Lemma stop_queues_ok reason wl : queues_ok wl -> queues_ok (wlcore_stop_queues reason wl).
Proof. intros. unfold wlcore_stop_queues. apply for_range_inv; [done|]. intros. by apply stop_queue_ok. Qed.

Lemma wake_queues_ok reason wl : queues_ok wl -> queues_ok (wlcore_wake_queues reason wl).
Proof. intros. unfold wlcore_wake_queues. apply for_range_inv; [done|]. intros. by apply wake_queue_ok. Qed.

Lemma reset_stopped_queues_ok wl : queues_ok wl -> queues_ok (wlcore_reset_stopped_queues wl).
Proof.
  intros. unfold wlcore_reset_stopped_queues. apply for_range_inv; [done|]. intros s i Hi Hs. split_if; [done|].
  rewrite emit_set_reasons. apply queues_ok_update; [done..| |].
  - intros q' Hq' Hne. apply mac_stopped_other. intros Heq. apply Hne.
    symmetry. by apply mac80211_queue_inj.
  - simpl. by rewrite Z.eqb_refl.
Qed.

Lemma low_watermark_ok wl : queues_ok wl -> queues_ok (wl1271_handle_tx_low_watermark wl).
Proof.
  intros. unfold wl1271_handle_tx_low_watermark. apply for_range_inv; [done|]. intros s i Hi Hs. split_if; [|done].
  by apply wake_queue_ok.
Qed.

#[export] Hint Resolve stop_queue_ok wake_queue_ok stop_queues_ok wake_queues_ok
  reset_stopped_queues_ok low_watermark_ok get_queue_range : wl.

(** ** Frame: flow control touches only the reasons and the requests *)

Definition queue_frame (wl wl' : wl1271) : Prop :=
  exists r l, wl' = wl <| queue_stop_reasons := r |> <| log := l |>.

Ltac queue_witness wl :=
  match goal with
  | |- exists r l, ?w = _ =>
      exists (queue_stop_reasons w), (log w); destruct wl; reflexivity
  end.

#[export] Instance queue_frame_refl : Reflexive queue_frame.
Proof. intros wl. exists (queue_stop_reasons wl), (log wl). by destruct wl. Qed.

#[export] Instance queue_frame_trans : Transitive queue_frame.
Proof. intros a b c (r & l & ->) (r' & l' & ->). by exists r', l'. Qed.

Lemma queue_frame_field {A} (f : wl1271 -> A) wl wl' :
  queue_frame wl wl' ->
  (forall w r l, f (w <| queue_stop_reasons := r |> <| log := l |>) = f w) ->
  f wl' = f wl.
Proof. intros (? & ? & ->) H. apply H. Qed.

Lemma wake_queue_frame queue reason wl : queue_frame wl (wlcore_wake_queue queue reason wl).
Proof. unfold wlcore_wake_queue, queue_frame. cbv zeta. split_if; queue_witness wl. Qed.

Lemma stop_queue_frame queue reason wl :
  queue_frame wl (wlcore_stop_queue_locked queue reason wl).
Proof. unfold wlcore_stop_queue_locked, queue_frame. cbv zeta. split_if; queue_witness wl. Qed.

Lemma low_watermark_frame wl : queue_frame wl (wl1271_handle_tx_low_watermark wl).
Proof.
  unfold wl1271_handle_tx_low_watermark. apply for_range_inv; [reflexivity|].
  intros s i _ Hs. split_if; [|done]. etrans; [exact Hs | apply wake_queue_frame].
Qed.

Lemma stop_queues_frame reason wl : queue_frame wl (wlcore_stop_queues reason wl).
Proof.
  unfold wlcore_stop_queues. apply for_range_inv; [reflexivity|].
  intros s i _ Hs. etrans; [exact Hs | apply stop_queue_frame].
Qed.

Lemma wake_queues_frame reason wl : queue_frame wl (wlcore_wake_queues reason wl).
Proof.
  unfold wlcore_wake_queues. apply for_range_inv; [reflexivity|].
  intros s i _ Hs. etrans; [exact Hs | apply wake_queue_frame].
Qed.

(** ** Soft stop at the watermark *)

Lemma wake_queue_bits queue reason wl q r :
  zlen (queue_stop_reasons wl) = NUM_TX_QUEUES -> is_queue queue ->
  wlcore_is_queue_stopped_by_reason (wlcore_wake_queue queue reason wl) q r
  = wlcore_is_queue_stopped_by_reason wl q r
    && negb (bool_decide (q = queue) && bool_decide (r = reason)).
Proof.
  intros Hlen Hq. unfold wlcore_is_queue_stopped_by_reason, wlcore_wake_queue. cbv zeta.
  assert (forall w, reasons_at (if negb (reasons_at w queue =? 0) then w
            else emit (EvWakeQueue (wl1271_tx_get_mac80211_queue queue)) w) q
          = reasons_at w q) as -> by (intros; by split_if).
  rewrite reasons_at_set by done. split_if; bool_to_prop.
  - subst q. rewrite test_clear_bit, bool_decide_eq_true_2 by done. f_equal.
    by destruct reason, r.
  - rewrite bool_decide_eq_false_2 by congruence. by rewrite andb_true_r.
Qed.
