(* ===== verification/LinkQueues.v ===== *)
(** * Per-link transmit queues

    The queues [wl->links[hlid].tx_queue[q]] of [struct wl1271_link], the count
    of queued frames the driver keeps beside them, and
    [wl1271_tx_reset_link_queues] (wlcore/tx.c).  [counts_ok] is the accounting
    invariant: the count of a queue is the number of frames queued for it on
    all links, plus one while the dummy packet is pending for it. *)

From S2P Require Import Prelude WlState Queues.

(** ** [struct sk_buff_head] operations on [wl->links[hlid].tx_queue[q]] *)

Definition link_queue (wl : wl1271) (hlid q : Z) : list nat :=
  zget [] (tx_queue (link_at wl hlid)) q.

Definition set_link_queue (hlid q : Z) (l : list nat) (wl : wl1271) : wl1271 :=
  upd_link hlid (fun lnk => lnk <| tx_queue ::= fun qs => zset qs q l |>) wl.

Definition skb_dequeue (hlid q : Z) (wl : wl1271) : option nat * wl1271 :=
  match link_queue wl hlid q with
  | [] => (None, wl)
  | skb :: rest => (Some skb, set_link_queue hlid q rest wl)
  end.

Definition skb_queue_tail (hlid q : Z) (skb : nat) (wl : wl1271) : wl1271 :=
  set_link_queue hlid q (link_queue wl hlid q ++ [skb]) wl.

Definition skb_queue_head (hlid q : Z) (skb : nat) (wl : wl1271) : wl1271 :=
  set_link_queue hlid q (skb :: link_queue wl hlid q) wl.

(** [wl->tx_queue_count[q] += n] *)
Definition add_queue_count (q n : Z) (wl : wl1271) : wl1271 :=
  wl <| tx_queue_count ::= fun l => zset l q (zget 0 l q + n) |>.

Definition wl12xx_is_dummy_packet (wl : wl1271) (skb : nat) : bool :=
  (dummy_packet (hw wl) =? skb)%nat.

(** [while ((skb = skb_dequeue(queue))) { body; count++; }]: the loop runs once
    per queued buffer, since the body does not queue any.  Returns the count. *)
Definition drain_queue (hlid q : Z) (body : nat -> wl1271 -> wl1271) (wl : wl1271)
    : Z * wl1271 :=
  fold_left (fun '(n, wl) skb => (n + 1, body skb (snd (skb_dequeue hlid q wl))))
    (link_queue wl hlid q) (0, wl).

(** Drain the four queues of a link, then subtract what was drained from the
    queue counts (under the lock) and reconsider the low watermark: the shape
    shared by [wl1271_tx_reset_link_queues] and [wl1271_ps_filter_frames]. *)
Definition drain_link (hlid : Z) (body : nat -> wl1271 -> wl1271) (wl : wl1271) : wl1271 :=
  let '(total, wl) :=
    for_range NUM_TX_QUEUES
      (fun i '(total, wl) =>
         let '(n, wl) := drain_queue hlid i body wl in (zset total i n, wl))
      ([0; 0; 0; 0], wl) in
  let wl := for_range NUM_TX_QUEUES
              (fun i => add_queue_count i (- zget 0 total i)) wl in
  wl1271_handle_tx_low_watermark wl.

Definition wl1271_tx_reset_link_queues (hlid : Z) (wl : wl1271) : wl1271 :=
  drain_link hlid
    (fun skb wl =>
       if wl12xx_is_dummy_packet wl skb then wl
       else
         emit (EvTxStatus skb)
           (upd_skb skb (fun s => s <| skb_cb ::= fun i =>
              i <| status_rate_idx := -1 |> <| status_rate_count := 0 |> |>) wl)) wl.

(** ** The accounting invariant *)

(** The queue (access category) a buffer is accounted to. *)
Definition ac_of (wl : wl1271) (skb : nat) : Z :=
  wl1271_tx_get_queue (skb_queue_mapping (skb_at wl skb)).

Definition link_load (q : Z) (lnk : wl1271_link) : Z := zlen (zget [] (tx_queue lnk) q).

Definition dummy_load (wl : wl1271) (q : Z) : Z :=
  if flag wl WL1271_FLAG_DUMMY_PACKET_PENDING && (ac_of wl (dummy_packet (hw wl)) =? q)
  then 1 else 0.

(** Frames waiting for queue [q], whatever their link. *)
Definition queued (wl : wl1271) (q : Z) : Z :=
  zsum (link_load q <$> links wl) + dummy_load wl q.

(** [counts_off d]: the counts exceed the queued frames by [d].  Between a
    dequeue and the matching update of the count, [d] is not zero. *)
Record counts_off (d : Z -> Z) (wl : wl1271) : Prop := CountsOff {
  co_links : zlen (links wl) = WL12XX_MAX_LINKS;
  co_queues : Forall (fun lnk => zlen (tx_queue lnk) = NUM_TX_QUEUES) (links wl);
  co_counts : zlen (tx_queue_count wl) = NUM_TX_QUEUES;
  co_eq q : is_queue q -> zget 0 (tx_queue_count wl) q = queued wl q + d q;
  co_placed hlid q skb : is_queue q -> skb ∈ link_queue wl hlid q ->
    ac_of wl skb = q /\ skb <> dummy_packet (hw wl)
}.

Definition counts_ok : wl1271 -> Prop := counts_off (fun _ => 0).

Definition is_link (h : Z) : Prop := 0 <= h < WL12XX_MAX_LINKS.

(** Pointwise shift of a deficit. *)
Definition shift (q n : Z) (d : Z -> Z) : Z -> Z := fun i => if i =? q then d i + n else d i.

(** ** Lemmas *)

Lemma counts_off_ext d d' wl :
  (forall q, is_queue q -> d q = d' q) -> counts_off d wl -> counts_off d' wl.
Proof. intros E [? ? ? H ?]. split; try done. intros q Hq. rewrite <- E by done. by apply H. Qed.

Lemma zsum_zset {A} (f : A -> Z) (d : A) l i x : 0 <= i < zlen l ->
  zsum (f <$> zset l i x) = zsum (f <$> l) - f (zget d l i) + f x.
Proof.
  unfold zget, zset, zlen. intros Hi. destruct (i <? 0) eqn:E; bool_to_prop; [lia|].
  assert (Hn : (Z.to_nat i < length l)%nat) by lia.
  revert Hn. generalize (Z.to_nat i). clear E Hi.
  induction l as [|y l IH]; intros [|n] Hn; simpl in *; try lia.
  unfold fmap in *. rewrite IH by lia. lia.
Qed.

Lemma link_load_nonneg q lnk : 0 <= link_load q lnk.
Proof. apply zlen_nonneg. Qed.

Lemma queued_nonneg wl q : 0 <= queued wl q.
Proof.
  unfold queued, dummy_load.
  pose proof (zsum_nonneg (link_load q) (links wl) (link_load_nonneg q)). split_if; lia.
Qed.

Lemma link_at_range wl h : is_link h -> zlen (links wl) = WL12XX_MAX_LINKS ->
  0 <= h < zlen (links wl).
Proof. unfold is_link. intros ? ->. done. Qed.

Lemma link_at_in wl h : is_link h -> zlen (links wl) = WL12XX_MAX_LINKS ->
  link_at wl h ∈ links wl.
Proof.
  intros Hh Hl. pose proof (link_at_range wl h Hh Hl). unfold link_at, zget, zlen in *.
  destruct (h <? 0) eqn:E; bool_to_prop; [lia|].
  apply list_elem_of_In, nth_In. lia.
Qed.

Lemma link_queues_len d wl h : counts_off d wl -> is_link h ->
  zlen (tx_queue (link_at wl h)) = NUM_TX_QUEUES.
Proof.
  intros H Hh. apply (proj1 (Forall_forall _ _) (co_queues _ _ H)).
  apply link_at_in; [done | apply (co_links _ _ H)].
Qed.

Lemma link_queue_set hlid q l wl h q' d :
  counts_off d wl -> is_link hlid -> is_queue q ->
  link_queue (set_link_queue hlid q l wl) h q' =
    if (hlid =? h) && (q =? q') then l else link_queue wl h q'.
Proof.
  intros H Hh Hq. unfold link_queue, set_link_queue, upd_link, link_at. simpl.
  rewrite zget_zset by (apply link_at_range; [done | apply (co_links _ _ H)]).
  destruct (hlid =? h) eqn:E; [|done]. bool_to_prop. subst h. simpl.
  rewrite zget_zset; [done|].
  pose proof (link_queues_len _ _ _ H Hh) as E. unfold link_at in E. by rewrite E.
Qed.

(** Replacing one queue moves its load and nothing else. *)
Lemma set_link_queue_counts d hlid q l wl :
  counts_off d wl -> is_link hlid -> is_queue q ->
  (forall skb, skb ∈ l -> ac_of wl skb = q /\ skb <> dummy_packet (hw wl)) ->
  counts_off (shift q (zlen (link_queue wl hlid q) - zlen l) d) (set_link_queue hlid q l wl).
Proof.
  intros H Hh Hq Hl. pose proof H as [Hlinks Hqs Hcl Heq Hpl].
  pose proof (link_at_range wl hlid Hh Hlinks) as Hr.
  pose proof (link_queues_len _ _ _ H Hh) as Hlq.
  split; [by simpl; rewrite zlen_zset | | done | |].
  - simpl. apply Forall_zset; [done|]. simpl. by rewrite zlen_zset.
  - intros q' Hq'. specialize (Heq q' Hq').
    change (tx_queue_count (set_link_queue hlid q l wl)) with (tx_queue_count wl).
    rewrite Heq. unfold queued. simpl links.
    change (dummy_load (set_link_queue hlid q l wl) q') with (dummy_load wl q').
    rewrite (zsum_zset _ link0) by done. unfold link_load at 4, shift. simpl.
    unfold link_queue, link_at, link_load.
    destruct (q' =? q) eqn:E; bool_to_prop.
    + subst q'. rewrite zget_zset_eq by (unfold link_at in Hlq; by rewrite Hlq). lia.
    + rewrite zget_zset_ne by congruence. lia.
  - intros h q' skb Hq' Hin. rewrite (link_queue_set _ _ _ _ _ _ _ H Hh Hq) in Hin.
    change (ac_of (set_link_queue hlid q l wl) skb) with (ac_of wl skb).
    destruct ((hlid =? h) && (q =? q')) eqn:E; [|by apply (Hpl h)].
    bool_to_prop. subst q'. by apply Hl.
Qed.

Lemma add_queue_count_counts d q n wl :
  counts_off d wl -> is_queue q -> counts_off (shift q n d) (add_queue_count q n wl).
Proof.
  intros [Hlinks Hqs Hcl Heq Hpl] Hq. split; try done.
  - simpl. by rewrite zlen_zset.
  - intros q' Hq'. unfold add_queue_count, shift. simpl.
    change (queued (wl <| tx_queue_count ::= fun l => zset l q (zget 0 l q + n) |>) q')
      with (queued wl q').
    rewrite zget_zset by (rewrite Hcl; done).
    rewrite (Z.eqb_sym q' q). destruct (q =? q') eqn:E; bool_to_prop.
    + subst q'. rewrite Heq by done. lia.
    + by apply Heq.
Qed.

(** A step that changes neither queues nor counts, nor the queue mapping of any
    buffer, nor the pending dummy packet, keeps the accounting. *)
Lemma counts_off_frame d wl wl' :
  links wl' = links wl -> tx_queue_count wl' = tx_queue_count wl -> hw wl' = hw wl ->
  flag wl' WL1271_FLAG_DUMMY_PACKET_PENDING = flag wl WL1271_FLAG_DUMMY_PACKET_PENDING ->
  (forall skb, ac_of wl' skb = ac_of wl skb) ->
  counts_off d wl -> counts_off d wl'.
Proof.
  intros Hl Hc Hh Hf Ha [? ? ? Heq Hpl]. split.
  - by rewrite Hl.
  - by rewrite Hl.
  - by rewrite Hc.
  - intros q Hq. rewrite Hc, (Heq q Hq). unfold queued, dummy_load.
    by rewrite Hl, Hf, Hh, Ha.
  - intros h q skb Hq. unfold link_queue, link_at. rewrite Hl, Hh, Ha. by apply Hpl.
Qed.

(** The part of the control block set by mac80211. *)
Definition same_control (i j : tx_info) : Prop :=
  control_vif i = control_vif j /\ control_hw_key i = control_hw_key j.

Definition keeps_control (g : tx_info -> tx_info) : Prop := forall i, same_control (g i) i.

(** [wl'] has the buffers of [wl] up to the status part of their control blocks. *)
Definition same_payload (wl wl' : wl1271) : Prop :=
  forall s, (is_Some (skbs wl' !! s) <-> is_Some (skbs wl !! s)) /\
    exists i, skb_at wl' s = (skb_at wl s) <| skb_cb := i |> /\
      same_control i (skb_cb (skb_at wl s)).

#[export] Instance same_payload_refl : Reflexive same_payload.
Proof.
  intros wl s. split; [done|]. exists (skb_cb (skb_at wl s)). by destruct (skb_at wl s).
Qed.

#[export] Instance same_payload_trans : Transitive same_payload.
Proof.
  intros a b c H1 H2 s. destruct (H1 s) as (A1 & i & E1 & C1 & K1), (H2 s) as (A2 & j & E2 & C2 & K2).
  split; [by rewrite A2|]. exists j. rewrite E2, E1 in *. split; [done|].
  simpl in *. split; congruence.
Qed.

Lemma same_payload_ac wl wl' s : same_payload wl wl' -> ac_of wl' s = ac_of wl s.
Proof. intros H. unfold ac_of. destruct (H s) as (_ & i & -> & _). done. Qed.

Lemma same_payload_data wl wl' s : same_payload wl wl' ->
  skb_data (skb_at wl' s) = skb_data (skb_at wl s).
Proof. intros H. destruct (H s) as (_ & i & -> & _). done. Qed.

Lemma ac_of_upd_skb skb f wl s :
  (forall x, skb_queue_mapping (f x) = skb_queue_mapping x) ->
  ac_of (upd_skb skb f wl) s = ac_of wl s.
Proof.
  intros Hf. unfold ac_of, skb_at, upd_skb. simpl. rewrite !lookup_total_alt, lookup_alter.
  case_decide; [|done]. subst. destruct (skbs wl !! s); simpl; [by rewrite Hf | done].
Qed.

(** Bodies of the drain loops: they complete a buffer and touch nothing else. *)
Definition completes (body : nat -> wl1271 -> wl1271) : Prop :=
  forall skb wl,
    let wl' := body skb wl in
    (exists k l, wl' = wl <| skbs := k |> <| log := l |>) /\
    same_payload wl wl' /\
    (forall q, mac_stopped q (log wl') = mac_stopped q (log wl)).

Lemma completes_counts body d skb wl :
  completes body -> counts_off d wl -> counts_off d (body skb wl).
Proof.
  intros Hb. destruct (Hb skb wl) as ((k & l & E) & Ha & _). cbv zeta in *.
  apply counts_off_frame; [by rewrite E.. |]. intros s. by apply same_payload_ac.
Qed.

Lemma skb_dequeue_spec d hlid q wl :
  counts_off d wl -> is_link hlid -> is_queue q ->
  match link_queue wl hlid q with
  | [] => skb_dequeue hlid q wl = (None, wl)
  | skb :: rest =>
      skb_dequeue hlid q wl = (Some skb, set_link_queue hlid q rest wl) /\
      counts_off (shift q 1 d) (set_link_queue hlid q rest wl)
  end.
Proof.
  intros H Hh Hq. unfold skb_dequeue. destruct (link_queue wl hlid q) as [|skb rest] eqn:E; [done|].
  split; [done|]. eapply counts_off_ext; [|apply (set_link_queue_counts d)]; try done.
  - intros q' _. unfold shift. rewrite E. unfold zlen. simpl. split_if; lia.
  - intros s Hs. apply (co_placed _ _ H hlid q); [done|]. rewrite E. by right.
Qed.

(** Frame of the drain loops. *)
Definition drain_frame (wl wl' : wl1271) : Prop :=
  exists n k l, wl' = wl <| links := n |> <| skbs := k |> <| log := l |>.

#[export] Instance drain_frame_refl : Reflexive drain_frame.
Proof. intros wl. exists (links wl), (skbs wl), (log wl). by destruct wl. Qed.

#[export] Instance drain_frame_trans : Transitive drain_frame.
Proof. intros a b c (n & k & l & ->) (n' & k' & l' & ->). by exists n', k', l'. Qed.

(** Loop rule of [drain_queue]: an invariant indexed by the buffers left. *)
Lemma drain_queue_ind (P : Z -> list nat -> wl1271 -> Prop) hlid q body wl :
  P 0 (link_queue wl hlid q) wl ->
  (forall n skb rest wl, link_queue wl hlid q = skb :: rest -> P n (skb :: rest) wl ->
     let wl' := body skb (set_link_queue hlid q rest wl) in
     link_queue wl' hlid q = rest /\ P (n + 1) rest wl') ->
  let '(n, wl') := drain_queue hlid q body wl in
  n = zlen (link_queue wl hlid q) /\ link_queue wl' hlid q = [] /\ P n [] wl'.
Proof.
  intros H0 Hstep. unfold drain_queue.
  cut (forall l n wl, link_queue wl hlid q = l -> P n l wl ->
    let '(n', wl') := fold_left (fun '(n, wl) skb =>
      (n + 1, body skb (snd (skb_dequeue hlid q wl)))) l (n, wl) in
    n' = n + zlen l /\ link_queue wl' hlid q = [] /\ P n' [] wl').
  { intros H. specialize (H (link_queue wl hlid q) 0 wl eq_refl H0).
    destruct (fold_left _ _ _). destruct H as (? & ? & ?). split; [lia | done]. }
  clear H0 wl. induction l as [|skb rest IH]; intros n wl Hl HP; simpl.
  - unfold zlen. simpl. split; [lia | done].
  - destruct (Hstep n skb rest wl Hl HP) as [Hl' HP'].
    assert (snd (skb_dequeue hlid q wl) = set_link_queue hlid q rest wl) as ->
      by (unfold skb_dequeue; by rewrite Hl).
    specialize (IH _ _ Hl' HP'). destruct (fold_left _ _ _) as [n' wl'].
    destruct IH as (-> & ? & ?). split; [unfold zlen; simpl; lia | done].
Qed.

Lemma completes_link_queue body skb wl h q :
  completes body -> link_queue (body skb wl) h q = link_queue wl h q.
Proof. intros Hb. destruct (Hb skb wl) as ((? & ? & E) & _ & _). cbv zeta in E. by rewrite E. Qed.

Lemma drain_queue_spec d hlid q body wl :
  completes body -> counts_off d wl -> is_link hlid -> is_queue q ->
  let '(n, wl') := drain_queue hlid q body wl in
  counts_off (shift q n d) wl' /\
  (forall h q', link_queue wl' h q' =
     if (hlid =? h) && (q =? q') then [] else link_queue wl h q') /\
  drain_frame wl wl' /\
  (forall q, mac_stopped q (log wl') = mac_stopped q (log wl)) /\
  same_payload wl wl'.
Proof.
  intros Hb H Hh Hq.
  pose proof (drain_queue_ind (fun n l w =>
    counts_off (shift q n d) w /\
    (forall h q', link_queue w h q' =
       if (hlid =? h) && (q =? q') then l else link_queue wl h q') /\
    drain_frame wl w /\
    (forall q, mac_stopped q (log w) = mac_stopped q (log wl)) /\
    same_payload wl w) hlid q body wl) as L.
  destruct (drain_queue hlid q body wl) as [n wl'].
  destruct L as (-> & _ & L); [| |exact L].
  - split_and!; try done.
    + eapply counts_off_ext; [|exact H]. intros q' _. unfold shift. split_if; lia.
    + intros h q'. destruct ((hlid =? h) && (q =? q')) eqn:E; [|done]. bool_to_prop. by subst.
  - intros k skb rest w Hl (Hc & Hlq & Hf & Hm & Ha). cbv zeta.
    destruct (Hb skb (set_link_queue hlid q rest w)) as ((k' & l' & E) & Ha' & Hm'). cbv zeta in *.
    pose proof (skb_dequeue_spec _ hlid q w Hc Hh Hq) as Hd. rewrite Hl in Hd.
    destruct Hd as [_ Hd].
    assert (forall h q', link_queue (body skb (set_link_queue hlid q rest w)) h q' =
       if (hlid =? h) && (q =? q') then rest else link_queue wl h q') as Hlq'.
    { intros h q'. rewrite completes_link_queue, (link_queue_set _ _ _ _ _ _ _ Hc Hh Hq) by done.
      rewrite Hlq. by destruct ((hlid =? h) && (q =? q')). }
    split_and!.
    + by rewrite Hlq', !Z.eqb_refl.
    + apply completes_counts; [done|]. eapply counts_off_ext; [|exact Hd].
      intros q' _. unfold shift. split_if; lia.
    + exact Hlq'.
    + destruct Hf as (n0 & k0 & l0 & ->). rewrite E.
      match goal with |- drain_frame _ ?x => exists (links x), k', l' end. reflexivity.
    + intros q'. rewrite Hm'. apply Hm.
    + etrans; [exact Ha | exact Ha'].
Qed.

Lemma subtract_counts d (total : list Z) wl :
  counts_off d wl -> (forall q, is_queue q -> d q = zget 0 total q) ->
  counts_ok (for_range NUM_TX_QUEUES (fun i => add_queue_count i (- zget 0 total i)) wl).
Proof.
  intros H Hd. unfold counts_ok.
  pose proof (for_range_ind (fun i w => counts_off (fun q => if q <? i then 0 else d q) w)
    NUM_TX_QUEUES (fun i => add_queue_count i (- zget 0 total i)) wl) as L.
  eapply counts_off_ext; [|apply L].
  - intros q [_ Hq]. cbv beta. by rewrite (proj2 (Z.ltb_lt _ _) Hq).
  - unfold NUM_TX_QUEUES. lia.
  - eapply counts_off_ext; [|exact H]. intros q [Hq _]. cbv beta.
    by rewrite (proj2 (Z.ltb_ge _ _) Hq).
  - intros w i Hi Hw. eapply counts_off_ext; [|by apply add_queue_count_counts].
    intros q Hq. unfold shift. destruct (q =? i) eqn:E; bool_to_prop.
    + subst q. rewrite (proj2 (Z.ltb_ge i i)), (proj2 (Z.ltb_lt i (i + 1))) by lia.
      rewrite Hd by done. lia.
    + repeat split_if; bool_to_prop; lia.
Qed.

(** What draining a link may change, and what it does. *)
Definition drained_frame (wl wl' : wl1271) : Prop :=
  exists n k c r l,
    wl' = wl <| links := n |> <| skbs := k |> <| tx_queue_count := c |>
             <| queue_stop_reasons := r |> <| log := l |>.

Lemma add_queue_counts_frame (total : Z -> Z) n wl :
  exists c, for_range n (fun i => add_queue_count i (total i)) wl = wl <| tx_queue_count := c |>.
Proof.
  apply (for_range_inv (fun w => exists c, w = wl <| tx_queue_count := c |>)).
  - exists (tx_queue_count wl). by destruct wl.
  - intros w i _ [c ->]. by eexists.
Qed.

Lemma drain_loop_spec hlid body wl :
  completes body -> counts_ok wl -> is_link hlid ->
  let '(total, w) :=
    for_range NUM_TX_QUEUES
      (fun i '(total, wl) =>
         let '(n, wl) := drain_queue hlid i body wl in (zset total i n, wl))
      ([0; 0; 0; 0], wl) in
  counts_off (fun q => zget 0 total q) w /\
  (forall h q, is_queue q ->
     link_queue w h q = if hlid =? h then [] else link_queue wl h q) /\
  drain_frame wl w /\
  (forall q, mac_stopped q (log w) = mac_stopped q (log wl)) /\
  same_payload wl w.
Proof.
  intros Hb H Hh.
  set (body' := fun i '(total, wl) => let '(n, wl) := drain_queue hlid i body wl in
                                      (zset total i n, wl) : list Z * wl1271).
  pose proof (for_range_ind (fun i '(total, w) =>
    zlen total = NUM_TX_QUEUES /\
    counts_off (fun q => if q <? i then zget 0 total q else 0) w /\
    (forall h q, is_queue q ->
       link_queue w h q = if (hlid =? h) && (q <? i) then [] else link_queue wl h q) /\
    drain_frame wl w /\
    (forall q, mac_stopped q (log w) = mac_stopped q (log wl)) /\
    same_payload wl w) NUM_TX_QUEUES body' ([0; 0; 0; 0], wl)) as L.
  destruct (for_range NUM_TX_QUEUES body' _) as [total w].
  destruct L as (_ & Hc & Hl & Hf & Hm & Ha); [done| | |].
  - split_and!; try done.
    + eapply counts_off_ext; [|exact H]. intros q [Hq _]. by rewrite (proj2 (Z.ltb_ge _ _) Hq).
    + intros h q [Hq _]. by rewrite (proj2 (Z.ltb_ge q 0) Hq), andb_false_r.
  - clear total w. intros [total w] i Hi (Hlen & Hc & Hl & Hf & Hm & Ha). subst body'. simpl.
    pose proof (drain_queue_spec _ hlid i body w Hb Hc Hh Hi) as D.
    destruct (drain_queue hlid i body w) as [n w'].
    destruct D as (Hc' & Hl' & Hf' & Hm' & Ha'). split_and!.
    + by rewrite zlen_zset.
    + eapply counts_off_ext; [|exact Hc']. intros q Hq. unfold shift.
      rewrite zget_zset by (by rewrite Hlen). rewrite (Z.eqb_sym i q).
      destruct (q =? i) eqn:E; bool_to_prop.
      * subst q. rewrite (proj2 (Z.ltb_ge i i)), (proj2 (Z.ltb_lt i (i + 1))) by lia. lia.
      * repeat split_if; bool_to_prop; lia.
    + intros h q Hq. rewrite Hl', (Hl h q Hq).
      destruct (hlid =? h); simpl; [|done].
      destruct (i =? q) eqn:E; bool_to_prop; repeat split_if; bool_to_prop; done || lia.
    + by etrans.
    + intros q. by rewrite Hm'.
    + by etrans.
  - split_and!; try done.
    + eapply counts_off_ext; [|exact Hc]. intros q [_ Hq]. cbv beta.
      by rewrite (proj2 (Z.ltb_lt _ _) Hq).
    + intros h q Hq. rewrite (Hl h q Hq). destruct Hq as [_ Hq].
      by rewrite (proj2 (Z.ltb_lt _ _) Hq), andb_true_r.
Qed.

Lemma queue_frame_counts d wl wl' : queue_frame wl wl' -> counts_off d wl -> counts_off d wl'.
Proof. intros (r & l & ->). by apply counts_off_frame. Qed.

Lemma drain_link_spec hlid body wl :
  completes body -> counts_ok wl -> is_link hlid ->
  let wl' := drain_link hlid body wl in
  counts_ok wl' /\
  (forall h q, is_queue q ->
     link_queue wl' h q = if hlid =? h then [] else link_queue wl h q) /\
  drained_frame wl wl' /\
  same_payload wl wl' /\
  (queues_ok wl -> queues_ok wl').
Proof.
  intros Hb H Hh. unfold drain_link.
  pose proof (drain_loop_spec hlid body wl Hb H Hh) as L.
  destruct (for_range NUM_TX_QUEUES _ _) as [total w].
  destruct L as (Hc & Hl & Hf & Hm & Ha). cbv zeta.
  destruct (add_queue_counts_frame (fun i => - zget 0 total i) NUM_TX_QUEUES w) as [c F].
  pose proof (subtract_counts _ total w Hc (fun _ _ => eq_refl)) as C.
  set (w2 := for_range NUM_TX_QUEUES (fun i => add_queue_count i (- zget 0 total i)) w) in *.
  clearbody w2.
  pose proof (low_watermark_ok w2) as QO.
  pose proof (queue_frame_counts _ _ _ (low_watermark_frame w2) C) as C'.
  destruct (low_watermark_frame w2) as (r & l & Q). rewrite Q in *. clear Q. subst w2.
  split_and!.
  - done.
  - intros h q Hq. by rewrite <- (Hl h q Hq).
  - destruct Hf as (n0 & k0 & l0 & ->). exists n0, k0, c, r, l. reflexivity.
  - intros s. exact (Ha s).
  - intros Hok. apply QO. apply (queues_ok_frame w); [done..|].
    apply (queues_ok_frame wl); [by destruct Hf as (? & ? & ? & ->) | done | done].
Qed.

Lemma complete_skb_completes (g : tx_info -> tx_info) : keeps_control g ->
  completes (fun skb wl =>
    if wl12xx_is_dummy_packet wl skb then wl
    else emit (EvTxStatus skb) (upd_skb skb (fun s => s <| skb_cb ::= g |>) wl)).
Proof.
  intros Hg skb wl. cbv zeta. split_if.
  { split_and!; [|done..]. exists (skbs wl), (log wl). by destruct wl. }
  split_and!; [by do 2 eexists | | done].
  intros s. change (skb_at (emit ?e ?w) s) with (skb_at w s).
  change (skbs (emit ?e ?w)) with (skbs w). unfold skb_at, upd_skb. simpl.
  rewrite !lookup_total_alt, lookup_alter. case_decide; [subst|by apply same_payload_refl].
  destruct (skbs wl !! s) as [b|]; simpl.
  - split; [split; by eexists|]. exists (g (skb_cb b)). split; [done | apply Hg].
  - split; [done|]. by exists tx_info0.
Qed.

Lemma reset_link_queues_spec hlid wl :
  counts_ok wl -> is_link hlid ->
  let wl' := wl1271_tx_reset_link_queues hlid wl in
  counts_ok wl' /\
  (forall h q, is_queue q ->
     link_queue wl' h q = if hlid =? h then [] else link_queue wl h q) /\
  drained_frame wl wl' /\
  same_payload wl wl' /\
  (queues_ok wl -> queues_ok wl').
Proof. intros H Hh. apply drain_link_spec; [|done..]. by apply complete_skb_completes. Qed.

(** ** Sums over the links *)

Lemma zsum_index {A} (f : A -> Z) d l :
  zsum (f <$> l) = zsum ((fun i => f (zget d l i)) <$> zseq (zlen l)).
Proof.
  induction l as [|x l IH] using rev_ind; [done|].
  unfold zlen in *. rewrite length_app, Nat2Z.inj_add. simpl length.
  rewrite zseq_succ by lia. rewrite !fmap_app, !zsum_app, IH. f_equal.
  - apply zsum_ext. intros i Hi%elem_of_zseq. f_equal. unfold zget.
    destruct (i <? 0) eqn:E; bool_to_prop; [lia|]. rewrite app_nth1 by lia. done.
  - csimpl. f_equal. f_equal. unfold zget.
    destruct (_ <? 0) eqn:E; bool_to_prop; [lia|].
    rewrite Nat2Z.id, app_nth2, Nat.sub_diag by lia. done.
Qed.

Lemma queued_le wl wl' q : zlen (links wl') = zlen (links wl) ->
  (forall h, zlen (link_queue wl' h q) <= zlen (link_queue wl h q)) ->
  dummy_load wl' q = dummy_load wl q -> queued wl' q <= queued wl q.
Proof.
  intros El Hq Hd. unfold queued. rewrite Hd, !(zsum_index _ link0), El.
  apply Z.add_le_mono_r, zsum_le. intros i _. apply Hq.
Qed.

(** Draining never adds to a count. *)
Lemma drain_link_backlog hlid body wl q :
  completes body -> counts_ok wl -> is_link hlid -> is_queue q ->
  zget 0 (tx_queue_count (drain_link hlid body wl)) q <= zget 0 (tx_queue_count wl) q.
Proof.
  intros Hb H Hh Hq.
  destruct (drain_link_spec hlid body wl Hb H Hh) as (H' & Hl & (n & k & c & r & l & E) & P & _).
  set (wl' := drain_link hlid body wl) in *. clearbody wl'.
  rewrite (co_eq _ _ H' q Hq), (co_eq _ _ H q Hq). apply Z.add_le_mono_r, queued_le.
  - by rewrite (co_links _ _ H'), (co_links _ _ H).
  - intros h. rewrite Hl by done. split_if; [|lia]. unfold zlen. simpl. lia.
  - unfold dummy_load. rewrite (same_payload_ac _ _ _ P). by rewrite E.
Qed.
