(* ===== verification/PowerSave.v ===== *)
(** * Power save (wlcore/ps.c)

    Dropping a sleeping station's queued frames, entering and leaving
    mac80211-level power save on a link, and the chip's own extended low power
    mode (ELP). *)

From S2P Require Import Prelude WlState ChipOps Io Queues LinkQueues.

(** ** mac80211-level power save *)

Definition wl1271_ps_filter_frames (hlid : Z) (wl : wl1271) : wl1271 :=
  drain_link hlid
    (fun skb wl =>
       if wl12xx_is_dummy_packet wl skb then wl
       else
         emit (EvTxStatus skb)
           (upd_skb skb (fun s => s <| skb_cb ::= fun i =>
              i <| info_flags ::= fun f => Z.lor f IEEE80211_TX_STAT_TX_FILTERED |>
                <| status_rate_idx := -1 |> |>) wl)) wl.

Definition wl12xx_ps_link_start (wlvif : nat) (hlid : Z) (clean_queues : bool)
    (wl : wl1271) : wl1271 :=
  if test_bit hlid (ap_ps_map wl) then wl
  else
    let addr := link_addr (link_at wl hlid) in
    if negb (find_sta (hw wl) wlvif addr) then wl
    else
      let wl := emit (EvStaPs addr true) wl in
      let wl := if clean_queues then wl1271_ps_filter_frames hlid wl else wl in
      wl <| ap_ps_map ::= set_bit hlid |>.

Definition wl12xx_ps_link_end (wlvif : nat) (hlid : Z) (wl : wl1271) : wl1271 :=
  if negb (test_bit hlid (ap_ps_map wl)) then wl
  else
    let wl := wl <| ap_ps_map ::= clear_bit hlid |> in
    let addr := link_addr (link_at wl hlid) in
    if negb (find_sta (hw wl) wlvif addr) then wl
    else emit (EvStaPs addr false) wl.

(** ** Extended low power *)

Definition HW_ACCESS_ELP_CTRL_REG := 0x1FFFC.
Definition ELPCTRL_WAKE_UP := 0x1.
Definition ELPCTRL_SLEEP := 0x0.

(** No interface forbids sleeping: none is an access point and each one in use
    is in power save. *)
Definition elp_allowed (wl : wl1271) : bool :=
  forallb (fun v =>
    let w := vif_at wl v in
    negb (is_ap w) &&
    negb (negb (vif_flag w WLVIF_FLAG_IN_PS) && vif_flag w WLVIF_FLAG_IN_USE))
    (wlvif_list wl).

Definition wl1271_elp_work (wl : wl1271) : wl1271 :=
  let wl := wl <| elp_work_queued := false |> in
  if negb (bool_decide (state wl = WLCORE_STATE_ON)) then wl
  else if negb (flag wl WL1271_FLAG_ELP_REQUESTED) then wl
  else if flag wl WL1271_FLAG_IN_ELP then wl
  else if negb (elp_allowed wl) then wl
  else
    let '(ret, wl) := wlcore_raw_write32 HW_ACCESS_ELP_CTRL_REG ELPCTRL_SLEEP wl in
    if ret <? 0 then wl12xx_queue_recovery_work wl
    else set_flag WL1271_FLAG_IN_ELP wl.

Definition wl1271_ps_elp_sleep (wl : wl1271) : wl1271 :=
  if negb (sleep_auth wl =? WL1271_PSM_ELP) then wl
  else if flag wl WL1271_FLAG_ELP_REQUESTED then wl
  else
    let wl := set_flag WL1271_FLAG_ELP_REQUESTED wl in
    if negb (elp_allowed wl) then wl
    else wl <| elp_work_queued := true |>.

(** [completed] is the result of [wait_for_completion_timeout]: positive when
    the wake-up interrupt came in time, zero on timeout, negative on error. *)
Definition wl1271_ps_elp_wakeup (completed : Z) (wl : wl1271) : Z * wl1271 :=
  if negb (flag wl WL1271_FLAG_ELP_REQUESTED) then (0, wl)
  else
    let wl := clear_flag WL1271_FLAG_ELP_REQUESTED wl in
    let wl := wl <| elp_work_queued := false |> in
    if negb (flag wl WL1271_FLAG_IN_ELP) then (0, wl)
    else
      let pending := flag wl WL1271_FLAG_IRQ_RUNNING in
      let '(ret, wl) := wlcore_raw_write32 HW_ACCESS_ELP_CTRL_REG ELPCTRL_WAKE_UP wl in
      if ret <? 0 then (ret, wl12xx_queue_recovery_work wl)
      else if negb pending && (completed =? 0)
        then (- ETIMEDOUT, wl12xx_queue_recovery_work wl)
      else if negb pending && (completed <? 0) then (completed, wl)
      else (0, clear_flag WL1271_FLAG_IN_ELP wl).
