(* ===== verification/TxPath.v ===== *)
(** * Preparing a frame for the firmware (wlcore/tx.c, first half)

    From a queued buffer to its bytes in the aggregation buffer: descriptor
    identifiers, the accounting of firmware memory blocks, the hardware
    descriptor, and the copy.  Results are [Z] error codes as in C; [None] is a
    NULL dereference. *)

From S2P Require Import Prelude Ieee80211 WlState ChipOps Io Queues LinkQueues.
From S2P Require Import PowerSave.

Definition WL1271_EXTRA_SPACE_TKIP := 4.
Definition TX_HW_MGMT_PKT_LIFETIME_TU := 2000.
Definition TX_HW_AP_MODE_PKT_LIFETIME_TU := 8000.
Definition TX_HW_ATTR_SESSION_COUNTER := Z.lor (BIT 2) (Z.lor (BIT 3) (BIT 4)).
Definition TX_HW_ATTR_TX_DUMMY_REQ := BIT 13.
Definition TX_HW_ATTR_HOST_ENCRYPT := BIT 14.
Definition TX_HW_ATTR_OFST_SESSION_COUNTER := 2.
Definition TX_HW_ATTR_OFST_RATE_POLICY := 5.
Definition TX_HW_ATTR_OFST_LAST_WORD_PAD := 10.
(** [cpu_to_be16(ETH_P_PAE)] as the little-endian host reads [skb->protocol]. *)
Definition ETH_P_PAE_BE := 0x8e88.
Definition HW_HT_RATES_OFFSET := 16.
Definition CONF_HW_BIT_RATE_MCS_0 := BIT 13.

(** ** Descriptor identifiers *)

Definition wl1271_alloc_tx_id (skb : nat) (wl : wl1271) : Z * wl1271 :=
  let id := find_first_zero_bit (tx_frames_map wl) (num_tx_desc (hw wl)) in
  if num_tx_desc (hw wl) <=? id then (- EBUSY, wl)
  else
    (id, wl <| tx_frames_map ::= set_bit id |>
            <| tx_frames ::= fun l => zset l id (Some skb) |>
            <| tx_frames_cnt ::= Z.add 1 |>).

Definition wl1271_free_tx_id (id : Z) (wl : wl1271) : wl1271 :=
  if test_bit id (tx_frames_map wl) then
    let wl := wl <| tx_frames_map ::= clear_bit id |> in
    let wl := if tx_frames_cnt wl =? num_tx_desc (hw wl)
              then clear_flag WL1271_FLAG_FW_TX_BUSY wl else wl in
    wl <| tx_frames ::= fun l => zset l id None |>
       <| tx_frames_cnt ::= fun n => n - 1 |>
  else wl.

(** ** Watchdog (main.c) *)

Definition wl12xx_rearm_tx_watchdog_locked (wl : wl1271) : wl1271 :=
  if tx_allocated_blocks wl =? 0 then wl
  else wl <| tx_watchdog_armed := true |>.

(** ** Choosing the link of a frame *)

Definition wl12xx_tx_get_hlid_ap (wl : wl1271) (wlvif : wl12xx_vif) (skb : sk_buff)
    (sta : option Z) : Z :=
  match sta with
  | Some hlid => hlid
  | None =>
      if negb (vif_flag wlvif WLVIF_FLAG_AP_STARTED) then system_hlid (hw wl)
      else if is_multicast_ether_addr (ieee80211_get_DA (skb_data skb))
      then ap_bcast_hlid wlvif
      else ap_global_hlid wlvif
  end.

Definition wl12xx_tx_get_hlid (wl : wl1271) (wlvif : option nat) (skb : nat)
    (sta : option Z) : Z :=
  match wlvif with
  | None => system_hlid (hw wl)
  | Some v =>
      if wl12xx_is_dummy_packet wl skb then system_hlid (hw wl)
      else
        let w := vif_at wl v in
        if is_ap w then wl12xx_tx_get_hlid_ap wl w (skb_at wl skb) sta
        else if has (info_flags (skb_cb (skb_at wl skb))) IEEE80211_TX_CTL_TX_OFFCHAN
        then dev_hlid w
        else sta_hlid w
  end.

(** ** Accepting a frame from mac80211 (main.c, [wl1271_op_tx]) *)

Definition wl1271_op_tx (skb : nat) (wl : wl1271) : wl1271 :=
  let info := skb_cb (skb_at wl skb) in
  let wlvif := control_vif info in
  let q := wl1271_tx_get_queue (skb_queue_mapping (skb_at wl skb)) in
  let hlid := wl12xx_tx_get_hlid wl wlvif skb (control_sta info) in
  if (hlid =? WL12XX_INVALID_LINK_ID)
     || match wlvif with
        | Some v => negb (test_bit hlid (vif_links_map (vif_at wl v)))
        | None => false
        end
     || (wlcore_is_queue_stopped wl q
         && negb (wlcore_is_queue_stopped_by_reason wl q WLCORE_QUEUE_STOP_REASON_WATERMARK))
  then emit (EvFreeTxskb skb) wl
  else
    let wl := skb_queue_tail hlid q skb wl in
    let wl := add_queue_count q 1 wl in
    let wl :=
      if (WL1271_TX_QUEUE_HIGH_WATERMARK <=? zget 0 (tx_queue_count wl) q)
         && negb (wlcore_is_queue_stopped_by_reason wl q WLCORE_QUEUE_STOP_REASON_WATERMARK)
      then wlcore_stop_queue_locked q WLCORE_QUEUE_STOP_REASON_WATERMARK wl
      else wl in
    if negb (flag wl WL1271_FLAG_FW_TX_BUSY) && negb (flag wl WL1271_FLAG_TX_PENDING)
    then emit EvQueueTxWork wl else wl.

Section TxPath.
Context `{ops : wlcore_ops}.

(** ** Firmware memory blocks *)

Definition wl1271_tx_allocate (wlvif : option nat) (skb : nat) (extra buf_offset hlid : Z)
    (is_gem : bool) (wl : wl1271) : Z * wl1271 :=
  let len := skb_len (skb_at wl skb) in
  let total_len := u32 (len + TX_DESC_SIZE + extra) in
  if aggr_buf_size (hw wl) <? u32 (buf_offset + total_len) then (- EAGAIN, wl)
  else
    let spare_blocks := get_spare_blocks wl is_gem in
    let '(id, wl) := wl1271_alloc_tx_id skb wl in
    if id <? 0 then (id, wl)
    else
      let total_blocks := calc_tx_blocks wl total_len spare_blocks in
      if total_blocks <=? tx_blocks_available wl then
        let wl := upd_skb skb (skb_push (total_len - len)) wl in
        let wl := upd_skb skb (fun s => s <| skb_data ::= with_desc (fun d =>
                    (set_tx_desc_blocks wl d total_blocks spare_blocks)
                      <| d_id := u8 id |>) |>) wl in
        let wl := wl <| tx_blocks_available ::= fun n => u32 (n - total_blocks) |>
                     <| tx_allocated_blocks ::= fun n => u32 (n + total_blocks) |> in
        let wl := if tx_allocated_blocks wl =? total_blocks
                  then wl12xx_rearm_tx_watchdog_locked wl else wl in
        let ac := wl1271_tx_get_queue (skb_queue_mapping (skb_at wl skb)) in
        let wl := wl <| tx_allocated_pkts ::= fun l => zset l ac (u32 (zget 0 l ac + 1)) |> in
        let wl :=
          match wlvif with
          | Some v =>
              if negb (wl12xx_is_dummy_packet wl skb) && is_ap (vif_at wl v)
                 && test_bit hlid (ap_sta_hlid_map (vif_at wl v))
              then upd_link hlid (fun lnk => lnk <| allocated_pkts ::= fun n => u8 (n + 1) |>) wl
              else wl
          | None => wl
          end in
        (0, wl)
      else (- EBUSY, wl1271_free_tx_id id wl).

(** ** The hardware descriptor *)

(** [memmove(frame_start, hdr, hdrlen)] with [hdr = frame_start + extra]: the
    802.11 header moves down over the security header space. *)
Definition relocate_header (extra : Z) (data : list Z) : list Z :=
  let start := Z.to_nat TX_DESC_SIZE in
  let frame := drop (start + Z.to_nat extra) data in
  let hdrlen := Z.to_nat (ieee80211_hdrlen (frame_control frame)) in
  take start data ++ take hdrlen frame ++ drop (start + hdrlen) data.

Definition tx_rate_idx (wl : wl1271) (wlvif : option nat) (is_dummy : bool) (skb : sk_buff)
    (fc ac hlid : Z) : Z :=
  match wlvif with
  | None => 0
  | Some v =>
      let w := vif_at wl v in
      if is_dummy then 0
      else if negb (is_ap w) then
        if skb_protocol skb =? ETH_P_PAE_BE then sta_basic_rate_idx w
        else if has (info_flags (skb_cb skb)) IEEE80211_TX_CTL_NO_CCK_RATE
        then sta_p2p_rate_idx w
        else if ieee80211_is_data fc then sta_ap_rate_idx w
        else sta_basic_rate_idx w
      else if hlid =? ap_global_hlid w then ap_mgmt_rate_idx w
      else if (hlid =? ap_bcast_hlid w) || (skb_protocol skb =? ETH_P_PAE_BE)
              || negb (ieee80211_is_data fc)
      then ap_bcast_rate_idx w
      else zget 0 (ap_ucast_rate_idx w) ac
  end.

Definition wl1271_tx_fill_hdr (wlvif : option nat) (skb : nat) (extra hlid : Z)
    (wl : wl1271) : wl1271 :=
  let s := skb_at wl skb in
  let fc := frame_control (drop (Z.to_nat (TX_DESC_SIZE + extra)) (skb_data s)) in
  let wl :=
    if negb (extra =? 0) then
      upd_skb skb (fun s => s <| skb_data ::= relocate_header extra |>
                              <| skb_network_offset ::= Z.add extra |>) wl
    else wl in
  let '(ns, wl) := getnstimeofday wl in
  let hosttime := Z.shiftr ns 10 in
  let is_dummy := wl12xx_is_dummy_packet wl skb in
  let life_time :=
    match wlvif with
    | Some v => if is_dummy || negb (is_ap (vif_at wl v)) then TX_HW_MGMT_PKT_LIFETIME_TU
                else TX_HW_AP_MODE_PKT_LIFETIME_TU
    | None => TX_HW_MGMT_PKT_LIFETIME_TU
    end in
  let ac := wl1271_tx_get_queue (skb_queue_mapping s) in
  let tx_attr :=
    if is_dummy then
      Z.lor (Z.land (Z.shiftl SESSION_COUNTER_INVALID TX_HW_ATTR_OFST_SESSION_COUNTER)
                    TX_HW_ATTR_SESSION_COUNTER) TX_HW_ATTR_TX_DUMMY_REQ
    else
      match wlvif with
      | Some v => u16 (Z.shiftl (session_counter (vif_at wl v))
                                TX_HW_ATTR_OFST_SESSION_COUNTER)
      | None => 0
      end in
  let rate_idx := tx_rate_idx wl wlvif is_dummy (skb_at wl skb) fc ac hlid in
  let tx_attr := u16 (Z.lor tx_attr (Z.shiftl rate_idx TX_HW_ATTR_OFST_RATE_POLICY)) in
  let tx_attr :=
    if ieee80211_is_auth fc && ieee80211_has_protected fc
    then Z.lor tx_attr TX_HW_ATTR_HOST_ENCRYPT else tx_attr in
  upd_skb skb (fun s => s <| skb_data ::= with_desc (fun d =>
    let d := d <| d_start_time := u32 (hosttime - time_offset wl) |>
               <| d_life_time := life_time |> <| d_tid := u8 (skb_priority s) |>
               <| d_hlid := u8 hlid |> <| d_tx_attr := tx_attr |> in
    let d := set_tx_desc_csum wl d s in
    set_tx_desc_data_len wl d s) |>) wl.

(** ** Access point bookkeeping around a transmission *)

Definition wl1271_tx_ap_update_inconnection_sta (skb : nat) (wl : wl1271) : wl1271 :=
  let frame := drop (Z.to_nat TX_DESC_SIZE) (skb_data (skb_at wl skb)) in
  if ieee80211_is_auth (frame_control frame)
  then snd (wl1271_cmd_send (CMD_INCONNECTION_STA (hdr_addr1 frame)) wl)
  else wl.

Definition wl1271_tx_regulate_link (wlvif : nat) (hlid : Z) (wl : wl1271) : wl1271 :=
  if negb (test_bit hlid (vif_links_map (vif_at wl wlvif))) then wl
  else
    let fw_ps := test_bit hlid (ap_fw_ps_map wl) in
    let tx_pkts := allocated_pkts (link_at wl hlid) in
    let single_sta := active_sta_count wl =? 1 in
    if negb single_sta && fw_ps && (WL1271_PS_STA_MAX_PACKETS <=? tx_pkts)
    then wl12xx_ps_link_start wlvif hlid true wl
    else wl.

Definition wl1271_set_default_wep_key (wlvif : nat) (id : Z) (wl : wl1271) : Z * wl1271 :=
  let w := vif_at wl wlvif in
  let '(ret, wl) :=
    if is_ap w then wl1271_cmd_send (CMD_SET_DEFAULT_WEP_KEY id (ap_bcast_hlid w)) wl
    else wl1271_cmd_send (CMD_SET_DEFAULT_WEP_KEY id (sta_hlid w)) wl in
  if ret <? 0 then (ret, wl) else (0, wl).

(** ** The whole preparation *)

(** [memcpy]/[memset] into the aggregation buffer. *)
Definition write_buf (off : Z) (bytes buf : list Z) : list Z :=
  take (Z.to_nat off) buf ++ bytes ++ drop (Z.to_nat off + length bytes) buf.

(** The key-dependent part: WEP default key switch, GEM detection. *)
Definition tx_prepare_key (wlvif : option nat) (key : option key_conf) (wl : wl1271)
    : option (Z * bool * wl1271) :=
  match key with
  | None => Some (0, false, wl)
  | Some k =>
      let is_wep := (cipher k =? WLAN_CIPHER_SUITE_WEP40)
                    || (cipher k =? WLAN_CIPHER_SUITE_WEP104) in
      let is_gem := cipher k =? WL1271_CIPHER_SUITE_GEM in
      if is_wep then
        match wlvif with
        | None => None
        | Some v =>
            if default_key (vif_at wl v) =? hw_key_idx k then Some (0, is_gem, wl)
            else
              let '(ret, wl) := wl1271_set_default_wep_key v (hw_key_idx k) wl in
              if ret <? 0 then Some (ret, false, wl)
              else Some (0, is_gem, upd_vif v (fun w => w <| default_key := hw_key_idx k |>) wl)
        end
      else Some (0, is_gem, wl)
  end.

Definition tx_extra (wl : wl1271) (key : option key_conf) : Z :=
  match key with
  | Some k => if has_quirk wl WLCORE_QUIRK_TKIP_HEADER_SPACE
                 && (cipher k =? WLAN_CIPHER_SUITE_TKIP)
              then WL1271_EXTRA_SPACE_TKIP else 0
  | None => 0
  end.

Definition wl1271_prepare_tx_frame (wlvif : option nat) (skb : nat) (buf_offset hlid : Z)
    (wl : wl1271) : option (Z * wl1271) :=
  if hlid =? WL12XX_INVALID_LINK_ID then Some (- EINVAL, wl)
  else
    let key := control_hw_key (skb_cb (skb_at wl skb)) in
    let is_dummy := wl12xx_is_dummy_packet wl skb in
    let extra := tx_extra wl key in
    match tx_prepare_key wlvif key wl with
    | None => None
    | Some (ret, is_gem, wl) =>
        if ret <? 0 then Some (ret, wl)
        else
          let '(ret, wl) := wl1271_tx_allocate wlvif skb extra buf_offset hlid is_gem wl in
          if ret <? 0 then Some (ret, wl)
          else
            let wl := wl1271_tx_fill_hdr wlvif skb extra hlid wl in
            let wl :=
              match wlvif with
              | Some v =>
                  if negb is_dummy && is_ap (vif_at wl v) then
                    wl1271_tx_regulate_link v hlid
                      (wl1271_tx_ap_update_inconnection_sta skb wl)
                  else wl
              | None => wl
              end in
            let data := skb_data (skb_at wl skb) in
            let total_len := wlcore_calc_packet_alignment wl (zlen data) in
            let wl := wl <| aggr_buf ::= fun buf =>
                        write_buf (buf_offset + zlen data)
                          (replicate (Z.to_nat (total_len - zlen data)) 0)
                          (write_buf buf_offset data buf) |> in
            let wl := if is_dummy then upd_skb skb (skb_pull TX_DESC_SIZE) wl else wl in
            Some (total_len, wl)
    end.

End TxPath.

(** ** Rates *)

Definition wl1271_tx_enabled_rates_get (bitrates : list Z) (rate_set : Z) : Z :=
  let n := zlen bitrates in
  let '(enabled, rs) :=
    for_range n (fun bit '(enabled, rs) =>
      (if has rs 1 then Z.lor enabled (zget 0 bitrates bit) else enabled, Z.shiftr rs 1))
      (0, u32 rate_set) in
  let rs := Z.shiftr rs (HW_HT_RATES_OFFSET - n) in
  let '(enabled, _) :=
    for_range 16 (fun bit '(enabled, rs) =>
      (if has rs 1 then u32 (Z.lor enabled (Z.shiftl CONF_HW_BIT_RATE_MCS_0 bit)) else enabled,
       Z.shiftr rs 1)) (enabled, rs) in
  enabled.

Definition wl1271_tx_min_rate_get (rate_set : Z) : Z :=
  if rate_set =? 0 then 0 else BIT (find_first_bit rate_set 32).
