(* ===== verification/TxSched.v ===== *)
(** * The transmit scheduler (wlcore/tx.c, second half)

    Choosing the next frame (least-loaded access category of a link, round
    robin over links and over interfaces), requeueing, and the transmit work
    function, which aggregates prepared frames into one bus transfer.

    The work loop is a fuelled recursion; TxWork.v proves how much fuel is
    enough.  [Oops] is the outcome of a NULL dereference in C. *)

From S2P Require Import Prelude Ieee80211 WlState ChipOps Io Queues LinkQueues.
From S2P Require Import PowerSave TxPath.

(** ** Choosing the next frame *)

(** [wl1271_select_queue]: the index of the chosen queue, -1 for NULL. *)
Definition wl1271_select_queue (wl : wl1271) (queues : list (list nat)) : Z :=
  fst (for_range NUM_TX_QUEUES
    (fun i '(q, min_pkts) =>
       let ac := wl1271_tx_get_queue i in
       match zget [] queues ac with
       | [] => (q, min_pkts)
       | _ :: _ =>
           if zget 0 (tx_allocated_pkts wl) ac <? min_pkts
           then (ac, zget 0 (tx_allocated_pkts wl) ac) else (q, min_pkts)
       end) (-1, 0xffffffff)).

Definition wl12xx_lnk_skb_dequeue (hlid : Z) (wl : wl1271) : option nat * wl1271 :=
  let queue := wl1271_select_queue wl (tx_queue (link_at wl hlid)) in
  if queue =? -1 then (None, wl)
  else
    match skb_dequeue hlid queue wl with
    | (Some skb, wl) =>
        (Some skb, add_queue_count (wl1271_tx_get_queue (skb_queue_mapping (skb_at wl skb)))
                     (-1) wl)
    | (None, wl) => (None, wl)
    end.

(** The loop of [wl12xx_vif_skb_dequeue] over the links [hs], in order. *)
Fixpoint vif_dequeue_scan (v : nat) (hs : list Z) (wl : wl1271) : option nat * wl1271 :=
  match hs with
  | [] => (None, wl)
  | h :: hs =>
      if negb (test_bit h (vif_links_map (vif_at wl v))) then vif_dequeue_scan v hs wl
      else
        match wl12xx_lnk_skb_dequeue h wl with
        | (Some skb, wl) => (Some skb, upd_vif v (fun w => w <| last_tx_hlid := h |>) wl)
        | (None, wl) => vif_dequeue_scan v hs wl
        end
  end.

(** The order in which the links are tried: from the one after the last. *)
Definition scan_order (last : Z) : list Z :=
  let start_hlid := (last + 1) mod WL12XX_MAX_LINKS in
  (fun i => (start_hlid + i) mod WL12XX_MAX_LINKS) <$> zseq WL12XX_MAX_LINKS.

(** [wl12xx_vif_skb_dequeue]; the second component is [*hlid]. *)
Definition wl12xx_vif_skb_dequeue (v : nat) (wl : wl1271) : option nat * Z * wl1271 :=
  let '(skb, wl) := vif_dequeue_scan v (scan_order (last_tx_hlid (vif_at wl v))) wl in
  let wl := match skb with
            | None => upd_vif v (fun w => w <| last_tx_hlid := 0 |>) wl
            | Some _ => wl
            end in
  (skb, u8 (last_tx_hlid (vif_at wl v)), wl).

(** The two passes over the interface list.  [stop] is the interface after
    which the second pass ends. *)
Fixpoint wlvif_pass (stop : option nat) (l : list nat) (wl : wl1271)
    : option (nat * Z) * wl1271 :=
  match l with
  | [] => (None, wl)
  | v :: l =>
      match wl12xx_vif_skb_dequeue v wl with
      | (Some skb, hlid, wl) => (Some (skb, hlid), wl <| last_wlvif := Some v |>)
      | (None, _, wl) =>
          if bool_decide (Some v = stop) then (None, wl) else wlvif_pass stop l wl
      end
  end.

(** [wl12xx_for_each_wlvif_continue]: the interfaces after [v] in the list. *)
Fixpoint wlvifs_after (v : nat) (l : list nat) : list nat :=
  match l with
  | [] => []
  | w :: l => if bool_decide (w = v) then l else wlvifs_after v l
  end.

Definition wl1271_skb_dequeue (wl : wl1271) : option (nat * Z) * wl1271 :=
  let '(r, wl) :=
    match last_wlvif wl with
    | Some v => wlvif_pass None (wlvifs_after v (wlvif_list wl)) wl
    | None => (None, wl)
    end in
  let '(r, wl) :=
    match r with
    | Some _ => (r, wl)
    | None =>
        let '(skb, wl) := wl12xx_lnk_skb_dequeue (system_hlid (hw wl)) wl in
        ((fun s => (s, system_hlid (hw wl))) <$> skb, wl)
    end in
  let '(r, wl) :=
    match r with
    | Some _ => (r, wl)
    | None => wlvif_pass (last_wlvif wl) (wlvif_list wl) wl
    end in
  match r with
  | Some _ => (r, wl)
  | None =>
      if flag wl WL1271_FLAG_DUMMY_PACKET_PENDING then
        let wl := clear_flag WL1271_FLAG_DUMMY_PACKET_PENDING wl in
        let skb := dummy_packet (hw wl) in
        let q := wl1271_tx_get_queue (skb_queue_mapping (skb_at wl skb)) in
        (Some (skb, system_hlid (hw wl)), add_queue_count q (-1) wl)
      else (None, wl)
  end.

(** [wl1271_skb_queue_head]; [None] when [wlvif->last_tx_hlid] is written
    through a NULL [wlvif]. *)
Definition wl1271_skb_queue_head (wlvif : option nat) (skb : nat) (hlid : Z) (wl : wl1271)
    : option wl1271 :=
  let q := wl1271_tx_get_queue (skb_queue_mapping (skb_at wl skb)) in
  if wl12xx_is_dummy_packet wl skb then
    Some (add_queue_count q 1 (set_flag WL1271_FLAG_DUMMY_PACKET_PENDING wl))
  else
    match wlvif with
    | None => None
    | Some v =>
        let wl := skb_queue_head hlid q skb wl in
        let wl := upd_vif v (fun w =>
          w <| last_tx_hlid := (hlid + WL12XX_MAX_LINKS - 1) mod WL12XX_MAX_LINKS |>) wl in
        Some (add_queue_count q 1 wl)
    end.

Definition wl1271_tx_is_data_present (skb : sk_buff) : bool :=
  ieee80211_is_data_present (frame_control (skb_data skb)).

(** ** Rx streaming re-arm *)

Definition wl12xx_rearm_rx_streaming (active_hlids : Z) (wl : wl1271) : wl1271 :=
  if rx_streaming_interval (hw wl) =? 0 then wl
  else if negb (rx_streaming_always (hw wl)) && negb (flag wl WL1271_FLAG_SOFT_GEMINI)
  then wl
  else
    fold_left
      (fun wl v =>
         let w := vif_at wl v in
         if negb (is_sta w) then wl
         else if negb (existsb (fun h => test_bit h active_hlids && test_bit h (vif_links_map w))
                         (zseq WL12XX_MAX_LINKS)) then wl
         else
           let wl := if negb (vif_flag w WLVIF_FLAG_RX_STREAMING_STARTED)
                     then emit (EvQueueRxStreamingEnable v) wl else wl in
           emit (EvModRxStreamingTimer v) wl)
      (wlvif_list wl) wl.

(** ** The transmit work *)

Definition WL12XX_HOST_WR_ACCESS := 0x00300000 + 0x09F8.

(** Where control leaves the aggregation loop: through its condition, by
    [goto out_ack], or by [goto out] with a bus error in [bus_ret]. *)
Inductive tx_exit := TxNoData | TxOutAck | TxOut.

(** The local variables of [wlcore_tx_work_locked]. *)
Record tx_locals := {
  buf_offset : Z;
  last_len : Z;
  sent_packets : bool;
  n_aggr_packets : Z;
  active_hlids : Z;
  bus_ret : Z
}.
#[export] Instance eta_tx_locals : Eta tx_locals := fun r =>
  Build_tx_locals (buf_offset r) (last_len r) (sent_packets r) (n_aggr_packets r)
    (active_hlids r) (bus_ret r).

Definition tx_locals0 : tx_locals := Build_tx_locals 0 0 false 0 0 0.

Definition count_reason (n : Z) (f : wlcore_aggr_reason -> wlcore_aggr_reason) (wl : wl1271)
    : wl1271 :=
  wl <| aggr_pkts_reason ::= fun l => zset l n (f (zget aggr_reason0 l n)) |>.

Section TxSched.
Context `{ops : wlcore_ops}.

(** Pad the last frame and write the aggregate to the chip. *)
Definition tx_send_aggr (s : tx_locals) (wl : wl1271) : Z * wl1271 :=
  let '(len, wl) := wlcore_hw_pre_pkt_send wl (buf_offset s) (last_len s) in
  wlcore_write (rtable_slv_mem_data (hw wl)) (take (Z.to_nat len) (aggr_buf wl)) wl.

Fixpoint tx_work_loop (fuel : nat) (s : tx_locals) (wl : wl1271)
    : outcome (tx_exit * tx_locals * wl1271) :=
  match fuel with
  | O => OutOfFuel
  | S fuel =>
      match wl1271_skb_dequeue wl with
      | (None, wl) => Ret (TxNoData, s, wl)
      | (Some (skb, hlid), wl) =>
          let wlvif := if wl12xx_is_dummy_packet wl skb then None
                       else control_vif (skb_cb (skb_at wl skb)) in
          let hlid := match wlvif with Some _ => hlid | None => system_hlid (hw wl) end in
          let has_data := match wlvif with
                          | Some _ => wl1271_tx_is_data_present (skb_at wl skb)
                          | None => false
                          end in
          match wl1271_prepare_tx_frame wlvif skb (buf_offset s) hlid wl with
          | None => Oops
          | Some (ret, wl) =>
              if ret =? - EAGAIN then
                match wl1271_skb_queue_head wlvif skb hlid wl with
                | None => Oops
                | Some wl =>
                    let '(ret, wl) := tx_send_aggr s wl in
                    let s := s <| bus_ret := ret |> in
                    if ret <? 0 then Ret (TxOut, s, wl)
                    else
                      tx_work_loop fuel
                        (s <| sent_packets := true |> <| buf_offset := 0 |>)
                        (count_reason (n_aggr_packets s)
                           (fun r => r <| ag_buffer_full ::= fun n => u32 (n + 1) |>) wl)
                end
              else if ret =? - EBUSY then
                match wl1271_skb_queue_head wlvif skb hlid wl with
                | None => Oops
                | Some wl =>
                    Ret (TxOutAck, s,
                         count_reason (n_aggr_packets s)
                           (fun r => r <| ag_fw_buffer_full ::= fun n => u32 (n + 1) |>)
                           (set_flag WL1271_FLAG_FW_TX_BUSY wl))
                end
              else if ret <? 0 then
                match (if wl12xx_is_dummy_packet wl skb
                       then wl1271_skb_queue_head wlvif skb hlid wl
                       else Some (emit (EvFreeTxskb skb) wl)) with
                | None => Oops
                | Some wl =>
                    Ret (TxOutAck, s,
                         count_reason (n_aggr_packets s)
                           (fun r => r <| ag_other ::= fun n => u32 (n + 1) |>) wl)
                end
              else
                let n := n_aggr_packets s in
                tx_work_loop fuel
                  (s <| last_len := ret |>
                     <| buf_offset ::= fun o => u32 (o + ret) |>
                     <| n_aggr_packets :=
                          if n <? aggr_pkts_reason_num (hw wl) - 1 then n + 1 else n |>
                     <| active_hlids ::= fun m =>
                          if has_data then set_bit (d_hlid (decode_desc (skb_data (skb_at wl skb)))) m
                          else m |>)
                  (wl <| tx_packets_count ::= fun n => u32 (n + 1) |>)
          end
      end
  end.

(** From [out_ack] to the end. *)
Definition tx_work_ack (s : tx_locals) (wl : wl1271) : Z * wl1271 :=
  let '(ret, wl) := if negb (buf_offset s =? 0) then tx_send_aggr s wl else (bus_ret s, wl) in
  if negb (buf_offset s =? 0) && (ret <? 0) then (ret, wl)
  else if negb (buf_offset s =? 0) || sent_packets s then
    let '(ret, wl) :=
      if has_quirk wl WLCORE_QUIRK_END_OF_TRANSACTION
      then wlcore_write32 WL12XX_HOST_WR_ACCESS (tx_packets_count wl) wl
      else (ret, wl) in
    if has_quirk wl WLCORE_QUIRK_END_OF_TRANSACTION && (ret <? 0) then (ret, wl)
    else (ret, wl12xx_rearm_rx_streaming (active_hlids s) (wl1271_handle_tx_low_watermark wl))
  else (ret, wl12xx_rearm_rx_streaming (active_hlids s) wl).

Definition wlcore_tx_work_locked (fuel : nat) (wl : wl1271) : outcome (Z * wl1271) :=
  if negb (bool_decide (state wl = WLCORE_STATE_ON)) then Ret (0, wl)
  else
    match tx_work_loop fuel tx_locals0 wl with
    | Ret (TxNoData, s, wl) =>
        let wl := if negb (buf_offset s =? 0)
                  then count_reason (n_aggr_packets s)
                         (fun r => r <| ag_no_data ::= fun n => u32 (n + 1) |>) wl
                  else wl in
        Ret (tx_work_ack s wl)
    | Ret (TxOutAck, s, wl) => Ret (tx_work_ack s wl)
    | Ret (TxOut, s, wl) => Ret (bus_ret s, wl)
    | Oops => Oops
    | OutOfFuel => OutOfFuel
    end.

(** [wl1271_tx_work]; [completed] answers the wait of the ELP wake-up. *)
Definition wl1271_tx_work (fuel : nat) (completed : Z) (wl : wl1271) : outcome wl1271 :=
  let '(ret, wl) := wl1271_ps_elp_wakeup completed wl in
  if ret <? 0 then Ret wl
  else
    match wlcore_tx_work_locked fuel wl with
    | Ret (ret, wl) =>
        if ret <? 0 then Ret (wl12xx_queue_recovery_work wl)
        else Ret (wl1271_ps_elp_sleep wl)
    | Oops => Oops
    | OutOfFuel => OutOfFuel
    end.

End TxSched.
