(* ===== verification/TxInv.v ===== *)
(** * Invariants of the transmit path

    Three things are stated about every operation of the transmit path:
    - the queue accounting [counts_ok] (LinkQueues.v), the flow-control contract
      [queues_ok] (Queues.v) and the descriptor table [ids_ok] (TxAllocFacts.v)
      are kept;
    - no buffer is lost or duplicated: [copies s wl] counts the places that hold
      the buffer [s] -- link queues, the firmware's table, the deferred list and
      the completions already reported -- and an operation that is not handed a
      buffer leaves it unchanged.
    [same_view] collects what these statements look at, so that an operation
    that does not touch it (all bus I/O, in particular) keeps them. *)

From S2P Require Import Prelude Ieee80211 WlState ChipOps Io Queues LinkQueues.
From S2P Require Import PowerSave TxPath TxAllocFacts TxSched.

(** ** Where a buffer is *)

Definition is_skb (s x : nat) : Z := if bool_decide (x = s) then 1 else 0.
Definition occ (s : nat) (l : list nat) : Z := zsum (is_skb s <$> l).

Definition link_copies (s : nat) (lnk : wl1271_link) : Z := zsum (occ s <$> tx_queue lnk).

Definition frame_copy (s : nat) (o : option nat) : Z :=
  match o with Some x => is_skb s x | None => 0 end.

(** A report to mac80211 that gives the buffer back. *)
Definition ev_releases (s : nat) (e : event) : Z :=
  match e with
  | EvTxStatus x | EvFreeTxskb x => is_skb s x
  | _ => 0
  end.
Definition released (s : nat) (l : list event) : Z := zsum (ev_releases s <$> l).

Definition copies (s : nat) (wl : wl1271) : Z :=
  zsum (link_copies s <$> links wl) + zsum (frame_copy s <$> tx_frames wl)
  + occ s (deferred_tx_queue wl) + released s (log wl).

Lemma occ_app s l l' : occ s (l ++ l') = occ s l + occ s l'.
Proof.
  unfold occ. rewrite fmap_app. induction l as [|x l IH]; csimpl; [done|].
  unfold zsum in *. rewrite IH. lia.
Qed.

Lemma occ_cons s x l : occ s (x :: l) = is_skb s x + occ s l.
Proof. done. Qed.

Lemma is_skb_range s x : 0 <= is_skb s x <= 1.
Proof. unfold is_skb. case_bool_decide; lia. Qed.

Lemma occ_nonneg s l : 0 <= occ s l.
Proof. apply zsum_nonneg. intros x. apply is_skb_range. Qed.

Lemma occ_pos s l : s ∈ l -> 1 <= occ s l.
Proof.
  intros (l1 & l2 & ->)%list_elem_of_split. rewrite occ_app, occ_cons.
  pose proof (occ_nonneg s l1). pose proof (occ_nonneg s l2).
  unfold is_skb. rewrite bool_decide_eq_true_2 by done. lia.
Qed.

Lemma link_copies_nonneg s lnk : 0 <= link_copies s lnk.
Proof. apply zsum_nonneg. intros. apply occ_nonneg. Qed.

Lemma released_io s l l' : Forall (fun e => io_event e = true) l ->
  released s (l ++ l') = released s l'.
Proof. induction 1 as [|e l He _ IH]; [done|]. unfold released in *. csimpl. rewrite IH. by destruct e. Qed.

Lemma emit_copies s e wl : copies s (emit e wl) = copies s wl + ev_releases s e.
Proof.
  unfold copies. change (released s (log (emit e wl))) with (ev_releases s e + released s (log wl)).
  simpl. lia.
Qed.

(** ** Counters *)

(** The driver's counters are in range, the firmware log fits its page and
    the positions in the firmware's rings are positions. *)
Definition ring_ok (wl : wl1271) : Prop :=
  zlen (fwlog wl) <= PAGE_SIZE /\ 0 <= rx_counter wl < 2 ^ 32 /\
  0 <= tx_results_count wl < 2 ^ 32 /\
  0 <= last_fw_rls_idx wl < WL18XX_FW_MAX_TX_STATUS_DESC /\ 0 < num_rx_desc (hw wl).

(** ** The scan *)

(** A running scan has its interface. *)
Definition scan_ok (wl : wl1271) : Prop := scan_idle wl = false -> is_Some (scan_vif wl).

(** A report to mac80211 that a scan has ended. *)
Definition ev_completes (e : event) : Z := match e with EvScanCompleted _ => 1 | _ => 0 end.
Definition completed_scans (l : list event) : Z := zsum (ev_completes <$> l).

(** The scans whose end has been reported, and the running one. *)
Definition scans (wl : wl1271) : Z :=
  completed_scans (log wl) + (if scan_idle wl then 0 else 1).

Lemma completed_io l l' : Forall (fun e => io_event e = true) l ->
  completed_scans (l ++ l') = completed_scans l'.
Proof.
  induction 1 as [|e l He _ IH]; [done|]. unfold completed_scans in *. csimpl. rewrite IH. by destruct e.
Qed.

(** ** The view *)

Record same_view (wl wl' : wl1271) : Prop := SameView {
  sv_hw : hw wl' = hw wl;
  sv_queues : tx_queue <$> links wl' = tx_queue <$> links wl;
  sv_count : tx_queue_count wl' = tx_queue_count wl;
  sv_dummy : flag wl' WL1271_FLAG_DUMMY_PACKET_PENDING
             = flag wl WL1271_FLAG_DUMMY_PACKET_PENDING;
  sv_ac s : ac_of wl' s = ac_of wl s;
  sv_vif s : control_vif (skb_cb (skb_at wl' s)) = control_vif (skb_cb (skb_at wl s));
  sv_reasons : queue_stop_reasons wl' = queue_stop_reasons wl;
  sv_mac q : mac_stopped q (log wl') = mac_stopped q (log wl);
  sv_released s : released s (log wl') = released s (log wl);
  sv_map : tx_frames_map wl' = tx_frames_map wl;
  sv_frames : tx_frames wl' = tx_frames wl;
  sv_cnt : tx_frames_cnt wl' = tx_frames_cnt wl;
  sv_deferred : deferred_tx_queue wl' = deferred_tx_queue wl;
  sv_lmap : links_map wl' = links_map wl;
  sv_vlist : wlvif_list wl' = wlvif_list wl;
  sv_vlast : last_wlvif wl' = last_wlvif wl;
  sv_links v : vif_own (vif_at wl' v) = vif_own (vif_at wl v);
  sv_stas : active_sta_count wl' = active_sta_count wl;
  sv_alloc v : is_Some (vifs wl' !! v) <-> is_Some (vifs wl !! v);
  sv_state : state_le (state wl) (state wl');
  sv_ring : ring_ok wl -> ring_ok wl';
  sv_scan : scan_ok wl -> scan_ok wl';
  sv_scans : scans wl' = scans wl
}.

#[export] Instance same_view_refl : Reflexive same_view.
Proof. by split. Qed.

#[export] Instance same_view_trans : Transitive same_view.
Proof.
  intros a b c [] []. split; try congruence; try (intros x; etrans; eauto); [by etrans | auto..].
Qed.


#[export] Hint Extern 0 (same_view ?x ?x) => reflexivity : wl.

(** The same interfaces are registered, and of the same kind; a running scan
    still has its interface, and no scan is lost or reported twice. *)
Record same_vifs (wl wl' : wl1271) : Prop := SameVifs {
  sm_list : wlvif_list wl' = wlvif_list wl;
  sm_kind v : vif_kind (vif_at wl' v) = vif_kind (vif_at wl v);
  sm_scan : scan_ok wl -> scan_ok wl';
  sm_scans : scans wl' = scans wl
}.

#[export] Instance same_vifs_refl : Reflexive same_vifs.
Proof. by split. Qed.

#[export] Instance same_vifs_trans : Transitive same_vifs.
Proof. intros a b c [L1 F1 S1 N1] [L2 F2 S2 N2]. split; [congruence | intros v; by rewrite F2 | auto | congruence]. Qed.

Lemma view_vifs wl wl' : same_view wl wl' -> same_vifs wl wl'.
Proof. intros V. split; [apply V | intros v; exact (f_equal snd (sv_links _ _ V v)) | apply V..]. Qed.

Lemma io_frame_view wl wl' : io_frame wl wl' -> same_view wl wl'.
Proof.
  intros [(f & s & b & l & ->) Hf (l' & E & Hl) Hs]. simpl in E. split; try done.
  - by apply Hf.
  - intros q. simpl. rewrite E. by apply mac_stopped_io.
  - intros q. simpl. rewrite E. by apply released_io.
  - unfold scans. simpl. rewrite E. by rewrite completed_io.
Qed.

Lemma emit_view e wl :
  (match e with EvStopQueue _ | EvWakeQueue _ | EvTxStatus _ | EvFreeTxskb _
   | EvScanCompleted _ => False | _ => True end) -> same_view wl (emit e wl).
Proof. intros He. split; try done; intros; by destruct e. Qed.

Lemma flags_view wl f :
  test_bit WL1271_FLAG_DUMMY_PACKET_PENDING f = flag wl WL1271_FLAG_DUMMY_PACKET_PENDING ->
  same_view wl (wl <| flags := f |>).
Proof. by split. Qed.

Lemma set_flag_view i wl : 0 <= i -> i <> WL1271_FLAG_DUMMY_PACKET_PENDING ->
  same_view wl (set_flag i wl).
Proof.
  intros Hi Hne. apply flags_view. rewrite test_set_bit by done.
  by rewrite (proj2 (Z.eqb_neq i _) Hne).
Qed.

Lemma clear_flag_view i wl : i <> WL1271_FLAG_DUMMY_PACKET_PENDING ->
  same_view wl (clear_flag i wl).
Proof.
  intros Hne. apply flags_view. rewrite test_clear_bit.
  by rewrite (proj2 (Z.eqb_neq i _) Hne), andb_true_r.
Qed.

(** Updates of a buffer that leave its queue and interface alone. *)
Definition keeps_route (f : sk_buff -> sk_buff) : Prop := forall x,
  skb_queue_mapping (f x) = skb_queue_mapping x /\
  control_vif (skb_cb (f x)) = control_vif (skb_cb x).

Lemma skb_at_upd s f wl x :
  skb_at (upd_skb s f wl) x =
    if bool_decide (s = x) then match skbs wl !! x with Some b => f b | None => sk_buff0 end
    else skb_at wl x.
Proof.
  unfold skb_at, upd_skb. simpl. rewrite !lookup_total_alt, lookup_alter.
  case_decide; case_bool_decide; subst; try done. by destruct (skbs wl !! x).
Qed.

Lemma upd_skb_view s f wl : keeps_route f -> same_view wl (upd_skb s f wl).
Proof.
  intros Hf. split; try done; intros x; unfold ac_of; rewrite skb_at_upd;
    (case_bool_decide; [|done]); unfold skb_at; rewrite lookup_total_alt;
    destruct (skbs wl !! x) as [b|]; simpl; try done; destruct (Hf b) as [E1 E2]; by rewrite ?E1, ?E2.
Qed.

Lemma upd_vif_view v f wl : (forall w, vif_own (f w) = vif_own w) ->
  same_view wl (upd_vif v f wl).
Proof.
  intros Hf. split; try done; intros x; unfold vif_at, upd_vif; simpl.
  - rewrite !lookup_total_alt, lookup_alter. case_decide; [subst|done].
    destruct (vifs wl !! x); simpl; [apply Hf | done].
  - rewrite lookup_alter. case_decide; [subst; by rewrite fmap_is_Some | done].
Qed.

Lemma fmap_zset_same {A B} (f : A -> B) d l i (g : A -> A) :
  (forall x, f (g x) = f x) -> f <$> zset l i (g (zget d l i)) = f <$> l.
Proof.
  intros Hg. unfold zset, zget. destruct (i <? 0); [done|].
  generalize (Z.to_nat i). clear i. induction l as [|x l IH]; intros [|n]; csimpl; try done.
  - by rewrite Hg.
  - f_equal. apply IH.
Qed.

Lemma upd_link_view h g wl : (forall x, tx_queue (g x) = tx_queue x) ->
  same_view wl (upd_link h g wl).
Proof. intros Hg. split; try done. unfold upd_link. simpl. by apply fmap_zset_same. Qed.

(** ** The view determines the statements *)

Lemma zsum_fmap_view {A B} (g : A -> B) (f : B -> Z) l l' :
  g <$> l = g <$> l' -> zsum ((fun x => f (g x)) <$> l) = zsum ((fun x => f (g x)) <$> l').
Proof. intros E. rewrite !(list_fmap_compose g f). by rewrite E. Qed.

Lemma same_view_copies s wl wl' : same_view wl wl' -> copies s wl' = copies s wl.
Proof.
  intros V. unfold copies. rewrite (sv_frames _ _ V), (sv_deferred _ _ V), (sv_released _ _ V).
  unfold link_copies.
  by rewrite (zsum_fmap_view tx_queue (fun l => zsum (occ s <$> l)) _ _ (sv_queues _ _ V)).
Qed.

Lemma same_view_queue wl wl' h q : same_view wl wl' -> link_queue wl' h q = link_queue wl h q.
Proof.
  intros V. unfold link_queue, link_at. f_equal.
  assert (forall l, tx_queue (zget link0 l h) = zget (tx_queue link0) (tx_queue <$> l) h) as E.
  { intros l. unfold zget. destruct (h <? 0); [done|]. generalize (Z.to_nat h). clear.
    induction l as [|x l IH]; intros [|n]; csimpl; auto. }
  by rewrite !E, (sv_queues _ _ V).
Qed.

Lemma same_view_counts d wl wl' : same_view wl wl' -> counts_off d wl -> counts_off d wl'.
Proof.
  intros V [H1 H2 H3 H4 H5]. pose proof (sv_queues _ _ V) as Q. split.
  - unfold zlen in *. rewrite <- H1. apply (f_equal length) in Q. rewrite !length_fmap in Q. lia.
  - apply (Forall_fmap tx_queue (fun l => zlen l = NUM_TX_QUEUES)). rewrite Q.
    by apply Forall_fmap.
  - by rewrite (sv_count _ _ V).
  - intros q Hq. rewrite (sv_count _ _ V), (H4 q Hq). f_equal. unfold queued, dummy_load.
    rewrite (sv_dummy _ _ V), (sv_ac _ _ V), (sv_hw _ _ V). f_equal.
    unfold link_load. symmetry. by apply (zsum_fmap_view tx_queue (fun l => zlen (zget [] l q))).
  - intros h q skb Hq. rewrite (same_view_queue _ _ _ _ V), (sv_ac _ _ V), (sv_hw _ _ V). by apply H5.
Qed.

Lemma same_view_queues wl wl' : same_view wl wl' -> queues_ok wl -> queues_ok wl'.
Proof. intros V. apply queues_ok_frame; [apply (sv_reasons _ _ V) | apply (sv_mac _ _ V)]. Qed.

Lemma same_view_ids wl wl' : same_view wl wl' -> ids_ok wl -> ids_ok wl'.
Proof.
  intros V. apply ids_ok_frame; [by rewrite (sv_hw _ _ V) | apply V..].
Qed.

(** ** Moving buffers between queues *)

Lemma set_link_queue_copies s d hlid q l wl :
  counts_off d wl -> is_link hlid -> is_queue q ->
  copies s (set_link_queue hlid q l wl) = copies s wl - occ s (link_queue wl hlid q) + occ s l.
Proof.
  intros H Hh Hq. unfold copies, set_link_queue, upd_link. simpl.
  rewrite (zsum_zset _ link0) by (apply link_at_range; [done | apply (co_links _ _ H)]).
  unfold link_copies at 3. simpl.
  rewrite (zsum_zset _ []) by (pose proof (link_queues_len _ _ _ H Hh) as E;
    unfold link_at in E; by rewrite E).
  unfold link_queue, link_at, link_copies. lia.
Qed.

(** What taking a frame from the queues may change. *)
Definition sched_frame (wl wl' : wl1271) : Prop :=
  exists k c v w f,
    wl' = wl <| links := k |> <| tx_queue_count := c |> <| vifs := v |>
             <| last_wlvif := w |> <| flags := f |> /\
    (forall i, i <> WL1271_FLAG_DUMMY_PACKET_PENDING -> test_bit i f = flag wl i) /\
    (forall x, vif_at wl' x = (vif_at wl x) <| last_tx_hlid := last_tx_hlid (vif_at wl' x) |>) /\
    (forall x, is_Some (v !! x) <-> is_Some (vifs wl !! x)).

#[export] Instance sched_frame_refl : Reflexive sched_frame.
Proof.
  intros wl. exists (links wl), (tx_queue_count wl), (vifs wl), (last_wlvif wl), (flags wl).
  split_and!; [by destruct wl | done | | done]. intros x. by destruct (vif_at wl x).
Qed.

#[export] Instance sched_frame_trans : Transitive sched_frame.
Proof.
  intros a b c (k & n & v & w & f & E & Hf & Hv & Ha) (k' & n' & v' & w' & f' & E' & Hf' & Hv' & Ha').
  exists k', n', v', w', f'. split_and!.
  - by rewrite E', E.
  - intros i Hi. rewrite (Hf' i Hi). unfold flag. rewrite E. simpl. by apply Hf.
  - intros x. rewrite (Hv' x). simpl. rewrite (Hv x). done.
  - intros x. rewrite (Ha' x), E. apply Ha.
Qed.

Lemma set_link_queue_sched hlid q l wl : sched_frame wl (set_link_queue hlid q l wl).
Proof.
  exists (links (set_link_queue hlid q l wl)), (tx_queue_count wl), (vifs wl),
    (last_wlvif wl), (flags wl).
  split_and!; [by destruct wl | done | | done]. intros x.
  change (vif_at (set_link_queue hlid q l wl) x) with (vif_at wl x). by destruct (vif_at wl x).
Qed.

Lemma add_queue_count_sched q n wl : sched_frame wl (add_queue_count q n wl).
Proof.
  exists (links wl), (tx_queue_count (add_queue_count q n wl)), (vifs wl),
    (last_wlvif wl), (flags wl).
  split_and!; [by destruct wl | done | | done]. intros x.
  change (vif_at (add_queue_count q n wl) x) with (vif_at wl x). by destruct (vif_at wl x).
Qed.

Lemma upd_last_hlid_sched v h wl :
  sched_frame wl (upd_vif v (fun w => w <| last_tx_hlid := h |>) wl).
Proof.
  exists (links wl), (tx_queue_count wl), (alter (fun w => w <| last_tx_hlid := h |>) v (vifs wl)),
    (last_wlvif wl), (flags wl).
  split_and!; [by destruct wl | done | |]; intros x; unfold vif_at, upd_vif; simpl.
  - rewrite !lookup_total_alt, lookup_alter. case_decide; [subst|by destruct (default _ _)].
    destruct (vifs wl !! x) as [w|]; simpl; [by destruct w | done].
  - rewrite lookup_alter. case_decide; [subst; by rewrite fmap_is_Some | done].
Qed.

Lemma last_wlvif_sched w wl : sched_frame wl (wl <| last_wlvif := w |>).
Proof.
  exists (links wl), (tx_queue_count wl), (vifs wl), w, (flags wl).
  split_and!; [by destruct wl | done | | done]. intros x.
  change (vif_at (wl <| last_wlvif := w |>) x) with (vif_at wl x). by destruct (vif_at wl x).
Qed.

Lemma dummy_flag_sched f wl :
  (forall i, i <> WL1271_FLAG_DUMMY_PACKET_PENDING -> test_bit i f = flag wl i) ->
  sched_frame wl (wl <| flags := f |>).
Proof.
  intros Hf. exists (links wl), (tx_queue_count wl), (vifs wl), (last_wlvif wl), f.
  split_and!; [by destruct wl | done | | done]. intros x.
  change (vif_at (wl <| flags := f |>) x) with (vif_at wl x). by destruct (vif_at wl x).
Qed.

Lemma sched_frame_queues wl wl' : sched_frame wl wl' -> queues_ok wl -> queues_ok wl'.
Proof. intros (? & ? & ? & ? & ? & -> & _). by apply queues_ok_frame. Qed.

Lemma sched_frame_ids wl wl' : sched_frame wl wl' -> ids_ok wl -> ids_ok wl'.
Proof. intros (? & ? & ? & ? & ? & -> & _). by apply ids_ok_frame. Qed.

(** Nothing but [links] carries copies in a scheduling step. *)
Lemma sched_frame_hw wl wl' : sched_frame wl wl' -> hw wl' = hw wl.
Proof. by intros (? & ? & ? & ? & ? & -> & _). Qed.

Lemma sched_frame_skbs wl wl' : sched_frame wl wl' -> skbs wl' = skbs wl.
Proof. by intros (? & ? & ? & ? & ? & -> & _). Qed.

(** [wl'] is [wl] with the frame [skb] taken out of the queues. *)
Record takes (skb : nat) (wl wl' : wl1271) : Prop := {
  tk_counts : counts_ok wl';
  tk_copies s : s <> dummy_packet (hw wl) -> copies s wl' = copies s wl - is_skb s skb;
  tk_frame : sched_frame wl wl';
  tk_backlog q : is_queue q -> zget 0 (tx_queue_count wl') q
    = zget 0 (tx_queue_count wl) q - (if q =? ac_of wl skb then 1 else 0);
  tk_sub h q s : s ∈ link_queue wl' h q -> s ∈ link_queue wl h q
}.

Lemma add_queue_count_at q n wl q' : zlen (tx_queue_count wl) = NUM_TX_QUEUES -> is_queue q ->
  zget 0 (tx_queue_count (add_queue_count q n wl)) q'
  = zget 0 (tx_queue_count wl) q' + (if q' =? q then n else 0).
Proof.
  intros Hl Hq. unfold add_queue_count. simpl. rewrite zget_zset by (by rewrite Hl).
  rewrite (Z.eqb_sym q' q). destruct (q =? q') eqn:E; bool_to_prop; [by subst | lia].
Qed.
