(* ===== verification/SchedFacts.v ===== *)
(** * What the scheduler picks

    The choice of a queue on a link, of a link on an interface and of an
    interface, and what taking the chosen frame does to the accounting. *)

From S2P Require Import Prelude Ieee80211 WlState ChipOps Io Queues LinkQueues.
From S2P Require Import PowerSave TxPath TxAllocFacts TxSched TxInv.

(** ** The queue of a link *)

Definition pkts (wl : wl1271) (ac : Z) : Z := zget 0 (tx_allocated_pkts wl) ac.
Definition no_pkts := 0xffffffff.

(** [q] is a best choice: fewest packets in the firmware, ties going to the
    access category of higher priority (lower mac80211 queue number). *)
Record best_queue (wl : wl1271) (queues : list (list nat)) (q : Z) : Prop := {
  bq_queue : is_queue q;
  bq_nonempty : zget [] queues q <> [];
  bq_least q' : is_queue q' -> zget [] queues q' <> [] -> pkts wl q <= pkts wl q';
  bq_priority q' : is_queue q' -> zget [] queues q' <> [] -> pkts wl q' = pkts wl q ->
    wl1271_tx_get_mac80211_queue q <= wl1271_tx_get_mac80211_queue q'
}.

(** The state of the selection loop after [i] access categories. *)
Definition select_inv (wl : wl1271) (queues : list (list nat)) (i : Z) '((q, m) : Z * Z) : Prop :=
  (q = -1 /\ m = no_pkts /\
   forall j, 0 <= j < i -> let ac := wl1271_tx_get_queue j in
     zget [] queues ac = [] \/ no_pkts <= pkts wl ac) \/
  (exists j0, 0 <= j0 < i /\ q = wl1271_tx_get_queue j0 /\ zget [] queues q <> [] /\
     m = pkts wl q /\
     forall j, 0 <= j < i -> let ac := wl1271_tx_get_queue j in
       zget [] queues ac <> [] -> m <= pkts wl ac /\ (pkts wl ac = m -> j0 <= j)).

Lemma select_inv_holds wl queues :
  (forall q, is_queue q -> pkts wl q < no_pkts) ->
  let body := fun i '(q, min_pkts) =>
       let ac := wl1271_tx_get_queue i in
       match zget [] queues ac with
       | [] => (q, min_pkts)
       | _ :: _ => if pkts wl ac <? min_pkts then (ac, pkts wl ac) else (q, min_pkts)
       end in
  select_inv wl queues NUM_TX_QUEUES (for_range NUM_TX_QUEUES body (-1, no_pkts)).
Proof.
  intros Hb body. apply for_range_ind; [done | |].
  { left. split_and!; [done..|]. lia. }
  intros [q m] i Hi HI. subst body. cbv beta iota zeta.
  pose proof (Hb _ (get_queue_range i)) as Hlt.
  destruct (zget [] queues (wl1271_tx_get_queue i)) as [|x l] eqn:Eq.
  - destruct HI as [(-> & -> & Hall) | (j0 & Hj & Hq & Hne & Hm & Hall)].
    + left. split_and!; [done..|]. intros j Hj ac. destruct (decide (j = i)) as [->|]; [by left|].
      apply Hall. lia.
    + right. exists j0. split_and!; try done; try lia.
      intros j Hj' ac Hac. subst ac. destruct (decide (j = i)) as [->|]; [done|]. apply Hall; [lia | done].
  - assert (zget [] queues (wl1271_tx_get_queue i) <> []) as Hne' by (by rewrite Eq).
    split_if; bool_to_prop.
    + right. exists i. split_and!; try done; try lia.
      intros j Hj ac Hac. subst ac. destruct (decide (j = i)) as [->|]; [split; lia|].
      destruct HI as [(-> & -> & Hall) | (j0 & Hj0 & Hq & Hne & Hm & Hall)].
      * destruct (Hall j) as [?|Hge]; [lia | done |].
        pose proof (Hb _ (get_queue_range j)). lia.
      * destruct (Hall j) as [? ?]; [lia | done |]. lia.
    + destruct HI as [(-> & -> & Hall) | (j0 & Hj0 & Hq & Hne & Hm & Hall)]; [lia|].
      right. exists j0. split_and!; try done; try lia.
      intros j Hj ac Hac. subst ac. destruct (decide (j = i)) as [->|]; [lia|].
      apply Hall; [lia | done].
Qed.

Lemma queue_index q : is_queue q -> exists j, 0 <= j < NUM_TX_QUEUES /\
  q = wl1271_tx_get_queue j /\ j = wl1271_tx_get_mac80211_queue q.
Proof.
  intros Hq. exists (wl1271_tx_get_mac80211_queue q). rewrite get_queue_mac80211 by done.
  split_and!; try done; unfold wl1271_tx_get_mac80211_queue, NUM_TX_QUEUES; repeat split_if; lia.
Qed.

Lemma mac80211_get_queue j : 0 <= j < NUM_TX_QUEUES ->
  wl1271_tx_get_mac80211_queue (wl1271_tx_get_queue j) = j.
Proof.
  unfold NUM_TX_QUEUES. intros Hj.
  assert (j = 0 \/ j = 1 \/ j = 2 \/ j = 3) as [-> | [-> | [-> | ->]]] by lia; reflexivity.
Qed.

Lemma select_queue_spec wl queues :
  (forall q, is_queue q -> pkts wl q < no_pkts) ->
  let q := wl1271_select_queue wl queues in
  (q = -1 /\ forall q', is_queue q' -> zget [] queues q' = []) \/ best_queue wl queues q.
Proof.
  intros Hb. cbv zeta. pose proof (select_inv_holds wl queues Hb) as HI.
  unfold wl1271_select_queue. cbv zeta in HI. unfold pkts, no_pkts in HI.
  destruct (for_range NUM_TX_QUEUES _ _) as [q m]. simpl.
  destruct HI as [(-> & -> & Hall) | (j0 & Hj0 & Hq & Hne & Hm & Hall)].
  - left. split; [done|]. intros q' Hq'. destruct (queue_index q' Hq') as (j & Hj & -> & _).
    destruct (Hall j Hj) as [?|Hge]; [done|]. pose proof (Hb _ (get_queue_range j)).
    unfold no_pkts, pkts in *. lia.
  - right. split; try done.
    + rewrite Hq. apply get_queue_range.
    + intros q' Hq' Hne'. destruct (queue_index q' Hq') as (j & Hj & -> & _).
      destruct (Hall j Hj Hne') as [? _]. unfold pkts in *. lia.
    + intros q' Hq' Hne' Hp. destruct (queue_index q' Hq') as (j & Hj & E & Ej).
      rewrite Hq, mac80211_get_queue by done. rewrite <- Ej. subst q'.
      destruct (Hall j Hj Hne') as [_ Hle]. apply Hle. unfold pkts in *. lia.
Qed.

(** Whatever the packet counts, a chosen queue exists and is not empty. *)
Lemma select_queue_sound wl queues :
  let q := wl1271_select_queue wl queues in
  q = -1 \/ (is_queue q /\ zget [] queues q <> []).
Proof.
  cbv zeta. unfold wl1271_select_queue.
  match goal with |- context [for_range ?n ?b ?s] =>
    pose proof (for_range_inv (fun '(q, m) => q = -1 \/ (is_queue q /\ zget [] queues q <> [])) n b s)
      as L; destruct (for_range n b s) as [q m] end.
  apply L; [by left|]. intros [q' m'] i Hi HI.
  destruct (zget [] queues (wl1271_tx_get_queue i)) eqn:E; [done|]. split_if; [|done].
  right. split; [apply get_queue_range | by rewrite E].
Qed.

(** ** Taking a frame from a link *)

Lemma dequeue_takes skb rest hlid q wl :
  counts_ok wl -> is_link hlid -> is_queue q -> link_queue wl hlid q = skb :: rest ->
  takes skb wl (add_queue_count q (-1) (set_link_queue hlid q rest wl)).
Proof.
  intros H Hh Hq E. pose proof (skb_dequeue_spec _ hlid q wl H Hh Hq) as D. rewrite E in D.
  destruct D as [_ D]. split.
  - unfold counts_ok. eapply counts_off_ext; [|by apply add_queue_count_counts].
    intros q' _. unfold shift. split_if; lia.
  - intros s _. change (copies s (add_queue_count q (-1) ?w)) with (copies s w).
    rewrite (set_link_queue_copies s _ _ _ _ _ H Hh Hq), E, occ_cons. lia.
  - etrans; [apply set_link_queue_sched | apply add_queue_count_sched].
  - intros q' Hq'. rewrite add_queue_count_at by (apply (co_counts _ _ H) || done).
    destruct (co_placed _ _ H hlid q skb Hq) as [-> _]; [rewrite E; left|].
    simpl. split_if; lia.
  - intros h q' s. change (link_queue (add_queue_count q (-1) ?w) h q') with (link_queue w h q').
    rewrite (link_queue_set _ _ _ _ _ _ _ H Hh Hq).
    destruct ((hlid =? h) && (q =? q')) eqn:E'; [|done]. bool_to_prop. subst. rewrite E. by right.
Qed.

Lemma lnk_dequeue_spec hlid wl :
  counts_ok wl -> is_link hlid ->
  match wl12xx_lnk_skb_dequeue hlid wl with
  | (None, wl') => wl' = wl /\
      ((forall q, is_queue q -> pkts wl q < no_pkts) ->
       forall q, is_queue q -> link_queue wl hlid q = [])
  | (Some skb, wl') => takes skb wl wl' /\ skb <> dummy_packet (hw wl) /\
      exists q rest, is_queue q /\ link_queue wl hlid q = skb :: rest /\
        wl' = add_queue_count q (-1) (set_link_queue hlid q rest wl) /\
        ((forall q, is_queue q -> pkts wl q < no_pkts) ->
         best_queue wl (tx_queue (link_at wl hlid)) q)
  end.
Proof.
  intros H Hh. unfold wl12xx_lnk_skb_dequeue. cbv zeta.
  pose proof (select_queue_spec wl (tx_queue (link_at wl hlid))) as B. cbv zeta in B.
  destruct (select_queue_sound wl (tx_queue (link_at wl hlid))) as [E|[Hq Hne]].
  - rewrite E. simpl. split; [done|]. intros Hp q Hq.
    destruct (B Hp) as [[_ B']|B']; [by apply B'|].
    pose proof (bq_queue _ _ _ B') as [X _]. rewrite E in X. lia.
  - set (q := wl1271_select_queue _ _) in *.
    destruct (q =? -1) eqn:E1; bool_to_prop; [destruct Hq; lia|].
    unfold skb_dequeue. unfold link_queue at 1.
    destruct (zget [] (tx_queue (link_at wl hlid)) q) as [|skb rest] eqn:E; [done|].
    assert (Ein : skb ∈ link_queue wl hlid q) by (unfold link_queue; rewrite E; left).
    destruct (co_placed _ _ H hlid q skb Hq Ein) as [Hac Hnd].
    assert (wl1271_tx_get_queue (skb_queue_mapping (skb_at (set_link_queue hlid q rest wl) skb)) = q)
      as -> by exact Hac.
    split_and!; [by apply dequeue_takes | done |].
    exists q, rest. split_and!; try done. intros Hp. destruct (B Hp) as [[B' _]|B']; [done | exact B'].
Qed.

(** ** The links of an interface *)

(** Stations of all access points. *)
Definition stations (wl : wl1271) : Z :=
  zsum ((fun v => weight (ap_sta_hlid_map (vif_at wl v)) WL12XX_MAX_LINKS) <$> wlvif_list wl).

(** A link belongs to one interface, the system link to none; each station has
    a link of its access point. *)
Record links_own (wl : wl1271) : Prop := {
  lo_disjoint v v' h : v ∈ wlvif_list wl -> v' ∈ wlvif_list wl ->
    test_bit h (vif_links_map (vif_at wl v)) = true ->
    test_bit h (vif_links_map (vif_at wl v')) = true -> v = v';
  lo_system v : v ∈ wlvif_list wl ->
    test_bit (system_hlid (hw wl)) (vif_links_map (vif_at wl v)) = false;
  lo_sta v h : v ∈ wlvif_list wl -> test_bit h (ap_sta_hlid_map (vif_at wl v)) = true ->
    test_bit h (vif_links_map (vif_at wl v)) = true;
  lo_ap v h : v ∈ wlvif_list wl -> test_bit h (ap_sta_hlid_map (vif_at wl v)) = true ->
    is_ap (vif_at wl v) = true
}.

Lemma links_own_frame wl wl' :
  hw wl' = hw wl -> wlvif_list wl' = wlvif_list wl ->
  (forall v, vif_maps (vif_at wl' v) = vif_maps (vif_at wl v)) -> links_own wl -> links_own wl'.
Proof.
  intros H1 H2 H4 [D S A P].
  assert (forall v, vif_links_map (vif_at wl' v) = vif_links_map (vif_at wl v)) as Hm
    by (intros v; exact (f_equal (fst ∘ fst) (H4 v))).
  assert (forall v, ap_sta_hlid_map (vif_at wl' v) = ap_sta_hlid_map (vif_at wl v)) as Hs
    by (intros v; exact (f_equal (snd ∘ fst) (H4 v))).
  split; rewrite ?H1, ?H2.
  - intros v v' h. rewrite !Hm. apply D.
  - intros v. rewrite Hm. apply S.
  - intros v h. rewrite Hm, Hs. apply A.
  - intros v h. rewrite Hs. assert (is_ap (vif_at wl' v) = is_ap (vif_at wl v)) as ->; [|apply P].
    pose proof (f_equal snd (H4 v)) as E. simpl in E. unfold is_ap. by rewrite E.
Qed.

Lemma stations_frame wl wl' : wlvif_list wl' = wlvif_list wl ->
  (forall v, vif_maps (vif_at wl' v) = vif_maps (vif_at wl v)) -> stations wl' = stations wl.
Proof.
  intros H1 H2. unfold stations. rewrite H1. f_equal. apply list_fmap_ext. intros i v _. simpl.
  pose proof (f_equal (snd ∘ fst) (H2 v)) as E. simpl in E. by rewrite E.
Qed.

(** The interfaces: registered ones are allocated, their links are the
    driver's, and the stations are counted.  Of an
    interface that was removed only the range of its link map is known: the
    driver leaves the map as it was. *)
Record vifs_ok (wl : wl1271) : Prop := {
  vo_system : system_hlid (hw wl) = WL12XX_SYSTEM_HLID;
  vo_alloc v : v ∈ wlvif_list wl -> is_Some (vifs wl !! v);
  vo_nodup : NoDup (wlvif_list wl);
  vo_last v : last_wlvif wl = Some v -> v ∈ wlvif_list wl;
  vo_map v h : test_bit h (vif_links_map (vif_at wl v)) = true -> is_link h;
  vo_owned v h : v ∈ wlvif_list wl -> test_bit h (vif_links_map (vif_at wl v)) = true ->
    test_bit h (links_map wl) = true;
  vo_sysmap : test_bit (system_hlid (hw wl)) (links_map wl) = true;
  vo_own : links_own wl;
  vo_count : active_sta_count wl = stations wl;
  vo_max : active_sta_count wl <= AP_MAX_STATIONS
}.

Lemma system_link wl : vifs_ok wl -> is_link (system_hlid (hw wl)).
Proof. intros V. rewrite (vo_system _ V). done. Qed.

Lemma vifs_ok_frame wl wl' :
  hw wl' = hw wl -> wlvif_list wl' = wlvif_list wl ->
  (forall v, last_wlvif wl' = Some v -> v ∈ wlvif_list wl) ->
  (forall v, is_Some (vifs wl' !! v) <-> is_Some (vifs wl !! v)) ->
  (forall v, vif_maps (vif_at wl' v) = vif_maps (vif_at wl v)) ->
  links_map wl' = links_map wl -> active_sta_count wl' = active_sta_count wl ->
  vifs_ok wl -> vifs_ok wl'.
Proof.
  intros H1 H2 H3 H4 H5 H6 H7 [? Ha ? ? Hm Ho ? Hl Hc ?].
  assert (forall v, vif_links_map (vif_at wl' v) = vif_links_map (vif_at wl v)) as H5'
    by (intros v; exact (f_equal (fst ∘ fst) (H5 v))).
  split; rewrite ?H1, ?H2, ?H6, ?H7; try done.
  - intros v Hv. by apply H4, Ha.
  - intros v h. rewrite H5'. apply Hm.
  - intros v h. rewrite H5'. apply Ho.
  - by apply (links_own_frame wl).
  - rewrite Hc. symmetry. by apply stations_frame.
Qed.

Lemma same_view_vifs wl wl' : same_view wl wl' -> vifs_ok wl -> vifs_ok wl'.
Proof.
  intros V H. apply (vifs_ok_frame wl); try done; try apply V.
  - intros v. rewrite (sv_vlast _ _ V). apply (vo_last _ H).
  - intros v. apply own_maps, V.
Qed.

(** A scheduling step keeps it when the remembered interface is a listed one. *)
Lemma sched_frame_vifs wl wl' : sched_frame wl wl' ->
  (forall v, last_wlvif wl' = Some v -> v ∈ wlvif_list wl) -> vifs_ok wl -> vifs_ok wl'.
Proof.
  intros (k & c & v & w & f & E & _ & Hv & Ha) Hl H.
  assert (hw wl' = hw wl /\ wlvif_list wl' = wlvif_list wl /\ vifs wl' = v) as (H1 & H2 & H3)
    by (by rewrite E).
  apply (vifs_ok_frame wl); try done.
  - intros x. rewrite H3. apply Ha.
  - intros x. by rewrite (Hv x).
  - by rewrite E.
  - by rewrite E.
Qed.

Lemma scan_order_spec last h : h ∈ scan_order last <-> is_link h.
Proof.
  unfold scan_order, is_link, WL12XX_MAX_LINKS. rewrite list_elem_of_fmap. split.
  - intros (i & -> & _). apply Z.mod_pos_bound. lia.
  - intros Hh. exists ((h - (last + 1) mod 12) mod 12). split.
    + rewrite Zplus_mod_idemp_r. replace (_ + (h - _)) with h by lia. by rewrite Z.mod_small.
    + apply elem_of_zseq, Z.mod_pos_bound. lia.
Qed.

(** A link that belongs to nobody has nothing queued. *)
Definition free_idle (wl : wl1271) : Prop := forall h q,
  is_link h -> is_queue q -> test_bit h (links_map wl) = false -> link_queue wl h q = [].

Lemma free_idle_sub wl wl' : links_map wl' = links_map wl ->
  (forall h q s, is_link h -> is_queue q -> s ∈ link_queue wl' h q -> s ∈ link_queue wl h q) ->
  free_idle wl -> free_idle wl'.
Proof.
  intros E S H h q Hh Hq Hb. destruct (link_queue wl' h q) as [|s l] eqn:El; [done|].
  exfalso. apply (elem_of_nil s). rewrite <- (H h q Hh Hq) by (by rewrite <- E).
  apply S; [done..|]. rewrite El. left.
Qed.

(** A link with something queued is allocated. *)
Lemma queued_allocated wl h q s : free_idle wl -> is_link h -> is_queue q ->
  s ∈ link_queue wl h q -> test_bit h (links_map wl) = true.
Proof.
  intros H Hh Hq Hs. destruct (test_bit h (links_map wl)) eqn:E; [done|].
  rewrite (H h q Hh Hq E) in Hs. by apply elem_of_nil in Hs.
Qed.

Definition link_idle (wl : wl1271) (h : Z) : Prop :=
  forall q, is_queue q -> link_queue wl h q = [].

Definition pkts_bounded (wl : wl1271) : Prop := forall q, is_queue q -> pkts wl q < no_pkts.

(** The scan takes from the first link of the interface that has a frame. *)
Lemma vif_scan_spec v hs wl :
  counts_ok wl -> Forall is_link hs ->
  let mine h := test_bit h (vif_links_map (vif_at wl v)) = true in
  match vif_dequeue_scan v hs wl with
  | (None, wl') => wl' = wl /\
      (pkts_bounded wl -> forall h, h ∈ hs -> mine h -> link_idle wl h)
  | (Some skb, wl') => exists h hs1 hs2 w1,
      hs = hs1 ++ h :: hs2 /\ mine h /\
      (pkts_bounded wl -> forall h', h' ∈ hs1 -> mine h' -> link_idle wl h') /\
      wl12xx_lnk_skb_dequeue h wl = (Some skb, w1) /\
      wl' = upd_vif v (fun w => w <| last_tx_hlid := h |>) w1
  end.
Proof.
  intros H. induction 1 as [|h hs Hh Hhs IH]; cbv zeta in *; cbn [vif_dequeue_scan].
  { split; [done|]. intros _ h Hin. by apply elem_of_nil in Hin. }
  assert (forall h' , h' ∈ h :: hs -> h' <> h -> h' ∈ hs) as Htl
    by (intros h' [->|?]%elem_of_cons; done).
  destruct (test_bit h (vif_links_map (vif_at wl v))) eqn:Hb; simpl.
  - pose proof (lnk_dequeue_spec h wl H Hh) as D.
    destruct (wl12xx_lnk_skb_dequeue h wl) as [[skb|] w1] eqn:E.
    + exists h, [], hs, w1. split_and!; try done.
      intros _ h' Hin. by apply elem_of_nil in Hin.
    + destruct D as [-> D].
      destruct (vif_dequeue_scan v hs wl) as [[skb|] w2].
      * destruct IH as (h0 & hs1 & hs2 & w3 & -> & Hm & Hi & E' & ->).
        exists h0, (h :: hs1), hs2, w3. split_and!; try done.
        intros Hp h' [->|Hin]%elem_of_cons Hm'; [intros q; by apply D | by apply Hi].
      * destruct IH as [-> IH]. split; [done|].
        intros Hp h' [->|Hin]%elem_of_cons Hm'; [intros q; by apply D | by apply IH].
  - destruct (vif_dequeue_scan v hs wl) as [[skb|] w2].
    + destruct IH as (h0 & hs1 & hs2 & w3 & -> & Hm & Hi & E' & ->).
      exists h0, (h :: hs1), hs2, w3. split_and!; try done.
      intros Hp h' [->|Hin]%elem_of_cons Hm'; [congruence | by apply Hi].
    + destruct IH as [-> IH]. split; [done|].
      intros Hp h' [->|Hin]%elem_of_cons Hm'; [congruence | by apply IH].
Qed.

Lemma upd_last_hlid_counts d v f wl : counts_off d wl ->
  (forall w, vif_own (f w) = vif_own w) -> counts_off d (upd_vif v f wl).
Proof. intros H Hf. by eapply same_view_counts; [apply upd_vif_view|]. Qed.

(** Taking a frame through an interface: [h] is the link it was queued on. *)
Lemma vif_dequeue_spec v wl :
  counts_ok wl -> is_Some (vifs wl !! v) ->
  let mine h := test_bit h (vif_links_map (vif_at wl v)) = true in
  match wl12xx_vif_skb_dequeue v wl with
  | (None, _, wl') =>
      wl' = upd_vif v (fun w => w <| last_tx_hlid := 0 |>) wl /\
      (pkts_bounded wl -> forall h, is_link h -> mine h -> link_idle wl h)
  | (Some skb, hlid, wl') => takes skb wl wl' /\ is_link hlid /\ mine hlid /\
      skb <> dummy_packet (hw wl) /\ last_wlvif wl' = last_wlvif wl /\
      exists q, is_queue q /\ skb ∈ link_queue wl hlid q
  end.
Proof.
  intros H Hv. cbv zeta. unfold wl12xx_vif_skb_dequeue.
  set (hs := scan_order _).
  assert (Forall is_link hs) as Hhs by (apply Forall_forall; intros h; apply scan_order_spec).
  pose proof (vif_scan_spec v hs wl H Hhs) as D. cbv zeta in D.
  destruct (vif_dequeue_scan v hs wl) as [[skb|] wl'].
  - destruct D as (h & hs1 & hs2 & w1 & E & Hm & _ & El & ->).
    assert (is_link h) as Hh by (apply (scan_order_spec (last_tx_hlid (vif_at wl v)));
      fold hs; rewrite E; apply elem_of_app; right; left).
    pose proof (lnk_dequeue_spec h wl H Hh) as L. rewrite El in L.
    destruct L as (T & Hnd & q & rest & Hq & Elq & Ew & _).
    assert (last_tx_hlid (vif_at (upd_vif v (fun w => w <| last_tx_hlid := h |>) w1) v) = h) as ->.
    { unfold vif_at, upd_vif. simpl. rewrite lookup_total_alt, lookup_alter_eq, Ew. simpl.
      destruct Hv as [x ->]. done. }
    rewrite u8_id by (unfold is_link, WL12XX_MAX_LINKS in Hh; lia). split_and!; try done.
    + split.
      * apply upd_last_hlid_counts; [apply T | done].
      * intros s Hs. rewrite <- (tk_copies _ _ _ T s Hs). apply same_view_copies, upd_vif_view. done.
      * etrans; [apply T | apply upd_last_hlid_sched].
      * apply T.
      * apply T.
    + by rewrite Ew.
    + exists q. split; [done|]. rewrite Elq. left.
  - destruct D as [-> D]. split; [done|]. intros Hp h Hh. apply D; [done|].
    by apply scan_order_spec.
Qed.

(** ** The passes over the interfaces *)

Definition vif_idle (wl : wl1271) (v : nat) : Prop :=
  forall h, is_link h -> test_bit h (vif_links_map (vif_at wl v)) = true -> link_idle wl h.

(** The interfaces a pass visits when it takes nothing. *)
Fixpoint upto (stop : option nat) (l : list nat) : list nat :=
  match l with
  | [] => []
  | v :: l => v :: (if bool_decide (Some v = stop) then [] else upto stop l)
  end.

Lemma after_or_upto v x l : v ∈ l -> v ∈ wlvifs_after x l \/ v ∈ upto (Some x) l.
Proof.
  induction l as [|w l IH]; intros Hv; [by apply elem_of_nil in Hv|]. simpl.
  apply elem_of_cons in Hv as [->|Hv]; [right; left|].
  destruct (decide (w = x)) as [->|Hne].
  - rewrite bool_decide_eq_true_2 by done. by left.
  - rewrite !bool_decide_eq_false_2 by congruence.
    destruct (IH Hv); [by left | right; by right].
Qed.

Lemma upto_None l : upto None l = l.
Proof. induction l as [|v l IH]; simpl; [done | by rewrite IH]. Qed.

Lemma wlvifs_after_sub v x l : v ∈ wlvifs_after x l -> v ∈ l.
Proof.
  induction l as [|w l IH]; simpl; [done|]. case_bool_decide; intros; right; auto.
Qed.

Lemma same_view_idle wl wl' h : same_view wl wl' -> link_idle wl' h <-> link_idle wl h.
Proof. intros V. unfold link_idle. split; intros H q Hq; specialize (H q Hq); by rewrite (same_view_queue _ _ _ _ V) in *. Qed.

Lemma same_view_vif_idle wl wl' v : same_view wl wl' -> vif_idle wl' v <-> vif_idle wl v.
Proof.
  intros V. pose proof (f_equal (fst ∘ fst) (sv_links _ _ V v)) as E. simpl in E.
  unfold vif_idle. split; intros H h Hh; specialize (H h Hh);
    rewrite E, (same_view_idle _ _ _ V) in *; done.
Qed.

Lemma sched_frame_pkts wl wl' : sched_frame wl wl' -> pkts_bounded wl -> pkts_bounded wl'.
Proof. by intros (? & ? & ? & ? & ? & -> & _). Qed.

Lemma takes_from_view skb w0 wl wl' :
  same_view w0 wl -> sched_frame w0 wl -> takes skb wl wl' -> takes skb w0 wl'.
Proof.
  intros V F [T1 T2 T3 T4 T5]. split; [done | | by etrans | |].
  2: { intros q Hq. by rewrite <- (sv_count _ _ V), <- (sv_ac _ _ V), T4. }
  2: { intros h q s Hs. rewrite <- (same_view_queue _ _ _ _ V). by apply T5. }
  intros s Hs. rewrite <- (same_view_copies _ _ _ V). apply T2. by rewrite (sv_hw _ _ V).
Qed.

(** What a dequeue of [skb] from [hlid] promises. *)
Record dequeued (skb : nat) (hlid : Z) (wl wl' : wl1271) : Prop := {
  dq_takes : takes skb wl wl';
  dq_link : is_link hlid;
  dq_last v : last_wlvif wl' = Some v -> last_wlvif wl = Some v \/ v ∈ wlvif_list wl;
  dq_from : (skb = dummy_packet (hw wl) /\ hlid = system_hlid (hw wl) /\
             flag wl WL1271_FLAG_DUMMY_PACKET_PENDING = true /\
             flag wl' WL1271_FLAG_DUMMY_PACKET_PENDING = false) \/
            (skb <> dummy_packet (hw wl) /\ exists q, is_queue q /\ skb ∈ link_queue wl hlid q)
}.

Lemma dequeued_from_view skb hlid w0 wl wl' :
  same_view w0 wl -> sched_frame w0 wl -> dequeued skb hlid wl wl' -> dequeued skb hlid w0 wl'.
Proof.
  intros V F [T L D P]. split; [by eapply takes_from_view | done | |].
  - intros v Hv. rewrite <- (sv_vlast _ _ V), <- (sv_vlist _ _ V). by apply D.
  - rewrite <- (sv_hw _ _ V), <- (sv_dummy _ _ V). destruct P as [?|[? (q & Hq & P)]]; [by left|].
    right. split; [done|]. exists q. by rewrite <- (same_view_queue _ _ _ _ V).
Qed.

Lemma wlvif_pass_spec stop l wl :
  counts_ok wl -> (forall v, v ∈ l -> is_Some (vifs wl !! v) /\ v ∈ wlvif_list wl) ->
  match wlvif_pass stop l wl with
  | (None, wl') => same_view wl wl' /\ sched_frame wl wl' /\
      (pkts_bounded wl -> forall v, v ∈ upto stop l -> vif_idle wl v)
  | (Some (skb, hlid), wl') => dequeued skb hlid wl wl'
  end.
Proof.
  revert wl. induction l as [|v l IH]; intros wl H Hall; cbn [wlvif_pass].
  { split_and!; [reflexivity..|]. intros _ v Hv. by apply elem_of_nil in Hv. }
  destruct (Hall v) as [Hv Hin]; [left|].
  pose proof (vif_dequeue_spec v wl H Hv) as D. cbv zeta in D.
  destruct (wl12xx_vif_skb_dequeue v wl) as [[[skb|] hlid] w1].
  - destruct D as (T & Hh & _ & Hnd & Hl & q & Hq & Hin').
    split; try done.
    + destruct T as [T1 T2 T3 T4 T5]. split; [by apply (counts_off_frame _ w1) | done | | done..].
      etrans; [exact T3 | apply last_wlvif_sched].
    + simpl. intros x [= ->]. by right.
    + right. split; [done|]. by exists q.
  - destruct D as [-> D].
    set (w1 := upd_vif v (fun w => w <| last_tx_hlid := 0 |>) wl) in *.
    assert (same_view wl w1) as V by (by apply upd_vif_view).
    assert (sched_frame wl w1) as F by apply upd_last_hlid_sched.
    assert (pkts_bounded wl -> vif_idle wl v) as I by (intros Hp h Hh Hm; by apply D).
    cbn [upto]. case_bool_decide.
    + split_and!; [done..|]. intros Hp x Hx. apply list_elem_of_singleton in Hx as ->. by apply I.
    + specialize (IH w1). destruct (wlvif_pass stop l w1) as [[[skb hlid']|] w2].
      * eapply dequeued_from_view; [done..|]. apply IH.
        -- by eapply same_view_counts.
        -- intros x Hx. rewrite (sv_alloc _ _ V). apply Hall. by right.
      * destruct IH as (V2 & F2 & I2).
        -- by eapply same_view_counts.
        -- intros x Hx. rewrite (sv_alloc _ _ V). apply Hall. by right.
        -- split_and!; [by etrans..|]. intros Hp x [->|Hx]%elem_of_cons; [by apply I|].
           apply (same_view_vif_idle _ _ _ V). apply I2; [|done]. by eapply sched_frame_pkts.
Qed.

(** ** [wl1271_skb_dequeue] *)

(** Nothing is waiting: every interface's links and the system link are empty
    and no dummy packet is pending. *)
Record tx_idle (wl : wl1271) : Prop := {
  ti_vifs v : v ∈ wlvif_list wl -> vif_idle wl v;
  ti_system : link_idle wl (system_hlid (hw wl));
  ti_dummy : flag wl WL1271_FLAG_DUMMY_PACKET_PENDING = false
}.

Lemma dummy_dequeued wl :
  counts_ok wl -> vifs_ok wl -> flag wl WL1271_FLAG_DUMMY_PACKET_PENDING = true ->
  let skb := dummy_packet (hw wl) in
  dequeued skb (system_hlid (hw wl)) wl
    (add_queue_count (ac_of wl skb) (-1) (clear_flag WL1271_FLAG_DUMMY_PACKET_PENDING wl)).
Proof.
  intros H HV Hd skb. set (q := ac_of wl skb).
  assert (is_queue q) as Hq by apply get_queue_range.
  set (w1 := clear_flag WL1271_FLAG_DUMMY_PACKET_PENDING wl).
  assert (flag w1 WL1271_FLAG_DUMMY_PACKET_PENDING = false) as Hd1
    by apply flag_clear_same.
  assert (counts_off (shift q 1 (fun _ => 0)) w1) as H1.
  { destruct H as [A1 A2 A3 A4 A5]. split; try done.
    intros q' Hq'. change (tx_queue_count w1) with (tx_queue_count wl). rewrite A4 by done.
    unfold queued, dummy_load. rewrite Hd, Hd1. change (links w1) with (links wl).
    change (hw w1) with (hw wl). simpl. fold skb. fold q. unfold shift.
    rewrite (Z.eqb_sym q' q). split_if; lia. }
  split.
  - split.
    + unfold counts_ok. eapply counts_off_ext; [|by apply add_queue_count_counts].
      intros q' _. unfold shift. split_if; lia.
    + intros s Hs. unfold is_skb. rewrite bool_decide_eq_false_2 by (unfold skb; congruence).
      rewrite Z.sub_0_r. reflexivity.
    + etrans; [|apply add_queue_count_sched]. apply dummy_flag_sched. intros i Hi.
      rewrite test_clear_bit. rewrite (proj2 (Z.eqb_neq _ i)) by congruence. apply andb_true_r.
    + intros q' Hq'. rewrite add_queue_count_at by (apply (co_counts _ _ H) || done).
      change (tx_queue_count w1) with (tx_queue_count wl). fold q. split_if; lia.
    + done.
  - apply (system_link _ HV).
  - by left.
  - by left.
Qed.

Lemma skb_dequeue_cases wl :
  counts_ok wl -> vifs_ok wl ->
  match wl1271_skb_dequeue wl with
  | (None, wl') => same_view wl wl' /\ sched_frame wl wl' /\ (pkts_bounded wl -> tx_idle wl)
  | (Some (skb, hlid), wl') => dequeued skb hlid wl wl'
  end.
Proof.
  intros H HV. unfold wl1271_skb_dequeue.
  assert (match (match last_wlvif wl with
                 | Some v => wlvif_pass None (wlvifs_after v (wlvif_list wl)) wl
                 | None => (None, wl) end) with
          | (None, w1) => same_view wl w1 /\ sched_frame wl w1 /\
              (pkts_bounded wl -> forall x v, last_wlvif wl = Some x ->
                 v ∈ wlvifs_after x (wlvif_list wl) -> vif_idle wl v)
          | (Some (skb, hlid), w1) => dequeued skb hlid wl w1 end) as S1.
  { destruct (last_wlvif wl) as [v|]; [|by split_and!].
    pose proof (wlvif_pass_spec None (wlvifs_after v (wlvif_list wl)) wl H) as P.
    destruct (wlvif_pass _ _ wl) as [[[skb hlid]|] w1].
    - apply P. intros x Hx%wlvifs_after_sub. split; [by apply (vo_alloc _ HV) | done].
    - destruct P as (? & ? & P).
      { intros x Hx%wlvifs_after_sub. split; [by apply (vo_alloc _ HV) | done]. }
      split_and!; [done..|]. intros Hp x y [= <-]. rewrite upto_None in P. by apply P. }
  destruct (match last_wlvif wl with Some _ => _ | None => _ end) as [[[skb hlid]|] w1]; [exact S1|].
  destruct S1 as (V1 & F1 & I1).
  assert (counts_ok w1) as H1 by (by eapply same_view_counts).
  assert (vifs_ok w1) as HV1 by (by eapply same_view_vifs).
  pose proof (lnk_dequeue_spec (system_hlid (hw w1)) w1 H1 (system_link _ HV1)) as D.
  destruct (wl12xx_lnk_skb_dequeue (system_hlid (hw w1)) w1) as [[skb|] w2]; simpl.
  { destruct D as (T & Hnd & q & rest & Hq & E & -> & _).
    eapply dequeued_from_view; [done..|]. split; try done; [apply (system_link _ HV1)| by left |].
    right. split; [done|]. exists q. split; [done|]. simpl. rewrite E. left. }
  destruct D as [-> D].
  pose proof (wlvif_pass_spec (last_wlvif w1) (wlvif_list w1) w1 H1) as P.
  destruct (wlvif_pass _ _ w1) as [[[skb hlid]|] w3].
  { eapply dequeued_from_view; [done..|]. apply P. intros x Hx. split; [by apply (vo_alloc _ HV1) | done]. }
  destruct P as (V3 & F3 & I3). { intros x Hx. split; [by apply (vo_alloc _ HV1) | done]. }
  assert (same_view wl w3) as V by (by etrans). assert (sched_frame wl w3) as F by (by etrans).
  destruct (flag w3 WL1271_FLAG_DUMMY_PACKET_PENDING) eqn:Hd.
  - eapply dequeued_from_view; [done..|]. apply dummy_dequeued; [| |done].
    + by eapply same_view_counts.
    + by eapply same_view_vifs.
  - split_and!; [done..|]. intros Hp. assert (pkts_bounded w1) as Hp1 by (by eapply sched_frame_pkts).
    split.
    + intros v Hv. destruct (last_wlvif wl) as [x|] eqn:El.
      * destruct (after_or_upto v x _ Hv) as [Ha|Hu]; [by apply (I1 Hp x)|].
        apply (same_view_vif_idle _ _ _ V1). apply I3; [done|].
        by rewrite (sv_vlast _ _ V1), (sv_vlist _ _ V1), El.
      * apply (same_view_vif_idle _ _ _ V1). apply I3; [done|].
        by rewrite (sv_vlast _ _ V1), (sv_vlist _ _ V1), El, upto_None.
    + apply (same_view_idle _ _ _ V1). intros q Hq. rewrite <- (sv_hw _ _ V1). by apply D.
    + by rewrite <- (sv_dummy _ _ V).
Qed.
