(* ===== verification/TxMoves.v ===== *)
(** * Steps of the transmit path

    [tx_inv] is the invariant of the transmit path, and [tx_moves delta wl wl']
    says that the step from [wl] to [wl'] keeps it and changes the number of
    holders of each buffer by [delta].  The lemmas below establish it for the
    operations up to [wl1271_prepare_tx_frame]; TxWork.v builds on them. *)

From S2P Require Import Prelude Ieee80211 WlState ChipOps Io Queues LinkQueues.
From S2P Require Import PowerSave TxPath TxAllocFacts TxSched TxInv SchedFacts.

Record tx_inv (wl : wl1271) : Prop := TxInvI {
  inv_counts : counts_ok wl;
  inv_queues : queues_ok wl;
  inv_ids : ids_ok wl;
  inv_vifs : vifs_ok wl;
  inv_ring : ring_ok wl;
  inv_free : free_idle wl
}.

Record tx_moves (delta : nat -> Z) (wl wl' : wl1271) : Prop := TxMoves {
  mv_inv : tx_inv wl';
  mv_hw : hw wl' = hw wl;
  mv_copies s : s <> dummy_packet (hw wl) -> copies s wl' = copies s wl + delta s;
  mv_route s : ac_of wl' s = ac_of wl s;
  mv_backlog q : is_queue q ->
    zget 0 (tx_queue_count wl') q <= zget 0 (tx_queue_count wl) q;
  mv_state : state_le (state wl) (state wl');
  mv_sub h q s : is_queue q -> s ∈ link_queue wl' h q -> s ∈ link_queue wl h q;
  mv_vifs : same_vifs wl wl'
}.

Definition none_moved : nat -> Z := fun _ => 0.

Lemma moves_trans d1 d2 d a b c :
  tx_moves d1 a b -> tx_moves d2 b c -> (forall s, d s = d1 s + d2 s) -> tx_moves d a c.
Proof.
  intros [I1 H1 C1 R1 B1 S1 L1 V1] [I2 H2 C2 R2 B2 S2 L2 V2] Hd.
  split; [done | congruence | | | | by etrans | eauto | by etrans].
  - intros s Hs. rewrite C2 by congruence. rewrite C1 by done. rewrite Hd. lia.
  - intros s. by rewrite R2, R1.
  - intros q Hq. specialize (B1 q Hq). specialize (B2 q Hq). lia.
Qed.

Lemma view_moves wl wl' : tx_inv wl -> same_view wl wl' -> tx_moves none_moved wl wl'.
Proof.
  intros [H1 H2 H3 H4 H5 H6] V. split; [split| | | | | | |].
  - by eapply same_view_counts.
  - by eapply same_view_queues.
  - by eapply same_view_ids.
  - by eapply same_view_vifs.
  - by apply (sv_ring _ _ V).
  - apply (free_idle_sub wl); [apply V | | done]. intros h q s _ _. by rewrite (same_view_queue _ _ _ _ V).
  - apply V.
  - intros s _. rewrite (same_view_copies _ _ _ V). unfold none_moved. lia.
  - apply V.
  - intros q _. by rewrite (sv_count _ _ V).
  - apply V.
  - intros h q s _. by rewrite (same_view_queue _ _ _ _ V).
  - by apply view_vifs.
Qed.

Lemma moves_view d a b c : tx_moves d a b -> same_view b c -> tx_moves d a c.
Proof.
  intros M V. eapply moves_trans; [exact M | apply view_moves; [apply M | exact V] |].
  intros s. unfold none_moved. lia.
Qed.

Lemma moves_refl wl : tx_inv wl -> tx_moves none_moved wl wl.
Proof. intros H. by apply view_moves. Qed.

(** ** Flow control *)

Lemma queue_frame_copies s wl r l :
  copies s (wl <| queue_stop_reasons := r |> <| log := l |>)
  = copies s wl - released s (log wl) + released s l.
Proof. unfold copies. simpl. lia. Qed.

(** A count of events that flow control does not emit. *)
Definition deaf (g : event -> Z) : Prop := forall q, g (EvStopQueue q) = 0 /\ g (EvWakeQueue q) = 0.

Lemma releases_deaf s : deaf (ev_releases s).
Proof. done. Qed.

Lemma completes_deaf : deaf ev_completes.
Proof. done. Qed.

#[export] Hint Resolve releases_deaf completes_deaf : wl.

Lemma wake_queue_count g queue reason wl : deaf g ->
  zsum (g <$> log (wlcore_wake_queue queue reason wl)) = zsum (g <$> log wl).
Proof.
  intros D. unfold wlcore_wake_queue. cbv zeta. split_if; [done|].
  change (g (EvWakeQueue (wl1271_tx_get_mac80211_queue queue)) + zsum (g <$> log wl) = zsum (g <$> log wl)).
  rewrite (proj2 (D _)). lia.
Qed.

Lemma stop_queue_count g queue reason wl : deaf g ->
  zsum (g <$> log (wlcore_stop_queue_locked queue reason wl)) = zsum (g <$> log wl).
Proof.
  intros D. unfold wlcore_stop_queue_locked. cbv zeta. split_if; [done|].
  change (g (EvStopQueue (wl1271_tx_get_mac80211_queue queue)) + zsum (g <$> log wl) = zsum (g <$> log wl)).
  rewrite (proj1 (D _)). lia.
Qed.

Lemma low_watermark_count g wl : deaf g ->
  zsum (g <$> log (wl1271_handle_tx_low_watermark wl)) = zsum (g <$> log wl).
Proof.
  intros D. unfold wl1271_handle_tx_low_watermark.
  apply (for_range_inv (fun w => zsum (g <$> log w) = zsum (g <$> log wl))); [done|].
  intros w i _ Hw. split_if; [by rewrite wake_queue_count | done].
Qed.

Lemma for_queues_count g (f : Z -> wl1271 -> wl1271) wl n :
  (forall i w, zsum (g <$> log (f i w)) = zsum (g <$> log w)) ->
  zsum (g <$> log (for_range n f wl)) = zsum (g <$> log wl).
Proof.
  intros Hf. apply (for_range_inv (fun w => zsum (g <$> log w) = zsum (g <$> log wl))); [done|].
  intros w i _ Hw. by rewrite Hf.
Qed.

(** A flow-control step that keeps the contract is a step. *)
Lemma queue_frame_moves wl wl' :
  tx_inv wl -> queue_frame wl wl' -> queues_ok wl' ->
  (forall g, deaf g -> zsum (g <$> log wl') = zsum (g <$> log wl)) -> tx_moves none_moved wl wl'.
Proof.
  intros [H1 H2 H3 H4 H5 H6] (r & l & ->) Q R. simpl in R. split; [split| | | | | | |]; try done.
  - by apply (counts_off_frame _ wl).
  - by apply (ids_ok_frame wl).
  - by apply (vifs_ok_frame wl); try apply (vo_last _ H4).
  - intros s _. rewrite queue_frame_copies. unfold released, none_moved. rewrite R by apply releases_deaf. lia.
  - split; try done. unfold scans, completed_scans. simpl. by rewrite R by apply completes_deaf.
Qed.

Lemma low_watermark_moves wl : tx_inv wl ->
  tx_moves none_moved wl (wl1271_handle_tx_low_watermark wl).
Proof.
  intros H. apply queue_frame_moves; [done | apply low_watermark_frame | |].
  - apply low_watermark_ok, H.
  - intros g. apply low_watermark_count.
Qed.

Lemma stop_queue_moves q r wl : tx_inv wl -> is_queue q ->
  tx_moves none_moved wl (wlcore_stop_queue_locked q r wl).
Proof.
  intros H Hq. apply queue_frame_moves; [done | apply stop_queue_frame | |].
  - apply stop_queue_ok; [apply H | done].
  - intros g. apply stop_queue_count.
Qed.

Lemma stop_queues_moves r wl : tx_inv wl -> tx_moves none_moved wl (wlcore_stop_queues r wl).
Proof.
  intros H. apply queue_frame_moves; [done | apply stop_queues_frame | |].
  - apply stop_queues_ok, H.
  - intros g D. apply for_queues_count. intros. by apply stop_queue_count.
Qed.

Lemma wake_queues_moves r wl : tx_inv wl -> tx_moves none_moved wl (wlcore_wake_queues r wl).
Proof.
  intros H. apply queue_frame_moves; [done | apply wake_queues_frame | |].
  - apply wake_queues_ok, H.
  - intros g D. apply for_queues_count. intros. by apply wake_queue_count.
Qed.

(** ** Draining a link *)

(** The two drain loops report every buffer that is not the dummy packet. *)
Definition status_body (g : tx_info -> tx_info) (skb : nat) (wl : wl1271) : wl1271 :=
  if wl12xx_is_dummy_packet wl skb then wl
  else emit (EvTxStatus skb) (upd_skb skb (fun s => s <| skb_cb ::= g |>) wl).

Lemma status_body_copies g skb wl s : s <> dummy_packet (hw wl) ->
  copies s (status_body g skb wl) = copies s wl + is_skb s skb.
Proof.
  intros Hs. unfold status_body, wl12xx_is_dummy_packet. split_if.
  - apply Nat.eqb_eq in E. unfold is_skb. rewrite bool_decide_eq_false_2 by congruence. lia.
  - unfold copies. simpl. unfold released. csimpl. lia.
Qed.

Lemma drain_queue_copies g hlid q wl d s : keeps_control g ->
  counts_off d wl -> is_link hlid -> is_queue q -> s <> dummy_packet (hw wl) ->
  copies s (snd (drain_queue hlid q (status_body g) wl)) = copies s wl.
Proof.
  intros Hg H Hh Hq Hs. set (l0 := link_queue wl hlid q).
  pose proof (drain_queue_ind (fun n l w =>
    counts_off (shift q n d) w /\ hw w = hw wl /\ copies s w = copies s wl)
    hlid q (status_body g) wl) as L.
  destruct (drain_queue hlid q (status_body g) wl) as [n wl'].
  destruct L as (_ & _ & _ & _ & L); [| |exact L].
  - split_and!; [|done..]. eapply counts_off_ext; [|exact H].
    intros q' _. unfold shift. split_if; lia.
  - intros n' skb rest w El (Hc & Hw & Hcp). cbv zeta.
    pose proof (complete_skb_completes g Hg : completes (status_body g)) as CB.
    pose proof (skb_dequeue_spec _ hlid q w Hc Hh Hq) as D. rewrite El in D. destruct D as [_ D].
    split_and!.
    + rewrite (completes_link_queue _ _ _ _ _ CB), (link_queue_set _ _ _ _ _ _ _ Hc Hh Hq).
      by rewrite !Z.eqb_refl.
    + apply (completes_counts _ _ _ _ CB). eapply counts_off_ext; [|exact D].
      intros q' _. unfold shift. split_if; lia.
    + unfold status_body. split_if; done.
    + rewrite status_body_copies by (simpl; congruence).
      rewrite (set_link_queue_copies s _ _ _ _ _ Hc Hh Hq), El, occ_cons. lia.
Qed.

Lemma drain_link_copies g hlid wl s : keeps_control g ->
  counts_ok wl -> is_link hlid -> s <> dummy_packet (hw wl) ->
  copies s (drain_link hlid (status_body g) wl) = copies s wl.
Proof.
  intros Hg H Hh Hs. unfold drain_link.
  set (body' := fun i '(total, wl) => let '(n, wl) := drain_queue hlid i (status_body g) wl in
                                      (zset total i n, wl) : list Z * wl1271).
  pose proof (for_range_inv (fun '(total, w) =>
    (exists d, counts_off d w) /\ hw w = hw wl /\ copies s w = copies s wl)
    NUM_TX_QUEUES body' ([0;0;0;0], wl)) as L.
  destruct (for_range NUM_TX_QUEUES body' _) as [total w].
  destruct L as (_ & _ & L).
  - split_and!; [by eexists | done..].
  - clear total w H. intros [total w] i Hi ((d & Hd) & Hw & Hc). subst body'. simpl.
    pose proof (drain_queue_spec d hlid i (status_body g) w (complete_skb_completes g Hg) Hd Hh Hi) as D.
    pose proof (drain_queue_copies g hlid i w d s Hg Hd Hh Hi) as C.
    destruct (drain_queue hlid i (status_body g) w) as [n w'].
    destruct D as (D & _ & (? & ? & ? & F) & _). simpl in C.
    split_and!; [by eexists | by rewrite F | by rewrite C by congruence].
  - rewrite <- L. cbv zeta. clear.
    destruct (add_queue_counts_frame (fun i => - zget 0 total i) NUM_TX_QUEUES w) as [c F].
    rewrite F. destruct (low_watermark_frame (w <| tx_queue_count := c |>)) as (r & l & Q).
    pose proof (low_watermark_count (ev_releases s) (w <| tx_queue_count := c |>) (releases_deaf s)) as R.
    rewrite Q in *. rewrite queue_frame_copies. unfold released. simpl in R. rewrite R.
    change (copies s (w <| tx_queue_count := c |>)) with (copies s w). simpl. lia.
Qed.

(** What the steps of a drain keep, the drain keeps. *)
Lemma drain_link_obs {A} (obs : wl1271 -> A) h body wl :
  (forall s w, obs (body s w) = obs w) -> (forall q w, obs (snd (skb_dequeue h q w)) = obs w) ->
  (forall i n w, obs (add_queue_count i n w) = obs w) ->
  (forall w, obs (wl1271_handle_tx_low_watermark w) = obs w) ->
  obs (drain_link h body wl) = obs wl.
Proof.
  intros Hb Hd Hc Hw. unfold drain_link. set (r := for_range NUM_TX_QUEUES _ _).
  assert (obs (snd r) = obs wl) as E.
  { apply (for_range_inv (fun r : list Z * wl1271 => obs (snd r) = obs wl)); [done|].
    intros [t w] i _ Ho. simpl in Ho.
    assert (obs (snd (drain_queue h i body w)) = obs w) as Ed.
    { unfold drain_queue. apply (fold_left_inv (fun r : Z * wl1271 => obs (snd r) = obs w)); [done|].
      intros [n w'] skb _ Hn. simpl in *. by rewrite Hb, Hd. }
    destruct (drain_queue h i body w) as [n w']. simpl in *. congruence. }
  destruct r as [t w]. simpl in E. rewrite Hw, <- E.
  apply (for_range_inv (fun w' => obs w' = obs w)); [done|]. intros w' i _ <-. apply Hc.
Qed.

Lemma low_watermark_scans wl : scans (wl1271_handle_tx_low_watermark wl) = scans wl.
Proof.
  pose proof (low_watermark_count ev_completes wl completes_deaf) as C.
  destruct (low_watermark_frame wl) as (r & l & E). rewrite E in *. unfold scans, completed_scans. by rewrite C.
Qed.

Lemma drain_link_scans g hlid wl : scans (drain_link hlid (status_body g) wl) = scans wl.
Proof.
  apply drain_link_obs.
  - intros s w. unfold status_body. by split_if.
  - intros q w. unfold skb_dequeue. by destruct (link_queue w hlid q).
  - done.
  - apply low_watermark_scans.
Qed.

Lemma drain_link_moves g hlid wl : keeps_control g ->
  tx_inv wl -> is_link hlid -> tx_moves none_moved wl (drain_link hlid (status_body g) wl).
Proof.
  intros Hg H Hh.
  destruct (drain_link_spec hlid (status_body g) wl (complete_skb_completes g Hg) (inv_counts _ H) Hh)
    as (D1 & D2 & D3 & D4 & D5).
  pose proof (fun q => drain_link_backlog hlid (status_body g) wl q (complete_skb_completes g Hg)
    (inv_counts _ H) Hh) as B.
  pose proof (fun s => drain_link_copies g hlid wl s Hg (inv_counts _ H) Hh) as C.
  pose proof (drain_link_scans g hlid wl) as N.
  set (wl' := drain_link hlid (status_body g) wl) in *. clearbody wl'. destruct D3 as (n & k & c & r & l & E). destruct H as [H1 H2 H3 H4 H5 H6].
  split; [split| | | | | | |].
  - done.
  - by apply D5.
  - rewrite E. by apply (ids_ok_frame wl).
  - rewrite E. by apply (vifs_ok_frame wl); try apply (vo_last _ H4).
  - by rewrite E.
  - apply (free_idle_sub wl); [by rewrite E | | done]. intros h q s _ Hq. rewrite D2 by done.
    split_if; [intros X; by apply elem_of_nil in X | done].
  - by rewrite E.
  - intros s Hs. rewrite C by done. unfold none_moved. lia.
  - intros s. by apply same_payload_ac.
  - exact B.
  - rewrite E. reflexivity.
  - intros h q s Hq. rewrite D2 by done. split_if; [intros X; by apply elem_of_nil in X | done].
  - split; [by rewrite E.. | done].
Qed.

(** The status mac80211 gets for a frame dropped because its station sleeps. *)
Definition filtered_status (i : tx_info) : tx_info :=
  i <| info_flags ::= fun f => Z.lor f IEEE80211_TX_STAT_TX_FILTERED |>
    <| status_rate_idx := -1 |>.

Lemma filtered_keeps : keeps_control filtered_status.
Proof. by split. Qed.

Lemma filter_frames_eq hlid wl :
  wl1271_ps_filter_frames hlid wl = drain_link hlid (status_body filtered_status) wl.
Proof. reflexivity. Qed.

(** The status of a frame dropped by a reset. *)
Definition dropped_status (i : tx_info) : tx_info :=
  i <| status_rate_idx := -1 |> <| status_rate_count := 0 |>.

Lemma dropped_keeps : keeps_control dropped_status.
Proof. by split. Qed.

Lemma reset_link_queues_moves hlid wl : tx_inv wl -> is_link hlid ->
  tx_moves none_moved wl (wl1271_tx_reset_link_queues hlid wl).
Proof. intros. by apply (drain_link_moves dropped_status). Qed.
