(* ===== verification/TxPrep.v ===== *)
(** * What preparing a frame does

    [wl1271_tx_allocate] conserves firmware blocks and leaves no trace when it
    fails; [wl1271_prepare_tx_frame] keeps the transmit invariant, hands the
    frame to the firmware table exactly when it succeeds, and never writes
    outside the aggregation buffer. *)

From S2P Require Import Prelude Ieee80211 WlState ChipOps Io Queues LinkQueues.
From S2P Require Import PowerSave TxPath TxAllocFacts TxSched TxInv SchedFacts TxMoves.

(** ** Identifiers *)

Lemma frame_at_zset wl id o : 0 <= id < zlen (tx_frames wl) -> forall s,
  zsum (frame_copy s <$> zset (tx_frames wl) id o)
  = zsum (frame_copy s <$> tx_frames wl) - frame_copy s (frame_at wl id) + frame_copy s o.
Proof. intros Hid s. unfold frame_at. by rewrite (zsum_zset _ None). Qed.

Lemma alloc_state_moves id skb wl :
  tx_inv wl -> 0 <= id < num_tx_desc (hw wl) -> frame_at wl id = None ->
  test_bit id (tx_frames_map wl) = false ->
  tx_moves (fun s => is_skb s skb) wl (alloc_state id skb wl).
Proof.
  intros [H1 H2 H3 H4 H5 H6] Hid Hf Hb. split; [split| | | | | | |]; try done.
  - by apply (counts_off_frame _ wl).
  - by apply (queues_ok_frame wl).
  - by apply alloc_state_ok.
  - by apply (vifs_ok_frame wl); try apply (vo_last _ H4).
  - intros s _. unfold copies. simpl.
    rewrite frame_at_zset by (rewrite (ids_len _ H3); pose proof (ids_num _ H3); lia).
    rewrite Hf. simpl. lia.
Qed.

Lemma free_tx_id_moves id wl :
  tx_inv wl ->
  tx_moves (fun s => - frame_copy s (frame_at wl id)) wl (wl1271_free_tx_id id wl).
Proof.
  intros [H1 H2 H3 H4 H5 H6].
  destruct (free_tx_id_spec id wl H3) as (S1 & _ & _ & _).
  destruct (free_tx_id_frame id wl) as (f & m & t & c & E & Hf).
  assert (t = zset (tx_frames wl) id None) as Ht.
  { destruct (test_bit id (tx_frames_map wl)) eqn:Eb.
    - apply (f_equal tx_frames) in E. unfold wl1271_free_tx_id in E. rewrite Eb in E.
      simpl in E. rewrite <- E. by split_if.
    - destruct (free_tx_id_spec id wl H3) as (_ & S2 & _). unfold wl1271_free_tx_id in *.
      rewrite Eb in *. apply (f_equal tx_frames) in E. simpl in E. rewrite <- E.
      unfold frame_at in S2. rewrite <- S2. by rewrite zset_same. }
  split; [split| | | | | | |].
  - rewrite E. apply (counts_off_frame _ wl); try done. by apply Hf.
  - rewrite E. by apply (queues_ok_frame wl).
  - exact S1.
  - rewrite E. by apply (vifs_ok_frame wl); try apply (vo_last _ H4).
  - by rewrite E.
  - by rewrite E.
  - by rewrite E.
  - intros s _. rewrite E. unfold copies. simpl. rewrite Ht.
    destruct (decide (0 <= id < zlen (tx_frames wl))) as [Hr|Hr].
    + rewrite frame_at_zset by done. simpl. lia.
    + assert (zset (tx_frames wl) id None = tx_frames wl /\ frame_at wl id = None) as [-> ->];
        [|simpl; lia].
      unfold zset, frame_at, zget, zlen in *. split_if; bool_to_prop; [done|].
      split; [apply list_insert_ge; lia | apply nth_overflow; lia].
  - intros s. by rewrite E.
  - intros q _. by rewrite E.
  - rewrite E. reflexivity.
  - intros h q s _. by rewrite E.
  - by rewrite E.
Qed.

(** ** Views of the pieces *)

Lemma keeps_route_data (f : sk_buff -> list Z -> list Z) :
  keeps_route (fun s => s <| skb_data ::= f s |>).
Proof. intros x. done. Qed.

Lemma skb_push_route n : keeps_route (skb_push n).
Proof. intros x. done. Qed.

Lemma skb_pull_route n : keeps_route (skb_pull n).
Proof. intros x. unfold skb_pull. by split_if. Qed.

(** Fields of the driver state the view does not include. *)
Lemma pool_view wl a b p :
  same_view wl (wl <| tx_blocks_available := a |> <| tx_allocated_blocks := b |>
                   <| tx_allocated_pkts := p |>).
Proof. by split. Qed.

Lemma watchdog_view wl : same_view wl (wl12xx_rearm_tx_watchdog_locked wl).
Proof. unfold wl12xx_rearm_tx_watchdog_locked. split_if; by split. Qed.

Lemma aggr_buf_view f wl : same_view wl (wl <| aggr_buf ::= f |>).
Proof. by split. Qed.

Lemma getnstimeofday_view wl : same_view wl (snd (getnstimeofday wl)).
Proof. unfold getnstimeofday. destruct (clock wl); simpl; by split. Qed.

(** ** Allocation *)

Section Prep.
Context `{laws : wlcore_ops_laws}.

(** The state after the identifier and the blocks have been granted. *)
Definition granted (wlvif : option nat) (skb : nat) (total_len hlid id : Z) (is_gem : bool)
    (wl : wl1271) : wl1271 :=
  let spare_blocks := get_spare_blocks wl is_gem in
  let len := skb_len (skb_at wl skb) in
  let wl := alloc_state id skb wl in
  let total_blocks := calc_tx_blocks wl total_len spare_blocks in
  let wl := upd_skb skb (skb_push (total_len - len)) wl in
  let wl := upd_skb skb (fun s => s <| skb_data ::= with_desc (fun d =>
              (set_tx_desc_blocks wl d total_blocks spare_blocks) <| d_id := u8 id |>) |>) wl in
  let wl := wl <| tx_blocks_available ::= fun n => u32 (n - total_blocks) |>
               <| tx_allocated_blocks ::= fun n => u32 (n + total_blocks) |> in
  let wl := if tx_allocated_blocks wl =? total_blocks
            then wl12xx_rearm_tx_watchdog_locked wl else wl in
  let ac := wl1271_tx_get_queue (skb_queue_mapping (skb_at wl skb)) in
  let wl := wl <| tx_allocated_pkts ::= fun l => zset l ac (u32 (zget 0 l ac + 1)) |> in
  match wlvif with
  | Some v =>
      if negb (wl12xx_is_dummy_packet wl skb) && is_ap (vif_at wl v)
         && test_bit hlid (ap_sta_hlid_map (vif_at wl v))
      then upd_link hlid (fun lnk => lnk <| allocated_pkts ::= fun n => u8 (n + 1) |>) wl
      else wl
  | None => wl
  end.

(** The three results of an allocation. *)
Lemma tx_allocate_cases wlvif skb extra off hlid is_gem wl :
  ids_ok wl ->
  let total_len := u32 (skb_len (skb_at wl skb) + TX_DESC_SIZE + extra) in
  let '(ret, wl') := wl1271_tx_allocate wlvif skb extra off hlid is_gem wl in
  (ret = - EAGAIN /\ wl' = wl /\ aggr_buf_size (hw wl) < u32 (off + total_len)) \/
  (ret = - EBUSY /\ exists f, wl' = wl <| flags := f |> /\
     (forall i, i <> WL1271_FLAG_FW_TX_BUSY -> test_bit i f = flag wl i) /\
     u32 (off + total_len) <= aggr_buf_size (hw wl) /\
     (tx_frames_cnt wl = num_tx_desc (hw wl) \/ exists id,
      tx_blocks_available wl < calc_tx_blocks (alloc_state id skb wl) total_len (get_spare_blocks wl is_gem))) \/
  (ret = 0 /\ u32 (off + total_len) <= aggr_buf_size (hw wl) /\
   exists id, 0 <= id < num_tx_desc (hw wl) /\ frame_at wl id = None /\
     test_bit id (tx_frames_map wl) = false /\
     calc_tx_blocks (alloc_state id skb wl) total_len (get_spare_blocks wl is_gem)
       <= tx_blocks_available wl /\
     wl' = granted wlvif skb total_len hlid id is_gem wl).
Proof.
  intros H. cbv zeta. unfold wl1271_tx_allocate. cbv zeta.
  set (total_len := u32 (skb_len _ + _ + _)).
  split_if; bool_to_prop; [by left|].
  pose proof (alloc_tx_id_spec skb wl H) as A.
  destruct (wl1271_alloc_tx_id skb wl) as [id w1].
  destruct A as [(-> & -> & Hc) | (Hid & Hf & Hb & -> & _)].
  { simpl. right. left. split; [done|]. exists (flags wl). split_and!; [by destruct wl | done | done | by left]. }
  destruct (id <? 0) eqn:E1; bool_to_prop; [lia|].
  destruct (_ <=? tx_blocks_available (alloc_state id skb wl)) eqn:E2; bool_to_prop.
  - right. right. split_and!; [done..|]. exists id. split_and!; try done; lia.
  - right. left. split; [done|].
    destruct (free_alloc_restores id skb wl H Hid Hf Hb) as (f & Ef & Hff).
    exists f. split_and!; [done | done | done | right; by exists id].
Qed.

(** The rest of an allocation is accounting. *)
Lemma granted_view wlvif skb total_len hlid id is_gem wl :
  same_view (alloc_state id skb wl) (granted wlvif skb total_len hlid id is_gem wl).
Proof.
  unfold granted. cbv zeta.
  etrans; [apply (upd_skb_view skb (skb_push (total_len - skb_len (skb_at wl skb)))); apply skb_push_route|].
  match goal with |- context [upd_skb skb ?f (upd_skb _ _ ?w)] =>
    etrans; [apply (upd_skb_view skb f (upd_skb skb (skb_push (total_len - skb_len (skb_at wl skb))) w));
             by intros x|] end.
  match goal with |- same_view ?w _ => generalize w end. clear. intros w.
  set (b := calc_tx_blocks _ _ _). clearbody b.
  set (w1 := w <| tx_blocks_available ::= _ |> <| tx_allocated_blocks ::= _ |>).
  assert (same_view w w1) as V1 by (by split). clearbody w1.
  set (w2 := if tx_allocated_blocks w1 =? b then _ else w1).
  assert (same_view w w2) as V2.
  { etrans; [exact V1|]. unfold w2. split_if; [apply watchdog_view | reflexivity]. }
  clearbody w2. clear V1.
  set (w3 := w2 <| tx_allocated_pkts ::= _ |>).
  assert (same_view w w3) as V3 by (etrans; [exact V2 | by split]). clearbody w3.
  destruct wlvif as [v|]; [|done]. split_if; [|done].
  etrans; [exact V3 | by apply upd_link_view].
Qed.

Lemma granted_moves wlvif skb total_len hlid id is_gem wl :
  tx_inv wl -> 0 <= id < num_tx_desc (hw wl) -> frame_at wl id = None ->
  test_bit id (tx_frames_map wl) = false ->
  tx_moves (fun s => is_skb s skb) wl (granted wlvif skb total_len hlid id is_gem wl).
Proof.
  intros H Hid Hf Hb. eapply moves_view; [by apply alloc_state_moves | apply granted_view].
Qed.

Lemma tx_allocate_moves wlvif skb extra off hlid is_gem wl :
  tx_inv wl ->
  let '(ret, wl') := wl1271_tx_allocate wlvif skb extra off hlid is_gem wl in
  ((ret = - EAGAIN \/ ret = - EBUSY) /\ tx_moves none_moved wl wl') \/
  (ret = 0 /\ tx_moves (fun s => is_skb s skb) wl wl').
Proof.
  intros H.
  pose proof (tx_allocate_cases wlvif skb extra off hlid is_gem wl (inv_ids _ H)) as C. cbv zeta in C.
  destruct (wl1271_tx_allocate wlvif skb extra off hlid is_gem wl) as [ret wl'].
  destruct C as [(-> & -> & _) | [(-> & f & -> & Hf) | (-> & _ & id & Hid & Hn & Hb & _ & ->)]].
  - left. split; [by left | by apply moves_refl].
  - left. split; [by right|]. apply view_moves; [done|]. apply flags_view. by apply Hf.
  - right. split; [done|]. by apply granted_moves.
Qed.

(** ** Filling the descriptor, key switch, access-point bookkeeping *)

Lemma fill_hdr_view wlvif skb extra hlid wl :
  same_view wl (wl1271_tx_fill_hdr wlvif skb extra hlid wl).
Proof.
  unfold wl1271_tx_fill_hdr. cbv zeta.
  set (w1 := if negb (extra =? 0) then _ else wl).
  assert (same_view wl w1) as V1 by (unfold w1; split_if; [by apply upd_skb_view | reflexivity]).
  clearbody w1. pose proof (getnstimeofday_view w1) as V2.
  destruct (getnstimeofday w1) as [ns w2]. simpl in V2.
  etrans; [exact V1|]. etrans; [exact V2|]. apply upd_skb_view. by intros x.
Qed.

Lemma prepare_key_view wlvif key wl :
  match tx_prepare_key wlvif key wl with
  | None => True
  | Some (ret, _, wl') => same_view wl wl'
  end.
Proof.
  unfold tx_prepare_key. destruct key as [k|]; [|reflexivity]. cbv zeta.
  destruct (_ || _); [|reflexivity]. destruct wlvif as [v|]; [|done]. split_if; [reflexivity|].
  unfold wl1271_set_default_wep_key.
  set (r := if is_ap (vif_at wl v) then _ else _).
  assert (io_frame wl (snd r)) as F by (unfold r; split_if; apply cmd_send_io_frame).
  destruct r as [ret w1]. simpl in F. apply io_frame_view in F.
  destruct (ret <? 0) eqn:Er; cbv beta iota; rewrite ?Er; [exact F|].
  split_if; [exact F|]. etrans; [exact F | by apply upd_vif_view].
Qed.

Lemma filter_frames_moves hlid wl : tx_inv wl -> is_link hlid ->
  tx_moves none_moved wl (wl1271_ps_filter_frames hlid wl).
Proof. intros H Hh. rewrite filter_frames_eq. by apply drain_link_moves. Qed.

Lemma ps_link_start_moves v hlid clean wl : tx_inv wl -> is_link hlid ->
  tx_moves none_moved wl (wl12xx_ps_link_start v hlid clean wl).
Proof.
  intros H Hh. unfold wl12xx_ps_link_start. cbv zeta.
  split_if; [by apply moves_refl|]. split_if; [by apply moves_refl|].
  set (addr := link_addr _).
  assert (tx_moves none_moved wl (emit (EvStaPs addr true) wl)) as M1
    by (apply view_moves; [done | by apply emit_view]).
  set (w1 := if clean then _ else _).
  assert (tx_moves none_moved wl w1) as M2.
  { unfold w1. destruct clean; [|exact M1].
    eapply moves_trans; [exact M1 | apply filter_frames_moves; [apply M1 | done] | done]. }
  eapply moves_view; [exact M2 | by split].
Qed.

Lemma regulate_link_moves v hlid wl : tx_inv wl ->
  tx_moves none_moved wl (wl1271_tx_regulate_link v hlid wl).
Proof.
  intros H. unfold wl1271_tx_regulate_link. cbv zeta. split_if; [by apply moves_refl|].
  split_if; [|by apply moves_refl]. apply ps_link_start_moves; [done|].
  apply (vo_map _ (inv_vifs _ H) v). by destruct (test_bit hlid _).
Qed.

Lemma inconnection_view skb wl : same_view wl (wl1271_tx_ap_update_inconnection_sta skb wl).
Proof.
  unfold wl1271_tx_ap_update_inconnection_sta. cbv zeta. split_if; [|reflexivity].
  apply io_frame_view, cmd_send_io_frame.
Qed.

(** ** The whole preparation *)

Lemma prepare_moves wlvif skb off hlid wl :
  tx_inv wl ->
  match wl1271_prepare_tx_frame wlvif skb off hlid wl with
  | None => True
  | Some (ret, wl') =>
      (ret < 0 /\ tx_moves none_moved wl wl') \/
      (0 <= ret /\ tx_moves (fun s => is_skb s skb) wl wl')
  end.
Proof.
  intros H. unfold wl1271_prepare_tx_frame.
  split_if; [left; split; [done | by apply moves_refl]|]. cbv zeta.
  pose proof (prepare_key_view wlvif (control_hw_key (skb_cb (skb_at wl skb))) wl) as V.
  destruct (tx_prepare_key _ _ wl) as [[[ret is_gem] w1]|]; [|done].
  pose proof (view_moves _ _ H V) as M1.
  split_if; bool_to_prop; [by left|].
  set (extra := tx_extra _ _).
  pose proof (tx_allocate_moves wlvif skb extra off hlid is_gem w1 (mv_inv _ _ _ M1)) as A.
  destruct (wl1271_tx_allocate _ _ _ _ _ _ w1) as [ret' w2].
  destruct A as [[Hr M2] | [-> M2]].
  { assert ((ret' <? 0) = true) as -> by (destruct Hr as [-> | ->]; done).
    left. split; [destruct Hr as [-> | ->]; done|]. by eapply moves_trans. }
  simpl. right.
  assert (tx_moves (fun s => is_skb s skb) wl w2) as M by (by eapply moves_trans). clear M1 M2 V.
  eapply moves_view in M; [|apply (fill_hdr_view wlvif skb extra hlid)].
  set (w3 := wl1271_tx_fill_hdr wlvif skb extra hlid w2) in *. clearbody w3.
  set (w4 := match wlvif with Some v => _ | None => w3 end).
  assert (tx_moves (fun s => is_skb s skb) wl w4) as M4.
  { unfold w4. destruct wlvif as [v|]; [|done]. split_if; [|done].
    eapply moves_view in M; [|apply (inconnection_view skb)].
    eapply moves_trans; [exact M | apply regulate_link_moves; apply M |].
    intros s. unfold none_moved. lia. }
  clearbody w4.
  match goal with |- context [w4 <| aggr_buf ::= ?f |>] =>
    pose proof (moves_view _ _ _ _ M4 (aggr_buf_view f w4)) as M5 end.
  split; [apply calc_packet_alignment_nonneg|].
  split_if; [|exact M5]. eapply moves_view; [exact M5|]. apply upd_skb_view, skb_pull_route.
Qed.
(** ** The bytes *)

Lemma skb_at_upd_same s f wl : is_Some (skbs wl !! s) ->
  skb_at (upd_skb s f wl) s = f (skb_at wl s).
Proof.
  intros [b Hb]. rewrite skb_at_upd, bool_decide_eq_true_2 by done. unfold skb_at.
  by rewrite lookup_total_alt, Hb.
Qed.

Lemma upd_skb_is_Some s f wl x : is_Some (skbs (upd_skb s f wl) !! x) <-> is_Some (skbs wl !! x).
Proof. unfold upd_skb. simpl. rewrite lookup_alter. case_decide; [subst; by rewrite fmap_is_Some | done]. Qed.

Lemma skb_push_len n skb : 0 <= n -> skb_len (skb_push n skb) = n + skb_len skb.
Proof.
  intros Hn. unfold skb_len, zlen, skb_push. simpl.
  rewrite length_app, length_rev, length_take, length_app, length_replicate. lia.
Qed.

(** A pushed header leaves the old bytes behind it. *)
Lemma skb_push_data n skb : 0 <= n ->
  drop (Z.to_nat n) (skb_data (skb_push n skb)) = skb_data skb.
Proof.
  intros Hn. unfold skb_push. simpl. apply drop_app_length'.
  rewrite length_rev, length_take, length_app, length_replicate. lia.
Qed.

(** The identifier and the link as the firmware reads them. *)
Definition desc_names (id hlid : Z) (data : list Z) : Prop :=
  d_id (decode_desc data) = u8 id /\ d_hlid (decode_desc data) = u8 hlid.

Lemma decode_id d rest : d_id (decode_desc (encode_desc d ++ rest)) = u8 (d_id d).
Proof. unfold decode_desc, encode_desc. rewrite <- !app_assoc. simpl. rewrite Z.add_0_r. reflexivity. Qed.

Lemma decode_hlid d rest : d_hlid (decode_desc (encode_desc d ++ rest)) = u8 (d_hlid d).
Proof. unfold decode_desc, encode_desc. rewrite <- !app_assoc. simpl. rewrite Z.add_0_r. reflexivity. Qed.

Lemma drop_with_desc f data :
  drop (Z.to_nat TX_DESC_SIZE) (with_desc f data) = drop (Z.to_nat TX_DESC_SIZE) data.
Proof. unfold with_desc. apply drop_app_length'. by rewrite length_encode_desc. Qed.

(** Decoding looks at the descriptor's sixteen bytes. *)
Lemma take_drop_take {A} n i m (l : list A) : (i + n <= m)%nat ->
  take n (drop i (take m l)) = take n (drop i l).
Proof. intros H. rewrite !take_drop_commute, take_take. do 2 f_equal. lia. Qed.

Lemma decode_take data : decode_desc (take 16 data) = decode_desc data.
Proof. unfold decode_desc. rewrite !take_drop_take by lia. done. Qed.


Lemma granted_skbs wlvif skb total_len hlid id is_gem wl :
  exists F, skbs (granted wlvif skb total_len hlid id is_gem wl) =
    alter (fun s => s <| skb_data ::= with_desc F |>) skb
      (alter (skb_push (total_len - skb_len (skb_at wl skb))) skb (skbs wl)) /\
    (forall d, d_id (F d) = u8 id).
Proof.
  unfold granted. cbv zeta. set (w := upd_skb skb (skb_push _) (alloc_state id skb wl)).
  exists (fun d => (set_tx_desc_blocks w d
    (calc_tx_blocks (alloc_state id skb wl) total_len (get_spare_blocks wl is_gem))
    (get_spare_blocks wl is_gem)) <| d_id := u8 id |>).
  split; [|done]. destruct wlvif; repeat split_if; try reflexivity;
    unfold wl12xx_rearm_tx_watchdog_locked; split_if; reflexivity.
Qed.

Lemma granted_buf wlvif skb total_len hlid id is_gem wl :
  let wl' := granted wlvif skb total_len hlid id is_gem wl in
  aggr_buf wl' = aggr_buf wl /\ hw wl' = hw wl.
Proof.
  cbv zeta. unfold granted. cbv zeta. destruct wlvif; repeat split_if; try done;
    unfold wl12xx_rearm_tx_watchdog_locked; split_if; done.
Qed.

Lemma fill_hdr_data wlvif skb extra hlid wl :
  is_Some (skbs wl !! skb) ->
  let wl' := wl1271_tx_fill_hdr wlvif skb extra hlid wl in
  let data := skb_data (skb_at wl skb) in
  is_Some (skbs wl' !! skb) /\ aggr_buf wl' = aggr_buf wl /\ hw wl' = hw wl /\
  exists G, skb_data (skb_at wl' skb)
    = with_desc G (if negb (extra =? 0) then relocate_header extra data else data) /\
    forall d, d_id (G d) = d_id d /\ d_hlid (G d) = u8 hlid.
Proof.
  intros Hs. cbv zeta. unfold wl1271_tx_fill_hdr. cbv zeta.
  set (w1 := if negb (extra =? 0) then _ else wl).
  assert (is_Some (skbs w1 !! skb) /\ aggr_buf w1 = aggr_buf wl /\ hw w1 = hw wl /\
    skb_data (skb_at w1 skb) = if negb (extra =? 0)
      then relocate_header extra (skb_data (skb_at wl skb)) else skb_data (skb_at wl skb))
    as (S1 & B1 & H1 & D1).
  { unfold w1. destruct (negb (extra =? 0)); [|done].
    split_and!; [by apply upd_skb_is_Some | done | done | by rewrite skb_at_upd_same]. }
  rewrite <- D1. clear D1. clearbody w1.
  assert (forall p : Z * wl1271, p = getnstimeofday w1 ->
    skbs p.2 = skbs w1 /\ aggr_buf p.2 = aggr_buf w1 /\ hw p.2 = hw w1) as T.
  { intros p ->. unfold getnstimeofday. by destruct (clock w1). }
  destruct (getnstimeofday w1) as [ns w2]. destruct (T _ eq_refl) as (T1 & T2 & T3). simpl in T1, T2, T3.
  assert (skb_at w2 skb = skb_at w1 skb) as Es by (unfold skb_at; by rewrite T1).
  split_and!; [apply upd_skb_is_Some; by rewrite T1 | by rewrite <- B1 | by rewrite <- H1 |].
  rewrite skb_at_upd_same by (by rewrite T1). simpl. rewrite Es.
  eexists. split; [reflexivity|]. intros d. cbv beta zeta.
  match goal with |- context [set_tx_desc_data_len ?w (set_tx_desc_csum ?w' ?e ?x) ?y] =>
    pose proof (set_tx_desc_data_len_frame w (set_tx_desc_csum w' e x) y) as L1;
    pose proof (set_tx_desc_csum_frame w' e x) as L2 end.
  cbv zeta in L1. split.
  - apply (f_equal d_id) in L1, L2. simpl in L1, L2. by rewrite L1, L2.
  - apply (f_equal d_hlid) in L1, L2. simpl in L1, L2. by rewrite L1, L2.
Qed.

(** Moving the header keeps the descriptor and never lengthens the frame. *)
Lemma relocate_header_spec extra data : 0 <= extra -> TX_DESC_SIZE + extra <= zlen data ->
  let data' := relocate_header extra data in
  TX_DESC_SIZE <= zlen data' <= zlen data /\ take 16 data' = take 16 data.
Proof.
  intros He Hl. unfold relocate_header, TX_DESC_SIZE, zlen in *. cbv zeta.
  set (h := Z.to_nat (ieee80211_hdrlen _)).
  assert (length (take 16 data) = 16%nat) as E by (rewrite length_take; lia).
  change (Z.to_nat 16) with 16%nat. split.
  - rewrite !length_app, !length_take, !length_drop. lia.
  - rewrite take_app_le by lia. by rewrite take_take.
Qed.

(** After the descriptor is filled, the buffer names the granted identifier
    and the link, and it has not grown beyond the length that was checked. *)
Lemma filled_data wlvif skb extra hlid id is_gem wl :
  is_Some (skbs wl !! skb) -> 0 <= extra ->
  skb_len (skb_at wl skb) + TX_DESC_SIZE + extra < 2 ^ 32 ->
  let total_len := u32 (skb_len (skb_at wl skb) + TX_DESC_SIZE + extra) in
  let w := wl1271_tx_fill_hdr wlvif skb extra hlid
             (granted wlvif skb total_len hlid id is_gem wl) in
  let data := skb_data (skb_at w skb) in
  desc_names id hlid data /\ TX_DESC_SIZE <= zlen data <= total_len /\
  aggr_buf w = aggr_buf wl /\ hw w = hw wl.
Proof.
  intros Hs He Hlt. cbv zeta.
  assert (0 <= skb_len (skb_at wl skb)) as Hn by apply zlen_nonneg.
  rewrite (u32_id (_ + _ + extra)) by (unfold TX_DESC_SIZE in *; lia).
  set (total_len := skb_len _ + TX_DESC_SIZE + extra) in *.
  destruct (granted_skbs wlvif skb total_len hlid id is_gem wl) as (F & EF & HF).
  destruct (granted_buf wlvif skb total_len hlid id is_gem wl) as [B1 B2].
  set (w1 := granted wlvif skb total_len hlid id is_gem wl) in *.
  assert (is_Some (skbs w1 !! skb)) as S1
    by (rewrite EF, !lookup_alter_eq, !fmap_is_Some; done).
  assert (skb_data (skb_at w1 skb)
          = with_desc F (skb_data (skb_push (total_len - skb_len (skb_at wl skb)) (skb_at wl skb)))) as D1.
  { unfold skb_at at 1. rewrite EF, lookup_total_alt, !lookup_alter_eq.
    destruct Hs as [b Hb]. unfold skb_at. rewrite lookup_total_alt, Hb. done. }
  pose proof (skb_push_len (total_len - skb_len (skb_at wl skb)) (skb_at wl skb)) as PL.
  assert (0 <= total_len - skb_len (skb_at wl skb)) as Hp by (unfold total_len, TX_DESC_SIZE; lia).
  specialize (PL Hp). unfold skb_len at 1 in PL.
  clearbody w1.
  assert (zlen (skb_data (skb_at w1 skb)) = total_len /\ d_id (decode_desc (skb_data (skb_at w1 skb))) = u8 id)
    as [L1 I1].
  { rewrite D1. unfold zlen in *. rewrite length_with_desc by (unfold total_len, TX_DESC_SIZE in *; lia).
    split; [lia|]. unfold with_desc. rewrite decode_id, HF. unfold u8. by rewrite wrap_wrap. }
  destruct (fill_hdr_data wlvif skb extra hlid w1 S1) as (_ & B3 & B4 & G & EG & HG).
  rewrite B3, B4, B1, B2. cbv zeta in EG. rewrite EG.
  set (d1 := if negb (extra =? 0) then _ else _) in *.
  assert (TX_DESC_SIZE <= zlen d1 <= total_len /\ take 16 d1 = take 16 (skb_data (skb_at w1 skb)))
    as [L2 T2].
  { unfold d1. split_if.
    - rewrite <- L1. apply relocate_header_spec; [done | rewrite L1; unfold total_len; lia].
    - rewrite L1. unfold total_len in *. split; [lia | done]. }
  split_and!; try done.
  - unfold desc_names. unfold with_desc. rewrite decode_id, decode_hlid.
    destruct (HG (decode_desc d1)) as [-> ->]. rewrite <- (decode_take d1), T2, decode_take, I1.
    unfold u8. by rewrite !wrap_wrap.
  - unfold zlen in *. rewrite length_with_desc; unfold TX_DESC_SIZE in *; lia.
  - unfold zlen in *. rewrite length_with_desc; unfold TX_DESC_SIZE in *; lia.
Qed.


(** What the bookkeeping after the descriptor leaves alone. *)
Definition rest_frame (wl wl' : wl1271) : Prop :=
  same_payload wl wl' /\ aggr_buf wl' = aggr_buf wl /\ hw wl' = hw wl /\
  tx_frames wl' = tx_frames wl.

Lemma rest_frame_trans a b c : rest_frame a b -> rest_frame b c -> rest_frame a c.
Proof. intros (P1 & ? & ? & ?) (P2 & ? & ? & ?). split; [by etrans | split_and!; congruence]. Qed.

Lemma io_rest_frame wl wl' : io_frame wl wl' -> rest_frame wl wl'.
Proof.
  intros [(f & s & b & l & ->) _ _ _]. split_and!; try done. intros s'. exact (same_payload_refl wl s').
Qed.

Lemma regulate_link_rest v hlid wl : tx_inv wl -> rest_frame wl (wl1271_tx_regulate_link v hlid wl).
Proof.
  intros H. assert (rest_frame wl wl) as R by (split_and!; done).
  unfold wl1271_tx_regulate_link. cbv zeta. split_if; [done|]. split_if; [|done].
  unfold wl12xx_ps_link_start. cbv zeta. split_if; [done|]. split_if; [done|].
  assert (is_link hlid) as Hh by (apply (vo_map _ (inv_vifs _ H) v); by destruct (test_bit hlid _)).
  set (w := emit _ wl). assert (counts_ok w) as Hc by (apply (counts_off_frame _ wl); try done; apply H).
  destruct (drain_link_spec hlid (status_body filtered_status) w
    (complete_skb_completes _ filtered_keeps) Hc Hh) as (_ & _ & (n & k & c & r & l & E') & P & _).
  rewrite filter_frames_eq.
  split_and!; [intros s; exact (P s) | by rewrite E'..].
Qed.

Lemma granted_frame wlvif skb total_len hlid id is_gem wl :
  ids_ok wl -> 0 <= id < num_tx_desc (hw wl) ->
  frame_at (granted wlvif skb total_len hlid id is_gem wl) id = Some skb.
Proof.
  intros H Hid.
  assert (tx_frames (granted wlvif skb total_len hlid id is_gem wl)
          = zset (tx_frames wl) id (Some skb)) as E.
  { unfold granted. cbv zeta. destruct wlvif; repeat split_if; try done;
      unfold wl12xx_rearm_tx_watchdog_locked; split_if; done. }
  unfold frame_at. rewrite E. apply zget_zset_eq. rewrite (ids_len _ H).
  pose proof (ids_num _ H). lia.
Qed.

Lemma prepare_key_rest wlvif key wl :
  match tx_prepare_key wlvif key wl with
  | None => True
  | Some (_, _, wl') => skbs wl' = skbs wl /\ aggr_buf wl' = aggr_buf wl /\ hw wl' = hw wl
  end.
Proof.
  unfold tx_prepare_key. destruct key as [k|]; [|done]. cbv zeta.
  destruct (_ || _); [|done]. destruct wlvif as [v|]; [|done]. split_if; [done|].
  unfold wl1271_set_default_wep_key.
  set (r := if is_ap (vif_at wl v) then _ else _).
  assert (io_frame wl (snd r)) as [(f & s & b & l & F) _ _ _] by (unfold r; split_if; apply cmd_send_io_frame).
  destruct r as [ret w1]. simpl in F. rewrite F.
  destruct (ret <? 0) eqn:Er; cbv beta iota; rewrite ?Er; [done|]. by split_if.
Qed.

(** The aggregation buffer with a prepared frame: what the transmit loop needs
    of it, the descriptor and the length. *)
Definition desc_placed (skb : nat) (off hlid ret : Z) (wl wl' : wl1271) : Prop :=
  exists data id,
    desc_names id hlid data /\ frame_at wl' id = Some skb /\
    TX_DESC_SIZE <= zlen data <= ret /\
    aggr_buf wl' = write_buf (off + zlen data) (replicate (Z.to_nat (ret - zlen data)) 0)
                     (write_buf off data (aggr_buf wl)).

Lemma tx_extra_range wl key : 0 <= tx_extra wl key <= 4.
Proof. unfold tx_extra, WL1271_EXTRA_SPACE_TKIP. destruct key; [split_if|]; lia. Qed.

(** The last step: copy and pad, and strip the dummy packet's descriptor. *)
Definition copied (skb : nat) (off ret : Z) (is_dummy : bool) (wl : wl1271) : wl1271 :=
  let data := skb_data (skb_at wl skb) in
  let wl := wl <| aggr_buf ::= fun buf =>
              write_buf (off + zlen data) (replicate (Z.to_nat (ret - zlen data)) 0)
                (write_buf off data buf) |> in
  if is_dummy then upd_skb skb (skb_pull TX_DESC_SIZE) wl else wl.

(** A successful preparation, step by step. *)
Record prepared (wlvif : option nat) (skb : nat) (off hlid ret : Z) (wl wl' : wl1271)
    (is_gem : bool) (w1 : wl1271) (id : Z) (w4 : wl1271) : Prop := {
  pr_view : same_view wl w1;
  pr_skbs : skbs w1 = skbs wl;
  pr_buf : aggr_buf w1 = aggr_buf wl;
  pr_hw : hw w1 = hw wl;
  pr_id : 0 <= id < num_tx_desc (hw wl);
  pr_free : frame_at w1 id = None;
  pr_bit : test_bit id (tx_frames_map w1) = false;
  pr_len := u32 (skb_len (skb_at wl skb) + TX_DESC_SIZE
                 + tx_extra wl (control_hw_key (skb_cb (skb_at wl skb))));
  pr_fit : u32 (off + pr_len) <= aggr_buf_size (hw wl);
  pr_w3 := wl1271_tx_fill_hdr wlvif skb (tx_extra wl (control_hw_key (skb_cb (skb_at wl skb))))
             hlid (granted wlvif skb pr_len hlid id is_gem w1);
  pr_rest : rest_frame pr_w3 w4;
  pr_ret : ret = wlcore_calc_packet_alignment wl (zlen (skb_data (skb_at w4 skb)));
  pr_end : wl' = copied skb off ret (wl12xx_is_dummy_packet wl skb) w4
}.

Lemma prepare_success wlvif skb off hlid wl ret wl' :
  tx_inv wl -> wl1271_prepare_tx_frame wlvif skb off hlid wl = Some (ret, wl') -> 0 <= ret ->
  exists is_gem w1 id w4, prepared wlvif skb off hlid ret wl wl' is_gem w1 id w4.
Proof.
  intros H Hp Hret. unfold wl1271_prepare_tx_frame in Hp.
  destruct (hlid =? WL12XX_INVALID_LINK_ID); [injection Hp as <- _; unfold EINVAL in Hret; lia|].
  cbv zeta in Hp. set (key := control_hw_key _) in Hp.
  pose proof (prepare_key_view wlvif key wl) as V. pose proof (prepare_key_rest wlvif key wl) as K.
  destruct (tx_prepare_key wlvif key wl) as [[[r0 is_gem] w1]|]; [|done].
  destruct K as (K1 & K2 & K3).
  destruct (r0 <? 0) eqn:E0; bool_to_prop; [injection Hp as <- _; lia|].
  pose proof (mv_inv _ _ _ (view_moves _ _ H V)) as H1.
  set (extra := tx_extra wl key) in *.
  assert (skb_at w1 skb = skb_at wl skb) as Esk by (unfold skb_at; by rewrite K1).
  pose proof (tx_allocate_cases wlvif skb extra off hlid is_gem w1 (inv_ids _ H1)) as C. cbv zeta in C.
  rewrite Esk, K3 in C.
  destruct (wl1271_tx_allocate wlvif skb extra off hlid is_gem w1) as [r1 w2].
  destruct C as [(-> & _) | [(-> & _) | (-> & Hfit & id & Hid & Hfr & Hb & _ & ->)]];
    try (simpl in Hp; injection Hp as <- _; unfold EAGAIN, EBUSY in Hret; lia).
  simpl in Hp. injection Hp as Er Ew.
  set (tl := u32 (skb_len (skb_at wl skb) + TX_DESC_SIZE + extra)) in *.
  set (w2 := granted wlvif skb tl hlid id is_gem w1) in *.
  assert (tx_inv w2) as H2 by (eapply mv_inv, granted_moves; try done; by rewrite K3).
  assert (hw w2 = hw wl) as HW2.
  { destruct (granted_buf wlvif skb tl hlid id is_gem w1) as [_ B]. unfold w2. by rewrite B. }
  pose proof (fill_hdr_view wlvif skb extra hlid w2) as V3.
  pose proof (mv_inv _ _ _ (view_moves _ _ H2 V3)) as H3.
  pose proof (sv_hw _ _ V3) as HW3.
  set (w3 := wl1271_tx_fill_hdr wlvif skb extra hlid w2) in *.
  set (w4 := match wlvif with Some v => _ | None => w3 end) in *.
  assert (rest_frame w3 w4) as R.
  { assert (rest_frame w3 w3) by (split_and!; done).
    unfold w4. destruct wlvif as [v|]; [|done]. split_if; [|done].
    eapply rest_frame_trans; [|apply regulate_link_rest].
    - unfold wl1271_tx_ap_update_inconnection_sta. cbv zeta. split_if; [|done].
      apply io_rest_frame, cmd_send_io_frame.
    - eapply mv_inv, view_moves; [exact H3 | apply inconnection_view]. }
  assert (hw w4 = hw wl) as HW4 by (destruct R as (_ & _ & -> & _); congruence).
  assert (forall n, wlcore_calc_packet_alignment w4 n = wlcore_calc_packet_alignment wl n) as Eal
    by (intros n; unfold wlcore_calc_packet_alignment, has_quirk; by rewrite HW4).
  exists is_gem, w1, id, w4. split; try done.
  - rewrite <- Er. apply Eal.
  - rewrite <- Ew, <- Er. reflexivity.
Qed.

Lemma write_buf_len off bytes buf : 0 <= off -> off + zlen bytes <= zlen buf ->
  zlen (write_buf off bytes buf) = zlen buf.
Proof.
  intros Ho Hl. unfold write_buf, zlen in *. rewrite !length_app, length_take, length_drop. lia.
Qed.

Lemma prepared_places wlvif skb off hlid wl ret wl' is_gem w1 id w4 :
  tx_inv wl -> is_Some (skbs wl !! skb) -> skb_len (skb_at wl skb) <= 65536 ->
  0 <= off -> off + 2 ^ 17 <= 2 ^ 32 ->
  (tx_alignment wl | off) -> (tx_alignment wl | aggr_buf_size (hw wl)) ->
  prepared wlvif skb off hlid ret wl wl' is_gem w1 id w4 ->
  let data := skb_data (skb_at w4 skb) in
  off + ret <= aggr_buf_size (hw wl) /\ (tx_alignment wl | ret) /\
  desc_names id hlid data /\ frame_at wl' id = Some skb /\ TX_DESC_SIZE <= zlen data <= ret /\
  aggr_buf wl' = write_buf (off + zlen data) (replicate (Z.to_nat (ret - zlen data)) 0)
                   (write_buf off data (aggr_buf wl)).
Proof.
  intros H Hs Hlen Hoff Hmax Ha1 Ha2 P.
  destruct P as [V K1 K2 K3 Hid Hfr Hb tl Hfit w3 (P4 & B4 & HW4 & F4) Er Ew].
  pose proof (tx_extra_range wl (control_hw_key (skb_cb (skb_at wl skb)))) as Hex.
  set (extra := tx_extra _ _) in *.
  pose proof (mv_inv _ _ _ (view_moves _ _ H V)) as H1.
  assert (skb_at w1 skb = skb_at wl skb) as Esk by (unfold skb_at; by rewrite K1).
  assert (0 <= skb_len (skb_at wl skb)) as Hn by apply zlen_nonneg.
  destruct (filled_data wlvif skb extra hlid id is_gem w1) as (D & L & B & HW);
    [by rewrite K1 | lia | rewrite Esk; unfold TX_DESC_SIZE; lia |]. cbv zeta in D, L, B, HW.
  rewrite Esk in D, L, B, HW. fold tl in D, L, B, HW. fold w3 in D, L, B, HW.
  assert (tl = skb_len (skb_at wl skb) + TX_DESC_SIZE + extra) as Etl
    by (unfold tl; apply u32_id; unfold TX_DESC_SIZE; lia).
  rewrite u32_id in Hfit by (unfold TX_DESC_SIZE in *; lia).
  assert (frame_at w3 id = Some skb) as Fr3.
  { unfold w3, frame_at. rewrite (sv_frames _ _ (fill_hdr_view wlvif skb extra hlid _)).
    apply granted_frame; [apply H1 | by rewrite K3]. }
  cbv zeta. unfold copied in Ew. rewrite (same_payload_data _ _ _ P4) in *.
  set (data := skb_data (skb_at w3 skb)) in *.
  destruct (calc_packet_alignment_divide wl (zlen data)) as [Al1 Al2]; [unfold TX_DESC_SIZE in *; lia|].
  rewrite <- Er in Al1, Al2. pose proof (tx_alignment_pos wl).
  assert (aggr_buf wl' = write_buf (off + zlen data) (replicate (Z.to_nat (ret - zlen data)) 0)
            (write_buf off data (aggr_buf wl)) /\ tx_frames wl' = tx_frames w3) as [Eb Ef].
  { rewrite Ew, <- K2, <- B, <- B4, <- F4. by split_if. }
  split_and!; try done; try lia.
  - apply (align_within (tx_alignment wl) (off + zlen data)); try done; try lia.
    by apply Z.divide_add_r.
  - unfold frame_at in *. by rewrite Ef.
Qed.

Lemma prepare_places wlvif skb off hlid wl ret wl' :
  tx_inv wl -> is_Some (skbs wl !! skb) -> skb_len (skb_at wl skb) <= 65536 ->
  0 <= off -> off + 2 ^ 17 <= 2 ^ 32 ->
  (tx_alignment wl | off) -> (tx_alignment wl | aggr_buf_size (hw wl)) ->
  wl1271_prepare_tx_frame wlvif skb off hlid wl = Some (ret, wl') -> 0 <= ret ->
  off + ret <= aggr_buf_size (hw wl) /\ (tx_alignment wl | ret) /\ desc_placed skb off hlid ret wl wl'.
Proof.
  intros H Hs Hlen Hoff Hmax Ha1 Ha2 Hp Hret.
  destruct (prepare_success _ _ _ _ _ _ _ H Hp Hret) as (is_gem & w1 & id & w4 & P).
  destruct (prepared_places _ _ _ _ _ _ _ _ _ _ _ H Hs Hlen Hoff Hmax Ha1 Ha2 P) as (B1 & B2 & D).
  split_and!; [done | done |]. exists (skb_data (skb_at w4 skb)), id. exact D.
Qed.

(** ** Which buffers preparation touches, and why it asks for a retry *)

Definition payload_at (wl wl' : wl1271) (s : nat) : Prop :=
  (is_Some (skbs wl' !! s) <-> is_Some (skbs wl !! s)) /\
  exists i, skb_at wl' s = (skb_at wl s) <| skb_cb := i |> /\
    same_control i (skb_cb (skb_at wl s)).

Lemma skbs_payload wl wl' : skbs wl' = skbs wl -> same_payload wl wl'.
Proof.
  intros E s. pose proof (same_payload_refl wl s) as R. unfold skb_at in *. by rewrite E.
Qed.

Lemma payload_at_trans a b c s : payload_at a b s -> payload_at b c s -> payload_at a c s.
Proof.
  intros (A1 & i & E1 & C1 & K1) (A2 & j & E2 & C2 & K2).
  split; [by rewrite A2|]. exists j. rewrite E2, E1 in *. split; [done|].
  simpl in *. split; congruence.
Qed.

Lemma upd_skb_payload x f wl s : s <> x -> payload_at wl (upd_skb x f wl) s.
Proof.
  intros Hne. split.
  - unfold upd_skb. simpl. by rewrite lookup_alter_ne.
  - exists (skb_cb (skb_at wl s)). rewrite skb_at_upd, bool_decide_eq_false_2 by done.
    split; [by destruct (skb_at wl s) | done].
Qed.

Lemma granted_payload wlvif skb total_len hlid id is_gem wl s : s <> skb ->
  payload_at wl (granted wlvif skb total_len hlid id is_gem wl) s.
Proof.
  intros Hne. destruct (granted_skbs wlvif skb total_len hlid id is_gem wl) as (F & EF & _).
  split.
  - by rewrite EF, !lookup_alter_ne.
  - exists (skb_cb (skb_at wl s)). unfold skb_at.
    rewrite EF, !lookup_total_alt, !lookup_alter_ne by done.
    split; [by destruct (default _ _) | done].
Qed.

Lemma fill_hdr_payload wlvif skb extra hlid wl s : s <> skb ->
  payload_at wl (wl1271_tx_fill_hdr wlvif skb extra hlid wl) s.
Proof.
  intros Hne. unfold wl1271_tx_fill_hdr. cbv zeta.
  set (w1 := if negb (extra =? 0) then _ else wl).
  assert (payload_at wl w1 s) as P1.
  { unfold w1. split_if; [by apply upd_skb_payload | by apply same_payload_refl]. }
  clearbody w1. eapply payload_at_trans; [exact P1|].
  assert (same_payload w1 (snd (getnstimeofday w1))) as P2.
  { apply skbs_payload. unfold getnstimeofday. by destruct (clock w1). }
  destruct (getnstimeofday w1) as [ns w2]. simpl in P2.
  eapply payload_at_trans; [apply P2 | by apply upd_skb_payload].
Qed.

(** A default-key switch fails only by stopping the driver. *)
Lemma prepare_key_fails wlvif key wl :
  state wl <> WLCORE_STATE_OFF ->
  match tx_prepare_key wlvif key wl with
  | Some (ret, _, wl') => ret < 0 ->
      state wl' = WLCORE_STATE_RESTARTING /\ (ret = - EIO \/ state wl = WLCORE_STATE_ON)
  | None => wlvif = None /\ is_Some key
  end.
Proof.
  intros Hs. unfold tx_prepare_key. destruct key as [k|]; [|lia]. cbv zeta.
  destruct (_ || _); [|lia]. destruct wlvif as [v|]; [|done]. split_if; [lia|].
  unfold wl1271_set_default_wep_key.
  set (c := if is_ap (vif_at wl v) then CMD_SET_DEFAULT_WEP_KEY (hw_key_idx k) (ap_bcast_hlid (vif_at wl v))
            else CMD_SET_DEFAULT_WEP_KEY (hw_key_idx k) (sta_hlid (vif_at wl v))).
  assert ((if is_ap (vif_at wl v)
           then wl1271_cmd_send (CMD_SET_DEFAULT_WEP_KEY (hw_key_idx k) (ap_bcast_hlid (vif_at wl v))) wl
           else wl1271_cmd_send (CMD_SET_DEFAULT_WEP_KEY (hw_key_idx k) (sta_hlid (vif_at wl v))) wl)
          = wl1271_cmd_send c wl) as -> by (unfold c; by split_if).
  pose proof (cmd_send_fails c wl Hs) as F. pose proof (cmd_send_restarting c wl) as R.
  destruct (wl1271_cmd_send c wl) as [ret w].
  destruct (ret <? 0) eqn:E1; cbv beta iota; rewrite ?E1; bool_to_prop; [|simpl; lia].
  intros _. split; [by apply F|]. destruct (state wl); [done | | by right].
  specialize (R eq_refl). injection R as -> ->. by left.
Qed.

Lemma dummy_pull wlvif skb hlid id is_gem wl :
  is_Some (skbs wl !! skb) -> skb_len (skb_at wl skb) + TX_DESC_SIZE < 2 ^ 32 ->
  let total_len := u32 (skb_len (skb_at wl skb) + TX_DESC_SIZE + 0) in
  let w := wl1271_tx_fill_hdr wlvif skb 0 hlid (granted wlvif skb total_len hlid id is_gem wl) in
  is_Some (skbs w !! skb) /\ zlen (skb_data (skb_at w skb)) = TX_DESC_SIZE + skb_len (skb_at wl skb) /\
  skb_cb (skb_at w skb) = skb_cb (skb_at wl skb).
Proof.
  intros Hs Hlt. cbv zeta. assert (0 <= skb_len (skb_at wl skb)) as Hn by apply zlen_nonneg.
  rewrite Z.add_0_r, u32_id by (unfold TX_DESC_SIZE in *; lia).
  set (tl := skb_len _ + TX_DESC_SIZE).
  destruct (granted_skbs wlvif skb tl hlid id is_gem wl) as (F & EF & _).
  set (w1 := granted wlvif skb tl hlid id is_gem wl) in *.
  assert (skb_at w1 skb = (skb_push (tl - skb_len (skb_at wl skb)) (skb_at wl skb))
            <| skb_data ::= with_desc F |>) as E1.
  { unfold skb_at at 1. rewrite EF, lookup_total_alt, !lookup_alter_eq.
    destruct Hs as [b Hb]. unfold skb_at. by rewrite lookup_total_alt, Hb. }
  assert (is_Some (skbs w1 !! skb)) as S1 by (by rewrite EF, !lookup_alter_eq, !fmap_is_Some).
  clearbody w1. destruct (fill_hdr_data wlvif skb 0 hlid w1 S1) as (S2 & _ & _ & G & EG & _).
  pose proof (skb_push_len (tl - skb_len (skb_at wl skb)) (skb_at wl skb)) as PL.
  specialize (PL ltac:(unfold tl, TX_DESC_SIZE; lia)).
  unfold skb_len at 1 in PL. unfold zlen in PL.
  split_and!; [done | |].
  - cbv zeta in EG. rewrite EG. simpl. rewrite E1. unfold zlen.
    set (pushed := skb_push _ _) in *. clearbody pushed. simpl skb_data.
    unfold tl, TX_DESC_SIZE in *.
    rewrite (length_with_desc G); rewrite (length_with_desc F); unfold zlen in *; lia.
  - transitivity (skb_cb (skb_at w1 skb)); [|by rewrite E1].
    unfold wl1271_tx_fill_hdr. simpl.
    assert (skbs (snd (getnstimeofday w1)) = skbs w1) as T
      by (unfold getnstimeofday; by destruct (clock w1)).
    destruct (getnstimeofday w1) as [ns w2]. simpl in T.
    rewrite skb_at_upd_same by (by rewrite T). simpl. unfold skb_at. by rewrite T.
Qed.

(** A preparation that fails changes nothing the transmit path looks at; it
    asks for a retry only when the frame does not fit behind the aggregate, or
    when a failed command has just stopped the driver. *)
Lemma prepare_fails wlvif skb off hlid wl :
  ids_ok wl -> state wl <> WLCORE_STATE_OFF ->
  match wl1271_prepare_tx_frame wlvif skb off hlid wl with
  | None => wlvif = None /\ is_Some (control_hw_key (skb_cb (skb_at wl skb)))
  | Some (ret, wl') => ret < 0 ->
      same_view wl wl' /\ skbs wl' = skbs wl /\ aggr_buf wl' = aggr_buf wl /\
      (ret = - EAGAIN ->
       aggr_buf_size (hw wl) < u32 (off + u32 (skb_len (skb_at wl skb) + TX_DESC_SIZE
         + tx_extra wl (control_hw_key (skb_cb (skb_at wl skb))))) \/
       (state wl = WLCORE_STATE_ON /\ state wl' = WLCORE_STATE_RESTARTING))
  end.
Proof.
  intros H Hs. unfold wl1271_prepare_tx_frame.
  split_if; [intros _; by split_and!|]. cbv zeta. set (key := control_hw_key _).
  pose proof (prepare_key_view wlvif key wl) as V. pose proof (prepare_key_rest wlvif key wl) as K.
  pose proof (prepare_key_fails wlvif key wl Hs) as F.
  destruct (tx_prepare_key wlvif key wl) as [[[r0 is_gem] w1]|]; [|done].
  destruct K as (K1 & K2 & K3).
  destruct (r0 <? 0) eqn:E0; bool_to_prop.
  { intros Hr. destruct (F Hr) as [F1 F2]. split_and!; try done. intros ->.
    destruct F2 as [|F2]; [done|]. by right. }
  assert (ids_ok w1) as H1 by (by eapply same_view_ids).
  pose proof (tx_allocate_cases wlvif skb (tx_extra wl key) off hlid is_gem w1 H1) as C. cbv zeta in C.
  assert (skb_at w1 skb = skb_at wl skb) as Esk by (unfold skb_at; by rewrite K1).
  rewrite K3, Esk in C.
  destruct (wl1271_tx_allocate _ _ _ _ _ _ w1) as [r1 w2].
  destruct C as [(-> & -> & Hbig) | [(-> & f & -> & Hf) | (-> & _)]]; simpl.
  - intros _. split_and!; try done. intros _. by left.
  - intros _. split_and!; try done. etrans; [exact V|]. apply flags_view. by apply Hf.
  - pose proof (calc_packet_alignment_nonneg). intros Hneg. exfalso.
    match type of Hneg with wlcore_calc_packet_alignment ?w ?n < 0 =>
      pose proof (calc_packet_alignment_nonneg w n) end. lia.
Qed.

Lemma copied_payload skb off ret b wl s : s <> skb -> payload_at wl (copied skb off ret b wl) s.
Proof.
  intros Hne. unfold copied. cbv zeta.
  set (w := wl <| aggr_buf ::= _ |>).
  apply (payload_at_trans wl w); [by apply skbs_payload|].
  split_if; [by apply upd_skb_payload | apply same_payload_refl].
Qed.

(** Success touches no other buffer, and leaves the dummy packet reusable. *)
Lemma prepare_payload wlvif skb off hlid wl ret wl' :
  tx_inv wl -> wl1271_prepare_tx_frame wlvif skb off hlid wl = Some (ret, wl') -> 0 <= ret ->
  (forall s, s <> skb -> payload_at wl wl' s) /\
  (wl12xx_is_dummy_packet wl skb = true -> control_hw_key (skb_cb (skb_at wl skb)) = None ->
   is_Some (skbs wl !! skb) -> skb_len (skb_at wl skb) + TX_DESC_SIZE < 2 ^ 32 ->
   is_Some (skbs wl' !! skb) /\ skb_len (skb_at wl' skb) = skb_len (skb_at wl skb) /\
   control_hw_key (skb_cb (skb_at wl' skb)) = None).
Proof.
  intros H Hp Hret.
  destruct (prepare_success _ _ _ _ _ _ _ H Hp Hret) as (is_gem & w1 & id & w4 & P).
  destruct P as [V K1 K2 K3 Hid Hfr Hb tl Hfit w3 (P4 & B4 & HW4 & F4) Er Ew]. split.
  - intros s Hne. rewrite Ew.
    eapply payload_at_trans; [apply (skbs_payload _ _ K1)|].
    eapply payload_at_trans; [apply (granted_payload wlvif skb tl hlid id is_gem w1 s Hne)|].
    eapply payload_at_trans; [by apply (fill_hdr_payload wlvif skb
      (tx_extra wl (control_hw_key (skb_cb (skb_at wl skb)))) hlid)|]. fold w3.
    eapply payload_at_trans; [apply P4 | by apply copied_payload].
  - intros Hd Hk Hs Hlt. assert (skb_at w1 skb = skb_at wl skb) as Esk by (unfold skb_at; by rewrite K1).
    destruct (dummy_pull wlvif skb hlid id is_gem w1) as (D1 & D2 & D3);
      [by rewrite K1 | by rewrite Esk |]. cbv zeta in D1, D2, D3. rewrite Esk in D1, D2, D3.
    assert (w3 = wl1271_tx_fill_hdr wlvif skb 0 hlid (granted wlvif skb
      (u32 (skb_len (skb_at wl skb) + TX_DESC_SIZE + 0)) hlid id is_gem w1)) as E3
      by (unfold w3, tl; rewrite Hk; reflexivity).
    rewrite <- E3 in D1, D2, D3. clearbody w3. clear E3.
    destruct (P4 skb) as (S4 & i & E4 & _ & C4).
    rewrite Ew. unfold copied. rewrite Hd. cbv zeta.
    split; [by apply upd_skb_is_Some, S4|].
    rewrite skb_at_upd_same by (by apply S4).
    match goal with |- context [skb_pull _ (skb_at ?w skb)] =>
      change (skb_at w skb) with (skb_at w4 skb) end.
    rewrite E4. unfold skb_pull. simpl. unfold skb_len in *. simpl. rewrite D2.
    assert (0 <= zlen (skb_data (skb_at wl skb))) by apply zlen_nonneg.
    destruct (_ <? TX_DESC_SIZE) eqn:E; bool_to_prop; [lia|]. simpl.
    split; [|by rewrite C4, D3]. unfold zlen in *. rewrite length_drop. unfold TX_DESC_SIZE in *. lia.
Qed.

(** Success puts the frame into the firmware's table and moves no frame to
    another interface. *)
Lemma prepare_table wlvif skb off hlid wl ret wl' :
  tx_inv wl -> wl1271_prepare_tx_frame wlvif skb off hlid wl = Some (ret, wl') -> 0 <= ret ->
  (exists id, tx_frames wl' = zset (tx_frames wl) id (Some skb)) /\
  (forall s, control_vif (skb_cb (skb_at wl' s)) = control_vif (skb_cb (skb_at wl s))).
Proof.
  intros H Hp Hret.
  destruct (prepare_success _ _ _ _ _ _ _ H Hp Hret) as (is_gem & w1 & id & w4 & P).
  destruct P as [V K1 K2 K3 Hid Hfr Hb tl Hfit w3 (P4 & B4 & HW4 & F4) Er Ew].
  assert (same_view (alloc_state id skb w1) w3) as V3
    by (etrans; [apply granted_view | apply fill_hdr_view]).
  assert (tx_frames wl' = tx_frames w4 /\
          forall s, control_vif (skb_cb (skb_at wl' s)) = control_vif (skb_cb (skb_at w4 s))) as [E1 E2].
  { rewrite Ew. unfold copied. cbv zeta. split_if; [|done]. split; [done|]. intros s.
    match goal with |- context [upd_skb skb _ ?w] =>
      apply (sv_vif _ _ (upd_skb_view skb (skb_pull TX_DESC_SIZE) w (skb_pull_route _))) end. }
  split.
  - exists id. rewrite E1, F4, (sv_frames _ _ V3). unfold alloc_state. simpl.
    by rewrite (sv_frames _ _ V).
  - intros s. rewrite E2. destruct (P4 s) as (_ & i & E & C & _). rewrite E. simpl. rewrite C.
    rewrite (sv_vif _ _ V3). apply (sv_vif _ _ V).
Qed.

End Prep.
