(* ===== verification/TxWork.v ===== *)
(** * The transmit work function: totality and invariants

    [wlcore_tx_work_locked] terminates, never dereferences NULL, keeps the
    transmit invariant and stays inside the aggregation buffer, provided every
    queued frame fits the aggregation buffer and belongs to an interface.
    (A larger frame makes the loop of the source retry forever; a frame without
    interface makes it dereference NULL when it is requeued.)  The fuel is
    bounded by twice the backlog. *)

From S2P Require Import Prelude Ieee80211 WlState ChipOps Io Queues LinkQueues.
From S2P Require Import PowerSave TxPath TxAllocFacts TxSched TxInv SchedFacts TxMoves.
From S2P Require Import TxPrep.

(** ** The conditions *)

Definition frame_fits (wl : wl1271) (s : nat) : Prop :=
  is_Some (skbs wl !! s) /\
  skb_len (skb_at wl s) + TX_DESC_SIZE + WL1271_EXTRA_SPACE_TKIP <= aggr_buf_size (hw wl) /\
  (if bool_decide (s = dummy_packet (hw wl))
   then control_hw_key (skb_cb (skb_at wl s)) = None
   else is_Some (control_vif (skb_cb (skb_at wl s)))).

(** Frames in the firmware belong to an interface, the dummy packet apart. *)
Definition fw_vifs (wl : wl1271) : Prop := forall id skb,
  frame_at wl id = Some skb -> skb <> dummy_packet (hw wl) ->
  is_Some (control_vif (skb_cb (skb_at wl skb))).

Lemma fw_vifs_frame wl wl' : hw wl' = hw wl ->
  (forall id skb, frame_at wl' id = Some skb -> frame_at wl id = Some skb) ->
  (forall s, control_vif (skb_cb (skb_at wl' s)) = control_vif (skb_cb (skb_at wl s))) ->
  fw_vifs wl -> fw_vifs wl'.
Proof. intros Eh Ef Ev H id skb Hf Hnd. rewrite Ev. apply (H id); [by apply Ef | by rewrite <- Eh]. Qed.

Lemma fw_vifs_same wl wl' : hw wl' = hw wl -> tx_frames wl' = tx_frames wl ->
  skbs wl' = skbs wl -> fw_vifs wl -> fw_vifs wl'.
Proof.
  intros Eh Ef Es. apply fw_vifs_frame; [done | |].
  - intros id skb. unfold frame_at. by rewrite Ef.
  - intros s. unfold skb_at. by rewrite Es.
Qed.

Record work_inv (wl : wl1271) : Prop := {
  wi_inv : tx_inv wl;
  wi_unique s : s <> dummy_packet (hw wl) -> copies s wl <= 1;
  wi_dummy : frame_fits wl (dummy_packet (hw wl));
  wi_fits h q s : is_link h -> is_queue q -> s ∈ link_queue wl h q -> frame_fits wl s;
  wi_buf : zlen (aggr_buf wl) = aggr_buf_size (hw wl);
  wi_size : 0 <= aggr_buf_size (hw wl) <= 65536;
  wi_align : (WL12XX_BUS_BLOCK_SIZE | aggr_buf_size (hw wl));
  wi_fw : fw_vifs wl
}.

(** The aggregate built so far lies inside the buffer. *)
Definition locals_ok (wl : wl1271) (s : tx_locals) : Prop :=
  0 <= buf_offset s <= aggr_buf_size (hw wl) /\ (tx_alignment wl | buf_offset s).

Definition backlog (wl : wl1271) : Z := wl1271_tx_total_queue_count wl.

Lemma backlog_eq wl : backlog wl =
  zget 0 (tx_queue_count wl) 0 + zget 0 (tx_queue_count wl) 1 + zget 0 (tx_queue_count wl) 2
  + zget 0 (tx_queue_count wl) 3.
Proof.
  unfold backlog, wl1271_tx_total_queue_count, for_range.
  change (zseq NUM_TX_QUEUES) with [0; 1; 2; 3]. cbn [fold_left]. lia.
Qed.

Lemma is_queue_cases q : is_queue q <-> q = 0 \/ q = 1 \/ q = 2 \/ q = 3.
Proof. unfold is_queue, NUM_TX_QUEUES. lia. Qed.

Lemma backlog_nonneg wl : counts_ok wl -> 0 <= backlog wl.
Proof.
  intros H. rewrite backlog_eq.
  assert (forall q, is_queue q -> 0 <= zget 0 (tx_queue_count wl) q) as P.
  { intros q Hq. rewrite (co_eq _ _ H q Hq). pose proof (queued_nonneg wl q). lia. }
  pose proof (P 0 ltac:(by apply is_queue_cases; lia)).
  pose proof (P 1 ltac:(by apply is_queue_cases; lia)).
  pose proof (P 2 ltac:(by apply is_queue_cases; lia)).
  pose proof (P 3 ltac:(by apply is_queue_cases; lia)). lia.
Qed.

Lemma backlog_le wl wl' :
  (forall q, is_queue q -> zget 0 (tx_queue_count wl') q <= zget 0 (tx_queue_count wl) q) ->
  backlog wl' <= backlog wl.
Proof.
  intros P. rewrite !backlog_eq.
  pose proof (P 0 ltac:(by apply is_queue_cases; lia)).
  pose proof (P 1 ltac:(by apply is_queue_cases; lia)).
  pose proof (P 2 ltac:(by apply is_queue_cases; lia)).
  pose proof (P 3 ltac:(by apply is_queue_cases; lia)). lia.
Qed.

Lemma same_view_backlog wl wl' : same_view wl wl' -> backlog wl' = backlog wl.
Proof. intros V. by rewrite !backlog_eq, (sv_count _ _ V). Qed.

(** Changing one count by [n] changes the backlog by [n]. *)
Lemma backlog_shift wl wl' x n : is_queue x ->
  (forall q, is_queue q -> zget 0 (tx_queue_count wl') q
     = zget 0 (tx_queue_count wl) q + (if q =? x then n else 0)) ->
  backlog wl' = backlog wl + n.
Proof.
  intros Hx P. rewrite !backlog_eq.
  rewrite !P by (apply is_queue_cases; lia).
  apply is_queue_cases in Hx as [-> | [-> | [-> | ->]]]; simpl; lia.
Qed.

(** ** Copies and queues *)

Lemma zsum_ge_elem {A} (f : A -> Z) l x : (forall y, 0 <= f y) -> x ∈ l -> f x <= zsum (f <$> l).
Proof.
  intros Hf. induction l as [|y l IH]; intros Hx; [by apply elem_of_nil in Hx|]. csimpl.
  pose proof (zsum_nonneg f l Hf). pose proof (Hf y).
  apply elem_of_cons in Hx as [->|Hx]; [lia|]. specialize (IH Hx). lia.
Qed.

Lemma released_nonneg s l : 0 <= released s l.
Proof. apply zsum_nonneg. intros e. destruct e; simpl; try lia; apply is_skb_range. Qed.

Lemma frames_nonneg s (l : list (option nat)) : 0 <= zsum (frame_copy s <$> l).
Proof. apply zsum_nonneg. intros [x|]; simpl; [apply is_skb_range | lia]. Qed.

Lemma queued_links_pos wl h q s : counts_ok wl -> is_link h -> is_queue q ->
  s ∈ link_queue wl h q -> 1 <= zsum (link_copies s <$> links wl).
Proof.
  intros H Hh Hq Hin.
  etrans; [|apply (zsum_ge_elem (link_copies s) (links wl) (link_at wl h))];
    [|intros; apply link_copies_nonneg | apply link_at_in; [done | apply (co_links _ _ H)]].
  etrans; [apply occ_pos, Hin|]. unfold link_copies, link_queue.
  pose proof (link_queues_len _ _ _ H Hh) as El. apply zsum_ge_elem; [intros; apply occ_nonneg|].
  unfold zget, zlen in *. unfold is_queue, NUM_TX_QUEUES in *.
  destruct (q <? 0) eqn:E; bool_to_prop; [lia|]. apply list_elem_of_In, nth_In. lia.
Qed.

Lemma in_firmware_pos wl id s : frame_at wl id = Some s ->
  1 <= zsum (frame_copy s <$> tx_frames wl).
Proof.
  intros Hf. transitivity (frame_copy s (frame_at wl id)).
  - rewrite Hf. simpl. unfold is_skb. by rewrite bool_decide_eq_true_2.
  - apply zsum_ge_elem; [intros [x|]; simpl; [apply is_skb_range | lia]|].
    unfold frame_at, zget in *. destruct (id <? 0); [done|].
    destruct (nth_in_or_default (Z.to_nat id) (tx_frames wl) None) as [?|E]; [by apply list_elem_of_In|].
    congruence.
Qed.

Lemma links_nonneg s (l : list wl1271_link) : 0 <= zsum (link_copies s <$> l).
Proof. apply zsum_nonneg. intros. apply link_copies_nonneg. Qed.

Lemma queued_copies wl h q s : counts_ok wl -> is_link h -> is_queue q ->
  s ∈ link_queue wl h q -> 1 <= copies s wl.
Proof.
  intros H Hh Hq Hin. unfold copies. pose proof (queued_links_pos wl h q s H Hh Hq Hin).
  pose proof (released_nonneg s (log wl)). pose proof (occ_nonneg s (deferred_tx_queue wl)).
  pose proof (frames_nonneg s (tx_frames wl)). lia.
Qed.

Lemma in_firmware_copies wl id s : frame_at wl id = Some s -> 1 <= copies s wl.
Proof.
  intros Hf. unfold copies. pose proof (in_firmware_pos wl id s Hf). pose proof (links_nonneg s (links wl)).
  pose proof (released_nonneg s (log wl)). pose proof (occ_nonneg s (deferred_tx_queue wl)). lia.
Qed.

Lemma fits_frame wl wl' s : hw wl' = hw wl -> payload_at wl wl' s -> frame_fits wl s -> frame_fits wl' s.
Proof.
  intros Eh (A & i & E & C1 & C2) (F1 & F2 & F3). unfold frame_fits, skb_len. rewrite Eh, E. simpl.
  split_and!; [by apply A | done |]. by rewrite C1, C2.
Qed.

Lemma fits_skbs wl wl' s : hw wl' = hw wl -> skbs wl' = skbs wl -> frame_fits wl s -> frame_fits wl' s.
Proof. intros Eh Es. apply fits_frame; [done|]. by apply skbs_payload. Qed.

(** Steps that keep the queues, the buffers and the size of the buffer. *)
Lemma work_inv_view wl wl' :
  same_view wl wl' -> skbs wl' = skbs wl -> zlen (aggr_buf wl') = zlen (aggr_buf wl) ->
  work_inv wl -> work_inv wl'.
Proof.
  intros V Es Eb [H1 H2 H3 H4 H6 H7 H8 H9]. pose proof (sv_hw _ _ V) as Eh.
  split; rewrite ?Eh; try done.
  - apply (mv_inv none_moved wl). by apply view_moves.
  - intros s. rewrite (same_view_copies _ _ _ V). apply H2.
  - by apply (fits_skbs wl).
  - intros h q s Hh Hq. rewrite (same_view_queue _ _ _ _ V). intros Hin.
    apply (fits_skbs wl); try done. by eapply H4.
  - congruence.
  - apply (fw_vifs_frame wl); [done | | apply V | done].
    intros id skb. unfold frame_at. by rewrite (sv_frames _ _ V).
Qed.

(** ** A step of the loop *)

(** Taking a frame keeps the invariant, with the frame in hand. *)
Lemma dequeued_inv skb hlid wl wl' : work_inv wl -> dequeued skb hlid wl wl' ->
  work_inv wl' /\ hw wl' = hw wl /\ state wl' = state wl /\ frame_fits wl' skb /\
  backlog wl' = backlog wl - 1 /\
  (skb <> dummy_packet (hw wl) -> copies skb wl' <= 0) /\
  (forall s, s <> dummy_packet (hw wl) -> copies s wl' = copies s wl - is_skb s skb) /\
  (skb = dummy_packet (hw wl) -> flag wl' WL1271_FLAG_DUMMY_PACKET_PENDING = false) /\
  same_vifs wl wl'.
Proof.
  intros [H1 H2 H3 H4 H6 H7 H8 H9] [[T1 T2 T3 T4 T5] Hl Hlast Hfrom].
  pose proof (sched_frame_hw _ _ T3) as Eh. pose proof (sched_frame_skbs _ _ T3) as Es.
  assert (state wl' = state wl /\ aggr_buf wl' = aggr_buf wl) as [Est Eb]
    by (destruct T3 as (? & ? & ? & ? & ? & -> & _); done).
  assert (frame_fits wl skb) as Fit.
  { destruct Hfrom as [(-> & _)|(_ & q & Hq & Hin)]; [done | by eapply H4]. }
  split_and!; try done.
  - split; rewrite ?Eh, ?Est, ?Eb; try done.
    + split; [done | | | | |].
      * eapply sched_frame_queues; [done | apply H1].
      * eapply sched_frame_ids; [done | apply H1].
      * eapply sched_frame_vifs; [done | | apply H1].
        intros v Hv. destruct (Hlast v Hv); [by apply (vo_last _ (inv_vifs _ H1)) | done].
      * destruct T3 as (? & ? & ? & ? & ? & -> & _). apply H1.
      * apply (free_idle_sub wl); [by destruct T3 as (? & ? & ? & ? & ? & -> & _) | | apply H1].
        intros h q s _ _. apply T5.
    + intros s Hs. rewrite T2 by done. pose proof (is_skb_range s skb). specialize (H2 s Hs). lia.
    + by apply (fits_skbs wl).
    + intros h q s Hh Hq Hin. apply (fits_skbs wl); try done. eapply H4; [done..|]. by apply T5.
    + apply (fw_vifs_same wl); try done. by destruct T3 as (? & ? & ? & ? & ? & -> & _).
  - by apply (fits_skbs wl).
  - rewrite (backlog_shift wl wl' (ac_of wl skb) (-1)); [lia | apply get_queue_range |].
    intros q Hq. rewrite T4 by done. split_if; lia.
  - intros Hnd. rewrite T2 by done. unfold is_skb. rewrite bool_decide_eq_true_2 by done.
    specialize (H2 skb Hnd). lia.
  - intros E. by destruct Hfrom as [(_ & _ & _ & ?)|[? _]].
  - destruct T3 as (k & c & vs & w & f & E & _ & Hv & _). split; [by rewrite E | | by rewrite E..].
    intros x. by rewrite (Hv x).
Qed.

(** The count and the pending flag of the dummy packet move together. *)
Lemma dummy_requeue_counts wl :
  counts_ok wl -> flag wl WL1271_FLAG_DUMMY_PACKET_PENDING = false ->
  counts_ok (add_queue_count (ac_of wl (dummy_packet (hw wl))) 1
               (set_flag WL1271_FLAG_DUMMY_PACKET_PENDING wl)).
Proof.
  intros H Hd. set (q := ac_of wl _). set (w1 := set_flag _ wl).
  assert (flag w1 WL1271_FLAG_DUMMY_PACKET_PENDING = true) as Hd1 by (by apply flag_set_same).
  assert (counts_off (shift q (-1) (fun _ => 0)) w1) as H1.
  { destruct H as [A1 A2 A3 A4 A5]. split; try done.
    intros q' Hq'. change (tx_queue_count w1) with (tx_queue_count wl). rewrite A4 by done.
    unfold queued, dummy_load. rewrite Hd, Hd1. change (links w1) with (links wl).
    change (hw w1) with (hw wl). simpl.
    change (ac_of w1 (dummy_packet (hw wl))) with q. unfold shift.
    rewrite (Z.eqb_sym q' q). split_if; lia. }
  unfold counts_ok. eapply counts_off_ext; [|apply add_queue_count_counts; [exact H1 | apply get_queue_range]].
  intros q' _. unfold shift. split_if; lia.
Qed.

Lemma head_requeue_counts skb hlid wl :
  counts_ok wl -> is_link hlid -> skb <> dummy_packet (hw wl) ->
  counts_ok (add_queue_count (ac_of wl skb) 1 (skb_queue_head hlid (ac_of wl skb) skb wl)).
Proof.
  intros H Hh Hnd. set (q := ac_of wl skb). assert (is_queue q) as Hq by apply get_queue_range.
  unfold counts_ok. eapply counts_off_ext; [|apply add_queue_count_counts; [|exact Hq];
    apply (set_link_queue_counts (fun _ => 0)); [done..|]].
  - intros q' _. unfold shift, zlen. simpl. split_if; lia.
  - intros s [->|Hs]%elem_of_cons; [done | by apply (co_placed _ _ H hlid q)].
Qed.

(** A link somebody owns. *)
Definition link_owned (wl : wl1271) (h : Z) : Prop :=
  is_link h /\ test_bit h (links_map wl) = true.

(** Requeueing a frame in hand. *)
Lemma requeue_spec wlvif skb hlid wl :
  work_inv wl -> frame_fits wl skb ->
  (skb <> dummy_packet (hw wl) -> copies skb wl <= 0 /\ link_owned wl hlid /\ is_Some wlvif) ->
  (skb = dummy_packet (hw wl) -> flag wl WL1271_FLAG_DUMMY_PACKET_PENDING = false) ->
  exists wl', wl1271_skb_queue_head wlvif skb hlid wl = Some wl' /\
    work_inv wl' /\ hw wl' = hw wl /\ state wl' = state wl /\ backlog wl' = backlog wl + 1 /\
    (forall s, s <> dummy_packet (hw wl) -> copies s wl' = copies s wl + is_skb s skb) /\
    same_vifs wl wl'.
Proof.
  intros [H1 H2 H3 H4 H6 H7 H8 H9] Fit Hnd Hd. unfold wl1271_skb_queue_head.
  fold (ac_of wl skb). set (q := ac_of wl skb).
  assert (is_queue q) as Hq by apply get_queue_range. cbv zeta.
  unfold wl12xx_is_dummy_packet. destruct (Nat.eqb_spec (dummy_packet (hw wl)) skb) as [E|E].
  - eexists. split; [reflexivity|].
    set (w1 := set_flag WL1271_FLAG_DUMMY_PACKET_PENDING wl).
    assert (counts_ok (add_queue_count q 1 w1)) as C.
    { unfold q. rewrite <- E. apply dummy_requeue_counts; [apply H1 | by apply Hd]. }
    split_and!; try done.
    + split; try done.
      * destruct H1 as [A1 A2 A3 A4 A5 A6].
        split; [done | by apply (queues_ok_frame wl) | by apply (ids_ok_frame wl) | | done | done].
        by apply (vifs_ok_frame wl); try apply (vo_last _ A4).
    + rewrite (backlog_shift wl _ q 1); [done..|]. intros q' Hq'.
      rewrite add_queue_count_at by (apply (co_counts _ _ (inv_counts _ H1)) || done). done.
    + intros s Hs. unfold is_skb. rewrite bool_decide_eq_false_2 by congruence.
      rewrite Z.add_0_r. reflexivity.
  - destruct Hnd as (Hc & [Hh Ho] & [v ->]); [congruence|].
    eexists. split; [reflexivity|].
    set (w1 := skb_queue_head hlid q skb wl).
    set (f := fun w : wl12xx_vif => w <| last_tx_hlid := _ |>).
    pose proof (head_requeue_counts skb hlid wl (inv_counts _ H1) Hh (not_eq_sym E)) as C. fold q w1 in C.
    assert (same_view w1 (upd_vif v f w1)) as V by (by apply upd_vif_view).
    assert (same_view (add_queue_count q 1 w1) (add_queue_count q 1 (upd_vif v f w1))) as V'
      by (destruct V; by split).
    assert (forall h q' s, s ∈ link_queue (add_queue_count q 1 (upd_vif v f w1)) h q' ->
      s = skb \/ s ∈ link_queue wl h q') as Sub.
    { intros h q' s. rewrite (same_view_queue _ _ _ _ V').
      change (link_queue (add_queue_count q 1 w1) h q') with (link_queue w1 h q').
      unfold w1, skb_queue_head. rewrite (link_queue_set _ _ _ _ _ _ _ (inv_counts _ H1) Hh Hq).
      destruct ((hlid =? h) && (q =? q')) eqn:E'; [|by right]. bool_to_prop. subst.
      intros [->|Hin]%elem_of_cons; [by left | by right]. }
    assert (forall s, copies s (add_queue_count q 1 (upd_vif v f w1)) = copies s wl + is_skb s skb) as Cp.
    { intros s. rewrite (same_view_copies _ _ _ V').
      change (copies s (add_queue_count q 1 w1)) with (copies s w1). unfold w1, skb_queue_head.
      rewrite (set_link_queue_copies s _ _ _ _ _ (inv_counts _ H1) Hh Hq), occ_cons. lia. }
    split_and!; try done.
    + split; try done.
      * destruct H1 as [A1 A2 A3 A4 A5 A6]. split.
        -- by eapply same_view_counts.
        -- by apply (queues_ok_frame wl).
        -- by apply (ids_ok_frame wl).
        -- apply (same_view_vifs _ _ V'). by apply (vifs_ok_frame wl); try apply (vo_last _ A4).
        -- exact A5.
        -- intros h q' Hh' Hq' Hb. destruct (link_queue _ h q') as [|s l] eqn:El; [done|]. exfalso.
           assert (h <> hlid) as Hne by (intros ->; simpl in Hb; congruence).
           rewrite (same_view_queue _ _ _ _ V') in El.
           change (link_queue (add_queue_count q 1 w1) h q') with (link_queue w1 h q') in El.
           unfold w1, skb_queue_head in El. rewrite (link_queue_set _ _ _ _ _ _ _ A1 Hh Hq) in El.
           rewrite (proj2 (Z.eqb_neq hlid h)) in El by congruence. simpl in El.
           by rewrite (A6 h q' Hh' Hq' Hb) in El.
      * intros s Hs. rewrite Cp. unfold is_skb. case_bool_decide; [subst; lia|].
        specialize (H2 s Hs). lia.
      * intros h q' s Hh' Hq' Hin. apply (fits_skbs wl); try done.
        destruct (Sub _ _ _ Hin) as [->|?]; [done | by eapply H4].
    + rewrite (backlog_shift wl _ q 1); [done..|]. intros q' Hq'.
      rewrite add_queue_count_at by (apply (co_counts _ _ (inv_counts _ H1)) || done). done.
    + destruct (view_vifs _ _ V'). by split.
Qed.

Section TxWork.
Context `{laws : wlcore_ops_laws}.

Lemma tx_alignment_hw wl wl' : hw wl' = hw wl -> tx_alignment wl' = tx_alignment wl.
Proof. intros E. unfold tx_alignment, has_quirk. by rewrite E. Qed.

Lemma tx_alignment_block wl : (tx_alignment wl | WL12XX_BUS_BLOCK_SIZE).
Proof. unfold tx_alignment. split_if; [by exists 64 | reflexivity]. Qed.

Lemma frame_at_insert wl wl' id x j s : tx_frames wl' = zset (tx_frames wl) id (Some x) ->
  frame_at wl' j = Some s -> s = x \/ frame_at wl j = Some s.
Proof.
  unfold frame_at. intros ->. destruct (decide (id = j)) as [<-|]; [|rewrite zget_zset_ne by done; auto].
  unfold zset, zget. destruct (id <? 0); [auto|]. rewrite !nth_lookup.
  destruct (decide (Z.to_nat id < length (tx_frames wl))%nat).
  - rewrite list_lookup_insert_eq by done. simpl. intros [= ->]. by left.
  - rewrite list_insert_ge by lia. auto.
Qed.

(** A successful preparation of a frame in hand. *)
Lemma prepare_work wlvif skb off hlid wl ret wl' :
  work_inv wl -> frame_fits wl skb ->
  (skb <> dummy_packet (hw wl) -> copies skb wl <= 0) ->
  0 <= off <= aggr_buf_size (hw wl) -> (tx_alignment wl | off) ->
  wl1271_prepare_tx_frame wlvif skb off hlid wl = Some (ret, wl') -> 0 <= ret ->
  work_inv wl' /\ hw wl' = hw wl /\ state_le (state wl) (state wl') /\
  backlog wl' <= backlog wl /\ same_vifs wl wl' /\
  (forall s, s <> dummy_packet (hw wl) -> copies s wl' = copies s wl + is_skb s skb) /\
  0 < ret /\ off + ret <= aggr_buf_size (hw wl) /\ (tx_alignment wl | off + ret) /\
  desc_placed skb off hlid ret wl wl'.
Proof.
  intros W Fit Hc Hoff Ha Hp Hret. pose proof W as [H1 H2 H3 H4 H6 H7 H8 H9].
  destruct Fit as (F1 & F2 & F3). assert (0 <= skb_len (skb_at wl skb)) as Hn by apply zlen_nonneg.
  unfold TX_DESC_SIZE, WL1271_EXTRA_SPACE_TKIP in F2.
  destruct (prepare_places wlvif skb off hlid wl ret wl') as (B1 & B2 & B3); try done; try lia.
  { etrans; [apply tx_alignment_block | done]. }
  pose proof (prepare_moves wlvif skb off hlid wl H1) as M. rewrite Hp in M.
  destruct M as [[? _]|[_ M]]; [lia|].
  destruct (prepare_payload wlvif skb off hlid wl ret wl' H1 Hp Hret) as [P1 P2].
  pose proof (mv_hw _ _ _ M) as Eh.
  assert (frame_fits wl' (dummy_packet (hw wl))) as FD.
  { destruct (decide (skb = dummy_packet (hw wl))) as [E|E].
    - rewrite bool_decide_eq_true_2 in F3 by done.
      destruct P2 as (Q1 & Q2 & Q3); [by apply Nat.eqb_eq | done | done | unfold TX_DESC_SIZE; lia|].
      unfold frame_fits. rewrite Eh, <- E, Q2, bool_decide_eq_true_2 by done.
      split_and!; [done | unfold TX_DESC_SIZE, WL1271_EXTRA_SPACE_TKIP; lia | done].
    - apply (fits_frame wl); [done | by apply P1, not_eq_sym | done]. }
  assert (forall s, s <> dummy_packet (hw wl) -> copies s wl' <= 1) as U.
  { intros s Hs. rewrite (mv_copies _ _ _ M s Hs). unfold is_skb.
    destruct (bool_decide_reflect (skb = s)); [subst s; specialize (Hc Hs); lia | specialize (H2 s Hs); lia]. }
  destruct B3 as (data & id & D1 & D2 & D3 & D4).
  destruct (prepare_table wlvif skb off hlid wl ret wl' H1 Hp Hret) as [[id' T1] T2].
  split_and!; try done; try apply M.
  - split; rewrite ?Eh; try done; [apply M| | |].
    + intros h q s Hh Hq Hin.
      assert (s ∈ link_queue wl h q /\ s <> skb) as [Hin' Hne].
      { split; [by apply (mv_sub _ _ _ M)|]. intros ->.
        apply (mv_sub _ _ _ M) in Hin; [|done].
        destruct (co_placed _ _ (inv_counts _ H1) h q skb Hq Hin) as [_ Hnd].
        pose proof (queued_copies wl h q skb (inv_counts _ H1) Hh Hq Hin). specialize (Hc Hnd). lia. }
      apply (fits_frame wl); [done | by apply P1 | by eapply H4].
    + unfold TX_DESC_SIZE in *. rewrite D4, !write_buf_len; [done | lia | lia | lia |].
      rewrite write_buf_len; [|lia..]. unfold zlen in *. rewrite length_replicate. lia.
    + intros j s Hj Hs. rewrite T2. rewrite Eh in Hs. apply (frame_at_insert _ _ _ _ _ _ T1) in Hj.
      destruct Hj as [->|Hj]; [|by apply (H9 j)].
      by rewrite bool_decide_eq_false_2 in F3.
  - apply backlog_le. apply M.
  - unfold TX_DESC_SIZE in *. lia.
  - by apply Z.divide_add_r.
  - by exists data, id.
Qed.


(** Sending the aggregate: only I/O, and only bytes of the buffer. *)
Lemma pre_pkt_send_spec wl off last :
  work_inv wl -> 0 <= off <= aggr_buf_size (hw wl) ->
  let '(len, w) := wlcore_hw_pre_pkt_send wl off last in
  off <= len <= aggr_buf_size (hw wl) /\ zlen (aggr_buf w) = zlen (aggr_buf wl) /\
  exists b, w = wl <| aggr_buf := b |>.
Proof.
  intros W Hoff. unfold wlcore_hw_pre_pkt_send. destruct pre_pkt_send as [f|] eqn:E.
  - pose proof (pre_pkt_send_frame f wl off last E) as L. pose proof (wi_size _ W).
    destruct (f wl off last) as [len w]. destruct L as (L1 & L2 & L3 & L4); [lia|].
    split_and!; try done; [lia | | by eexists].
    destruct L4 as [->|L4]; [lia|].
    apply (align_within WL12XX_BUS_BLOCK_SIZE off); [done | apply (wi_align _ W) | done | lia | lia].
  - split_and!; [lia | lia | done |]. exists (aggr_buf wl). by destruct wl.
Qed.

Lemma send_aggr_spec s wl :
  work_inv wl -> locals_ok wl s ->
  let '(ret, wl') := tx_send_aggr s wl in
  work_inv wl' /\ same_view wl wl' /\ skbs wl' = skbs wl.
Proof.
  intros W [Hoff _]. unfold tx_send_aggr.
  pose proof (pre_pkt_send_spec wl (buf_offset s) (last_len s) W Hoff) as P.
  destruct (wlcore_hw_pre_pkt_send wl (buf_offset s) (last_len s)) as [len w].
  destruct P as (_ & P2 & b & E).
  assert (same_view wl w) as V1 by (rewrite E; by split).
  match goal with |- context [wlcore_write ?a ?x w] =>
    pose proof (write_io_frame a x w) as F; destruct (wlcore_write a x w) as [ret w2] end.
  simpl in F. pose proof (io_frame_view _ _ F) as V2.
  destruct F as [(f & st & bu & l & F) _ _ _].
  assert (skbs w2 = skbs wl /\ aggr_buf w2 = aggr_buf w) as [E1 E2] by (by rewrite F, E).
  assert (same_view wl w2) as V by (by etrans).
  split_and!; try done. apply (work_inv_view wl); try done. by rewrite E2.
Qed.

Lemma count_reason_view n f wl : same_view wl (count_reason n f wl).
Proof. by split. Qed.

(** ** The loop *)

Definition work_fuel (s : tx_locals) (wl : wl1271) : Z :=
  2 * backlog wl + (if buf_offset s =? 0 then 0 else 1)
  + (if bool_decide (state wl = WLCORE_STATE_ON) then 1 else 0).

(** Invariant kept, no buffer lost or duplicated. *)
Record work_keeps (wl wl' : wl1271) : Prop := {
  wk_inv : work_inv wl';
  wk_hw : hw wl' = hw wl;
  wk_copies s : s <> dummy_packet (hw wl) -> copies s wl' = copies s wl;
  wk_backlog : backlog wl' <= backlog wl;
  wk_vifs : same_vifs wl wl';
  wk_state : state_le (state wl) (state wl')
}.

Lemma work_keeps_trans a b c : work_keeps a b -> work_keeps b c -> work_keeps a c.
Proof.
  intros [I1 H1 C1 B1 V1 S1] [I2 H2 C2 B2 V2 S2]. split; [done | congruence | | lia | by etrans | by etrans].
  intros s Hs. rewrite C2 by congruence. by apply C1.
Qed.

Lemma buf_keeps wl wl' : work_inv wl -> same_view wl wl' -> skbs wl' = skbs wl ->
  zlen (aggr_buf wl') = zlen (aggr_buf wl) -> work_keeps wl wl'.
Proof.
  intros W V Es Eb. split; [by apply (work_inv_view wl) | apply V | | | by apply view_vifs | apply V].
  - intros s _. by apply same_view_copies.
  - by rewrite (same_view_backlog _ _ V).
Qed.

Lemma view_keeps wl wl' : work_inv wl -> same_view wl wl' -> skbs wl' = skbs wl ->
  aggr_buf wl' = aggr_buf wl -> work_keeps wl wl'.
Proof. intros W V Es Eb. apply buf_keeps; try done. by rewrite Eb. Qed.

(** What the loop promises about its result. *)
Definition loop_result (wl : wl1271) (r : outcome (tx_exit * tx_locals * wl1271)) : Prop :=
  match r with
  | Ret (_, s', wl') => work_keeps wl wl' /\ locals_ok wl' s'
  | _ => False
  end.

Lemma loop_result_step wl w1 r : work_keeps wl w1 -> loop_result w1 r -> loop_result wl r.
Proof.
  intros K. destruct r as [[[e s'] wl']| |]; simpl; try done.
  intros [K' L]. split; [by eapply work_keeps_trans | done].
Qed.

Lemma locals_ok_hw wl wl' s : hw wl' = hw wl -> locals_ok wl s -> locals_ok wl' s.
Proof. intros E [? ?]. unfold locals_ok. by rewrite E, (tx_alignment_hw _ _ E). Qed.

Lemma dequeued_owned skb hlid wl wl' : tx_inv wl -> dequeued skb hlid wl wl' ->
  link_owned wl' hlid.
Proof.
  intros H [T L _ P]. split; [done|].
  assert (links_map wl' = links_map wl) as -> by (by destruct (tk_frame _ _ _ T) as (? & ? & ? & ? & ? & -> & _)).
  destruct P as [(_ & -> & _) | [_ (q & Hq & Hin)]]; [apply (vo_sysmap _ (inv_vifs _ H))|].
  by eapply queued_allocated; [apply H|..].
Qed.

(** A frame in hand on a state with the invariant, as the loop sees it. *)
Record in_hand (skb : nat) (hlid : Z) (wl : wl1271) : Prop := {
  ih_work : work_inv wl;
  ih_fits : frame_fits wl skb;
  ih_copies : skb <> dummy_packet (hw wl) -> copies skb wl <= 0;
  ih_link : link_owned wl hlid;
  ih_dummy : skb = dummy_packet (hw wl) -> flag wl WL1271_FLAG_DUMMY_PACKET_PENDING = false;
  ih_state : state wl <> WLCORE_STATE_OFF
}.

Definition wlvif_of (wl : wl1271) (skb : nat) : option nat :=
  if wl12xx_is_dummy_packet wl skb then None else control_vif (skb_cb (skb_at wl skb)).

Lemma wlvif_of_Some wl skb : frame_fits wl skb -> skb <> dummy_packet (hw wl) ->
  is_Some (wlvif_of wl skb).
Proof.
  intros (_ & _ & F) Hne. rewrite bool_decide_eq_false_2 in F by done. unfold wlvif_of, wl12xx_is_dummy_packet.
  by rewrite (proj2 (Nat.eqb_neq _ _) (not_eq_sym Hne)).
Qed.

(** Requeueing after a failed preparation. *)
Lemma fail_requeue wlvif skb off hlid h' wl ret wl' :
  in_hand skb hlid wl -> link_owned wl h' -> (skb <> dummy_packet (hw wl) -> is_Some wlvif) ->
  wl1271_prepare_tx_frame wlvif skb off h' wl = Some (ret, wl') -> ret < 0 ->
  same_view wl wl' /\ skbs wl' = skbs wl /\
  exists w2, wl1271_skb_queue_head wlvif skb h' wl' = Some w2 /\
    work_inv w2 /\ hw w2 = hw wl /\ state w2 = state wl' /\ backlog w2 = backlog wl + 1 /\
    (forall s, s <> dummy_packet (hw wl) -> copies s w2 = copies s wl + is_skb s skb) /\
    same_vifs wl w2.
Proof.
  intros [W F C L D S] Hh Hv Hp Hr.
  pose proof (prepare_fails wlvif skb off h' wl (inv_ids _ (wi_inv _ W)) S) as P.
  rewrite Hp in P. destruct (P Hr) as (V & Es & Eb & _). pose proof (sv_hw _ _ V) as Eh.
  split_and!; [done..|].
  destruct (requeue_spec wlvif skb h' wl') as (w2 & R1 & R2 & R3 & R4 & R5 & R6 & R7).
  - apply (work_inv_view wl); try done. by rewrite Eb.
  - by apply (fits_skbs wl).
  - rewrite Eh. intros Hne. rewrite (same_view_copies _ _ _ V). unfold link_owned.
    rewrite (sv_lmap _ _ V). auto.
  - rewrite Eh, (sv_dummy _ _ V). done.
  - exists w2. split_and!; try done.
    + congruence.
    + by rewrite R5, (same_view_backlog _ _ V).
    + intros s Hs. rewrite R6 by congruence. by rewrite (same_view_copies _ _ _ V).
    + etrans; [by apply view_vifs | done].
Qed.


Definition on_bit (s : wlcore_state) : Z := if bool_decide (s = WLCORE_STATE_ON) then 1 else 0.

Lemma on_bit_le s s' : state_le s s' -> on_bit s' <= on_bit s.
Proof. unfold on_bit. intros [->|[-> ->]]; [lia | simpl; done]. Qed.

(** A retry is asked for only once per flush, or because the driver stopped. *)
Lemma retry_progress wlvif skb off hlid h' wl wl' :
  in_hand skb hlid wl -> 0 <= off <= aggr_buf_size (hw wl) ->
  wl1271_prepare_tx_frame wlvif skb off h' wl = Some (- EAGAIN, wl') ->
  on_bit (state wl') < (if off =? 0 then 0 else 1) + on_bit (state wl).
Proof.
  intros [W F C L D S] Hoff Hp.
  pose proof (prepare_fails wlvif skb off h' wl (inv_ids _ (wi_inv _ W)) S) as P.
  rewrite Hp in P. destruct P as (V & _ & _ & P); [done|]. specialize (P eq_refl).
  pose proof (on_bit_le _ _ (sv_state _ _ V)).
  destruct P as [Hbig|[-> ->]]; [|change (0 < (if off =? 0 then 0 else 1) + 1); split_if; lia].
  destruct (off =? 0) eqn:E; bool_to_prop; [|lia]. subst off. exfalso.
  destruct F as (_ & F & _). pose proof (wi_size _ W).
  assert (0 <= skb_len (skb_at wl skb)) by apply zlen_nonneg.
  pose proof (tx_extra_range wl (control_hw_key (skb_cb (skb_at wl skb)))).
  unfold TX_DESC_SIZE, WL1271_EXTRA_SPACE_TKIP in *.
  rewrite Z.add_0_l, (u32_id (skb_len _ + _ + _)), u32_id in Hbig by lia. lia.
Qed.

(** Leaving the loop after a step the view does not see. *)
Lemma loop_exit wl w w' e s :
  work_keeps wl w -> locals_ok wl s -> same_view w w' -> skbs w' = skbs w ->
  zlen (aggr_buf w') = zlen (aggr_buf w) -> loop_result wl (Ret (e, s, w')).
Proof.
  intros K L V Es Eb. split.
  - eapply work_keeps_trans; [exact K | apply buf_keeps; done || apply K].
  - apply (locals_ok_hw wl); [|done]. by rewrite (sv_hw _ _ V), (wk_hw _ _ K).
Qed.

(** Giving a frame in hand back to mac80211. *)
Lemma free_txskb_work skb wl :
  work_inv wl -> (skb <> dummy_packet (hw wl) -> copies skb wl <= 0) ->
  let wl' := emit (EvFreeTxskb skb) wl in
  work_inv wl' /\ (forall s, copies s wl' = copies s wl + is_skb s skb).
Proof.
  intros [H1 H2 H3 H4 H6 H7 H8 H9] Hc. cbv zeta.
  assert (forall s, copies s (emit (EvFreeTxskb skb) wl) = copies s wl + is_skb s skb) as Cp.
  { intros s. apply emit_copies. }
  split; [|done]. split; try done.
  - destruct H1 as [A1 A2 A3 A4 A5 A6]. split.
    + by apply (counts_off_frame _ wl).
    + by apply (queues_ok_frame wl).
    + by apply (ids_ok_frame wl).
    + by apply (vifs_ok_frame wl); try apply (vo_last _ A4).
    + done.
    + done.
  - intros s Hs. rewrite Cp. unfold is_skb. simpl in Hs.
    destruct (bool_decide_reflect (skb = s)); [subst; specialize (Hc Hs); lia | specialize (H2 s Hs); lia].
Qed.

(** A turn of the loop: the frame [skb], taken from [wl], is in hand in [w1]. *)
Record turn (skb : nat) (hlid : Z) (wl w1 : wl1271) : Prop := {
  tn_hand : in_hand skb hlid w1;
  tn_hw : hw w1 = hw wl;
  tn_state : state w1 = state wl;
  tn_backlog : backlog w1 = backlog wl - 1;
  tn_copies s : s <> dummy_packet (hw wl) -> copies s w1 = copies s wl - is_skb s skb;
  tn_vifs : same_vifs wl w1
}.

Lemma dequeued_turn skb hlid wl w1 : work_inv wl -> state wl <> WLCORE_STATE_OFF ->
  dequeued skb hlid wl w1 -> turn skb hlid wl w1.
Proof.
  intros W Hon D. destruct (dequeued_inv _ _ _ _ W D) as (W1 & Eh & Est & Fit & Bl & Hc & Cp & Hd & Vf).
  split; try done. split; rewrite ?Eh, ?Est; try done. apply (dequeued_owned skb hlid wl); [apply W | done].
Qed.

(** The frame in hand has found a place. *)
Lemma turn_done skb hlid wl w1 w : turn skb hlid wl w1 ->
  work_inv w -> hw w = hw w1 -> backlog w <= backlog w1 + 1 ->
  (forall s, s <> dummy_packet (hw w1) -> copies s w = copies s w1 + is_skb s skb) ->
  same_vifs w1 w -> state_le (state w1) (state w) -> work_keeps wl w.
Proof.
  intros [_ Eh Es Bl Cp Vf] W Ew Bw Cw Vw Sw. split; [done | congruence | | lia | by etrans | by rewrite <- Es].
  intros s Hs. rewrite Cw by congruence. rewrite Cp by done. lia.
Qed.

(** The link the frame is sent on. *)
Definition turn_link (skb : nat) (hlid : Z) (wl : wl1271) : Z :=
  match wlvif_of wl skb with Some _ => hlid | None => system_hlid (hw wl) end.

Lemma turn_link_owned skb hlid wl : in_hand skb hlid wl -> link_owned wl (turn_link skb hlid wl).
Proof.
  intros H. unfold turn_link. destruct (wlvif_of wl skb); [apply H|].
  pose proof (inv_vifs _ (wi_inv _ (ih_work _ _ _ H))) as V. split; [apply (system_link _ V) | apply (vo_sysmap _ V)].
Qed.

(** The frames in hand never make the preparation fault. *)
Lemma turn_prepares skb hlid off wl : in_hand skb hlid wl ->
  exists ret wl', wl1271_prepare_tx_frame (wlvif_of wl skb) skb off (turn_link skb hlid wl) wl
                  = Some (ret, wl') /\
    (ret < 0 -> same_view wl wl' /\ skbs wl' = skbs wl /\ aggr_buf wl' = aggr_buf wl).
Proof.
  intros [W Fit _ _ _ Hon].
  pose proof (prepare_fails (wlvif_of wl skb) skb off (turn_link skb hlid wl) wl
    (inv_ids _ (wi_inv _ W)) Hon) as PF.
  destruct (wl1271_prepare_tx_frame _ _ _ _ wl) as [[ret w]|]; [|exfalso].
  - exists ret, w. split; [done|]. intros Hr. destruct (PF Hr) as (V & Es & Eb & _). done.
  - destruct PF as [PF1 PF2]. destruct (decide (skb = dummy_packet (hw wl))) as [X|X].
    + destruct Fit as (_ & _ & Fit). rewrite bool_decide_eq_true_2, Fit in * by done. by destruct PF2.
    + destruct (wlvif_of_Some wl skb Fit X) as [? Y]. congruence.
Qed.

(** The aggregate is full or the driver restarts: after sending what there is,
    the rest of the work is smaller. *)
Lemma turn_flush skb hlid s wl w1 w2 w3 r w4 s' n f :
  turn skb hlid wl w1 -> locals_ok wl s ->
  wl1271_prepare_tx_frame (wlvif_of w1 skb) skb (buf_offset s) (turn_link skb hlid w1) w1
    = Some (- EAGAIN, w2) -> same_view w1 w2 -> state w3 = state w2 -> work_keeps wl w3 ->
  tx_send_aggr s w3 = (r, w4) -> buf_offset s' = 0 ->
  work_keeps wl w4 /\ state w4 <> WLCORE_STATE_OFF /\
  locals_ok (count_reason n f w4) s' /\ work_fuel s' (count_reason n f w4) < work_fuel s wl.
Proof.
  intros T [Lo La] Hp V2 St3 K3 E Hs'. rewrite <- (tn_hw _ _ _ _ T) in Lo.
  pose proof (retry_progress _ _ _ _ _ _ _ (tn_hand _ _ _ _ T) Lo Hp) as Pr.
  pose proof (send_aggr_spec s w3 (wk_inv _ _ K3)) as SA. rewrite E in SA.
  destruct SA as (W4 & V4 & Es4).
  { apply (locals_ok_hw w1); [|split; [done|]; by rewrite (tx_alignment_hw _ _ (tn_hw _ _ _ _ T))].
    by rewrite (wk_hw _ _ K3), (tn_hw _ _ _ _ T). }
  pose proof (same_view_backlog _ _ V4) as B4. pose proof (sv_state _ _ V4) as S4. rewrite St3 in S4.
  assert (work_keeps wl w4) as K4.
  { eapply work_keeps_trans; [exact K3|]. split; [done | apply V4 | | lia | by apply view_vifs | apply V4].
    intros x _. by apply same_view_copies. }
  split; [done|]. split; [|split; [split|]].
  - apply (state_le_not_off (state w1)); [|apply (tn_hand _ _ _ _ T)].
    etrans; [apply (sv_state _ _ V2) | done].
  - rewrite Hs'. simpl. pose proof (wi_size _ W4). lia.
  - rewrite Hs'. apply Z.divide_0_r.
  - unfold work_fuel. rewrite Hs'. change (backlog (count_reason n f w4)) with (backlog w4).
    change (state (count_reason n f w4)) with (state w4). fold (on_bit (state w4)). fold (on_bit (state wl)).
    pose proof (on_bit_le _ _ S4). pose proof (wk_backlog _ _ K4). rewrite (tn_state _ _ _ _ T) in Pr.
    destruct (buf_offset s =? 0); simpl; lia.
Qed.

(** The frame is in the aggregate and in the firmware's table. *)
Lemma turn_sent skb hlid s wl w1 w2 ret s' w3 :
  turn skb hlid wl w1 -> locals_ok wl s ->
  wl1271_prepare_tx_frame (wlvif_of w1 skb) skb (buf_offset s) (turn_link skb hlid w1) w1
    = Some (ret, w2) -> 0 <= ret ->
  buf_offset s' = u32 (buf_offset s + ret) -> same_view w2 w3 -> skbs w3 = skbs w2 ->
  aggr_buf w3 = aggr_buf w2 ->
  work_keeps wl w3 /\ state w3 <> WLCORE_STATE_OFF /\ locals_ok w3 s' /\
  work_fuel s' w3 < work_fuel s wl.
Proof.
  intros T [Lo La] Hp Hpos Hs' V3 Es Eb. pose proof (tn_hand _ _ _ _ T) as H.
  rewrite <- (tn_hw _ _ _ _ T) in Lo. rewrite <- (tx_alignment_hw _ _ (tn_hw _ _ _ _ T)) in La.
  destruct (prepare_work _ _ _ _ _ _ _ (ih_work _ _ _ H) (ih_fits _ _ _ H) (ih_copies _ _ _ H) Lo La Hp Hpos)
    as (W2 & Eh2 & S2 & B2 & Vf2 & Cp2 & Pos & In & Al & _).
  pose proof (wi_size _ (ih_work _ _ _ H)) as Hsz.
  assert (work_keeps wl w2) as K2 by (apply (turn_done skb hlid wl w1); done || lia).
  pose proof (sv_hw _ _ V3) as Eh3. pose proof (same_view_backlog _ _ V3) as B3.
  split; [|split; [|split; [split|]]].
  - eapply work_keeps_trans; [exact K2 | by apply view_keeps].
  - apply (state_le_not_off (state w1)); [|apply H]. etrans; [exact S2 | apply (sv_state _ _ V3)].
  - rewrite Hs', u32_id, Eh3, Eh2 by lia. lia.
  - rewrite Hs', u32_id by lia. rewrite (tx_alignment_hw w1) by congruence. done.
  - unfold work_fuel. rewrite Hs', u32_id by lia. rewrite (proj2 (Z.eqb_neq (buf_offset s + ret) 0)) by lia.
    fold (on_bit (state w3)). fold (on_bit (state wl)).
    pose proof (on_bit_le _ _ S2) as O1. pose proof (on_bit_le _ _ (sv_state _ _ V3)).
    rewrite (tn_state _ _ _ _ T) in O1. pose proof (tn_backlog _ _ _ _ T).
    destruct (buf_offset s =? 0); lia.
Qed.

(** One turn of the loop with the frame [skb] in hand, taken from [wl]. *)
Lemma loop_turn fuel s skb hlid wl w1 :
  (forall s wl, work_inv wl -> state wl <> WLCORE_STATE_OFF -> locals_ok wl s ->
     work_fuel s wl < Z.of_nat fuel -> loop_result wl (tx_work_loop fuel s wl)) ->
  locals_ok wl s -> work_fuel s wl < Z.of_nat (S fuel) ->
  wl1271_skb_dequeue wl = (Some (skb, hlid), w1) -> turn skb hlid wl w1 ->
  loop_result wl (tx_work_loop (S fuel) s wl).
Proof.
  intros IH L Hf E T. cbn [tx_work_loop]. rewrite E. cbv zeta.
  fold (wlvif_of w1 skb). fold (turn_link skb hlid w1). pose proof (tn_hand _ _ _ _ T) as H.
  destruct (turn_prepares skb hlid (buf_offset s) w1 H) as (ret & w2 & Hp & P). rewrite Hp.
  destruct (Z.ltb_spec ret 0) as [Hneg|Hpos].
  - destruct (P Hneg) as (V2 & Es2 & Eb2). clear P.
    destruct (fail_requeue _ _ _ _ _ _ _ _ H (turn_link_owned _ _ _ H) (wlvif_of_Some _ _ (ih_fits _ _ _ H)) Hp Hneg)
      as (_ & _ & w3 & R3 & W3 & Eh3 & St3 & Bl3 & Cp3 & Vf3).
    assert (work_keeps wl w3) as K3
      by (apply (turn_done skb hlid wl w1); try done; [lia | rewrite St3; apply V2]).
    destruct (ret =? - EAGAIN) eqn:E1; bool_to_prop; [|destruct (ret =? - EBUSY) eqn:E2; bool_to_prop].
    + rewrite R3. subst ret. destruct (tx_send_aggr s w3) as [r w4] eqn:E4.
      destruct (turn_flush skb hlid s wl w1 w2 w3 r w4
        (s <| bus_ret := r |> <| sent_packets := true |> <| buf_offset := 0 |>) (n_aggr_packets s)
        (fun a => a <| ag_buffer_full ::= fun n => u32 (n + 1) |>)) as (K4 & S4 & L4 & F4); try done.
      destruct (r <? 0); [by apply (loop_exit wl w4 w4)|].
      match goal with |- loop_result wl (tx_work_loop fuel _ ?w5) => assert (work_keeps wl w5) as K5 end.
      { eapply work_keeps_trans; [exact K4 | apply view_keeps; [apply K4 | apply count_reason_view | done | done]]. }
      eapply loop_result_step; [exact K5|].
      apply IH; [apply K5 | exact S4 | exact L4 | eapply Z.lt_le_trans; [exact F4 | lia]].
    + rewrite R3. apply (loop_exit wl w3); try done.
      etrans; [by apply (set_flag_view WL1271_FLAG_FW_TX_BUSY) | apply count_reason_view].
    + destruct (wl12xx_is_dummy_packet w2 skb) eqn:Ed; [rewrite R3; by apply (loop_exit wl w3)|].
      destruct (free_txskb_work skb w2) as [W4 Cp4].
      { apply (work_inv_view w1); try done; [by rewrite Eb2 | apply H]. }
      { rewrite (sv_hw _ _ V2), (same_view_copies _ _ _ V2). apply H. }
      apply (loop_exit wl (emit (EvFreeTxskb skb) w2)); try done.
      apply (turn_done skb hlid wl w1); [done | done | apply V2 | | | by destruct (view_vifs _ _ V2) | apply V2].
      * change (backlog w2 <= backlog w1 + 1). rewrite (same_view_backlog _ _ V2). lia.
      * intros x _. by rewrite Cp4, (same_view_copies _ _ _ V2).
  - assert ((ret =? - EAGAIN) = false) as -> by (apply Z.eqb_neq; unfold EAGAIN; lia).
    assert ((ret =? - EBUSY) = false) as -> by (apply Z.eqb_neq; unfold EBUSY; lia).
    match goal with |- loop_result wl (tx_work_loop fuel ?s' ?w3) =>
      destruct (turn_sent skb hlid s wl w1 w2 ret s' w3) as (K3 & S3 & L3 & F3); try done end.
    eapply loop_result_step; [exact K3|]. apply IH; [apply K3 | done | done | eapply Z.lt_le_trans; [exact F3 | lia]].
Qed.

Lemma tx_work_loop_ok fuel : forall s wl,
  work_inv wl -> state wl <> WLCORE_STATE_OFF -> locals_ok wl s ->
  work_fuel s wl < Z.of_nat fuel -> loop_result wl (tx_work_loop fuel s wl).
Proof.
  induction fuel as [|fuel IH]; intros s wl W Hon L Hf.
  { exfalso. unfold work_fuel in Hf. pose proof (backlog_nonneg wl (inv_counts _ (wi_inv _ W))).
    destruct (buf_offset s =? 0), (bool_decide _); lia. }
  pose proof (skb_dequeue_cases wl (inv_counts _ (wi_inv _ W)) (inv_vifs _ (wi_inv _ W))) as D.
  destruct (wl1271_skb_dequeue wl) as [[[skb hlid]|] w1] eqn:E.
  - eapply loop_turn; [exact IH | done | done | exact E | by apply dequeued_turn].
  - cbn [tx_work_loop]. rewrite E. destruct D as (V & F & _).
    apply (loop_exit wl wl); [by apply view_keeps | done | done | by apply sched_frame_skbs|].
    by destruct F as (? & ? & ? & ? & ? & -> & _).
Qed.

(** ** The work function *)

Lemma rearm_rx_streaming_view m wl :
  same_view wl (wl12xx_rearm_rx_streaming m wl) /\
  skbs (wl12xx_rearm_rx_streaming m wl) = skbs wl /\
  aggr_buf (wl12xx_rearm_rx_streaming m wl) = aggr_buf wl.
Proof.
  unfold wl12xx_rearm_rx_streaming. split_if; [done|]. split_if; [done|].
  apply (fold_left_inv (fun w => same_view wl w /\ skbs w = skbs wl /\ aggr_buf w = aggr_buf wl));
    [done|].
  intros w v _ (V & Es & Eb). cbv zeta. split_if; [done|]. split_if; [done|].
  split_and!; [|by split_if..]. etrans; [|by apply emit_view].
  split_if; [|done]. etrans; [exact V | by apply emit_view].
Qed.

Lemma low_watermark_work wl : work_inv wl -> work_inv (wl1271_handle_tx_low_watermark wl).
Proof.
  intros [H1 H2 H3 H4 H6 H7 H8 H9]. pose proof (low_watermark_moves wl H1) as M.
  destruct (low_watermark_frame wl) as (r & l & E). rewrite E in *. split; try done; [apply M|].
  intros s Hs. rewrite (mv_copies _ _ _ M) by done. unfold none_moved. specialize (H2 s Hs). lia.
Qed.

Lemma low_watermark_copies s wl : s <> dummy_packet (hw wl) -> tx_inv wl ->
  copies s (wl1271_handle_tx_low_watermark wl) = copies s wl.
Proof.
  intros Hs H. rewrite (mv_copies _ _ _ (low_watermark_moves wl H)) by done.
  unfold none_moved. lia.
Qed.


Lemma io_keeps wl wl' : work_inv wl -> io_frame wl wl' -> work_keeps wl wl'.
Proof.
  intros W F. apply view_keeps; [done | by apply io_frame_view | |];
    destruct F as [(? & ? & ? & ? & ->) _ _ _]; done.
Qed.

Lemma low_watermark_keeps wl : work_inv wl -> work_keeps wl (wl1271_handle_tx_low_watermark wl).
Proof.
  intros W. split; [by apply low_watermark_work | | | | |].
  - by destruct (low_watermark_frame wl) as (? & ? & ->).
  - intros s Hs. apply low_watermark_copies; [done | apply W].
  - by destruct (low_watermark_frame wl) as (? & ? & ->).
  - apply (mv_vifs _ _ _ (low_watermark_moves wl (wi_inv _ W))).
  - by destruct (low_watermark_frame wl) as (? & ? & ->).
Qed.

Lemma rearm_keeps m wl : work_inv wl -> work_keeps wl (wl12xx_rearm_rx_streaming m wl).
Proof. intros W. by apply view_keeps; try apply rearm_rx_streaming_view. Qed.

Lemma work_ack_keeps s wl : work_inv wl -> locals_ok wl s ->
  work_keeps wl (snd (tx_work_ack s wl)).
Proof.
  intros W L. unfold tx_work_ack.
  set (r := if negb (buf_offset s =? 0) then tx_send_aggr s wl else (bus_ret s, wl)).
  assert (work_keeps wl (snd r)) as K1.
  { unfold r. split_if; [|by apply view_keeps].
    pose proof (send_aggr_spec s wl W L) as SA. destruct (tx_send_aggr s wl) as [ret w].
    destruct SA as (W' & V & _). split; [done | apply V | | | by apply view_vifs | apply V].
    - intros x _. by apply same_view_copies.
    - simpl. by rewrite (same_view_backlog _ _ V). }
  destruct r as [ret w1]. simpl in K1. split_if; [exact K1|]. split_if.
  - set (r2 := if has_quirk w1 WLCORE_QUIRK_END_OF_TRANSACTION then _ else (ret, w1)).
    assert (work_keeps wl (snd r2)) as K2.
    { unfold r2. split_if; [|exact K1]. eapply work_keeps_trans; [exact K1|].
      apply io_keeps; [apply K1 | apply write32_io_frame]. }
    destruct r2 as [ret2 w2]. simpl in K2. split_if; [exact K2|]. simpl.
    eapply work_keeps_trans; [exact K2|]. eapply work_keeps_trans; [apply low_watermark_keeps, K2|].
    apply rearm_keeps. apply low_watermark_work, K2.
  - simpl. eapply work_keeps_trans; [exact K1 | apply rearm_keeps, K1].
Qed.

Lemma tx_work_locked_keeps fuel wl :
  work_inv wl -> 2 * backlog wl + 1 < Z.of_nat fuel ->
  exists ret wl', wlcore_tx_work_locked fuel wl = Ret (ret, wl') /\ work_keeps wl wl'.
Proof.
  intros W Hf. unfold wlcore_tx_work_locked. case_bool_decide as Hon.
  2: { exists 0, wl. split; [done | by apply view_keeps]. }
  simpl. assert (locals_ok wl tx_locals0) as L0.
  { split; simpl; [pose proof (wi_size _ W); lia | apply Z.divide_0_r]. }
  assert (work_fuel tx_locals0 wl < Z.of_nat fuel) as Hf'.
  { unfold work_fuel. simpl. split_if; lia. }
  pose proof (tx_work_loop_ok fuel tx_locals0 wl W ltac:(congruence) L0 Hf') as R.
  destruct (tx_work_loop fuel tx_locals0 wl) as [[[e s'] w1]| |]; try done.
  destruct R as [K1 L1].
  destruct e.
  - set (w2 := if negb (buf_offset s' =? 0) then _ else w1).
    assert (work_keeps wl w2) as K2.
    { unfold w2. split_if; [|done]. eapply work_keeps_trans; [exact K1|].
      apply view_keeps; try done. apply K1. }
    pose proof (work_ack_keeps s' w2 (wk_inv _ _ K2)) as A.
    destruct (tx_work_ack s' w2) as [ret w3]. exists ret, w3. split; [done|].
    eapply work_keeps_trans; [exact K2|]. apply A. apply (locals_ok_hw w1); [|done].
    by rewrite (wk_hw _ _ K2), (wk_hw _ _ K1).
  - pose proof (work_ack_keeps s' w1 (wk_inv _ _ K1) L1) as A.
    destruct (tx_work_ack s' w1) as [ret w3]. exists ret, w3. split; [done|].
    by eapply work_keeps_trans.
  - by exists (bus_ret s'), w1.
Qed.

(** ** Around the work: power save *)

Lemma elp_sleep_keeps wl : work_inv wl -> work_keeps wl (wl1271_ps_elp_sleep wl).
Proof.
  intros W. unfold wl1271_ps_elp_sleep. assert (work_keeps wl wl) as K by (by apply view_keeps).
  split_if; [done|]. split_if; [done|]. cbv zeta. set (w := set_flag _ wl).
  assert (same_view wl w) as V by (by apply set_flag_view).
  split_if; apply view_keeps; try done. etrans; [exact V | by split].
Qed.

Lemma elp_wakeup_keeps c wl : work_inv wl -> work_keeps wl (snd (wl1271_ps_elp_wakeup c wl)).
Proof.
  intros W. unfold wl1271_ps_elp_wakeup. split_if; [by apply view_keeps|]. cbv zeta.
  set (w1 := (clear_flag _ wl) <| elp_work_queued := false |>).
  assert (work_keeps wl w1) as K1.
  { apply view_keeps; try done. etrans; [by apply (clear_flag_view WL1271_FLAG_ELP_REQUESTED) | by split]. }
  clearbody w1. split_if; [exact K1|].
  pose proof (raw_write32_io_frame HW_ACCESS_ELP_CTRL_REG ELPCTRL_WAKE_UP w1) as F.
  destruct (wlcore_raw_write32 _ _ w1) as [ret w2]. simpl in F.
  assert (work_keeps wl w2) as K2
    by (eapply work_keeps_trans; [exact K1 | apply io_keeps; [apply K1 | exact F]]).
  assert (work_keeps wl (wl12xx_queue_recovery_work w2)) as K3
    by (eapply work_keeps_trans; [exact K2 | apply io_keeps; [apply K2 | apply queue_recovery_io_frame]]).
  split_if; [exact K3|]. split_if; [exact K3|]. split_if; [exact K2|]. simpl.
  eapply work_keeps_trans; [exact K2|]. apply view_keeps; try done; [apply K2|].
  by apply clear_flag_view.
Qed.

Lemma elp_wakeup_backlog c wl : backlog (snd (wl1271_ps_elp_wakeup c wl)) = backlog wl.
Proof.
  unfold wl1271_ps_elp_wakeup. split_if; [done|]. cbv zeta.
  set (w1 := (clear_flag _ wl) <| elp_work_queued := false |>).
  change (backlog wl) with (backlog w1). clearbody w1. split_if; [done|].
  pose proof (raw_write32_io_frame HW_ACCESS_ELP_CTRL_REG ELPCTRL_WAKE_UP w1) as F.
  destruct (wlcore_raw_write32 _ _ w1) as [ret w2]. simpl in F.
  apply io_frame_view, same_view_backlog in F.
  pose proof (same_view_backlog _ _ (io_frame_view _ _ (queue_recovery_io_frame w2))) as R.
  repeat (split_if; [simpl; congruence|]). simpl. by rewrite <- F.
Qed.

Lemma tx_work_keeps fuel c wl :
  work_inv wl -> 2 * backlog wl + 1 < Z.of_nat fuel ->
  exists wl', wl1271_tx_work fuel c wl = Ret wl' /\ work_keeps wl wl'.
Proof.
  intros W Hf. unfold wl1271_tx_work. pose proof (elp_wakeup_keeps c wl W) as K.
  pose proof (elp_wakeup_backlog c wl) as B.
  destruct (wl1271_ps_elp_wakeup c wl) as [ret w1]. simpl in K, B.
  split_if; [by exists w1|].
  destruct (tx_work_locked_keeps fuel w1 (wk_inv _ _ K)) as (r2 & w2 & -> & K2); [lia|].
  assert (work_keeps wl w2) as K' by (by eapply work_keeps_trans).
  split_if; eexists; (split; [reflexivity|]); (eapply work_keeps_trans; [exact K'|]).
  - apply io_keeps; [apply K' | apply queue_recovery_io_frame].
  - apply elp_sleep_keeps, K'.
Qed.

End TxWork.
