(* ===== verification/TxDone.v ===== *)
(** * Completions, reset and flush (wlcore/tx.c, end; main.c deferred work)

    Frames come back from the firmware by identifier, lose their private
    header and are handed to mac80211 through the deferred queue.  [None] is a
    NULL dereference in C. *)

From S2P Require Import Prelude Ieee80211 WlState ChipOps Io Queues LinkQueues.
From S2P Require Import PowerSave TxPath TxSched.

(** ** Entry points that queue work *)

(** [wl1271_tx_dummy_packet] *)
Definition wl1271_tx_dummy_packet `{wlcore_ops} (fuel : nat) (wl : wl1271)
    : outcome (Z * wl1271) :=
  if flag wl WL1271_FLAG_DUMMY_PACKET_PENDING then Ret (0, wl)
  else
    let q := wl1271_tx_get_queue (skb_queue_mapping (skb_at wl (dummy_packet (hw wl)))) in
    let wl := add_queue_count q 1 (set_flag WL1271_FLAG_DUMMY_PACKET_PENDING wl) in
    if negb (flag wl WL1271_FLAG_FW_TX_BUSY) then wlcore_tx_work_locked fuel wl
    else Ret (0, wl).

Definition TOTAL_TX_DUMMY_PACKET_SIZE := ALIGN 1400 512.
Definition WL1271_TID_MGMT := 7.
Definition HDR_3ADDR_SIZE := 24.

(** [wl12xx_alloc_dummy_packet]: a data null-function frame of zeros. *)
Definition wl12xx_alloc_dummy_packet : sk_buff :=
  let dummy_packet_size := TOTAL_TX_DUMMY_PACKET_SIZE - TX_DESC_SIZE - HDR_3ADDR_SIZE in
  let fc := Z.lor IEEE80211_FTYPE_DATA (Z.lor IEEE80211_STYPE_NULLFUNC IEEE80211_FCTL_TODS) in
  {| skb_data := le_bytes 2 fc ++ replicate (Z.to_nat (HDR_3ADDR_SIZE - 2)) 0
                 ++ replicate (Z.to_nat dummy_packet_size) 0;
     skb_headroom := replicate (Z.to_nat TX_DESC_SIZE) 0;
     skb_queue_mapping := 0;
     skb_priority := WL1271_TID_MGMT;
     skb_protocol := 0;
     skb_csum_partial := false;
     skb_network_offset := 0;
     skb_mac_offset := 0;
     skb_cb := tx_info0 |}.

(** ** Completion of one frame *)

Definition IEEE80211_TX_RC_MCS := BIT 3.
Definition IEEE80211_TX_RC_SHORT_GI := BIT 7.

Definition TX_SUCCESS := 0.
Definition TX_RETRY_EXCEEDED := 3.

(** [struct wl1271_tx_hw_res_descr], the fields that are read. *)
Record tx_hw_res_descr := {
  r_id : Z;
  r_status : Z;
  r_seq_lsb : Z;
  r_ack_failures : Z;
  r_rate_class_index : Z
}.

Definition decode_res (b : list Z) : tx_hw_res_descr :=
  Build_tx_hw_res_descr (byte_at b 0) (byte_at b 1) (byte_at b 12) (byte_at b 13) (byte_at b 14).

Definition wlcore_rate_to_idx (wl : wl1271) (rate : Z) (band : ieee80211_band) : Z :=
  if hw_tx_rate_tbl_size (hw wl) <=? rate then 0
  else
    let idx := zget 0 (band_rate_to_idx (hw wl) band) rate in
    if idx =? CONF_HW_RXTX_RATE_UNSUPPORTED then 0 else idx.

Definition wl1271_tx_get_rate_flags (rate_class_index : Z) : Z :=
  let flags := if rate_class_index <=? 8 then IEEE80211_TX_RC_MCS else 0 in
  if rate_class_index =? 0 then Z.lor flags IEEE80211_TX_RC_SHORT_GI else flags.

(** [memmove(data + 4, data, hdrlen)] *)
Definition unshift_header (hdrlen : Z) (data : list Z) : list Z :=
  let e := Z.to_nat WL1271_EXTRA_SPACE_TKIP in
  take e data ++ take (Z.to_nat hdrlen) data ++ drop (e + Z.to_nat hdrlen) data.

(** Strip the hardware descriptor and the TKIP header space. *)
Definition remove_private_header (wl : wl1271) (s : sk_buff) : sk_buff :=
  let s := skb_pull TX_DESC_SIZE s in
  match control_hw_key (skb_cb s) with
  | Some k =>
      if has_quirk wl WLCORE_QUIRK_TKIP_HEADER_SPACE && (cipher k =? WLAN_CIPHER_SUITE_TKIP)
      then
        let hdrlen := ieee80211_get_hdrlen_from_skb (skb_data s) in
        skb_pull WL1271_EXTRA_SPACE_TKIP (s <| skb_data ::= unshift_header hdrlen |>)
      else s
  | None => s
  end.

(** Hand a completed buffer to the deferred work and free its identifier. *)
Definition return_frame (id : Z) (skb : nat) (wl : wl1271) : wl1271 :=
  let wl := wl <| deferred_tx_queue ::= fun l => l ++ [skb] |> in
  wl1271_free_tx_id id (emit EvQueueNetstackWork wl).

(** Ciphers whose sequence number the driver tracks. *)
Definition tracks_seq (k : key_conf) : bool :=
  (cipher k =? WLAN_CIPHER_SUITE_TKIP) || (cipher k =? WLAN_CIPHER_SUITE_CCMP)
  || (cipher k =? WL1271_CIPHER_SUITE_GEM).

Definition wl1271_tx_complete_packet (result : tx_hw_res_descr) (wl : wl1271) : option wl1271 :=
  let id := r_id result in
  if num_tx_desc (hw wl) <=? id then Some wl
  else
    match zget None (tx_frames wl) id with
    | None => Some wl
    | Some skb =>
        if wl12xx_is_dummy_packet wl skb then Some (wl1271_free_tx_id id wl)
        else
          let info := skb_cb (skb_at wl skb) in
          let success := r_status result =? TX_SUCCESS in
          let exceeded := r_status result =? TX_RETRY_EXCEEDED in
          let track := match control_hw_key info with
                       | Some k => tracks_seq k
                       | None => false
                       end in
          if (success || track) && bool_decide (control_vif info = None) then None
          else
            let v := default 0%nat (control_vif info) in
            let rate := if success
                        then wlcore_rate_to_idx wl (r_rate_class_index result)
                               (vif_band (vif_at wl v))
                        else -1 in
            let rate_flags := if success
                              then wl1271_tx_get_rate_flags (r_rate_class_index result) else 0 in
            let retries := if success || exceeded then r_ack_failures result else 0 in
            let wl := wl <| excessive_retries ::= fun n =>
                              if negb success && exceeded then u32 (n + 1) else n |> in
            let wl := upd_skb skb (fun s => s <| skb_cb ::= fun i =>
              i <| info_flags ::= fun f =>
                     if success && negb (has f IEEE80211_TX_CTL_NO_ACK)
                     then Z.lor f IEEE80211_TX_STAT_ACK else f |>
                <| status_rate_idx := s8 rate |> <| status_rate_count := retries |>
                <| status_rate_flags := rate_flags |> <| status_ack_signal := -1 |> |>) wl in
            let wl := wl <| retry_count ::= fun n => u32 (n + r_ack_failures result) |> in
            let wl :=
              if track then
                upd_vif v (fun w =>
                  w <| tx_security_seq ::= fun n =>
                         u64 (n + Z.land (r_seq_lsb result - tx_security_last_seq_lsb w) 0xff) |>
                    <| tx_security_last_seq_lsb := r_seq_lsb result |>) wl
              else wl in
            Some (return_frame id skb (upd_skb skb (remove_private_header wl) wl))
    end.

(** ** The result ring *)

Definition TX_HW_RESULT_QUEUE_LEN := 16.
Definition TX_HW_RESULT_QUEUE_LEN_MASK := 0xf.
Definition TX_RES_DESCR_SIZE := 16.
Definition TX_RES_IF_SIZE := 8 + TX_HW_RESULT_QUEUE_LEN * TX_RES_DESCR_SIZE.

(** [tx_results_queue[offset]] of the structure just read. *)
Definition result_at (res_if : list Z) (offset : Z) : tx_hw_res_descr :=
  decode_res (drop (Z.to_nat (8 + TX_RES_DESCR_SIZE * offset)) res_if).

(** One iteration of the processing loop. *)
Definition tx_complete_one (res_if : list Z) (w : option wl1271) : option wl1271 :=
  match w with
  | None => None
  | Some wl =>
      let offset := Z.land (tx_results_count wl) TX_HW_RESULT_QUEUE_LEN_MASK in
      match wl1271_tx_complete_packet (result_at res_if offset) wl with
      | None => None
      | Some wl => Some (wl <| tx_results_count ::= fun n => u32 (n + 1) |>)
      end
  end.

Definition wlcore_tx_complete (wl : wl1271) : option (Z * wl1271) :=
  let '(ret, res_if, wl) := wlcore_read (tx_result_addr (hw wl)) TX_RES_IF_SIZE wl in
  if ret <? 0 then Some (ret, wl)
  else
    let fw_counter := u32 (le_value (take 4 res_if)) in
    let '(ret, wl) := wlcore_write32 (tx_result_addr (hw wl) + 4) fw_counter wl in
    if ret <? 0 then Some (ret, wl)
    else
      let count := u32 (fw_counter - tx_results_count wl) in
      match for_range count (fun _ => tx_complete_one res_if) (Some wl) with
      | None => None
      | Some wl => Some (ret, wl)
      end.

(** ** Deferred work (main.c) *)

Definition wl1271_flush_deferred_work (wl : wl1271) : wl1271 :=
  let wl := fold_left (fun wl f =>
              emit (EvRx f) (wl <| deferred_rx_queue ::= tail |>)) (deferred_rx_queue wl) wl in
  fold_left (fun wl skb =>
    emit (EvTxStatus skb) (wl <| deferred_tx_queue ::= tail |>)) (deferred_tx_queue wl) wl.

(** [wl1271_netstack_work]: the queue it tests is empty after one round. *)
Definition wl1271_netstack_work (wl : wl1271) : wl1271 :=
  let wl := wl1271_flush_deferred_work wl in
  match deferred_rx_queue wl with
  | [] => wl
  | _ :: _ => wl1271_flush_deferred_work wl
  end.

(** ** Reset *)

Definition tx_reset_frame (i : Z) (wl : wl1271) : wl1271 :=
  match zget None (tx_frames wl) i with
  | None => wl
  | Some skb =>
      let wl := wl1271_free_tx_id i wl in
      if wl12xx_is_dummy_packet wl skb then wl
      else
        emit (EvTxStatus skb)
          (upd_skb skb (fun s => (remove_private_header wl s) <| skb_cb ::= fun i =>
             i <| status_rate_idx := -1 |> <| status_rate_count := 0 |> |>) wl)
  end.

Definition wl12xx_tx_reset (wl : wl1271) : wl1271 :=
  let wl :=
    if negb (wl1271_tx_total_queue_count wl =? 0) then
      let wl := for_range WL12XX_MAX_LINKS wl1271_tx_reset_link_queues wl in
      for_range NUM_TX_QUEUES (fun i wl => wl <| tx_queue_count ::= fun l => zset l i 0 |>) wl
    else wl in
  let wl := wl1271_handle_tx_low_watermark wl in
  for_range (num_tx_desc (hw wl)) tx_reset_frame wl.

(** ** Flush *)

(** The flush loop.  Each element of [rounds] is one pass before the deadline:
    the answer to the ELP wait of the transmit work it runs, and what the rest
    of the driver does while the flusher sleeps without the mutex. *)
Fixpoint tx_flush_loop `{wlcore_ops} (fuel : nat) (rounds : list (Z * (wl1271 -> wl1271)))
    (wl : wl1271) : outcome (bool * wl1271) :=
  match rounds with
  | [] => Ret (false, wl)
  | (completed, env) :: rounds =>
      match (if negb (wl1271_tx_total_queue_count wl =? 0)
             then wl1271_tx_work fuel completed wl else Ret wl) with
      | Ret wl =>
          let wl := env wl in
          if (tx_frames_cnt wl =? 0) && (wl1271_tx_total_queue_count wl =? 0)
          then Ret (true, wl) else tx_flush_loop fuel rounds wl
      | Oops => Oops
      | OutOfFuel => OutOfFuel
      end
  end.

Definition wl1271_tx_flush `{wlcore_ops} (fuel : nat) (rounds : list (Z * (wl1271 -> wl1271)))
    (wl : wl1271) : outcome wl1271 :=
  if (tx_frames_cnt wl =? 0) && (wl1271_tx_total_queue_count wl =? 0) then Ret wl
  else
    let wl := wlcore_stop_queues WLCORE_QUEUE_STOP_REASON_FLUSH wl in
    match tx_flush_loop fuel rounds wl with
    | Ret (flushed, wl) =>
        let wl := if flushed then wl
                  else for_range WL12XX_MAX_LINKS wl1271_tx_reset_link_queues wl in
        Ret (wlcore_wake_queues WLCORE_QUEUE_STOP_REASON_FLUSH wl)
    | Oops => Oops
    | OutOfFuel => OutOfFuel
    end.
