(* ===== verification/TxDoneFacts.v ===== *)
(** * Completions: the header round trip, conservation, reset and flush *)

From S2P Require Import Prelude Ieee80211 WlState ChipOps Io Queues LinkQueues.
From S2P Require Import PowerSave TxPath TxAllocFacts TxSched TxInv SchedFacts TxMoves.
From S2P Require Import TxPrep TxWork TxDone.

(** ** The private header round trip *)

(** The bytes [wl1271_tx_allocate] and [wl1271_tx_fill_hdr] leave in a buffer,
    for descriptor contents [f] and [g]. *)
Definition private_bytes (f g : tx_hw_descr -> tx_hw_descr) (extra : Z) (s : sk_buff) : list Z :=
  let pushed := skb_data (skb_push (TX_DESC_SIZE + extra) s) in
  let d := with_desc f pushed in
  with_desc g (if negb (extra =? 0) then relocate_header extra d else d).

Lemma drop_desc_private f g extra s : 0 <= extra ->
  drop (Z.to_nat TX_DESC_SIZE) (private_bytes f g extra s)
  = drop (Z.to_nat TX_DESC_SIZE)
      (if negb (extra =? 0) then relocate_header extra (with_desc f (skb_data (skb_push (TX_DESC_SIZE + extra) s)))
       else with_desc f (skb_data (skb_push (TX_DESC_SIZE + extra) s))).
Proof. intros He. unfold private_bytes. apply drop_with_desc. Qed.

(** Behind the descriptor and the space lies the original frame. *)
Lemma drop_pushed f extra s : 0 <= extra ->
  drop (Z.to_nat TX_DESC_SIZE + Z.to_nat extra)
    (with_desc f (skb_data (skb_push (TX_DESC_SIZE + extra) s))) = skb_data s.
Proof.
  intros He. rewrite <- drop_drop, drop_with_desc, drop_drop.
  rewrite <- (skb_push_data (TX_DESC_SIZE + extra) s) by (unfold TX_DESC_SIZE; lia).
  f_equal. unfold TX_DESC_SIZE. lia.
Qed.

Lemma length_private f g extra s : 0 <= extra ->
  ieee80211_hdrlen (frame_control (skb_data s)) <= skb_len s ->
  zlen (private_bytes f g extra s) = TX_DESC_SIZE + extra + skb_len s.
Proof.
  intros He Hh. pose proof (skb_push_len (TX_DESC_SIZE + extra) s) as PL.
  specialize (PL ltac:(unfold TX_DESC_SIZE; lia)). unfold skb_len at 1 in PL.
  pose proof (zlen_nonneg (skb_data s)) as Hn. fold (skb_len s) in Hn.
  pose proof (drop_pushed f extra s He) as Dp.
  pose proof (ieee80211_hdrlen_bounds (frame_control (skb_data s))) as Hb.
  unfold private_bytes. set (p := skb_data (skb_push _ s)) in *. cbv zeta.
  assert (zlen (with_desc f p) = TX_DESC_SIZE + extra + skb_len s) as L1.
  { unfold zlen in *. rewrite length_with_desc; unfold TX_DESC_SIZE in *; lia. }
  assert (zlen (if negb (extra =? 0) then relocate_header extra (with_desc f p) else with_desc f p)
          = TX_DESC_SIZE + extra + skb_len s) as L2.
  { split_if; [|done]. unfold relocate_header. rewrite Dp. unfold zlen, skb_len in *.
    rewrite !length_app, !length_take, !length_drop. unfold TX_DESC_SIZE, zlen in *. lia. }
  unfold zlen in *. rewrite length_with_desc; unfold TX_DESC_SIZE in *; lia.
Qed.

Lemma take_drop_app {A} (l : list A) n : take n l ++ drop n l = l.
Proof. apply take_drop. Qed.

(** Moving the header down and back up again restores the frame. *)
Lemma unshift_relocated frame space :
  length space = 4%nat -> ieee80211_hdrlen (frame_control frame) <= zlen frame ->
  let h := Z.to_nat (ieee80211_hdrlen (frame_control frame)) in
  let moved := take h frame ++ drop h (space ++ frame) in
  drop 4 (unshift_header (ieee80211_hdrlen (frame_control frame)) moved) = frame /\
  frame_control moved = frame_control frame /\ zlen moved = zlen frame + 4.
Proof.
  intros Hs Hh. cbv zeta. pose proof (ieee80211_hdrlen_bounds (frame_control frame)) as Hb.
  set (hz := ieee80211_hdrlen _) in *. set (h := Z.to_nat hz).
  unfold zlen in *. assert (length (take h frame) = h) as Lt by (rewrite length_take; lia).
  assert (drop h (space ++ frame) = drop h space ++ drop (h - 4) frame) as Ed
    by (rewrite drop_app, Hs; done).
  split_and!.
  - unfold unshift_header, WL1271_EXTRA_SPACE_TKIP. fold h. change (Z.to_nat 4) with 4%nat.
    set (moved := take h frame ++ drop h (space ++ frame)).
    assert (length (take 4 moved) = 4%nat) as L4.
    { rewrite length_take. unfold moved. rewrite length_app, Lt. lia. }
    rewrite drop_app_length' by done. unfold moved.
    rewrite take_app_length' by done.
    rewrite drop_app, Lt, (drop_ge (take h frame)) by lia. simpl app.
    rewrite drop_drop, drop_app, Hs, (drop_ge space) by lia. simpl app.
    etrans; [|apply (take_drop h)]. do 2 f_equal. lia.
  - unfold frame_control, le16_at, byte_at, zget. simpl.
    change (Pos.to_nat 1) with 1%nat.
    destruct frame as [|a [|b fr]]; simpl in Hh; [lia | lia |].
    destruct h as [|[|h']] eqn:E; [lia | lia | done].
  - rewrite length_app, Lt, length_drop, length_app. lia.
Qed.

Lemma remove_private_bytes wl f g s s' :
  ieee80211_hdrlen (frame_control (skb_data s)) <= skb_len s ->
  control_hw_key (skb_cb s') = control_hw_key (skb_cb s) ->
  skb_data s' = private_bytes f g (tx_extra wl (control_hw_key (skb_cb s))) s ->
  skb_data (remove_private_header wl s') = skb_data s.
Proof.
  intros Hh Hk Hd. pose proof (tx_extra_range wl (control_hw_key (skb_cb s))) as Hx.
  pose proof (length_private f g _ s (proj1 Hx) Hh) as L.
  pose proof (drop_desc_private f g _ s (proj1 Hx)) as D.
  pose proof (drop_pushed f _ s (proj1 Hx)) as Dp.
  pose proof (ieee80211_hdrlen_bounds (frame_control (skb_data s))) as Hb.
  set (extra := tx_extra wl _) in *.
  assert (skb_data (skb_pull TX_DESC_SIZE s') = drop (Z.to_nat TX_DESC_SIZE) (skb_data s') /\
          skb_cb (skb_pull TX_DESC_SIZE s') = skb_cb s') as [P1 P2].
  { unfold skb_pull, skb_len. rewrite Hd, L. destruct (_ <? TX_DESC_SIZE) eqn:E; bool_to_prop; [lia|].
    simpl. by rewrite Hd. }
  unfold remove_private_header. set (t := skb_pull TX_DESC_SIZE s') in *. clearbody t. cbv zeta.
  rewrite P2, Hk. rewrite Hd, D in P1. clear D.
  unfold extra, tx_extra in P1, Dp. unfold tx_extra in extra.
  destruct (control_hw_key (skb_cb s)) as [k|]; cbv beta iota in P1;
    [destruct (has_quirk wl WLCORE_QUIRK_TKIP_HEADER_SPACE && (cipher k =? WLAN_CIPHER_SUITE_TKIP))|].
  2: { change (negb (0 =? 0)) with false in P1. rewrite P1. rewrite Nat.add_0_r in Dp. exact Dp. }
  2: { change (negb (0 =? 0)) with false in P1. rewrite P1. rewrite Nat.add_0_r in Dp. exact Dp. }
  change (negb (WL1271_EXTRA_SPACE_TKIP =? 0)) with true in P1. cbv iota in P1.
  set (p := with_desc f (skb_data (skb_push _ s))) in *.
  change (Z.to_nat WL1271_EXTRA_SPACE_TKIP) with 4%nat in Dp.
  assert (16 + 4 <= length p)%nat as Lp.
  { destruct (decide (16 + 4 <= length p)%nat) as [|Hlt]; [done|].
    rewrite drop_ge in Dp by (change (Z.to_nat TX_DESC_SIZE) with 16%nat; lia).
    assert (skb_len s = 0) by (unfold skb_len; by rewrite <- Dp). lia. }
  set (space := take 4 (drop 16 p)).
  assert (length space = 4%nat) as Ls by (unfold space; rewrite length_take, length_drop; lia).
  assert (drop 16 p = space ++ skb_data s) as E16.
  { rewrite <- Dp. unfold space. change (Z.to_nat TX_DESC_SIZE) with 16%nat.
    rewrite <- drop_drop. by rewrite take_drop. }
  destruct (unshift_relocated (skb_data s) space Ls Hh) as (U1 & U2 & U3). cbv zeta in U1, U2, U3.
  set (h := Z.to_nat (ieee80211_hdrlen (frame_control (skb_data s)))) in *.
  assert (skb_data t = take h (skb_data s) ++ drop h (space ++ skb_data s)) as Et.
  { rewrite P1. unfold relocate_header. change (Z.to_nat TX_DESC_SIZE) with 16%nat.
    change (Z.to_nat WL1271_EXTRA_SPACE_TKIP) with 4%nat.
    change (Z.to_nat TX_DESC_SIZE) with 16%nat in Dp. rewrite Dp. fold h.
    rewrite drop_app_length' by (rewrite length_take; lia). f_equal.
    by rewrite <- drop_drop, E16. }
  rewrite Et. assert (ieee80211_get_hdrlen_from_skb
    (take h (skb_data s) ++ drop h (space ++ skb_data s)) = ieee80211_hdrlen (frame_control (skb_data s))) as ->.
  { unfold ieee80211_get_hdrlen_from_skb. rewrite U2, U3. unfold skb_len in Hh.
    repeat split_if; bool_to_prop; lia. }
  unfold skb_pull, skb_len. simpl. rewrite Et.
  destruct (_ <? _) eqn:E; bool_to_prop; [exfalso|simpl; rewrite Et; exact U1].
  assert (zlen (unshift_header (ieee80211_hdrlen (frame_control (skb_data s)))
    (take h (skb_data s) ++ drop h (space ++ skb_data s))) >= 4); [|unfold WL1271_EXTRA_SPACE_TKIP in E; lia].
  apply (f_equal length) in U1. rewrite length_drop in U1. unfold zlen, skb_len, zlen in *. lia.
Qed.

Section Roundtrip.
Context `{laws : wlcore_ops_laws}.

(** Before it is copied, a prepared frame has the private header on. *)
Lemma prepared_private wlvif skb off hlid wl ret wl' is_gem w1 id w4 :
  prepared wlvif skb off hlid ret wl wl' is_gem w1 id w4 ->
  is_Some (skbs wl !! skb) -> skb_len (skb_at wl skb) <= 65536 ->
  let key := control_hw_key (skb_cb (skb_at wl skb)) in
  hw w4 = hw wl /\ control_hw_key (skb_cb (skb_at w4 skb)) = key /\
  exists f g, skb_data (skb_at w4 skb) = private_bytes f g (tx_extra wl key) (skb_at wl skb).
Proof.
  intros [V K1 K2 K3 Hid Hfr Hb tl Hfit w3 (P4 & B4 & HW4 & F4) Er Ew] Hs Hlen. cbv zeta.
  set (key := control_hw_key (skb_cb (skb_at wl skb))) in *.
  pose proof (tx_extra_range wl key) as Hex. set (extra := tx_extra wl key) in *.
  assert (0 <= skb_len (skb_at wl skb)) as Hn by apply zlen_nonneg.
  assert (tl = skb_len (skb_at wl skb) + TX_DESC_SIZE + extra) as Etl
    by (unfold tl; apply u32_id; unfold TX_DESC_SIZE; lia).
  destruct (granted_skbs wlvif skb tl hlid id is_gem w1) as (F & EF & _).
  destruct (granted_buf wlvif skb tl hlid id is_gem w1) as [_ HW2].
  set (w2 := granted wlvif skb tl hlid id is_gem w1) in *.
  assert (is_Some (skbs w2 !! skb)) as S2 by (by rewrite EF, !lookup_alter_eq, !fmap_is_Some, K1).
  assert (skb_at w2 skb = (skb_push (TX_DESC_SIZE + extra) (skb_at wl skb)) <| skb_data ::= with_desc F |>) as E2.
  { unfold skb_at at 1. rewrite EF, lookup_total_alt, !lookup_alter_eq, K1.
    destruct Hs as [b Hb']. unfold skb_at. rewrite K1, lookup_total_alt, Hb'. simpl.
    unfold skb_at in Etl. rewrite lookup_total_alt, Hb' in Etl. simpl in Etl.
    do 2 f_equal. lia. }
  clearbody w2. destruct (fill_hdr_data wlvif skb extra hlid w2 S2) as (S3 & _ & HW3 & G & EG & _).
  cbv zeta in EG. fold w3 in EG, HW3, S3.
  assert (control_hw_key (skb_cb (skb_at w3 skb)) = key) as Ek.
  { unfold w3, wl1271_tx_fill_hdr. cbv zeta.
    set (u1 := if negb (extra =? 0) then _ else w2).
    assert (is_Some (skbs u1 !! skb) /\ skb_cb (skb_at u1 skb) = skb_cb (skb_at w2 skb)) as [U1 U2].
    { unfold u1. split_if; [|done]. split; [by apply upd_skb_is_Some | by rewrite skb_at_upd_same]. }
    assert (skbs (snd (getnstimeofday u1)) = skbs u1) as T
      by (unfold getnstimeofday; by destruct (clock u1)).
    destruct (getnstimeofday u1) as [ns u2]. simpl in T.
    rewrite skb_at_upd_same by (by rewrite T). simpl.
    transitivity (control_hw_key (skb_cb (skb_at u1 skb))); [unfold skb_at; by rewrite T|].
    by rewrite U2, E2. }
  destruct (P4 skb) as (_ & i & E4 & _ & C4).
  split_and!; [congruence | rewrite E4; simpl; by rewrite C4, Ek |].
  exists F, G. rewrite E4. simpl. rewrite EG, E2. reflexivity.
Qed.

(** What the firmware gives back is what mac80211 gave: stripping the private
    header of a prepared frame yields its original bytes. *)
Lemma prepare_strip wlvif skb off hlid wl ret wl' :
  tx_inv wl -> is_Some (skbs wl !! skb) -> wl12xx_is_dummy_packet wl skb = false ->
  skb_len (skb_at wl skb) <= 65536 ->
  ieee80211_hdrlen (frame_control (skb_data (skb_at wl skb))) <= skb_len (skb_at wl skb) ->
  wl1271_prepare_tx_frame wlvif skb off hlid wl = Some (ret, wl') -> 0 <= ret ->
  skb_data (remove_private_header wl' (skb_at wl' skb)) = skb_data (skb_at wl skb).
Proof.
  intros H Hs Hd Hlen Hh Hp Hret.
  destruct (prepare_success _ _ _ _ _ _ _ H Hp Hret) as (is_gem & w1 & id & w4 & P).
  destruct (prepared_private _ _ _ _ _ _ _ _ _ _ _ P Hs Hlen) as (HW & Ek & f & g & Ed).
  pose proof (pr_end _ _ _ _ _ _ _ _ _ _ _ P) as Ew. unfold copied in Ew. rewrite Hd in Ew.
  assert (skb_at wl' skb = skb_at w4 skb) as -> by by rewrite Ew.
  apply (remove_private_bytes _ f g); [done | exact Ek |].
  rewrite Ed. f_equal. unfold tx_extra, has_quirk. rewrite Ew. cbn [hw]. by rewrite <- HW.
Qed.

End Roundtrip.

(** ** Completing frames *)

Section Done.
Context `{laws : wlcore_ops_laws}.

(** A transmit step that leaves the buffers alone. *)
Lemma moves_work d wl wl' :
  work_inv wl -> tx_moves d wl wl' -> skbs wl' = skbs wl ->
  zlen (aggr_buf wl') = zlen (aggr_buf wl) ->
  (forall s, s <> dummy_packet (hw wl) -> copies s wl + d s <= 1) ->
  (forall id skb, frame_at wl' id = Some skb -> frame_at wl id = Some skb) -> work_inv wl'.
Proof.
  intros [H1 H2 H3 H4 H6 H7 H8 H9] M Es Eb Hd Hf. pose proof (mv_hw _ _ _ M) as Eh.
  split; rewrite ?Eh; try done; [apply M | | | | |].
  - intros s Hs. rewrite (mv_copies _ _ _ M) by done. by apply Hd.
  - by apply (fits_skbs wl).
  - intros h q s Hh Hq Hin. apply (fits_skbs wl); try done. eapply H4; [done..|].
    by eapply (mv_sub _ _ _ M).
  - congruence.
  - apply (fw_vifs_frame wl); try done. intros s. unfold skb_at. by rewrite Es.
Qed.

Lemma free_tx_id_bufs id wl :
  skbs (wl1271_free_tx_id id wl) = skbs wl /\ aggr_buf (wl1271_free_tx_id id wl) = aggr_buf wl /\
  hw (wl1271_free_tx_id id wl) = hw wl.
Proof. destruct (free_tx_id_frame id wl) as (? & ? & ? & ? & -> & _). done. Qed.

Lemma free_tx_id_frames id wl : ids_ok wl -> forall j x,
  frame_at (wl1271_free_tx_id id wl) j = Some x -> frame_at wl j = Some x.
Proof.
  intros H j x. destruct (free_tx_id_spec id wl H) as (_ & F1 & F2 & _).
  destruct (decide (j = id)) as [->|]; [by rewrite F1 | by rewrite F2].
Qed.

(** A frame in the firmware is in no queue. *)
Lemma in_firmware_not_queued wl id skb h q :
  work_inv wl -> frame_at wl id = Some skb -> is_link h -> is_queue q ->
  skb ∉ link_queue wl h q.
Proof.
  intros W Hf Hh Hq Hin. pose proof (inv_counts _ (wi_inv _ W)) as Hc.
  destruct (co_placed _ _ Hc h q skb Hq Hin) as [_ Hnd].
  pose proof (wi_unique _ W skb Hnd) as U.
  pose proof (in_firmware_pos wl id skb Hf). pose proof (queued_links_pos wl h q skb Hc Hh Hq Hin).
  pose proof (released_nonneg skb (log wl)). pose proof (occ_nonneg skb (deferred_tx_queue wl)).
  unfold copies in U. lia.
Qed.

(** Editing a buffer that is not queued. *)
Lemma upd_skb_keeps skb f wl :
  work_inv wl -> keeps_route f -> skb <> dummy_packet (hw wl) ->
  (forall h q, is_link h -> is_queue q -> skb ∉ link_queue wl h q) ->
  work_keeps wl (upd_skb skb f wl).
Proof.
  intros W Hf Hnd Hnq. pose proof (upd_skb_view skb f wl Hf) as V.
  pose proof W as [H1 H2 H3 H4 H6 H7 H8 H9].
  split; [|done|intros s _; by apply same_view_copies | done | by apply view_vifs | done].
  split; try done.
  - apply (mv_inv none_moved wl). by apply view_moves.
  - apply (fits_frame wl); [done | by apply upd_skb_payload, not_eq_sym | done].
  - intros h q s Hh Hq Hin. rewrite (same_view_queue _ _ _ _ V) in Hin.
    apply (fits_frame wl); [done | | by eapply H4]. apply upd_skb_payload.
    intros ->. by apply (Hnq h q).
  - apply (fw_vifs_frame wl); [done | done | apply V | done].
Qed.

Lemma remove_private_route wl : keeps_route (remove_private_header wl).
Proof.
  intros x. unfold remove_private_header. cbv zeta.
  destruct (skb_pull_route TX_DESC_SIZE x) as [R1 R2].
  destruct (control_hw_key _); [|done]. split_if; [|done].
  match goal with |- context [skb_pull ?n ?y] => destruct (skb_pull_route n y) as [R3 R4] end.
  by rewrite R3, R4.
Qed.

(** Moving a frame from the firmware's table to the deferred list. *)
Lemma return_frame_keeps id skb wl :
  work_inv wl -> frame_at wl id = Some skb -> skb <> dummy_packet (hw wl) ->
  work_keeps wl (return_frame id skb wl).
Proof.
  intros W Hf Hnd. unfold return_frame.
  set (w1 := emit EvQueueNetstackWork (wl <| deferred_tx_queue ::= fun l => l ++ [skb] |>)).
  pose proof W as [H1 H2 H3 H4 H6 H7 H8 H9].
  assert (forall s, copies s w1 = copies s wl + is_skb s skb) as C1.
  { intros s. unfold w1. rewrite emit_copies. unfold copies. simpl. rewrite occ_app, occ_cons.
    change (occ s []) with 0. lia. }
  assert (tx_inv w1) as I1.
  { destruct H1 as [A1 A2 A3 A4 A5 A6]. split.
    - by apply (counts_off_frame _ wl).
    - by apply (queues_ok_frame wl).
    - by apply (ids_ok_frame wl).
    - by apply (vifs_ok_frame wl); try apply (vo_last _ A4).
    - done.
    - done. }
  pose proof (free_tx_id_moves id w1 I1) as M.
  destruct (free_tx_id_bufs id w1) as (B1 & B2 & B3).
  change (frame_at w1 id) with (frame_at wl id) in M. rewrite Hf in M. simpl in M.
  assert (forall s, s <> dummy_packet (hw wl) -> copies s (wl1271_free_tx_id id w1) = copies s wl) as Cp.
  { intros s Hs. rewrite (mv_copies _ _ _ M) by done. rewrite C1. lia. }
  assert (backlog (wl1271_free_tx_id id w1) <= backlog wl) as Bl
    by (apply (backlog_le w1); apply M).
  split; [|done|done|done|by destruct (mv_vifs _ _ _ M)|exact (mv_state _ _ _ M)].
  split; rewrite ?B3, ?B2; try done.
  - apply M.
  - intros s Hs. rewrite Cp by done. by apply H2.
  - by apply (fits_skbs wl).
  - intros h q s Hh Hq Hin. apply (fits_skbs wl); try done. eapply H4; [done..|].
    by eapply (mv_sub _ _ _ M) in Hin.
  - apply (fw_vifs_frame wl); [done | | | done].
    + intros j x Hj. by apply (free_tx_id_frames id w1 (inv_ids _ I1)) in Hj.
    + intros s. unfold skb_at. by rewrite B1.
Qed.

Lemma free_dummy_keeps id wl : work_inv wl -> frame_at wl id = Some (dummy_packet (hw wl)) ->
  work_keeps wl (wl1271_free_tx_id id wl).
Proof.
  intros W Hf. pose proof (free_tx_id_moves id wl (wi_inv _ W)) as M. rewrite Hf in M. simpl in M.
  destruct (free_tx_id_bufs id wl) as (B1 & B2 & B3).
  assert (forall s, s <> dummy_packet (hw wl) -> - is_skb s (dummy_packet (hw wl)) = 0) as Z0.
  { intros s Hs. unfold is_skb. by rewrite bool_decide_eq_false_2 by congruence. }
  split; [|apply M| |apply backlog_le; apply M|apply M|exact (mv_state _ _ _ M)].
  - eapply moves_work; [done | exact M | done | by rewrite B2 | |].
    + intros s Hs. cbv beta. rewrite (Z0 s Hs). pose proof (wi_unique _ W s Hs). lia.
    + intros j x. apply free_tx_id_frames, W.
  - intros s Hs. rewrite (mv_copies _ _ _ M) by done. rewrite (Z0 s Hs). lia.
Qed.

Lemma complete_packet_keeps r wl wl' :
  work_inv wl -> wl1271_tx_complete_packet r wl = Some wl' -> work_keeps wl wl'.
Proof.
  intros W. unfold wl1271_tx_complete_packet. cbv zeta.
  split_if; [intros [= <-]; by apply view_keeps|].
  destruct (zget None (tx_frames wl) (r_id r)) as [skb|] eqn:Ef;
    [|intros [= <-]; by apply view_keeps].
  unfold wl12xx_is_dummy_packet. destruct (Nat.eqb_spec (dummy_packet (hw wl)) skb) as [Ed|Ed].
  { intros [= <-]. apply free_dummy_keeps; [done|]. unfold frame_at. by rewrite Ef, Ed. }
  split_if; [done|]. intros [= <-].
  match goal with |- context [upd_skb skb ?f (wl <| excessive_retries ::= ?g |>)] =>
    set (w0 := wl <| excessive_retries ::= g |>); set (w1 := upd_skb skb f w0) end.
  assert (work_keeps wl w0) as K0 by (apply view_keeps; done || by split).
  assert (work_keeps wl w1) as K1.
  { eapply work_keeps_trans; [exact K0|].
    apply upd_skb_keeps; [apply K0 | by intros x | by apply not_eq_sym |].
    intros h q Hh Hq. by apply (in_firmware_not_queued wl (r_id r)). }
  set (v := default 0%nat _).
  match goal with |- context [if ?b then upd_vif v ?f ?w else ?w] =>
    set (w2 := if b then upd_vif v f w else w) end.
  assert (same_view w1 w2 /\ skbs w2 = skbs w1 /\ aggr_buf w2 = aggr_buf w1 /\ tx_frames w2 = tx_frames wl)
    as (V2 & S2 & B2 & F2).
  { unfold w2. set (w1' := w1 <| retry_count ::= _ |>).
    assert (same_view w1 w1') as V1 by (by split).
    destruct (match control_hw_key (skb_cb (skb_at wl skb)) with Some k => tracks_seq k | None => false end);
      split_and!; try done. etrans; [exact V1 | by apply upd_vif_view]. }
  assert (work_keeps wl w2) as K2
    by (eapply work_keeps_trans; [exact K1 | by apply view_keeps; try apply K1]).
  clearbody w2. pose proof (wk_hw _ _ K2) as Eh.
  assert (frame_at w2 (r_id r) = Some skb) as Ff by (unfold frame_at; by rewrite F2).
  assert (work_keeps wl (upd_skb skb (remove_private_header w2) w2)) as K3.
  { eapply work_keeps_trans; [exact K2|].
    apply upd_skb_keeps; [apply K2 | apply remove_private_route | rewrite Eh; by apply not_eq_sym |].
    intros h q Hh Hq. apply (in_firmware_not_queued w2 (r_id r)); try done. apply K2. }
  eapply work_keeps_trans; [exact K3|].
  apply return_frame_keeps; [apply K3 | exact Ff | rewrite (wk_hw _ _ K3); by apply not_eq_sym].
Qed.

(** ** Which frames go back *)

(** The frames the firmware returns when it names the identifiers [ids], in
    order: an identifier with no frame is ignored, the dummy packet does not go
    to mac80211, and an identifier named again has no frame any more. *)
Fixpoint returned (dummy : nat) (frames : Z -> option nat) (ids : list Z) : list nat :=
  match ids with
  | [] => []
  | id :: ids =>
      match frames id with
      | None => []
      | Some s => if bool_decide (s = dummy) then [] else [s]
      end ++ returned dummy (fun i => if bool_decide (i = id) then None else frames i) ids
  end.

(** [wl'] is [wl] after the completion of [ids]: their frames are on the way
    back to mac80211 and registered no longer, all others are in place. *)
Record completes_ids (ids : list Z) (wl wl' : wl1271) : Prop := {
  ci_queue : deferred_tx_queue wl'
    = deferred_tx_queue wl ++ returned (dummy_packet (hw wl)) (frame_at wl) ids;
  ci_frames i : frame_at wl' i = if bool_decide (i ∈ ids) then None else frame_at wl i
}.

Lemma returned_ext dummy ids : forall f g, (forall i, f i = g i) -> returned dummy f ids = returned dummy g ids.
Proof.
  induction ids as [|id ids IH]; intros f g H; [done|]. cbn [returned]. rewrite H. f_equal.
  apply IH. intros i. by rewrite H.
Qed.

Lemma returned_snoc dummy id ids : forall f,
  returned dummy f (ids ++ [id]) =
    returned dummy f ids ++ returned dummy (fun i => if bool_decide (i ∈ ids) then None else f i) [id].
Proof.
  induction ids as [|id' ids IH]; intros f.
  { by apply (returned_ext dummy [id]). }
  cbn [app returned]. rewrite IH, <- app_assoc. f_equal. f_equal.
  refine (returned_ext dummy [id] _ (fun i => if bool_decide (i ∈ id' :: ids) then None else f i) _). intros i.
  repeat case_bool_decide; rewrite ?elem_of_cons in *; tauto.
Qed.

Lemma completes_none wl : completes_ids [] wl wl.
Proof. split; [by rewrite app_nil_r | done]. Qed.

Lemma completes_snoc ids id wl w1 w2 : hw w1 = hw wl ->
  completes_ids ids wl w1 -> completes_ids [id] w1 w2 -> completes_ids (ids ++ [id]) wl w2.
Proof.
  intros Eh [Q1 F1] [Q2 F2]. split.
  - rewrite Q2, Q1, Eh, returned_snoc, <- app_assoc. do 2 f_equal. by apply returned_ext.
  - intros i. rewrite F2, F1. repeat case_bool_decide; rewrite ?elem_of_app in *; tauto.
Qed.

Lemma completes_cons id ids wl w1 w2 : hw w1 = hw wl ->
  completes_ids [id] wl w1 -> completes_ids ids w1 w2 -> completes_ids (id :: ids) wl w2.
Proof.
  intros Eh [Q1 F1] [Q2 F2]. split.
  - rewrite Q2, Q1, Eh. cbn [returned]. rewrite app_nil_r, <- app_assoc. do 2 f_equal.
    apply returned_ext. intros i. rewrite F1. clear.
    destruct (decide (i = id)) as [->|Hn]; [rewrite !bool_decide_eq_true_2; [done | done | by left]|].
    rewrite !bool_decide_eq_false_2; [done | done | by intros ?%list_elem_of_singleton].
  - intros i. rewrite F2, F1. pose proof (not_elem_of_nil i).
    repeat case_bool_decide; rewrite ?elem_of_cons in *; tauto.
Qed.

(** Nothing is registered under the identifier. *)
Lemma completes_absent id wl : frame_at wl id = None -> completes_ids [id] wl wl.
Proof.
  intros E. split; [simpl; by rewrite E, app_nil_r|]. intros i. case_bool_decide as Hb; [|done].
  by apply list_elem_of_singleton in Hb as ->.
Qed.

Lemma completes_freed id s wl w1 w2 :
  ids_ok w1 -> tx_frames w1 = tx_frames wl -> frame_at wl id = Some s ->
  deferred_tx_queue w1 = deferred_tx_queue wl ++ (if bool_decide (s = dummy_packet (hw wl)) then [] else [s]) ->
  w2 = wl1271_free_tx_id id w1 -> completes_ids [id] wl w2.
Proof.
  intros Hi Et Ef Ed ->. destruct (free_tx_id_spec id w1 Hi) as (_ & F1 & F2 & _). split.
  - destruct (free_tx_id_frame id w1) as (? & ? & ? & ? & E' & _). rewrite E'. simpl.
    by rewrite Ed, Ef, app_nil_r.
  - clear Ed. intros i. assert (frame_at w1 i = frame_at wl i) as <- by (unfold frame_at; by rewrite Et).
    case_bool_decide as Hb; [by apply list_elem_of_singleton in Hb as ->|].
    apply F2. intros ->. apply Hb. by left.
Qed.

Lemma frame_at_high wl id : ids_ok wl -> ~ 0 <= id < num_tx_desc (hw wl) -> frame_at wl id = None.
Proof.
  intros Hi Hr. destruct (frame_at wl id) as [x|] eqn:Ex; [|done]. exfalso.
  destruct (decide (0 <= id < WLCORE_MAX_TX_DESCRIPTORS)) as [Hr'|Hr'].
  - pose proof (ids_map _ Hi id Hr') as Em. rewrite (ids_high _ Hi) in Em by lia.
    rewrite Ex in Em. rewrite bool_decide_eq_true_2 in Em by done. done.
  - unfold frame_at, zget in Ex. destruct (id <? 0) eqn:E'; bool_to_prop; [done|].
    rewrite nth_overflow in Ex; [done|]. pose proof (ids_len _ Hi) as Hl. unfold zlen in Hl. lia.
Qed.

(** Completing a packet answers, returns the frame it names, and does not touch
    the result count. *)
Lemma complete_packet_total r wl :
  work_inv wl ->
  exists wl', wl1271_tx_complete_packet r wl = Some wl' /\
    tx_results_count wl' = tx_results_count wl /\ completes_ids [r_id r] wl wl'.
Proof.
  intros W. pose proof (inv_ids _ (wi_inv _ W)) as Hi. unfold wl1271_tx_complete_packet. cbv zeta.
  split_if; bool_to_prop.
  { exists wl. split_and!; [done | done | by apply completes_absent, frame_at_high; [|lia]]. }
  destruct (zget None (tx_frames wl) (r_id r)) as [skb|] eqn:Ef;
    [|exists wl; split_and!; [done | done | by apply completes_absent]].
  unfold wl12xx_is_dummy_packet. destruct (Nat.eqb_spec (dummy_packet (hw wl)) skb) as [Ed|Ed].
  { eexists. split_and!; [reflexivity | |].
    - destruct (free_tx_id_frame (r_id r) wl) as (f & m & t & c & E' & _). by rewrite E'.
    - apply (completes_freed _ skb _ wl); try done. by rewrite bool_decide_eq_true_2, app_nil_r. }
  assert (is_Some (control_vif (skb_cb (skb_at wl skb)))) as [v Hv]
    by (by apply (wi_fw _ W (r_id r)), not_eq_sym).
  rewrite Hv, bool_decide_eq_false_2, andb_false_r by done. cbv iota beta. simpl default.
  eexists. split; [reflexivity|].
  match goal with |- context [if ?b then upd_vif v ?f ?w else ?w] =>
    set (w2 := if b then upd_vif v f w else w) end.
  assert (tx_results_count w2 = tx_results_count wl /\ tx_frames w2 = tx_frames wl /\
    deferred_tx_queue w2 = deferred_tx_queue wl /\ hw w2 = hw wl /\ tx_frames_map w2 = tx_frames_map wl /\
    tx_frames_cnt w2 = tx_frames_cnt wl) as (E2 & F2 & D2 & H2 & M2 & C2) by (unfold w2; by split_if).
  clearbody w2. unfold return_frame. set (w3 := emit EvQueueNetstackWork _). split.
  - destruct (free_tx_id_frame (r_id r) w3) as (f & m & t & c & E' & _). by rewrite E'.
  - apply (completes_freed _ skb _ w3); try done.
    + apply (ids_ok_frame wl); try done; simpl; congruence.
    + unfold w3. simpl. rewrite D2, bool_decide_eq_false_2 by congruence. done.
Qed.

Lemma results_incr_view wl : same_view wl (wl <| tx_results_count ::= fun n => u32 (n + 1) |>).
Proof.
  split; try done. intros (? & ? & _ & ? & ?). unfold ring_ok. simpl.
  pose proof (u32_range (tx_results_count wl + 1)). repeat split; try done; lia.
Qed.

Lemma results_range wl : work_inv wl -> 0 <= tx_results_count wl < 2 ^ 32.
Proof. intros W. apply (inv_ring _ (wi_inv _ W)). Qed.

(** The identifiers of the next [n] results of the ring, from result [c] on. *)
Definition result_ids (res_if : list Z) (c n : Z) : list Z :=
  (fun k => r_id (result_at res_if ((c + k) mod TX_HW_RESULT_QUEUE_LEN))) <$> zseq n.

Lemma result_ids_succ res_if c n : 0 <= n -> result_ids res_if c (n + 1)
  = result_ids res_if c n ++ [r_id (result_at res_if ((c + n) mod TX_HW_RESULT_QUEUE_LEN))].
Proof. intros Hn. unfold result_ids. by rewrite zseq_succ, fmap_app. Qed.

Lemma ring_offset n : Z.land (u32 n) TX_HW_RESULT_QUEUE_LEN_MASK = n mod TX_HW_RESULT_QUEUE_LEN.
Proof.
  unfold TX_HW_RESULT_QUEUE_LEN_MASK, TX_HW_RESULT_QUEUE_LEN, u32, wrap. change 0xf with (Z.ones 4).
  rewrite Z.land_ones by lia. apply Z.mod_mod_divide. by exists (2 ^ 28).
Qed.

(** The result loop takes the results in turn, whatever the firmware reports. *)
Lemma complete_loop res_if wl n : 0 <= n ->
  work_inv wl ->
  exists wl', for_range n (fun _ => tx_complete_one res_if) (Some wl) = Some wl' /\
    work_keeps wl wl' /\ tx_results_count wl' = u32 (tx_results_count wl + n) /\
    completes_ids (result_ids res_if (tx_results_count wl) n) wl wl'.
Proof.
  intros Hn W. pose proof (results_range wl W) as Hr.
  pose proof (for_range_ind (fun i o => exists wl', o = Some wl' /\ work_keeps wl wl' /\
    tx_results_count wl' = u32 (tx_results_count wl + i) /\
    completes_ids (result_ids res_if (tx_results_count wl) i) wl wl')
    n (fun _ => tx_complete_one res_if) (Some wl) Hn) as L. apply L; clear L.
  - exists wl. split_and!; [done | by apply view_keeps | | apply completes_none].
    rewrite Z.add_0_r, u32_id; [done | exact Hr].
  - intros o i Hi (w & -> & K & Hc & Hid). unfold tx_complete_one.
    rewrite Hc, ring_offset. set (r := result_at _ _).
    destruct (complete_packet_total r w (wk_inv _ _ K)) as (w1 & E1 & C1 & Hid1). rewrite E1.
    pose proof (complete_packet_keeps r w w1 (wk_inv _ _ K) E1) as K1.
    eexists. split; [reflexivity|]. split_and!.
    + eapply work_keeps_trans; [exact K|]. eapply work_keeps_trans; [exact K1|].
      apply view_keeps; [apply K1 | apply results_incr_view | done | done].
    + simpl. rewrite C1, Hc. unfold u32. rewrite wrap_add_l. f_equal. lia.
    + rewrite result_ids_succ by lia. apply (completes_snoc _ _ _ w); [apply (wk_hw _ _ K) | done |].
      destruct Hid1 as [Q F]. by split.
Qed.

(** [data] is the result structure the chip returns, [ret] the answer to the
    write of its counter. *)
Lemma tx_complete_spec wl ret0 data w1 ret w2 :
  let fc := u32 (le_value (take 4 data)) in
  work_inv wl ->
  wlcore_read (tx_result_addr (hw wl)) TX_RES_IF_SIZE wl = (ret0, data, w1) ->
  wlcore_write32 (tx_result_addr (hw wl) + 4) fc w1 = (ret, w2) ->
  (ret0 < 0 -> wlcore_tx_complete wl = Some (ret0, w1) /\ work_keeps wl w1) /\
  (0 <= ret0 -> ret < 0 -> wlcore_tx_complete wl = Some (ret, w2) /\ work_keeps wl w2) /\
  (0 <= ret0 -> 0 <= ret -> exists wl', wlcore_tx_complete wl = Some (ret, wl') /\ work_keeps wl wl' /\
     tx_results_count wl' = fc /\
     completes_ids (result_ids data (tx_results_count wl) (u32 (fc - tx_results_count wl))) wl wl').
Proof.
  intros fc W Er Ew. unfold wlcore_tx_complete.
  pose proof (read_io_frame (tx_result_addr (hw wl)) TX_RES_IF_SIZE wl) as R.
  rewrite Er in *. simpl in R.
  assert (work_keeps wl w1) as K1 by (by apply io_keeps).
  rewrite <- (wk_hw _ _ K1) in Ew. fold fc.
  pose proof (write32_io_frame (tx_result_addr (hw w1) + 4) fc w1) as R2. rewrite Ew in *. simpl in R2.
  assert (work_keeps wl w2) as K2
    by (eapply work_keeps_trans; [exact K1 | by apply io_keeps; try apply K1]).
  assert (tx_results_count w2 = tx_results_count wl /\ deferred_tx_queue w2 = deferred_tx_queue wl /\
    tx_frames w2 = tx_frames wl) as (Ec & Eq & Ef).
  { destruct R as [(? & ? & ? & ? & ->) _ _ _]. destruct R2 as [(? & ? & ? & ? & ->) _ _ _]. done. }
  split_and!.
  - intros H. by rewrite (proj2 (Z.ltb_lt _ _)) by done.
  - intros H H'. rewrite (proj2 (Z.ltb_ge _ _)) by done. by rewrite (proj2 (Z.ltb_lt _ _)) by done.
  - intros H H'. rewrite !(proj2 (Z.ltb_ge _ _)) by done.
    destruct (complete_loop data w2 (u32 (fc - tx_results_count w2))) as (w3 & E3 & K3 & C3 & [Q F]);
      [apply u32_range | apply K2 |].
    rewrite E3. exists w3. split_and!; [done | by eapply work_keeps_trans | |].
    + rewrite C3. unfold fc, u32 in *. rewrite wrap_add_r, Zplus_minus. by rewrite wrap_wrap.
    + rewrite Ec in *. split.
      * rewrite Q, Eq, (wk_hw _ _ K2). f_equal. apply returned_ext. intros i. unfold frame_at. by rewrite Ef.
      * intros i. rewrite F. unfold frame_at. by rewrite Ef.
Qed.

(** Completion keeps the work invariant, however the transfers end. *)
Lemma tx_complete_keeps wl : work_inv wl ->
  exists ret wl', wlcore_tx_complete wl = Some (ret, wl') /\ work_keeps wl wl'.
Proof.
  intros W. destruct (wlcore_read (tx_result_addr (hw wl)) TX_RES_IF_SIZE wl) as [[r0 d] w1] eqn:E1.
  destruct (wlcore_write32 (tx_result_addr (hw wl) + 4) (u32 (le_value (take 4 d))) w1) as [r w2] eqn:E2.
  destruct (tx_complete_spec wl r0 d w1 r w2 W E1 E2) as (A & B & C).
  destruct (Z.lt_ge_cases r0 0); [exists r0, w1; by apply A|].
  destruct (Z.lt_ge_cases r 0); [exists r, w2; by apply B|].
  destruct C as (wl' & ? & ? & _); [done | done | by exists r, wl'].
Qed.

(** ** Deferred work *)

(** Reports to mac80211 of buffers taken off the front of the deferred list. *)
Lemma report_deferred_keeps wl skb rest :
  work_inv wl -> deferred_tx_queue wl = skb :: rest ->
  work_keeps wl (emit (EvTxStatus skb) (wl <| deferred_tx_queue ::= tail |>)).
Proof.
  intros [H1 H2 H3 H4 H6 H7 H8 H9] E.
  assert (forall s, copies s (emit (EvTxStatus skb) (wl <| deferred_tx_queue ::= tail |>))
                    = copies s wl) as Cp.
  { intros s. rewrite emit_copies. unfold copies. simpl. rewrite E. simpl. rewrite occ_cons. lia. }
  split; [|done | intros s _; apply Cp | done | done | done]. split; try done.
  - destruct H1 as [A1 A2 A3 A4 A5 A6]. split.
    + by apply (counts_off_frame _ wl).
    + by apply (queues_ok_frame wl).
    + by apply (ids_ok_frame wl).
    + by apply (vifs_ok_frame wl); try apply (vo_last _ A4).
    + done.
    + done.
  - intros s Hs. rewrite Cp. by apply H2.
Qed.

Lemma deferred_rx_view wl f rest : deferred_rx_queue wl = f :: rest ->
  same_view wl (emit (EvRx f) (wl <| deferred_rx_queue ::= tail |>)).
Proof. intros E. by split. Qed.

Lemma flush_deferred_keeps wl : work_inv wl ->
  let wl' := wl1271_flush_deferred_work wl in
  work_keeps wl wl' /\ deferred_tx_queue wl' = [] /\ deferred_rx_queue wl' = [].
Proof.
  intros W. cbv zeta. unfold wl1271_flush_deferred_work.
  assert (forall l w, deferred_rx_queue w = l -> work_inv w ->
    let w' := fold_left (fun wl f => emit (EvRx f) (wl <| deferred_rx_queue ::= tail |>)) l w in
    work_keeps w w' /\ deferred_rx_queue w' = []) as R.
  { induction l as [|f l IH]; intros w E Ww; cbv zeta; simpl; [split; [by apply view_keeps | done]|].
    assert (work_keeps w (emit (EvRx f) (w <| deferred_rx_queue ::= tail |>))) as K
      by (apply view_keeps; done || by split).
    destruct (IH (emit (EvRx f) (w <| deferred_rx_queue ::= tail |>))) as [K' D];
      [simpl; by rewrite E | apply K |].
    split; [by eapply work_keeps_trans | exact D]. }
  assert (forall l w, deferred_tx_queue w = l -> work_inv w ->
    let w' := fold_left (fun wl s => emit (EvTxStatus s) (wl <| deferred_tx_queue ::= tail |>)) l w in
    work_keeps w w' /\ deferred_tx_queue w' = [] /\ deferred_rx_queue w' = deferred_rx_queue w) as T.
  { induction l as [|s l IH]; intros w E Ww; cbv zeta; simpl; [split_and!; [by apply view_keeps | done | done]|].
    pose proof (report_deferred_keeps w s l Ww E) as K.
    destruct (IH (emit (EvTxStatus s) (w <| deferred_tx_queue ::= tail |>))) as (K' & D1 & D2);
      [simpl; by rewrite E | apply K |].
    split_and!; [by eapply work_keeps_trans | exact D1 | exact D2]. }
  destruct (R _ wl eq_refl W) as [K1 D1]. cbv zeta in K1, D1.
  set (w1 := fold_left _ (deferred_rx_queue wl) wl) in *.
  destruct (T _ w1 eq_refl (wk_inv _ _ K1)) as (K2 & D2 & D3).
  split_and!; [by eapply work_keeps_trans | exact D2 | by rewrite D3].
Qed.

(** ** Draining *)

(** A step that moves no buffer and edits at most their status. *)
Lemma moves_keeps wl wl' : work_inv wl -> tx_moves none_moved wl wl' -> same_payload wl wl' ->
  aggr_buf wl' = aggr_buf wl -> tx_frames wl' = tx_frames wl -> work_keeps wl wl'.
Proof.
  intros [H1 H2 H3 H4 H6 H7 H8 H9] M P Eb Ef. pose proof (mv_hw _ _ _ M) as Eh.
  assert (forall s, s <> dummy_packet (hw wl) -> copies s wl' = copies s wl) as Cp.
  { intros s Hs. rewrite (mv_copies _ _ _ M s Hs). unfold none_moved. lia. }
  split; [|done|done|apply backlog_le; apply M|apply M|apply M].
  split; rewrite ?Eh, ?Eb; try done.
  - apply M.
  - intros s Hs. rewrite Cp by done. by apply H2.
  - apply (fits_frame wl); [done | apply P | done].
  - intros h q s Hh Hq Hin. apply (fits_frame wl); [done | apply P |].
    eapply H4; [done..|]. by eapply (mv_sub _ _ _ M).
  - apply (fw_vifs_frame wl); [done | intros id skb; unfold frame_at; by rewrite Ef | | done].
    intros s. destruct (P s) as (_ & i & -> & C & _). exact C.
Qed.

Lemma drain_link_keeps g hlid wl : keeps_control g -> work_inv wl -> is_link hlid ->
  work_keeps wl (drain_link hlid (status_body g) wl).
Proof.
  intros Hg W Hh.
  destruct (drain_link_spec hlid (status_body g) wl (complete_skb_completes g Hg)
    (inv_counts _ (wi_inv _ W)) Hh) as (_ & _ & (n & k & c & r & l & E) & P & _).
  apply moves_keeps; [done | apply drain_link_moves; try done; apply W | exact P | by rewrite E..].
Qed.

(** ** Reset *)

Lemma drain_all_keeps wl : work_inv wl ->
  let wl' := for_range WL12XX_MAX_LINKS wl1271_tx_reset_link_queues wl in
  work_keeps wl wl' /\
  (forall h q, is_link h -> is_queue q -> link_queue wl' h q = []) /\
  flag wl' WL1271_FLAG_DUMMY_PACKET_PENDING = flag wl WL1271_FLAG_DUMMY_PACKET_PENDING /\
  tx_frames wl' = tx_frames wl.
Proof.
  intros W. cbv zeta.
  pose proof (for_range_ind (fun i w => work_keeps wl w /\
    (forall h q, 0 <= h < i -> is_queue q -> link_queue w h q = []) /\
    flag w WL1271_FLAG_DUMMY_PACKET_PENDING = flag wl WL1271_FLAG_DUMMY_PACKET_PENDING /\
    tx_frames w = tx_frames wl)
    WL12XX_MAX_LINKS wl1271_tx_reset_link_queues wl) as L. apply L; clear L.
  - done.
  - split_and!; [by apply view_keeps | lia | done | done].
  - intros w i Hi (K & Q & Fl & Ft).
    destruct (reset_link_queues_spec i w (inv_counts _ (wi_inv _ (wk_inv _ _ K))) Hi)
      as (_ & Lq & (n & k & c & r & l & E) & P & _).
    pose proof (reset_link_queues_moves i w (wi_inv _ (wk_inv _ _ K)) Hi) as M.
    set (w' := wl1271_tx_reset_link_queues i w) in *. clearbody w'.
    assert (work_keeps w w') as K'
      by (apply moves_keeps; [apply K | exact M | exact P | by rewrite E..]).
    split_and!.
    + by eapply work_keeps_trans.
    + intros h q Hh Hq. rewrite Lq by done. destruct (i =? h) eqn:Eb; bool_to_prop; [done|].
      apply Q; [lia | done].
    + rewrite <- Fl. unfold flag. by rewrite E.
    + rewrite <- Ft. by rewrite E.
Qed.


Lemma reset_frame_keeps i wl : work_inv wl ->
  let wl' := tx_reset_frame i wl in
  work_keeps wl wl' /\ frame_at wl' i = None /\
  (forall j, j <> i -> frame_at wl' j = frame_at wl j) /\
  (forall h q, link_queue wl' h q = link_queue wl h q) /\
  tx_queue_count wl' = tx_queue_count wl.
Proof.
  intros W. cbv zeta. unfold tx_reset_frame.
  destruct (zget None (tx_frames wl) i) as [skb|] eqn:Ef; [|by split_and!; try apply view_keeps].
  destruct (free_tx_id_spec i wl (inv_ids _ (wi_inv _ W))) as (_ & F1 & F2 & _).
  pose proof (free_tx_id_moves i wl (wi_inv _ W)) as M.
  destruct (free_tx_id_bufs i wl) as (B1 & B2 & B3).
  destruct (free_tx_id_frame i wl) as (f & m & t & c & E & _).
  unfold wl12xx_is_dummy_packet. rewrite B3.
  destruct (Nat.eqb_spec (dummy_packet (hw wl)) skb) as [Ed|Ed].
  { split_and!; try done.
    - apply free_dummy_keeps; [done|]. unfold frame_at. by rewrite Ef, Ed.
    - intros h q. by rewrite E.
    - by rewrite E. }
  set (w1 := wl1271_free_tx_id i wl) in *.
  assert (forall s, frame_copy s (frame_at wl i) = is_skb s skb) as Fc
    by (intros s; unfold frame_at; by rewrite Ef).
  assert (forall s, s <> dummy_packet (hw wl) -> copies s w1 = copies s wl - is_skb s skb) as C1.
  { intros s Hs. rewrite (mv_copies _ _ _ M) by done. rewrite Fc. lia. }
  assert (work_inv w1) as W1.
  { eapply moves_work; [done | exact M | done | by rewrite B2 | |].
    - intros s Hs. cbv beta. rewrite Fc.
      pose proof (wi_unique _ W s Hs). pose proof (is_skb_range s skb). lia.
    - intros j x. apply free_tx_id_frames, W. }
  set (g := fun s => (remove_private_header w1 s) <| skb_cb ::= dropped_status |>).
  assert (keeps_route g) as Rg by (intros x; apply (remove_private_route w1 x)).
  assert (work_keeps w1 (upd_skb skb g w1)) as K2.
  { apply upd_skb_keeps; [done | done | by rewrite B3; apply not_eq_sym |].
    intros h q Hh Hq Hin. apply (in_firmware_not_queued wl i skb h q W Ef Hh Hq).
    by apply (mv_sub _ _ _ M). }
  assert (copies skb (upd_skb skb g w1) <= 0) as C2.
  { rewrite (wk_copies _ _ K2) by (rewrite B3; by apply not_eq_sym).
    rewrite C1 by (by apply not_eq_sym). unfold is_skb. rewrite bool_decide_eq_true_2 by done.
    pose proof (wi_unique _ W skb (not_eq_sym Ed)). lia. }
  split_and!; try done.
  - destruct (wk_inv _ _ K2) as [H1 H2 H3 H4 H6 H7 H8 H9].
    set (w2 := upd_skb skb g w1) in *.
    assert (forall s, s <> dummy_packet (hw wl) -> copies s (emit (EvTxStatus skb) w2) = copies s wl) as Cp.
    { intros s Hs. rewrite emit_copies, (wk_copies _ _ K2) by (by rewrite B3). rewrite C1 by done. simpl. lia. }
    assert (backlog (emit (EvTxStatus skb) w2) <= backlog wl) as Bl
      by (apply (backlog_le wl); apply M).
    split; [|exact B3|exact Cp|exact Bl|by destruct (mv_vifs _ _ _ M)|exact (mv_state _ _ _ M)]. split; try done.
    + destruct H1 as [A1 A2 A3 A4 A5 A6]. split.
      * by apply (counts_off_frame _ w2).
      * by apply (queues_ok_frame w2).
      * by apply (ids_ok_frame w2).
      * by apply (vifs_ok_frame w2); try apply (vo_last _ A4).
      * done.
      * done.
    + intros s Hs. assert (s <> dummy_packet (hw wl)) as Hs' by (rewrite <- B3; exact Hs).
      rewrite Cp by done. by apply (wi_unique _ W).
  - intros h q. change (link_queue w1 h q = link_queue wl h q). by rewrite E.
  - change (tx_queue_count w1 = tx_queue_count wl). by rewrite E.
Qed.

(** With every queue drained, clearing the counts and the mark of the dummy
    packet keeps the invariant. *)
Definition uncounted (wl : wl1271) : wl1271 :=
  for_range NUM_TX_QUEUES (fun i wl => wl <| tx_queue_count ::= fun l => zset l i 0 |>) wl.

Definition undummied (wl : wl1271) : wl1271 := clear_flag WL1271_FLAG_DUMMY_PACKET_PENDING wl.

Lemma uncounted_eq wl : uncounted wl
  = wl <| tx_queue_count := zset (zset (zset (zset (tx_queue_count wl) 0 0) 1 0) 2 0) 3 0 |>.
Proof. by destruct wl. Qed.

Lemma uncounted_queue wl h q : link_queue (uncounted wl) h q = link_queue wl h q.
Proof. by rewrite uncounted_eq. Qed.

Lemma undummied_queue wl h q : link_queue (undummied wl) h q = link_queue wl h q.
Proof. done. Qed.

Lemma undummied_backlog wl : backlog (undummied wl) = backlog wl.
Proof. done. Qed.

Lemma uncounted_zero wl q : counts_ok wl -> is_queue q -> zget 0 (tx_queue_count (uncounted wl)) q = 0.
Proof.
  intros C Hq. pose proof (co_counts _ _ C) as Hl. rewrite uncounted_eq. simpl.
  apply is_queue_cases in Hq as [-> | [-> | [-> | ->]]];
    rewrite ?zget_zset; rewrite ?zlen_zset, ?Hl; unfold NUM_TX_QUEUES; done || lia.
Qed.

Lemma uncounted_keeps wl : work_inv wl ->
  (forall h q, is_link h -> is_queue q -> link_queue wl h q = []) ->
  work_keeps wl (undummied (uncounted wl)).
Proof.
  intros W He. pose proof W as [[I1 I2 I3 I4 I5 I6] H2 H3 H4 H6 H7 H8 H9].
  assert (forall q, is_queue q -> zget 0 (tx_queue_count (undummied (uncounted wl))) q = 0) as Hz
    by (intros q; by apply uncounted_zero). pose proof I1 as [L1 L2 L3 L4 L5].
  assert (zlen (tx_queue_count (uncounted wl)) = NUM_TX_QUEUES) as Hl
    by (rewrite uncounted_eq; simpl; by rewrite !zlen_zset).
  assert (forall q, is_queue q -> queued (undummied (uncounted wl)) q = 0) as Hq.
  { intros q Hq. unfold queued, dummy_load, undummied. rewrite flag_clear_same, uncounted_eq. simpl.
    rewrite (zsum_index _ link0), L1, (zsum_ext _ (fun _ => 0)); [done|].
    intros h Hh%elem_of_zseq. unfold link_load. fold (link_at wl h). fold (link_queue wl h q). by rewrite He. }
  assert (counts_ok (undummied (uncounted wl))) as C.
  { split; [by rewrite uncounted_eq | by rewrite uncounted_eq | done | | ].
    - intros q Hqq. rewrite Hq by done. by rewrite (Hz q Hqq).
    - intros h q skb. rewrite uncounted_eq. apply L5. }
  clear Hq. assert (backlog (undummied (uncounted wl)) <= backlog wl) as Bl.
  { apply backlog_le. intros q Hqq. rewrite (Hz q Hqq), (L4 q Hqq). pose proof (queued_nonneg wl q). lia. }
  revert C Bl. rewrite uncounted_eq. intros C Bl. split; [|done|done|done|done|done].
  split; [split|..]; try done.
  - by apply (queues_ok_frame wl).
  - by apply (ids_ok_frame wl).
  - by apply (vifs_ok_frame wl); try apply (vo_last _ I4).
Qed.

(** Neither flow control nor the firmware's table looks at that mark. *)
Lemma low_watermark_undummied wl :
  wl1271_handle_tx_low_watermark (undummied wl) = undummied (wl1271_handle_tx_low_watermark wl).
Proof.
  unfold wl1271_handle_tx_low_watermark. apply for_range_comm. intros i w.
  change (wlcore_is_queue_stopped_by_reason (undummied w)) with (wlcore_is_queue_stopped_by_reason w).
  change (tx_queue_count (undummied w)) with (tx_queue_count w). split_if; [|done].
  unfold wlcore_wake_queue. cbv zeta. unfold reasons_at, set_reasons. simpl. by split_if.
Qed.

Lemma free_tx_id_undummied i wl :
  wl1271_free_tx_id i (undummied wl) = undummied (wl1271_free_tx_id i wl).
Proof.
  unfold wl1271_free_tx_id. change (tx_frames_map (undummied wl)) with (tx_frames_map wl).
  split_if; [|done]. cbv zeta.
  set (w := wl <| tx_frames_map ::= clear_bit i |>).
  change ((undummied wl) <| tx_frames_map ::= clear_bit i |>) with (undummied w).
  change (tx_frames_cnt (undummied w)) with (tx_frames_cnt w).
  change (hw (undummied w)) with (hw w). clearbody w.
  destruct (tx_frames_cnt w =? num_tx_desc (hw w)); [|reflexivity].
  unfold undummied. by rewrite clear_flag_comm.
Qed.

Lemma reset_frame_undummied i wl : tx_reset_frame i (undummied wl) = undummied (tx_reset_frame i wl).
Proof.
  unfold tx_reset_frame. change (tx_frames (undummied wl)) with (tx_frames wl).
  destruct (zget None (tx_frames wl) i) as [skb|]; [|done]. cbv zeta. rewrite free_tx_id_undummied.
  generalize (wl1271_free_tx_id i wl). intros w. unfold wl12xx_is_dummy_packet.
  change (hw (undummied w)) with (hw w). by split_if.
Qed.

(** With a zero total count every queue is empty and no dummy packet waits. *)
Lemma zero_backlog_count wl q : counts_ok wl -> backlog wl = 0 -> is_queue q ->
  zget 0 (tx_queue_count wl) q = 0.
Proof.
  intros H Hb Hq.
  assert (forall q, is_queue q -> 0 <= zget 0 (tx_queue_count wl) q) as P.
  { intros q' Hq'. rewrite (co_eq _ _ H q' Hq'). pose proof (queued_nonneg wl q'). lia. }
  rewrite backlog_eq in Hb. pose proof (P 0 ltac:(by apply is_queue_cases; lia)).
  pose proof (P 1 ltac:(by apply is_queue_cases; lia)).
  pose proof (P 2 ltac:(by apply is_queue_cases; lia)).
  pose proof (P 3 ltac:(by apply is_queue_cases; lia)).
  apply is_queue_cases in Hq as [-> | [-> | [-> | ->]]]; lia.
Qed.

Lemma zero_backlog_empty wl : counts_ok wl -> backlog wl = 0 ->
  forall h q, is_link h -> is_queue q -> link_queue wl h q = [].
Proof.
  intros H Hb h q Hh Hq. pose proof (zero_backlog_count wl q H Hb Hq) as E.
  rewrite (co_eq _ _ H q Hq) in E. unfold queued in E.
  assert (0 <= dummy_load wl q) by (unfold dummy_load; split_if; lia).
  assert (link_load q (link_at wl h) <= zsum (link_load q <$> links wl)).
  { apply zsum_ge_elem; [intros; apply link_load_nonneg|].
    apply link_at_in; [done | apply (co_links _ _ H)]. }
  assert (zlen (link_queue wl h q) <= 0) as Hz by (unfold link_load, link_queue in *; lia).
  destruct (link_queue wl h q); [done | unfold zlen in Hz; simpl in Hz; lia].
Qed.

Lemma zero_backlog_no_dummy wl : counts_ok wl -> backlog wl = 0 ->
  flag wl WL1271_FLAG_DUMMY_PACKET_PENDING = false.
Proof.
  intros H Hb. destruct (flag wl WL1271_FLAG_DUMMY_PACKET_PENDING) eqn:E; [|done]. exfalso.
  set (q := ac_of wl (dummy_packet (hw wl))). assert (is_queue q) as Hq by apply get_queue_range.
  pose proof (zero_backlog_count wl q H Hb Hq) as Hz.
  rewrite (co_eq _ _ H q Hq) in Hz. unfold queued, dummy_load in Hz. rewrite E in Hz. fold q in Hz.
  rewrite Z.eqb_refl in Hz. simpl in Hz.
  pose proof (zsum_nonneg (link_load q) (links wl) (link_load_nonneg q)). lia.
Qed.

(** Emptying the firmware's table. *)
Lemma reset_frames_spec wl : work_inv wl ->
  let wl' := for_range (num_tx_desc (hw wl)) tx_reset_frame wl in
  work_keeps wl wl' /\ (forall id, frame_at wl' id = None) /\
  (forall h q, link_queue wl' h q = link_queue wl h q) /\ tx_queue_count wl' = tx_queue_count wl.
Proof.
  intros W. cbv zeta.
  assert (0 <= num_tx_desc (hw wl)) as Hn by (pose proof (ids_num _ (inv_ids _ (wi_inv _ W))); lia).
  pose proof (for_range_ind (fun i w => work_keeps wl w /\ (forall j, 0 <= j < i -> frame_at w j = None) /\
    (forall h q, link_queue w h q = link_queue wl h q) /\ tx_queue_count w = tx_queue_count wl)
    (num_tx_desc (hw wl)) tx_reset_frame wl Hn) as L.
  destruct L as (K & F & Q & C).
  - split_and!; [by apply view_keeps | lia | done | done].
  - intros w i Hi (K & F & Q & C).
    destruct (reset_frame_keeps i w (wk_inv _ _ K)) as (K' & F1 & F2 & Q' & C'). split_and!.
    + by eapply work_keeps_trans.
    + intros j Hj. destruct (decide (j = i)) as [->|]; [done|]. rewrite F2 by done. apply F. lia.
    + intros h q. by rewrite Q', Q.
    + by rewrite C', C.
  - split_and!; try done. intros id. destruct (decide (0 <= id < num_tx_desc (hw wl))); [by apply F|].
    apply (frame_at_high _ id (inv_ids _ (wi_inv _ (wk_inv _ _ K)))). by rewrite (wk_hw _ _ K).
Qed.

(** The first half of the reset: queues drained, counts cleared. *)
Definition tx_drained (wl : wl1271) : wl1271 :=
  if negb (wl1271_tx_total_queue_count wl =? 0)
  then uncounted (for_range WL12XX_MAX_LINKS wl1271_tx_reset_link_queues wl) else wl.

Lemma tx_drained_keeps wl : work_inv wl ->
  work_keeps wl (undummied (tx_drained wl)) /\
  (forall h q, is_link h -> is_queue q -> link_queue (undummied (tx_drained wl)) h q = []) /\
  backlog (undummied (tx_drained wl)) = 0.
Proof.
  intros W. unfold tx_drained. split_if.
  - destruct (drain_all_keeps wl W) as (K & Q & _ & _). cbv zeta in *.
    set (w := for_range WL12XX_MAX_LINKS _ wl) in *. clearbody w.
    pose proof (uncounted_keeps w (wk_inv _ _ K) Q) as K2. split_and!.
    + by eapply work_keeps_trans.
    + intros h q Hh Hq. rewrite undummied_queue, uncounted_queue. by apply Q.
    + rewrite undummied_backlog, backlog_eq, !uncounted_zero by (apply is_queue_cases; lia) || apply (wk_inv _ _ K). done.
  - bool_to_prop. pose proof (zero_backlog_empty wl (inv_counts _ (wi_inv _ W)) E) as Q.
    assert (undummied wl = wl) as ->; [|split_and!; [by apply view_keeps | done | done]].
    apply clear_flag_id. apply (zero_backlog_no_dummy _ (inv_counts _ (wi_inv _ W)) E).
Qed.

Lemma tx_reset_undummied wl : undummied (wl12xx_tx_reset wl) =
  let w := wl1271_handle_tx_low_watermark (undummied (tx_drained wl)) in
  for_range (num_tx_desc (hw w)) tx_reset_frame w.
Proof.
  cbv zeta. rewrite low_watermark_undummied.
  rewrite (for_range_comm undummied) by (intros; apply reset_frame_undummied). reflexivity.
Qed.

(** The reset of all traffic, but for the mark of a pending dummy packet, which
    the caller clears with all other flags. *)
Lemma tx_reset_spec wl : work_inv wl ->
  let wl' := undummied (wl12xx_tx_reset wl) in
  work_keeps wl wl' /\ (forall h q, is_link h -> is_queue q -> link_queue wl' h q = []) /\
  (forall id, frame_at wl' id = None) /\ backlog wl' = 0.
Proof.
  intros W. cbv zeta. rewrite tx_reset_undummied. cbv zeta.
  destruct (tx_drained_keeps wl W) as (K1 & Q1 & B1).
  set (w2 := undummied (tx_drained wl)) in *. clearbody w2.
  pose proof (low_watermark_keeps w2 (wk_inv _ _ K1)) as K2.
  destruct (low_watermark_frame w2) as (r & l & E).
  assert ((forall h q, link_queue (wl1271_handle_tx_low_watermark w2) h q = link_queue w2 h q) /\
    tx_queue_count (wl1271_handle_tx_low_watermark w2) = tx_queue_count w2) as [Q2 C2] by (by rewrite E).
  set (w3 := wl1271_handle_tx_low_watermark w2) in *. clearbody w3.
  destruct (reset_frames_spec w3 (wk_inv _ _ K2)) as (K3 & F3 & Q3 & C3). cbv zeta in *. split_and!.
  - eapply work_keeps_trans; [exact K1|]. by eapply work_keeps_trans.
  - intros h q Hh Hq. rewrite Q3, Q2. by apply Q1.
  - exact F3.
  - rewrite <- B1, !backlog_eq. by rewrite C3, C2.
Qed.

(** ** Flush *)

Lemma queue_frame_keeps wl wl' :
  work_inv wl -> queue_frame wl wl' -> tx_moves none_moved wl wl' -> work_keeps wl wl'.
Proof.
  intros W (r & l & E) M. split; [| apply M | | apply backlog_le; apply M | apply M | apply M].
  - eapply moves_work; [done | exact M | by rewrite E | by rewrite E | |].
    + intros s Hs. unfold none_moved. pose proof (wi_unique _ W s Hs). lia.
    + intros id skb. unfold frame_at. by rewrite E.
  - intros s Hs. rewrite (mv_copies _ _ _ M s Hs). unfold none_moved. lia.
Qed.

Lemma stop_queues_keeps r wl : work_inv wl -> work_keeps wl (wlcore_stop_queues r wl).
Proof. intros W. apply queue_frame_keeps; [done | apply stop_queues_frame | apply stop_queues_moves, W]. Qed.

Lemma wake_queues_keeps r wl : work_inv wl -> work_keeps wl (wlcore_wake_queues r wl).
Proof. intros W. apply queue_frame_keeps; [done | apply wake_queues_frame | apply wake_queues_moves, W]. Qed.

(** A flushing pass before the flusher sleeps. *)
Definition flush_pass (fuel : nat) (completed : Z) (wl : wl1271) : outcome wl1271 :=
  if negb (wl1271_tx_total_queue_count wl =? 0) then wl1271_tx_work fuel completed wl else Ret wl.

(** While the flusher sleeps the other contexts take the state from [w] to
    [env w]; along this run each of these steps is in the relation [R]. *)
Fixpoint interludes (R : wl1271 -> wl1271 -> Prop) (fuel : nat) (rounds : list (Z * (wl1271 -> wl1271)))
    (wl : wl1271) : Prop :=
  match rounds with
  | [] => True
  | (completed, env) :: rounds =>
      forall w, flush_pass fuel completed wl = Ret w -> R w (env w) /\ interludes R fuel rounds (env w)
  end.

Section Flush.
Context (R : wl1271 -> wl1271 -> Prop) (B : Z) (fuel : nat).
Context (R_trans : forall a b c, R a b -> R b c -> R a c).
Context (keeps_R : forall w w', work_keeps w w' -> R w w').
Context (R_inv : forall w w', R w w' -> work_inv w').
Context (R_backlog : forall w w', R w w' -> backlog w <= B -> backlog w' <= B).
Context (enough : 2 * B + 1 < Z.of_nat fuel).

Lemma flush_loop_spec rounds : forall wl,
  work_inv wl -> backlog wl <= B -> interludes R fuel rounds wl ->
  exists b wl', tx_flush_loop fuel rounds wl = Ret (b, wl') /\ R wl wl' /\
    (b = true -> tx_frames_cnt wl' = 0 /\ backlog wl' = 0).
Proof.
  induction rounds as [|[c env] rounds IH]; intros wl W Hf He; simpl.
  { exists false, wl. split_and!; [done | by apply keeps_R, view_keeps | done]. }
  fold (flush_pass fuel c wl).
  assert (exists w1, flush_pass fuel c wl = Ret w1 /\ work_keeps wl w1) as (w1 & E1 & K1).
  { unfold flush_pass. split_if; [apply tx_work_keeps; [done | lia] | exists wl; split; [done | by apply view_keeps]]. }
  rewrite E1. destruct (He w1 E1) as [R1 He'].
  assert (R wl (env w1)) as R2 by (eapply R_trans; [by apply keeps_R | done]).
  split_if; bool_to_prop; [exists true, (env w1); split_and!; done|].
  destruct (IH (env w1)) as (b & w3 & -> & R3 & Hb); [by eapply R_inv | by eapply R_backlog | done |].
  exists b, w3. split_and!; [done | by eapply R_trans | done].
Qed.

Lemma tx_flush_rel rounds wl :
  work_inv wl -> backlog wl <= B ->
  interludes R fuel rounds (wlcore_stop_queues WLCORE_QUEUE_STOP_REASON_FLUSH wl) ->
  exists wl', wl1271_tx_flush fuel rounds wl = Ret wl' /\ R wl wl' /\
    (forall h q, is_link h -> is_queue q -> link_queue wl' h q = []).
Proof.
  intros W Hf He. unfold wl1271_tx_flush. split_if; bool_to_prop.
  { exists wl. split_and!; [done | by apply keeps_R, view_keeps |].
    by apply zero_backlog_empty; [apply W|]. }
  pose proof (stop_queues_keeps WLCORE_QUEUE_STOP_REASON_FLUSH wl W) as K1.
  set (w1 := wlcore_stop_queues _ wl) in *.
  destruct (flush_loop_spec rounds w1 (wk_inv _ _ K1)) as (b & w2 & -> & R2 & Hb);
    [pose proof (wk_backlog _ _ K1); lia | done |].
  assert (R wl w2) as R12 by (eapply R_trans; [by apply keeps_R | done]).
  pose proof (R_inv _ _ R12) as W2. set (w3 := if b then w2 else _).
  assert (R wl w3 /\ forall h q, is_link h -> is_queue q -> link_queue w3 h q = []) as [R3 Q3].
  { unfold w3. destruct b.
    - split; [done|]. destruct (Hb eq_refl) as [_ Hz]. by apply zero_backlog_empty; [apply W2|].
    - destruct (drain_all_keeps w2 W2) as (K & Q & _).
      split; [eapply R_trans; [done | by apply keeps_R] | exact Q]. }
  eexists. split; [reflexivity|]. split.
  - eapply R_trans; [exact R3 | apply keeps_R, wake_queues_keeps, (R_inv _ _ R3)].
  - intros h q Hh Hq. destruct (wake_queues_frame WLCORE_QUEUE_STOP_REASON_FLUSH w3) as (r & l & ->).
    by apply Q3.
Qed.

End Flush.

(** Contexts that keep the invariant from every state and add no frame, as
    mac80211's own work items do. *)
Definition env_ok (env : wl1271 -> wl1271) : Prop := forall w, work_inv w -> work_keeps w (env w).

Lemma env_ok_interludes fuel rounds : Forall (fun r => env_ok (snd r)) rounds ->
  forall wl, work_inv wl -> 2 * backlog wl + 1 < Z.of_nat fuel -> interludes work_keeps fuel rounds wl.
Proof.
  induction 1 as [|[c env] rounds He _ IH]; intros wl W Hf; [done|]. simpl. intros w E.
  assert (work_keeps wl w) as K.
  { revert E. unfold flush_pass. split_if; [|intros [= <-]; by apply view_keeps].
    destruct (tx_work_keeps fuel c wl W Hf) as (w' & -> & K). by intros [= <-]. }
  pose proof (He w (wk_inv _ _ K)) as K2. split; [exact K2|].
  apply IH; [apply K2 | pose proof (wk_backlog _ _ K); pose proof (wk_backlog _ _ K2); simpl in *; lia].
Qed.

Lemma tx_flush_spec fuel rounds wl :
  work_inv wl -> Forall (fun r => env_ok (snd r)) rounds -> 2 * backlog wl + 1 < Z.of_nat fuel ->
  exists wl', wl1271_tx_flush fuel rounds wl = Ret wl' /\ work_keeps wl wl' /\
    (forall h q, is_link h -> is_queue q -> link_queue wl' h q = []).
Proof.
  intros W Hr Hf. apply (tx_flush_rel work_keeps (backlog wl)); try done.
  - apply work_keeps_trans.
  - by intros w w' [].
  - intros w w' K. pose proof (wk_backlog _ _ K). lia.
  - pose proof (stop_queues_keeps WLCORE_QUEUE_STOP_REASON_FLUSH wl W) as K.
    apply env_ok_interludes; [done | apply K | pose proof (wk_backlog _ _ K); lia].
Qed.

(** Anything else in the driver: other contexts may take new frames, add and
    remove interfaces, as long as the invariant holds, no frame is lost and at
    most [B] frames are queued. *)
Record open_step (B : Z) (wl wl' : wl1271) : Prop := {
  os_inv : work_inv wl';
  os_hw : hw wl' = hw wl;
  os_copies s : s <> dummy_packet (hw wl) -> copies s wl <= copies s wl';
  os_backlog : backlog wl <= B -> backlog wl' <= B
}.

Lemma open_step_trans B a b c : open_step B a b -> open_step B b c -> open_step B a c.
Proof.
  intros [I1 H1 C1 B1] [I2 H2 C2 B2]. split; [done | congruence | | auto].
  intros s Hs. etrans; [by apply C1 | apply C2; congruence].
Qed.

Lemma keeps_open B wl wl' : work_keeps wl wl' -> open_step B wl wl'.
Proof. intros [I H C Bl _ _]. split; [done | done | intros s Hs; rewrite C by done; lia | lia]. Qed.

Lemma tx_flush_open B fuel rounds wl :
  work_inv wl -> backlog wl <= B -> 2 * B + 1 < Z.of_nat fuel ->
  interludes (open_step B) fuel rounds (wlcore_stop_queues WLCORE_QUEUE_STOP_REASON_FLUSH wl) ->
  exists wl', wl1271_tx_flush fuel rounds wl = Ret wl' /\ open_step B wl wl' /\
    (forall h q, is_link h -> is_queue q -> link_queue wl' h q = []).
Proof.
  intros W Hb Hf He. apply (tx_flush_rel (open_step B) B); try done.
  - apply open_step_trans.
  - apply keeps_open.
  - by intros w w' [].
  - by intros w w' [].
Qed.

(** ** Entry points *)

Lemma emit_inv e wl :
  (match e with EvStopQueue _ | EvWakeQueue _ => False | _ => True end) ->
  tx_inv wl -> tx_inv (emit e wl).
Proof.
  intros He [A1 A2 A3 A4 A5 A6]. split.
  - by apply (counts_off_frame _ wl).
  - apply (queues_ok_frame wl); try done. intros q. simpl. by destruct e.
  - by apply (ids_ok_frame wl).
  - by apply (vifs_ok_frame wl); try apply (vo_last _ A4).
  - done.
  - done.
Qed.

(** The state after a frame has been queued, before flow control. *)
Definition enqueued (hlid : Z) (skb : nat) (wl : wl1271) : wl1271 :=
  add_queue_count (ac_of wl skb) 1 (skb_queue_tail hlid (ac_of wl skb) skb wl).

Lemma enqueued_inv hlid skb wl :
  tx_inv wl -> link_owned wl hlid -> skb <> dummy_packet (hw wl) ->
  tx_inv (enqueued hlid skb wl) /\
  (forall s, copies s (enqueued hlid skb wl) = copies s wl + is_skb s skb).
Proof.
  intros [A1 A2 A3 A4 A5 A6] [Hh Ho] Hnd. unfold enqueued. set (q := ac_of wl skb).
  assert (is_queue q) as Hq by apply get_queue_range.
  split; [split|].
  - unfold counts_ok. eapply counts_off_ext; [|apply add_queue_count_counts; [|exact Hq];
      apply (set_link_queue_counts (fun _ => 0)); [done..|]].
    + intros q' _. unfold shift, zlen. rewrite length_app. simpl. split_if; lia.
    + intros s [Hs|Hs]%elem_of_app; [by apply (co_placed _ _ A1 hlid q)|].
      apply list_elem_of_singleton in Hs as ->. done.
  - by apply (queues_ok_frame wl).
  - by apply (ids_ok_frame wl).
  - by apply (vifs_ok_frame wl); try apply (vo_last _ A4).
  - done.
  - intros h q' Hh' Hq' Hb. simpl in Hb. assert (h <> hlid) as Hne by (intros ->; congruence).
    change (link_queue (skb_queue_tail hlid q skb wl) h q' = []). unfold skb_queue_tail.
    rewrite (link_queue_set _ _ _ _ _ _ _ A1 Hh Hq), (proj2 (Z.eqb_neq hlid h)) by congruence.
    simpl. by apply A6.
  - intros s. change (copies s (add_queue_count q 1 ?w)) with (copies s w). unfold skb_queue_tail.
    rewrite (set_link_queue_copies s _ _ _ _ _ A1 Hh Hq), occ_app, occ_cons.
    change (occ s []) with 0. lia.
Qed.

(** The frame belongs to no interface, or to one the driver knows. *)
Definition from_listed (wl : wl1271) (skb : nat) : Prop :=
  forall v, control_vif (skb_cb (skb_at wl skb)) = Some v -> v ∈ wlvif_list wl.

(** Accepting a frame from mac80211: it is queued on the tail of its link's
    queue or given back, and never lost. *)
Lemma op_tx_spec skb wl :
  tx_inv wl -> skb <> dummy_packet (hw wl) ->
  from_listed wl skb ->
  let wl' := wl1271_op_tx skb wl in
  let hlid := wl12xx_tx_get_hlid wl (control_vif (skb_cb (skb_at wl skb))) skb
                (control_sta (skb_cb (skb_at wl skb))) in
  let q := ac_of wl skb in
  tx_inv wl' /\ hw wl' = hw wl /\
  (forall s, s <> dummy_packet (hw wl) -> copies s wl' = copies s wl + is_skb s skb) /\
  ((link_queue wl' hlid q = link_queue wl hlid q ++ [skb] /\ is_link hlid) \/
   wl' = emit (EvFreeTxskb skb) wl).
Proof.
  intros H Hnd Hreg. cbv zeta. unfold wl1271_op_tx. cbv zeta. fold (ac_of wl skb).
  set (hlid := wl12xx_tx_get_hlid wl _ skb _). set (q := ac_of wl skb).
  destruct ((hlid =? WL12XX_INVALID_LINK_ID) || _ || _) eqn:Ed.
  { split_and!; [by apply emit_inv | done | | by right]. intros s _. apply emit_copies. }
  apply orb_false_elim in Ed as [[Ed1 Ed2]%orb_false_elim _].
  assert (link_owned wl hlid) as Ho.
  { destruct (control_vif (skb_cb (skb_at wl skb))) as [v|] eqn:Ev.
    - apply negb_false_iff in Ed2. pose proof (inv_vifs _ H) as HV.
      split; [by apply (vo_map _ HV v) | apply (vo_owned _ HV v); [by apply Hreg | done]].
    - unfold hlid. simpl. split; [apply (system_link _ (inv_vifs _ H)) | apply (vo_sysmap _ (inv_vifs _ H))]. }
  pose proof (proj1 Ho) as Hh.
  destruct (enqueued_inv hlid skb wl H Ho Hnd) as [H1 C1].
  change (add_queue_count q 1 (skb_queue_tail hlid q skb wl)) with (enqueued hlid skb wl).
  assert (link_queue (enqueued hlid skb wl) hlid q = link_queue wl hlid q ++ [skb]) as Q1.
  { unfold enqueued, skb_queue_tail. change (link_queue (add_queue_count ?a 1 ?w)) with (link_queue w).
    rewrite (link_queue_set _ _ _ _ _ _ _ (inv_counts _ H) Hh); [|apply get_queue_range].
    fold q. by rewrite !Z.eqb_refl. }
  set (w1 := enqueued hlid skb wl) in *. assert (hw w1 = hw wl) as E1 by done. clearbody w1.
  set (w2 := if _ && _ then wlcore_stop_queue_locked q _ w1 else w1).
  assert (tx_moves none_moved w1 w2 /\ (forall h q', link_queue w2 h q' = link_queue w1 h q')) as [M2 Q2].
  { unfold w2. split_if; [|split; [by apply moves_refl | done]].
    split; [apply stop_queue_moves; [done | apply get_queue_range]|].
    intros h q'. destruct (stop_queue_frame q WLCORE_QUEUE_STOP_REASON_WATERMARK w1) as (r & l & ->). done. }
  clearbody w2.
  assert (forall w, tx_moves none_moved w2 w -> hw w = hw wl /\
    (forall s, s <> dummy_packet (hw wl) -> copies s w = copies s wl + is_skb s skb)) as Fin.
  { intros w M. split; [rewrite (mv_hw _ _ _ M), (mv_hw _ _ _ M2); done|].
    intros s Hs. rewrite (mv_copies _ _ _ M) by (rewrite (mv_hw _ _ _ M2); congruence).
    rewrite (mv_copies _ _ _ M2), C1 by congruence. unfold none_moved. lia. }
  split_if.
  - assert (tx_moves none_moved w2 (emit EvQueueTxWork w2)) as M
      by (apply view_moves; [apply M2 | by apply emit_view]).
    destruct (Fin _ M) as [F1 F2]. split_and!; [apply M | done | done|]. left. split; [|done].
    change (link_queue w2 hlid q = link_queue wl hlid q ++ [skb]). by rewrite Q2.
  - destruct (Fin w2 (moves_refl _ (mv_inv _ _ _ M2))) as [F1 F2].
    split_and!; [apply M2 | done | done|]. left. by rewrite Q2.
Qed.

End Done.
