(* ===== verification/FwStatus.v ===== *)
(** * The firmware status and the accounting of firmware memory (wlcore/main.c)

    At every interrupt the driver reads a status structure with cumulative
    counters of what the firmware has released, and settles its own books with
    it: packets per access category, memory blocks, packets per station, the
    transmit watchdog and the power-save state of the stations. *)

From S2P Require Import Prelude Ieee80211 WlState ChipOps Io Queues LinkQueues.
From S2P Require Import PowerSave TxPath TxAllocFacts TxSched TxInv SchedFacts TxMoves.
From S2P Require Import TxPrep TxWork TxDone TxDoneFacts.

(** ** The status structure *)

(** [struct wl_fw_status_1] and [struct wl_fw_status_2] (wlcore_i.h), read in
    one transfer. *)
Record wl_fw_status := {
  intr : Z;
  fw_rx_counter : Z;
  drv_rx_counter : Z;
  tx_results_counter : Z;
  rx_pkt_descs : list Z;
  fw_localtime : Z;
  link_ps_bitmap : Z;
  link_fast_bitmap : Z;
  total_released_blks : Z;
  tx_total : Z;
  tx_released_pkts : list Z;
  tx_lnk_free_pkts : list Z;
  log_start_addr : Z;
  status_priv : list Z
}.

Definition le32_at (l : list Z) (i : Z) : Z := le_value (take 4 (drop (Z.to_nat i) l)).

(** [WLCORE_FW_STATUS_1_LEN(num_rx_desc)] *)
Definition WLCORE_FW_STATUS_1_LEN (num : Z) : Z := 8 + 4 * num.
(** [sizeof(struct wl_fw_status_2)]: five words, the packet counters, a word. *)
Definition FW_STATUS_2_LEN := 20 + 20 + 4.

Definition decode_status (num : Z) (l : list Z) : wl_fw_status :=
  let s2 := drop (Z.to_nat (WLCORE_FW_STATUS_1_LEN num)) l in
  {| intr := le32_at l 0;
     fw_rx_counter := byte_at l 4;
     drv_rx_counter := byte_at l 5;
     tx_results_counter := byte_at l 7;
     rx_pkt_descs := (fun i => le32_at l (8 + 4 * i)) <$> zseq num;
     fw_localtime := le32_at s2 0;
     link_ps_bitmap := le32_at s2 4;
     link_fast_bitmap := le32_at s2 8;
     total_released_blks := le32_at s2 12;
     tx_total := le32_at s2 16;
     tx_released_pkts := (fun i => byte_at s2 (20 + i)) <$> zseq NUM_TX_QUEUES;
     tx_lnk_free_pkts := (fun i => byte_at s2 (24 + i)) <$> zseq WL12XX_MAX_LINKS;
     log_start_addr := le32_at s2 40;
     status_priv := drop 44 s2 |}.

(** ** Power-save regulation of the stations of an access point *)

Definition wl12xx_irq_ps_regulate_link (wlvif : nat) (hlid tx_pkts : Z) (wl : wl1271) : wl1271 :=
  let fw_ps := test_bit hlid (ap_fw_ps_map wl) in
  let single_sta := active_sta_count wl =? 1 in
  if negb fw_ps || (tx_pkts <? WL1271_PS_STA_MAX_PACKETS)
  then wl12xx_ps_link_end wlvif hlid wl
  else if negb single_sta && fw_ps && (WL1271_PS_STA_MAX_PACKETS <=? tx_pkts)
  then wl12xx_ps_link_start wlvif hlid true wl
  else wl.

(** One station: settle its packet count, then regulate. *)
Definition update_link_status (wlvif : nat) (status : wl_fw_status) (hlid : Z) (wl : wl1271)
    : wl1271 :=
  let freed := zget 0 (tx_lnk_free_pkts status) hlid in
  let cnt := u8 (freed - prev_freed_pkts (link_at wl hlid)) in
  let wl := upd_link hlid (fun lnk =>
              lnk <| prev_freed_pkts := freed |>
                  <| allocated_pkts ::= fun n => u8 (n - cnt) |>) wl in
  wl12xx_irq_ps_regulate_link wlvif hlid (allocated_pkts (link_at wl hlid)) wl.

Definition wl12xx_irq_update_links_status (wlvif : nat) (status : wl_fw_status) (wl : wl1271)
    : wl1271 :=
  let cur_fw_ps_map := link_ps_bitmap status in
  let wl := if negb (ap_fw_ps_map wl =? cur_fw_ps_map)
            then wl <| ap_fw_ps_map := cur_fw_ps_map |> else wl in
  for_range WL12XX_MAX_LINKS (fun hlid wl =>
    if test_bit hlid (ap_sta_hlid_map (vif_at wl wlvif))
    then update_link_status wlvif status hlid wl else wl) wl.

(** ** Settling the books *)

(** The packets of one access category. *)
Definition settle_pkts (status : wl_fw_status) (i : Z) (wl : wl1271) : wl1271 :=
  let rel := zget 0 (tx_released_pkts status) i in
  wl <| tx_allocated_pkts ::= fun l =>
          zset l i (u32 (zget 0 l i - Z.land (u32 (rel - zget 0 (tx_pkts_freed wl) i)) 0xff)) |>
     <| tx_pkts_freed ::= fun l => zset l i rel |>.

(** [freed_blocks], an [int]. *)
Definition freed_blocks (freed total : Z) : Z :=
  if freed <=? total then s32 (u32 (total - freed)) else s32 (0x100000000 - freed + total).

(** The memory blocks, the watchdog and the busy flag. *)
Definition settle_blocks (status : wl_fw_status) (wl : wl1271) : wl1271 :=
  let old_tx_blk_count := tx_blocks_available wl in
  let freed := freed_blocks (tx_blocks_freed wl) (total_released_blks status) in
  let wl := wl <| tx_blocks_freed := total_released_blks status |>
               <| tx_allocated_blocks ::= fun n => u32 (n - freed) |> in
  let wl :=
    if negb (freed =? 0) then
      if negb (tx_allocated_blocks wl =? 0) then wl12xx_rearm_tx_watchdog_locked wl
      else wl <| tx_watchdog_armed := false |>
    else wl in
  let avail := s32 (u32 (tx_total status - tx_allocated_blocks wl)) in
  let wl := wl <| tx_blocks_available := u32 (Z.max (s32 (tx_blocks_available wl)) avail) |> in
  if old_tx_blk_count <? tx_blocks_available wl
  then clear_flag WL1271_FLAG_FW_TX_BUSY wl else wl.

(** Everything after the read. *)
Definition process_status (status : wl_fw_status) (wl : wl1271) : wl1271 :=
  let wl := for_range NUM_TX_QUEUES (settle_pkts status) wl in
  let wl := settle_blocks status wl in
  let wl := fold_left (fun wl v =>
              if is_ap (vif_at wl v) then wl12xx_irq_update_links_status v status wl else wl)
              (wlvif_list wl) wl in
  let '(ns, wl) := getnstimeofday wl in
  wl <| time_offset := Z.shiftr ns 10 - fw_localtime status |>.

Definition wlcore_fw_status (wl : wl1271) : Z * wl_fw_status * wl1271 :=
  let status_len := WLCORE_FW_STATUS_1_LEN (num_rx_desc (hw wl)) + FW_STATUS_2_LEN
                    + fw_status_priv_len (hw wl) in
  let '(ret, data, wl) := wlcore_raw_read (rtable_raw_fw_status (hw wl)) status_len wl in
  let status := decode_status (num_rx_desc (hw wl)) data in
  if ret <? 0 then (ret, status, wl) else (0, status, process_status status wl).

(** ** The transmit watchdog *)

Definition wl12xx_tx_watchdog_work (wl : wl1271) : wl1271 :=
  let wl := wl <| tx_watchdog_armed := false |> in
  if negb (bool_decide (state wl = WLCORE_STATE_ON)) then wl
  else if tx_allocated_blocks wl =? 0 then wl
  else if find_first_bit (roc_map wl) WL12XX_MAX_ROLES <? WL12XX_MAX_ROLES
  then wl12xx_rearm_tx_watchdog_locked wl
  else if negb (scan_idle wl) then wl12xx_rearm_tx_watchdog_locked wl
  else if negb (active_sta_count wl =? 0) then wl12xx_rearm_tx_watchdog_locked wl
  else wl12xx_queue_recovery_work wl.

(** ** Power save keeps the transmit invariant *)

Lemma upd_link_keeps h g wl : (forall x, tx_queue (g x) = tx_queue x) -> work_inv wl ->
  work_keeps wl (upd_link h g wl).
Proof. intros Hg W. apply view_keeps; [done | by apply upd_link_view | done | done]. Qed.

Lemma ps_link_start_keeps v hlid clean wl : work_inv wl -> is_link hlid ->
  work_keeps wl (wl12xx_ps_link_start v hlid clean wl).
Proof.
  intros W Hh. unfold wl12xx_ps_link_start. cbv zeta.
  split_if; [by apply view_keeps|]. split_if; [by apply view_keeps|].
  set (w1 := emit _ wl).
  assert (work_keeps wl w1) as K1 by (apply view_keeps; [done | by apply emit_view | done | done]).
  set (w2 := if clean then _ else w1).
  assert (work_keeps wl w2) as K2.
  { unfold w2. destruct clean; [|exact K1]. eapply work_keeps_trans; [exact K1|].
    apply (drain_link_keeps filtered_status); [apply filtered_keeps | apply K1 | done]. }
  eapply work_keeps_trans; [exact K2|]. apply view_keeps; [apply K2 | by split | done | done].
Qed.

Lemma ps_link_end_keeps v hlid wl : work_inv wl -> work_keeps wl (wl12xx_ps_link_end v hlid wl).
Proof.
  intros W. unfold wl12xx_ps_link_end. cbv zeta. split_if; [by apply view_keeps|].
  split_if; by apply view_keeps.
Qed.

Lemma regulate_keeps v hlid pkts wl : work_inv wl -> is_link hlid ->
  work_keeps wl (wl12xx_irq_ps_regulate_link v hlid pkts wl).
Proof.
  intros W Hh. unfold wl12xx_irq_ps_regulate_link. cbv zeta.
  split_if; [by apply ps_link_end_keeps|]. split_if; [by apply ps_link_start_keeps | by apply view_keeps].
Qed.

(** Loops over the links of an operation that keeps the invariant. *)
Lemma for_keeps n (f : Z -> wl1271 -> wl1271) wl :
  work_inv wl -> (forall i w, 0 <= i < n -> work_inv w -> work_keeps w (f i w)) ->
  work_keeps wl (for_range n f wl).
Proof.
  intros W Hf. apply for_range_inv; [by apply view_keeps|].
  intros w i Hi K. eapply work_keeps_trans; [exact K|]. apply Hf; [done | apply K].
Qed.

Lemma fold_keeps {A} (f : wl1271 -> A -> wl1271) l wl :
  work_inv wl -> (forall w a, a ∈ l -> work_inv w -> work_keeps w (f w a)) ->
  work_keeps wl (fold_left f l wl).
Proof.
  intros W Hf. apply fold_left_inv; [by apply view_keeps|].
  intros w a Ha K. eapply work_keeps_trans; [exact K|]. apply Hf; [done | apply K].
Qed.

Lemma update_link_keeps v status hlid wl : work_inv wl -> is_link hlid ->
  work_keeps wl (update_link_status v status hlid wl).
Proof.
  intros W Hh. unfold update_link_status. cbv zeta. set (w1 := upd_link _ _ wl).
  assert (work_keeps wl w1) as K1 by (by apply upd_link_keeps).
  eapply work_keeps_trans; [exact K1|]. apply regulate_keeps; [apply K1 | done].
Qed.

Lemma update_links_keeps v status wl : work_inv wl ->
  work_keeps wl (wl12xx_irq_update_links_status v status wl).
Proof.
  intros W. unfold wl12xx_irq_update_links_status. cbv zeta.
  set (w1 := if negb _ then _ else wl).
  assert (work_keeps wl w1) as K1 by (unfold w1; split_if; by apply view_keeps).
  eapply work_keeps_trans; [exact K1|]. apply for_keeps; [apply K1|].
  intros i w Hi Wi. split_if; [by apply update_link_keeps | by apply view_keeps].
Qed.

Lemma settle_pkts_view status i wl : same_view wl (settle_pkts status i wl).
Proof. by split. Qed.

Lemma settle_blocks_keeps status wl : work_inv wl -> work_keeps wl (settle_blocks status wl).
Proof.
  intros W. unfold settle_blocks. cbv zeta.
  set (w1 := _ <| tx_allocated_blocks ::= _ |>).
  assert (work_keeps wl w1) as K1 by (by apply view_keeps).
  set (w2 := if negb _ then _ else w1).
  assert (work_keeps wl w2) as K2.
  { eapply work_keeps_trans; [exact K1|]. pose proof (wk_inv _ _ K1) as W1. unfold w2.
    split_if; [|by apply view_keeps]. split_if; [|by apply view_keeps].
    apply view_keeps; [done | apply watchdog_view | |];
      unfold wl12xx_rearm_tx_watchdog_locked; by split_if. }
  eapply work_keeps_trans; [exact K2|]. pose proof (wk_inv _ _ K2) as W2. clearbody w2.
  split_if; apply view_keeps; try done. etrans; [|by apply clear_flag_view]. by split.
Qed.

Lemma process_status_keeps status wl : work_inv wl -> work_keeps wl (process_status status wl).
Proof.
  intros W. unfold process_status.
  set (w1 := for_range NUM_TX_QUEUES (settle_pkts status) wl).
  assert (work_keeps wl w1) as K1
    by (apply for_keeps; [done|]; intros; by apply view_keeps).
  set (w2 := settle_blocks status w1).
  assert (work_keeps wl w2) as K2
    by (eapply work_keeps_trans; [exact K1 | apply settle_blocks_keeps, K1]).
  cbv zeta. set (w3 := fold_left _ (wlvif_list w2) w2).
  assert (work_keeps wl w3) as K3.
  { eapply work_keeps_trans; [exact K2|]. apply fold_keeps; [apply K2|].
    intros w v _ Wv. split_if; [by apply update_links_keeps | by apply view_keeps]. }
  pose proof (getnstimeofday_view w3) as V.
  assert (skbs (snd (getnstimeofday w3)) = skbs w3 /\ aggr_buf (snd (getnstimeofday w3)) = aggr_buf w3)
    as [E1 E2] by (unfold getnstimeofday; by destruct (clock w3)).
  destruct (getnstimeofday w3) as [ns w4]. simpl in V, E1, E2.
  eapply work_keeps_trans; [exact K3|]. apply view_keeps; [apply K3 | | done | done].
  etrans; [exact V | by split].
Qed.

Lemma fw_status_keeps wl : work_inv wl -> work_keeps wl (snd (wlcore_fw_status wl)).
Proof.
  intros W. unfold wlcore_fw_status. cbv zeta.
  pose proof (raw_read_io_frame (rtable_raw_fw_status (hw wl))) as F.
  match goal with |- context [wlcore_raw_read _ ?n wl] => specialize (F n wl) end.
  destruct (wlcore_raw_read _ _ wl) as [[ret data] w1]. simpl in F.
  assert (work_keeps wl w1) as K1 by (by apply io_keeps).
  split_if; [exact K1|]. simpl. eapply work_keeps_trans; [exact K1|].
  apply process_status_keeps, K1.
Qed.
