(* ===== verification/MemPool.v ===== *)
(** * Firmware memory: the driver's books are exact

    The firmware owns [T] memory blocks for transmission.  The driver takes
    blocks for each frame it hands over and learns from wrapping cumulative
    counters how many the firmware has released.  With [A] blocks taken and [R]
    released since the firmware started (ghost counters that do not wrap),
    [pool_ok] says that the driver's three block counters are exactly what they
    should be and that the watchdog runs while blocks are outstanding. *)

From S2P Require Import Prelude Ieee80211 WlState ChipOps Io Queues LinkQueues.
From S2P Require Import PowerSave TxPath TxAllocFacts TxSched TxInv SchedFacts TxMoves.
From S2P Require Import TxPrep TxWork TxDone TxDoneFacts FwStatus.

Record pool_ok (T A R : Z) (wl : wl1271) : Prop := {
  po_total : 0 <= T < 2 ^ 31;
  po_range : 0 <= R <= A /\ A - R <= T;
  po_alloc : tx_allocated_blocks wl = A - R;
  po_freed : tx_blocks_freed wl = u32 R;
  po_avail : tx_blocks_available wl = T - (A - R);
  po_watchdog : state wl = WLCORE_STATE_ON -> tx_watchdog_armed wl = negb (A =? R)
}.

Lemma s32_u32 x : u32 (s32 x) = u32 x.
Proof.
  unfold s32, swrap, u32. rewrite wrap_sub_l. f_equal. lia.
Qed.

(** The released count survives the wrap of the firmware's counter. *)
Lemma freed_blocks_spec R R' : 0 <= R <= R' -> R' - R < 2 ^ 31 ->
  freed_blocks (u32 R) (u32 R') = R' - R.
Proof.
  intros H1 H2. pose proof (u32_range R) as B. pose proof (u32_range R') as B'.
  unfold freed_blocks, u32, wrap in *.
  pose proof (Z.div_mod R (2 ^ 32)) as D. pose proof (Z.div_mod R' (2 ^ 32)) as D'.
  set (k := R / 2 ^ 32) in *. set (k' := R' / 2 ^ 32) in *.
  assert (k' = k \/ k' = k + 1) as Hk by nia.
  split_if; bool_to_prop.
  - assert (k' = k) by nia. rewrite Z.mod_small by lia. rewrite s32_id; lia.
  - assert (k' = k + 1) by nia. rewrite s32_id; lia.
Qed.

(** Settling the books with the firmware's counters. *)
Lemma settle_blocks_pool T A R R' status wl :
  pool_ok T A R wl -> R <= R' <= A ->
  total_released_blks status = u32 R' -> tx_total status = T ->
  pool_ok T A R' (settle_blocks status wl) /\
  (R < R' -> flag (settle_blocks status wl) WL1271_FLAG_FW_TX_BUSY = false) /\
  (R = R' -> flag (settle_blocks status wl) WL1271_FLAG_FW_TX_BUSY = flag wl WL1271_FLAG_FW_TX_BUSY).
Proof.
  intros [HT [HR HA] Ha Hf Hv Hw] HR' Et ET. unfold settle_blocks. cbv zeta.
  rewrite Hf, Et, ET, freed_blocks_spec by lia.
  set (w1 := _ <| tx_allocated_blocks ::= _ |>).
  assert (tx_allocated_blocks w1 = A - R') as E1 by (simpl; rewrite Ha, u32_id; lia).
  assert (tx_blocks_freed w1 = u32 R') as E2 by done.
  assert (tx_blocks_available w1 = T - (A - R)) as E3 by done.
  assert (state w1 = state wl) as E4 by done.
  assert (tx_watchdog_armed w1 = tx_watchdog_armed wl) as E5 by done.
  assert (forall i, flag w1 i = flag wl i) as E6 by done.
  clearbody w1. rewrite Hv.
  set (w2 := if negb _ then _ else w1).
  assert (tx_allocated_blocks w2 = A - R' /\ tx_blocks_freed w2 = u32 R' /\
          tx_blocks_available w2 = T - (A - R) /\ state w2 = state wl /\
          (forall i, flag w2 i = flag wl i) /\
          (state wl = WLCORE_STATE_ON -> tx_watchdog_armed w2 = negb (A =? R'))) as (F1 & F2 & F3 & F4 & F6 & F5).
  { unfold w2, wl12xx_rearm_tx_watchdog_locked.
    destruct (R' - R =? 0) eqn:D; simpl; bool_to_prop.
    - split_and!; try congruence. intros Hs. rewrite E5, (Hw Hs). by replace R' with R by lia.
    - rewrite E1. destruct (A - R' =? 0) eqn:D2; simpl; bool_to_prop.
      + split_and!; try done. intros _. rewrite (proj2 (Z.eqb_eq A R')) by lia. done.
      + split_and!; try done. intros _. rewrite (proj2 (Z.eqb_neq A R')) by lia. done. }
  clearbody w2. rewrite F1, F3.
  rewrite (u32_id (T - (A - R'))), !s32_id by lia. rewrite Z.max_r by lia.
  rewrite u32_id by lia.
  set (w3 := w2 <| tx_blocks_available := _ |>).
  assert (pool_ok T A R' w3) as P.
  { split; simpl; try done; try lia. intros Hs. apply F5. by rewrite <- F4. }
  assert (tx_blocks_available w3 = T - (A - R')) as F7 by done.
  assert (forall i, flag w3 i = flag wl i) as F8 by exact F6. clearbody w3.
  rewrite F7. destruct (T - (A - R) <? T - (A - R')) eqn:D; bool_to_prop.
  - split_and!; [|intros _; apply flag_clear_same | lia].
    destruct P. by split.
  - split_and!; [done | lia | intros _; apply F8].
Qed.

(** The accounting part of an allocation: [n] blocks for a frame of category
    [ac], and one packet more on the station's link. *)
Definition charge (n ac : Z) (cond : wl1271 -> bool) (hlid : Z) (wl : wl1271) : wl1271 :=
  let wl := wl <| tx_blocks_available ::= fun m => u32 (m - n) |>
               <| tx_allocated_blocks ::= fun m => u32 (m + n) |> in
  let wl := if tx_allocated_blocks wl =? n then wl12xx_rearm_tx_watchdog_locked wl else wl in
  let wl := wl <| tx_allocated_pkts ::= fun l => zset l ac (u32 (zget 0 l ac + 1)) |> in
  if cond wl then upd_link hlid (fun lnk => lnk <| allocated_pkts ::= fun m => u8 (m + 1) |>) wl
  else wl.

Lemma pool_ok_fields T A R wl wl' :
  tx_allocated_blocks wl' = tx_allocated_blocks wl -> tx_blocks_freed wl' = tx_blocks_freed wl ->
  tx_blocks_available wl' = tx_blocks_available wl ->
  (state wl' = WLCORE_STATE_ON -> state wl = WLCORE_STATE_ON /\
     tx_watchdog_armed wl' = tx_watchdog_armed wl) ->
  pool_ok T A R wl -> pool_ok T A R wl'.
Proof.
  intros E1 E2 E3 E4 [? ? ? ? ? Hw]. split; try congruence; try done.
  intros Hs. destruct (E4 Hs) as [Hs' ->]. by apply Hw.
Qed.

Lemma charge_pool T A R n ac cond hlid wl :
  pool_ok T A R wl -> 0 < n <= tx_blocks_available wl ->
  pool_ok T (A + n) R (charge n ac cond hlid wl).
Proof.
  intros [HT [HR HA] Ha Hf Hv Hw] Hn. rewrite Hv in Hn. unfold charge. cbv zeta.
  set (w1 := _ <| tx_allocated_blocks ::= _ |>).
  assert (tx_allocated_blocks w1 = A + n - R) as E1 by (simpl; rewrite Ha, u32_id; lia).
  assert (tx_blocks_available w1 = T - (A + n - R)) as E2 by (simpl; rewrite Hv, u32_id; lia).
  assert (tx_blocks_freed w1 = u32 R) as E3 by done.
  assert (state w1 = state wl) as E4 by done.
  assert (tx_watchdog_armed w1 = tx_watchdog_armed wl) as E5 by done.
  clearbody w1. set (w2 := if _ =? n then _ else w1).
  assert (pool_ok T (A + n) R w2) as P2.
  { unfold w2, wl12xx_rearm_tx_watchdog_locked. rewrite E1.
    rewrite (proj2 (Z.eqb_neq (A + n - R) 0)) by lia.
    split_if; bool_to_prop; (split; [done | lia | done | done | done |]); intros Hs'; simpl.
    - by rewrite (proj2 (Z.eqb_neq (A + n) R)) by lia.
    - rewrite E5, Hw by congruence.
      rewrite (proj2 (Z.eqb_neq (A + n) R)), (proj2 (Z.eqb_neq A R)) by lia. done. }
  clearbody w2. split_if; by apply (pool_ok_fields _ _ _ w2).
Qed.

Section Alloc.
Context `{laws : wlcore_ops_laws}.

(** The buffer part of an allocation. *)
Definition described (skb : nat) (total_len id : Z) (gem : bool) (wl : wl1271) : wl1271 :=
  let spare := get_spare_blocks wl gem in
  let w := alloc_state id skb wl in
  let blocks := calc_tx_blocks w total_len spare in
  let w := upd_skb skb (skb_push (total_len - skb_len (skb_at wl skb))) w in
  upd_skb skb (fun s => s <| skb_data ::= with_desc (fun d =>
    (set_tx_desc_blocks w d blocks spare) <| d_id := u8 id |>) |>) w.

Lemma granted_charge wlvif skb total_len hlid id gem wl : exists ac cond,
  granted wlvif skb total_len hlid id gem wl =
    charge (calc_tx_blocks (alloc_state id skb wl) total_len (get_spare_blocks wl gem))
      ac cond hlid (described skb total_len id gem wl).
Proof.
  eexists (wl1271_tx_get_queue _), (fun w => match wlvif with
    | Some v => negb (wl12xx_is_dummy_packet w skb) && is_ap (vif_at w v)
                && test_bit hlid (ap_sta_hlid_map (vif_at w v))
    | None => false end).
  unfold granted, charge, described. cbv zeta. destruct wlvif; reflexivity.
Qed.

Lemma described_pool T A R skb total_len id gem wl :
  pool_ok T A R wl -> pool_ok T A R (described skb total_len id gem wl).
Proof. by apply pool_ok_fields. Qed.

(** Handing a frame to the firmware takes the blocks it needs, and only then. *)
Lemma tx_allocate_pool T A R wlvif skb extra off hlid gem wl :
  ids_ok wl -> pool_ok T A R wl -> 0 <= extra <= 4 -> skb_len (skb_at wl skb) <= 60000 ->
  let total_len := skb_len (skb_at wl skb) + TX_DESC_SIZE + extra in
  let n := calc_tx_blocks wl total_len (get_spare_blocks wl gem) in
  let '(ret, wl') := wl1271_tx_allocate wlvif skb extra off hlid gem wl in
  (ret = - EAGAIN /\ wl' = wl /\ aggr_buf_size (hw wl) < u32 (off + total_len)) \/
  (ret = - EBUSY /\ u32 (off + total_len) <= aggr_buf_size (hw wl) /\
   (tx_frames_cnt wl = num_tx_desc (hw wl) \/ tx_blocks_available wl < n) /\
   exists f, wl' = wl <| flags := f |> /\
     forall i, i <> WL1271_FLAG_FW_TX_BUSY -> test_bit i f = flag wl i) \/
  (ret = 0 /\ u32 (off + total_len) <= aggr_buf_size (hw wl) /\ 0 < n <= tx_blocks_available wl /\
   pool_ok T (A + n) R wl' /\
   exists id, 0 <= id < num_tx_desc (hw wl) /\ frame_at wl id = None /\ frame_at wl' id = Some skb).
Proof.
  intros Hi P He Hl. cbv zeta.
  pose proof (tx_allocate_cases wlvif skb extra off hlid gem wl Hi) as C. cbv zeta in C.
  destruct (wl1271_tx_allocate wlvif skb extra off hlid gem wl) as [ret wl'].
  pose proof (zlen_nonneg (skb_data (skb_at wl skb))) as Hn0. fold (skb_len (skb_at wl skb)) in Hn0.
  set (tl := skb_len (skb_at wl skb) + TX_DESC_SIZE + extra) in *.
  assert (0 < tl <= 65536) as Htl by (unfold tl, TX_DESC_SIZE; lia).
  rewrite (u32_id tl) in C by lia. pose proof (get_spare_blocks_bound wl gem) as Hs.
  assert (forall id, calc_tx_blocks (alloc_state id skb wl) tl (get_spare_blocks wl gem)
    = calc_tx_blocks wl tl (get_spare_blocks wl gem)) as En by (intros id; by apply calc_tx_blocks_hw).
  assert (get_spare_blocks wl gem < calc_tx_blocks wl tl (get_spare_blocks wl gem)) as Hpos
    by (apply calc_tx_blocks_pos; lia).
  destruct C as [(-> & -> & B) | [(-> & f & -> & Hf & B & Hb) | (-> & B & id & Hid & Hfr & Hbit & Hb & ->)]].
  - by left.
  - right. left. split_and!; [done | done | | by exists f].
    destruct Hb as [?|[id Hb]]; [by left|]. rewrite En in Hb. by right.
  - right. right. split_and!; [done | done | lia | by rewrite En in Hb | |].
    + destruct (granted_charge wlvif skb tl hlid id gem wl) as (ac & cond & ->). rewrite En in *.
      apply charge_pool; [by apply described_pool | split; [lia | exact Hb]].
    + exists id. split_and!; [lia | lia | done | by apply granted_frame].
Qed.

End Alloc.

(** The watchdog keeps running while the firmware holds blocks, or the chip is
    recovered: blocks can not stay outstanding unobserved. *)
Lemma tx_watchdog_pool T A R wl :
  pool_ok T A R wl -> pool_ok T A R (wl12xx_tx_watchdog_work wl).
Proof.
  intros [HT [HR HA] Ha Hf Hv Hw]. unfold wl12xx_tx_watchdog_work. cbv zeta.
  set (w := wl <| tx_watchdog_armed := false |>).
  assert (forall w', tx_allocated_blocks w' = A - R -> tx_blocks_freed w' = u32 R ->
    tx_blocks_available w' = T - (A - R) ->
    (state w' = WLCORE_STATE_ON -> tx_watchdog_armed w' = negb (A =? R)) -> pool_ok T A R w') as I
    by done.
  change (state w) with (state wl). change (tx_allocated_blocks w) with (tx_allocated_blocks wl).
  assert (tx_allocated_blocks wl <> 0 -> pool_ok T A R (wl12xx_rearm_tx_watchdog_locked w)) as Re.
  { intros Hn. unfold wl12xx_rearm_tx_watchdog_locked. change (tx_allocated_blocks w) with (tx_allocated_blocks wl).
    rewrite (proj2 (Z.eqb_neq _ _) Hn). apply I; try done. intros _. simpl.
    rewrite (proj2 (Z.eqb_neq A R)) by lia. done. }
  destruct (bool_decide_reflect (state wl = WLCORE_STATE_ON)) as [Hs|Hs]; simpl.
  2: { by apply I. }
  split_if; bool_to_prop.
  { apply I; try done. intros _. simpl. rewrite (proj2 (Z.eqb_eq A R)) by lia. done. }
  specialize (Re E). split_if; [exact Re|]. split_if; [exact Re|]. split_if; [exact Re|].
  unfold wl12xx_queue_recovery_work. change (state w) with (state wl). rewrite Hs.
  by apply I.
Qed.

(** ** Packets per access category *)

(** [a i] packets of category [i] handed over and [r i] released so far. *)
Record pkts_ok (a r : Z -> Z) (wl : wl1271) : Prop := {
  pk_len : zlen (tx_allocated_pkts wl) = NUM_TX_QUEUES;
  pk_flen : zlen (tx_pkts_freed wl) = NUM_TX_QUEUES;
  pk_range i : is_queue i -> 0 <= r i <= a i /\ a i - r i < 2 ^ 32;
  pk_alloc i : is_queue i -> zget 0 (tx_allocated_pkts wl) i = a i - r i;
  pk_freed i : is_queue i -> zget 0 (tx_pkts_freed wl) i = u8 (r i)
}.

(** The 8-bit counter is enough as long as fewer than 256 packets are released
    between two readings. *)
Lemma released_delta r r' : 0 <= r <= r' -> r' - r < 256 ->
  Z.land (u32 (u8 r' - u8 r)) 0xff = r' - r.
Proof.
  intros H1 H2. rewrite land_255. unfold u8, u32.
  assert (forall x, wrap 8 (wrap 32 x) = wrap 8 x) as W.
  { intros x. unfold wrap. change (2 ^ 32) with (2 ^ 8 * 2 ^ 24).
    rewrite Z.rem_mul_r by lia. rewrite Z.mul_comm, Z.mod_add by lia. apply Z.mod_mod. lia. }
  rewrite W, wrap_sub_l, wrap_sub_r. apply wrap_id. lia.
Qed.

Lemma settle_pkts_ok a r r' status wl :
  pkts_ok a r wl ->
  (forall i, is_queue i -> r i <= r' i <= a i /\ r' i - r i < 256 /\
     zget 0 (tx_released_pkts status) i = u8 (r' i)) ->
  pkts_ok a r' (for_range NUM_TX_QUEUES (settle_pkts status) wl).
Proof.
  intros P H.
  pose proof (for_range_ind (fun k w => pkts_ok a (fun i => if i <? k then r' i else r i) w)
    NUM_TX_QUEUES (settle_pkts status) wl) as L.
  destruct L as [L1 L2 L3 L4 L5].
  - done.
  - destruct P as [P1 P2 P3 P4 P5]. split; try done; intros i Hi; unfold is_queue in Hi;
      (destruct (i <? 0) eqn:E; bool_to_prop; [lia|]); eauto.
  - clear P. intros w k Hk [P1 P2 P3 P4 P5]. destruct (H k Hk) as (B & D & Er).
    pose proof (P3 k Hk) as R3. pose proof (P4 k Hk) as R4. pose proof (P5 k Hk) as R5.
    rewrite Z.ltb_irrefl in R3, R4, R5.
    assert (forall i, i <> k -> (i <? k + 1) = (i <? k)) as Ne.
    { intros i Hi. destruct (i <? k) eqn:E1, (i <? k + 1) eqn:E2; bool_to_prop; try done; lia. }
    assert (forall x y : Z, (if k <? k + 1 then x else y) = x) as Ek
      by (intros; rewrite (proj2 (Z.ltb_lt _ _)); [done | lia]).
    set (w' := settle_pkts status k w).
    assert (tx_allocated_pkts w' = zset (tx_allocated_pkts w) k (u32 (zget 0 (tx_allocated_pkts w) k
              - Z.land (u32 (zget 0 (tx_released_pkts status) k - zget 0 (tx_pkts_freed w) k)) 0xff)))
      as E1 by done.
    assert (tx_pkts_freed w' = zset (tx_pkts_freed w) k (zget 0 (tx_released_pkts status) k)) as E2 by done.
    clearbody w'. split; rewrite ?E1, ?E2; try (by rewrite zlen_zset); cbv beta.
    + intros i Hi. destruct (decide (i = k)) as [->|Hne]; [rewrite Ek; lia | rewrite Ne by done; auto].
    + intros i Hi. rewrite zget_zset by (by rewrite P1). destruct (k =? i) eqn:E; bool_to_prop.
      * subst i. rewrite Ek, R4, R5, Er, released_delta, u32_id; lia.
      * rewrite Ne by done. auto.
    + intros i Hi. rewrite zget_zset by (by rewrite P2). destruct (k =? i) eqn:E; bool_to_prop.
      * subst i. by rewrite Ek, Er.
      * rewrite Ne by done. auto.
  - split; try done; intros i Hi; specialize (L3 i Hi); specialize (L4 i Hi); specialize (L5 i Hi);
      unfold is_queue in Hi; rewrite (proj2 (Z.ltb_lt i NUM_TX_QUEUES)) in * by lia; done.
Qed.

(** ** The whole status *)

(** The books: block and packet counters, the watchdog and the busy flag. *)
Definition books (wl : wl1271) :=
  (tx_allocated_blocks wl, tx_blocks_freed wl, tx_blocks_available wl, tx_watchdog_armed wl,
   state wl, tx_allocated_pkts wl, tx_pkts_freed wl, flags wl).

Lemma drain_link_books g hlid wl : keeps_control g -> counts_ok wl -> is_link hlid ->
  books (drain_link hlid (status_body g) wl) = books wl.
Proof.
  intros Hg H Hh. destruct (drain_link_spec hlid (status_body g) wl (complete_skb_completes g Hg) H Hh)
    as (_ & _ & (n & k & c & r & l & ->) & _). reflexivity.
Qed.

Lemma ps_link_end_books v hlid wl : books (wl12xx_ps_link_end v hlid wl) = books wl.
Proof. unfold wl12xx_ps_link_end. cbv zeta. split_if; [done|]. by split_if. Qed.

Lemma ps_link_start_books v hlid clean wl : counts_ok wl -> is_link hlid ->
  books (wl12xx_ps_link_start v hlid clean wl) = books wl.
Proof.
  intros H Hh. unfold wl12xx_ps_link_start. cbv zeta. split_if; [done|]. split_if; [done|].
  destruct clean; [|done]. set (w2 := emit _ wl).
  etrans; [|apply (drain_link_books filtered_status hlid w2)]; try done.
  by apply (counts_off_frame _ wl).
Qed.

Lemma update_link_books v status hlid wl : work_inv wl -> is_link hlid ->
  books (update_link_status v status hlid wl) = books wl.
Proof.
  intros W Hh. unfold update_link_status. cbv zeta. set (w1 := upd_link _ _ wl).
  assert (work_keeps wl w1) as K by (by apply upd_link_keeps).
  change (books wl) with (books w1). apply wk_inv in K. clearbody w1.
  unfold wl12xx_irq_ps_regulate_link. cbv zeta.
  split_if; [apply ps_link_end_books|]. split_if; [|done]. apply ps_link_start_books; [apply K | done].
Qed.

Lemma update_links_books v status wl : work_inv wl ->
  books (wl12xx_irq_update_links_status v status wl) = books wl.
Proof.
  intros W. unfold wl12xx_irq_update_links_status. cbv zeta.
  set (w1 := if negb _ then _ else wl).
  assert (work_inv w1 /\ books w1 = books wl) as [W1 <-].
  { unfold w1. split_if; [|done]. split; [|done]. apply (wk_inv wl). by apply view_keeps. }
  clearbody w1. clear W.
  cut (work_inv (for_range WL12XX_MAX_LINKS (fun hlid wl0 =>
         if test_bit hlid (ap_sta_hlid_map (vif_at wl0 v))
         then update_link_status v status hlid wl0 else wl0) w1) /\
       books (for_range WL12XX_MAX_LINKS (fun hlid wl0 =>
         if test_bit hlid (ap_sta_hlid_map (vif_at wl0 v))
         then update_link_status v status hlid wl0 else wl0) w1) = books w1); [by intros []|].
  apply (for_range_inv (fun w => work_inv w /\ books w = books w1)); [done|].
  intros w i Hi [Wi <-]. split_if; [|done].
  split; [apply (wk_inv w); by apply update_link_keeps | by apply update_link_books].
Qed.

Lemma process_status_books status wl : work_inv wl ->
  books (process_status status wl)
  = books (settle_blocks status (for_range NUM_TX_QUEUES (settle_pkts status) wl)).
Proof.
  intros W. unfold process_status.
  assert (work_inv (settle_blocks status (for_range NUM_TX_QUEUES (settle_pkts status) wl))) as W2.
  { eapply wk_inv, settle_blocks_keeps, wk_inv, for_keeps; [exact W|]. intros. by apply view_keeps. }
  set (w2 := settle_blocks status _) in *. clearbody w2. cbv zeta.
  set (w3 := fold_left _ (wlvif_list w2) w2).
  assert (work_inv w3 /\ books w3 = books w2) as [_ E3].
  { unfold w3. apply (fold_left_inv (fun w => work_inv w /\ books w = books w2)); [done|].
    intros w v _ [Wv <-]. split_if; [|done].
    split; [apply (wk_inv w); by apply update_links_keeps | by apply update_links_books]. }
  rewrite <- E3. unfold getnstimeofday. by destruct (clock w3).
Qed.

Lemma settle_pkts_pool T A R status wl : pool_ok T A R wl ->
  pool_ok T A R (for_range NUM_TX_QUEUES (settle_pkts status) wl).
Proof.
  intros P. apply (for_range_inv (pool_ok T A R)); [done|].
  intros w i _ Pi. by apply (pool_ok_fields _ _ _ w).
Qed.

(** A status whose counters say that [R'] blocks and [r' i] packets of each
    category have been released since the firmware started. *)
Record status_reports (T R' : Z) (r' : Z -> Z) (status : wl_fw_status) : Prop := {
  sr_blocks : total_released_blks status = u32 R';
  sr_total : tx_total status = T;
  sr_pkts i : is_queue i -> zget 0 (tx_released_pkts status) i = u8 (r' i)
}.

Lemma books_pool T A R wl wl' : books wl' = books wl -> pool_ok T A R wl -> pool_ok T A R wl'.
Proof. unfold books. intros [= E1 E2 E3 E4 E5 _ _ _]. apply pool_ok_fields; try done. by rewrite E5. Qed.

Lemma books_pkts a r wl wl' : books wl' = books wl -> pkts_ok a r wl -> pkts_ok a r wl'.
Proof. unfold books. intros [= _ _ _ _ _ E6 E7 _] []. split; rewrite ?E6, ?E7; done. Qed.

Lemma settle_blocks_pkts a r status wl : pkts_ok a r wl -> pkts_ok a r (settle_blocks status wl).
Proof.
  intros P. assert (tx_allocated_pkts (settle_blocks status wl) = tx_allocated_pkts wl /\
                    tx_pkts_freed (settle_blocks status wl) = tx_pkts_freed wl) as [E1 E2].
  { unfold settle_blocks, wl12xx_rearm_tx_watchdog_locked. cbv zeta. by repeat split_if. }
  destruct P. split; rewrite ?E1, ?E2; done.
Qed.

Lemma process_status_settles T A R R' a r r' status wl :
  work_inv wl -> pool_ok T A R wl -> pkts_ok a r wl -> status_reports T R' r' status ->
  R <= R' <= A -> (forall i, is_queue i -> r i <= r' i <= a i /\ r' i - r i < 256) ->
  let wl' := process_status status wl in
  work_keeps wl wl' /\ pool_ok T A R' wl' /\ pkts_ok a r' wl' /\
  (R < R' -> flag wl' WL1271_FLAG_FW_TX_BUSY = false).
Proof.
  intros W P K [S1 S2 S3] HR Hr. cbv zeta.
  pose proof (process_status_books status wl W) as B.
  assert (pkts_ok a r' (for_range NUM_TX_QUEUES (settle_pkts status) wl)) as K1.
  { apply (settle_pkts_ok a r); [done|]. intros i Hi. destruct (Hr i Hi). eauto. }
  pose proof (settle_pkts_pool T A R status wl P) as P1.
  destruct (settle_blocks_pool T A R R' status _ P1 HR S1 S2) as (P2 & F & _).
  split_and!.
  - by apply process_status_keeps.
  - by eapply books_pool.
  - eapply books_pkts; [exact B|]. by apply settle_blocks_pkts.
  - intros Hlt. rewrite <- (F Hlt). unfold flag. unfold books in B. injection B as _ _ _ _ _ _ _ E. by rewrite E.
Qed.
