(* ===== verification/TxExact.v ===== *)
(** * Exact effects of the transmit operations

    What accepting a frame, allocating for it, placing it in the aggregation
    buffer and completing it do to the state, field by field. *)

From S2P Require Import Prelude Ieee80211 WlState ChipOps Io Queues LinkQueues.
From S2P Require Import PowerSave TxPath TxAllocFacts TxSched TxInv SchedFacts TxMoves.
From S2P Require Import TxPrep TxWork TxDone TxDoneFacts.

(** ** Accepting a frame *)

(** The link a frame is sent on. *)
Definition link_of (wl : wl1271) (skb : nat) : Z :=
  wl12xx_tx_get_hlid wl (control_vif (skb_cb (skb_at wl skb))) skb (control_sta (skb_cb (skb_at wl skb))).

Definition queue_count (wl : wl1271) (q : Z) : Z := zget 0 (tx_queue_count wl) q.

(** The driver takes a frame when its link is valid and belongs to its
    interface, and its queue is not stopped, or the watermark is among the
    reasons it is stopped for. *)
Record admits (wl : wl1271) (skb : nat) : Prop := {
  ad_link : link_of wl skb <> WL12XX_INVALID_LINK_ID;
  ad_own v : control_vif (skb_cb (skb_at wl skb)) = Some v ->
    test_bit (link_of wl skb) (vif_links_map (vif_at wl v)) = true;
  ad_queue : reasons_at wl (ac_of wl skb) = 0 \/
    test_bit (reason_bit WLCORE_QUEUE_STOP_REASON_WATERMARK) (reasons_at wl (ac_of wl skb)) = true
}.

(** The frame is at the tail of its queue, which is one longer; a queue that
    reaches the high watermark is stopped for it, and mac80211 is told if it
    was running; the transmit work is asked for unless it is due anyway; the
    rest of the state is as it was. *)
Record tx_accepted (skb : nat) (wl wl' : wl1271) : Prop := {
  ta_queues h i : is_queue i -> link_queue wl' h i
    = link_queue wl h i ++ if (link_of wl skb =? h) && (ac_of wl skb =? i) then [skb] else [];
  ta_counts i : is_queue i -> queue_count wl' i = queue_count wl i + if ac_of wl skb =? i then 1 else 0;
  ta_reasons i b : is_queue i -> test_bit b (reasons_at wl' i)
    = test_bit b (reasons_at wl i)
      || (ac_of wl skb =? i) && (WL1271_TX_QUEUE_HIGH_WATERMARK <=? queue_count wl' i)
         && (reason_bit WLCORE_QUEUE_STOP_REASON_WATERMARK =? b);
  ta_log : log wl' =
    (if flag wl WL1271_FLAG_FW_TX_BUSY || flag wl WL1271_FLAG_TX_PENDING then [] else [EvQueueTxWork])
    ++ (if (WL1271_TX_QUEUE_HIGH_WATERMARK <=? queue_count wl' (ac_of wl skb))
           && (reasons_at wl (ac_of wl skb) =? 0)
        then [EvStopQueue (wl1271_tx_get_mac80211_queue (ac_of wl skb))] else [])
    ++ log wl;
  ta_rest : wl' = wl <| links := links wl' |> <| tx_queue_count := tx_queue_count wl' |>
                     <| queue_stop_reasons := queue_stop_reasons wl' |> <| log := log wl' |>
}.

Lemma reasons_set q v i wl : queues_ok wl -> is_queue q ->
  reasons_at (set_reasons q v wl) i = if q =? i then v else reasons_at wl i.
Proof.
  intros Hok Hq. unfold reasons_at, set_reasons. simpl.
  rewrite zget_zset by (rewrite (reasons_len _ Hok); exact Hq). by rewrite Z.eqb_sym.
Qed.

Lemma op_tx_refuses skb wl : ~ admits wl skb -> wl1271_op_tx skb wl = emit (EvFreeTxskb skb) wl.
Proof.
  intros H. unfold wl1271_op_tx. cbv zeta. fold (ac_of wl skb) (link_of wl skb). split_if; [done|].
  exfalso. apply H. apply orb_false_elim in E as [[H1 H2]%orb_false_elim H3].
  split.
  - by apply Z.eqb_neq.
  - intros v Ev. rewrite Ev in H2. by apply negb_false_iff.
  - unfold wlcore_is_queue_stopped, wlcore_is_queue_stopped_by_reason in H3.
    destruct (Z.eqb_spec (reasons_at wl (ac_of wl skb)) 0); [by left|]. right.
    simpl in H3. by apply negb_false_iff.
Qed.

Lemma admits_guard skb wl : admits wl skb ->
  (link_of wl skb =? WL12XX_INVALID_LINK_ID)
  || match control_vif (skb_cb (skb_at wl skb)) with
     | Some v => negb (test_bit (link_of wl skb) (vif_links_map (vif_at wl v)))
     | None => false
     end
  || (wlcore_is_queue_stopped wl (ac_of wl skb)
      && negb (wlcore_is_queue_stopped_by_reason wl (ac_of wl skb) WLCORE_QUEUE_STOP_REASON_WATERMARK))
  = false.
Proof.
  intros [L O Q]. rewrite (proj2 (Z.eqb_neq _ _) L). simpl. apply orb_false_intro.
  - destruct (control_vif _) as [v|]; [|done]. by rewrite O.
  - unfold wlcore_is_queue_stopped, wlcore_is_queue_stopped_by_reason.
    destruct Q as [-> | ->]; [done | by rewrite andb_false_r].
Qed.

Lemma enqueued_fields skb wl : counts_ok wl -> is_link (link_of wl skb) ->
  let w := enqueued (link_of wl skb) skb wl in
  (forall h i, is_queue i -> link_queue w h i
    = link_queue wl h i ++ if (link_of wl skb =? h) && (ac_of wl skb =? i) then [skb] else []) /\
  (forall i, is_queue i -> queue_count w i = queue_count wl i + if ac_of wl skb =? i then 1 else 0).
Proof.
  intros C Hl. cbv zeta. unfold enqueued. split.
  - intros h i Hi. change (link_queue (add_queue_count ?a 1 ?w)) with (link_queue w). unfold skb_queue_tail.
    rewrite (link_queue_set _ _ _ _ _ _ _ C Hl); [|apply get_queue_range]. split_if; [|by rewrite app_nil_r].
    bool_to_prop. by subst.
  - intros i Hi. unfold queue_count. rewrite add_queue_count_at by (apply get_queue_range || done || apply (co_counts _ _ C)).
    change (tx_queue_count (skb_queue_tail ?a ?b ?c wl)) with (tx_queue_count wl). rewrite (Z.eqb_sym i).
    split_if; lia.
Qed.

(** Stopping a queue at the watermark, as [wl1271_op_tx] does it. *)
Lemma watermark_stop q (full : bool) wl :
  queues_ok wl -> is_queue q ->
  let w := if full && negb (wlcore_is_queue_stopped_by_reason wl q WLCORE_QUEUE_STOP_REASON_WATERMARK)
           then wlcore_stop_queue_locked q WLCORE_QUEUE_STOP_REASON_WATERMARK wl else wl in
  (forall i b, test_bit b (reasons_at w i) = test_bit b (reasons_at wl i)
     || (q =? i) && full && (reason_bit WLCORE_QUEUE_STOP_REASON_WATERMARK =? b)) /\
  log w = (if full && (reasons_at wl q =? 0)
           then [EvStopQueue (wl1271_tx_get_mac80211_queue q)] else []) ++ log wl /\
  w = wl <| queue_stop_reasons := queue_stop_reasons w |> <| log := log w |>.
Proof.
  intros Hok Hq. cbv zeta. set (b0 := reason_bit WLCORE_QUEUE_STOP_REASON_WATERMARK).
  destruct full; [|by split_and!; [intros i b; rewrite andb_false_r, orb_false_r | |destruct wl]].
  unfold wlcore_is_queue_stopped_by_reason. fold b0.
  destruct (test_bit b0 (reasons_at wl q)) eqn:Eb; cbn [negb andb].
  - split_and!; [|destruct (Z.eqb_spec (reasons_at wl q) 0) as [E|]; [by rewrite E in Eb|done]|by destruct wl].
    intros i b. destruct (Z.eqb_spec q i) as [<-|]; [|by rewrite orb_false_r].
    destruct (Z.eqb_spec b0 b) as [<-|]; [by rewrite Eb | by rewrite orb_false_r].
  - unfold wlcore_stop_queue_locked. fold b0.
    assert (forall i b, test_bit b (reasons_at (set_reasons q (set_bit b0 (reasons_at wl q)) wl) i)
      = test_bit b (reasons_at wl i) || (q =? i) && true && (b0 =? b)) as R.
    { intros i b. rewrite reasons_set by done. destruct (Z.eqb_spec q i) as [<-|]; [|by rewrite orb_false_r].
      rewrite test_set_bit by done. apply orb_comm. }
    cbv zeta. destruct (reasons_at wl q =? 0); split_and!; done || by destruct wl.
Qed.

Lemma op_tx_accepts skb wl :
  tx_inv wl -> admits wl skb -> is_link (link_of wl skb) -> tx_accepted skb wl (wl1271_op_tx skb wl).
Proof.
  intros I Ad Hl. unfold wl1271_op_tx. cbv zeta. fold (ac_of wl skb) (link_of wl skb).
  rewrite admits_guard by done. change (add_queue_count _ 1 _) with (enqueued (link_of wl skb) skb wl).
  destruct (enqueued_fields skb wl (inv_counts _ I) Hl) as [Q N].
  set (w1 := enqueued (link_of wl skb) skb wl) in *. fold (queue_count w1 (ac_of wl skb)).
  assert (w1 = wl <| links := links w1 |> <| tx_queue_count := tx_queue_count w1 |>) as E1 by by destruct wl.
  assert (queues_ok w1) as O1 by by apply (queues_ok_frame wl), (inv_queues _ I).
  destruct (watermark_stop (ac_of wl skb) (WL1271_TX_QUEUE_HIGH_WATERMARK <=? queue_count w1 (ac_of wl skb))
    w1 O1 (get_queue_range _)) as (R & L & E2). cbv zeta in R, L, E2.
  set (w2 := if _ && _ then wlcore_stop_queue_locked _ _ w1 else w1) in *.
  assert (flags w2 = flags wl) as Ef by by rewrite E2. unfold flag. rewrite Ef. fold (flag wl WL1271_FLAG_FW_TX_BUSY).
  fold (flag wl WL1271_FLAG_TX_PENDING). rewrite <- negb_orb.
  set (work := flag wl WL1271_FLAG_FW_TX_BUSY || flag wl WL1271_FLAG_TX_PENDING) in *.
  assert (forall w, links w = links w2 -> tx_queue_count w = tx_queue_count w2 ->
    queue_stop_reasons w = queue_stop_reasons w2 -> w = w2 <| log := log w |> ->
    log w = (if work then [] else [EvQueueTxWork]) ++ log w2 -> tx_accepted skb wl w) as Fin.
  { intros w E3 E4 E5 E6 E7. assert (links w2 = links w1 /\ tx_queue_count w2 = tx_queue_count w1) as [E8 E9]
      by by rewrite E2.
    assert (forall i, queue_count w i = queue_count w1 i) as Ec by (intros i; unfold queue_count; by rewrite E4, E9).
    split.
    - intros h i Hi. rewrite <- (Q h i Hi). unfold link_queue, link_at. by rewrite E3, E8.
    - intros i Hi. by rewrite Ec, N.
    - intros i b Hi. rewrite Ec. transitivity (test_bit b (reasons_at w2 i)); [unfold reasons_at; by rewrite E5|].
      rewrite R. change (reasons_at w1 i) with (reasons_at wl i). destruct (Z.eqb_spec (ac_of wl skb) i) as [<-|]; done.
    - rewrite Ec, E7, L. done.
    - rewrite E3, E4, E5, E8, E9. etrans; [exact E6|]. generalize (log w). intros l.
      set (r := queue_stop_reasons w2) in *. clearbody r. by rewrite E2. }
  destruct work; simpl; by apply Fin; try (by destruct w2).
Qed.

Lemma admits_owned skb wl : tx_inv wl -> from_listed wl skb -> admits wl skb -> link_owned wl (link_of wl skb).
Proof.
  intros I Hl [L O _]. pose proof (inv_vifs _ I) as HV. unfold from_listed in Hl.
  unfold link_of in *. destruct (control_vif _) as [v|] eqn:Ev.
  - split; [by apply (vo_map _ HV v), O | apply (vo_owned _ HV v); [by apply Hl | by apply O]].
  - simpl. split; [apply (system_link _ HV) | apply (vo_sysmap _ HV)].
Qed.

(** ** Placing a frame in the aggregation buffer *)

(** Where the frame goes: behind a descriptor of [TX_DESC_SIZE] bytes that names
    its identifier and its link come its bytes, the first [ieee80211_hdrlen] of
    them apart from the others by the space for the TKIP header if it needs one;
    the rest up to [ret] is zero, and no other byte of the buffer changes. *)
Record placed (skb : nat) (off hlid ret : Z) (wl wl' : wl1271) (id : Z) (desc gap : list Z) : Prop := {
  pl_frame := skb_data (skb_at wl skb);
  pl_hdrlen := Z.to_nat (ieee80211_hdrlen (frame_control pl_frame));
  pl_data := desc ++ take pl_hdrlen pl_frame ++ gap ++ drop pl_hdrlen pl_frame;
  pl_desc : zlen desc = TX_DESC_SIZE;
  pl_id : d_id (decode_desc desc) = u8 id;
  pl_hlid : d_hlid (decode_desc desc) = u8 hlid;
  pl_registered : frame_at wl' id = Some skb;
  pl_gap : zlen gap = tx_extra wl (control_hw_key (skb_cb (skb_at wl skb)));
  pl_fits : zlen pl_data <= ret;
  pl_buf : aggr_buf wl' = write_buf off (pl_data ++ replicate (Z.to_nat (ret - zlen pl_data)) 0) (aggr_buf wl)
}.

(** The bytes of a frame with its private header. *)
Lemma private_frame f g extra s :
  extra = 0 \/ extra = 4 /\ ieee80211_hdrlen (frame_control (skb_data s)) <= skb_len s ->
  let h := Z.to_nat (ieee80211_hdrlen (frame_control (skb_data s))) in
  exists desc gap, zlen desc = TX_DESC_SIZE /\ zlen gap = extra /\
    private_bytes f g extra s = desc ++ take h (skb_data s) ++ gap ++ drop h (skb_data s).
Proof.
  intros He. cbv zeta. assert (0 <= extra) as H0 by lia.
  pose proof (drop_pushed f extra s H0) as Dp. unfold private_bytes.
  set (p := with_desc f (skb_data (skb_push (TX_DESC_SIZE + extra) s))) in *. cbv zeta.
  set (h := Z.to_nat (ieee80211_hdrlen (frame_control (skb_data s)))).
  unfold with_desc at 1. set (d := encode_desc _).
  assert (zlen d = TX_DESC_SIZE) as Ld by (unfold zlen, d; by rewrite length_encode_desc). exists d.
  destruct He as [-> | [-> Hh]].
  - exists []. split_and!; [done | done|]. f_equal. rewrite Nat.add_0_r in Dp.
    change (negb (0 =? 0)) with false. cbv iota. by rewrite Dp, app_nil_l, take_drop.
  - pose proof (ieee80211_hdrlen_bounds (frame_control (skb_data s))) as Hb.
    assert (h >= 4 /\ h <= length (skb_data s))%nat as [H4 Hl] by (unfold h, skb_len, zlen in *; lia).
    exists (take 4 (drop (h - 4) (skb_data s))).
    split_and!; [done | unfold zlen; rewrite length_take, length_drop; lia |]. f_equal.
    change (negb (4 =? 0)) with true. cbv iota. unfold relocate_header. rewrite Dp. fold h.
    change (Z.to_nat TX_DESC_SIZE) with 16%nat in *. change (Z.to_nat 4) with 4%nat in *.
    assert (length (take 16 p) = 16%nat) as L16.
    { rewrite length_take. apply (f_equal length) in Dp. rewrite length_drop in Dp. lia. }
    rewrite drop_app_length' by done. f_equal.
    replace (16 + h)%nat with (16 + 4 + (h - 4))%nat by lia. rewrite <- drop_drop, Dp.
    rewrite <- (take_drop 4 (drop (h - 4) (skb_data s))) at 1. f_equal. rewrite drop_drop. f_equal. lia.
Qed.

Lemma write_buf_app off a b buf : 0 <= off ->
  write_buf (off + zlen a) b (write_buf off a buf) = write_buf off (a ++ b) buf.
Proof.
  intros Ho. unfold write_buf, zlen. rewrite Z2Nat.inj_add, Nat2Z.id, length_app by lia.
  set (o := Z.to_nat off). rewrite !app_assoc. set (l := take o buf ++ a).
  destruct (decide (o <= length buf)%nat) as [H|H].
  - assert (length l = (o + length a)%nat) as L by (unfold l; rewrite length_app, length_take; lia).
    rewrite take_app_length' by done. rewrite drop_app, L, (drop_ge l) by lia. simpl.
    rewrite drop_drop. f_equal. f_equal. lia.
  - rewrite !(drop_ge buf) by lia. rewrite !app_nil_r.
    assert (length l <= o + length a)%nat as L by (unfold l; rewrite length_app, length_take; lia).
    rewrite take_ge, (drop_ge l) by lia. by rewrite app_nil_r.
Qed.

Lemma tx_extra_cases wl key : tx_extra wl key = 0 \/ tx_extra wl key = 4.
Proof. unfold tx_extra, WL1271_EXTRA_SPACE_TKIP. destruct key; [split_if|]; tauto. Qed.

Section Placing.
Context `{laws : wlcore_ops_laws}.

Lemma prepare_placed wlvif skb off hlid wl ret wl' :
  tx_inv wl -> is_Some (skbs wl !! skb) -> skb_len (skb_at wl skb) <= 65536 ->
  (tx_extra wl (control_hw_key (skb_cb (skb_at wl skb))) = 0 \/
   ieee80211_hdrlen (frame_control (skb_data (skb_at wl skb))) <= skb_len (skb_at wl skb)) ->
  0 <= off -> off + 2 ^ 17 <= 2 ^ 32 ->
  (tx_alignment wl | off) -> (tx_alignment wl | aggr_buf_size (hw wl)) ->
  wl1271_prepare_tx_frame wlvif skb off hlid wl = Some (ret, wl') -> 0 <= ret ->
  off + ret <= aggr_buf_size (hw wl) /\ (tx_alignment wl | ret) /\
  exists id desc gap, placed skb off hlid ret wl wl' id desc gap.
Proof.
  intros H Hs Hlen Hx Hoff Hmax A1 A2 Hp Hret.
  destruct (prepare_success _ _ _ _ _ _ _ H Hp Hret) as (is_gem & w1 & id & w4 & P).
  destruct (prepared_places _ _ _ _ _ _ _ _ _ _ _ H Hs Hlen Hoff Hmax A1 A2 P)
    as (B1 & B2 & [D1 D2] & F & L & B). cbv zeta in *.
  destruct (prepared_private _ _ _ _ _ _ _ _ _ _ _ P Hs Hlen) as (_ & _ & f & g & Ed).
  destruct (private_frame f g (tx_extra wl (control_hw_key (skb_cb (skb_at wl skb)))) (skb_at wl skb))
    as (desc & gap & Ld & Lg & E).
  { destruct (tx_extra_cases wl (control_hw_key (skb_cb (skb_at wl skb)))) as [?|?]; [by left|].
    destruct Hx as [?|?]; [by left | by right]. }
  cbv zeta in E. rewrite <- Ed in E. rewrite E in D1, D2, L, B. clear E.
  split_and!; [done | done |]. exists id, desc, gap. split; try done.
  - rewrite <- D1, <- (decode_take (desc ++ _)), take_app_length' by (unfold zlen, TX_DESC_SIZE in Ld; lia). done.
  - rewrite <- D2, <- (decode_take (desc ++ _)), take_app_length' by (unfold zlen, TX_DESC_SIZE in Ld; lia). done.
  - lia.
  - rewrite B. by apply write_buf_app.
Qed.
End Placing.
