(* ===== verification/Rx.v ===== *)
(** * The receive path (wlcore/rx.c)

    Received packets wait in the chip's memory, described by a ring of words in
    the firmware status.  The driver reads as many of them as fit the
    aggregation buffer in one transfer, splits the transfer into packets and
    hands each packet, without its descriptor, to mac80211. *)

From S2P Require Import Prelude Ieee80211 WlState ChipOps Io Queues LinkQueues.
From S2P Require Import PowerSave TxPath TxAllocFacts TxSched TxInv SchedFacts TxMoves.
From S2P Require Import TxPrep TxWork TxDone TxDoneFacts FwStatus.

Definition RX_BUF_SIZE_MASK := 0xFFF00.
Definition RX_BUF_SIZE_SHIFT_DIV := 6.
Definition ALIGNED_RX_BUF_SIZE_MASK := 0xFFFF00.
Definition ALIGNED_RX_BUF_SIZE_SHIFT := 8.
Definition RX_BUF_ALIGN := 2.
Definition WL1271_RX_DESC_BAND_MASK := 0x03.
Definition WL1271_RX_DESC_BAND_BG := 0x00.
Definition WL1271_RX_DESC_ENCRYPT_MASK := 0xE0.
Definition WL1271_RX_DESC_STATUS_MASK := 0x03.
Definition WL1271_RX_DESC_SUCCESS := 0x00.
Definition WL1271_RX_DESC_DECRYPT_FAIL := 0x01.
Definition WL1271_RX_DESC_MIC_FAIL := 0x02.
Definition WL1271_RX_DESC_DRIVER_RX_Q_FAIL := 0x03.
Definition WL12XX_RX_CLASS_LOGGER := 8.
Definition WL12XX_REG_RX_DRIVER_COUNTER := 0x00300000 + 0x0538.

Definition RX_FLAG_MMIC_ERROR := BIT 0.
Definition RX_FLAG_DECRYPTED := BIT 1.
Definition RX_FLAG_MMIC_STRIPPED := BIT 3.
Definition RX_FLAG_IV_STRIPPED := BIT 4.
Definition RX_FLAG_HT := BIT 9.

(** ** Sizes *)

Definition wlcore_rx_get_buf_size (wl : wl1271) (rx_pkt_desc : Z) : Z :=
  if has_quirk wl WLCORE_QUIRK_RX_BLOCKSIZE_ALIGN
  then Z.shiftr (Z.land rx_pkt_desc ALIGNED_RX_BUF_SIZE_MASK) ALIGNED_RX_BUF_SIZE_SHIFT
  else Z.shiftr (Z.land rx_pkt_desc RX_BUF_SIZE_MASK) RX_BUF_SIZE_SHIFT_DIV.

Definition wlcore_rx_get_align_buf_size (wl : wl1271) (pkt_len : Z) : Z :=
  if has_quirk wl WLCORE_QUIRK_RX_BLOCKSIZE_ALIGN
  then ALIGN pkt_len WL12XX_BUS_BLOCK_SIZE else pkt_len.

(** ** One packet *)

(** [ieee80211_channel_to_frequency] (net/wireless/util.c), for the two bands
    of the driver. *)
Definition ieee80211_channel_to_frequency (chan : Z) (band : ieee80211_band) : Z :=
  if chan <=? 0 then 0
  else
    match band with
    | IEEE80211_BAND_2GHZ =>
        if chan =? 14 then 2484 else if chan <? 14 then 2407 + chan * 5 else 0
    | IEEE80211_BAND_5GHZ =>
        if (182 <=? chan) && (chan <=? 196) then 4000 + chan * 5 else 5000 + chan * 5
    end.

Definition wl1271_rx_status (desc : list Z) (wl : wl1271) : ieee80211_rx_status * wl1271 :=
  let band := if Z.land (rx_desc_flags desc) WL1271_RX_DESC_BAND_MASK =? WL1271_RX_DESC_BAND_BG
              then IEEE80211_BAND_2GHZ else IEEE80211_BAND_5GHZ in
  let flag := if rx_desc_rate desc <=? hw_min_ht_rate (hw wl) then RX_FLAG_HT else 0 in
  let flag :=
    if has (rx_desc_flags desc) WL1271_RX_DESC_ENCRYPT_MASK then
      let flag := Z.lor flag (Z.lor RX_FLAG_IV_STRIPPED
                    (Z.lor RX_FLAG_MMIC_STRIPPED RX_FLAG_DECRYPTED)) in
      if Z.land (rx_desc_status desc) WL1271_RX_DESC_STATUS_MASK =? WL1271_RX_DESC_MIC_FAIL
      then Z.lor flag RX_FLAG_MMIC_ERROR else flag
    else flag in
  ({| rx_band := band;
      rx_rate_idx := wlcore_rate_to_idx wl (rx_desc_rate desc) band;
      rx_flag := flag;
      rx_signal := rx_desc_rssi desc;
      rx_freq := ieee80211_channel_to_frequency (rx_desc_channel desc) band |},
   wl <| noise := rx_desc_rssi desc - Z.shiftr (rx_desc_snr desc) 1 |>).

(** [wl12xx_copy_fwlog] (main.c): the log is a list of length-value records;
    the loop finds where they end. *)
Fixpoint fwlog_end (fuel : nat) (memblock : list Z) (maxlen len : Z) : outcome Z :=
  match fuel with
  | O => OutOfFuel
  | S fuel =>
      if len <? maxlen then
        if byte_at memblock len =? 0 then Ret len
        else if maxlen <? len + byte_at memblock len + 1 then Ret len
        else fwlog_end fuel memblock maxlen (len + byte_at memblock len + 1)
      else Ret len
  end.

Definition wl12xx_copy_fwlog (memblock : list Z) (maxlen : Z) (wl : wl1271)
    : outcome (Z * wl1271) :=
  let* len := fwlog_end (S (Z.to_nat maxlen)) memblock maxlen 0 in
  let len := Z.min len (PAGE_SIZE - zlen (fwlog wl)) in
  Ret (len, wl <| fwlog ::= fun l => l ++ take (Z.to_nat len) memblock |>).

Section Rx.
Context `{ops : wlcore_ops}.

(** [wl1271_rx_handle_data]; [data] starts at the packet's descriptor.  The
    results are the return value, [*hlid] (set when it is 0 or 1 for a frame)
    and the state. *)
Definition wl1271_rx_handle_data (data : list Z) (length : Z) (rx_align : wl_rx_buf_align)
    (wl : wl1271) : outcome (Z * Z * wl1271) :=
  if plt wl then Ret (- EINVAL, 0, wl)
  else
    let pkt_data_len := get_rx_packet_len wl data length in
    if pkt_data_len =? 0 then Ret (- EINVAL, 0, wl)
    else if rx_desc_packet_class data =? WL12XX_RX_CLASS_LOGGER then
      let* (_, wl) := wl12xx_copy_fwlog (drop (Z.to_nat RX_DESC_SIZE) data)
                        (length - RX_DESC_SIZE) wl in
      Ret (0, 0, wl)
    else
      let status := Z.land (rx_desc_status data) WL1271_RX_DESC_STATUS_MASK in
      if (status =? WL1271_RX_DESC_DRIVER_RX_Q_FAIL) || (status =? WL1271_RX_DESC_DECRYPT_FAIL)
      then Ret (- EINVAL, 0, wl)
      else if negb ((status =? WL1271_RX_DESC_SUCCESS) || (status =? WL1271_RX_DESC_MIC_FAIL))
      then Ret (- EINVAL, 0, wl)
      else if negb (rx_alloc (hw wl) (rx_counter wl)) then Ret (- ENOMEM, 0, wl)
      else
        let buf := bytes_at data RX_DESC_SIZE pkt_data_len in
        let buf := match rx_align with
                   | WLCORE_RX_BUF_PADDED =>
                       if zlen buf <? RX_BUF_ALIGN then buf else drop (Z.to_nat RX_BUF_ALIGN) buf
                   | _ => buf
                   end in
        let hlid := rx_desc_hlid data in
        let is_data := ieee80211_is_data_present (frame_control buf) in
        let '(status, wl) := wl1271_rx_status data wl in
        let skb := wlcore_hw_set_rx_csum wl data
                     {| rx_data := buf; rx_cb := status; rx_csum_ok := false |} in
        Ret (if is_data then 1 else 0, hlid,
             emit EvQueueNetstackWork (wl <| deferred_rx_queue ::= fun l => l ++ [skb] |>)).

(** ** The ring *)

Definition rx_desc_at (status : wl_fw_status) (i : Z) : Z := zget 0 (rx_pkt_descs status) i.

(** How many bytes the next transfer covers, from [rx_counter] on. *)
Fixpoint rx_batch_size (fuel : nat) (status : wl_fw_status) (fw_rx rx buf_size : Z)
    (wl : wl1271) : outcome Z :=
  if rx =? fw_rx then Ret buf_size
  else
    match fuel with
    | O => OutOfFuel
    | S fuel =>
        let pkt_len := wlcore_rx_get_buf_size wl (rx_desc_at status rx) in
        let align_pkt_len := wlcore_rx_get_align_buf_size wl pkt_len in
        if aggr_buf_size (hw wl) <? u32 (buf_size + align_pkt_len) then Ret buf_size
        else rx_batch_size fuel status fw_rx ((rx + 1) mod num_rx_desc (hw wl))
               (u32 (buf_size + align_pkt_len)) wl
    end.

(** Split the transfer into packets. *)
Fixpoint rx_split (fuel : nat) (status : wl_fw_status) (buf_size pkt_offset drv hlids : Z)
    (wl : wl1271) : outcome (Z * Z * wl1271) :=
  if buf_size <=? pkt_offset then Ret (drv, hlids, wl)
  else
    match fuel with
    | O => OutOfFuel
    | S fuel =>
        let des := rx_desc_at status drv in
        let pkt_len := wlcore_rx_get_buf_size wl des in
        let* (ret, hlid, wl) :=
          wl1271_rx_handle_data (drop (Z.to_nat pkt_offset) (aggr_buf wl)) pkt_len
            (get_rx_buf_align wl des) wl in
        let hlids := if (ret =? 1) && (hlid <? WL12XX_MAX_LINKS) then set_bit hlid hlids
                     else hlids in
        let wl := wl <| rx_counter ::= fun n => u32 (n + 1) |> in
        rx_split fuel status buf_size
          (u32 (pkt_offset + wlcore_rx_get_align_buf_size wl pkt_len))
          ((drv + 1) mod num_rx_desc (hw wl)) hlids wl
    end.

(** A read transfer into the aggregation buffer. *)
Definition read_into (n : Z) (data buf : list Z) : list Z :=
  let data := take (Z.to_nat n) data in data ++ drop (length data) buf.

(** The outer loop; the results are how it ended ([true]: through its
    condition or the empty-data warning), the last return value, the links
    that received data and the state. *)
Fixpoint rx_loop (fuel : nat) (status : wl_fw_status) (fw_rx drv hlids ret : Z) (wl : wl1271)
    : outcome (bool * Z * Z * wl1271) :=
  if drv =? fw_rx then Ret (true, ret, hlids, wl)
  else
    match fuel with
    | O => OutOfFuel
    | S fuel =>
        let n := Z.to_nat (num_rx_desc (hw wl)) in
        let* buf_size := rx_batch_size n status fw_rx drv 0 wl in
        if buf_size =? 0 then Ret (true, ret, hlids, wl)
        else
          let '(ret, wl) := wlcore_hw_prepare_read wl (rx_desc_at status drv) buf_size in
          if ret <? 0 then Ret (false, ret, hlids, wl)
          else
            let '(ret, data, wl) := wlcore_read (rtable_slv_mem_data (hw wl)) buf_size wl in
            let wl := wl <| aggr_buf ::= read_into buf_size data |> in
            if ret <? 0 then Ret (false, ret, hlids, wl)
            else
              let* (drv, hlids, wl) := rx_split n status buf_size 0 drv hlids wl in
              rx_loop fuel status fw_rx drv hlids ret wl
    end.

Definition wlcore_rx (status : wl_fw_status) (wl : wl1271) : outcome (Z * wl1271) :=
  let n := num_rx_desc (hw wl) in
  let* (ok, ret, hlids, wl) :=
    rx_loop (Z.to_nat n) status (fw_rx_counter status mod n) (rx_counter wl mod n) 0 0 wl in
  if negb ok then Ret (ret, wl)
  else
    let '(ret, wl) :=
      if has_quirk wl WLCORE_QUIRK_END_OF_TRANSACTION
      then wlcore_write32 WL12XX_REG_RX_DRIVER_COUNTER (rx_counter wl) wl
      else (ret, wl) in
    if has_quirk wl WLCORE_QUIRK_END_OF_TRANSACTION && (ret <? 0) then Ret (ret, wl)
    else Ret (ret, wl12xx_rearm_rx_streaming hlids wl).

(** ** Receive filters *)

Definition WL1271_MAX_RX_FILTERS := 5.

Definition wl1271_acx_set_rx_filter (index : Z) (enable : bool) (wl : wl1271) : Z * wl1271 :=
  wl1271_cmd_send (CMD_SET_RX_FILTER index enable) wl.

Definition wl1271_rx_filter_enable (index : Z) (enable : bool) (wl : wl1271) : Z * wl1271 :=
  if Bool.eqb (zget false (rx_filter_enabled wl) index) enable then (0, wl)
  else
    let '(ret, wl) := wl1271_acx_set_rx_filter index enable wl in
    if negb (ret =? 0) then (ret, wl)
    else (0, wl <| rx_filter_enabled ::= fun l => zset l index enable |>).

Fixpoint rx_filter_clear (idxs : list Z) (ret : Z) (wl : wl1271) : Z * wl1271 :=
  match idxs with
  | [] => (ret, wl)
  | i :: idxs =>
      if negb (zget false (rx_filter_enabled wl) i) then rx_filter_clear idxs ret wl
      else
        let '(ret, wl) := wl1271_rx_filter_enable i false wl in
        if negb (ret =? 0) then (ret, wl) else rx_filter_clear idxs ret wl
  end.

Definition wl1271_rx_filter_clear_all (wl : wl1271) : Z * wl1271 :=
  rx_filter_clear (zseq WL1271_MAX_RX_FILTERS) 0 wl.

End Rx.
