(* ===== verification/RxFacts.v ===== *)
(** * The receive path: totality, bounds and what is delivered

    Whatever the firmware puts into its ring of packet words, [wlcore_rx]
    terminates, reads only inside the aggregation buffer, and delivers to
    mac80211 exactly the frames of the packets it takes from the ring, in
    order. *)

From S2P Require Import Prelude Ieee80211 WlState ChipOps Io Queues LinkQueues.
From S2P Require Import PowerSave TxPath TxAllocFacts TxSched TxInv SchedFacts TxMoves.
From S2P Require Import TxPrep TxWork TxDone TxDoneFacts FwStatus Rx.

(** ** Sizes *)

Lemma land_below x m n : 0 <= n -> Z.land m (Z.ones n) = m -> 0 <= m ->
  0 <= Z.land x m < 2 ^ n.
Proof.
  intros Hn Hm H0. rewrite <- Hm, Z.land_assoc, Z.land_ones by done.
  apply Z.mod_pos_bound. by apply Z.pow_pos_nonneg.
Qed.

Lemma rx_buf_size_range wl des : 0 <= wlcore_rx_get_buf_size wl des < 65536.
Proof.
  unfold wlcore_rx_get_buf_size. split_if; rewrite Z.shiftr_land.
  - by apply (land_below _ _ 16).
  - assert (0 <= Z.land (Z.shiftr des RX_BUF_SIZE_SHIFT_DIV)
                   (Z.shiftr RX_BUF_SIZE_MASK RX_BUF_SIZE_SHIFT_DIV) < 2 ^ 14); [|lia].
    by apply land_below.
Qed.

(** Bytes packet [des] takes in a transfer. *)
Definition rx_size (wl : wl1271) (des : Z) : Z :=
  wlcore_rx_get_align_buf_size wl (wlcore_rx_get_buf_size wl des).

Lemma rx_size_range wl des :
  wlcore_rx_get_buf_size wl des <= rx_size wl des <= 65536 /\
  (wlcore_rx_get_buf_size wl des = 0 -> rx_size wl des = 0).
Proof.
  unfold rx_size, wlcore_rx_get_align_buf_size. pose proof (rx_buf_size_range wl des) as B.
  split_if; [|lia]. set (n := wlcore_rx_get_buf_size wl des) in *.
  unfold WL12XX_BUS_BLOCK_SIZE. destruct (ALIGN_spec 8 n) as [A D]; [lia..|].
  change (2 ^ 8) with 256 in *. destruct D as [k Hk].
  split; [|intros ->; by vm_compute]. split; [lia|]. rewrite Hk in *. lia.
Qed.

(** The quirks are constants, so sizes do not depend on the rest of the state. *)
Lemma rx_size_hw wl wl' des : hw wl' = hw wl ->
  rx_size wl' des = rx_size wl des /\
  wlcore_rx_get_buf_size wl' des = wlcore_rx_get_buf_size wl des.
Proof.
  intros E. unfold rx_size, wlcore_rx_get_align_buf_size, wlcore_rx_get_buf_size, has_quirk.
  by rewrite E.
Qed.

(** ** One packet *)

Lemma fwlog_end_spec mem maxlen fuel : forall len,
  0 <= len <= maxlen -> maxlen - len < Z.of_nat fuel ->
  exists n, fwlog_end fuel mem maxlen len = Ret n /\ len <= n <= maxlen.
Proof.
  induction fuel as [|fuel IH]; intros len Hl Hf; [lia|]. cbn [fwlog_end].
  pose proof (byte_at_range mem len).
  split_if; bool_to_prop; [|exists len; split; [done | lia]].
  split_if; bool_to_prop; [exists len; split; [done | lia]|].
  split_if; bool_to_prop; [exists len; split; [done | lia]|].
  destruct (IH (len + byte_at mem len + 1)) as (n & -> & Hn); [lia | lia |].
  exists n. split; [done | lia].
Qed.

(** The log buffer, one page, is never overrun. *)
Lemma copy_fwlog_spec mem maxlen wl :
  0 <= maxlen <= zlen mem -> zlen (fwlog wl) <= PAGE_SIZE ->
  exists n, wl12xx_copy_fwlog mem maxlen wl
    = Ret (n, wl <| fwlog := fwlog wl ++ take (Z.to_nat n) mem |>) /\
    0 <= n <= maxlen /\ zlen (fwlog wl ++ take (Z.to_nat n) mem) <= PAGE_SIZE.
Proof.
  intros Hl Hp. unfold wl12xx_copy_fwlog.
  destruct (fwlog_end_spec mem maxlen (S (Z.to_nat maxlen)) 0) as (n & -> & Hn); [lia..|].
  cbn [obind]. exists (Z.min n (PAGE_SIZE - zlen (fwlog wl))). split; [done|]. split; [lia|].
  unfold zlen in *. rewrite length_app, length_take. lia.
Qed.

Section RxFacts.
Context `{laws : wlcore_ops_laws}.

(** The frame a packet carries, if any: what the driver promises mac80211. *)
Definition packet_frame (wl : wl1271) (num : Z) (data : list Z) (length : Z)
    (rx_align : wl_rx_buf_align) : option rx_skb :=
  let n := get_rx_packet_len wl data length in
  let status := Z.land (rx_desc_status data) WL1271_RX_DESC_STATUS_MASK in
  if plt wl || (n =? 0) || (rx_desc_packet_class data =? WL12XX_RX_CLASS_LOGGER)
     || negb ((status =? WL1271_RX_DESC_SUCCESS) || (status =? WL1271_RX_DESC_MIC_FAIL))
     || negb (rx_alloc (hw wl) num)
  then None
  else
    let buf := bytes_at data RX_DESC_SIZE n in
    let buf := match rx_align with
               | WLCORE_RX_BUF_PADDED =>
                   if zlen buf <? RX_BUF_ALIGN then buf else drop (Z.to_nat RX_BUF_ALIGN) buf
               | _ => buf
               end in
    Some (wlcore_hw_set_rx_csum wl data
            {| rx_data := buf; rx_cb := fst (wl1271_rx_status data wl); rx_csum_ok := false |}).

(** What handling a packet may change. *)
Definition rx_frame (wl wl' : wl1271) : Prop := exists n f d l,
  wl' = wl <| noise := n |> <| fwlog := f |> <| deferred_rx_queue := d |> <| log := l |> /\
  (exists k, l = replicate k EvQueueNetstackWork ++ log wl) /\
  (zlen (fwlog wl) <= PAGE_SIZE -> zlen f <= PAGE_SIZE).

Lemma rx_frame_id wl : rx_frame wl wl.
Proof.
  exists (noise wl), (fwlog wl), (deferred_rx_queue wl), (log wl).
  split_and!; [by destruct wl | by exists O | done].
Qed.

Lemma handle_data_spec data len al wl :
  0 <= len <= zlen data -> zlen (fwlog wl) <= PAGE_SIZE ->
  exists ret hlid wl', wl1271_rx_handle_data data len al wl = Ret (ret, hlid, wl') /\
    rx_frame wl wl' /\
    deferred_rx_queue wl' = deferred_rx_queue wl
      ++ option_list (packet_frame wl (rx_counter wl) data len al).
Proof.
  intros Hl Hp. unfold wl1271_rx_handle_data, packet_frame. cbv zeta.
  set (n := get_rx_packet_len wl data len).
  destruct (get_rx_packet_len_bound wl data len) as [_ B]; [lia|]. fold n in B.
  assert (rx_frame wl wl /\ deferred_rx_queue wl = deferred_rx_queue wl ++ []) as Id
    by (split; [apply rx_frame_id | by rewrite app_nil_r]).
  destruct (plt wl); [by do 3 eexists|].
  destruct (n =? 0) eqn:En; [by do 3 eexists|]. bool_to_prop. specialize (B En).
  simpl orb. destruct (rx_desc_packet_class data =? WL12XX_RX_CLASS_LOGGER).
  { destruct (copy_fwlog_spec (drop (Z.to_nat RX_DESC_SIZE) data) (len - RX_DESC_SIZE) wl)
      as (k & -> & _ & Hk); [| done |].
    - unfold zlen in *. rewrite length_drop. unfold RX_DESC_SIZE in *.
      destruct (get_rx_packet_len_bound wl data len); [lia|]. lia.
    - cbn [obind]. do 3 eexists. split; [done|]. split; [|simpl; by rewrite app_nil_r].
      exists (noise wl), (fwlog wl ++ take (Z.to_nat k) (drop (Z.to_nat RX_DESC_SIZE) data)),
        (deferred_rx_queue wl), (log wl).
      split; [by destruct wl|]. split; [by exists O | done]. }
  set (st := Z.land (rx_desc_status data) WL1271_RX_DESC_STATUS_MASK).
  destruct (st =? WL1271_RX_DESC_DRIVER_RX_Q_FAIL) eqn:E1;
    [bool_to_prop; rewrite E1; by do 3 eexists|].
  destruct (st =? WL1271_RX_DESC_DECRYPT_FAIL) eqn:E2;
    [bool_to_prop; rewrite E2; by do 3 eexists|]. simpl orb.
  destruct (negb ((st =? WL1271_RX_DESC_SUCCESS) || (st =? WL1271_RX_DESC_MIC_FAIL)));
    [by do 3 eexists|]. simpl orb.
  destruct (rx_alloc (hw wl) (rx_counter wl)); [|by do 3 eexists]. simpl.
  do 3 eexists. split; [done|]. split.
  - match goal with |- rx_frame _ ?w =>
      exists (noise w), (fwlog w), (deferred_rx_queue w), (log w) end.
    split; [destruct wl; reflexivity|]. split; [by exists 1%nat | done].
  - simpl. unfold wlcore_hw_set_rx_csum. by rewrite (set_rx_csum_hw wl).
Qed.

(** ** The ring *)

(** Bytes of the first [k] packets from ring position [drv] on. *)
Definition rx_off (wl : wl1271) (status : wl_fw_status) (drv k : Z) : Z :=
  zsum ((fun i => rx_size wl (rx_desc_at status ((drv + i) mod num_rx_desc (hw wl)))) <$> zseq k).

(** Packets pending between the driver's and the firmware's positions. *)
Definition rx_pending (wl : wl1271) (drv fw_rx : Z) : Z := (fw_rx - drv) mod num_rx_desc (hw wl).

Lemma rx_off_0 wl status drv : rx_off wl status drv 0 = 0.
Proof. reflexivity. Qed.

Lemma rx_off_succ wl status drv k : 0 <= k ->
  rx_off wl status drv (k + 1)
  = rx_off wl status drv k + rx_size wl (rx_desc_at status ((drv + k) mod num_rx_desc (hw wl))).
Proof.
  intros Hk. unfold rx_off. rewrite zseq_succ, fmap_app, zsum_app by done. csimpl. lia.
Qed.

Lemma rx_off_nonneg wl status drv k : 0 <= rx_off wl status drv k.
Proof.
  apply zsum_nonneg. intros i. pose proof (rx_size_range wl (rx_desc_at status ((drv + i) mod num_rx_desc (hw wl)))).
  pose proof (rx_buf_size_range wl (rx_desc_at status ((drv + i) mod num_rx_desc (hw wl)))). lia.
Qed.

Lemma rx_off_mono wl status drv j k : 0 <= j <= k -> rx_off wl status drv j <= rx_off wl status drv k.
Proof.
  intros [Hj Hk]. replace k with (j + (k - j)) by lia.
  assert (0 <= k - j) as Hd by lia. clear Hk. revert Hd. generalize (k - j) as d. clear k.
  apply natlike_ind; [rewrite Z.add_0_r; lia|]. intros d Hd IH.
  replace (j + Z.succ d) with (j + d + 1) by lia. rewrite rx_off_succ by lia.
  pose proof (rx_size_range wl (rx_desc_at status ((drv + (j + d)) mod num_rx_desc (hw wl)))).
  pose proof (rx_buf_size_range wl (rx_desc_at status ((drv + (j + d)) mod num_rx_desc (hw wl)))). lia.
Qed.

Lemma ring_at wl drv fw_rx k : 0 < num_rx_desc (hw wl) -> 0 <= fw_rx < num_rx_desc (hw wl) ->
  0 <= k <= rx_pending wl drv fw_rx ->
  ((drv + k) mod num_rx_desc (hw wl) =? fw_rx) = (k =? rx_pending wl drv fw_rx).
Proof.
  unfold rx_pending. intros HN Hf Hk. set (N := num_rx_desc (hw wl)) in *.
  pose proof (Z.mod_pos_bound (fw_rx - drv) N HN) as Hp.
  destruct (k =? (fw_rx - drv) mod N) eqn:E; bool_to_prop.
  - subst k. apply Z.eqb_eq. rewrite Zplus_mod_idemp_r.
    replace (drv + (fw_rx - drv)) with fw_rx by lia. by apply Z.mod_small.
  - apply Z.eqb_neq. intros Ec. apply E. rewrite <- Ec at 1.
    rewrite Zminus_mod_idemp_l. replace (drv + k - drv) with k by lia.
    symmetry. apply Z.mod_small. lia.
Qed.

Lemma ring_next drv k n : (((drv + k) mod n) + 1) mod n = (drv + (k + 1)) mod n.
Proof. rewrite Zplus_mod_idemp_l. f_equal. lia. Qed.

Section Ring.
Variables (status : wl_fw_status) (fw_rx drv : Z).

(** The batch: as many whole packets as fit the aggregation buffer. *)
Lemma batch_spec wl fuel : forall k,
  0 < num_rx_desc (hw wl) -> 0 <= fw_rx < num_rx_desc (hw wl) ->
  aggr_buf_size (hw wl) <= 65536 ->
  0 <= k <= rx_pending wl drv fw_rx -> rx_pending wl drv fw_rx - k <= Z.of_nat fuel ->
  rx_off wl status drv k <= aggr_buf_size (hw wl) ->
  exists m, rx_batch_size fuel status fw_rx ((drv + k) mod num_rx_desc (hw wl))
              (rx_off wl status drv k) wl = Ret (rx_off wl status drv m) /\
    k <= m <= rx_pending wl drv fw_rx /\ rx_off wl status drv m <= aggr_buf_size (hw wl) /\
    (m = rx_pending wl drv fw_rx \/ aggr_buf_size (hw wl) < rx_off wl status drv (m + 1)).
Proof.
  induction fuel as [|fuel IH]; intros k HN Hf Ha Hk Hfu Ho; cbn [rx_batch_size];
    rewrite ring_at by done; destruct (k =? rx_pending wl drv fw_rx) eqn:E; bool_to_prop.
  - exists k. split; [done|]. split; [lia|]. split; [done | by left].
  - lia.
  - exists k. split; [done|]. split; [lia|]. split; [done | by left].
  - fold (rx_size wl (rx_desc_at status ((drv + k) mod num_rx_desc (hw wl)))).
    pose proof (rx_off_succ wl status drv k ltac:(lia)) as Es. cbv zeta.
    pose proof (rx_off_nonneg wl status drv k).
    pose proof (rx_size_range wl (rx_desc_at status ((drv + k) mod num_rx_desc (hw wl)))) as [Bs _].
    pose proof (rx_buf_size_range wl (rx_desc_at status ((drv + k) mod num_rx_desc (hw wl)))).
    rewrite <- Es, u32_id by lia. split_if; bool_to_prop.
    + exists k. split; [done|]. split; [lia|]. split; [done | by right].
    + rewrite ring_next. destruct (IH (k + 1)) as (m & -> & Hm & R); try done; try lia.
      exists m. split; [done|]. split; [lia | done].
Qed.

(** The frames of the first [k] packets of a transfer, in order. *)
Definition rx_frames (wl : wl1271) (k : Z) : list rx_skb :=
  i ← zseq k;
  let des := rx_desc_at status ((drv + i) mod num_rx_desc (hw wl)) in
  option_list (packet_frame wl (u32 (rx_counter wl + i))
    (drop (Z.to_nat (rx_off wl status drv i)) (aggr_buf wl))
    (wlcore_rx_get_buf_size wl des) (get_rx_buf_align wl des)).

Lemma rx_frames_succ wl k : 0 <= k ->
  let des := rx_desc_at status ((drv + k) mod num_rx_desc (hw wl)) in
  rx_frames wl (k + 1) = rx_frames wl k ++
    option_list (packet_frame wl (u32 (rx_counter wl + k))
      (drop (Z.to_nat (rx_off wl status drv k)) (aggr_buf wl))
      (wlcore_rx_get_buf_size wl des) (get_rx_buf_align wl des)).
Proof.
  intros Hk. unfold rx_frames. rewrite zseq_succ, bind_app by done. csimpl. by rewrite app_nil_r.
Qed.

(** The state after [k] packets of the transfer have been split off. *)
Definition split_state (wl : wl1271) (k : Z) (w : wl1271) : Prop := exists n f l,
  w = wl <| noise := n |> <| fwlog := f |> <| log := l |>
         <| deferred_rx_queue := deferred_rx_queue wl ++ rx_frames wl k |>
         <| rx_counter := u32 (rx_counter wl + k) |> /\
  (exists j, l = replicate j EvQueueNetstackWork ++ log wl) /\ zlen f <= PAGE_SIZE.

Lemma packet_frame_stable wl wl' num data len al :
  hw wl' = hw wl -> plt wl' = plt wl ->
  packet_frame wl' num data len al = packet_frame wl num data len al.
Proof.
  intros E P. unfold packet_frame. rewrite (get_rx_packet_len_hw wl), P, E by done.
  unfold wlcore_hw_set_rx_csum, wl1271_rx_status, wlcore_rate_to_idx.
  rewrite (set_rx_csum_hw wl), E by done. reflexivity.
Qed.

Lemma split_spec wl m fuel : forall k hlids w,
  zlen (aggr_buf wl) <= 65536 ->
  0 < num_rx_desc (hw wl) ->
  rx_off wl status drv m <= zlen (aggr_buf wl) -> 0 <= k <= m -> m - k <= Z.of_nat fuel ->
  split_state wl k w ->
  exists j hlids' w', rx_split fuel status (rx_off wl status drv m) (rx_off wl status drv k)
      ((drv + k) mod num_rx_desc (hw wl)) hlids w
    = Ret ((drv + j) mod num_rx_desc (hw wl), hlids', w') /\
    k <= j <= m /\ rx_off wl status drv j = rx_off wl status drv m /\
    (j = k \/ rx_off wl status drv (j - 1) < rx_off wl status drv m) /\
    split_state wl j w'.
Proof.
  induction fuel as [|fuel IH]; intros k hlids w Hz HN Hm Hk Hfu S; cbn [rx_split];
    destruct (_ <=? _) eqn:E; bool_to_prop.
  1, 3: exists k, hlids, w; pose proof (rx_off_mono wl status drv k m ltac:(lia));
    (split_and!; [done | lia | lia | lia | by left | done]).
  - assert (k = m) as -> by lia. lia.
  - assert (k < m) as Hlt by (destruct (decide (k = m)) as [->|]; lia).
    destruct S as (n & f & l & -> & Hl & Hf). cbv zeta.
    set (w := _ <| rx_counter := _ |>) in *.
    assert (hw w = hw wl /\ plt w = plt wl /\ rx_counter w = u32 (rx_counter wl + k) /\
            aggr_buf w = aggr_buf wl /\
            deferred_rx_queue w = deferred_rx_queue wl ++ rx_frames wl k) as (Eh & Ep & Er & Ea & Ed)
      by done.
    set (des := rx_desc_at status ((drv + k) mod num_rx_desc (hw wl))).
    destruct (rx_size_hw wl w des Eh) as [Z1 Z2].
    pose proof (rx_off_succ wl status drv k ltac:(lia)) as Es. fold des in Es.
    pose proof (rx_off_mono wl status drv (k + 1) m ltac:(lia)) as Mo.
    pose proof (rx_size_range wl des) as [Bs _]. pose proof (rx_buf_size_range wl des) as Bb.
    pose proof (rx_off_nonneg wl status drv k) as Bo.
    destruct (handle_data_spec (drop (Z.to_nat (rx_off wl status drv k)) (aggr_buf w))
      (wlcore_rx_get_buf_size w des) (get_rx_buf_align w des) w)
      as (ret & hlid & w1 & -> & (n1 & f1 & d1 & l1 & E1 & (j1 & L1) & F1) & D1).
    + rewrite Z2, Ea. unfold zlen in *. rewrite length_drop. lia.
    + done.
    + cbn [obind]. set (w2 := w1 <| rx_counter ::= _ |>).
      assert (hw w2 = hw wl) as Eh2 by (unfold w2; rewrite E1; done).
      fold (rx_size w2 des).
      assert (wlcore_rx_get_align_buf_size w2 (wlcore_rx_get_buf_size w des) = rx_size wl des) as ->.
      { destruct (rx_size_hw wl w2 des Eh2) as [Z3 Z4]. rewrite <- Z3. unfold rx_size. by rewrite Z4, Z2. }
      rewrite <- Es, u32_id by lia. rewrite Eh2, ring_next.
      match goal with |- context [rx_split fuel status _ _ _ ?hl w2] =>
        destruct (IH (k + 1) hl w2) as (j & hl' & w3 & -> & Hj & R1 & R2 & R3) end; try done; try lia.
      * exists n1, f1, l1. split; [|split; [|by apply F1]].
        -- assert (d1 = deferred_rx_queue wl ++ rx_frames wl (k + 1)) as Ed1.
           { rewrite rx_frames_succ by lia. rewrite app_assoc.
             fold des. rewrite <- Ed, <- Er.
             rewrite <- (packet_frame_stable wl w) by done.
             rewrite <- Ea, <- (get_rx_buf_align_hw wl w des), <- Z2 by done.
             rewrite <- D1. by rewrite E1. }
           unfold w2. rewrite E1. rewrite <- Ed1.
           change (rx_counter (upd log (fun _ => l1) (upd deferred_rx_queue (fun _ => d1)
             (upd fwlog (fun _ => f1) (upd noise (fun _ => n1) w))))) with (rx_counter w).
           assert (u32 (rx_counter w + 1) = u32 (rx_counter wl + (k + 1))) as Ec.
           { rewrite Er. unfold u32. rewrite wrap_add_l. f_equal. lia. }
           rewrite <- Ec. reflexivity.
        -- destruct Hl as [j0 ->]. exists (j1 + j0)%nat. rewrite L1.
           change (log w) with (replicate j0 EvQueueNetstackWork ++ log wl).
           by rewrite replicate_add, app_assoc.
      * exists j, hl', w3. split_and!; [done | lia | lia | done | | done].
        right. destruct R2 as [->|R2]; [|done]. replace (k + 1 - 1) with k by lia. lia.
Qed.

End Ring.

(** ** The whole reception *)

Lemma netstack_log_view wl j q s :
  mac_stopped q (replicate j EvQueueNetstackWork ++ log wl) = mac_stopped q (log wl) /\
  released s (replicate j EvQueueNetstackWork ++ log wl) = released s (log wl) /\
  completed_scans (replicate j EvQueueNetstackWork ++ log wl) = completed_scans (log wl).
Proof. induction j as [|j (IH1 & IH2 & IH3)]; [done|]. simpl. by rewrite IH1. Qed.

Lemma split_state_keeps status drv wl k w : work_inv wl -> split_state status drv wl k w ->
  work_keeps wl w /\ zlen (fwlog w) <= PAGE_SIZE.
Proof.
  intros W (n & f & l & -> & (j & El) & Hf). split; [|done]. apply buf_keeps; try done.
  split; try done.
  - intros q. simpl. rewrite El. apply (netstack_log_view wl j q O).
  - intros s. simpl. rewrite El. apply (netstack_log_view wl j 0 s).
  - intros (_ & _ & ? & ? & ?). unfold ring_ok. simpl. pose proof (u32_range (rx_counter wl + k)).
    repeat split; try done; lia.
  - unfold scans. simpl. rewrite El. by rewrite (proj2 (proj2 (netstack_log_view wl j 0 O))).
Qed.

Lemma read_into_len n data buf : zlen data = n \/ data = [] -> n <= zlen buf ->
  zlen (read_into n data buf) = zlen buf.
Proof.
  unfold read_into, zlen. rewrite length_app, length_drop, length_take.
  intros [Hd | ->] Hn; simpl; lia.
Qed.

Lemma pending_step wl drv fw_rx j : 0 < num_rx_desc (hw wl) -> 0 <= j <= rx_pending wl drv fw_rx ->
  rx_pending wl ((drv + j) mod num_rx_desc (hw wl)) fw_rx = rx_pending wl drv fw_rx - j.
Proof.
  unfold rx_pending. intros HN Hj. set (N := num_rx_desc (hw wl)) in *.
  pose proof (Z.mod_pos_bound (fw_rx - drv) N HN).
  rewrite Zminus_mod_idemp_r. replace (fw_rx - (drv + j)) with (fw_rx - drv - j) by lia.
  rewrite <- Zminus_mod_idemp_l. apply Z.mod_small. lia.
Qed.

(** Every pending packet has data and fits the aggregation buffer. *)
Definition rx_sane (wl : wl1271) (status : wl_fw_status) : Prop := forall i,
  0 <= i < num_rx_desc (hw wl) -> 0 < rx_size wl (rx_desc_at status i) <= aggr_buf_size (hw wl).

(** What a reception that takes [k] packets from the ring leaves. *)
Record rx_result (wl wl' : wl1271) (k : Z) : Prop := {
  rr_keeps : work_keeps wl wl';
  rr_fwlog : zlen (fwlog wl') <= PAGE_SIZE;
  rr_counter : rx_counter wl' = u32 (rx_counter wl + k);
  rr_plt : plt wl' = plt wl
}.

Lemma rx_result_trans a b c k k' : rx_result a b k -> rx_result b c k' -> rx_result a c (k + k').
Proof.
  intros [K1 F1 C1 P1] [K2 F2 C2 P2]. split; [by eapply work_keeps_trans | done | | congruence].
  rewrite C2, C1. unfold u32. rewrite wrap_add_l. f_equal. lia.
Qed.

Lemma io_result wl w : work_inv wl -> zlen (fwlog wl) <= PAGE_SIZE ->
  0 <= rx_counter wl < 2 ^ 32 -> io_frame wl w -> rx_result wl w 0.
Proof.
  intros W Hf Hr F. split; [by apply io_keeps | | |];
    destruct F as [(? & ? & ? & ? & ->) _ _ _]; simpl; try done. by rewrite Z.add_0_r, u32_id.
Qed.

Lemma prepare_read_result wl des len : work_inv wl -> zlen (fwlog wl) <= PAGE_SIZE ->
  0 <= rx_counter wl < 2 ^ 32 -> rx_result wl (snd (wlcore_hw_prepare_read wl des len)) 0.
Proof.
  intros W Hf Hr. unfold wlcore_hw_prepare_read.
  pose proof (fun w => io_result wl w W Hf Hr) as I.
  destruct prepare_read as [f|] eqn:E; [|by apply I]. apply I. by apply (prepare_read_io_frame f).
Qed.

(** One transfer. *)
Lemma read_result wl addr n : work_inv wl -> zlen (fwlog wl) <= PAGE_SIZE ->
  0 <= rx_counter wl < 2 ^ 32 -> 0 <= n <= zlen (aggr_buf wl) ->
  let '(ret, data, w) := wlcore_read addr n wl in
  rx_result wl (w <| aggr_buf ::= read_into n data |>) 0.
Proof.
  intros W Hf Hr Hn. unfold wlcore_read.
  pose proof (raw_read_io_frame (wlcore_translate_addr wl addr) n wl) as F.
  pose proof (raw_read_data (wlcore_translate_addr wl addr) n wl) as D.
  destruct (wlcore_raw_read _ _ wl) as [[ret data] w]. simpl in F.
  destruct D as [_ D]; [lia|].
  assert (work_keeps wl w) as K by (by apply io_keeps).
  destruct F as [(a & b & c & d & E) _ _ _].
  assert (aggr_buf w = aggr_buf wl) as Ea by (by rewrite E).
  split; [|by rewrite E | rewrite E; simpl; by rewrite Z.add_0_r, u32_id | by rewrite E].
  eapply work_keeps_trans; [exact K|]. apply buf_keeps; [apply K | by split | done |].
  simpl. apply read_into_len; [|rewrite Ea; lia]. by destruct D as [?|[_ ?]]; [left | right].
Qed.

Lemma rx_off_hw wl wl' status drv k : hw wl' = hw wl ->
  rx_off wl' status drv k = rx_off wl status drv k.
Proof.
  intros E. unfold rx_off. apply zsum_ext. intros i _. rewrite E. by apply rx_size_hw.
Qed.

Lemma rx_loop_spec status fw_rx fuel : forall drv hlids ret wl,
  work_inv wl -> zlen (fwlog wl) <= PAGE_SIZE -> 0 <= rx_counter wl < 2 ^ 32 ->
  0 < num_rx_desc (hw wl) -> 0 <= fw_rx < num_rx_desc (hw wl) ->
  0 <= drv < num_rx_desc (hw wl) -> rx_pending wl drv fw_rx <= Z.of_nat fuel ->
  exists ok ret' hlids' wl' k,
    rx_loop fuel status fw_rx drv hlids ret wl = Ret (ok, ret', hlids', wl') /\
    rx_result wl wl' k /\ 0 <= k <= rx_pending wl drv fw_rx /\
    (ok = false -> ret' < 0) /\
    (ok = true -> rx_sane wl status -> k = rx_pending wl drv fw_rx).
Proof.
  induction fuel as [|fuel IH]; intros drv hlids ret wl W Hf Hr HN Hfw Hdrv Hfu; cbn [rx_loop];
    pose proof (ring_at wl drv fw_rx 0 HN Hfw) as R0; rewrite Z.add_0_r, (Z.mod_small drv) in R0 by done;
    (assert (0 <= rx_pending wl drv fw_rx < num_rx_desc (hw wl)) as Hp by (by apply Z.mod_pos_bound));
    rewrite R0 by lia; clear R0;
    (assert (rx_result wl wl 0) as Id by (split; [by apply view_keeps | done |
       by rewrite Z.add_0_r, u32_id | done]));
    destruct (0 =? rx_pending wl drv fw_rx) eqn:E; bool_to_prop.
  1, 3: exists true, ret, hlids, wl, 0; split_and!; [done | done | lia | lia | done | by intros].
  { lia. }
  pose proof (wi_buf _ W) as Hb. pose proof (wi_size _ W) as Hs.
  destruct (batch_spec status fw_rx drv wl (Z.to_nat (num_rx_desc (hw wl))) 0)
    as (m & Eb & Hm & Ho & Hmax); try done; try lia. { rewrite rx_off_0. lia. }
  rewrite Z.add_0_r, (Z.mod_small drv), rx_off_0 in Eb by done. rewrite Eb. cbn [obind].
  pose proof (rx_off_nonneg wl status drv m) as Hnn.
  destruct (rx_off wl status drv m =? 0) eqn:E0; bool_to_prop.
  { exists true, ret, hlids, wl, 0. split_and!; [done | done | lia | lia | done |].
    intros _ Sane. exfalso. pose proof (Sane drv Hdrv) as S0.
    pose proof (rx_off_succ wl status drv 0 ltac:(lia)) as O1.
    rewrite rx_off_0, Z.add_0_r, (Z.mod_small drv) in O1 by done. change (0 + 1) with 1 in O1.
    destruct Hmax as [->|Hmax].
    - pose proof (rx_off_mono wl status drv 1 (rx_pending wl drv fw_rx) ltac:(lia)). lia.
    - destruct (decide (m = 0)) as [->|]; [change (0 + 1) with 1 in Hmax; lia|].
      pose proof (rx_off_mono wl status drv 1 m ltac:(lia)). lia. }
  pose proof (prepare_read_result wl (rx_desc_at status drv) (rx_off wl status drv m) W Hf Hr) as P.
  destruct (wlcore_hw_prepare_read _ _ _) as [r1 w1]. simpl in P.
  destruct (r1 <? 0) eqn:E1; bool_to_prop.
  { exists false, r1, hlids, w1, 0. split_and!; [done | done | lia | lia | done | done]. }
  pose proof (wk_hw _ _ (rr_keeps _ _ _ P)) as Eh1. pose proof (wk_inv _ _ (rr_keeps _ _ _ P)) as W1.
  assert (zlen (aggr_buf w1) = zlen (aggr_buf wl)) as Ea1 by (rewrite (wi_buf _ W1), Eh1; lia).
  pose proof (read_result w1 (rtable_slv_mem_data (hw w1)) (rx_off wl status drv m) W1) as Q.
  destruct (wlcore_read _ _ w1) as [[r2 data] w2].
  specialize (Q (rr_fwlog _ _ _ P)). rewrite (rr_counter _ _ _ P) in Q.
  specialize (Q ltac:(apply u32_range) ltac:(lia)). cbv zeta.
  set (w3 := w2 <| aggr_buf ::= _ |>) in *.
  pose proof (rx_result_trans _ _ _ _ _ P Q) as PQ. simpl in PQ.
  destruct (r2 <? 0) eqn:E2; bool_to_prop.
  { exists false, r2, hlids, w3, 0. split_and!; [done | done | lia | lia | done | done]. }
  clearbody w3. pose proof (wk_hw _ _ (rr_keeps _ _ _ PQ)) as Eh3.
  pose proof (wk_inv _ _ (rr_keeps _ _ _ PQ)) as W3.
  assert (split_state status drv w3 0 w3) as S0.
  { exists (noise w3), (fwlog w3), (log w3). split; [|split; [by exists O | apply PQ]].
    pose proof (rr_counter _ _ _ PQ) as C3. rewrite Z.add_0_r in *. rewrite u32_id in * by (rewrite ?C3; try apply u32_range; done).
    change (rx_frames status drv w3 0) with (@nil rx_skb). rewrite app_nil_r. by destruct w3. }
  destruct (split_spec status drv w3 m (Z.to_nat (num_rx_desc (hw wl))) 0 hlids w3)
    as (j & hl' & w4 & Es & Hj & Rj & Rk & S4); try done; rewrite ?Eh3; try lia.
  { rewrite (wi_buf _ W3), Eh3. lia. }
  { rewrite (rx_off_hw wl), (wi_buf _ W3), Eh3 by done. lia. }
  rewrite !(rx_off_hw wl w3), rx_off_0, Eh3, Z.add_0_r, (Z.mod_small drv) in Es by done.
  rewrite Es. cbn [obind]. rewrite !(rx_off_hw wl w3) in Rj by done.
  assert (0 < j) as Hj0.
  { destruct (decide (j = 0)) as [->|]; [|lia]. rewrite rx_off_0 in Rj. lia. }
  destruct (split_state_keeps _ _ _ _ _ W3 S4) as [K4 F4].
  assert (rx_result w3 w4 j) as Rs.
  { split; [done | done | |]; destruct S4 as (? & ? & ? & -> & _); done. }
  pose proof (rx_result_trans _ _ _ _ _ PQ Rs) as R4. rewrite Z.add_0_l in R4.
  pose proof (wk_hw _ _ (rr_keeps _ _ _ R4)) as Eh4.
  assert (rx_pending w4 ((drv + j) mod num_rx_desc (hw wl)) fw_rx = rx_pending wl drv fw_rx - j) as Ep.
  { rewrite <- (pending_step wl) by (done || lia). unfold rx_pending. by rewrite Eh4. }
  destruct (IH ((drv + j) mod num_rx_desc (hw wl)) hl' r2 w4) as (ok & r5 & hl5 & w5 & k & -> & R5 & Hk & Hfail & Hall);
    rewrite ?Eh4, ?Ep; try done; try lia.
  { apply R4. }
  { rewrite (rr_counter _ _ _ R4). apply u32_range. }
  { by apply Z.mod_pos_bound. }
  exists ok, r5, hl5, w5, (j + k). split_and!; [done | by eapply rx_result_trans | lia | lia | done |].
  intros Hok Sane. rewrite Hall, Ep; [lia | done |].
  intros i Hi. rewrite Eh4 in *. destruct (rx_size_hw wl w4 (rx_desc_at status i) Eh4) as [-> _]. by apply Sane.
Qed.


Lemma rearm_fields m wl :
  fwlog (wl12xx_rearm_rx_streaming m wl) = fwlog wl /\
  rx_counter (wl12xx_rearm_rx_streaming m wl) = rx_counter wl /\
  plt (wl12xx_rearm_rx_streaming m wl) = plt wl.
Proof.
  unfold wl12xx_rearm_rx_streaming. split_if; [done|]. split_if; [done|].
  apply (fold_left_inv (fun w => fwlog w = fwlog wl /\ rx_counter w = rx_counter wl /\ plt w = plt wl));
    [done|].
  intros w v _ Hw. cbv zeta. split_if; [done|]. split_if; [done|]. by split_if.
Qed.

Lemma rx_spec status wl : work_inv wl ->
  let N := num_rx_desc (hw wl) in
  exists ret wl' k, wlcore_rx status wl = Ret (ret, wl') /\ rx_result wl wl' k /\
    0 <= k <= rx_pending wl (rx_counter wl mod N) (fw_rx_counter status mod N) /\
    (0 <= ret -> rx_sane wl status ->
     k = rx_pending wl (rx_counter wl mod N) (fw_rx_counter status mod N)).
Proof.
  intros W. destruct (inv_ring _ (wi_inv _ W)) as (Hf & Hr & _ & _ & HN).
  cbv zeta. unfold wlcore_rx. cbv zeta. set (N := num_rx_desc (hw wl)).
  destruct (rx_loop_spec status (fw_rx_counter status mod N) (Z.to_nat N)
    (rx_counter wl mod N) 0 0 wl) as (ok & ret & hlids & w & k & -> & R & Hk & Hfail & Hall);
    try done; try (by apply Z.mod_pos_bound).
  { pose proof (Z.mod_pos_bound (fw_rx_counter status mod N - rx_counter wl mod N) N HN).
    unfold rx_pending. fold N. lia. }
  cbn [obind]. destruct ok; simpl.
  2: { exists ret, w, k. split_and!; [done | done | lia | lia |]. specialize (Hfail eq_refl). lia. }
  specialize (Hall eq_refl).
  set (r := if has_quirk w WLCORE_QUIRK_END_OF_TRANSACTION then _ else (ret, w)).
  assert (rx_result wl (snd r) k) as Rr.
  { rewrite <- (Z.add_0_r k). eapply rx_result_trans; [exact R|].
    assert (0 <= rx_counter w < 2 ^ 32) by (rewrite (rr_counter _ _ _ R); apply u32_range).
    unfold r. split_if; apply io_result; try apply R; try done. apply write32_io_frame. }
  destruct r as [r1 w1]. simpl in Rr. split_if.
  - exists r1, w1, k. split_and!; [done | done | lia | lia |]. auto.
  - do 2 eexists. exists k. split; [done|]. split_and!; [|lia | lia | auto].
    destruct (rearm_fields hlids w1) as (E1 & E2 & E3). destruct Rr as [K F C P].
    split; [|by rewrite E1 | by rewrite E2 | by rewrite E3].
    eapply work_keeps_trans; [exact K | apply rearm_keeps, K].
Qed.

(** When the ring size divides the counter's range, as both chips' do, taking
    everything pending makes the driver's position the firmware's. *)
Lemma rx_caught_up wl c fw : 0 < num_rx_desc (hw wl) -> (num_rx_desc (hw wl) | 2 ^ 32) ->
  u32 (c + rx_pending wl (c mod num_rx_desc (hw wl)) fw) mod num_rx_desc (hw wl)
  = fw mod num_rx_desc (hw wl).
Proof.
  intros HN [q Hq]. unfold rx_pending. set (N := num_rx_desc (hw wl)) in *.
  unfold u32, wrap. rewrite Hq, (Z.mul_comm q N).
  assert (0 < q) by nia. rewrite Z.rem_mul_r, Z.mul_comm, Z.mod_add, Z.mod_mod by lia.
  rewrite Zplus_mod_idemp_r. rewrite <- Zplus_mod_idemp_l.
  f_equal. lia.
Qed.

End RxFacts.
