(* ===== verification/Event.v ===== *)
(** * Firmware events (wlcore/event.c) and RX streaming (wlcore/main.c)

    The firmware reports what happened in one of two mailboxes; the driver
    reads the mailbox, dispatches on the event vector and acknowledges. *)

From S2P Require Import Prelude Ieee80211 WlState ChipOps Io Queues LinkQueues.
From S2P Require Import PowerSave TxPath TxAllocFacts TxSched TxInv SchedFacts TxMoves.
From S2P Require Import TxPrep TxWork TxDone TxDoneFacts FwStatus.

Definition RSSI_SNR_TRIGGER_0_EVENT_ID := BIT 0.
Definition SCAN_COMPLETE_EVENT_ID := BIT 10.
Definition CHANNEL_SWITCH_COMPLETE_EVENT_ID := BIT 17.
Definition BSS_LOSE_EVENT_ID := BIT 18.
Definition REGAINED_BSS_EVENT_ID := BIT 19.
Definition MAX_TX_RETRY_EVENT_ID := BIT 20.
Definition DUMMY_PACKET_EVENT_ID := BIT 21.
Definition SOFT_GEMINI_SENSE_EVENT_ID := BIT 22.
Definition INACTIVE_STA_EVENT_ID := BIT 26.
Definition PERIODIC_SCAN_COMPLETE_EVENT_ID := BIT 28.
Definition BA_SESSION_RX_CONSTRAINT_EVENT_ID := BIT 30.
Definition REMAIN_ON_CHANNEL_COMPLETE_EVENT_ID := BIT 31.

Definition NL80211_CQM_RSSI_THRESHOLD_EVENT_LOW := 0.
Definition NL80211_CQM_RSSI_THRESHOLD_EVENT_HIGH := 1.
Definition NL80211_CQM_RSSI_BEACON_LOSS_EVENT := 2.

(** [struct event_mailbox], the fields that are read. *)
Record event_mailbox := {
  events_vector : Z;
  events_mask : Z;
  soft_gemini_sense_info : Z;
  rssi_snr_trigger_metric0 : Z;
  sta_aging_status : Z;
  sta_tx_retry_exceeded : Z;
  mbox_role_id : Z;
  rx_ba_allowed : Z;
  channel_switch_status : Z
}.

Definition MBOX_SIZE := 64.

Definition decode_mbox (l : list Z) : event_mailbox :=
  {| events_vector := le32_at l 0;
     events_mask := le32_at l 4;
     soft_gemini_sense_info := byte_at l 20;
     rssi_snr_trigger_metric0 := s8 (byte_at l 22);
     sta_aging_status := le16_at l 36;
     sta_tx_retry_exceeded := le16_at l 38;
     mbox_role_id := byte_at l 44;
     rx_ba_allowed := byte_at l 45;
     channel_switch_status := byte_at l 49 |}.

(** [wl12xx_for_each_wlvif], with the access-point and station variants. *)
Definition for_each_wlvif (p : wl12xx_vif -> bool) (body : nat -> wl1271 -> wl1271) (wl : wl1271)
    : wl1271 :=
  fold_left (fun wl v => if p (vif_at wl v) then body v wl else wl) (wlvif_list wl) wl.

(** ** Single events *)

Definition wl1271_event_rssi_trigger (metric : Z) (wlvif : nat) (wl : wl1271) : wl1271 :=
  let event := if metric <=? rssi_thold (vif_at wl wlvif)
               then NL80211_CQM_RSSI_THRESHOLD_EVENT_LOW
               else NL80211_CQM_RSSI_THRESHOLD_EVENT_HIGH in
  let wl := if negb (event =? last_rssi_event (vif_at wl wlvif))
            then emit (EvCqmRssi wlvif event) wl else wl in
  upd_vif wlvif (fun w => w <| last_rssi_event := event |>) wl.

Definition wl1271_stop_ba_event (wlvif : nat) (wl : wl1271) : wl1271 :=
  let w := vif_at wl wlvif in
  if negb (is_ap w) then
    if sta_ba_rx_bitmap w =? 0 then wl
    else emit (EvStopRxBa (sta_ba_rx_bitmap w) (vif_bssid w)) wl
  else
    for_range WL12XX_MAX_LINKS (fun hlid wl =>
      if test_bit hlid (ap_sta_hlid_map (vif_at wl wlvif)) then
        let lnk := link_at wl hlid in
        if ba_bitmap lnk =? 0 then wl
        else emit (EvStopRxBa (ba_bitmap lnk) (link_addr lnk)) wl
      else wl) wl.

Section Event.
Context `{ops : wlcore_ops}.

(** ** RX streaming *)

(** [wl1271_acx_ps_rx_streaming] (acx.c): one command per configured TID. *)
Fixpoint rx_streaming_cmds (tids : list Z) (role : Z) (enable : bool) (ret : Z) (wl : wl1271)
    : Z * wl1271 :=
  match tids with
  | [] => (ret, wl)
  | i :: tids =>
      let conf_queues := rx_streaming_queues (hw wl) in
      if negb (has conf_queues (BIT i)) then rx_streaming_cmds tids role enable ret wl
      else
        let '(ret, wl) :=
          wl1271_cmd_send (CMD_PS_RX_STREAMING role i
            (Z.land (if enable then conf_queues else 0) (BIT i))
            (rx_streaming_interval (hw wl))) wl in
        if ret <? 0 then (ret, wl) else rx_streaming_cmds tids role enable ret wl
  end.

Definition wl1271_acx_ps_rx_streaming (wlvif : nat) (enable : bool) (wl : wl1271) : Z * wl1271 :=
  rx_streaming_cmds (zseq 8) (role_id (vif_at wl wlvif)) enable 0 wl.

Definition wl1271_set_rx_streaming (wlvif : nat) (enable : bool) (wl : wl1271) : Z * wl1271 :=
  let '(ret, wl) := wl1271_acx_ps_rx_streaming wlvif enable wl in
  if ret <? 0 then (ret, wl)
  else
    (ret, upd_vif wlvif (fun w => w <| vif_flags ::=
       if enable then set_bit WLVIF_FLAG_RX_STREAMING_STARTED
       else clear_bit WLVIF_FLAG_RX_STREAMING_STARTED |>) wl).

(** RX streaming is wanted: configured always, or Bluetooth coexistence active. *)
Definition rx_streaming_wanted (wl : wl1271) : bool :=
  rx_streaming_always (hw wl) || flag wl WL1271_FLAG_SOFT_GEMINI.

Definition wl1271_recalc_rx_streaming (wlvif : nat) (wl : wl1271) : Z * wl1271 :=
  let w := vif_at wl wlvif in
  if negb (vif_flag w WLVIF_FLAG_RX_STREAMING_STARTED) then (0, wl)
  else if negb (rx_streaming_interval (hw wl) =? 0) && vif_flag w WLVIF_FLAG_STA_ASSOCIATED
          && rx_streaming_wanted wl
  then wl1271_set_rx_streaming wlvif true wl
  else
    let '(ret, wl) := wl1271_set_rx_streaming wlvif false wl in
    (ret, emit (EvDelRxStreamingTimer wlvif) wl).

Definition wl1271_rx_streaming_enable_work (wlvif : nat) (completed : Z) (wl : wl1271) : wl1271 :=
  let w := vif_at wl wlvif in
  if vif_flag w WLVIF_FLAG_RX_STREAMING_STARTED || negb (vif_flag w WLVIF_FLAG_STA_ASSOCIATED)
     || negb (rx_streaming_wanted wl)
  then wl
  else if rx_streaming_interval (hw wl) =? 0 then wl
  else
    let '(ret, wl) := wl1271_ps_elp_wakeup completed wl in
    if ret <? 0 then wl
    else
      let '(ret, wl) := wl1271_set_rx_streaming wlvif true wl in
      wl1271_ps_elp_sleep
        (if ret <? 0 then wl else emit (EvModRxStreamingTimer wlvif) wl).

Definition wl1271_rx_streaming_disable_work (wlvif : nat) (completed : Z) (wl : wl1271) : wl1271 :=
  if negb (vif_flag (vif_at wl wlvif) WLVIF_FLAG_RX_STREAMING_STARTED) then wl
  else
    let '(ret, wl) := wl1271_ps_elp_wakeup completed wl in
    if ret <? 0 then wl
    else wl1271_ps_elp_sleep (snd (wl1271_set_rx_streaming wlvif false wl)).

Definition wl12xx_event_soft_gemini_sense (enable : Z) (wl : wl1271) : wl1271 :=
  if negb (enable =? 0) then set_flag WL1271_FLAG_SOFT_GEMINI wl
  else
    for_each_wlvif is_sta (fun v wl => snd (wl1271_recalc_rx_streaming v wl))
      (clear_flag WL1271_FLAG_SOFT_GEMINI wl).

(** ** Dispatch *)

Definition when (b : bool) (f : wl1271 -> wl1271) (wl : wl1271) : wl1271 :=
  if b then f wl else wl.

(** Disconnect the stations named in [sta_bitmap]. *)
Definition disconnect_stations (sta_bitmap : Z) (wl : wl1271) : wl1271 :=
  for_range WL12XX_MAX_LINKS (fun h wl =>
    if test_bit h sta_bitmap then
      match List.find (fun v => is_ap (vif_at wl v) && test_bit h (ap_sta_hlid_map (vif_at wl v)))
              (wlvif_list wl) with
      | None => wl
      | Some v =>
          let addr := link_addr (link_at wl h) in
          if find_sta (hw wl) v addr then emit (EvReportLowAck addr) wl else wl
      end
    else wl) wl.

(** scan.c: the work item then reports the end to mac80211. *)
Definition wl12xx_scan_completed (wl : wl1271) : wl1271 :=
  emit (EvQueueScanComplete 0) (emit EvCancelScanComplete (wl <| scan_failed := false |>)).

(** What comes before the dummy packet. *)
Definition process_early (mbox : event_mailbox) (vector : Z) (wl : wl1271) : wl1271 :=
  let wl := when (has vector SCAN_COMPLETE_EVENT_ID) wl12xx_scan_completed wl in
  let wl := when (has vector PERIODIC_SCAN_COMPLETE_EVENT_ID && bool_decide (is_Some (sched_vif wl)))
              (fun wl => (emit EvSchedScanStopped wl) <| sched_vif := None |>) wl in
  let wl := when (has vector SOFT_GEMINI_SENSE_EVENT_ID)
              (wl12xx_event_soft_gemini_sense (soft_gemini_sense_info mbox)) wl in
  let wl := when (has vector BSS_LOSE_EVENT_ID)
              (fun wl => for_each_wlvif is_sta
                 (fun v => emit (EvCqmRssi v NL80211_CQM_RSSI_BEACON_LOSS_EVENT))
                 (emit EvQueueConnLoss wl)) wl in
  let wl := when (has vector REGAINED_BSS_EVENT_ID) (emit EvCancelConnLoss) wl in
  let wl := when (has vector RSSI_SNR_TRIGGER_0_EVENT_ID)
              (for_each_wlvif is_sta
                 (wl1271_event_rssi_trigger (rssi_snr_trigger_metric0 mbox))) wl in
  let wl := when (has vector BA_SESSION_RX_CONSTRAINT_EVENT_ID)
              (for_each_wlvif
                 (fun w => (mbox_role_id mbox =? 0xff) || (mbox_role_id mbox =? role_id w))
                 (fun v wl =>
                    let allowed := negb (rx_ba_allowed mbox =? 0) in
                    let wl := upd_vif v (fun w => w <| ba_allowed := allowed |>) wl in
                    if negb allowed then wl1271_stop_ba_event v wl else wl)) wl in
  when (has vector CHANNEL_SWITCH_COMPLETE_EVENT_ID)
    (for_each_wlvif is_sta (fun v wl =>
       if negb (vif_flag (vif_at wl v) WLVIF_FLAG_CS_PROGRESS) then wl
       else
         let wl := upd_vif v (fun w => w <| vif_flags ::= clear_bit WLVIF_FLAG_CS_PROGRESS |>) wl in
         emit (EvChswitchDone v (channel_switch_status mbox =? 0)) wl)) wl.

(** What comes after it. *)
Definition process_late (mbox : event_mailbox) (vector : Z) (wl : wl1271) : wl1271 :=
  let retry := has vector MAX_TX_RETRY_EVENT_ID in
  let inactive := has vector INACTIVE_STA_EVENT_ID in
  let sta_bitmap := Z.lor (if retry then sta_tx_retry_exceeded mbox else 0)
                          (if inactive then sta_aging_status mbox else 0) in
  let wl := when (has vector REMAIN_ON_CHANNEL_COMPLETE_EVENT_ID) (emit EvReadyOnChannel) wl in
  when (retry || inactive) (disconnect_stations sta_bitmap) wl.

Definition wl1271_event_process (fuel : nat) (mbox : event_mailbox) (wl : wl1271)
    : outcome (Z * wl1271) :=
  let vector := Z.land (events_vector mbox) (u32 (Z.lnot (events_mask mbox))) in
  let wl := process_early mbox vector wl in
  let* (ret, wl) :=
    if has vector DUMMY_PACKET_EVENT_ID then wl1271_tx_dummy_packet fuel wl else Ret (0, wl) in
  if ret <? 0 then Ret (ret, wl) else Ret (0, process_late mbox vector wl).

Definition wl1271_event_handle (fuel : nat) (mbox_num : Z) (wl : wl1271)
    : outcome (Z * wl1271) :=
  if 1 <? mbox_num then Ret (- EINVAL, wl)
  else
    let '(ret, data, wl) := wlcore_read (zget 0 (mbox_ptr (hw wl)) mbox_num) MBOX_SIZE wl in
    if ret <? 0 then Ret (ret, wl)
    else
      let* (ret, wl) := wl1271_event_process fuel (decode_mbox data) wl in
      if ret <? 0 then Ret (ret, wl) else Ret (ack_event wl).

End Event.
