(* ===== verification/EventFacts.v ===== *)
(** * Firmware events keep the transmit invariant *)

From S2P Require Import Prelude Ieee80211 WlState ChipOps Io Queues LinkQueues.
From S2P Require Import PowerSave TxPath TxAllocFacts TxSched TxInv SchedFacts TxMoves.
From S2P Require Import TxPrep TxWork TxDone TxDoneFacts FwStatus Event.

(** Invariant kept, no buffer lost or duplicated, at most [n] frames queued by
    the driver itself (the firmware's requests for the dummy packet). *)
Record keeps_plus (n : Z) (wl wl' : wl1271) : Prop := {
  kp_inv : work_inv wl';
  kp_hw : hw wl' = hw wl;
  kp_copies s : s <> dummy_packet (hw wl) -> copies s wl' = copies s wl;
  kp_backlog : backlog wl' <= backlog wl + n;
  kp_vifs : same_vifs wl wl'
}.

Lemma keeps_plus_trans n m a b c : keeps_plus n a b -> keeps_plus m b c -> keeps_plus (n + m) a c.
Proof.
  intros [I1 H1 C1 B1 V1] [I2 H2 C2 B2 V2]. split; [done | congruence | | lia | by etrans].
  intros s Hs. rewrite C2 by congruence. by apply C1.
Qed.

Lemma keeps_plus_mono n m a b : n <= m -> keeps_plus n a b -> keeps_plus m a b.
Proof. intros Hn []. split; try done. lia. Qed.

Lemma work_plus wl wl' : work_keeps wl wl' -> keeps_plus 0 wl wl'.
Proof. intros []. split; try done. lia. Qed.

Lemma plus_work n a b c : keeps_plus n a b -> work_keeps b c -> keeps_plus n a c.
Proof.
  intros K W. replace n with (n + 0) by lia. eapply keeps_plus_trans; [exact K | by apply work_plus].
Qed.

Lemma work_plus_trans n a b c : work_keeps a b -> keeps_plus n b c -> keeps_plus n a c.
Proof.
  intros W K. replace n with (0 + n) by lia. eapply keeps_plus_trans; [by apply work_plus | exact K].
Qed.

(** ** Views *)

Lemma emit_keeps e wl :
  (match e with EvStopQueue _ | EvWakeQueue _ | EvTxStatus _ | EvFreeTxskb _
   | EvScanCompleted _ => False | _ => True end) -> work_inv wl -> work_keeps wl (emit e wl).
Proof. intros He W. apply view_keeps; [done | by apply emit_view | done | done]. Qed.

Lemma upd_vif_keeps v f wl : (forall w, vif_own (f w) = vif_own w) -> work_inv wl ->
  work_keeps wl (upd_vif v f wl).
Proof. intros Hf W. apply view_keeps; [done | by apply upd_vif_view | done | done]. Qed.

(** Changing another flag of an interface than the one that marks it as set up. *)
Lemma vif_flags_keeps v g wl :
  (forall f, test_bit WLVIF_FLAG_INITIALIZED (g f) = test_bit WLVIF_FLAG_INITIALIZED f) ->
  work_inv wl -> work_keeps wl (upd_vif v (fun w => w <| vif_flags ::= g |>) wl).
Proof. intros Hg. apply upd_vif_keeps. intros w. unfold vif_own, vif_kind, vif_flag. simpl. by rewrite Hg. Qed.

Ltac other_flag :=
  let f := fresh in intros f; rewrite ?test_set_bit, ?test_clear_bit by done; simpl;
  rewrite ?andb_true_r; done.
#[export] Hint Extern 1 (forall f, test_bit WLVIF_FLAG_INITIALIZED _ = _) => other_flag : wl.

Lemma when_keeps b f wl : (work_inv wl -> work_keeps wl (f wl)) -> work_inv wl ->
  work_keeps wl (when b f wl).
Proof. intros Hf W. unfold when. destruct b; [by apply Hf | by apply view_keeps]. Qed.

Lemma each_keeps p body wl : (forall v w, work_inv w -> work_keeps w (body v w)) -> work_inv wl ->
  work_keeps wl (for_each_wlvif p body wl).
Proof.
  intros Hb W. apply fold_keeps; [done|]. intros w v _ Wv. split_if; [by apply Hb | by apply view_keeps].
Qed.

Lemma rssi_trigger_keeps m v wl : work_inv wl -> work_keeps wl (wl1271_event_rssi_trigger m v wl).
Proof.
  intros W. unfold wl1271_event_rssi_trigger. cbv zeta.
  set (w1 := if negb _ then _ else wl).
  assert (work_keeps wl w1) as K
    by (unfold w1; destruct (negb _); [by apply emit_keeps | by apply view_keeps]).
  eapply work_keeps_trans; [exact K | apply upd_vif_keeps; [done | apply K]].
Qed.

Lemma stop_ba_keeps v wl : work_inv wl -> work_keeps wl (wl1271_stop_ba_event v wl).
Proof.
  intros W. unfold wl1271_stop_ba_event. cbv zeta. split_if.
  - split_if; [by apply view_keeps | by apply emit_keeps].
  - apply for_keeps; [done|]. intros i w _ Wi.
    split_if; [|by apply view_keeps]. split_if; [by apply view_keeps | by apply emit_keeps].
Qed.

Lemma disconnect_keeps m wl : work_inv wl -> work_keeps wl (disconnect_stations m wl).
Proof.
  intros W. apply for_keeps; [done|]. intros h w _ Wh. split_if; [|by apply view_keeps].
  destruct (List.find _ _) as [v|]; [|by apply view_keeps]. cbv zeta.
  split_if; [by apply emit_keeps | by apply view_keeps].
Qed.

Section EventFacts.
Context `{laws : wlcore_ops_laws}.

Lemma cmd_keeps c wl : work_inv wl -> work_keeps wl (snd (wl1271_cmd_send c wl)).
Proof. intros W. apply io_keeps; [done | apply cmd_send_io_frame]. Qed.

Lemma rx_streaming_cmds_frame tids role en ret wl :
  io_frame wl (snd (rx_streaming_cmds tids role en ret wl)).
Proof.
  revert ret wl. induction tids as [|i tids IH]; intros ret wl; cbn [rx_streaming_cmds]; [reflexivity|].
  cbv zeta. split_if; [apply IH|].
  match goal with |- context [wl1271_cmd_send ?c wl] => pose proof (cmd_send_io_frame c wl) as F;
    destruct (wl1271_cmd_send c wl) as [r w] end. simpl in F.
  split_if; [exact F|]. etrans; [exact F | apply IH].
Qed.

Lemma set_rx_streaming_keeps v en wl : work_inv wl ->
  work_keeps wl (snd (wl1271_set_rx_streaming v en wl)).
Proof.
  intros W. unfold wl1271_set_rx_streaming, wl1271_acx_ps_rx_streaming.
  pose proof (rx_streaming_cmds_frame (zseq 8) (role_id (vif_at wl v)) en 0 wl) as F.
  destruct (rx_streaming_cmds _ _ _ _ wl) as [r w]. simpl in F.
  assert (work_keeps wl w) as K by (by apply io_keeps). split_if; [exact K|]. simpl.
  eapply work_keeps_trans; [exact K | apply vif_flags_keeps; [destruct en; other_flag | apply K]].
Qed.

Lemma recalc_keeps v wl : work_inv wl -> work_keeps wl (snd (wl1271_recalc_rx_streaming v wl)).
Proof.
  intros W. unfold wl1271_recalc_rx_streaming. cbv zeta. split_if; [by apply view_keeps|].
  split_if; [by apply set_rx_streaming_keeps|].
  pose proof (set_rx_streaming_keeps v false wl W) as K.
  destruct (wl1271_set_rx_streaming v false wl) as [r w]. simpl in *.
  eapply work_keeps_trans; [exact K | apply emit_keeps; [done | apply K]].
Qed.

Lemma rx_streaming_enable_keeps v c wl : work_inv wl ->
  work_keeps wl (wl1271_rx_streaming_enable_work v c wl).
Proof.
  intros W. unfold wl1271_rx_streaming_enable_work. cbv zeta.
  split_if; [by apply view_keeps|]. split_if; [by apply view_keeps|].
  pose proof (elp_wakeup_keeps c wl W) as K. destruct (wl1271_ps_elp_wakeup c wl) as [r w]. simpl in K.
  split_if; [exact K|]. pose proof (set_rx_streaming_keeps v true w (wk_inv _ _ K)) as K2.
  destruct (wl1271_set_rx_streaming v true w) as [r2 w2]. simpl in K2.
  assert (work_keeps wl w2) as K' by (by eapply work_keeps_trans).
  eapply work_keeps_trans; [|apply elp_sleep_keeps].
  - split_if; [exact K' | eapply work_keeps_trans; [exact K' | apply emit_keeps; [done | apply K']]].
  - split_if; [apply K' | apply (wk_inv w2), emit_keeps; [done | apply K']].
Qed.

Lemma rx_streaming_disable_keeps v c wl : work_inv wl ->
  work_keeps wl (wl1271_rx_streaming_disable_work v c wl).
Proof.
  intros W. unfold wl1271_rx_streaming_disable_work. split_if; [by apply view_keeps|].
  pose proof (elp_wakeup_keeps c wl W) as K. destruct (wl1271_ps_elp_wakeup c wl) as [r w]. simpl in K.
  split_if; [exact K|]. pose proof (set_rx_streaming_keeps v false w (wk_inv _ _ K)) as K2.
  eapply work_keeps_trans; [exact K|]. eapply work_keeps_trans; [exact K2 | apply elp_sleep_keeps, K2].
Qed.

Lemma soft_gemini_keeps en wl : work_inv wl ->
  work_keeps wl (wl12xx_event_soft_gemini_sense en wl).
Proof.
  intros W. unfold wl12xx_event_soft_gemini_sense. split_if.
  - apply view_keeps; [done | by apply set_flag_view | done | done].
  - set (w1 := clear_flag _ wl).
    assert (work_keeps wl w1) as K by (apply view_keeps; [done | by apply clear_flag_view | done | done]).
    eapply work_keeps_trans; [exact K|]. apply each_keeps; [|apply K]. intros v w Wv. by apply recalc_keeps.
Qed.

(** The end of a scan only clears the failure mark and queues the completion. *)
Lemma scan_completed_keeps wl : work_inv wl -> work_keeps wl (wl12xx_scan_completed wl).
Proof.
  intros W. unfold wl12xx_scan_completed.
  assert (work_keeps wl (wl <| scan_failed := false |>)) as K by (apply view_keeps; [done | by split..]).
  eapply work_keeps_trans; [exact K|]. eapply work_keeps_trans; apply emit_keeps; try done; [apply K|].
  apply (wk_inv (wl <| scan_failed := false |>)), emit_keeps; [done | apply K].
Qed.

(** ** Dispatch *)

Lemma process_early_keeps mbox vector wl : work_inv wl ->
  work_keeps wl (process_early mbox vector wl).
Proof.
  intros W. unfold process_early. cbv zeta.
  assert (work_keeps wl wl) as K0 by (by apply view_keeps).
  set (w1 := when _ wl12xx_scan_completed wl).
  assert (work_keeps wl w1) as K1 by (apply when_keeps; [apply scan_completed_keeps | done]). clearbody w1.
  set (w2 := when _ _ w1).
  assert (work_keeps wl w2) as K2.
  { eapply work_keeps_trans; [exact K1|]. apply when_keeps; [|apply K1]. intros Wi.
    eapply work_keeps_trans; [by apply (emit_keeps EvSchedScanStopped)|].
    apply view_keeps; [|by split..]. by apply (wk_inv w1), emit_keeps. }
  clearbody w2. clear K0 K1.
  set (w3 := when _ _ w2).
  assert (work_keeps wl w3) as K3.
  { eapply work_keeps_trans; [exact K2|]. apply when_keeps; [apply soft_gemini_keeps | apply K2]. }
  clearbody w3. set (w4 := when _ _ w3).
  assert (work_keeps wl w4) as K4.
  { eapply work_keeps_trans; [exact K3|]. apply when_keeps; [|apply K3]. intros Wi.
    eapply work_keeps_trans; [by apply (emit_keeps EvQueueConnLoss)|].
    apply each_keeps; [intros; by apply emit_keeps | by apply (wk_inv w3), emit_keeps]. }
  clearbody w4. set (w5 := when _ _ w4).
  assert (work_keeps wl w5) as K5.
  { eapply work_keeps_trans; [exact K4|]. apply when_keeps; [|apply K4]. intros. by apply emit_keeps. }
  clearbody w5. set (w6 := when _ _ w5).
  assert (work_keeps wl w6) as K6.
  { eapply work_keeps_trans; [exact K5|]. apply when_keeps; [|apply K5]. intros.
    apply each_keeps; [intros; by apply rssi_trigger_keeps | done]. }
  clearbody w6. set (w7 := when _ _ w6).
  assert (work_keeps wl w7) as K7.
  { eapply work_keeps_trans; [exact K6|]. apply when_keeps; [|apply K6]. intros.
    apply each_keeps; [|done]. intros v w Wv. cbv zeta.
    set (w' := upd_vif v _ w). assert (work_keeps w w') as K' by (by apply upd_vif_keeps).
    split_if; [|exact K']. eapply work_keeps_trans; [exact K' | apply stop_ba_keeps, K']. }
  clearbody w7. eapply work_keeps_trans; [exact K7|]. apply when_keeps; [|apply K7]. intros.
  apply each_keeps; [|done]. intros v w Wv. cbv zeta. split_if; [by apply view_keeps|].
  set (w' := upd_vif v _ w). assert (work_keeps w w') as K' by (apply vif_flags_keeps; [other_flag | done]).
  eapply work_keeps_trans; [exact K' | apply emit_keeps; [done | apply K']].
Qed.

Lemma process_late_keeps mbox vector wl : work_inv wl ->
  work_keeps wl (process_late mbox vector wl).
Proof.
  intros W. unfold process_late. cbv zeta. set (w1 := when _ (emit EvReadyOnChannel) wl).
  assert (work_keeps wl w1) as K1 by (apply when_keeps; [by apply emit_keeps | done]).
  eapply work_keeps_trans; [exact K1|]. apply when_keeps; [apply disconnect_keeps | apply K1].
Qed.

(** The dummy packet is queued once, however often the firmware asks. *)
Lemma tx_dummy_keeps fuel wl : work_inv wl -> 2 * (backlog wl + 1) + 1 < Z.of_nat fuel ->
  exists ret wl', wl1271_tx_dummy_packet fuel wl = Ret (ret, wl') /\ keeps_plus 1 wl wl'.
Proof.
  intros W Hf. unfold wl1271_tx_dummy_packet.
  destruct (flag wl WL1271_FLAG_DUMMY_PACKET_PENDING) eqn:Hd.
  { exists 0, wl. split; [done|]. apply (keeps_plus_mono 0); [lia|]. by apply work_plus, view_keeps. }
  cbv zeta. destruct (requeue_spec None (dummy_packet (hw wl)) 0 wl W (wi_dummy _ W)) as
    (w1 & E & W1 & Eh & Es & B & C & Vf); [done | done |].
  unfold wl1271_skb_queue_head, wl12xx_is_dummy_packet in E. rewrite Nat.eqb_refl in E.
  injection E as E. unfold add_queue_count in *. rewrite E.
  assert (keeps_plus 1 wl w1) as K1.
  { split; [done | done | | lia | done]. intros s Hs. rewrite C by done. unfold is_skb.
    rewrite bool_decide_eq_false_2 by congruence. lia. }
  split_if; [|by exists 0, w1].
  destruct (tx_work_locked_keeps fuel w1 W1) as (ret & w2 & -> & K2); [lia|].
  exists ret, w2. split; [done | by eapply plus_work].
Qed.

Lemma event_process_keeps fuel mbox wl : work_inv wl -> 2 * (backlog wl + 1) + 1 < Z.of_nat fuel ->
  exists ret wl', wl1271_event_process fuel mbox wl = Ret (ret, wl') /\ keeps_plus 1 wl wl'.
Proof.
  intros W Hf. unfold wl1271_event_process. cbv zeta. set (vector := Z.land _ _).
  pose proof (process_early_keeps mbox vector wl W) as K1. set (w1 := process_early mbox vector wl) in *.
  clearbody w1. pose proof (wk_backlog _ _ K1) as B1.
  assert (exists ret w2, (if has vector DUMMY_PACKET_EVENT_ID then wl1271_tx_dummy_packet fuel w1
            else Ret (0, w1)) = Ret (ret, w2) /\ keeps_plus 1 wl w2) as (ret & w2 & -> & K2).
  { split_if.
    - destruct (tx_dummy_keeps fuel w1 (wk_inv _ _ K1)) as (ret & w2 & -> & K2); [lia|].
      exists ret, w2. split; [done | by eapply work_plus_trans].
    - exists 0, w1. split; [done|]. apply (keeps_plus_mono 0); [lia | by apply work_plus]. }
  cbn [obind]. split_if; [by exists ret, w2|]. do 2 eexists. split; [done|].
  eapply plus_work; [exact K2 | apply process_late_keeps, K2].
Qed.

Lemma event_handle_keeps fuel n wl : work_inv wl -> 2 * (backlog wl + 1) + 1 < Z.of_nat fuel ->
  exists ret wl', wl1271_event_handle fuel n wl = Ret (ret, wl') /\ keeps_plus 1 wl wl'.
Proof.
  intros W Hf. unfold wl1271_event_handle.
  assert (forall w, work_keeps wl w -> keeps_plus 1 wl w) as P1.
  { intros w K. apply (keeps_plus_mono 0); [lia | by apply work_plus]. }
  split_if; [exists (- EINVAL), wl; split; [done | by apply P1, view_keeps]|].
  pose proof (read_io_frame (zget 0 (mbox_ptr (hw wl)) n) MBOX_SIZE wl) as F.
  destruct (wlcore_read _ MBOX_SIZE wl) as [[ret data] w1]. simpl in F.
  assert (work_keeps wl w1) as K1 by (by apply io_keeps).
  split_if; [exists ret, w1; auto|]. pose proof (wk_backlog _ _ K1) as B1.
  destruct (event_process_keeps fuel (decode_mbox data) w1 (wk_inv _ _ K1)) as (r2 & w2 & -> & K2); [lia|].
  cbn [obind]. assert (keeps_plus 1 wl w2) as K12 by (by eapply work_plus_trans).
  split_if; [by exists r2, w2|].
  pose proof (ack_event_io_frame w2) as F2. destruct (ack_event w2) as [r3 w3]. simpl in F2.
  exists r3, w3. split; [done|]. eapply plus_work; [exact K12 | apply io_keeps; [apply K12 | exact F2]].
Qed.

End EventFacts.
