(* ===== verification/Irq.v ===== *)
(** * The interrupt handler (wlcore/main.c)

    One interrupt runs a bounded loop: read the firmware status, complete
    transmitted frames, receive, transmit, handle events.  Any failure leads
    to recovery. *)

From S2P Require Import Prelude Ieee80211 WlState ChipOps Io Queues LinkQueues.
From S2P Require Import PowerSave TxPath TxAllocFacts TxSched TxInv SchedFacts TxMoves.
From S2P Require Import TxPrep TxWork TxDone TxDoneFacts FwStatus Rx RxFacts Event.
From S2P Require Import EventFacts.

Definition WL1271_ACX_INTR_WATCHDOG := BIT 0.
Definition WL1271_ACX_INTR_EVENT_A := BIT 2.
Definition WL1271_ACX_INTR_EVENT_B := BIT 3.
Definition WL1271_ACX_INTR_HW_AVAILABLE := BIT 5.
Definition WL1271_ACX_INTR_DATA := BIT 6.
Definition WL1271_ACX_SW_INTR_WATCHDOG := BIT 9.
Definition WLCORE_ALL_INTR_MASK :=
  Z.lor WL1271_ACX_INTR_WATCHDOG (Z.lor WL1271_ACX_INTR_EVENT_A
    (Z.lor WL1271_ACX_INTR_EVENT_B (Z.lor WL1271_ACX_INTR_HW_AVAILABLE
      (Z.lor WL1271_ACX_INTR_DATA WL1271_ACX_SW_INTR_WATCHDOG)))).

Definition WL1271_IRQ_MAX_LOOPS := 256.

(** How one pass of the loop ends: [goto out], [done], or another pass. *)
Inductive irq_pass := PassOut | PassDone | PassNext.

Section Irq.
Context `{ops : wlcore_ops}.

(** The WL1271_ACX_INTR_DATA branch. *)
Definition irq_data (fuel : nat) (status : wl_fw_status) (wl : wl1271) : outcome (Z * wl1271) :=
  let* (ret, wl) := wlcore_rx status wl in
  if ret <? 0 then Ret (ret, wl)
  else
    let* (ret, wl) :=
      if negb (flag wl WL1271_FLAG_FW_TX_BUSY) && (0 <? wl1271_tx_total_queue_count wl)
      then wlcore_tx_work_locked fuel wl else Ret (ret, wl) in
    if ret <? 0 then Ret (ret, wl)
    else
      let* (ret, wl) := wlcore_hw_tx_delayed_compl (tx_results_counter status) wl in
      if ret <? 0 then Ret (ret, wl)
      else
        let defer_count := zlen (deferred_tx_queue wl) + zlen (deferred_rx_queue wl) in
        Ret (ret, if WL1271_DEFERRED_QUEUE_LIMIT <? defer_count
                  then wl1271_flush_deferred_work wl else wl).

(** The event branches. *)
Definition irq_events (fuel : nat) (intr ret : Z) (wl : wl1271) : outcome (Z * wl1271) :=
  let* (ret, wl) := if has intr WL1271_ACX_INTR_EVENT_A
                    then wl1271_event_handle fuel 0 wl else Ret (ret, wl) in
  if ret <? 0 then Ret (ret, wl)
  else if has intr WL1271_ACX_INTR_EVENT_B then wl1271_event_handle fuel 1 wl
  else Ret (ret, wl).

(** The body of the loop. *)
Definition irq_body (fuel : nat) (wl : wl1271) : outcome (irq_pass * Z * wl1271) :=
  let wl := clear_flag WL1271_FLAG_IRQ_RUNNING wl in
  let '(ret, status, wl) := wlcore_fw_status wl in
  if ret <? 0 then Ret (PassOut, ret, wl)
  else
    let* wl := wlcore_hw_tx_immediate_compl (status_priv status) wl in
    let intr := Z.land (intr status) WLCORE_ALL_INTR_MASK in
    if intr =? 0 then Ret (PassDone, ret, wl)
    else if has intr WL1271_ACX_INTR_WATCHDOG || has intr WL1271_ACX_SW_INTR_WATCHDOG
    then Ret (PassOut, - EIO, wl <| watchdog_recovery := true |>)
    else
      let* (ret, wl) := if has intr WL1271_ACX_INTR_DATA then irq_data fuel status wl
                        else Ret (ret, wl) in
      if ret <? 0 then Ret (PassOut, ret, wl)
      else
        let* (ret, wl) := irq_events fuel intr ret wl in
        Ret (if ret <? 0 then PassOut else PassNext, ret, wl).

(** [while (!done && loopcount--)], then [wl1271_ps_elp_sleep]. *)
Fixpoint irq_loop (fuel loops : nat) (ret : Z) (wl : wl1271) : outcome (Z * wl1271) :=
  match loops with
  | O => Ret (ret, wl1271_ps_elp_sleep wl)
  | S loops =>
      let* (pass, ret, wl) := irq_body fuel wl in
      match pass with
      | PassOut => Ret (ret, wl)
      | PassDone => Ret (ret, wl1271_ps_elp_sleep wl)
      | PassNext => irq_loop fuel loops ret wl
      end
  end.

Definition wlcore_irq_locked (fuel : nat) (completed : Z) (wl : wl1271) : outcome (Z * wl1271) :=
  let loopcount := if edge_irq (hw wl) then 1 else WL1271_IRQ_MAX_LOOPS in
  if negb (bool_decide (state wl = WLCORE_STATE_ON)) then Ret (0, wl)
  else
    let '(ret, wl) := wl1271_ps_elp_wakeup completed wl in
    if ret <? 0 then Ret (ret, wl) else irq_loop fuel (Z.to_nat loopcount) ret wl.

Definition wlcore_irq (fuel : nat) (completed : Z) (wl : wl1271) : outcome wl1271 :=
  let wl := set_flag WL1271_FLAG_TX_PENDING wl in
  let* (ret, wl) := wlcore_irq_locked fuel completed wl in
  let wl := if negb (ret =? 0) then wl12xx_queue_recovery_work wl else wl in
  let wl := clear_flag WL1271_FLAG_TX_PENDING wl in
  Ret (if negb (flag wl WL1271_FLAG_FW_TX_BUSY) && (0 <? wl1271_tx_total_queue_count wl)
       then emit EvQueueTxWork wl else wl).

End Irq.

(** ** The completion hooks of a lower driver *)

Class tx_compl_laws (ops : wlcore_ops) : Prop := {
  delayed_compl_keeps f c wl : tx_delayed_compl = Some f -> work_inv wl ->
    exists ret wl', f c wl = Ret (ret, wl') /\ work_keeps wl wl';
  immediate_compl_keeps f priv wl : tx_immediate_compl = Some f -> work_inv wl ->
    exists wl', f priv wl = Ret wl' /\ work_keeps wl wl'
}.

(** ** Totality and invariants *)

Section IrqFacts.
Context `{laws : wlcore_ops_laws} `{!tx_compl_laws ops}.

Lemma hw_delayed_keeps c wl : work_inv wl ->
  exists ret wl', wlcore_hw_tx_delayed_compl c wl = Ret (ret, wl') /\ work_keeps wl wl'.
Proof.
  intros W. unfold wlcore_hw_tx_delayed_compl. destruct tx_delayed_compl as [f|] eqn:E.
  - by eapply delayed_compl_keeps.
  - exists 0, wl. split; [done | by apply view_keeps].
Qed.

Lemma hw_immediate_keeps p wl : work_inv wl ->
  exists wl', wlcore_hw_tx_immediate_compl p wl = Ret wl' /\ work_keeps wl wl'.
Proof.
  intros W. unfold wlcore_hw_tx_immediate_compl. destruct tx_immediate_compl as [f|] eqn:E.
  - by eapply immediate_compl_keeps.
  - exists wl. split; [done | by apply view_keeps].
Qed.

Lemma irq_data_keeps fuel status wl : work_inv wl -> 2 * backlog wl + 1 < Z.of_nat fuel ->
  exists ret wl', irq_data fuel status wl = Ret (ret, wl') /\ work_keeps wl wl'.
Proof.
  intros W Hf. unfold irq_data.
  destruct (rx_spec status wl W) as (r1 & w1 & k & -> & [K1 _ _ _] & _). cbn [obind].
  split_if; [by exists r1, w1|]. pose proof (wk_backlog _ _ K1) as B1.
  assert (exists r2 w2, (if negb (flag w1 WL1271_FLAG_FW_TX_BUSY) && (0 <? wl1271_tx_total_queue_count w1)
    then wlcore_tx_work_locked fuel w1 else Ret (r1, w1)) = Ret (r2, w2) /\ work_keeps wl w2)
    as (r2 & w2 & -> & K2).
  { split_if; [|by exists r1, w1].
    destruct (tx_work_locked_keeps fuel w1 (wk_inv _ _ K1)) as (r2 & w2 & -> & K2); [lia|].
    exists r2, w2. split; [done | by eapply work_keeps_trans]. }
  cbn [obind]. split_if; [by exists r2, w2|].
  destruct (hw_delayed_keeps (tx_results_counter status) w2 (wk_inv _ _ K2)) as (r3 & w3 & -> & K3).
  cbn [obind]. assert (work_keeps wl w3) as K by (by eapply work_keeps_trans).
  split_if; [by exists r3, w3|]. do 2 eexists. split; [done|].
  split_if; [|exact K]. destruct (flush_deferred_keeps w3 (wk_inv _ _ K)) as [K4 _].
  by eapply work_keeps_trans.
Qed.

Lemma irq_events_keeps fuel i ret wl : work_inv wl -> 2 * (backlog wl + 2) + 1 < Z.of_nat fuel ->
  exists ret' wl', irq_events fuel i ret wl = Ret (ret', wl') /\ keeps_plus 2 wl wl'.
Proof.
  intros W Hf. unfold irq_events.
  assert (keeps_plus 1 wl wl) as K0 by (apply (keeps_plus_mono 0); [lia | by apply work_plus, view_keeps]).
  assert (exists r1 w1, (if has i WL1271_ACX_INTR_EVENT_A then wl1271_event_handle fuel 0 wl
    else Ret (ret, wl)) = Ret (r1, w1) /\ keeps_plus 1 wl w1) as (r1 & w1 & -> & K1).
  { split_if; [|by exists ret, wl]. apply event_handle_keeps; [done | lia]. }
  cbn [obind]. pose proof (kp_backlog _ _ _ K1) as B1.
  assert (keeps_plus 2 wl w1) as K1' by (by apply (keeps_plus_mono 1); [lia|]).
  split_if; [by exists r1, w1|]. split_if; [|by exists r1, w1].
  destruct (event_handle_keeps fuel 1 w1 (kp_inv _ _ _ K1)) as (r2 & w2 & -> & K2); [lia|].
  exists r2, w2. split; [done|]. by apply (keeps_plus_trans 1 1 _ w1).
Qed.

Lemma irq_body_keeps fuel wl : work_inv wl -> 2 * (backlog wl + 2) + 1 < Z.of_nat fuel ->
  exists p ret wl', irq_body fuel wl = Ret (p, ret, wl') /\ keeps_plus 2 wl wl'.
Proof.
  intros W Hf. unfold irq_body. cbv zeta. set (w0 := clear_flag _ wl).
  assert (work_keeps wl w0) as K0
    by (apply view_keeps; [done | by apply clear_flag_view | done | done]). clearbody w0.
  pose proof (fw_status_keeps w0 (wk_inv _ _ K0)) as K1.
  destruct (wlcore_fw_status w0) as [[r1 st] w1]. simpl in K1.
  assert (work_keeps wl w1) as K by (by eapply work_keeps_trans). clear K0 K1.
  assert (forall w, work_keeps wl w -> keeps_plus 2 wl w) as P2.
  { intros w Kw. apply (keeps_plus_mono 0); [lia | by apply work_plus]. }
  split_if; [do 3 eexists; split; [done | by apply P2]|].
  destruct (hw_immediate_keeps (status_priv st) w1 (wk_inv _ _ K)) as (w2 & -> & K2). cbn [obind].
  assert (work_keeps wl w2) as K' by (by eapply work_keeps_trans). clear K K2.
  split_if; [do 3 eexists; split; [done | by apply P2]|].
  split_if.
  { do 3 eexists. split; [done|]. apply P2. eapply work_keeps_trans; [exact K'|].
    apply view_keeps; [apply K' | by split..]. }
  pose proof (wk_backlog _ _ K') as B2.
  set (i := Z.land (intr st) WLCORE_ALL_INTR_MASK).
  assert (exists r3 w3, (if has i WL1271_ACX_INTR_DATA then irq_data fuel st w2 else Ret (r1, w2))
    = Ret (r3, w3) /\ work_keeps wl w3) as (r3 & w3 & -> & K3).
  { split_if; [|by exists r1, w2].
    destruct (irq_data_keeps fuel st w2 (wk_inv _ _ K')) as (r3 & w3 & -> & K3); [lia|].
    exists r3, w3. split; [done | by eapply work_keeps_trans]. }
  cbn [obind]. split_if; [do 3 eexists; split; [done | by apply P2]|].
  pose proof (wk_backlog _ _ K3) as B3.
  destruct (irq_events_keeps fuel i r3 w3 (wk_inv _ _ K3)) as (r4 & w4 & -> & K4); [lia|].
  cbn [obind]. do 3 eexists. split; [done | by eapply work_plus_trans].
Qed.

Lemma irq_loop_keeps fuel loops : forall ret wl, work_inv wl ->
  2 * (backlog wl + 2 * Z.of_nat loops) + 1 < Z.of_nat fuel ->
  exists ret' wl', irq_loop fuel loops ret wl = Ret (ret', wl') /\
    keeps_plus (2 * Z.of_nat loops) wl wl'.
Proof.
  induction loops as [|loops IH]; intros ret wl W Hf; cbn [irq_loop].
  - do 2 eexists. split; [done|]. by apply work_plus, elp_sleep_keeps.
  - destruct (irq_body_keeps fuel wl W) as (p & r1 & w1 & -> & K1); [lia|]. cbn [obind].
    pose proof (kp_backlog _ _ _ K1) as B1.
    assert (forall w, keeps_plus 2 wl w -> keeps_plus (2 * Z.of_nat (S loops)) wl w) as Up
      by (intros w; apply keeps_plus_mono; lia).
    destruct p.
    + do 2 eexists. split; [done | by apply Up].
    + do 2 eexists. split; [done|]. apply Up. eapply plus_work; [exact K1 | apply elp_sleep_keeps, K1].
    + destruct (IH r1 w1 (kp_inv _ _ _ K1)) as (r2 & w2 & -> & K2); [lia|].
      exists r2, w2. split; [done|]. replace (2 * Z.of_nat (S loops)) with (2 + 2 * Z.of_nat loops) by lia.
      by eapply keeps_plus_trans.
Qed.

(** The handler: total, invariant kept, and a failure stops the driver. *)
Lemma irq_keeps fuel c wl : work_inv wl -> 2 * (backlog wl + 512) + 1 < Z.of_nat fuel ->
  exists wl', wlcore_irq fuel c wl = Ret wl' /\ keeps_plus 512 wl wl'.
Proof.
  intros W Hf. unfold wlcore_irq, wlcore_irq_locked. cbv zeta.
  set (w0 := set_flag _ wl).
  assert (work_keeps wl w0) as K0 by (apply view_keeps; [done | by apply set_flag_view | done | done]).
  assert (backlog w0 = backlog wl) as B0 by done. clearbody w0.
  assert (exists ret w1, (if negb (bool_decide (state w0 = WLCORE_STATE_ON)) then Ret (0, w0)
    else let '(ret, w) := wl1271_ps_elp_wakeup c w0 in if ret <? 0 then Ret (ret, w)
      else irq_loop fuel (Z.to_nat (if edge_irq (hw w0) then 1 else WL1271_IRQ_MAX_LOOPS)) ret w)
    = Ret (ret, w1) /\ keeps_plus 512 wl w1) as (ret & w1 & -> & K1).
  { assert (forall w, work_keeps wl w -> keeps_plus 512 wl w) as P.
    { intros w Kw. apply (keeps_plus_mono 0); [lia | by apply work_plus]. }
    split_if; [exists 0, w0; auto|].
    pose proof (elp_wakeup_keeps c w0 (wk_inv _ _ K0)) as K. pose proof (elp_wakeup_backlog c w0) as B.
    destruct (wl1271_ps_elp_wakeup c w0) as [r w]. simpl in K, B.
    assert (work_keeps wl w) as K' by (by eapply work_keeps_trans). split_if; [exists r, w; auto|].
    set (loops := Z.to_nat _).
    assert (2 * Z.of_nat loops <= 512) as Hl by (unfold loops, WL1271_IRQ_MAX_LOOPS; split_if; lia).
    destruct (irq_loop_keeps fuel loops r w (wk_inv _ _ K')) as (r2 & w2 & -> & K2); [lia|].
    exists r2, w2. split; [done|]. eapply work_plus_trans; [exact K'|].
    by eapply keeps_plus_mono; [|exact K2]. }
  cbn [obind]. eexists. split; [done|].
  set (w2 := if negb (ret =? 0) then _ else w1).
  assert (keeps_plus 512 wl w2) as K2.
  { unfold w2. split_if; [|exact K1]. eapply plus_work; [exact K1|].
    apply io_keeps; [apply K1 | apply queue_recovery_io_frame]. }
  clearbody w2. set (w3 := clear_flag _ w2).
  assert (keeps_plus 512 wl w3) as K3.
  { eapply plus_work; [exact K2|]. apply view_keeps; [apply K2 | by apply clear_flag_view | done | done]. }
  split_if; [|exact K3]. eapply plus_work; [exact K3 | apply emit_keeps; [done | apply K3]].
Qed.

End IrqFacts.
