(* ===== verification/Links.v ===== *)
(** * Roles, links, peers and block-ack sessions

    The identifiers the driver hands out to the firmware and takes back:
    roles, host links (cmd.c), rate policies and keep-alive templates (main.c);
    the stations of an access point, which own a link each (main.c); and the
    receiving block-ack sessions (main.c, [wl1271_op_ampdu_action]).  The
    [u8 *id] argument of the C functions is an argument and a result here. *)

From S2P Require Import Prelude Ieee80211 WlState ChipOps Io Queues LinkQueues.
From S2P Require Import PowerSave TxPath.

(** ** Identifiers *)

Definition wl12xx_allocate_rate_policy (idx : Z) (wl : wl1271) : Z * Z * wl1271 :=
  let policy := find_first_zero_bit (rate_policies_map wl) WL12XX_MAX_RATE_POLICIES in
  if WL12XX_MAX_RATE_POLICIES <=? policy then (- EBUSY, idx, wl)
  else (0, policy, wl <| rate_policies_map ::= set_bit policy |>).

Definition wl12xx_free_rate_policy (idx : Z) (wl : wl1271) : Z * wl1271 :=
  if WL12XX_MAX_RATE_POLICIES <=? idx then (idx, wl)
  else (WL12XX_MAX_RATE_POLICIES, wl <| rate_policies_map ::= clear_bit idx |>).

Definition wlcore_allocate_klv_template (idx : Z) (wl : wl1271) : Z * Z * wl1271 :=
  let policy := find_first_zero_bit (klv_templates_map wl) WLCORE_MAX_KLV_TEMPLATES in
  if WLCORE_MAX_KLV_TEMPLATES <=? policy then (- EBUSY, idx, wl)
  else (0, policy, wl <| klv_templates_map ::= set_bit policy |>).

Definition wlcore_free_klv_template (idx : Z) (wl : wl1271) : Z * wl1271 :=
  if WLCORE_MAX_KLV_TEMPLATES <=? idx then (idx, wl)
  else (WLCORE_MAX_KLV_TEMPLATES, wl <| klv_templates_map ::= clear_bit idx |>).

Definition wl12xx_allocate_link (wlvif : nat) (hlid : Z) (wl : wl1271) : Z * Z * wl1271 :=
  let link := find_first_zero_bit (links_map wl) WL12XX_MAX_LINKS in
  if WL12XX_MAX_LINKS <=? link then (- EBUSY, hlid, wl)
  else
    let wl := wl <| links_map ::= set_bit link |> in
    let wl := upd_vif wlvif (fun w => w <| vif_links_map ::= set_bit link |>) wl in
    (0, link, wl).

Definition wl12xx_free_link (wlvif : nat) (hlid : Z) (wl : wl1271) : Z * wl1271 :=
  if hlid =? WL12XX_INVALID_LINK_ID then (hlid, wl)
  else
    let wl := wl <| links_map ::= clear_bit hlid |> in
    let wl := upd_vif wlvif (fun w => w <| vif_links_map ::= clear_bit hlid |>) wl in
    (WL12XX_INVALID_LINK_ID, wl1271_tx_reset_link_queues hlid wl).

Definition wl12xx_get_new_session_id (wlvif : nat) (wl : wl1271) : Z * wl1271 :=
  let old := session_counter (vif_at wl wlvif) in
  let base := if SESSION_COUNTER_MAX <=? old then 0 else old in
  let wl := upd_vif wlvif (fun w => w <| session_counter := base + 1 |>) wl in
  (base + 1, wl).

Section Links.
Context `{ops : wlcore_ops}.

Definition wl12xx_cmd_role_enable (addr : list Z) (role_type role_id : Z) (wl : wl1271)
    : Z * Z * wl1271 :=
  if negb (role_id =? WL12XX_INVALID_ROLE_ID) then (- EBUSY, role_id, wl)
  else
    let id := find_first_zero_bit (roles_map wl) WL12XX_MAX_ROLES in
    if WL12XX_MAX_ROLES <=? id then (- EBUSY, role_id, wl)
    else
      let '(ret, wl) := wl1271_cmd_send (CMD_ROLE_ENABLE id role_type addr) wl in
      if ret <? 0 then (ret, role_id, wl)
      else (ret, id, wl <| roles_map ::= set_bit id |>).

Definition wl12xx_cmd_role_disable (role_id : Z) (wl : wl1271) : Z * Z * wl1271 :=
  if role_id =? WL12XX_INVALID_ROLE_ID then (- ENOENT, role_id, wl)
  else
    let '(ret, wl) := wl1271_cmd_send (CMD_ROLE_DISABLE role_id) wl in
    if ret <? 0 then (ret, role_id, wl)
    else (ret, WL12XX_INVALID_ROLE_ID, wl <| roles_map ::= clear_bit role_id |>).

(** ** Waiting for a firmware event *)

(** [polls] is how often the two mailboxes can be polled before the deadline;
    the second result says that it passed. *)
Fixpoint event_poll (polls : nat) (mask ret : Z) (wl : wl1271) : Z * bool * wl1271 :=
  match polls with
  | O => (ret, true, wl)
  | S polls =>
      let '(ret, v0, wl) := wlcore_read (zget 0 (mbox_ptr (hw wl)) 0) 4 wl in
      if ret <? 0 then (ret, false, wl) else
      let '(ret, v1, wl) := wlcore_read (zget 0 (mbox_ptr (hw wl)) 1) 4 wl in
      if ret <? 0 then (ret, false, wl) else
      let event := Z.lor (Z.land (le_value v0) mask) (Z.land (le_value v1) mask) in
      if event =? 0 then event_poll polls mask ret wl else (ret, false, wl)
  end.

Definition wl1271_cmd_wait_for_event_or_timeout (mask : Z) (wl : wl1271) : Z * bool * wl1271 :=
  event_poll (event_polls (hw wl)) mask 0 wl.

Definition wl1271_cmd_wait_for_event (mask : Z) (wl : wl1271) : Z * wl1271 :=
  let '(ret, timeout, wl) := wl1271_cmd_wait_for_event_or_timeout mask wl in
  if negb (ret =? 0) || timeout then (ret, wl12xx_queue_recovery_work wl) else (0, wl).

(** ** Peers *)

Definition PEER_REMOVE_COMPLETE_EVENT_ID := BIT 27.
Definition WL1271_CMD_STA_STATE_CONNECTED := 1.
Definition WL1271_AP_BSS_INDEX := 0.
Definition NUM_ACCESS_CATEGORIES_COPY := 4.
Definition WL1271_PSD_LEGACY := 0.
Definition WL1271_PSD_UPSD_TRIGGER := 1.
Definition HW_MIMO_RATES_OFFSET := 24.
Definition WL12XX_HT_CAP_HT_OPERATION := BIT 16.

(** [struct ieee80211_sta_ht_cap] and [struct ieee80211_sta] of mac80211; the
    driver's private area holds the station's link. *)
Record ieee80211_sta_ht_cap := {
  ht_cap_bits : Z;
  ht_supported : bool;
  ampdu_factor : Z;
  ampdu_density : Z;
  mcs_rx_mask : list Z
}.

Record ieee80211_sta := {
  supp_rates : ieee80211_band -> Z;
  sta_addr : list Z;
  sta_aid : Z;
  sta_ht_cap : ieee80211_sta_ht_cap;
  sta_wme : bool;
  uapsd_queues : Z;
  max_sp : Z;
  wl_sta_hlid : Z
}.

Definition wl12xx_cmd_set_peer_state (wlvif : nat) (hlid : Z) (wl : wl1271) : Z * wl1271 :=
  let w := vif_at wl wlvif in
  let wmm := if is_sta w then Z.b2z (wmm_enabled w) else 0 in
  wl1271_cmd_send (CMD_SET_PEER_STATE hlid WL1271_CMD_STA_STATE_CONNECTED wmm) wl.

Definition peer_psd_type (sta : ieee80211_sta) : list Z :=
  for_range NUM_ACCESS_CATEGORIES_COPY
    (fun i psd => zset psd (NUM_ACCESS_CATEGORIES_COPY - 1 - i)
       (if sta_wme sta && has (uapsd_queues sta) (BIT i) then WL1271_PSD_UPSD_TRIGGER
        else WL1271_PSD_LEGACY)) [0; 0; 0; 0].

Definition peer_rates (wl : wl1271) (band : ieee80211_band) (sta : ieee80211_sta) : Z :=
  let rates := supp_rates sta band in
  let mask := mcs_rx_mask (sta_ht_cap sta) in
  if ht_supported (sta_ht_cap sta) then
    Z.lor rates (Z.lor (Z.shiftl (zget 0 mask 0) HW_HT_RATES_OFFSET)
                       (Z.shiftl (zget 0 mask 1) HW_MIMO_RATES_OFFSET))
  else rates.

Definition wl12xx_cmd_add_peer (wlvif : nat) (sta : ieee80211_sta) (hlid : Z) (wl : wl1271)
    : Z * wl1271 :=
  let band := vif_band (vif_at wl wlvif) in
  wl1271_cmd_send
    (CMD_ADD_PEER (sta_addr sta) hlid (u8 (sta_aid sta)) (peer_psd_type sta)
       (wl1271_tx_enabled_rates_get (bitrates (hw wl) band) (peer_rates wl band sta))
       WL1271_AP_BSS_INDEX (max_sp sta) (Z.b2z (sta_wme sta))) wl.

Definition wl12xx_cmd_remove_peer (hlid : Z) (wl : wl1271) : Z * wl1271 :=
  let '(ret, wl) := wl1271_cmd_send (CMD_REMOVE_PEER hlid) wl in
  if ret <? 0 then (ret, wl)
  else
    let '(ret, _, wl) :=
      wl1271_cmd_wait_for_event_or_timeout PEER_REMOVE_COMPLETE_EVENT_ID wl in
    (ret, if negb (ret =? 0) then wl12xx_queue_recovery_work wl else wl).

Definition wl1271_acx_set_ht_capabilities (ht_cap : ieee80211_sta_ht_cap)
    (allow_ht_operation : bool) (hlid : Z) (wl : wl1271) : Z * wl1271 :=
  let ht := allow_ht_operation && ht_supported ht_cap in
  wl1271_cmd_send
    (CMD_SET_HT_CAP hlid
       (if ht then Z.lor (ht_cap_bits ht_cap) WL12XX_HT_CAP_HT_OPERATION else 0)
       (if ht then ampdu_factor ht_cap else 0) (if ht then ampdu_density ht_cap else 0)) wl.

(** ** Stations of an access point *)

Definition wl1271_allocate_sta (wlvif : nat) (sta : ieee80211_sta) (wl : wl1271)
    : Z * Z * wl1271 :=
  if AP_MAX_STATIONS <=? active_sta_count wl then (- EBUSY, wl_sta_hlid sta, wl)
  else
    let '(ret, hlid, wl) := wl12xx_allocate_link wlvif (wl_sta_hlid sta) wl in
    if ret <? 0 then (- EBUSY, hlid, wl)
    else
      let wl := upd_vif wlvif (fun w => w <| ap_sta_hlid_map ::= set_bit hlid |>) wl in
      let wl := upd_link hlid (fun l => l <| link_addr := sta_addr sta |>) wl in
      (0, hlid, wl <| active_sta_count ::= Z.add 1 |>).

Definition wl1271_free_sta (wlvif : nat) (hlid : Z) (wl : wl1271) : wl1271 :=
  if negb (test_bit hlid (ap_sta_hlid_map (vif_at wl wlvif))) then wl
  else
    let wl := upd_vif wlvif (fun w => w <| ap_sta_hlid_map ::= clear_bit hlid |>) wl in
    let wl := upd_link hlid (fun l => l <| link_addr := [0; 0; 0; 0; 0; 0] |>
                                        <| ba_bitmap := 0 |>) wl in
    let wl := wl <| ap_ps_map ::= clear_bit hlid |> <| ap_fw_ps_map ::= clear_bit hlid |> in
    let '(_, wl) := wl12xx_free_link wlvif hlid wl in
    let wl := wl <| active_sta_count ::= fun n => n - 1 |> in
    if active_sta_count wl =? 0 then wl12xx_rearm_tx_watchdog_locked wl else wl.

(** Returns the link of the station as well. *)
Definition wl12xx_sta_add (wlvif : nat) (sta : ieee80211_sta) (wl : wl1271) : Z * Z * wl1271 :=
  let '(ret, hlid, wl) := wl1271_allocate_sta wlvif sta wl in
  if ret <? 0 then (ret, hlid, wl)
  else
    let '(ret, wl) := wl12xx_cmd_add_peer wlvif sta hlid wl in
    (ret, hlid, if ret <? 0 then wl1271_free_sta wlvif hlid wl else wl).

Definition wl12xx_sta_remove (wlvif : nat) (sta : ieee80211_sta) (wl : wl1271) : Z * wl1271 :=
  let id := wl_sta_hlid sta in
  if negb (test_bit id (ap_sta_hlid_map (vif_at wl wlvif))) then (- EINVAL, wl)
  else
    let '(ret, wl) := wl12xx_cmd_remove_peer id wl in
    if ret <? 0 then (ret, wl) else (ret, wl1271_free_sta wlvif id wl).

Inductive ieee80211_sta_state :=
| IEEE80211_STA_NOTEXIST
| IEEE80211_STA_NONE
| IEEE80211_STA_AUTH
| IEEE80211_STA_ASSOC
| IEEE80211_STA_AUTHORIZED.

#[export] Instance sta_state_eq_dec : EqDecision ieee80211_sta_state.
Proof. solve_decision. Defined.

(** The C enumeration is ordered. *)
Definition sta_state_num (s : ieee80211_sta_state) : Z :=
  match s with
  | IEEE80211_STA_NOTEXIST => 0
  | IEEE80211_STA_NONE => 1
  | IEEE80211_STA_AUTH => 2
  | IEEE80211_STA_ASSOC => 3
  | IEEE80211_STA_AUTHORIZED => 4
  end.

Definition wl12xx_set_authorized (wlvif : nat) (wl : wl1271) : Z * wl1271 :=
  let w := vif_at wl wlvif in
  if negb (is_sta w) then (- EINVAL, wl)
  else if negb (vif_flag w WLVIF_FLAG_STA_ASSOCIATED) then (0, wl)
  else
    let wl' := upd_vif wlvif (fun w => w <| vif_flags ::= set_bit WLVIF_FLAG_STA_STATE_SENT |>) wl in
    if vif_flag w WLVIF_FLAG_STA_STATE_SENT then (0, wl')
    else
      let '(ret, wl') := wl12xx_cmd_set_peer_state wlvif (sta_hlid w) wl' in
      if ret <? 0 then (ret, wl') else (0, wl').

Definition wl12xx_update_sta_state (wlvif : nat) (sta : ieee80211_sta)
    (old_state new_state : ieee80211_sta_state) (wl : wl1271) : Z * Z * wl1271 :=
  let w := vif_at wl wlvif in
  let hlid := wl_sta_hlid sta in
  if is_ap w && bool_decide (old_state = IEEE80211_STA_NOTEXIST)
     && bool_decide (new_state = IEEE80211_STA_NONE)
  then wl12xx_sta_add wlvif sta wl
  else if is_ap w && bool_decide (old_state = IEEE80211_STA_NONE)
          && bool_decide (new_state = IEEE80211_STA_NOTEXIST)
  then let '(_, wl) := wl12xx_sta_remove wlvif sta wl in (0, hlid, wl)
  else if is_ap w && bool_decide (new_state = IEEE80211_STA_AUTHORIZED) then
    let '(ret, wl) := wl12xx_cmd_set_peer_state wlvif hlid wl in
    if ret <? 0 then (ret, hlid, wl)
    else
      let '(ret, wl) := wl1271_acx_set_ht_capabilities (sta_ht_cap sta) true hlid wl in
      (ret, hlid, wl)
  else if is_sta w && bool_decide (new_state = IEEE80211_STA_AUTHORIZED) then
    let wl := upd_vif wlvif (fun w => w <| vif_flags ::= set_bit WLVIF_FLAG_STA_AUTHORIZED |>) wl in
    let '(ret, wl) := wl12xx_set_authorized wlvif wl in (ret, hlid, wl)
  else if is_sta w && bool_decide (old_state = IEEE80211_STA_AUTHORIZED)
          && bool_decide (new_state = IEEE80211_STA_ASSOC)
  then
    (0, hlid, upd_vif wlvif (fun w => w <| vif_flags ::= fun f =>
       clear_bit WLVIF_FLAG_STA_STATE_SENT (clear_bit WLVIF_FLAG_STA_AUTHORIZED f) |>) wl)
  else (0, hlid, wl).

Definition wl12xx_op_sta_state (wlvif : nat) (sta : ieee80211_sta)
    (old_state new_state : ieee80211_sta_state) (completed : Z) (wl : wl1271) : Z * Z * wl1271 :=
  if dummy_p2p (vif_at wl wlvif) then (0, wl_sta_hlid sta, wl)
  else
    let '(ret, hlid, wl) :=
      if negb (bool_decide (state wl = WLCORE_STATE_ON)) then (- EBUSY, wl_sta_hlid sta, wl)
      else
        let '(ret, wl) := wl1271_ps_elp_wakeup completed wl in
        if ret <? 0 then (ret, wl_sta_hlid sta, wl)
        else
          let '(ret, hlid, wl) := wl12xx_update_sta_state wlvif sta old_state new_state wl in
          (ret, hlid, wl1271_ps_elp_sleep wl) in
    (if sta_state_num new_state <? sta_state_num old_state then 0 else ret, hlid, wl).

(** [wl12xx_tx_reset_wlvif]: forget the links of an interface after a failure. *)
Definition reset_wlvif_link (wlvif : nat) (i : Z) (wl : wl1271) : wl1271 :=
  if test_bit i (vif_links_map (vif_at wl wlvif)) then
    let wl := if is_ap (vif_at wl wlvif) then wl1271_free_sta wlvif i wl
              else upd_vif wlvif (fun w => w <| sta_ba_rx_bitmap := 0 |>) wl in
    upd_link i (fun l => l <| allocated_pkts := 0 |> <| prev_freed_pkts := 0 |>) wl
  else wl.

Definition wl12xx_tx_reset_wlvif (wlvif : nat) (wl : wl1271) : wl1271 :=
  let wl := for_range WL12XX_MAX_LINKS (reset_wlvif_link wlvif) wl in
  upd_vif wlvif (fun w => w <| last_tx_hlid := 0 |>) wl.

(** ** Block-ack sessions *)

Definition RX_BA_MAX_SESSIONS := 3.
Definition CMD_STATUS_NO_RX_BA_SESSION := 24.

Definition wl12xx_acx_set_ba_receiver_session (tid_index ssn : Z) (enable : bool)
    (peer_hlid : Z) (wl : wl1271) : Z * wl1271 :=
  let '(ret, wl) := wlcore_cmd_send_failsafe (CMD_SET_BA_RX tid_index ssn enable peer_hlid)
                      (BIT CMD_STATUS_NO_RX_BA_SESSION) wl in
  if ret <? 0 then (ret, wl) else (0, wl).

Inductive ieee80211_ampdu_mlme_action :=
| IEEE80211_AMPDU_RX_START
| IEEE80211_AMPDU_RX_STOP
| IEEE80211_AMPDU_TX_START
| IEEE80211_AMPDU_TX_STOP
| IEEE80211_AMPDU_TX_OPERATIONAL.

(** The pointer [ba_bitmap]: into the interface (station) or into the link of
    the peer (access point). *)
Definition ba_hlid (wlvif : nat) (peer_hlid : Z) (wl : wl1271) : Z :=
  if is_sta (vif_at wl wlvif) then sta_hlid (vif_at wl wlvif) else peer_hlid.

Definition get_ba (wlvif : nat) (hlid : Z) (wl : wl1271) : Z :=
  if is_sta (vif_at wl wlvif) then sta_ba_rx_bitmap (vif_at wl wlvif)
  else ba_bitmap (link_at wl hlid).

Definition set_ba (wlvif : nat) (hlid : Z) (v : Z) (wl : wl1271) : wl1271 :=
  if is_sta (vif_at wl wlvif) then upd_vif wlvif (fun w => w <| sta_ba_rx_bitmap := v |>) wl
  else upd_link hlid (fun l => l <| ba_bitmap := v |>) wl.

Definition ampdu_rx_start (wlvif : nat) (hlid tid ssn : Z) (wl : wl1271) : Z * wl1271 :=
  let w := vif_at wl wlvif in
  if negb (ba_support w) || negb (ba_allowed w) then (- ENOTSUPP, wl)
  else if RX_BA_MAX_SESSIONS <=? ba_rx_session_count wl then (- EBUSY, wl)
  else if has (get_ba wlvif hlid wl) (BIT tid) then (- EINVAL, wl)
  else
    let '(ret, wl) := wl12xx_acx_set_ba_receiver_session tid ssn true hlid wl in
    if ret =? 0 then
      (ret, (set_ba wlvif hlid (u8 (Z.lor (get_ba wlvif hlid wl) (BIT tid))) wl)
              <| ba_rx_session_count ::= Z.add 1 |>)
    else (ret, wl).

Definition ampdu_rx_stop (wlvif : nat) (hlid tid : Z) (wl : wl1271) : Z * wl1271 :=
  if negb (has (get_ba wlvif hlid wl) (BIT tid)) then (0, wl)
  else
    let '(ret, wl) := wl12xx_acx_set_ba_receiver_session tid 0 false hlid wl in
    if ret =? 0 then
      (ret, (set_ba wlvif hlid (u8 (Z.ldiff (get_ba wlvif hlid wl) (BIT tid))) wl)
              <| ba_rx_session_count ::= fun n => n - 1 |>)
    else (ret, wl).

Definition wl1271_op_ampdu_action (wlvif : nat) (action : ieee80211_ampdu_mlme_action)
    (peer_hlid tid ssn completed : Z) (wl : wl1271) : Z * wl1271 :=
  if dummy_p2p (vif_at wl wlvif) then (0, wl)
  else if 0xFF <? tid then (- ENOTSUPP, wl)
  else if negb (bool_decide (state wl = WLCORE_STATE_ON)) then (- EAGAIN, wl)
  else if negb (is_sta (vif_at wl wlvif)) && negb (is_ap (vif_at wl wlvif)) then (- EINVAL, wl)
  else
    let hlid := ba_hlid wlvif peer_hlid wl in
    let '(ret, wl) := wl1271_ps_elp_wakeup completed wl in
    if ret <? 0 then (ret, wl)
    else
      let '(ret, wl) :=
        match action with
        | IEEE80211_AMPDU_RX_START => ampdu_rx_start wlvif hlid tid ssn wl
        | IEEE80211_AMPDU_RX_STOP => ampdu_rx_stop wlvif hlid tid wl
        | _ => (- EINVAL, wl)
        end in
      (ret, wl1271_ps_elp_sleep wl).

End Links.
