(* ===== verification/Roles.v ===== *)
(** * Starting and stopping roles (wlcore/cmd.c)

    A role of an interface (device, station, ad-hoc or access point) runs on
    links of the interface: starting it allocates them, stopping it frees
    them.  A device role also stays on a channel (ROC) while it runs. *)

From S2P Require Import Prelude Ieee80211 WlState ChipOps Io Queues LinkQueues.
From S2P Require Import PowerSave TxPath TxSched Links.

Definition WLCORE_BAND_2_4GHZ := 0.
Definition WLCORE_BAND_5GHZ := 1.
Definition WLCORE_CHAN_NO_HT := 0.
Definition WLCORE_CHAN_HT20 := 1.
Definition WLCORE_CHAN_HT40MINUS := 2.
Definition WLCORE_CHAN_HT40PLUS := 3.
Definition WL12XX_SSID_TYPE_PUBLIC := 0.
Definition WL12XX_SSID_TYPE_HIDDEN := 1.
Definition WL12XX_SSID_TYPE_ANY := 2.
Definition WL1271_AP_DEF_BEACON_EXP := 20.
Definition DISCONNECT_IMMEDIATE := 0.
Definition WLAN_REASON_UNSPECIFIED := 1.
Definition ROLE_STOP_COMPLETE_EVENT_ID := BIT 15.

(** [enum wl1271 role types] of acx.h *)
Definition WL1271_ROLE_STA := 0.
Definition WL1271_ROLE_IBSS := 1.
Definition WL1271_ROLE_AP := 2.
Definition WL1271_ROLE_DEVICE := 3.
Definition WL1271_ROLE_P2P_CL := 4.
Definition WL1271_ROLE_P2P_GO := 5.
Definition WL12XX_INVALID_ROLE_TYPE := 0xff.

Definition wlcore_get_native_channel_type (nl_channel_type : Z) : Z :=
  if nl_channel_type =? NL80211_CHAN_NO_HT then WLCORE_CHAN_NO_HT
  else if nl_channel_type =? NL80211_CHAN_HT20 then WLCORE_CHAN_HT20
  else if nl_channel_type =? NL80211_CHAN_HT40MINUS then WLCORE_CHAN_HT40MINUS
  else if nl_channel_type =? NL80211_CHAN_HT40PLUS then WLCORE_CHAN_HT40PLUS
  else WLCORE_CHAN_NO_HT.

(** The band field of a command; zero, as allocated, for 2.4 GHz. *)
Definition cmd_band (band : ieee80211_band) : Z :=
  match band with
  | IEEE80211_BAND_5GHZ => WLCORE_BAND_5GHZ
  | IEEE80211_BAND_2GHZ => WLCORE_BAND_2_4GHZ
  end.

Definition is_sta_ibss (w : wl12xx_vif) : bool :=
  is_sta w || bool_decide (bss_type w = BSS_TYPE_IBSS).

Definition wl12xx_dev_role_started (w : wl12xx_vif) : bool :=
  negb (dev_hlid w =? WL12XX_INVALID_LINK_ID).

(** The link fields of an interface that roles allocate. *)
Inductive role_link := DevLink | StaLink | ApGlobal | ApBcast.

#[export] Instance role_link_eq_dec : EqDecision role_link.
Proof. solve_decision. Defined.

Definition link_field (r : role_link) (w : wl12xx_vif) : Z :=
  match r with
  | DevLink => dev_hlid w
  | StaLink => sta_hlid w
  | ApGlobal => ap_global_hlid w
  | ApBcast => ap_bcast_hlid w
  end.

Definition set_link_field (r : role_link) (h : Z) (w : wl12xx_vif) : wl12xx_vif :=
  match r with
  | DevLink => w <| dev_hlid := h |>
  | StaLink => w <| sta_hlid := h |>
  | ApGlobal => w <| ap_global_hlid := h |>
  | ApBcast => w <| ap_bcast_hlid := h |>
  end.

(** [wl12xx_allocate_link(wl, wlvif, &field)] and [wl12xx_free_link(...)]. *)
Definition alloc_role_link (v : nat) (r : role_link) (wl : wl1271) : Z * wl1271 :=
  let '(ret, h, wl) := wl12xx_allocate_link v (link_field r (vif_at wl v)) wl in
  (ret, upd_vif v (set_link_field r h) wl).

Definition free_role_link (v : nat) (r : role_link) (wl : wl1271) : wl1271 :=
  let '(h, wl) := wl12xx_free_link v (link_field r (vif_at wl v)) wl in
  upd_vif v (set_link_field r h) wl.

(** [if (field == INVALID) allocate], as the single-link roles do. *)
Definition need_role_link (v : nat) (r : role_link) (wl : wl1271) : Z * wl1271 :=
  if link_field r (vif_at wl v) =? WL12XX_INVALID_LINK_ID then alloc_role_link v r wl else (0, wl).

Section Roles.
Context `{ops : wlcore_ops}.

(** ** Device role *)

Definition wl12xx_cmd_role_start_dev (v : nat) (band : ieee80211_band) (channel : Z) (wl : wl1271)
    : Z * wl1271 :=
  let '(ret, wl) := need_role_link v DevLink wl in
  if negb (ret =? 0) then (ret, wl)
  else
    let '(session, wl) := wl12xx_get_new_session_id v wl in
    let w := vif_at wl v in
    let '(ret, wl) := wl1271_cmd_send
      (CMD_ROLE_START_DEV (dev_role_id w) (cmd_band band) (u8 channel) (dev_hlid w) (u8 session)) wl in
    if ret <? 0 then (ret, free_role_link v DevLink wl) else (ret, wl).

Definition wl12xx_cmd_role_stop_dev (v : nat) (wl : wl1271) : Z * wl1271 :=
  if dev_hlid (vif_at wl v) =? WL12XX_INVALID_LINK_ID then (- EINVAL, wl)
  else
    let '(ret, wl) := wl1271_cmd_send
      (CMD_ROLE_STOP (dev_role_id (vif_at wl v)) DISCONNECT_IMMEDIATE WLAN_REASON_UNSPECIFIED) wl in
    if ret <? 0 then (ret, wl)
    else
      let '(ret, wl) := wl1271_cmd_wait_for_event ROLE_STOP_COMPLETE_EVENT_ID wl in
      if ret <? 0 then (ret, wl) else (ret, free_role_link v DevLink wl).

(** ** Station and ad-hoc roles *)

Definition drop_cck (w : wl12xx_vif) (rates : Z) : Z :=
  if p2p w then Z.ldiff rates CONF_TX_CCK_RATES else rates.

Definition wl12xx_cmd_role_start_sta (v : nat) (wl : wl1271) : Z * wl1271 :=
  let supported_rates :=
    drop_cck (vif_at wl v)
      (Z.lor (Z.lor CONF_TX_AP_ENABLED_RATES CONF_TX_MCS_RATES)
         (sta_get_ap_rate_mask wl (vif_at wl v))) in
  let '(ret, wl) := need_role_link v StaLink wl in
  if negb (ret =? 0) then (ret, wl)
  else
    let '(session, wl) := wl12xx_get_new_session_id v wl in
    let w := vif_at wl v in
    let '(ret, wl) := wl1271_cmd_send
      (CMD_ROLE_START_STA (role_id w) (cmd_band (vif_band w)) (u8 (vif_channel w))
         (basic_rate_set w) (u16 (beacon_int w)) (vif_ssid w) (vif_bssid w)
         supported_rates (wlcore_get_native_channel_type (vif_channel_type w))
         (sta_hlid w) (u8 session) supported_rates) wl in
    if ret <? 0 then (ret, free_role_link v StaLink wl)
    else (ret, upd_vif v (fun w => w <| sta_role_chan_type := vif_channel_type w |>) wl).

Definition wl12xx_cmd_role_stop_sta (v : nat) (wl : wl1271) : Z * wl1271 :=
  if sta_hlid (vif_at wl v) =? WL12XX_INVALID_LINK_ID then (- EINVAL, wl)
  else
    let '(ret, wl) := wl1271_cmd_send
      (CMD_ROLE_STOP (role_id (vif_at wl v)) DISCONNECT_IMMEDIATE WLAN_REASON_UNSPECIFIED) wl in
    if ret <? 0 then (ret, wl)
    else
      let '(ret, _, wl) := wl1271_cmd_wait_for_event_or_timeout ROLE_STOP_COMPLETE_EVENT_ID wl in
      let wl := if negb (ret =? 0) then wl12xx_queue_recovery_work wl else wl in
      (ret, free_role_link v StaLink wl).

Definition wl12xx_cmd_role_start_ibss (v : nat) (wl : wl1271) : Z * wl1271 :=
  let '(ret, wl) := need_role_link v StaLink wl in
  if negb (ret =? 0) then (ret, wl)
  else
    let w := vif_at wl v in
    let '(ret, wl) := wl1271_cmd_send
      (CMD_ROLE_START_IBSS (role_id w) (cmd_band (vif_band w)) (u8 (vif_channel w))
         (basic_rate_set w) (u16 (beacon_int w)) (dtim_period w) (vif_ssid w) (vif_bssid w)
         (rate_set w) (sta_hlid w) (rate_set w)) wl in
    if ret <? 0 then (ret, free_role_link v StaLink wl) else (ret, wl).

(** ** Access point role *)

Definition wl12xx_cmd_role_start_ap (v : nat) (wl : wl1271) : Z * wl1271 :=
  let w := vif_at wl v in
  if (zlen (vif_ssid w) =? 0) && negb (hidden_ssid w) then (- EINVAL, wl)
  else
    let '(ret, wl) := alloc_role_link v ApGlobal wl in
    if ret <? 0 then (ret, wl)
    else
      let '(ret, wl) := alloc_role_link v ApBcast wl in
      if ret <? 0 then (ret, free_role_link v ApGlobal wl)
      else
        let w := vif_at wl v in
        let '(ssid_type, ssid) :=
          if hidden_ssid w then (WL12XX_SSID_TYPE_HIDDEN, bss_conf_ssid w)
          else (WL12XX_SSID_TYPE_PUBLIC, vif_ssid w) in
        let supported_rates :=
          drop_cck w (Z.lor (Z.lor CONF_TX_AP_ENABLED_RATES CONF_TX_MCS_RATES)
                        (wlcore_hw_ap_get_mimo_wide_rate_mask wl w)) in
        let '(ret, wl) := wl1271_cmd_send
          (CMD_ROLE_START_AP (role_id w) (u16 (ap_aging_period (hw wl))) WL1271_AP_BSS_INDEX
             (ap_global_hlid w) (ap_bcast_hlid w) (basic_rate_set w) (u16 (beacon_int w))
             (dtim_period w) WL1271_AP_DEF_BEACON_EXP 1 (Z.b2z (wmm_enabled w))
             (u8 (vif_channel w)) (wlcore_get_native_channel_type (vif_channel_type w))
             ssid_type ssid supported_rates (cmd_band (vif_band w))) wl in
        if ret <? 0 then (ret, free_role_link v ApGlobal (free_role_link v ApBcast wl))
        else (ret, wl).

Definition wl12xx_cmd_role_stop_ap (v : nat) (wl : wl1271) : Z * wl1271 :=
  let '(ret, wl) := wl1271_cmd_send (CMD_ROLE_STOP (role_id (vif_at wl v)) 0 0) wl in
  if ret <? 0 then (ret, wl)
  else (ret, free_role_link v ApGlobal (free_role_link v ApBcast wl)).

(** ** Staying on a channel *)

Definition wl12xx_cmd_roc (v : nat) (role_id channel : Z) (wl : wl1271) : Z * wl1271 :=
  if role_id =? WL12XX_INVALID_ROLE_ID then (- EINVAL, wl)
  else wl1271_cmd_send (CMD_REMAIN_ON_CHANNEL role_id channel (cmd_band (vif_band (vif_at wl v)))) wl.

Definition wl12xx_roc (v : nat) (role_id channel : Z) (wl : wl1271) : Z * wl1271 :=
  if test_bit role_id (roc_map wl) then (0, wl)
  else
    let '(ret, wl) := wl12xx_cmd_roc v role_id channel wl in
    if ret <? 0 then (ret, wl) else (ret, wl <| roc_map ::= set_bit role_id |>).

Definition wl12xx_croc (role_id : Z) (wl : wl1271) : Z * wl1271 :=
  if negb (test_bit role_id (roc_map wl)) then (0, wl)
  else
    let '(ret, wl) := wl1271_cmd_send (CMD_CANCEL_REMAIN_ON_CHANNEL role_id) wl in
    if ret <? 0 then (ret, wl)
    else
      let wl := wl <| roc_map ::= clear_bit role_id |> in
      (ret, if WL12XX_MAX_ROLES <=? find_first_bit (roc_map wl) WL12XX_MAX_ROLES
            then wl12xx_rearm_tx_watchdog_locked wl else wl).

(** ** Device role, whole *)

Definition enable_dev_role (v : nat) (wl : wl1271) : Z * wl1271 :=
  let w := vif_at wl v in
  let '(ret, id, wl) := wl12xx_cmd_role_enable (vif_addr w) WL1271_ROLE_DEVICE (dev_role_id w) wl in
  (ret, upd_vif v (fun w => w <| dev_role_id := id |>) wl).

Definition disable_dev_role (v : nat) (wl : wl1271) : Z * wl1271 :=
  let '(ret, id, wl) := wl12xx_cmd_role_disable (dev_role_id (vif_at wl v)) wl in
  (ret, upd_vif v (fun w => w <| dev_role_id := id |>) wl).

Definition wl12xx_start_dev (v : nat) (band : ieee80211_band) (channel : Z) (wl : wl1271)
    : Z * wl1271 :=
  if negb (is_sta_ibss (vif_at wl v)) then (- EINVAL, wl)
  else
    let '(ret, wl) := if dummy_p2p (vif_at wl v) then (0, wl) else enable_dev_role v wl in
    if ret <? 0 then (ret, wl)
    else
      let out_disable ret wl :=
        (ret, if dummy_p2p (vif_at wl v) then wl else snd (disable_dev_role v wl)) in
      let '(ret, wl) := wl12xx_cmd_role_start_dev v band channel wl in
      if ret <? 0 then out_disable ret wl
      else
        let '(ret, wl) := wl12xx_roc v (dev_role_id (vif_at wl v)) (u8 channel) wl in
        if ret <? 0 then out_disable ret (snd (wl12xx_cmd_role_stop_dev v wl))
        else (0, wl).

Definition wl12xx_stop_dev (fuel : nat) (v : nat) (wl : wl1271) : outcome (Z * wl1271) :=
  if negb (is_sta_ibss (vif_at wl v)) then Ret (- EINVAL, wl)
  else
    let* (ret, wl) := wlcore_tx_work_locked fuel wl in
    if ret <? 0 then Ret (ret, wl)
    else
      let '(ret, wl) :=
        if test_bit (dev_role_id (vif_at wl v)) (roc_map wl)
        then wl12xx_croc (dev_role_id (vif_at wl v)) wl else (ret, wl) in
      if ret <? 0 then Ret (ret, wl)
      else
        let '(ret, wl) := wl12xx_cmd_role_stop_dev v wl in
        if ret <? 0 then Ret (ret, wl)
        else if dummy_p2p (vif_at wl v) then Ret (ret, wl)
        else Ret (disable_dev_role v wl).

End Roles.
