(* ===== verification/LinksFacts.v ===== *)
(** * Links and stations: ownership, accounting, rollback *)

From S2P Require Import Prelude Ieee80211 WlState ChipOps Io Queues LinkQueues.
From S2P Require Import PowerSave TxPath TxAllocFacts TxSched TxInv SchedFacts TxMoves.
From S2P Require Import TxPrep TxWork TxDone TxDoneFacts FwStatus Event EventFacts.
From S2P Require Import Links.

Lemma vif_at_upd v f wl x : is_Some (vifs wl !! v) ->
  vif_at (upd_vif v f wl) x = if decide (v = x) then f (vif_at wl v) else vif_at wl x.
Proof.
  intros [w Hw]. unfold vif_at, upd_vif. simpl. case_decide as E.
  - subst x. rewrite !lookup_total_alt, lookup_alter_eq, Hw. done.
  - by rewrite !lookup_total_alt, lookup_alter_ne.
Qed.

(** ** Moving a link between owners *)

(** Replacing the ownership maps keeps the transmit invariant when they remain
    consistent and the links without an owner are idle. *)
Definition relinked (m : Z) (vs : gmap nat wl12xx_vif) (n : Z) (wl : wl1271) : wl1271 :=
  wl <| links_map := m |> <| vifs := vs |> <| active_sta_count := n |>.

Lemma relink_keeps m vs n wl wl' :
  wl' = relinked m vs n wl -> work_inv wl -> vifs_ok wl' -> free_idle wl' -> same_vifs wl wl' ->
  work_keeps wl wl'.
Proof.
  intros -> W V F Vf. destruct W as [[I1 I2 I3 I4 I5 I6] H2 H3 H4 H6 H7 H8 H9].
  split; [split; try done | done | done | done | exact Vf | done].
  split; try done.
  - by apply (counts_off_frame _ wl).
  - by apply (queues_ok_frame wl).
  - by apply (ids_ok_frame wl).
Qed.

Ltac relink wl :=
  match goal with |- work_keeps _ ?w =>
    apply (relink_keeps (links_map w) (vifs w) (active_sta_count w)); [by destruct wl | ..] end.

(** Link [h] given to interface [v], and taken from it. *)
Definition grant (v : nat) (h : Z) (wl : wl1271) : wl1271 :=
  upd_vif v (fun w => w <| vif_links_map ::= set_bit h |>) (wl <| links_map ::= set_bit h |>).
Definition revoke (v : nat) (h : Z) (wl : wl1271) : wl1271 :=
  upd_vif v (fun w => w <| vif_links_map ::= clear_bit h |>) (wl <| links_map ::= clear_bit h |>).

Lemma grant_bits v h wl x i : 0 <= h -> is_Some (vifs wl !! v) ->
  test_bit i (vif_links_map (vif_at (grant v h wl) x)) = true ->
  (x = v /\ i = h) \/ test_bit i (vif_links_map (vif_at wl x)) = true.
Proof.
  intros Hh Hv. unfold grant. rewrite vif_at_upd by done. case_decide as Ex; [|by right].
  subst x. simpl. rewrite test_set_bit by done. intros [E|E]%orb_true_iff; [|by right].
  bool_to_prop. by left.
Qed.

Lemma grant_bits_mono v h wl x i : 0 <= h -> is_Some (vifs wl !! v) ->
  test_bit i (vif_links_map (vif_at wl x)) = true ->
  test_bit i (vif_links_map (vif_at (grant v h wl) x)) = true.
Proof.
  intros Hh Hv E. unfold grant. rewrite vif_at_upd by done. case_decide as Ex; [|done].
  subst x. simpl. rewrite test_set_bit by done. apply orb_true_iff. by right.
Qed.

Lemma revoke_bits v h wl x i : is_Some (vifs wl !! v) ->
  test_bit i (vif_links_map (vif_at (revoke v h wl) x))
  = test_bit i (vif_links_map (vif_at wl x)) && negb (bool_decide (x = v) && (h =? i)).
Proof.
  intros Hv. unfold revoke. rewrite vif_at_upd by done. case_decide as Ex.
  - subst x. rewrite bool_decide_eq_true_2 by done. simpl. by rewrite test_clear_bit.
  - rewrite bool_decide_eq_false_2 by congruence. simpl. by rewrite andb_true_r.
Qed.

(** What an interface records besides its links is untouched. *)
Lemma relink_field {A} (g : wl12xx_vif -> A) m v f wl x : is_Some (vifs wl !! v) ->
  (forall w, g (f w) = g w) ->
  g (vif_at (upd_vif v f (wl <| links_map ::= m |>)) x) = g (vif_at wl x).
Proof.
  intros Hv Hg. rewrite vif_at_upd by done. case_decide as Ex; [subst x; apply Hg | done].
Qed.

Lemma relink_stations m v f wl : is_Some (vifs wl !! v) ->
  (forall w, ap_sta_hlid_map (f w) = ap_sta_hlid_map w) ->
  stations (upd_vif v f (wl <| links_map ::= m |>)) = stations wl.
Proof.
  intros Hv Hg. unfold stations. f_equal. apply list_fmap_ext. intros i x _. simpl.
  by rewrite (relink_field ap_sta_hlid_map).
Qed.

Lemma free_unowned wl h x : vifs_ok wl -> x ∈ wlvif_list wl ->
  test_bit h (links_map wl) = false -> test_bit h (vif_links_map (vif_at wl x)) = false.
Proof.
  intros V Hx Hf. destruct (test_bit h (vif_links_map (vif_at wl x))) eqn:E; [|done].
  apply (vo_owned _ V _ _ Hx) in E. congruence.
Qed.

Lemma free_no_sta wl h x : vifs_ok wl -> x ∈ wlvif_list wl ->
  test_bit h (links_map wl) = false -> test_bit h (ap_sta_hlid_map (vif_at wl x)) = false.
Proof.
  intros V Hx Hf. destruct (test_bit h (ap_sta_hlid_map (vif_at wl x))) eqn:E; [|done].
  apply (lo_sta _ (vo_own _ V) _ _ Hx) in E. by rewrite (free_unowned _ _ _ V Hx Hf) in E.
Qed.

Lemma grant_own v h wl : vifs_ok wl -> v ∈ wlvif_list wl -> 0 <= h ->
  test_bit h (links_map wl) = false -> links_own (grant v h wl).
Proof.
  intros V Hin Hh Hfree. assert (is_Some (vifs wl !! v)) as Hv by (by apply V). destruct (vo_own _ V) as [D S A P]. split; try done.
  - intros x y i Lx Ly Hx Hy. apply grant_bits in Hx as [[-> ->]|Hx]; try done.
    + apply grant_bits in Hy as [[-> _]|Hy]; try done. by rewrite (free_unowned _ _ _ V Ly Hfree) in Hy.
    + apply grant_bits in Hy as [[-> ->]|Hy]; try done; [|by eapply D].
      by rewrite (free_unowned _ _ _ V Lx Hfree) in Hx.
  - intros x Lx. destruct (test_bit _ (vif_links_map (vif_at (grant v h wl) x))) eqn:E; [|done].
    apply grant_bits in E as [[-> E]|E]; try done.
    + pose proof (vo_sysmap _ V) as Hs. simpl in E. congruence.
    + by rewrite S in E.
  - intros x i Lx Hx. apply grant_bits_mono; [done..|]. apply A; [done|]. revert Hx. unfold grant.
    by rewrite (relink_field ap_sta_hlid_map).
  - intros x i Lx. unfold grant. rewrite (relink_field ap_sta_hlid_map), (relink_field is_ap) by done.
    by apply P.
Qed.

Lemma grant_keeps v h wl : work_inv wl -> v ∈ wlvif_list wl -> is_link h ->
  test_bit h (links_map wl) = false -> work_keeps wl (grant v h wl).
Proof.
  intros W Hin Hh Hfree. pose proof (wi_inv _ W) as I. pose proof (inv_vifs _ I) as V.
  assert (is_Some (vifs wl !! v)) as Hv by (by apply V).
  pose proof (proj1 Hh) as H0.
  assert (forall i, test_bit i (links_map (grant v h wl)) = (h =? i) || test_bit i (links_map wl)) as Em
    by (intros i; by apply test_set_bit).
  relink wl; [done | split; try done; try apply V | |].
  - intros x Hx. simpl. apply lookup_alter_is_Some. by apply V.
  - intros x i Hb. apply grant_bits in Hb as [[-> ->]|Hx]; [done | | done..]. by eapply (vo_map _ V).
  - intros x i Lx Hb. rewrite Em. apply orb_true_iff.
    apply grant_bits in Hb as [[-> ->]|Hx]; [left; apply Z.eqb_refl | right; by eapply (vo_owned _ V) | done..].
  - rewrite Em. apply orb_true_iff. right. exact (vo_sysmap _ V).
  - by apply grant_own.
  - etrans; [apply (vo_count _ V) |]. symmetry. by apply (relink_stations (set_bit h)).
  - intros i q Hi Hq Hb. rewrite Em in Hb. apply orb_false_iff in Hb as [_ Hb].
    by apply (inv_free _ I).
  - split; [done | | done..]. intros x. by apply (relink_field vif_kind).
Qed.

Lemma allocate_link_spec v h0 wl :
  work_inv wl -> v ∈ wlvif_list wl ->
  let '(ret, h, wl') := wl12xx_allocate_link v h0 wl in
  (ret = - EBUSY /\ h = h0 /\ wl' = wl /\
     (forall i, is_link i -> test_bit i (links_map wl) = true)) \/
  (ret = 0 /\ is_link h /\ test_bit h (links_map wl) = false /\ wl' = grant v h wl /\
     work_keeps wl wl' /\ (forall q, is_queue q -> link_queue wl' h q = [])).
Proof.
  intros W Hv. unfold wl12xx_allocate_link. cbv zeta.
  destruct (find_first_zero_bit_spec (links_map wl) WL12XX_MAX_LINKS ltac:(done)) as (R1 & R2 & R3).
  set (h := find_first_zero_bit _ _) in *. clearbody h.
  destruct (WL12XX_MAX_LINKS <=? h) eqn:Hfull; bool_to_prop.
  - left. split_and!; try done. intros i Hi. apply R2. unfold is_link in Hi. lia.
  - right. assert (is_link h) as Hh by (unfold is_link; lia). specialize (R3 ltac:(lia)).
    split_and!; try done; [by apply grant_keeps |].
    intros q Hq. by apply (inv_free _ (wi_inv _ W)).
Qed.

(** ** Taking a link back *)

(** Draining the queues of a link and changing the owners commute. *)

Lemma wake_queue_relinked m vs n q r wl :
  wlcore_wake_queue q r (relinked m vs n wl) = relinked m vs n (wlcore_wake_queue q r wl).
Proof. unfold wlcore_wake_queue. cbv zeta. unfold reasons_at, set_reasons. simpl. by split_if. Qed.

Lemma low_watermark_relinked m vs n wl :
  wl1271_handle_tx_low_watermark (relinked m vs n wl)
  = relinked m vs n (wl1271_handle_tx_low_watermark wl).
Proof.
  unfold wl1271_handle_tx_low_watermark. apply for_range_comm. intros i w.
  change (wlcore_is_queue_stopped_by_reason (relinked m vs n w)) with (wlcore_is_queue_stopped_by_reason w).
  change (tx_queue_count (relinked m vs n w)) with (tx_queue_count w).
  split_if; [apply wake_queue_relinked | done].
Qed.

Lemma dequeue_relinked m vs n h q wl :
  snd (skb_dequeue h q (relinked m vs n wl)) = relinked m vs n (snd (skb_dequeue h q wl)).
Proof.
  unfold skb_dequeue. change (link_queue (relinked m vs n wl)) with (link_queue wl).
  by destruct (link_queue wl h q).
Qed.

Lemma drain_queue_relinked m vs n h q body wl :
  (forall s w, body s (relinked m vs n w) = relinked m vs n (body s w)) ->
  drain_queue h q body (relinked m vs n wl)
  = (fst (drain_queue h q body wl), relinked m vs n (snd (drain_queue h q body wl))).
Proof.
  intros Hb. unfold drain_queue. change (link_queue (relinked m vs n wl)) with (link_queue wl).
  generalize (link_queue wl h q). intros l. generalize 0. revert wl.
  induction l as [|s l IH]; intros wl c; simpl; [done|].
  by rewrite dequeue_relinked, Hb, IH.
Qed.

Lemma drain_link_relinked m vs n h body wl :
  (forall s w, body s (relinked m vs n w) = relinked m vs n (body s w)) ->
  drain_link h body (relinked m vs n wl) = relinked m vs n (drain_link h body wl).
Proof.
  intros Hb. unfold drain_link.
  set (g := fun p : list Z * wl1271 => (fst p, relinked m vs n (snd p))).
  change ([0; 0; 0; 0], relinked m vs n wl) with (g ([0; 0; 0; 0], wl)).
  rewrite for_range_comm.
  - destruct (for_range _ _ ([0; 0; 0; 0], wl)) as [t w]. unfold g. simpl.
    rewrite for_range_comm by done. apply low_watermark_relinked.
  - intros i [t w]. unfold g. simpl. rewrite drain_queue_relinked by done.
    by destruct (drain_queue h i body w).
Qed.

Lemma reset_queues_relinked m vs n h wl :
  wl1271_tx_reset_link_queues h (relinked m vs n wl)
  = relinked m vs n (wl1271_tx_reset_link_queues h wl).
Proof. apply drain_link_relinked. intros s w. by destruct (wl12xx_is_dummy_packet w s) eqn:E;
  change (wl12xx_is_dummy_packet (relinked m vs n w) s) with (wl12xx_is_dummy_packet w s); rewrite E. Qed.

Lemma revoke_own v h wl : links_own wl -> is_Some (vifs wl !! v) ->
  test_bit h (ap_sta_hlid_map (vif_at wl v)) = false -> links_own (revoke v h wl).
Proof.
  intros [D S A P] Hv Hsta. split; try done.
  - intros x y i Lx Ly. rewrite !revoke_bits by done.
    intros [Hx _]%andb_true_iff [Hy _]%andb_true_iff. by eapply D.
  - intros x Lx. rewrite revoke_bits by done. apply andb_false_iff. left. by apply S.
  - intros x i Lx Hx. unfold revoke in Hx. rewrite (relink_field ap_sta_hlid_map) in Hx by done.
    rewrite revoke_bits by done. rewrite (A _ _ Lx Hx). simpl.
    case_bool_decide as Ex; [|done]. subst x. destruct (Z.eqb_spec h i) as [<-|]; [|done]. congruence.
  - intros x i Lx. unfold revoke. rewrite (relink_field ap_sta_hlid_map), (relink_field is_ap) by done.
    by apply P.
Qed.

Lemma revoke_keeps v h wl : work_inv wl -> v ∈ wlvif_list wl ->
  test_bit h (vif_links_map (vif_at wl v)) = true ->
  test_bit h (ap_sta_hlid_map (vif_at wl v)) = false ->
  (forall q, is_queue q -> link_queue wl h q = []) -> work_keeps wl (revoke v h wl).
Proof.
  intros W Hin Hown Hsta Hq. pose proof (wi_inv _ W) as I. pose proof (inv_vifs _ I) as V.
  pose proof (vo_own _ V) as L. assert (is_Some (vifs wl !! v)) as Hv by (by apply V).
  assert (forall i, test_bit i (links_map (revoke v h wl))
    = test_bit i (links_map wl) && negb (h =? i)) as Em by (intros i; apply test_clear_bit).
  relink wl; [done | split; try done; try apply V | |].
  - intros x Hx. simpl. apply lookup_alter_is_Some. by apply V.
  - intros x i Hb. change (test_bit i (vif_links_map (vif_at (revoke v h wl) x)) = true) in Hb.
    rewrite revoke_bits in Hb by done.
    apply andb_true_iff in Hb as [Hb _]. by eapply (vo_map _ V).
  - intros x i Lx Hb. change (test_bit i (vif_links_map (vif_at (revoke v h wl) x)) = true) in Hb.
    rewrite revoke_bits in Hb by done. rewrite Em.
    apply andb_true_iff in Hb as [Hb Hn]. rewrite (vo_owned _ V _ _ Lx Hb). simpl.
    destruct (Z.eqb_spec h i) as [<-|]; [|done].
    rewrite (lo_disjoint _ L _ _ _ Lx Hin Hb Hown), bool_decide_eq_true_2 in Hn by done. done.
  - rewrite Em. apply andb_true_iff. split; [exact (vo_sysmap _ V)|].
    apply negb_true_iff, Z.eqb_neq. intros Eh. pose proof (lo_system _ L v Hin) as Hs. simpl in Eh. congruence.
  - apply revoke_own; [apply V | done..].
  - etrans; [apply (vo_count _ V) |]. symmetry. by apply (relink_stations (clear_bit h)).
  - intros i q Hi Hqq Hb. rewrite Em in Hb. change (link_queue wl i q = []).
    destruct (Z.eqb_spec h i) as [<-|]; [by apply Hq|].
    simpl in Hb. rewrite andb_true_r in Hb. by apply (inv_free _ I).
  - split; [done | | done..]. intros x. by apply (relink_field vif_kind).
Qed.

Lemma reset_queues_revoke v h wl : counts_ok wl -> is_link h ->
  wl1271_tx_reset_link_queues h (revoke v h wl) = revoke v h (wl1271_tx_reset_link_queues h wl).
Proof.
  intros C Hh. destruct (reset_link_queues_spec h wl C Hh) as (_ & _ & (n & k & c & r & l & E) & _).
  transitivity (relinked (clear_bit h (links_map wl))
    (alter (fun w => w <| vif_links_map ::= clear_bit h |>) v (vifs wl)) (active_sta_count wl) (wl1271_tx_reset_link_queues h wl)).
  - rewrite <- reset_queues_relinked. by destruct wl.
  - set (w := wl1271_tx_reset_link_queues h wl) in *. clearbody w.
    assert (links_map w = links_map wl /\ vifs w = vifs wl /\ active_sta_count w = active_sta_count wl)
      as (<- & <- & <-) by (by rewrite E).
    by destruct w.
Qed.

Lemma free_link_spec v h wl :
  work_inv wl -> v ∈ wlvif_list wl ->
  test_bit h (vif_links_map (vif_at wl v)) = true ->
  test_bit h (ap_sta_hlid_map (vif_at wl v)) = false ->
  let '(h', wl') := wl12xx_free_link v h wl in
  h' = WL12XX_INVALID_LINK_ID /\ wl' = revoke v h (wl1271_tx_reset_link_queues h wl) /\
  work_keeps wl wl' /\
  (forall i q, is_queue q -> link_queue wl' i q = if h =? i then [] else link_queue wl i q).
Proof.
  intros W Hin Hown Hsta. pose proof (wi_inv _ W) as I.
  assert (is_link h) as Hh by (by eapply (vo_map _ (inv_vifs _ I))).
  unfold wl12xx_free_link. destruct (Z.eqb_spec h WL12XX_INVALID_LINK_ID) as [E|_].
  { exfalso. unfold is_link, WL12XX_MAX_LINKS, WL12XX_INVALID_LINK_ID in *. lia. }
  cbv zeta. change (upd_vif v _ _) with (revoke v h wl).
  rewrite reset_queues_revoke by (try apply I; done).
  destruct (reset_link_queues_spec h wl (inv_counts _ I) Hh) as (_ & Lq & (n & k & c & r & l & E) & P & _).
  pose proof (drain_link_keeps dropped_status h wl dropped_keeps W Hh) as K.
  change (drain_link h _ wl) with (wl1271_tx_reset_link_queues h wl) in K.
  set (w := wl1271_tx_reset_link_queues h wl) in *. clearbody w.
  assert (wlvif_list w = wlvif_list wl /\ vif_at w v = vif_at wl v) as [Ev Ew] by (by rewrite E).
  split_and!; try done.
  - eapply work_keeps_trans; [exact K|].
    apply revoke_keeps; [apply K | by rewrite Ev | by rewrite Ew | by rewrite Ew |].
    intros q Hq. by rewrite Lq, Z.eqb_refl.
Qed.

(** ** Stations *)

Lemma stations_upd v f wl : v ∈ wlvif_list wl -> vifs_ok wl ->
  stations (upd_vif v f wl) = stations wl
    + weight (ap_sta_hlid_map (f (vif_at wl v))) WL12XX_MAX_LINKS
    - weight (ap_sta_hlid_map (vif_at wl v)) WL12XX_MAX_LINKS.
Proof.
  intros Hin V. assert (is_Some (vifs wl !! v)) as Hv by (by apply V). unfold stations.
  change (wlvif_list (upd_vif v f wl)) with (wlvif_list wl).
  rewrite (zsum_change (fun v => weight (ap_sta_hlid_map (vif_at wl v)) WL12XX_MAX_LINKS) _ _ v);
    [| apply V | done |].
  - by rewrite vif_at_upd, decide_True by done.
  - intros x _ Hx. by rewrite vif_at_upd, decide_False by done.
Qed.

Lemma stations_nonneg wl : 0 <= stations wl.
Proof.
  apply (zsum_nonneg (fun v => weight (ap_sta_hlid_map (vif_at wl v)) WL12XX_MAX_LINKS)).
  intros v. by apply weight_bound.
Qed.

Lemma rearm_watchdog_keeps wl : work_inv wl ->
  work_keeps wl (wl12xx_rearm_tx_watchdog_locked wl).
Proof.
  intros W. apply view_keeps; [done | apply watchdog_view | |];
    unfold wl12xx_rearm_tx_watchdog_locked; by split_if.
Qed.

(** [v] takes the station on link [h], which it owns already, and drops it. *)
Definition enroll (v : nat) (h : Z) (wl : wl1271) : wl1271 :=
  (upd_vif v (fun w => w <| ap_sta_hlid_map ::= set_bit h |>) wl) <| active_sta_count ::= Z.add 1 |>.
Definition unenroll (v : nat) (h : Z) (wl : wl1271) : wl1271 :=
  (upd_vif v (fun w => w <| ap_sta_hlid_map ::= clear_bit h |>) wl)
    <| active_sta_count ::= fun n => n - 1 |>.

Lemma sta_map_own f wl v x : is_Some (vifs wl !! v) ->
  (forall w, vif_links_map (f w) = vif_links_map w) ->
  vif_links_map (vif_at (upd_vif v f wl) x) = vif_links_map (vif_at wl x).
Proof. intros Hv Hf. rewrite vif_at_upd by done. case_decide as E; [subst; apply Hf | done]. Qed.

(** Changing the station map of one interface, with its count. *)
Lemma restation_keeps f n v wl :
  let wl' := (upd_vif v f wl) <| active_sta_count := n |> in
  work_inv wl -> v ∈ wlvif_list wl -> (forall w, vif_links_map (f w) = vif_links_map w) ->
  (forall w, vif_kind (f w) = vif_kind w) ->
  (forall h, test_bit h (ap_sta_hlid_map (f (vif_at wl v))) = true ->
     test_bit h (vif_links_map (vif_at wl v)) = true /\ is_ap (vif_at wl v) = true) ->
  n = stations wl + weight (ap_sta_hlid_map (f (vif_at wl v))) WL12XX_MAX_LINKS
        - weight (ap_sta_hlid_map (vif_at wl v)) WL12XX_MAX_LINKS ->
  n <= AP_MAX_STATIONS -> work_keeps wl wl'.
Proof.
  intros wl' W Hin Hf Hfl Hsta Hn Hmax. pose proof (wi_inv _ W) as I. pose proof (inv_vifs _ I) as V.
  assert (is_Some (vifs wl !! v)) as Hv by (by apply V).
  assert (forall x, vif_links_map (vif_at wl' x) = vif_links_map (vif_at wl x)) as Em
    by (intros x; by apply (sta_map_own f wl v)).
  relink wl; [done | split; try done; try apply V | apply I |].
  - intros x Hx. simpl. apply lookup_alter_is_Some. by apply V.
  - intros x h. rewrite Em. apply V.
  - intros x h. rewrite Em. apply V.
  - destruct (vo_own _ V) as [D S A P]. split.
    + intros x y h. rewrite !Em. apply D.
    + intros x. rewrite Em. apply S.
    + intros x h Lx. rewrite Em. unfold wl'. change (vif_at (?a <| active_sta_count := n |>)) with (vif_at a).
      rewrite vif_at_upd by done. case_decide as Ex; [subst x; apply Hsta | by apply A].
    + intros x h Lx. unfold wl'. change (vif_at (?a <| active_sta_count := n |>)) with (vif_at a).
      rewrite vif_at_upd by done. case_decide as Ex; [subst x | by apply P].
      intros Hb. unfold is_ap. pose proof (f_equal snd (Hfl (vif_at wl v))) as E. simpl in E. rewrite E.
      by apply (Hsta h).
  - simpl. rewrite Hn. symmetry. by apply (stations_upd v f wl).
  - split; [done | | done..]. intros x. unfold wl'.
    change (vif_at (?a <| active_sta_count := n |>)) with (vif_at a).
    rewrite vif_at_upd by done. case_decide as Ex; [subst x; apply Hfl | done].
Qed.

Lemma enroll_keeps v h wl : work_inv wl -> v ∈ wlvif_list wl -> is_link h ->
  test_bit h (vif_links_map (vif_at wl v)) = true ->
  test_bit h (ap_sta_hlid_map (vif_at wl v)) = false -> is_ap (vif_at wl v) = true ->
  active_sta_count wl < AP_MAX_STATIONS -> work_keeps wl (enroll v h wl).
Proof.
  intros W Hin Hh Hown Hs Hap Hc. pose proof (inv_vifs _ (wi_inv _ W)) as V.
  apply (restation_keeps (fun w => w <| ap_sta_hlid_map ::= set_bit h |>)
    (1 + active_sta_count wl)); try done; [| |lia].
  - intros i. simpl. rewrite test_set_bit by apply Hh. intros [E|E]%orb_true_iff.
    + bool_to_prop. by subst i.
    + split; [by apply (lo_sta _ (vo_own _ V)) | done].
  - simpl. rewrite weight_set by done. rewrite (vo_count _ V). lia.
Qed.

Lemma unenroll_keeps v h wl : work_inv wl -> v ∈ wlvif_list wl ->
  test_bit h (ap_sta_hlid_map (vif_at wl v)) = true -> work_keeps wl (unenroll v h wl).
Proof.
  intros W Hin Hs. pose proof (inv_vifs _ (wi_inv _ W)) as V.
  pose proof (lo_sta _ (vo_own _ V) _ _ Hin Hs) as Hown. pose proof (vo_map _ V _ _ Hown) as Hh.
  apply (restation_keeps (fun w => w <| ap_sta_hlid_map ::= clear_bit h |>)
    (active_sta_count wl - 1)); try done.
  - intros i. simpl. rewrite test_clear_bit. intros [E _]%andb_true_iff.
    split; [by apply (lo_sta _ (vo_own _ V) v) | by eapply (lo_ap _ (vo_own _ V))].
  - simpl. rewrite weight_clear by done. rewrite (vo_count _ V). lia.
  - pose proof (vo_max _ V). lia.
Qed.

Definition addressed (h : Z) (addr : list Z) (wl : wl1271) : wl1271 :=
  upd_link h (fun l => l <| link_addr := addr |>) wl.

Lemma allocate_sta_spec v sta wl :
  work_inv wl -> v ∈ wlvif_list wl -> is_ap (vif_at wl v) = true ->
  let '(ret, h, wl') := wl1271_allocate_sta v sta wl in
  (ret = - EBUSY /\ h = wl_sta_hlid sta /\ wl' = wl /\
     (active_sta_count wl = AP_MAX_STATIONS \/
      forall i, is_link i -> test_bit i (links_map wl) = true)) \/
  (ret = 0 /\ is_link h /\ test_bit h (links_map wl) = false /\
     wl' = addressed h (sta_addr sta) (enroll v h (grant v h wl)) /\ work_keeps wl wl' /\
     (forall q, is_queue q -> link_queue wl' h q = [])).
Proof.
  intros W Hin Hap. pose proof (inv_vifs _ (wi_inv _ W)) as V.
  assert (is_Some (vifs wl !! v)) as Hv by (by apply V).
  unfold wl1271_allocate_sta. destruct (AP_MAX_STATIONS <=? active_sta_count wl) eqn:Hc; bool_to_prop.
  { left. split_and!; try done. left. pose proof (vo_max _ V). lia. }
  pose proof (allocate_link_spec v (wl_sta_hlid sta) wl W Hin) as A.
  destruct (wl12xx_allocate_link v _ wl) as [[ret h] w1].
  destruct A as [(-> & -> & -> & Hfull)|(-> & Hh & Hfree & -> & K & Q)].
  { left. simpl. split_and!; try done. by right. }
  right. cbn [Z.ltb Z.compare].
  assert (work_keeps (grant v h wl) (enroll v h (grant v h wl))) as K2.
  { apply enroll_keeps; [apply K | done | done | | | | done].
    - unfold grant. rewrite vif_at_upd, decide_True by done. simpl.
      rewrite test_set_bit by apply Hh. by rewrite Z.eqb_refl.
    - unfold grant. rewrite vif_at_upd, decide_True by done. simpl.
      exact (free_no_sta wl h v V Hin Hfree).
    - unfold grant. by rewrite (relink_field is_ap). }
  assert (work_keeps wl (addressed h (sta_addr sta) (enroll v h (grant v h wl)))) as K3.
  { eapply work_keeps_trans; [exact K|]. eapply work_keeps_trans; [exact K2|].
    apply upd_link_keeps; [done | apply K2]. }
  split_and!; try done. intros q Hq.
  change (link_queue (addressed h (sta_addr sta) (enroll v h (grant v h wl))) h q = []).
  rewrite <- (Q q Hq). apply (same_view_queue (enroll v h (grant v h wl))). by apply upd_link_view.
Qed.

(** Forgetting the address and the sessions of a link, and its sleep state. *)
Definition forgotten (h : Z) (wl : wl1271) : wl1271 :=
  (upd_link h (fun l => l <| link_addr := [0; 0; 0; 0; 0; 0] |> <| ba_bitmap := 0 |>) wl)
    <| ap_ps_map ::= clear_bit h |> <| ap_fw_ps_map ::= clear_bit h |>.

Lemma forgotten_view h wl : same_view wl (forgotten h wl).
Proof.
  transitivity (upd_link h (fun l => l <| link_addr := [0; 0; 0; 0; 0; 0] |> <| ba_bitmap := 0 |>) wl).
  - by apply upd_link_view.
  - unfold forgotten. generalize (upd_link h (fun l => l <| link_addr := [0; 0; 0; 0; 0; 0] |> <| ba_bitmap := 0 |>) wl).
    by split.
Qed.

Lemma forgotten_keeps h wl : work_inv wl -> work_keeps wl (forgotten h wl).
Proof. intros W. by apply view_keeps; [|apply forgotten_view|..]. Qed.

Lemma free_sta_eq v h wl : work_inv wl -> is_link h ->
  test_bit h (ap_sta_hlid_map (vif_at wl v)) = true ->
  wl1271_free_sta v h wl =
    let w := revoke v h (unenroll v h (wl1271_tx_reset_link_queues h (forgotten h wl))) in
    if active_sta_count w =? 0 then wl12xx_rearm_tx_watchdog_locked w else w.
Proof.
  intros W Hh Hs. unfold wl1271_free_sta. rewrite Hs. cbn [negb].
  unfold wl12xx_free_link. destruct (Z.eqb_spec h WL12XX_INVALID_LINK_ID) as [E|_].
  { exfalso. unfold is_link, WL12XX_MAX_LINKS, WL12XX_INVALID_LINK_ID in *. lia. }
  cbv zeta. set (m := clear_bit h (links_map wl)).
  set (vs := alter (fun w => w <| vif_links_map ::= clear_bit h |>) v
               (alter (fun w => w <| ap_sta_hlid_map ::= clear_bit h |>) v (vifs wl))).
  assert (wl1271_tx_reset_link_queues h (relinked m vs (active_sta_count wl) (forgotten h wl))
          = relinked m vs (active_sta_count wl) (wl1271_tx_reset_link_queues h (forgotten h wl))) as E
    by apply reset_queues_relinked.
  destruct (reset_link_queues_spec h (forgotten h wl)) as (_ & _ & (k & s & c & r & l & Ef) & _);
    [apply (wk_inv _ _ (forgotten_keeps h wl W)) | done |].
  set (w := wl1271_tx_reset_link_queues h (forgotten h wl)) in *. clearbody w.
  assert (links_map w = links_map wl /\ vifs w = vifs wl /\ active_sta_count w = active_sta_count wl)
    as (E1 & E2 & E3) by (by rewrite Ef).
  match goal with |- context [wl1271_tx_reset_link_queues h ?x] =>
    replace x with (relinked m vs (active_sta_count wl) (forgotten h wl)) by (by destruct wl) end.
  rewrite E. replace (revoke v h (unenroll v h w))
    with (relinked m vs (active_sta_count wl - 1) w); [done|].
  unfold m, vs. rewrite <- E1, <- E2, <- E3. by destruct w.
Qed.

Lemma free_sta_spec v h wl :
  work_inv wl -> v ∈ wlvif_list wl -> test_bit h (ap_sta_hlid_map (vif_at wl v)) = true ->
  let wl' := wl1271_free_sta v h wl in
  work_keeps wl wl' /\
  links_map wl' = clear_bit h (links_map wl) /\
  active_sta_count wl' = active_sta_count wl - 1 /\ wlvif_list wl' = wlvif_list wl /\
  (forall x, vif_own (vif_at wl' x) =
     if decide (v = x) then (clear_bit h (vif_links_map (vif_at wl v)), clear_bit h (ap_sta_hlid_map (vif_at wl v)),
       vif_kind (vif_at wl v))
     else vif_own (vif_at wl x)) /\
  (forall i q, is_queue q -> link_queue wl' i q = if h =? i then [] else link_queue wl i q).
Proof.
  intros W Hin Hs wl'. pose proof (inv_vifs _ (wi_inv _ W)) as V.
  pose proof (lo_sta _ (vo_own _ V) _ _ Hin Hs) as Hown. pose proof (vo_map _ V _ _ Hown) as Hh.
  assert (is_Some (vifs wl !! v)) as Hv by (by apply V).
  pose proof (forgotten_keeps h wl W) as K1.
  destruct (reset_link_queues_spec h (forgotten h wl)) as (_ & Lq & (k & s & c & r & l & Ef) & _);
    [apply K1 | done |].
  pose proof (drain_link_keeps dropped_status h _ dropped_keeps (wk_inv _ _ K1) Hh) as K2.
  change (drain_link h _ _) with (wl1271_tx_reset_link_queues h (forgotten h wl)) in K2.
  unfold wl'. rewrite free_sta_eq by done. cbv zeta.
  set (w := wl1271_tx_reset_link_queues h (forgotten h wl)) in *. clearbody w.
  assert (vifs w = vifs wl /\ wlvif_list w = wlvif_list wl /\ vif_at w v = vif_at wl v)
    as (E2 & E3 & E4) by (by rewrite Ef).
  pose proof (unenroll_keeps v h w (wk_inv _ _ K2) ltac:(by rewrite E3) ltac:(by rewrite E4)) as K3.
  assert (vif_at (unenroll v h w) v = (vif_at w v) <| ap_sta_hlid_map ::= clear_bit h |>) as Eu.
  { unfold unenroll. change (vif_at (?a <| active_sta_count ::= _ |>)) with (vif_at a).
    by rewrite vif_at_upd, decide_True by (by rewrite ?E2). }
  assert (work_keeps (unenroll v h w) (revoke v h (unenroll v h w))) as K4.
  { apply revoke_keeps; [apply K3 | | by rewrite Eu, E4 | |].
    - simpl. by rewrite E3.
    - rewrite Eu. simpl. by rewrite test_clear_bit, Z.eqb_refl, andb_false_r.
    - intros q Hq. change (link_queue w h q = []). by rewrite Lq, Z.eqb_refl. }
  set (w' := revoke v h (unenroll v h w)) in *.
  assert (work_keeps wl w') as K by (do 3 (eapply work_keeps_trans; [eassumption|]); exact K4).
  assert (links_map w' = clear_bit h (links_map wl) /\ active_sta_count w' = active_sta_count wl - 1 /\
    wlvif_list w' = wlvif_list wl) as (F1 & F2 & F0) by (unfold w'; by rewrite Ef).
  assert (forall x, vif_own (vif_at w' x) =
     if decide (v = x) then (clear_bit h (vif_links_map (vif_at wl v)), clear_bit h (ap_sta_hlid_map (vif_at wl v)),
       vif_kind (vif_at wl v))
     else vif_own (vif_at wl x)) as F3.
  { intros x. unfold w', revoke. rewrite vif_at_upd by (simpl; rewrite E2; by apply lookup_alter_is_Some).
    change (vif_at (?a <| links_map ::= _ |>)) with (vif_at a).
    case_decide as Ex; [by rewrite Eu, E4|]. unfold unenroll, vif_at. simpl.
    by rewrite E2, !lookup_total_alt, lookup_alter_ne. }
  assert (forall i q, is_queue q -> link_queue w' i q = if h =? i then [] else link_queue wl i q) as F4.
  { intros i q Hq. change (link_queue w i q = if h =? i then [] else link_queue wl i q). rewrite Lq by done.
    split_if; [done|]. apply (same_view_queue wl), forgotten_view. }
  clearbody w'. destruct (active_sta_count w' =? 0); [|done].
  pose proof (rearm_watchdog_keeps w' (wk_inv _ _ K)) as K5.
  split_and!; [by eapply work_keeps_trans | ..]; unfold wl12xx_rearm_tx_watchdog_locked; by split_if.
Qed.

(** The state once a station has its link. *)
Lemma admitted_facts v h addr wl :
  let w := addressed h addr (enroll v h (grant v h wl)) in
  is_Some (vifs wl !! v) -> is_link h -> zlen (links wl) = WL12XX_MAX_LINKS ->
  links_map w = set_bit h (links_map wl) /\ active_sta_count w = active_sta_count wl + 1 /\
  wlvif_list w = wlvif_list wl /\ link_addr (link_at w h) = addr /\
  (forall x, vif_own (vif_at w x) =
     if decide (v = x) then (set_bit h (vif_links_map (vif_at wl v)), set_bit h (ap_sta_hlid_map (vif_at wl v)),
       vif_kind (vif_at wl v))
     else vif_own (vif_at wl x)).
Proof.
  intros w Hv Hh Hl. split_and!; try done.
  - unfold w. simpl. lia.
  - unfold w, link_at, addressed, upd_link. simpl. rewrite zget_zset by (rewrite Hl; exact Hh).
    by rewrite Z.eqb_refl.
  - intros x. change (vif_at w x) with (vif_at (upd_vif v (fun w => w <| ap_sta_hlid_map ::= set_bit h |>) (grant v h wl)) x).
    rewrite vif_at_upd by (simpl; by apply lookup_alter_is_Some).
    unfold grant. rewrite !vif_at_upd by done. case_decide as Ex; [|done]. by rewrite decide_True.
Qed.

(** What the low power handshake may change. *)
Definition elp_frame (wl wl' : wl1271) : Prop := exists f s e b l,
  wl' = wl <| flags := f |> <| state := s |> <| elp_work_queued := e |> <| bus := b |> <| log := l |>.

Ltac elp_witness wl :=
  match goal with
  | |- elp_frame _ ?w =>
      exists (flags w), (state w), (elp_work_queued w), (bus w), (log w); destruct wl; reflexivity
  end.

#[export] Instance elp_frame_refl : Reflexive elp_frame.
Proof. intros wl. elp_witness wl. Qed.

#[export] Instance elp_frame_trans : Transitive elp_frame.
Proof.
  intros a b c (f & s & e & u & l & E1) (f' & s' & e' & u' & l' & E2).
  exists f', s', e', u', l'. by rewrite E2, E1.
Qed.

Lemma io_elp_frame wl wl' : io_frame wl wl' -> elp_frame wl wl'.
Proof.
  intros [(f & s & b & l & ->) _ _ _]. exists f, s, (elp_work_queued wl), b, l. by destruct wl.
Qed.

Lemma elp_wakeup_frame c wl : elp_frame wl (snd (wl1271_ps_elp_wakeup c wl)).
Proof.
  unfold wl1271_ps_elp_wakeup. split_if; [reflexivity|]. cbv zeta.
  set (w1 := (clear_flag _ wl) <| elp_work_queued := false |>).
  assert (elp_frame wl w1) as F1 by (unfold w1; elp_witness wl). clearbody w1.
  split_if; [exact F1|].
  pose proof (io_elp_frame _ _ (raw_write32_io_frame HW_ACCESS_ELP_CTRL_REG ELPCTRL_WAKE_UP w1)) as F2.
  destruct (wlcore_raw_write32 _ _ w1) as [ret w2]. simpl in F2.
  assert (elp_frame wl w2) as F by (by etrans). clear F1 F2.
  pose proof (io_elp_frame _ _ (queue_recovery_io_frame w2)) as R.
  split_if; [by etrans|]. split_if; [by etrans|]. split_if; [done|].
  etrans; [exact F|]. elp_witness w2.
Qed.

Lemma elp_sleep_frame wl : elp_frame wl (wl1271_ps_elp_sleep wl).
Proof.
  unfold wl1271_ps_elp_sleep. split_if; [reflexivity|]. split_if; [reflexivity|]. cbv zeta.
  split_if; elp_witness wl.
Qed.

Section Peers.
Context `{laws : wlcore_ops_laws}.

Lemma event_poll_frame polls mask ret wl : io_frame wl (snd (event_poll polls mask ret wl)).
Proof.
  revert ret wl. induction polls as [|polls IH]; intros ret wl; cbn [event_poll]; [reflexivity|].
  pose proof (read_io_frame (zget 0 (mbox_ptr (hw wl)) 0) 4 wl) as R1.
  destruct (wlcore_read _ 4 wl) as [[r1 d1] w1]. simpl in R1. split_if; [exact R1|].
  pose proof (read_io_frame (zget 0 (mbox_ptr (hw w1)) 1) 4 w1) as R2.
  destruct (wlcore_read _ 4 w1) as [[r2 d2] w2]. simpl in R2. split_if; [by etrans|].
  cbv zeta. split_if; [|by etrans]. etrans; [exact R1|]. etrans; [exact R2 | apply IH].
Qed.

Lemma remove_peer_frame h wl : io_frame wl (snd (wl12xx_cmd_remove_peer h wl)).
Proof.
  unfold wl12xx_cmd_remove_peer. pose proof (cmd_send_io_frame (CMD_REMOVE_PEER h) wl) as R.
  destruct (wl1271_cmd_send _ wl) as [r1 w1]. simpl in R. split_if; [exact R|].
  unfold wl1271_cmd_wait_for_event_or_timeout.
  pose proof (event_poll_frame (event_polls (hw w1)) PEER_REMOVE_COMPLETE_EVENT_ID 0 w1) as P.
  destruct (event_poll _ _ 0 w1) as [[r2 t] w2]. simpl in P. simpl.
  split_if; [|by etrans]. etrans; [exact R|]. etrans; [exact P | apply queue_recovery_io_frame].
Qed.

(** Adding a station gives it an idle link of its own, or changes no owner. *)
Lemma sta_add_spec v sta wl :
  work_inv wl -> v ∈ wlvif_list wl -> is_ap (vif_at wl v) = true ->
  let '(ret, h, wl') := wl12xx_sta_add v sta wl in
  work_keeps wl wl' /\
  (0 <= ret -> is_link h /\ test_bit h (links_map wl) = false /\
     links_map wl' = set_bit h (links_map wl) /\
     test_bit h (ap_sta_hlid_map (vif_at wl' v)) = true /\
     active_sta_count wl' = active_sta_count wl + 1 /\
     link_addr (link_at wl' h) = sta_addr sta /\
     (forall q, is_queue q -> link_queue wl' h q = [])) /\
  (ret < 0 -> links_map wl' = links_map wl /\ active_sta_count wl' = active_sta_count wl /\
     forall x, vif_own (vif_at wl' x) = vif_own (vif_at wl x)).
Proof.
  intros W Hin Hap. unfold wl12xx_sta_add. pose proof (allocate_sta_spec v sta wl W Hin Hap) as A.
  destruct (wl1271_allocate_sta v sta wl) as [[ret h] w1].
  destruct A as [(-> & -> & -> & _)|(-> & Hh & Hfree & E & K & Q)].
  { simpl. split_and!; [by apply view_keeps | unfold EBUSY; lia | done]. }
  cbn [Z.ltb Z.compare]. unfold wl12xx_cmd_add_peer.
  match goal with |- context [wl1271_cmd_send ?c w1] => pose proof (cmd_send_io_frame c w1) as F;
    destruct (wl1271_cmd_send c w1) as [r w2] end. simpl in F.
  pose proof (inv_vifs _ (wi_inv _ W)) as V. assert (is_Some (vifs wl !! v)) as Hv by (by apply V).
  destruct (admitted_facts v h (sta_addr sta) wl Hv Hh (co_links _ _ (inv_counts _ (wi_inv _ W))))
    as (F1 & F2 & F3 & F4 & F5). rewrite <- E in F1, F2, F3, F4, F5.
  pose proof (work_keeps_trans _ _ _ K (io_keeps _ _ (wk_inv _ _ K) F)) as K2.
  assert (links_map w2 = links_map w1 /\ active_sta_count w2 = active_sta_count w1 /\
    wlvif_list w2 = wlvif_list w1 /\ links w2 = links w1 /\ vifs w2 = vifs w1) as (G1 & G2 & G3 & G4 & G5)
    by (destruct F as [(? & ? & ? & ? & ->) _ _ _]; done).
  assert (forall x, vif_at w2 x = vif_at w1 x) as G6 by (intros x; unfold vif_at; by rewrite G5).
  assert (forall i q, link_queue w2 i q = link_queue w1 i q) as G7
    by (intros i q; unfold link_queue, link_at; by rewrite G4).
  assert (test_bit h (ap_sta_hlid_map (vif_at w2 v)) = true) as Hs.
  { rewrite G6. pose proof (f_equal (snd ∘ fst) (F5 v)) as Ev. rewrite decide_True in Ev by done. simpl in Ev.
    rewrite Ev, test_set_bit by apply Hh. by rewrite Z.eqb_refl. }
  split_if; bool_to_prop.
  - destruct (free_sta_spec v h w2 (wk_inv _ _ K2) ltac:(by rewrite G3, F3) Hs) as (K3 & R1 & R2 & _ & R3 & _).
    split_and!; [by eapply work_keeps_trans | lia |]. intros _. split_and!.
    + rewrite R1, G1, F1. apply clear_set_bit; [apply Hh | done].
    + lia.
    + intros x. rewrite R3. case_decide as Ex; [subst x | by rewrite G6, F5, decide_False].
      pose proof (F5 v) as Ev. rewrite decide_True in Ev by done.
      pose proof (f_equal (fst ∘ fst) Ev) as Ea. pose proof (f_equal (snd ∘ fst) Ev) as Eb.
      pose proof (f_equal snd Ev) as Ei. cbn [fst snd compose vif_own] in Ea, Eb, Ei.
      unfold vif_own at 1. rewrite !G6, Ea, Eb, Ei, !clear_set_bit; try apply Hh; [done | by apply free_no_sta | by apply free_unowned].
  - split_and!; [done | | lia]. intros _. rewrite G1, F1, G2, F2. split_and!; try done.
    + rewrite <- F4. unfold link_at. by rewrite G4.
    + intros q Hq. rewrite G7. by apply Q.
Qed.

Lemma sta_remove_spec v sta wl :
  work_inv wl -> v ∈ wlvif_list wl ->
  let '(ret, wl') := wl12xx_sta_remove v sta wl in
  work_keeps wl wl' /\
  (0 <= ret -> links_map wl' = clear_bit (wl_sta_hlid sta) (links_map wl) /\
     active_sta_count wl' = active_sta_count wl - 1 /\
     (forall q, is_queue q -> link_queue wl' (wl_sta_hlid sta) q = [])).
Proof.
  intros W Hin. unfold wl12xx_sta_remove. cbv zeta.
  destruct (test_bit (wl_sta_hlid sta) (ap_sta_hlid_map (vif_at wl v))) eqn:Hs; cbn [negb].
  2: { split; [by apply view_keeps | unfold EINVAL; lia]. }
  pose proof (remove_peer_frame (wl_sta_hlid sta) wl) as F.
  destruct (wl12xx_cmd_remove_peer _ wl) as [r w]. simpl in F.
  pose proof (io_keeps _ _ W F) as K. split_if; bool_to_prop; [split; [done | lia]|].
  assert (links_map w = links_map wl /\ active_sta_count w = active_sta_count wl /\
    wlvif_list w = wlvif_list wl /\ vif_at w v = vif_at wl v) as (G1 & G2 & G3 & G4)
    by (destruct F as [(? & ? & ? & ? & ->) _ _ _]; done).
  destruct (free_sta_spec v (wl_sta_hlid sta) w (wk_inv _ _ K) ltac:(by rewrite G3) ltac:(by rewrite G4))
    as (K3 & R1 & R2 & _ & _ & R4).
  split; [by eapply work_keeps_trans|]. intros _. split_and!; [congruence | lia |].
  intros q Hq. by rewrite R4, Z.eqb_refl.
Qed.

Lemma set_peer_state_keeps v h wl : work_inv wl ->
  work_keeps wl (snd (wl12xx_cmd_set_peer_state v h wl)).
Proof. intros W. apply cmd_keeps, W. Qed.

Lemma set_authorized_keeps v wl : work_inv wl -> work_keeps wl (snd (wl12xx_set_authorized v wl)).
Proof.
  intros W. unfold wl12xx_set_authorized. cbv zeta. split_if; [by apply view_keeps|].
  split_if; [by apply view_keeps|].
  set (w1 := upd_vif v _ wl). assert (work_keeps wl w1) as K1 by (apply vif_flags_keeps; [other_flag | done]).
  clearbody w1. split_if; [exact K1|].
  pose proof (set_peer_state_keeps v (sta_hlid (vif_at wl v)) w1 (wk_inv _ _ K1)) as K2.
  destruct (wl12xx_cmd_set_peer_state v _ w1) as [r w2]. simpl in K2.
  split_if; by eapply work_keeps_trans.
Qed.

Lemma update_sta_state_keeps v sta old new wl : work_inv wl -> v ∈ wlvif_list wl ->
  work_keeps wl (snd (wl12xx_update_sta_state v sta old new wl)).
Proof.
  intros W Hin. unfold wl12xx_update_sta_state. cbv zeta. split_if.
  { apply andb_true_iff in E as [[Ha _]%andb_true_iff _].
    pose proof (sta_add_spec v sta wl W Hin Ha) as A. destruct (wl12xx_sta_add v sta wl) as [[r h] w]. apply A. }
  split_if.
  { pose proof (sta_remove_spec v sta wl W Hin) as A. destruct (wl12xx_sta_remove v sta wl) as [r w]. apply A. }
  split_if.
  { pose proof (set_peer_state_keeps v (wl_sta_hlid sta) wl W) as K1.
    destruct (wl12xx_cmd_set_peer_state v _ wl) as [r w1]. simpl in K1. split_if; [exact K1|].
    unfold wl1271_acx_set_ht_capabilities. cbv zeta.
    match goal with |- context [wl1271_cmd_send ?c w1] => pose proof (cmd_keeps c w1 (wk_inv _ _ K1)) as K2;
      destruct (wl1271_cmd_send c w1) as [r2 w2] end. simpl in *. by eapply work_keeps_trans. }
  split_if.
  { set (w1 := upd_vif v _ wl). assert (work_keeps wl w1) as K1 by (apply vif_flags_keeps; [other_flag | done]).
    clearbody w1. pose proof (set_authorized_keeps v w1 (wk_inv _ _ K1)) as K2.
    destruct (wl12xx_set_authorized v w1) as [r w2]. simpl in *. by eapply work_keeps_trans. }
  split_if; [apply vif_flags_keeps; [other_flag | done] | by apply view_keeps].
Qed.

Lemma op_sta_state_keeps v sta old new c wl : work_inv wl -> v ∈ wlvif_list wl ->
  work_keeps wl (snd (wl12xx_op_sta_state v sta old new c wl)).
Proof.
  intros W Hin. unfold wl12xx_op_sta_state. split_if; [by apply view_keeps|].
  split_if; [by apply view_keeps|].
  pose proof (elp_wakeup_keeps c wl W) as K1. pose proof (elp_wakeup_frame c wl) as (f & s & e & b & l & Ee).
  destruct (wl1271_ps_elp_wakeup c wl) as [r w1]. simpl in *. split_if; [exact K1|].
  assert (v ∈ wlvif_list w1) as Hin1 by (by rewrite Ee).
  pose proof (update_sta_state_keeps v sta old new w1 (wk_inv _ _ K1) Hin1) as K2.
  destruct (wl12xx_update_sta_state v sta old new w1) as [[r2 h2] w2]. simpl in *.
  eapply work_keeps_trans; [exact K1|]. eapply work_keeps_trans; [exact K2|]. apply elp_sleep_keeps, K2.
Qed.

(** Forgetting the links of an interface. *)
Lemma no_sta_bits wl v h : vifs_ok wl -> v ∈ wlvif_list wl ->
  is_ap (vif_at wl v) = false \/ test_bit h (vif_links_map (vif_at wl v)) = false ->
  test_bit h (ap_sta_hlid_map (vif_at wl v)) = false.
Proof.
  intros V Hin Hn. destruct (test_bit h (ap_sta_hlid_map (vif_at wl v))) eqn:E; [exfalso|done].
  pose proof (lo_ap _ (vo_own _ V) _ _ Hin E). pose proof (lo_sta _ (vo_own _ V) _ _ Hin E).
  destruct Hn; congruence.
Qed.

Lemma reset_wlvif_link_spec v i wl : work_inv wl -> v ∈ wlvif_list wl ->
  work_keeps wl (reset_wlvif_link v i wl) /\
  forall h, test_bit h (ap_sta_hlid_map (vif_at (reset_wlvif_link v i wl) v))
            = test_bit h (ap_sta_hlid_map (vif_at wl v)) && negb (i =? h).
Proof.
  intros W Hin. pose proof (inv_vifs _ (wi_inv _ W)) as V.
  assert (forall h, test_bit i (ap_sta_hlid_map (vif_at wl v)) = false ->
    test_bit h (ap_sta_hlid_map (vif_at wl v)) = test_bit h (ap_sta_hlid_map (vif_at wl v)) && negb (i =? h)) as Same.
  { intros h Hi. destruct (Z.eqb_spec i h) as [<-|]; [by rewrite Hi | by rewrite andb_true_r]. }
  unfold reset_wlvif_link. cbv zeta.
  destruct (test_bit i (vif_links_map (vif_at wl v))) eqn:Hl.
  2: { split; [by apply view_keeps|]. intros h. apply Same, no_sta_bits; try done. by right. }
  set (w1 := if is_ap (vif_at wl v) then _ else _).
  assert (work_keeps wl w1 /\ forall h, test_bit h (ap_sta_hlid_map (vif_at w1 v))
            = test_bit h (ap_sta_hlid_map (vif_at wl v)) && negb (i =? h)) as [K1 B1].
  { unfold w1. destruct (is_ap (vif_at wl v)) eqn:Ha.
    - destruct (test_bit i (ap_sta_hlid_map (vif_at wl v))) eqn:Hs.
      + destruct (free_sta_spec v i wl W Hin Hs) as (K & _ & _ & _ & O & _). split; [exact K|].
        intros h. specialize (O v). rewrite decide_True in O by done.
        rewrite (f_equal (snd ∘ fst) O : ap_sta_hlid_map _ = _). apply test_clear_bit.
      + unfold wl1271_free_sta. rewrite Hs. split; [by apply view_keeps | intros h; by apply Same].
    - split; [by apply upd_vif_keeps|]. intros h.
      rewrite vif_at_upd, decide_True by (done || by apply V). simpl.
      apply Same, no_sta_bits; try done. by left. }
  clearbody w1. split; [|exact B1]. eapply work_keeps_trans; [exact K1|].
  apply upd_link_keeps; [done | apply K1].
Qed.

Lemma reset_wlvif_loop v wl : work_inv wl -> v ∈ wlvif_list wl ->
  let w := for_range WL12XX_MAX_LINKS (reset_wlvif_link v) wl in
  work_keeps wl w /\ forall h, 0 <= h < WL12XX_MAX_LINKS ->
    test_bit h (ap_sta_hlid_map (vif_at w v)) = false.
Proof.
  intros W Hin. cbv zeta. apply (for_range_ind (fun k w => work_keeps wl w /\ forall h, 0 <= h < k ->
      test_bit h (ap_sta_hlid_map (vif_at w v)) = false)); [done | split; [by apply view_keeps | lia]|].
  intros s i Hi [K B]. destruct (reset_wlvif_link_spec v i s (wk_inv _ _ K)) as [K2 B2];
    [by rewrite (sm_list _ _ (wk_vifs _ _ K))|].
  split; [by eapply work_keeps_trans|]. intros h Hh. rewrite B2.
  destruct (Z.eqb_spec i h) as [<-|]; [apply andb_false_r | rewrite B by lia; done].
Qed.

Lemma last_hlid_no_sta v w : vifs_ok w -> v ∈ wlvif_list w ->
  (forall h, 0 <= h < WL12XX_MAX_LINKS -> test_bit h (ap_sta_hlid_map (vif_at w v)) = false) ->
  forall h, test_bit h (ap_sta_hlid_map (vif_at (upd_vif v (fun w => w <| last_tx_hlid := 0 |>) w) v)) = false.
Proof.
  intros V Hin B h. rewrite (vif_at_upd v _ w v (vo_alloc _ V v Hin)), decide_True by done. simpl.
  destruct (test_bit h (ap_sta_hlid_map (vif_at w v))) eqn:E; [|done].
  pose proof (vo_map _ V v h (lo_sta _ (vo_own _ V) v h Hin E)) as Hh. by rewrite B in E.
Qed.

(** The links of an interface forgotten: no station is left. *)
Lemma tx_reset_wlvif_spec v wl : work_inv wl -> v ∈ wlvif_list wl ->
  work_keeps wl (wl12xx_tx_reset_wlvif v wl) /\
  forall h, test_bit h (ap_sta_hlid_map (vif_at (wl12xx_tx_reset_wlvif v wl) v)) = false.
Proof.
  intros W Hin. destruct (reset_wlvif_loop v wl W Hin) as [K B]. split.
  - eapply work_keeps_trans; [exact K | apply upd_vif_keeps; [done | apply K]].
  - refine (last_hlid_no_sta v _ (inv_vifs _ (wi_inv _ (wk_inv _ _ K))) _ B).
    by rewrite (sm_list _ _ (wk_vifs _ _ K)).
Qed.

Lemma tx_reset_wlvif_keeps v wl : work_inv wl -> v ∈ wlvif_list wl ->
  work_keeps wl (wl12xx_tx_reset_wlvif v wl).
Proof. intros W Hin. apply (tx_reset_wlvif_spec v wl W Hin). Qed.

End Peers.
