(* ===== verification/RolesFacts.v ===== *)
(** * Roles and their links *)

From S2P Require Import Prelude Ieee80211 WlState ChipOps Io Queues LinkQueues.
From S2P Require Import PowerSave TxPath TxAllocFacts TxSched TxInv SchedFacts TxMoves.
From S2P Require Import TxPrep TxWork TxDone TxDoneFacts FwStatus Event EventFacts.
From S2P Require Import Links LinksFacts Roles.

(** ** The links of the roles of an interface *)

(** A role's link is a link of the interface and not a station's, and no two
    roles share one. *)
Record role_ok (w : wl12xx_vif) : Prop := {
  ro_owned r : link_field r w <> WL12XX_INVALID_LINK_ID ->
    test_bit (link_field r w) (vif_links_map w) = true /\
    test_bit (link_field r w) (ap_sta_hlid_map w) = false;
  ro_inj r r' : link_field r w <> WL12XX_INVALID_LINK_ID ->
    link_field r w = link_field r' w -> r = r'
}.

(** The interface once [h] is granted to the role [r], and once [r] has lost its link. *)
Definition role_granted (r : role_link) (h : Z) (w : wl12xx_vif) : wl12xx_vif :=
  set_link_field r h (w <| vif_links_map ::= set_bit h |>).
Definition role_revoked (r : role_link) (w : wl12xx_vif) : wl12xx_vif :=
  set_link_field r WL12XX_INVALID_LINK_ID (w <| vif_links_map ::= clear_bit (link_field r w) |>).

Lemma link_field_set r r' h w :
  link_field r' (set_link_field r h w) = if decide (r = r') then h else link_field r' w.
Proof. by destruct r, r'. Qed.

Lemma link_field_map f r w : link_field r (w <| vif_links_map ::= f |>) = link_field r w.
Proof. by destruct r. Qed.

Lemma links_map_map f w : vif_links_map (w <| vif_links_map ::= f |>) = f (vif_links_map w) /\
  ap_sta_hlid_map (w <| vif_links_map ::= f |>) = ap_sta_hlid_map w.
Proof. done. Qed.

Lemma set_link_field_own r h w : vif_own (set_link_field r h w) = vif_own w.
Proof. by destruct r. Qed.

Lemma set_link_field_id r w : set_link_field r (link_field r w) w = w.
Proof. by destruct r, w. Qed.

Lemma set_link_maps r h w : vif_links_map (set_link_field r h w) = vif_links_map w /\
  ap_sta_hlid_map (set_link_field r h w) = ap_sta_hlid_map w.
Proof. by destruct r. Qed.

Lemma role_granted_ok r h w : role_ok w -> is_link h ->
  test_bit h (vif_links_map w) = false -> test_bit h (ap_sta_hlid_map w) = false ->
  role_ok (role_granted r h w).
Proof.
  intros [O I] Hh Hm Hs. unfold role_granted. destruct (set_link_maps r h (w <| vif_links_map ::= set_bit h |>)) as [E1 E2].
  assert (h <> WL12XX_INVALID_LINK_ID) as Hv
    by (unfold is_link, WL12XX_MAX_LINKS, WL12XX_INVALID_LINK_ID in *; lia).
  assert (forall r', link_field r' w <> WL12XX_INVALID_LINK_ID -> link_field r' w <> h) as Hne
    by (intros r' Hr E; destruct (O r' Hr); congruence).
  split.
  - intros r'. rewrite link_field_set, link_field_map, E1, E2.
    rewrite (proj1 (links_map_map _ _)), (proj2 (links_map_map _ _)).
    rewrite test_set_bit by apply Hh. case_decide; [by rewrite Z.eqb_refl|].
    intros Hr. destruct (O r' Hr) as [A B]. rewrite A, orb_true_r. done.
  - intros a b. rewrite !link_field_set, !link_field_map. do 2 case_decide; subst; try done.
    + intros _ E. destruct (decide (link_field b w = WL12XX_INVALID_LINK_ID)); [congruence|].
      by destruct (Hne b).
    + intros Ha E. by destruct (Hne a).
    + apply I.
Qed.

Lemma role_revoked_ok r w : role_ok w -> role_ok (role_revoked r w).
Proof.
  intros [O I]. unfold role_revoked.
  match goal with |- role_ok (set_link_field r ?h ?x) => destruct (set_link_maps r h x) as [E1 E2] end.
  split.
  - intros r'. rewrite link_field_set, link_field_map, E1, E2.
    rewrite (proj1 (links_map_map _ _)), (proj2 (links_map_map _ _)). case_decide as Er; [done|].
    intros Hr. destruct (O r' Hr) as [A B]. rewrite test_clear_bit, A, B. split; [|done].
    simpl. apply negb_true_iff, Z.eqb_neq. intros E. apply Er. symmetry. by apply I.
  - intros a b. rewrite !link_field_set, !link_field_map. do 2 case_decide; subst; try done.
    apply I.
Qed.

(** What I/O leaves alone. *)
Lemma io_links wl w : io_frame wl w ->
  vifs w = vifs wl /\ wlvif_list w = wlvif_list wl /\ links_map w = links_map wl /\
  links w = links wl.
Proof. intros [(? & ? & ? & ? & ->) _ _ _]. done. Qed.

Lemma io_vif wl w v : io_frame wl w -> vif_at w v = vif_at wl v.
Proof. intros F. unfold vif_at. by rewrite (proj1 (io_links _ _ F)). Qed.

Lemma io_queue wl w h q : io_frame wl w -> link_queue w h q = link_queue wl h q.
Proof. intros F. unfold link_queue, link_at. by destruct (io_links _ _ F) as (_ & _ & _ & ->). Qed.

(** ** Allocating and freeing the link of a role *)

Lemma alloc_role_link_spec v r wl : work_inv wl -> v ∈ wlvif_list wl ->
  let '(ret, wl') := alloc_role_link v r wl in
  work_keeps wl wl' /\
  ((ret = - EBUSY /\ links_map wl' = links_map wl /\ vif_at wl' v = vif_at wl v /\
      (forall i q, link_queue wl' i q = link_queue wl i q)) \/
   (ret = 0 /\ exists h, is_link h /\ test_bit h (links_map wl) = false /\
      links_map wl' = set_bit h (links_map wl) /\ vif_at wl' v = role_granted r h (vif_at wl v) /\
      (forall i q, link_queue wl' i q = link_queue wl i q))).
Proof.
  intros W Hin. unfold alloc_role_link.
  assert (is_Some (vifs wl !! v)) as Hv by (by apply (vo_alloc _ (inv_vifs _ (wi_inv _ W)))).
  pose proof (allocate_link_spec v (link_field r (vif_at wl v)) wl W Hin) as A.
  destruct (wl12xx_allocate_link v _ wl) as [[ret h] w1].
  destruct A as [(-> & -> & -> & _)|(-> & Hh & Hb & -> & K & Q)].
  - split; [apply upd_vif_keeps; [apply set_link_field_own | done]|]. left.
    split_and!; try done. by rewrite vif_at_upd, decide_True, set_link_field_id by done.
  - split; [eapply work_keeps_trans; [exact K | apply upd_vif_keeps; [apply set_link_field_own | apply K]]|].
    right. split; [done|]. exists h. split_and!; try done.
    assert (vif_at (grant v h wl) v = (vif_at wl v) <| vif_links_map ::= set_bit h |>) as E
      by (unfold grant; by rewrite vif_at_upd, decide_True by done).
    rewrite vif_at_upd, decide_True by (done || by apply lookup_alter_is_Some). by rewrite E.
Qed.

Lemma free_role_link_spec v r wl : work_inv wl -> v ∈ wlvif_list wl ->
  let h := link_field r (vif_at wl v) in
  test_bit h (vif_links_map (vif_at wl v)) = true ->
  test_bit h (ap_sta_hlid_map (vif_at wl v)) = false ->
  let wl' := free_role_link v r wl in
  work_keeps wl wl' /\ links_map wl' = clear_bit h (links_map wl) /\
  vif_at wl' v = role_revoked r (vif_at wl v) /\
  (forall i q, is_queue q -> link_queue wl' i q = if h =? i then [] else link_queue wl i q).
Proof.
  intros W Hin h Ho Hs. cbv zeta. unfold free_role_link. fold h.
  pose proof (free_link_spec v h wl W Hin Ho Hs) as F.
  pose proof (vo_map _ (inv_vifs _ (wi_inv _ W)) _ _ Ho) as Hh.
  destruct (reset_link_queues_spec h wl (inv_counts _ (wi_inv _ W)) Hh) as (_ & _ & (? & ? & ? & ? & ? & E) & _).
  destruct (wl12xx_free_link v h wl) as [h' w1]. destruct F as (-> & E1 & K & Q).
  assert (is_Some (vifs wl !! v)) as Hv by (by apply (vo_alloc _ (inv_vifs _ (wi_inv _ W)))).
  assert (is_Some (vifs (wl1271_tx_reset_link_queues h wl) !! v)) as Hv' by (by rewrite E).
  assert (vif_at w1 v = (vif_at wl v) <| vif_links_map ::= clear_bit h |>) as Ew.
  { rewrite E1. unfold revoke. rewrite vif_at_upd, decide_True by done.
    change (vif_at (?a <| links_map ::= _ |>)) with (vif_at a). by rewrite E. }
  split_and!.
  - eapply work_keeps_trans; [exact K | apply upd_vif_keeps; [apply set_link_field_own | apply K]].
  - change (links_map w1 = clear_bit h (links_map wl)). rewrite E1. unfold revoke. simpl. by rewrite E.
  - rewrite vif_at_upd, decide_True by (done || rewrite E1; by apply lookup_alter_is_Some).
    by rewrite Ew.
  - exact Q.
Qed.

(** Granting a link to a role without one and taking it back is undone. *)
Lemma revoked_granted r h w : is_link h -> link_field r w = WL12XX_INVALID_LINK_ID ->
  test_bit h (vif_links_map w) = false -> role_revoked r (role_granted r h w) = w.
Proof.
  intros Hh Hr Hm. unfold role_revoked, role_granted.
  rewrite link_field_set, decide_True by done.
  assert (clear_bit h (set_bit h (vif_links_map w)) = vif_links_map w) as E
    by (apply clear_set_bit; [apply Hh | done]).
  transitivity (set_link_field r WL12XX_INVALID_LINK_ID
    (w <| vif_links_map := clear_bit h (set_bit h (vif_links_map w)) |>)); [by destruct r|].
  rewrite E, <- Hr. by destruct r, w.
Qed.

Lemma granted_field r h w r' : link_field r' (role_granted r h w) =
  if decide (r = r') then h else link_field r' w.
Proof. unfold role_granted. rewrite link_field_set. case_decide; [done | apply link_field_map]. Qed.

Lemma revoked_field r w r' : link_field r' (role_revoked r w) =
  if decide (r = r') then WL12XX_INVALID_LINK_ID else link_field r' w.
Proof. unfold role_revoked. rewrite link_field_set. case_decide; [done | apply link_field_map]. Qed.

Lemma granted_maps r h w : vif_links_map (role_granted r h w) = set_bit h (vif_links_map w) /\
  ap_sta_hlid_map (role_granted r h w) = ap_sta_hlid_map w.
Proof. by destruct r. Qed.

(** What a role start or stop does to the links: the map, the interface, the queues. *)
Record links_now (v : nat) (m : Z) (w : wl12xx_vif) (q : Z -> Z -> list nat) (wl : wl1271) : Prop := {
  ln_map : links_map wl = m;
  ln_vif : vif_at wl v = w;
  ln_queue i j : is_queue j -> link_queue wl i j = q i j
}.

Lemma io_links_now v m w q wl wl' : io_frame wl wl' -> links_now v m w q wl -> links_now v m w q wl'.
Proof.
  intros F [E1 E2 E3]. split.
  - by destruct (io_links _ _ F) as (_ & _ & -> & _).
  - by rewrite (io_vif _ _ _ F).
  - intros i j Hj. rewrite (io_queue _ _ _ _ F). by apply E3.
Qed.

Lemma links_now_here v wl : links_now v (links_map wl) (vif_at wl v) (link_queue wl) wl.
Proof. by split. Qed.

Lemma alloc_now v r m w q wl : work_inv wl -> v ∈ wlvif_list wl -> links_now v m w q wl ->
  let '(ret, wl') := alloc_role_link v r wl in
  work_keeps wl wl' /\
  ((ret = - EBUSY /\ links_now v m w q wl') \/
   (ret = 0 /\ exists h, is_link h /\ test_bit h m = false /\
      test_bit h (vif_links_map w) = false /\ test_bit h (ap_sta_hlid_map w) = false /\
      (forall j, is_queue j -> q h j = []) /\
      links_now v (set_bit h m) (role_granted r h w) q wl')).
Proof.
  intros W Hin [<- <- Eq]. pose proof (alloc_role_link_spec v r wl W Hin) as A.
  destruct (alloc_role_link v r wl) as [ret w1].
  destruct A as [K [(-> & Em & Ev & Q)|(-> & h & Hh & Hf & Em & Ev & Q)]]; (split; [exact K|]).
  - left. split; [done|]. split; [done..|]. intros i j Hj. rewrite Q. by apply Eq.
  - right. split; [done|]. exists h. pose proof (inv_vifs _ (wi_inv _ W)) as V. split_and!; try done.
    + by apply (free_unowned _ _ _ V).
    + by apply (free_no_sta _ _ _ V).
    + intros j Hj. rewrite <- Eq by done. by apply (inv_free _ (wi_inv _ W)).
    + split; [done..|]. intros i j Hj. rewrite Q. by apply Eq.
Qed.

Lemma free_now v r m w q wl : work_inv wl -> v ∈ wlvif_list wl -> links_now v m w q wl ->
  test_bit (link_field r w) (vif_links_map w) = true ->
  test_bit (link_field r w) (ap_sta_hlid_map w) = false ->
  let wl' := free_role_link v r wl in
  work_keeps wl wl' /\
  links_now v (clear_bit (link_field r w) m) (role_revoked r w)
    (fun i j => if link_field r w =? i then [] else q i j) wl'.
Proof.
  intros W Hin [<- <- Eq] Ho Hs. destruct (free_role_link_spec v r wl W Hin Ho Hs) as (K & Em & Ev & Q).
  split; [exact K|]. split; [done..|]. intros i j Hj. rewrite Q by done. case_match; [done | by apply Eq].
Qed.

(** A role with a fresh link that loses it again is where it was. *)
Lemma undo_now v r h m w q wl : work_inv wl -> v ∈ wlvif_list wl ->
  link_field r w = WL12XX_INVALID_LINK_ID -> is_link h -> test_bit h m = false ->
  test_bit h (vif_links_map w) = false -> test_bit h (ap_sta_hlid_map w) = false ->
  (forall j, is_queue j -> q h j = []) ->
  links_now v (set_bit h m) (role_granted r h w) q wl ->
  work_keeps wl (free_role_link v r wl) /\ links_now v m w q (free_role_link v r wl).
Proof.
  intros W Hin Hr Hh Hf Hm Hs Hq L.
  assert (link_field r (role_granted r h w) = h) as Ef by (by rewrite granted_field, decide_True).
  destruct (granted_maps r h w) as [E1 E2].
  destruct (free_now _ r _ _ _ _ W Hin L) as [K [Em Ev Eq]].
  - rewrite Ef, E1, test_set_bit by apply Hh. by rewrite Z.eqb_refl.
  - by rewrite Ef, E2.
  - rewrite Ef in Em, Eq. split; [exact K|]. split.
    + rewrite Em. apply clear_set_bit; [apply Hh | done].
    + rewrite Ev. by apply revoked_granted.
    + intros i j Hj. rewrite Eq by done. destruct (Z.eqb_spec h i) as [<-|]; [|done]. by rewrite Hq.
Qed.

Section RoleSteps.
Context `{laws : wlcore_ops_laws}.

Lemma cmd_now c v m w q wl : work_inv wl -> links_now v m w q wl ->
  work_keeps wl (snd (wl1271_cmd_send c wl)) /\ links_now v m w q (snd (wl1271_cmd_send c wl)).
Proof.
  intros W L. split; [by apply cmd_keeps | eapply io_links_now; [apply cmd_send_io_frame | exact L]].
Qed.

Lemma cmd_send_ret c wl : fst (wl1271_cmd_send c wl) <= 0.
Proof.
  unfold wl1271_cmd_send. destruct (wlcore_cmd_send_failsafe c 0 wl) as [ret w].
  split_if; bool_to_prop; simpl; lia.
Qed.

Lemma vifs_listed wl wl' v : work_keeps wl wl' -> v ∈ wlvif_list wl -> v ∈ wlvif_list wl'.
Proof. intros K. by rewrite (sm_list _ _ (wk_vifs _ _ K)). Qed.

(** Starting an access point either gets both links and the firmware's
    agreement or changes nothing of the links. *)
Lemma start_ap_spec v wl : work_inv wl -> v ∈ wlvif_list wl ->
  ap_global_hlid (vif_at wl v) = WL12XX_INVALID_LINK_ID ->
  ap_bcast_hlid (vif_at wl v) = WL12XX_INVALID_LINK_ID ->
  let '(ret, wl') := wl12xx_cmd_role_start_ap v wl in
  work_keeps wl wl' /\
  ((ret < 0 /\ links_now v (links_map wl) (vif_at wl v) (link_queue wl) wl') \/
   (ret = 0 /\ exists g b, is_link g /\ is_link b /\ g <> b /\
      test_bit g (links_map wl) = false /\ test_bit b (links_map wl) = false /\
      links_now v (set_bit b (set_bit g (links_map wl)))
        (role_granted ApBcast b (role_granted ApGlobal g (vif_at wl v))) (link_queue wl) wl')).
Proof.
  intros W Hin Hg Hb. unfold wl12xx_cmd_role_start_ap. cbv zeta.
  pose proof (links_now_here v wl) as L0. split_if; [split; [by apply view_keeps | by left]|].
  pose proof (alloc_now v ApGlobal _ _ _ wl W Hin L0) as A.
  destruct (alloc_role_link v ApGlobal wl) as [r1 w1].
  destruct A as [K1 [[-> L1]|(-> & g & Gl & Gf & Gm & Gs & Gq & L1)]]; [by split; [|left]|].
  change (0 <? 0) with false. cbv iota.
  assert (v ∈ wlvif_list w1) as Hin1 by (by eapply vifs_listed).
  pose proof (alloc_now v ApBcast _ _ _ w1 (wk_inv _ _ K1) Hin1 L1) as A.
  destruct (alloc_role_link v ApBcast w1) as [r2 w2].
  destruct A as [K2 A]. pose proof (work_keeps_trans _ _ _ K1 K2) as K12.
  assert (v ∈ wlvif_list w2) as Hin2 by (by eapply vifs_listed).
  destruct A as [[-> L2]|(-> & b & Bl & Bf & Bm & Bs & Bq & L2)].
  { destruct (undo_now v ApGlobal g _ _ _ w2 (wk_inv _ _ K2) Hin2 Hg Gl Gf Gm Gs Gq L2) as [K3 L3].
    split; [by eapply work_keeps_trans | by left]. }
  change (0 <? 0) with false. cbv iota.
  destruct (if hidden_ssid _ then _ else _) as [ty ss].
  match goal with |- context [wl1271_cmd_send ?c w2] =>
    destruct (cmd_now c v _ _ _ w2 (wk_inv _ _ K2) L2) as [K3 L3];
    pose proof (cmd_send_ret c w2) as R; destruct (wl1271_cmd_send c w2) as [r3 w3] end.
  simpl in K3, L3, R. pose proof (work_keeps_trans _ _ _ K12 K3) as K13.
  assert (v ∈ wlvif_list w3) as Hin3 by (by eapply vifs_listed).
  split_if; bool_to_prop.
  - assert (link_field ApBcast (role_granted ApGlobal g (vif_at wl v)) = WL12XX_INVALID_LINK_ID) as Hb'
      by (by rewrite granted_field, decide_False).
    destruct (undo_now v ApBcast b _ _ _ w3 (wk_inv _ _ K3) Hin3 Hb' Bl Bf Bm Bs Bq L3) as [K4 L4].
    assert (v ∈ wlvif_list (free_role_link v ApBcast w3)) as Hin4 by (by eapply vifs_listed).
    destruct (undo_now v ApGlobal g _ _ _ _ (wk_inv _ _ K4) Hin4 Hg Gl Gf Gm Gs Gq L4) as [K5 L5].
    split; [by do 2 (eapply work_keeps_trans; [eassumption|]) | left; split; [lia | done]].
  - split; [done|]. right. split; [lia|]. exists g, b.
    rewrite test_set_bit in Bf by apply Gl. apply orb_false_iff in Bf as [Bn Bf]. bool_to_prop.
    split_and!; done.
Qed.

End RoleSteps.
