(* ===== verification/Init.v ===== *)
(** * The allocated device

    [wlcore_alloc_hw] (main.c): every field cleared, the queues empty, the
    system link taken and the dummy packet built.  The transmit invariant holds
    of it, whatever the state of the device, and stays when interfaces are
    registered and buffers are created. *)

From S2P Require Import Prelude Ieee80211 WlState ChipOps Io Queues LinkQueues.
From S2P Require Import PowerSave TxPath TxAllocFacts TxSched TxInv SchedFacts TxMoves.
From S2P Require Import TxPrep TxWork TxDone TxDoneFacts LinksFacts.

Definition part0 : wlcore_partition := Build_wlcore_partition 0 0.
Definition partition0 : wlcore_partition_set := Build_wlcore_partition_set part0 part0 part0 part0.

(** Before probe: no file loaded, every table empty. *)
Definition wl_boot0 : wl_boot := {|
  fw := [];
  nvs := None;
  nvs_len := 0;
  enable_11a := false;
  fw_ver_str := replicate 32 0;
  fw_ver := replicate 5 0;
  phy_fw_ver_str := replicate 32 0;
  min_fw_ver := replicate 5 0;
  hw_pg_ver := -1;
  event_mask := 0;
  fuse_oui_addr := 0;
  fuse_nic_addr := 0;
  num_mac_addr := 0;
  addresses := replicate 3 (replicate 6 0);
  static_data_priv_len := 0;
  ptable_down := partition0;
  ptable_drpw := partition0;
  ptable_top_prcm_elp_soc := partition0;
  ptable_phy_init := partition0;
  rtable_ecpu_control := 0;
  rtable_chip_id_b := 0;
  rtable_command_mailbox_ptr := 0;
  rtable_event_mailbox_ptr := 0;
  rtable_cmd_mbox_address := 0;
  rtable_interrupt_mask := 0;
  ref_clock := 0;
  tcxo_clock := 0;
  phy_params := [];
  mac80211_registered := false
|}.

(** [h] holds the parameters ([aggr_buf_size], [num_tx_desc]), the configuration
    that the lower driver and the boot fill in afterwards, and the three members
    of it that are assigned here ([hw_ok] says to what). *)
Definition wlcore_alloc_hw (h : wl_hw) : wl1271 := {|
  hw := h;
  state := WLCORE_STATE_OFF;
  plt := false;
  flags := 0;
  curr_part := partition0;
  links_map := set_bit WL12XX_SYSTEM_HLID 0;
  roles_map := 0;
  roc_map := 0;
  rate_policies_map := 0;
  klv_templates_map := 0;
  wlvif_list := [];
  tx_blocks_freed := 0;
  tx_blocks_available := 0;
  tx_allocated_blocks := 0;
  tx_results_count := 0;
  tx_pkts_freed := replicate (Z.to_nat NUM_TX_QUEUES) 0;
  tx_allocated_pkts := replicate (Z.to_nat NUM_TX_QUEUES) 0;
  tx_packets_count := 0;
  time_offset := 0;
  tx_queue_count := replicate (Z.to_nat NUM_TX_QUEUES) 0;
  queue_stop_reasons := replicate (Z.to_nat NUM_TX_QUEUES) 0;
  deferred_rx_queue := [];
  deferred_tx_queue := [];
  tx_frames_map := 0;
  tx_frames := replicate (Z.to_nat WLCORE_MAX_TX_DESCRIPTORS) None;
  tx_frames_cnt := 0;
  rx_counter := 0;
  aggr_buf := replicate (Z.to_nat (aggr_buf_size h)) 0;
  fwlog := [];
  watchdog_recovery := false;
  scan_idle := true;
  noise := 0;
  links := replicate (Z.to_nat WL12XX_MAX_LINKS) link0;
  ap_fw_ps_map := 0;
  ap_ps_map := 0;
  ba_rx_session_count := 0;
  active_sta_count := 0;
  last_wlvif := None;
  tx_watchdog_armed := false;
  elp_work_queued := false;
  sleep_auth := WL1271_PSM_ILLEGAL;
  retry_count := 0;
  excessive_retries := 0;
  aggr_pkts_reason := replicate (Z.to_nat (num_tx_desc h * 2)) aggr_reason0;
  rx_filter_enabled := replicate 5 false;
  sched_vif := None;
  last_fw_rls_idx := 0;
  extra_spare_vif_count := 0;
  ap_count := 0;
  sta_count := 0;
  scan_vif := None;
  scan_req := false;
  scanned_ch := 0;
  scan_failed := false;
  scan_ssid := [];
  roc_vif := None;
  recovery_count := 0;
  wl_band := IEEE80211_BAND_2GHZ;
  wl_channel := 0;
  wl_power_level := WL1271_DEFAULT_POWER_LEVEL;
  wl_channel_type := NL80211_CHAN_NO_HT;
  last_vif_count := 0;
  fw_type := WL12XX_FW_TYPE_NONE;
  have_fw_status := false;
  have_tx_res_if := false;
  have_mem_map := false;
  boot := wl_boot0;
  vifs := ∅;
  skbs := {[dummy_packet h := wl12xx_alloc_dummy_packet]};
  bus := [];
  clock := [];
  log := []
|}.

(** The configurations the drivers probe with: [wlcore_alloc_hw] sets the system
    link, the quirks and the number of aggregation counters. *)
Record hw_ok (h : wl_hw) : Prop := {
  ho_system : system_hlid h = WL12XX_SYSTEM_HLID;
  ho_quirks : quirks h = 0;
  ho_reasons : aggr_pkts_reason_num h = num_tx_desc h * 2;
  ho_tx : 0 <= num_tx_desc h <= WLCORE_MAX_TX_DESCRIPTORS;
  ho_rx : 0 < num_rx_desc h;
  ho_size : 2048 <= aggr_buf_size h <= 65536;
  ho_align : (WL12XX_BUS_BLOCK_SIZE | aggr_buf_size h)
}.

(** A running device, for the examples: [wl12xx_init_fw] sets this state once
    the boot has succeeded. *)
Definition powered_on (wl : wl1271) : wl1271 := wl <| state := WLCORE_STATE_ON |>.

Lemma alloc_link h i : link_at (wlcore_alloc_hw h) i = link0.
Proof.
  unfold link_at, zget. simpl links. split_if; [done|].
  change link0 with (id link0) at 2. generalize (Z.to_nat i). intros n.
  do 12 (destruct n as [|n]; [done|]). by destruct n.
Qed.

Lemma alloc_queue h i q : is_queue q -> link_queue (wlcore_alloc_hw h) i q = [].
Proof.
  intros Hq. unfold link_queue. rewrite alloc_link.
  apply is_queue_cases in Hq as [-> | [-> | [-> | ->]]]; done.
Qed.

Lemma alloc_copies h s : copies s (wlcore_alloc_hw h) = 0.
Proof. reflexivity. Qed.

Lemma alloc_frame h i : frame_at (wlcore_alloc_hw h) i = None.
Proof.
  unfold frame_at, zget. simpl tx_frames. split_if; [done|].
  generalize (Z.to_nat i). intros n. do 32 (destruct n as [|n]; [done|]). by destruct n.
Qed.

Lemma alloc_vifs h : hw_ok h -> vifs_ok (wlcore_alloc_hw h).
Proof.
  intros [Hs _ _ _ _ _ _].
  assert (forall v i, test_bit i (vif_links_map (vif_at (wlcore_alloc_hw h) v)) = false)
    as Hm by (intros v i; apply Z.bits_0).
  split; simpl hw; rewrite ?Hs; try done.
  - intros v Hv. by apply elem_of_nil in Hv.
  - apply NoDup_nil_2.
  - intros v i. by rewrite Hm.
  - intros v i _. by rewrite Hm.
  - split; intros v **; by destruct (elem_of_nil v).
Qed.

Lemma alloc_inv h : hw_ok h -> work_inv (wlcore_alloc_hw h).
Proof.
  intros H. pose proof H as [_ _ _ Ht Hr Hz Ha]. split; [split| | | | | | |]; try done.
  - split; try done.
    + repeat constructor.
    + intros q Hq. apply is_queue_cases in Hq as [-> | [-> | [-> | ->]]]; done.
    + intros i q s Hq. rewrite alloc_queue by done. by intros ?%elem_of_nil.
  - split; [done|]. intros q Hq. apply is_queue_cases in Hq as [-> | [-> | [-> | ->]]]; done.
  - split; try done.
    + intros i Hi. rewrite alloc_frame. unfold test_bit. simpl. by rewrite Z.bits_0.
    + intros i _. apply Z.bits_0.
    + symmetry. apply weight_0.
  - by apply alloc_vifs.
  - intros i q _ Hq _. by apply alloc_queue.
  - unfold frame_fits. simpl hw. rewrite bool_decide_eq_true_2 by done. unfold skb_at. simpl skbs.
    rewrite lookup_total_singleton_eq, lookup_singleton_eq. split_and!; try done.
    assert (skb_len wl12xx_alloc_dummy_packet + TX_DESC_SIZE + WL1271_EXTRA_SPACE_TKIP <= 2048)
      by (by vm_compute). lia.
  - intros i q s _ Hq. rewrite alloc_queue by done. by intros ?%elem_of_nil.
  - simpl. unfold zlen. rewrite length_replicate. lia.
  - simpl. lia.
  - intros id skb Hf. exfalso. revert Hf. by rewrite alloc_frame.
Qed.

(** The invariant does not depend on the state of the device. *)
Lemma work_inv_state s wl : work_inv wl -> work_inv (wl <| state := s |>).
Proof.
  intros [[I1 I2 I3 I4 I5 I6] H2 H3 H4 H6 H7 H8 H9]. split; [split|..]; try done.
  - by apply (counts_off_frame _ wl).
  - by apply (queues_ok_frame wl).
  - by apply (ids_ok_frame wl).
  - by apply (vifs_ok_frame wl); try apply (vo_last _ I4).
Qed.

(** ** Registering an interface, creating a buffer *)

(** [list_add(&wlvif->list, &wl->wlvif_list)] of a fresh interface. *)
Definition register (v : nat) (w : wl12xx_vif) (wl : wl1271) : wl1271 :=
  wl <| vifs ::= <[v := w]> |> <| wlvif_list ::= cons v |>.

Lemma vif_at_register v w wl x :
  vif_at (register v w wl) x = if decide (v = x) then w else vif_at wl x.
Proof.
  unfold vif_at, register. simpl. case_decide as E.
  - subst x. by rewrite lookup_total_insert_eq.
  - by rewrite lookup_total_insert_ne.
Qed.

Lemma register_vifs v w wl : vifs_ok wl -> v ∉ wlvif_list wl -> vif_own w = (0, 0, (true, bss_type w)) ->
  vifs_ok (register v w wl).
Proof.
  intros [V1 V2 V3 V4 V5 V6 V7 V8 V9 V10] Hn E.
  assert (vif_links_map w = 0) as E1 by exact (f_equal (fst ∘ fst) E).
  assert (ap_sta_hlid_map w = 0) as E2 by exact (f_equal (snd ∘ fst) E).
  clear E.
  assert (forall x i, test_bit i (vif_links_map (vif_at (register v w wl) x)) = true ->
            x <> v /\ test_bit i (vif_links_map (vif_at wl x)) = true) as Hm.
  { intros x i. rewrite vif_at_register. case_decide; [|done]. rewrite E1. unfold test_bit. by rewrite Z.bits_0. }
  assert (forall x, x ∈ wlvif_list (register v w wl) -> x <> v -> x ∈ wlvif_list wl) as Hl.
  { intros x Hx Hne. simpl in Hx. by apply elem_of_cons in Hx as [?|?]. }
  split; try done.
  - intros x Hx. simpl. apply elem_of_cons in Hx as [->|Hx]; [by rewrite lookup_insert_eq|].
    apply lookup_insert_is_Some'. right. by apply V2.
  - by apply NoDup_cons.
  - intros x Hx. simpl. apply elem_of_cons. right. by apply V4.
  - intros x i [_ Hb]%Hm. by eapply V5.
  - intros x i Lx [Nx Hb]%Hm. eapply V6; [|done]. by apply Hl.
  - destruct V8 as [D S A P]. split.
    + intros x y i Lx Ly [Nx Hx]%Hm [Ny Hy]%Hm. eapply D; [..|done|done]; by apply Hl.
    + intros x Lx. destruct (test_bit _ (vif_links_map (vif_at (register v w wl) x))) eqn:Eb; [|done].
      apply Hm in Eb as [Nx Eb]. simpl in Eb. rewrite S in Eb; [done | by apply Hl].
    + intros x i Lx. rewrite vif_at_register. case_decide as Ex.
      * rewrite E2. unfold test_bit. by rewrite Z.bits_0.
      * apply A, Hl; [done | by apply not_eq_sym].
    + intros x i Lx. rewrite vif_at_register. case_decide as Ex.
      * rewrite E2. unfold test_bit. by rewrite Z.bits_0.
      * apply P, Hl; [done | by apply not_eq_sym].
  - simpl. rewrite V9. unfold stations. simpl wlvif_list. csimpl.
    rewrite <- (Z.add_0_l (zsum _)) at 1. f_equal.
    + rewrite vif_at_register, decide_True by done. by rewrite E2, weight_0.
    + f_equal. apply list_fmap_ext. intros i x Hx. simpl.
      rewrite vif_at_register, decide_False; [done|]. intros <-. apply Hn. by eapply list_elem_of_lookup_2.
Qed.

Lemma register_inv v w wl : work_inv wl -> v ∉ wlvif_list wl -> vif_own w = (0, 0, (true, bss_type w)) ->
  work_inv (register v w wl).
Proof.
  intros [[I1 I2 I3 I4 I5 I6] H2 H3 H4 H6 H7 H8 H9] Hv E.
  split; [split|..]; try done.
  - by apply (counts_off_frame _ wl).
  - by apply (queues_ok_frame wl).
  - by apply (ids_ok_frame wl).
  - by apply register_vifs.
Qed.

Lemma queued_is_link wl h q s : zlen (links wl) = WL12XX_MAX_LINKS -> is_queue q ->
  s ∈ link_queue wl h q -> is_link h.
Proof.
  intros Hl Hq Hs. unfold link_queue, link_at, zget in Hs. unfold is_link, zlen in *.
  destruct (h <? 0) eqn:E; bool_to_prop.
  - exfalso. revert Hs. apply is_queue_cases in Hq as [-> | [-> | [-> | ->]]]; by intros ?%elem_of_nil.
  - split; [done|]. destruct (Z.lt_ge_cases h WL12XX_MAX_LINKS) as [|Hge]; [done|].
    exfalso. rewrite (nth_overflow (links wl)) in Hs by lia. revert Hs.
    apply is_queue_cases in Hq as [-> | [-> | [-> | ->]]]; by intros ?%elem_of_nil.
Qed.

(** A buffer that no queue holds yet. *)
Definition create_skb (s : nat) (b : sk_buff) (wl : wl1271) : wl1271 := wl <| skbs ::= <[s := b]> |>.

Lemma skb_at_create s b wl x : skb_at (create_skb s b wl) x = if decide (s = x) then b else skb_at wl x.
Proof.
  unfold skb_at, create_skb. simpl. case_decide as E.
  - subst x. by rewrite lookup_total_insert_eq.
  - by rewrite lookup_total_insert_ne.
Qed.

Lemma create_skb_inv s b wl : work_inv wl -> copies s wl = 0 -> s <> dummy_packet (hw wl) ->
  work_inv (create_skb s b wl).
Proof.
  intros W C0 Hnd. pose proof W as [[I1 I2 I3 I4 I5 I6] H2 H3 H4 H6 H7 H8 H9].
  assert (forall x, x <> s -> payload_at wl (create_skb s b wl) x) as Hp.
  { intros x Hx. split.
    - simpl. by rewrite lookup_insert_ne.
    - exists (skb_cb (skb_at wl x)). rewrite skb_at_create, decide_False by done.
      split; [by destruct (skb_at wl x) | done]. }
  assert (forall h q x, is_link h -> is_queue q -> x ∈ link_queue wl h q -> x <> s) as Hq.
  { intros h q x Hh Hq Hx ->. pose proof (queued_copies wl h q s I1 Hh Hq Hx). lia. }
  assert (forall id x, frame_at wl id = Some x -> x <> s) as Hf.
  { intros id x Hx ->. pose proof (in_firmware_copies wl id s Hx). lia. }
  assert (forall x, x <> s -> skb_at (create_skb s b wl) x = skb_at wl x) as Hs
    by (intros x Hx; by rewrite skb_at_create, decide_False).
  split; [split| | | | | | |]; try done.
  - destruct I1 as [L1 L2 L3 L4 L5]. split; try done.
    + intros q Hqq. rewrite L4 by done. unfold queued, dummy_load, ac_of.
      simpl hw. rewrite Hs by done. done.
    + intros h q x Hqq Hx. destruct (L5 h q x Hqq Hx) as [P1 P2]. split; [|done].
      unfold ac_of. rewrite Hs; [exact P1|].
      apply (Hq h q); [by eapply queued_is_link | done | exact Hx].
  - by apply (queues_ok_frame wl).
  - by apply (ids_ok_frame wl).
  - by apply (vifs_ok_frame wl); try apply (vo_last _ I4).
  - by apply (fits_frame wl); [|apply Hp|].
  - intros h q x Hh Hqq Hx. apply (fits_frame wl); [done | apply Hp; by eapply Hq | by eapply H4].
  - intros id x Hx Hxd. rewrite Hs by (by eapply Hf). by apply (H9 id).
Qed.
