(* ===== verification/BaFacts.v ===== *)
(** * Receiving block-ack sessions are counted and bounded *)

From S2P Require Import Prelude Ieee80211 WlState ChipOps Io Queues LinkQueues.
From S2P Require Import PowerSave TxPath TxSched TxInv SchedFacts TxMoves TxWork.
From S2P Require Import TxDone TxDoneFacts FwStatus Event EventFacts Links LinksFacts.

(** The sessions recorded in the bitmaps: one word per station interface and
    one per link. *)
Definition vif_sessions (w : wl12xx_vif) : Z :=
  if is_sta w then weight (sta_ba_rx_bitmap w) 8 else 0.

Definition ba_sessions (wl : wl1271) : Z :=
  zsum ((fun v => vif_sessions (vif_at wl v)) <$> wlvif_list wl)
  + zsum ((fun l => weight (ba_bitmap l) 8) <$> links wl).

Record ba_ok (wl : wl1271) : Prop := {
  bo_count : ba_rx_session_count wl = ba_sessions wl;
  bo_max : ba_rx_session_count wl <= RX_BA_MAX_SESSIONS;
  bo_vif v : 0 <= sta_ba_rx_bitmap (vif_at wl v) < 256;
  bo_link h : 0 <= ba_bitmap (link_at wl h) < 256
}.

Lemma ba_ok_frame wl wl' : vifs wl' = vifs wl -> wlvif_list wl' = wlvif_list wl ->
  links wl' = links wl -> ba_rx_session_count wl' = ba_rx_session_count wl ->
  ba_ok wl -> ba_ok wl'.
Proof.
  intros E1 E2 E3 E4 [C M V L]. split; unfold ba_sessions, vif_at, link_at in *; by rewrite ?E1, ?E2, ?E3, ?E4.
Qed.

Lemma elp_ba wl wl' : elp_frame wl wl' -> ba_ok wl -> ba_ok wl'.
Proof. intros (? & ? & ? & ? & ? & ->). by apply ba_ok_frame. Qed.

Lemma io_ba wl wl' : io_frame wl wl' -> ba_ok wl -> ba_ok wl'.
Proof. intros F. by apply elp_ba, io_elp_frame. Qed.

(** ** One bit of a [u8] *)

Lemma has_bit m i : 0 <= i -> has m (BIT i) = test_bit i m.
Proof.
  intros Hi. unfold has, BIT, test_bit. rewrite Z.shiftl_1_l.
  destruct (Z.testbit m i) eqn:E.
  - apply negb_true_iff, Z.eqb_neq. intros H0. apply (f_equal (fun x => Z.testbit x i)) in H0.
    rewrite Z.land_spec, E, Z.pow2_bits_true, Z.bits_0 in H0 by done. done.
  - apply negb_false_iff, Z.eqb_eq, Z.bits_inj'. intros j Hj.
    rewrite Z.land_spec, Z.bits_0. destruct (Z.eq_dec i j) as [<-|Hn]; [by rewrite E|].
    by rewrite Z.pow2_bits_false, andb_false_r by done.
Qed.

Lemma u8_bits m : 0 <= m < 256 <-> 0 <= m /\ forall j, 8 <= j -> test_bit j m = false.
Proof.
  unfold test_bit. split.
  - intros Hm. split; [lia|]. intros j Hj. apply (Z.bits_above_log2); [lia|].
    destruct (Z.eq_dec m 0) as [->|]; [simpl; lia|]. apply Z.log2_lt_pow2; [lia|].
    pose proof (Z.pow_le_mono_r 2 8 j ltac:(lia) Hj). lia.
  - intros [H0 Hb]. split; [done|]. destruct (Z.eq_dec m 0) as [->|]; [lia|].
    apply (Z.log2_lt_pow2 m 8); [lia|]. destruct (Z.lt_ge_cases (Z.log2 m) 8) as [|Hl]; [done|].
    specialize (Hb _ Hl). rewrite Z.bit_log2 in Hb by lia. done.
Qed.

Lemma u8_set m i : 0 <= m < 256 -> 0 <= i < 8 -> u8 (Z.lor m (BIT i)) = set_bit i m.
Proof.
  intros Hm Hi. unfold BIT, set_bit. rewrite Z.setbit_spec', Z.shiftl_1_l by lia. apply u8_id.
  apply u8_bits in Hm as [H0 Hb]. apply u8_bits. split; [apply Z.lor_nonneg; lia|].
  intros j Hj. unfold test_bit. rewrite Z.lor_spec, Z.pow2_bits_false by lia.
  unfold test_bit in Hb. by rewrite Hb.
Qed.

Lemma u8_clear m i : 0 <= m < 256 -> 0 <= i < 8 -> u8 (Z.ldiff m (BIT i)) = clear_bit i m.
Proof.
  intros Hm Hi. unfold BIT, clear_bit. rewrite Z.clearbit_spec', Z.shiftl_1_l by lia. apply u8_id.
  apply u8_bits in Hm as [H0 Hb]. apply u8_bits. split; [apply Z.ldiff_nonneg; lia|].
  intros j Hj. unfold test_bit in *. by rewrite Z.ldiff_spec, Hb.
Qed.

(** ** Changing one session *)

Lemma ba_sessions_vif v f wl : v ∈ wlvif_list wl -> vifs_ok wl ->
  ba_sessions (upd_vif v f wl) = ba_sessions wl - vif_sessions (vif_at wl v)
    + vif_sessions (f (vif_at wl v)).
Proof.
  intros Hin V. assert (is_Some (vifs wl !! v)) as Hv by (by apply V).
  unfold ba_sessions. change (links (upd_vif v f wl)) with (links wl).
  change (wlvif_list (upd_vif v f wl)) with (wlvif_list wl).
  rewrite (zsum_change (fun v => vif_sessions (vif_at wl v)) _ _ v); [| apply V | done |].
  - rewrite vif_at_upd, decide_True by done. lia.
  - intros x _ Hx. by rewrite vif_at_upd, decide_False by done.
Qed.

Lemma ba_sessions_link h f wl : is_link h -> zlen (links wl) = WL12XX_MAX_LINKS ->
  ba_sessions (upd_link h f wl) = ba_sessions wl - weight (ba_bitmap (link_at wl h)) 8
    + weight (ba_bitmap (f (link_at wl h))) 8.
Proof.
  intros Hh Hl. unfold ba_sessions.
  change (vif_at (upd_link h f wl)) with (vif_at wl). unfold upd_link. simpl.
  rewrite (zsum_zset _ link0) by (rewrite Hl; exact Hh). unfold link_at. cbv beta. lia.
Qed.

(** Storing [m] in the session word in use moves the number of sessions by the
    change of its weight. *)
Lemma set_ba_sessions v h m wl : v ∈ wlvif_list wl -> tx_inv wl -> is_link h ->
  ba_sessions (set_ba v h m wl) = ba_sessions wl - weight (get_ba v h wl) 8 + weight m 8.
Proof.
  intros Hin I Hh. unfold set_ba, get_ba. destruct (is_sta (vif_at wl v)) eqn:Es.
  - rewrite ba_sessions_vif by (done || apply I). unfold vif_sessions.
    change (is_sta ((vif_at wl v) <| sta_ba_rx_bitmap := m |>)) with (is_sta (vif_at wl v)).
    by rewrite Es.
  - by rewrite ba_sessions_link by (done || apply I).
Qed.

(** The bitmaps are bytes; unlike [ba_ok] this says nothing of the count. *)
Record ba_bytes (wl : wl1271) : Prop := {
  bb_vif v : 0 <= sta_ba_rx_bitmap (vif_at wl v) < 256;
  bb_link h : 0 <= ba_bitmap (link_at wl h) < 256
}.

(** The sessions that are counted and not recorded. *)
Definition leaked (wl : wl1271) : Z := ba_rx_session_count wl - ba_sessions wl.

Lemma ba_ok_bytes wl : ba_ok wl -> ba_bytes wl /\ leaked wl = 0.
Proof. intros [C _ V L]. split; [by split|]. unfold leaked. lia. Qed.

Lemma bytes_get_ba v h wl : ba_bytes wl -> 0 <= get_ba v h wl < 256.
Proof. intros [V L]. unfold get_ba. split_if; [apply V | apply L]. Qed.

Lemma ba_sessions_nonneg wl : 0 <= ba_sessions wl.
Proof.
  assert (forall m, 0 <= weight m 8) as Hw by (intros m; by apply (weight_bound m 8)).
  unfold ba_sessions. apply Z.add_nonneg_nonneg; apply zsum_nonneg; [|intros l; apply Hw].
  intros x. unfold vif_sessions. by split_if.
Qed.

Lemma bytes_frame wl wl' : vifs wl' = vifs wl -> wlvif_list wl' = wlvif_list wl ->
  links wl' = links wl -> ba_rx_session_count wl' = ba_rx_session_count wl ->
  leaked wl' = leaked wl /\ (ba_bytes wl -> ba_bytes wl').
Proof.
  intros E1 E2 E3 E4. split.
  - unfold leaked, ba_sessions, vif_at. by rewrite E1, E2, E3, E4.
  - intros [V L]. split; unfold vif_at, link_at in *; by rewrite ?E1, ?E3.
Qed.

(** A new bitmap and a new count. *)
Lemma bytes_store v h m n wl : v ∈ wlvif_list wl -> tx_inv wl -> is_link h -> ba_bytes wl -> 0 <= m < 256 ->
  let wl' := (set_ba v h m wl) <| ba_rx_session_count := n |> in
  ba_bytes wl' /\ wlvif_list wl' = wlvif_list wl /\
  leaked wl' = n - ba_sessions wl + weight (get_ba v h wl) 8 - weight m 8.
Proof.
  intros Hin I Hh [V L] Hm. cbv zeta. assert (is_Some (vifs wl !! v)) as Hv by (by apply (inv_vifs _ I)).
  split_and!; [split | by unfold set_ba; split_if |].
  - intros x. change (0 <= sta_ba_rx_bitmap (vif_at (set_ba v h m wl) x) < 256).
    unfold set_ba. split_if; [|apply V]. rewrite vif_at_upd by done. case_decide; [done | apply V].
  - intros x. change (0 <= ba_bitmap (link_at (set_ba v h m wl) x) < 256).
    unfold set_ba. split_if; [apply L|]. unfold link_at, upd_link. simpl.
    rewrite zget_zset by (rewrite (co_links _ _ (inv_counts _ I)); exact Hh). split_if; [done | apply L].
  - unfold leaked. simpl. change (ba_sessions ((set_ba v h m wl) <| ba_rx_session_count := n |>))
      with (ba_sessions (set_ba v h m wl)). rewrite set_ba_sessions by done. lia.
Qed.

Lemma get_ba_range v h wl : ba_ok wl -> 0 <= get_ba v h wl < 256.
Proof. intros B. apply bytes_get_ba, (ba_ok_bytes _ B). Qed.

Lemma ba_store v h m n wl : v ∈ wlvif_list wl -> tx_inv wl -> is_link h -> ba_ok wl ->
  0 <= m < 256 ->
  n = ba_rx_session_count wl - weight (get_ba v h wl) 8 + weight m 8 -> n <= RX_BA_MAX_SESSIONS ->
  ba_ok ((set_ba v h m wl) <| ba_rx_session_count := n |>).
Proof.
  intros Hin I Hh B Hm Hn Hmax. destruct (ba_ok_bytes _ B) as [By Lk].
  destruct (bytes_store v h m n wl Hin I Hh By Hm) as ([V L] & _ & S).
  split; [unfold leaked in *; lia | done | exact V | exact L].
Qed.

Lemma set_get_ba v h m n wl : v ∈ wlvif_list wl -> tx_inv wl -> is_link h ->
  get_ba v h ((set_ba v h m wl) <| ba_rx_session_count := n |>) = m.
Proof.
  intros Hin I Hh. assert (is_Some (vifs wl !! v)) as Hv by (by apply (inv_vifs _ I)).
  change (get_ba v h (set_ba v h m wl) = m). unfold set_ba. destruct (is_sta (vif_at wl v)) eqn:Es.
  - unfold get_ba. rewrite vif_at_upd, decide_True by done.
    change (is_sta (?w <| sta_ba_rx_bitmap := m |>)) with (is_sta w). by rewrite Es.
  - unfold get_ba. change (vif_at (upd_link h _ wl) v) with (vif_at wl v). rewrite Es.
    unfold link_at, upd_link. simpl.
    by rewrite zget_zset_eq by (rewrite (co_links _ _ (inv_counts _ I)); exact Hh).
Qed.

Lemma set_ba_recount v h m f wl :
  (set_ba v h m wl) <| ba_rx_session_count ::= f |>
  = (set_ba v h m wl) <| ba_rx_session_count := f (ba_rx_session_count wl) |>.
Proof. unfold set_ba. by destruct (is_sta (vif_at wl v)). Qed.

(** ** The operation *)

Lemma u8_high m i : 0 <= m < 256 -> 8 <= i -> u8 (Z.lor m (BIT i)) = m.
Proof.
  intros Hm Hi. apply Z.bits_inj'. intros j Hj. unfold u8, wrap, BIT. rewrite Z.shiftl_1_l.
  destruct (Z.lt_ge_cases j 8).
  - rewrite Z.mod_pow2_bits_low, Z.lor_spec, Z.pow2_bits_false by lia. apply orb_false_r.
  - rewrite Z.mod_pow2_bits_high by lia. symmetry. by apply (proj1 (u8_bits m) Hm).
Qed.

Lemma io_get_ba v h wl wl' : io_frame wl wl' -> get_ba v h wl' = get_ba v h wl.
Proof. intros [(? & ? & ? & ? & ->) _ _ _]. done. Qed.

Section Ba.
Context `{laws : wlcore_ops_laws}.

Lemma set_ba_session_frame tid ssn en h wl :
  let '(ret, wl') := wl12xx_acx_set_ba_receiver_session tid ssn en h wl in
  io_frame wl wl' /\ ret <= 0.
Proof.
  unfold wl12xx_acx_set_ba_receiver_session.
  pose proof (cmd_send_failsafe_io_frame (CMD_SET_BA_RX tid ssn en h) (BIT CMD_STATUS_NO_RX_BA_SESSION) wl) as F.
  destruct (wlcore_cmd_send_failsafe _ _ wl) as [ret w]. simpl in F. split_if; bool_to_prop; (split; [done | lia]).
Qed.

Lemma set_ba_keeps v h m n wl : work_inv wl ->
  work_keeps wl ((set_ba v h m wl) <| ba_rx_session_count := n |>).
Proof.
  intros W. assert (work_keeps wl (set_ba v h m wl)) as K.
  { unfold set_ba. split_if; [by apply upd_vif_keeps | by apply upd_link_keeps]. }
  eapply work_keeps_trans; [exact K|]. generalize (set_ba v h m wl) (wk_inv _ _ K). clear.
  intros w W. by apply view_keeps.
Qed.

Lemma rx_start_spec v h tid ssn wl :
  work_inv wl -> ba_ok wl -> v ∈ wlvif_list wl -> is_link h -> 0 <= tid < 8 ->
  let '(ret, wl') := ampdu_rx_start v h tid ssn wl in
  work_keeps wl wl' /\ ba_ok wl' /\
  (ret = 0 -> get_ba v h wl' = set_bit tid (get_ba v h wl) /\ test_bit tid (get_ba v h wl) = false /\
     ba_rx_session_count wl' = ba_rx_session_count wl + 1) /\
  (ret <> 0 -> get_ba v h wl' = get_ba v h wl /\ ba_rx_session_count wl' = ba_rx_session_count wl).
Proof.
  intros W B Hin Hh Ht. unfold ampdu_rx_start. cbv zeta.
  assert (work_keeps wl wl) as K0 by (by apply view_keeps).
  split_if; [done|]. split_if; [done|]. rewrite has_bit by lia. split_if; [done|]. bool_to_prop.
  pose proof (set_ba_session_frame tid ssn true h wl) as F.
  destruct (wl12xx_acx_set_ba_receiver_session _ _ _ _ wl) as [ret w]. destruct F as [F Hret].
  assert (wlvif_list w = wlvif_list wl /\ ba_rx_session_count w = ba_rx_session_count wl) as [Q1 Q2]
    by (destruct F as [(? & ? & ? & ? & ->) _ _ _]; done).
  pose proof (io_keeps _ _ W F) as K. pose proof (io_ba _ _ F B) as B'. pose proof (io_get_ba v h _ _ F) as G.
  destruct (ret =? 0) eqn:Er; bool_to_prop; [|done]. subst ret.
  pose proof (get_ba_range v h w B') as Rg. rewrite u8_set, set_ba_recount by done. rewrite G in *.
  split_and!; [eapply work_keeps_trans; [exact K | apply set_ba_keeps, K] | | | done].
  - apply ba_store; rewrite ?Q1; try done; [apply (wk_inv _ _ K) | | | rewrite Q2; lia].
    + rewrite <- u8_set by done. apply u8_range.
    + rewrite G, weight_set by (lia || done). lia.
  - intros _. split_and!; [|done | simpl; lia].
    apply set_get_ba; [by rewrite Q1 | apply (wk_inv _ _ K) | done].
Qed.

Lemma rx_stop_spec v h tid wl :
  work_inv wl -> ba_ok wl -> v ∈ wlvif_list wl -> is_link h -> 0 <= tid < 8 ->
  let '(ret, wl') := ampdu_rx_stop v h tid wl in
  work_keeps wl wl' /\ ba_ok wl' /\
  (ret = 0 -> get_ba v h wl' = clear_bit tid (get_ba v h wl) /\
     ba_rx_session_count wl' = ba_rx_session_count wl - Z.b2z (test_bit tid (get_ba v h wl))) /\
  (ret <> 0 -> get_ba v h wl' = get_ba v h wl /\ ba_rx_session_count wl' = ba_rx_session_count wl).
Proof.
  intros W B Hin Hh Ht. unfold ampdu_rx_stop. rewrite has_bit by lia.
  destruct (test_bit tid (get_ba v h wl)) eqn:Hb; cbn [negb].
  2: { split_and!; [by apply view_keeps | done | | done]. intros _. rewrite clear_unset_bit by done. simpl. lia. }
  pose proof (set_ba_session_frame tid 0 false h wl) as F.
  destruct (wl12xx_acx_set_ba_receiver_session _ _ _ _ wl) as [ret w]. destruct F as [F Hret].
  assert (wlvif_list w = wlvif_list wl /\ ba_rx_session_count w = ba_rx_session_count wl) as [Q1 Q2]
    by (destruct F as [(? & ? & ? & ? & ->) _ _ _]; done).
  pose proof (io_keeps _ _ W F) as K. pose proof (io_ba _ _ F B) as B'. pose proof (io_get_ba v h _ _ F) as G.
  destruct (ret =? 0) eqn:Er; bool_to_prop; [|done]. subst ret.
  pose proof (get_ba_range v h w B') as Rg. rewrite u8_clear, set_ba_recount by done. rewrite G in *.
  split_and!; [eapply work_keeps_trans; [exact K | apply set_ba_keeps, K] | | | done].
  - pose proof (bo_max _ B).
    apply ba_store; rewrite ?Q1; try done; [apply (wk_inv _ _ K) | | | rewrite Q2; lia].
    + rewrite <- u8_clear by done. apply u8_range.
    + rewrite G, weight_clear by (lia || done). lia.
  - intros _. split_and!; [|simpl; lia].
    apply set_get_ba; [by rewrite Q1 | apply (wk_inv _ _ K) | done].
Qed.

Lemma rx_start_keeps v h tid ssn wl : work_inv wl -> work_keeps wl (snd (ampdu_rx_start v h tid ssn wl)).
Proof.
  intros W. assert (work_keeps wl wl) as K0 by (by apply view_keeps).
  unfold ampdu_rx_start. cbv zeta. repeat (split_if; [exact K0|]).
  pose proof (set_ba_session_frame tid ssn true h wl) as F.
  destruct (wl12xx_acx_set_ba_receiver_session _ _ _ _ wl) as [r w]. destruct F as [F _].
  pose proof (io_keeps _ _ W F) as K. split_if; [|exact K]. simpl. rewrite set_ba_recount.
  eapply work_keeps_trans; [exact K | apply set_ba_keeps, K].
Qed.

Lemma rx_stop_keeps v h tid wl : work_inv wl -> work_keeps wl (snd (ampdu_rx_stop v h tid wl)).
Proof.
  intros W. assert (work_keeps wl wl) as K0 by (by apply view_keeps).
  unfold ampdu_rx_stop. split_if; [exact K0|].
  pose proof (set_ba_session_frame tid 0 false h wl) as F.
  destruct (wl12xx_acx_set_ba_receiver_session _ _ _ _ wl) as [r w]. destruct F as [F _].
  pose proof (io_keeps _ _ W F) as K. split_if; [|exact K]. simpl. rewrite set_ba_recount.
  eapply work_keeps_trans; [exact K | apply set_ba_keeps, K].
Qed.

(** A start that succeeds for a TID the bitmaps have no bit for leaks one session. *)
Lemma rx_start_leaks v h tid ssn wl :
  work_inv wl -> ba_bytes wl -> v ∈ wlvif_list wl -> is_link h -> 0 <= tid ->
  let '(ret, wl') := ampdu_rx_start v h tid ssn wl in
  ba_bytes wl' /\ wlvif_list wl' = wlvif_list wl /\
  leaked wl' = leaked wl + (if (ret =? 0) && (8 <=? tid) then 1 else 0) /\
  (ret = 0 -> 8 <= tid -> get_ba v h wl' = get_ba v h wl /\ ba_rx_session_count wl' = ba_rx_session_count wl + 1).
Proof.
  intros W B Hin Hh Ht. unfold ampdu_rx_start. cbv zeta.
  split_if; [simpl; split_and!; [done.. | lia | done]|]. split_if; [simpl; split_and!; [done.. | lia | done]|].
  rewrite has_bit by lia. split_if; [simpl; split_and!; [done.. | lia | done]|].
  pose proof (set_ba_session_frame tid ssn true h wl) as F.
  destruct (wl12xx_acx_set_ba_receiver_session _ _ _ _ wl) as [ret w]. destruct F as [F Hret].
  assert (vifs w = vifs wl /\ links w = links wl /\ wlvif_list w = wlvif_list wl /\
          ba_rx_session_count w = ba_rx_session_count wl) as (Q1 & Q2 & Q3 & Q4)
    by (destruct F as [(? & ? & ? & ? & ->) _ _ _]; done).
  destruct (bytes_frame wl w Q1 Q3 Q2 Q4) as [Lk By]. specialize (By B).
  pose proof (io_keeps _ _ W F) as K. pose proof (io_get_ba v h _ _ F) as G.
  destruct (Z.eqb_spec ret 0) as [->|Er].
  2: { rewrite (proj2 (Z.eqb_neq _ _) Er). split_and!; [done.. | by rewrite Lk, Z.add_0_r | done]. }
  change (0 =? 0) with true. cbn [andb]. pose proof (bytes_get_ba v h w By) as Rg. rewrite set_ba_recount.
  assert (v ∈ wlvif_list w) as Hw by (by rewrite Q3). pose proof (wi_inv _ (wk_inv _ _ K)) as I.
  destruct (bytes_store v h (u8 (Z.lor (get_ba v h w) (BIT tid))) (1 + ba_rx_session_count w) w Hw I Hh By (u8_range _))
    as (B' & L' & S'). rewrite L', S'. split; [exact B'|]. split; [done|].
  unfold leaked in Lk |- *. destruct (Z.leb_spec 8 tid).
  - rewrite u8_high in * by done. split; [lia|]. intros _ _. rewrite set_get_ba by done. split; [done | simpl; lia].
  - rewrite u8_set, weight_set by (done || lia || by rewrite G). split; [lia|]. lia.
Qed.

(** A stop moves the count and the bitmap together. *)
Lemma rx_stop_leaks v h tid wl :
  work_inv wl -> ba_bytes wl -> v ∈ wlvif_list wl -> is_link h -> 0 <= tid ->
  let '(ret, wl') := ampdu_rx_stop v h tid wl in
  ba_bytes wl' /\ wlvif_list wl' = wlvif_list wl /\ leaked wl' = leaked wl /\ (8 <= tid -> wl' = wl).
Proof.
  intros W B Hin Hh Ht. unfold ampdu_rx_stop. pose proof (bytes_get_ba v h wl B) as R. rewrite has_bit by lia.
  destruct (test_bit tid (get_ba v h wl)) eqn:Hb; cbn [negb]; [|done].
  assert (tid < 8) as Hl.
  { destruct (Z.lt_ge_cases tid 8) as [|Hge]; [done|]. by rewrite (proj2 (proj1 (u8_bits _) R) tid Hge) in Hb. }
  pose proof (set_ba_session_frame tid 0 false h wl) as F.
  destruct (wl12xx_acx_set_ba_receiver_session _ _ _ _ wl) as [ret w]. destruct F as [F Hret].
  assert (vifs w = vifs wl /\ links w = links wl /\ wlvif_list w = wlvif_list wl /\
          ba_rx_session_count w = ba_rx_session_count wl) as (Q1 & Q2 & Q3 & Q4)
    by (destruct F as [(? & ? & ? & ? & ->) _ _ _]; done).
  destruct (bytes_frame wl w Q1 Q3 Q2 Q4) as [Lk By]. specialize (By B).
  pose proof (io_keeps _ _ W F) as K. pose proof (io_get_ba v h _ _ F) as G.
  split_if; bool_to_prop; [|split_and!; [done.. | lia]].
  rewrite set_ba_recount. assert (v ∈ wlvif_list w) as Hw by (by rewrite Q3).
  destruct (bytes_store v h (u8 (Z.ldiff (get_ba v h w) (BIT tid))) (ba_rx_session_count w - 1) w Hw
    (wi_inv _ (wk_inv _ _ K)) Hh By (u8_range _)) as (B' & L' & S'). rewrite L', S'.
  split; [exact B'|]. split; [done|]. split; [|lia]. unfold leaked in Lk |- *.
  rewrite u8_clear, weight_clear by (done || lia || by rewrite G). lia.
Qed.

Lemma op_ampdu_keeps v a peer tid ssn c wl : work_inv wl ->
  work_keeps wl (snd (wl1271_op_ampdu_action v a peer tid ssn c wl)).
Proof.
  intros W. unfold wl1271_op_ampdu_action.
  assert (work_keeps wl wl) as K0 by (by apply view_keeps).
  split_if; [done|]. split_if; [done|]. split_if; [done|]. split_if; [done|]. cbv zeta.
  set (h := ba_hlid v peer wl). clearbody h. pose proof (elp_wakeup_keeps c wl W) as K1.
  destruct (wl1271_ps_elp_wakeup c wl) as [r w1]. simpl in K1. split_if; [done|].
  assert (work_keeps wl (snd match a with
    | IEEE80211_AMPDU_RX_START => ampdu_rx_start v h tid ssn w1
    | IEEE80211_AMPDU_RX_STOP => ampdu_rx_stop v h tid w1
    | _ => (- EINVAL, w1) end)) as K2.
  { destruct a; try exact K1; (eapply work_keeps_trans; [exact K1|]);
      [apply rx_start_keeps, K1 | apply rx_stop_keeps, K1]. }
  destruct (match a with IEEE80211_AMPDU_RX_START => _ | _ => _ end) as [r2 w2]. simpl in *.
  eapply work_keeps_trans; [exact K2 | apply elp_sleep_keeps, K2].
Qed.

Lemma op_ampdu_spec v a peer tid ssn c wl :
  work_inv wl -> ba_ok wl -> v ∈ wlvif_list wl -> is_link (ba_hlid v peer wl) -> 0 <= tid < 8 ->
  let '(ret, wl') := wl1271_op_ampdu_action v a peer tid ssn c wl in
  work_keeps wl wl' /\ ba_ok wl'.
Proof.
  intros W B Hin Hh Ht. unfold wl1271_op_ampdu_action.
  assert (work_keeps wl wl) as K0 by (by apply view_keeps).
  split_if; [done|]. split_if; [done|]. split_if; [done|]. split_if; [done|]. cbv zeta.
  pose proof (elp_wakeup_keeps c wl W) as K1. pose proof (elp_wakeup_frame c wl) as F1.
  pose proof (elp_ba _ _ F1 B) as B1.
  destruct (wl1271_ps_elp_wakeup c wl) as [r w1]. simpl in *. split_if; [done|].
  assert (v ∈ wlvif_list w1) as Hin1 by (by destruct F1 as (? & ? & ? & ? & ? & ->)).
  set (h := ba_hlid v peer wl) in *. clearbody h.
  assert (exists r2 w2, match a with
    | IEEE80211_AMPDU_RX_START => ampdu_rx_start v h tid ssn w1
    | IEEE80211_AMPDU_RX_STOP => ampdu_rx_stop v h tid w1
    | _ => (- EINVAL, w1) end = (r2, w2) /\ work_keeps w1 w2 /\ ba_ok w2) as (r2 & w2 & -> & K2 & B2).
  { destruct a; try (do 2 eexists; split; [reflexivity|]; split; [apply view_keeps; done || apply K1 | done]).
    - pose proof (rx_start_spec v h tid ssn w1 (wk_inv _ _ K1) B1 Hin1 Hh Ht) as S.
      destruct (ampdu_rx_start v h tid ssn w1) as [r2 w2]. exists r2, w2. split_and!; [done | apply S | apply S].
    - pose proof (rx_stop_spec v h tid w1 (wk_inv _ _ K1) B1 Hin1 Hh Ht) as S.
      destruct (ampdu_rx_stop v h tid w1) as [r2 w2]. exists r2, w2. split_and!; [done | apply S | apply S]. }
  split; [|by eapply elp_ba; [apply elp_sleep_frame|]].
  eapply work_keeps_trans; [exact K1|]. eapply work_keeps_trans; [exact K2|]. apply elp_sleep_keeps, K2.
Qed.

(** Requests of mac80211, one after the other. *)
Inductive ampdu_requests : wl1271 -> wl1271 -> Prop :=
| ampdu_none wl : ampdu_requests wl wl
| ampdu_one v a peer tid ssn c wl wl' :
    v ∈ wlvif_list wl -> is_link (ba_hlid v peer wl) -> 0 <= tid ->
    ampdu_requests (snd (wl1271_op_ampdu_action v a peer tid ssn c wl)) wl' ->
    ampdu_requests wl wl'.

Lemma op_ampdu_leaks v a peer tid ssn c wl :
  work_inv wl -> ba_bytes wl -> v ∈ wlvif_list wl -> is_link (ba_hlid v peer wl) -> 0 <= tid ->
  let wl' := snd (wl1271_op_ampdu_action v a peer tid ssn c wl) in
  ba_bytes wl' /\ leaked wl <= leaked wl'.
Proof.
  intros W B Hin Hh Ht. unfold wl1271_op_ampdu_action. cbv zeta.
  do 4 (split_if; [done|]). pose proof (elp_wakeup_keeps c wl W) as K1. pose proof (elp_wakeup_frame c wl) as F1.
  destruct (wl1271_ps_elp_wakeup c wl) as [r w1]. simpl in *.
  assert (forall a b, elp_frame a b -> wlvif_list b = wlvif_list a /\ leaked b = leaked a /\ (ba_bytes a -> ba_bytes b)) as El.
  { intros x y (? & ? & ? & ? & ? & ->). split; [done | by apply bytes_frame]. }
  destruct (El _ _ F1) as (Ew & L1 & B1). specialize (B1 B). split_if; [split; [done | simpl; lia]|].
  set (h := ba_hlid v peer wl) in *. clearbody h. rewrite <- Ew in Hin.
  assert (exists r2 w2, match a with
    | IEEE80211_AMPDU_RX_START => ampdu_rx_start v h tid ssn w1
    | IEEE80211_AMPDU_RX_STOP => ampdu_rx_stop v h tid w1
    | _ => (- EINVAL, w1) end = (r2, w2) /\ ba_bytes w2 /\ leaked w1 <= leaked w2) as (r2 & w2 & -> & B2 & L2).
  { destruct a; try (by do 2 eexists; split_and!; [reflexivity | | lia]).
    - pose proof (rx_start_leaks v h tid ssn w1 (wk_inv _ _ K1) B1 Hin Hh Ht) as S.
      destruct (ampdu_rx_start v h tid ssn w1) as [r2 w2]. exists r2, w2. destruct S as (? & _ & -> & _).
      split_and!; [done.. | split_if; lia].
    - pose proof (rx_stop_leaks v h tid w1 (wk_inv _ _ K1) B1 Hin Hh Ht) as S.
      destruct (ampdu_rx_stop v h tid w1) as [r2 w2]. exists r2, w2. destruct S as (? & _ & -> & _). done. }
  destruct (El _ _ (elp_sleep_frame w2)) as (_ & L3 & B3). split; [by apply B3 | simpl; lia].
Qed.

(** What has leaked stays leaked. *)
Lemma ampdu_requests_leak wl wl' : ampdu_requests wl wl' -> work_inv wl -> ba_bytes wl ->
  ba_bytes wl' /\ leaked wl <= leaked wl'.
Proof.
  induction 1 as [wl|v a peer tid ssn c wl wl' Hin Hh Ht _ IH]; intros W B; [done|].
  destruct (op_ampdu_leaks v a peer tid ssn c wl W B Hin Hh Ht) as [B1 L1].
  destruct (IH (wk_inv _ _ (op_ampdu_keeps v a peer tid ssn c wl W)) B1). split; [done | lia].
Qed.

(** Once three have leaked no session can be started. *)
Lemma leaked_blocks v h tid ssn wl : RX_BA_MAX_SESSIONS <= leaked wl -> fst (ampdu_rx_start v h tid ssn wl) < 0.
Proof.
  intros Hl. unfold ampdu_rx_start. split_if; [simpl; unfold ENOTSUPP; lia|].
  pose proof (ba_sessions_nonneg wl). unfold leaked in Hl.
  rewrite (proj2 (Z.leb_le _ _)) by lia. simpl. unfold EBUSY. lia.
Qed.

End Ba.
