(* ===== verification/Iface.v ===== *)
(** * Interfaces, stopping the device and recovery (wlcore/main.c)

    An interface is removed with everything it holds -- roles, rate policies,
    recorded keys, stations --, the device is stopped when the last one is
    gone, and the recovery work does both after the firmware failed.

    The functions drop [wl->mutex] while they wait for timers and work items
    to end; what those still do then is a step of its own of the driver and
    not part of these definitions.  Memory allocations are taken to succeed. *)

From S2P Require Import Prelude Ieee80211 WlState ChipOps Io Queues LinkQueues.
From S2P Require Import PowerSave TxPath TxAllocFacts TxSched TxInv SchedFacts TxMoves.
From S2P Require Import TxPrep TxWork TxDone TxDoneFacts FwStatus Rx Event Links Roles.

Definition WLCORE_FW_LOG_END := 0x2000000.
Definition WL12XX_HW_BLOCK_SIZE := 256.
Definition WL1271_TX_SQN_POST_RECOVERY_PADDING := 0xff.
Definition WL1271_DEFAULT_BEACON_INT := 100.
Definition CONF_TX_MAX_AC_COUNT := 4.
Definition CONF_HW_BIT_RATE_9MBPS := BIT 4.
Definition MAX_NUM_KEYS := 14.

(** [enum wl1271_cmd_ps_mode] *)
Inductive wl1271_cmd_ps_mode :=
| STATION_AUTO_PS_MODE
| STATION_ACTIVE_MODE
| STATION_POWER_SAVE_MODE.

Definition ps_mode_num (m : wl1271_cmd_ps_mode) : Z :=
  match m with
  | STATION_AUTO_PS_MODE => 0
  | STATION_ACTIVE_MODE => 1
  | STATION_POWER_SAVE_MODE => 2
  end.

(** [enum nl80211_iftype], as [ieee80211_vif_type_p2p] gives it. *)
Inductive nl80211_iftype :=
| NL80211_IFTYPE_P2P_CLIENT
| NL80211_IFTYPE_STATION
| NL80211_IFTYPE_ADHOC
| NL80211_IFTYPE_P2P_GO
| NL80211_IFTYPE_AP
| NL80211_IFTYPE_OTHER.

Section Iface.
Context `{ops : wlcore_ops}.

(** ** Power save of a station (ps.c, acx.c, cmd.c) *)

Definition wl1271_acx_wake_up_conditions (v : nat) (event interval : Z) (wl : wl1271)
    : Z * wl1271 :=
  wl1271_cmd_send (CMD_WAKE_UP_CONDITIONS (role_id (vif_at wl v)) event interval) wl.

Definition wl1271_cmd_ps_mode_set (v : nat) (ps_mode auto_ps_timeout : Z) (wl : wl1271)
    : Z * wl1271 :=
  wl1271_cmd_send (CMD_SET_PS_MODE (role_id (vif_at wl v)) ps_mode auto_ps_timeout) wl.

Definition wl1271_acx_bet_enable (v : nat) (enable : bool) (wl : wl1271) : Z * wl1271 :=
  if enable && negb (bet_enable (hw wl)) then (0, wl)
  else wl1271_cmd_send (CMD_BET_ENABLE (role_id (vif_at wl v)) enable (bet_max_consecutive (hw wl))) wl.

(** Beacon early termination is for 2.4 GHz and low rates only. *)
Definition bet_relevant (w : wl12xx_vif) : bool :=
  match vif_band w with IEEE80211_BAND_2GHZ => basic_rate w <? CONF_HW_BIT_RATE_9MBPS | _ => false end.

(** The two arms of [wl1271_ps_set_mode]. *)
Definition ps_enter (v : nat) (mode : wl1271_cmd_ps_mode) (wl : wl1271) : Z * wl1271 :=
  let timeout := dynamic_ps_timeout (hw wl) in
  let '(ret, wl) :=
    wl1271_acx_wake_up_conditions v (wake_up_event (hw wl)) (listen_interval (hw wl)) wl in
  if ret <? 0 then (ret, wl)
  else
    let '(ret, wl) := wl1271_cmd_ps_mode_set v (ps_mode_num mode) timeout wl in
    if ret <? 0 then (ret, wl)
    else
      let wl := upd_vif v (fun w => w <| vif_flags ::= set_bit WLVIF_FLAG_IN_PS |>) wl in
      if bet_relevant (vif_at wl v) then wl1271_acx_bet_enable v true wl else (ret, wl).

Definition ps_leave (v : nat) (mode : wl1271_cmd_ps_mode) (wl : wl1271) : Z * wl1271 :=
  let '(ret, wl) :=
    if bet_relevant (vif_at wl v) then wl1271_acx_bet_enable v false wl else (0, wl) in
  if ret <? 0 then (ret, wl)
  else
    let '(ret, wl) := wl1271_cmd_ps_mode_set v (ps_mode_num mode) 0 wl in
    if ret <? 0 then (ret, wl)
    else (ret, upd_vif v (fun w => w <| vif_flags ::= clear_bit WLVIF_FLAG_IN_PS |>) wl).

Definition wl1271_ps_set_mode (v : nat) (mode : wl1271_cmd_ps_mode) (wl : wl1271) : Z * wl1271 :=
  match mode with
  | STATION_AUTO_PS_MODE | STATION_POWER_SAVE_MODE => ps_enter v mode wl
  | STATION_ACTIVE_MODE => ps_leave v mode wl
  end.

Definition wl12xx_force_active_psm (wl : wl1271) : wl1271 :=
  for_each_wlvif is_sta (fun v wl => snd (wl1271_ps_set_mode v STATION_POWER_SAVE_MODE wl)) wl.

Definition wl1271_acx_sleep_auth (auth : Z) (wl : wl1271) : Z * wl1271 :=
  let '(ret, wl) := wl1271_cmd_send (CMD_SLEEP_AUTH auth) wl in
  if ret <? 0 then (ret, wl) else (ret, wl <| sleep_auth := auth |>).

(** ** The data of an interface *)

Definition wl12xx_get_role_type (w : wl12xx_vif) : Z :=
  match bss_type w with
  | BSS_TYPE_AP_BSS => if p2p w then WL1271_ROLE_P2P_GO else WL1271_ROLE_AP
  | BSS_TYPE_STA_BSS => if p2p w then WL1271_ROLE_P2P_CL else WL1271_ROLE_STA
  | BSS_TYPE_IBSS => WL1271_ROLE_IBSS
  | MAX_BSS_TYPE => WL12XX_INVALID_ROLE_TYPE
  end.

(** A rate policy taken for, and given back by, a field of an interface. *)
Definition alloc_policy (v : nat) (get : wl12xx_vif -> Z) (put : Z -> wl12xx_vif -> wl12xx_vif)
    (wl : wl1271) : wl1271 :=
  let '(_, idx, wl) := wl12xx_allocate_rate_policy (get (vif_at wl v)) wl in
  upd_vif v (put idx) wl.

Definition free_policy (v : nat) (get : wl12xx_vif -> Z) (put : Z -> wl12xx_vif -> wl12xx_vif)
    (wl : wl1271) : wl1271 :=
  let '(idx, wl) := wl12xx_free_rate_policy (get (vif_at wl v)) wl in
  upd_vif v (put idx) wl.

Definition put_basic (i : Z) (w : wl12xx_vif) := w <| sta_basic_rate_idx := i |>.
Definition put_ap (i : Z) (w : wl12xx_vif) := w <| sta_ap_rate_idx := i |>.
Definition put_p2p (i : Z) (w : wl12xx_vif) := w <| sta_p2p_rate_idx := i |>.
Definition put_mgmt (i : Z) (w : wl12xx_vif) := w <| ap_mgmt_rate_idx := i |>.
Definition put_bcast (i : Z) (w : wl12xx_vif) := w <| ap_bcast_rate_idx := i |>.
Definition get_ucast (ac : Z) (w : wl12xx_vif) : Z := zget 0 (ap_ucast_rate_idx w) ac.
Definition put_ucast (ac i : Z) (w : wl12xx_vif) := w <| ap_ucast_rate_idx ::= fun l => zset l ac i |>.

(** [memset(wlvif, 0, offsetof(struct wl12xx_vif, persistent))]: the security
    sequence and what belongs to mac80211's [struct ieee80211_vif] stay. *)
Definition clear_vif (w : wl12xx_vif) : wl12xx_vif :=
  Build_wl12xx_vif 0 BSS_TYPE_IBSS 0 0 0 0 0 0 0 0 0 0 0 0 0 [0;0;0;0]
    0 0 IEEE80211_BAND_2GHZ 0 0 0 0 0 false false
    (dummy_p2p w) (tx_security_seq w) (tx_security_last_seq_lsb w) (vif_bssid w) false
    false 0 0 (replicate (Z.to_nat MAX_NUM_KEYS) None) [] 0 0 [0;0] 0 0 None 0 0
    (vif_addr w) (hidden_ssid w) (bss_conf_ssid w) (dtim_period w) false 0 [0;0;0;0].

Definition set_rates (r : Z) (w : wl12xx_vif) : wl12xx_vif :=
  w <| basic_rate_set := r |> <| basic_rate := r |> <| rate_set := r |>.

(** The two arms of [wl12xx_init_vif_data]. *)
Definition init_sta_data (v : nat) (wl : wl1271) : wl1271 :=
  let wl := upd_vif v (fun w => w <| sta_hlid := WL12XX_INVALID_LINK_ID |>) wl in
  let wl := alloc_policy v sta_basic_rate_idx put_basic wl in
  let wl := alloc_policy v sta_ap_rate_idx put_ap wl in
  let wl := alloc_policy v sta_p2p_rate_idx put_p2p wl in
  let '(_, idx, wl) := wlcore_allocate_klv_template (sta_klv_template_id (vif_at wl v)) wl in
  let wl := upd_vif v (fun w => w <| sta_klv_template_id := idx |>) wl in
  upd_vif v (set_rates CONF_TX_RATE_MASK_BASIC) wl.

Definition init_ap_data (v : nat) (wl : wl1271) : wl1271 :=
  let wl := upd_vif v (fun w => w <| ap_bcast_hlid := WL12XX_INVALID_LINK_ID |>
                                  <| ap_global_hlid := WL12XX_INVALID_LINK_ID |>) wl in
  let wl := alloc_policy v ap_mgmt_rate_idx put_mgmt wl in
  let wl := alloc_policy v ap_bcast_rate_idx put_bcast wl in
  let wl := for_range CONF_TX_MAX_AC_COUNT (fun i => alloc_policy v (get_ucast i) (put_ucast i)) wl in
  upd_vif v (set_rates CONF_TX_AP_ENABLED_RATES) wl.

Definition wl12xx_init_vif_data (v : nat) (type : nl80211_iftype) (wl : wl1271) : Z * wl1271 :=
  let wl := upd_vif v clear_vif wl in
  let kind :=
    match type with
    | NL80211_IFTYPE_P2P_CLIENT => Some (true, BSS_TYPE_STA_BSS)
    | NL80211_IFTYPE_STATION => Some (false, BSS_TYPE_STA_BSS)
    | NL80211_IFTYPE_ADHOC => Some (false, BSS_TYPE_IBSS)
    | NL80211_IFTYPE_P2P_GO => Some (true, BSS_TYPE_AP_BSS)
    | NL80211_IFTYPE_AP => Some (false, BSS_TYPE_AP_BSS)
    | NL80211_IFTYPE_OTHER => None
    end in
  match kind with
  | None => (- EOPNOTSUPP, upd_vif v (fun w => w <| bss_type := MAX_BSS_TYPE |>) wl)
  | Some (is_p2p, type) =>
      let wl := upd_vif v (fun w => w <| p2p := is_p2p |> <| bss_type := type |>
                  <| role_id := WL12XX_INVALID_ROLE_ID |>
                  <| dev_role_id := WL12XX_INVALID_ROLE_ID |>
                  <| dev_hlid := WL12XX_INVALID_LINK_ID |>) wl in
      let wl := if is_sta_ibss (vif_at wl v) then init_sta_data v wl else init_ap_data v wl in
      (0, upd_vif v (fun w => w <| bitrate_masks := [conf_basic_rate (hw wl); conf_basic_rate_5 (hw wl)] |>
            <| beacon_int := WL1271_DEFAULT_BEACON_INT |>
            <| vif_band := wl_band wl |> <| vif_channel := wl_channel wl |>
            <| vif_power_level := wl_power_level wl |>
            <| vif_channel_type := wl_channel_type wl |>) wl)
  end.

(** ** Removing an interface *)

Definition wl1271_free_ap_keys (v : nat) (wl : wl1271) : wl1271 :=
  upd_vif v (fun w => w <| ap_recorded_keys :=
    fold_left (fun l i => zset l i None) (zseq MAX_NUM_KEYS) (ap_recorded_keys w) |>) wl.

(** No scan is running any more. *)
Definition idle_scan (wl : wl1271) : wl1271 :=
  (wl12xx_rearm_tx_watchdog_locked wl) <| scan_idle := true |> <| scanned_ch := 0 |>
    <| scan_req := false |> <| scan_vif := None |>.

(** What mac80211 had going on the interface is called off. *)
Definition drop_pending (v : nat) (wl : wl1271) : wl1271 :=
  let wl :=
    if negb (scan_idle wl) && bool_decide (scan_vif wl = Some v) then
      emit (EvScanCompleted true) (idle_scan wl)
    else wl in
  let wl :=
    if bool_decide (sched_vif wl = Some v)
    then (emit EvSchedScanStopped wl) <| sched_vif := None |> else wl in
  if bool_decide (roc_vif wl = Some v) then emit EvRocExpired (wl <| roc_vif := None |>) else wl.

(** "disable active roles"; [completed] answers the wait for the wake-up. *)
Definition disable_roles (fuel : nat) (completed : Z) (v : nat) (wl : wl1271) : outcome wl1271 :=
  let '(ret, wl) := wl1271_ps_elp_wakeup completed wl in
  if ret <? 0 then Ret wl
  else
    let* wl :=
      if is_sta_ibss (vif_at wl v) && wl12xx_dev_role_started (vif_at wl v)
      then let* (_, wl) := wl12xx_stop_dev fuel v wl in Ret wl
      else Ret wl in
    let '(ret, wl) :=
      if negb (dummy_p2p (vif_at wl v)) then
        let '(ret, id, wl) := wl12xx_cmd_role_disable (role_id (vif_at wl v)) wl in
        (ret, upd_vif v (fun w => w <| role_id := id |>) wl)
      else disable_dev_role v wl in
    Ret (if ret <? 0 then wl else wl1271_ps_elp_sleep wl).

(** [deinit]: the identifiers of the interface. *)
Definition deinit_ids (v : nat) (wl : wl1271) : wl1271 :=
  let wl := upd_vif v (fun w => w <| dev_hlid := WL12XX_INVALID_LINK_ID |>) wl in
  if is_sta_ibss (vif_at wl v) then
    let wl := upd_vif v (fun w => w <| sta_hlid := WL12XX_INVALID_LINK_ID |>) wl in
    let wl := free_policy v sta_basic_rate_idx put_basic wl in
    let wl := free_policy v sta_ap_rate_idx put_ap wl in
    let wl := free_policy v sta_p2p_rate_idx put_p2p wl in
    let '(idx, wl) := wlcore_free_klv_template (sta_klv_template_id (vif_at wl v)) wl in
    upd_vif v (fun w => w <| sta_klv_template_id := idx |>) wl
  else
    let wl := upd_vif v (fun w => w <| ap_bcast_hlid := WL12XX_INVALID_LINK_ID |>
                                    <| ap_global_hlid := WL12XX_INVALID_LINK_ID |>) wl in
    let wl := free_policy v ap_mgmt_rate_idx put_mgmt wl in
    let wl := free_policy v ap_bcast_rate_idx put_bcast wl in
    let wl := for_range CONF_TX_MAX_AC_COUNT (fun i => free_policy v (get_ucast i) (put_ucast i)) wl in
    wl1271_free_ap_keys v wl.

(** [deinit]: the interface leaves the list.  In C the station and access-point
    data share their place, and clearing [sta_hlid_map] of a station also clears
    station fields behind it; [wl12xx_init_vif_data] sets them before their next
    use. *)
Definition deinit_list (v : nat) (wl : wl1271) : wl1271 :=
  let wl := upd_vif v (fun w => w <| probereq := None |>) wl in
  let wl := wl12xx_tx_reset_wlvif v wl in
  let wl := if bool_decide (last_wlvif wl = Some v) then wl <| last_wlvif := None |> else wl in
  let wl := wl <| wlvif_list ::= filter (fun x => x <> v) |> in
  upd_vif v (fun w => w <| ap_sta_hlid_map := 0 |> <| role_id := WL12XX_INVALID_ROLE_ID |>
                        <| dev_role_id := WL12XX_INVALID_ROLE_ID |>) wl.

(** "Last AP, have more stations": the sleep mode of the stations is back. *)
Definition restore_sleep_auth (was_ap : bool) (wl : wl1271) : wl1271 :=
  if flag wl WL1271_FLAG_RECOVERY_IN_PROGRESS && negb (flag wl WL1271_FLAG_INTENDED_FW_RECOVERY)
  then wl
  else if (ap_count wl =? 0) && was_ap && negb (sta_count wl =? 0) then
    let sta_auth := sta_sleep_auth (hw wl) in
    snd (wl1271_acx_sleep_auth
           (if negb (sta_auth =? WL1271_PSM_ILLEGAL) then sta_auth else WL1271_PSM_ELP) wl)
  else wl.

(** After the interface has left the list. *)
Definition removed_vif (was_ap : bool) (v : nat) (wl : wl1271) : wl1271 :=
  let wl := if was_ap then wl <| ap_count ::= Z.pred |> else wl <| sta_count ::= Z.pred |> in
  let wl := restore_sleep_auth was_ap wl in
  emit (EvDelRxStreamingTimer v) wl.

(** The third parameter of the C function, [reset_tx_queues], is not read by it. *)
Definition __wl1271_op_remove_interface (fuel : nat) (completed : Z) (v : nat) (wl : wl1271)
    : outcome wl1271 :=
  let was_ap := is_ap (vif_at wl v) in
  if negb (vif_flag (vif_at wl v) WLVIF_FLAG_INITIALIZED) then Ret wl
  else
    let wl := upd_vif v (fun w => w <| vif_flags ::= clear_bit WLVIF_FLAG_INITIALIZED |>) wl in
    if bool_decide (state wl = WLCORE_STATE_OFF) then Ret wl
    else
      let wl := drop_pending v wl in
      let* wl := if flag wl WL1271_FLAG_RECOVERY_IN_PROGRESS then Ret wl
                 else disable_roles fuel completed v wl in
      Ret (removed_vif was_ap v (deinit_list v (deinit_ids v wl))).

(** [struct vif_counter_data]: mac80211's running interfaces. *)
Record vif_counter_data := { counter : Z; cur_vif_running : bool }.

Definition wl12xx_need_fw_change (c : vif_counter_data) (add : bool) (wl : wl1271) : bool * wl1271 :=
  if flag wl WL1271_FLAG_VIF_CHANGE_IN_PROGRESS then (false, wl)
  else
    let vif_count := u8 (u8 (counter c) + (if add && negb (cur_vif_running c) then 1 else 0)) in
    let wl := wl <| last_vif_count := vif_count |> in
    if bool_decide (state wl = WLCORE_STATE_OFF) then (false, wl)
    else if negb (mr_fw (hw wl)) then (false, wl)
    else
      ((1 <? vif_count) && bool_decide (fw_type wl = WL12XX_FW_TYPE_NORMAL)
       || (vif_count <=? 1) && bool_decide (fw_type wl = WL12XX_FW_TYPE_MULTI), wl).

Definition wl1271_op_remove_interface (fuel : nat) (completed : Z) (c : vif_counter_data) (v : nat)
    (wl : wl1271) : outcome wl1271 :=
  if bool_decide (state wl = WLCORE_STATE_OFF)
     || negb (vif_flag (vif_at wl v) WLVIF_FLAG_INITIALIZED) then Ret wl
  else
    let* wl := if bool_decide (v ∈ wlvif_list wl)
               then __wl1271_op_remove_interface fuel completed v wl else Ret wl in
    let '(change, wl) := wl12xx_need_fw_change c false wl in
    Ret (if change then
           wl12xx_queue_recovery_work
             (set_flag WL1271_FLAG_INTENDED_FW_RECOVERY (wl12xx_force_active_psm wl))
         else wl).

(** ** Stopping the device *)

Definition wl1271_power_off (wl : wl1271) : wl1271 :=
  if negb (flag wl WL1271_FLAG_GPIO_POWER) then wl
  else
    let '(ret, _, wl) := bus_next (emit (EvPower false) wl) in
    if ret =? 0 then clear_flag WL1271_FLAG_GPIO_POWER wl else wl.

Definition wl1271_debugfs_reset (wl : wl1271) : wl1271 :=
  if negb (have_fw_stats (hw wl)) then wl
  else wl <| retry_count := 0 |> <| excessive_retries := 0 |>.

(** [if (test_and_clear_bit(RECOVERY_IN_PROGRESS)) wlcore_enable_interrupts()] *)
Definition balance_irq (wl : wl1271) : wl1271 :=
  if flag wl WL1271_FLAG_RECOVERY_IN_PROGRESS
  then emit EvEnableIrq (clear_flag WL1271_FLAG_RECOVERY_IN_PROGRESS wl) else wl.

(** The fields set back, once the power is down: first the books, ... *)
Definition reset_books (wl : wl1271) : wl1271 :=
  wl <| wl_band := IEEE80211_BAND_2GHZ |> <| rx_counter := 0 |>
     <| wl_power_level := WL1271_DEFAULT_POWER_LEVEL |>
     <| wl_channel_type := NL80211_CHAN_NO_HT |> <| tx_blocks_available := 0 |>
     <| tx_allocated_blocks := 0 |> <| tx_results_count := 0 |>
     <| tx_packets_count := 0 |> <| time_offset := 0 |> <| ap_fw_ps_map := 0 |>
     <| ap_ps_map := 0 |> <| sleep_auth := WL1271_PSM_ILLEGAL |> <| roles_map := 0 |>
     <| links_map := set_bit WL12XX_SYSTEM_HLID 0 |> <| roc_map := 0 |> <| active_sta_count := 0 |>
     <| flags := 0 |> <| tx_blocks_freed := 0 |>.

(** ... then the packet counters, the statistics and the buffers. *)
Definition zero_pkts (i : Z) (wl : wl1271) : wl1271 :=
  wl <| tx_pkts_freed ::= fun l => zset l i 0 |> <| tx_allocated_pkts ::= fun l => zset l i 0 |>.

Definition free_buffers (wl : wl1271) : wl1271 :=
  wl <| have_fw_status := false |> <| have_tx_res_if := false |> <| have_mem_map := false |>.

Definition reset_fields (wl : wl1271) : wl1271 :=
  free_buffers (wl1271_debugfs_reset (for_range NUM_TX_QUEUES zero_pkts (reset_books wl))).

Definition wlcore_op_stop_locked (wl : wl1271) : wl1271 :=
  if bool_decide (state wl = WLCORE_STATE_OFF) then balance_irq wl
  else
    let wl := emit EvDisableIrq (wl <| state := WLCORE_STATE_OFF |>) in
    let wl := wl1271_flush_deferred_work wl in
    let wl := wl <| elp_work_queued := false |> <| tx_watchdog_armed := false |> in
    let wl := wl12xx_tx_reset wl in
    reset_fields (balance_irq (wl1271_power_off wl)).

(** ** Recovery *)

Definition wlcore_read_hwaddr (hwaddr len : Z) (wl : wl1271) : Z * list Z * wl1271 :=
  wlcore_raw_read (wlcore_translate_addr wl (u32 (Z.shiftl hwaddr 5))) len wl.

Definition wl12xx_cmd_stop_fwlog (wl : wl1271) : Z * wl1271 := wl1271_cmd_send CMD_STOP_FWLOGGER wl.

(** Walk the linked list of memory blocks.  Each block read adds to the log
    page or ends the walk, so [PAGE_SIZE] turns and one are enough. *)
Fixpoint fwlog_walk (fuel : nat) (offset end_of_log addr : Z) (wl : wl1271) : outcome wl1271 :=
  match fuel with
  | O => OutOfFuel
  | S fuel =>
      let '(ret, block, wl) := wlcore_read_hwaddr addr WL12XX_HW_BLOCK_SIZE wl in
      if ret <? 0 then Ret wl
      else
        let addr := le32_at block 0 in
        let* (n, wl) := wl12xx_copy_fwlog (drop (Z.to_nat offset) block)
                          (WL12XX_HW_BLOCK_SIZE - offset) wl in
        if n =? 0 then Ret (emit EvWakeFwlog wl)
        else if (addr =? 0) || (addr =? end_of_log) then Ret (emit EvWakeFwlog wl)
        else fwlog_walk fuel offset end_of_log addr wl
  end.

Definition wl12xx_read_fwlog_panic (completed : Z) (wl : wl1271) : outcome wl1271 :=
  if has_quirk wl WLCORE_QUIRK_FWLOG_NOT_IMPLEMENTED || (fwlog_mem_blocks (hw wl) =? 0)
  then Ret wl
  else
    let '(ret, wl) := wl1271_ps_elp_wakeup completed wl in
    if negb (ret =? 0) then Ret wl
    else
      let wl := if negb (watchdog_recovery wl) && negb (fwlog_dbg_pins (hw wl))
                then snd (wl12xx_cmd_stop_fwlog wl) else wl in
      let '(ret, status, wl) := wlcore_fw_status wl in
      if ret <? 0 then Ret wl
      else
        let addr := log_start_addr status in
        if addr =? 0 then Ret wl
        else if fwlog_continuous (hw wl)
        then fwlog_walk (S (Z.to_nat PAGE_SIZE)) (4 + RX_DESC_SIZE) WLCORE_FW_LOG_END addr wl
        else fwlog_walk (S (Z.to_nat PAGE_SIZE)) 4 addr addr wl.

Definition wlcore_print_recovery (wl : wl1271) : wl1271 :=
  let '(ret, wl) := wlcore_set_partition (ptable_boot (hw wl)) wl in
  if ret <? 0 then wl
  else
    let '(ret, _, wl) := wlcore_read32 (rtable_pc_on_recovery (hw wl)) wl in
    if ret <? 0 then wl
    else
      let '(ret, _, wl) := wlcore_read32 (rtable_interrupt_no_clear (hw wl)) wl in
      if ret <? 0 then wl
      else
        let wl := wl <| recovery_count ::= Z.succ |> in
        snd (wlcore_set_partition (ptable_work (hw wl)) wl).

(** [while (!list_empty(&wl->wlvif_list)) __wl1271_op_remove_interface(first)] *)
Fixpoint remove_interfaces (turns fuel : nat) (completed : Z) (wl : wl1271) : outcome wl1271 :=
  match wlvif_list wl with
  | [] => Ret wl
  | v :: _ =>
      match turns with
      | O => OutOfFuel
      | S turns =>
          let* wl := __wl1271_op_remove_interface fuel completed v wl in
          remove_interfaces turns fuel completed wl
      end
  end.

(** The sequence numbers of the connected interfaces skip what the firmware
    may have used up meanwhile. *)
Definition advance_seq (wl : wl1271) : wl1271 :=
  for_each_wlvif
    (fun w => vif_flag w WLVIF_FLAG_STA_ASSOCIATED || vif_flag w WLVIF_FLAG_AP_STARTED)
    (fun v => upd_vif v (fun w => w <| tx_security_seq ::= fun s =>
       u64 (s + WL1271_TX_SQN_POST_RECOVERY_PADDING) |>)) wl.

Definition recovery_done (wl : wl1271) : wl1271 :=
  clear_flag WL1271_FLAG_RECOVERY_IN_PROGRESS (wl <| watchdog_recovery := false |>).

(** "reboot the chipset" *)
Definition reboot (turns fuel : nat) (completed : Z) (wl : wl1271) : outcome wl1271 :=
  let wl := wlcore_stop_queues WLCORE_QUEUE_STOP_REASON_FW_RESTART (advance_seq wl) in
  let* wl := remove_interfaces turns fuel completed wl in
  let wl := emit EvRestartHw (wlcore_op_stop_locked wl) in
  Ret (wlcore_wake_queues WLCORE_QUEUE_STOP_REASON_FW_RESTART wl).

Definition wl1271_recovery_work (turns fuel : nat) (completed : Z) (wl : wl1271) : outcome wl1271 :=
  if bool_decide (state wl = WLCORE_STATE_OFF) || plt wl then Ret (recovery_done wl)
  else
    let* wl :=
      if flag wl WL1271_FLAG_INTENDED_FW_RECOVERY then Ret wl
      else
        let* wl := wl12xx_read_fwlog_panic completed wl in
        Ret (wlcore_print_recovery wl) in
    if bug_on_recovery (hw wl) && negb (flag wl WL1271_FLAG_INTENDED_FW_RECOVERY) then Oops
    else if no_recovery (hw wl) then Ret (recovery_done wl)
    else
      let* wl := reboot turns fuel completed wl in
      Ret (recovery_done wl).

End Iface.
