(* ===== verification/IfaceFacts.v ===== *)
(** * Removing interfaces, stopping and recovering

    Every step of a removal keeps the transmit invariant and gives back what
    the interface held; stopping the device leaves it as it was allocated. *)

From S2P Require Import Prelude Ieee80211 WlState ChipOps Io Queues LinkQueues.
From S2P Require Import PowerSave TxPath TxAllocFacts TxSched TxInv SchedFacts TxMoves.
From S2P Require Import TxPrep TxWork TxDone TxDoneFacts FwStatus Rx RxFacts Event EventFacts.
From S2P Require Import Links Roles LinksFacts RolesFacts Iface.

(** ** Steps outside the view of the transmit path *)

Lemma work_keeps_refl wl : work_inv wl -> work_keeps wl wl.
Proof. intros W. by apply view_keeps. Qed.

Ltac keeps_via K := eapply work_keeps_trans; [exact K|].

Lemma free_policy_keeps v get put wl :
  (forall i w, vif_own (put i w) = vif_own w) -> work_inv wl ->
  work_keeps wl (free_policy v get put wl).
Proof.
  intros Hp W. unfold free_policy, wl12xx_free_rate_policy. split_if.
  - by apply upd_vif_keeps.
  - set (w := wl <| rate_policies_map ::= _ |>). assert (work_keeps wl w) as K by (by apply view_keeps).
    keeps_via K. apply upd_vif_keeps; [done | apply K].
Qed.

(** A running scan ends with a report. *)
Lemma scan_ended_keeps b wl : work_inv wl -> scan_idle wl = false ->
  work_keeps wl (emit (EvScanCompleted b) (idle_scan wl)).
Proof.
  intros W Hs. pose proof (rearm_watchdog_keeps wl W) as K.
  assert (scan_idle (wl12xx_rearm_tx_watchdog_locked wl) = false) as Hi
    by (unfold wl12xx_rearm_tx_watchdog_locked; by split_if).
  keeps_via K. unfold idle_scan. set (w := wl12xx_rearm_tx_watchdog_locked wl) in *. clearbody w.
  apply view_keeps; try done; [apply K|]. split; try done.
  unfold scans. rewrite Hi. change (1 + completed_scans (log w) + 0 = completed_scans (log w) + 1). lia.
Qed.

Lemma drop_pending_keeps v wl : work_inv wl -> work_keeps wl (drop_pending v wl).
Proof.
  intros W. unfold drop_pending. cbv zeta.
  set (w1 := if negb (scan_idle wl) && _ then _ else wl).
  assert (work_keeps wl w1) as K1.
  { unfold w1. split_if; [|by apply work_keeps_refl].
    apply scan_ended_keeps; [done | by destruct (scan_idle wl)]. }
  clearbody w1. keeps_via K1. pose proof (wk_inv _ _ K1) as W1.
  set (w2 := if bool_decide (sched_vif w1 = Some v) then _ else w1).
  assert (work_keeps w1 w2) as K2 by (unfold w2; split_if; by apply view_keeps).
  clearbody w2. keeps_via K2. pose proof (wk_inv _ _ K2) as W2.
  split_if; by apply view_keeps.
Qed.

(** ** An interface leaves the list *)

Lemma weight_none m n : (forall i, test_bit i m = false) -> weight m n = 0.
Proof.
  intros Hb. assert (m = 0) as -> by (apply Z.bits_inj_0; exact Hb). apply weight_0.
Qed.

Lemma zsum_filter (f : nat -> Z) v l : f v = 0 ->
  zsum (f <$> filter (fun x => x <> v) l) = zsum (f <$> l).
Proof.
  intros Hv. induction l as [|x l IH]; [done|]. rewrite filter_cons. case_decide as Hx.
  - csimpl. unfold zsum in *. simpl in *. lia.
  - assert (x = v) as -> by (destruct (decide (x = v)); [done | contradiction]).
    csimpl. unfold zsum in *. simpl in *. lia.
Qed.

(** [f] touches no link map of the interface and clears its station map. *)
Definition unlisted (v : nat) (f : wl12xx_vif -> wl12xx_vif) (wl : wl1271) : wl1271 :=
  upd_vif v f ((if bool_decide (last_wlvif wl = Some v) then wl <| last_wlvif := None |> else wl)
                 <| wlvif_list ::= filter (fun x => x <> v) |>).

Lemma unlisted_last v f wl :
  last_wlvif (unlisted v f wl) = if bool_decide (last_wlvif wl = Some v) then None else last_wlvif wl.
Proof. unfold unlisted. by destruct (bool_decide _). Qed.

Lemma unlisted_eq v f wl : unlisted v f wl =
  wl <| vifs := vifs (unlisted v f wl) |> <| wlvif_list := filter (fun x => x <> v) (wlvif_list wl) |>
     <| last_wlvif := last_wlvif (unlisted v f wl) |>.
Proof. unfold unlisted. destruct (bool_decide _); by destruct wl. Qed.

Lemma unlisted_vif v f wl x : x <> v -> vif_at (unlisted v f wl) x = vif_at wl x.
Proof.
  intros Hx. unfold vif_at, unlisted, upd_vif. simpl. rewrite !lookup_total_alt, lookup_alter_ne by done.
  by destruct (bool_decide _).
Qed.

Lemma unlisted_links v f wl : is_Some (vifs wl !! v) ->
  (forall w, vif_links_map (f w) = vif_links_map w) ->
  forall x, vif_links_map (vif_at (unlisted v f wl) x) = vif_links_map (vif_at wl x).
Proof.
  intros Hv Hf x. destruct (decide (x = v)) as [->|Hx]; [|by rewrite unlisted_vif].
  unfold unlisted. rewrite vif_at_upd, decide_True by (done || by destruct (bool_decide _)).
  rewrite Hf. by destruct (bool_decide _).
Qed.

Lemma unlisted_vifs v f wl : vifs_ok wl -> v ∈ wlvif_list wl ->
  (forall w, vif_links_map (f w) = vif_links_map w) ->
  (forall h, test_bit h (ap_sta_hlid_map (vif_at wl v)) = false) ->
  vifs_ok (unlisted v f wl).
Proof.
  intros V Hin Hf Hs. pose proof (vo_alloc _ V v Hin) as Hv.
  pose proof (unlisted_links v f wl Hv Hf) as El.
  assert (forall x, x ∈ wlvif_list (unlisted v f wl) -> x <> v /\ x ∈ wlvif_list wl) as Hl.
  { intros x Hx. rewrite unlisted_eq in Hx. by apply list_elem_of_filter in Hx. }
  assert (forall x, x ∈ wlvif_list (unlisted v f wl) ->
    vif_at (unlisted v f wl) x = vif_at wl x) as Eq by (intros x [Hx _]%Hl; by apply unlisted_vif).
  assert (hw (unlisted v f wl) = hw wl /\ links_map (unlisted v f wl) = links_map wl /\
    active_sta_count (unlisted v f wl) = active_sta_count wl) as (E1 & E2 & E3)
    by (unfold unlisted; by destruct (bool_decide _)).
  destruct (vo_own _ V) as [D S A P].
  split; rewrite ?E1, ?E2, ?E3; try apply V.
  - intros x [Hx Hx']%Hl. unfold unlisted. simpl.
    apply lookup_alter_is_Some. destruct (bool_decide _); by apply (vo_alloc _ V).
  - rewrite unlisted_eq. simpl. apply NoDup_filter, V.
  - intros x. rewrite unlisted_last. case_bool_decide as Eb; [done|]. intros Ex. rewrite unlisted_eq. simpl.
    apply list_elem_of_filter. split; [congruence | by apply (vo_last _ V)].
  - intros x h. rewrite El. apply V.
  - intros x h [_ Hx]%Hl. rewrite El. by apply V.
  - split; rewrite ?E1.
    + intros x y h [_ Hx]%Hl [_ Hy]%Hl. rewrite !El. by apply D.
    + intros x [_ Hx]%Hl. rewrite El. by apply S.
    + intros x h Hx. rewrite (Eq x Hx). apply A, Hl, Hx.
    + intros x h Hx. rewrite (Eq x Hx). apply P, Hl, Hx.
  - rewrite (vo_count _ V). unfold stations.
    rewrite <- (zsum_filter _ v) by (by apply weight_none).
    replace (wlvif_list (unlisted v f wl)) with (filter (fun x => x <> v) (wlvif_list wl))
      by (by rewrite unlisted_eq).
    f_equal. apply list_fmap_ext. intros i x Hx%list_elem_of_lookup_2. simpl.
    apply list_elem_of_filter in Hx as [Hx _]. by rewrite unlisted_vif.
Qed.

Lemma unlisted_inv v f wl : work_inv wl -> v ∈ wlvif_list wl ->
  (forall w, vif_links_map (f w) = vif_links_map w) ->
  (forall h, test_bit h (ap_sta_hlid_map (vif_at wl v)) = false) ->
  work_inv (unlisted v f wl).
Proof.
  intros W Hin Hf Hs. pose proof (unlisted_vifs v f wl (inv_vifs _ (wi_inv _ W)) Hin Hf Hs) as V.
  revert V. rewrite unlisted_eq. intros V. destruct W as [[I1 I2 I3 I4 I5 I6] H2 H3 H4 H6 H7 H8 H9].
  split; [split|..]; try done.
  - by apply (counts_off_frame _ wl).
  - by apply (queues_ok_frame wl).
  - by apply (ids_ok_frame wl).
Qed.

Section IfaceFacts.
Context `{laws : wlcore_ops_laws}.

Lemma bet_enable_keeps v e wl : work_inv wl -> work_keeps wl (snd (wl1271_acx_bet_enable v e wl)).
Proof.
  intros W. unfold wl1271_acx_bet_enable. split_if; [by apply work_keeps_refl | by apply cmd_keeps].
Qed.

Lemma ps_mode_set_keeps v m t wl : work_inv wl -> work_keeps wl (snd (wl1271_cmd_ps_mode_set v m t wl)).
Proof. apply cmd_keeps. Qed.

Lemma ps_enter_keeps v mode wl : work_inv wl -> work_keeps wl (snd (ps_enter v mode wl)).
Proof.
  intros W. unfold ps_enter, wl1271_acx_wake_up_conditions. cbv zeta.
  match goal with |- context [wl1271_cmd_send ?c wl] => pose proof (cmd_keeps c wl W) as K1;
    destruct (wl1271_cmd_send c wl) as [r1 w1] end. simpl in K1. split_if; [exact K1|]. keeps_via K1.
  pose proof (ps_mode_set_keeps v (ps_mode_num mode) (dynamic_ps_timeout (hw wl)) w1 (wk_inv _ _ K1)) as K2.
  destruct (wl1271_cmd_ps_mode_set v _ _ w1) as [r2 w2]. simpl in K2. split_if; [exact K2|]. keeps_via K2.
  set (w3 := upd_vif v _ w2). assert (work_keeps w2 w3) as K3 by (apply vif_flags_keeps; [other_flag | apply K2]).
  clearbody w3. split_if; [|exact K3]. keeps_via K3. apply bet_enable_keeps, K3.
Qed.

Lemma ps_leave_keeps v mode wl : work_inv wl -> work_keeps wl (snd (ps_leave v mode wl)).
Proof.
  intros W. unfold ps_leave. set (r := if bet_relevant (vif_at wl v) then _ else _).
  assert (work_keeps wl (snd r)) as K1
    by (unfold r; split_if; [by apply bet_enable_keeps | by apply work_keeps_refl]).
  destruct r as [r1 w1]. simpl in K1. split_if; [exact K1|]. keeps_via K1.
  pose proof (ps_mode_set_keeps v (ps_mode_num mode) 0 w1 (wk_inv _ _ K1)) as K2.
  destruct (wl1271_cmd_ps_mode_set v _ 0 w1) as [r2 w2]. simpl in K2. split_if; [exact K2|].
  keeps_via K2. apply vif_flags_keeps; [other_flag | apply K2].
Qed.

Lemma ps_set_mode_keeps v mode wl : work_inv wl -> work_keeps wl (snd (wl1271_ps_set_mode v mode wl)).
Proof. destruct mode; [apply ps_enter_keeps | apply ps_leave_keeps | apply ps_enter_keeps]. Qed.

Lemma force_active_psm_keeps wl : work_inv wl -> work_keeps wl (wl12xx_force_active_psm wl).
Proof. apply each_keeps. intros. by apply ps_set_mode_keeps. Qed.

Lemma sleep_auth_keeps a wl : work_inv wl -> work_keeps wl (snd (wl1271_acx_sleep_auth a wl)).
Proof.
  intros W. unfold wl1271_acx_sleep_auth. pose proof (cmd_keeps (CMD_SLEEP_AUTH a) wl W) as K.
  destruct (wl1271_cmd_send _ wl) as [r w]. simpl in K. split_if; [exact K|].
  keeps_via K. apply view_keeps; [apply K | by split | done | done].
Qed.

Lemma restore_sleep_auth_keeps b wl : work_inv wl -> work_keeps wl (restore_sleep_auth b wl).
Proof.
  intros W. unfold restore_sleep_auth. cbv zeta. split_if; [by apply work_keeps_refl|].
  split_if; [by apply sleep_auth_keeps | by apply work_keeps_refl].
Qed.

Lemma restore_sleep_auth_vifs b wl : vifs (restore_sleep_auth b wl) = vifs wl.
Proof.
  unfold restore_sleep_auth, wl1271_acx_sleep_auth. cbv zeta. split_if; [done|]. split_if; [|done].
  match goal with |- context [wl1271_cmd_send ?c wl] => pose proof (cmd_send_io_frame c wl) as F;
    destruct (wl1271_cmd_send c wl) as [r w] end. simpl in F.
  split_if; simpl; apply (proj1 (io_links _ _ F)).
Qed.

Lemma role_disable_keeps id wl : work_inv wl ->
  let '(_, _, wl') := wl12xx_cmd_role_disable id wl in work_keeps wl wl'.
Proof.
  intros W. unfold wl12xx_cmd_role_disable. split_if; [by apply work_keeps_refl|].
  pose proof (cmd_keeps (CMD_ROLE_DISABLE id) wl W) as K.
  destruct (wl1271_cmd_send _ wl) as [r w]. simpl in K. split_if; [exact K|].
  keeps_via K. apply view_keeps; [apply K | by split | done | done].
Qed.

Lemma disable_dev_keeps v wl : work_inv wl -> work_keeps wl (snd (disable_dev_role v wl)).
Proof.
  intros W. unfold disable_dev_role. pose proof (role_disable_keeps (dev_role_id (vif_at wl v)) wl W) as K.
  destruct (wl12xx_cmd_role_disable _ wl) as [[r id] w]. simpl. keeps_via K. apply upd_vif_keeps; [done | apply K].
Qed.

Lemma croc_keeps id wl : work_inv wl -> work_keeps wl (snd (wl12xx_croc id wl)).
Proof.
  intros W. unfold wl12xx_croc. split_if; [by apply work_keeps_refl|].
  pose proof (cmd_keeps (CMD_CANCEL_REMAIN_ON_CHANNEL id) wl W) as K.
  destruct (wl1271_cmd_send _ wl) as [r w]. simpl in K. split_if; [exact K|]. cbv zeta.
  set (w1 := w <| roc_map ::= _ |>).
  assert (work_keeps w w1) as K1 by (apply view_keeps; [apply K | by split | done | done]).
  clearbody w1. keeps_via K. keeps_via K1. simpl.
  split_if; [apply rearm_watchdog_keeps, K1 | apply work_keeps_refl, K1].
Qed.

(** A device role is left alone while the device restarts: no command is sent. *)
Lemma stop_dev_restarting fuel v wl : state wl = WLCORE_STATE_RESTARTING ->
  is_sta_ibss (vif_at wl v) = true -> wl12xx_dev_role_started (vif_at wl v) = true ->
  wl12xx_stop_dev fuel v wl = Ret (- EIO, wl).
Proof.
  intros Hs Ht Hd. unfold wl12xx_stop_dev, wlcore_tx_work_locked. rewrite Ht, Hs. cbn [negb].
  rewrite bool_decide_eq_false_2 by done. cbn [obind negb]. change (0 <? 0) with false. cbv iota.
  destruct (test_bit (dev_role_id (vif_at wl v)) (roc_map wl)) eqn:Hr.
  - unfold wl12xx_croc. by rewrite Hr, cmd_send_restarting.
  - change (0 <? 0) with false. cbv iota. unfold wl12xx_cmd_role_stop_dev.
    unfold wl12xx_dev_role_started in Hd. apply negb_true_iff in Hd. by rewrite Hd, cmd_send_restarting.
Qed.

(** When removing an interface needs no device role to be stopped. *)
Definition no_dev_stop (v : nat) (wl : wl1271) : Prop :=
  state wl = WLCORE_STATE_RESTARTING \/ dev_hlid (vif_at wl v) = WL12XX_INVALID_LINK_ID.

Lemma disable_roles_keeps fuel c v wl : work_inv wl -> no_dev_stop v wl ->
  exists wl', disable_roles fuel c v wl = Ret wl' /\ work_keeps wl wl'.
Proof.
  intros W Hn. unfold disable_roles. pose proof (elp_wakeup_keeps c wl W) as K1.
  pose proof (elp_wakeup_frame c wl) as (f & s & e & b & l & E).
  destruct (wl1271_ps_elp_wakeup c wl) as [r1 w1]. simpl in *. split_if; [by exists w1|].
  assert (no_dev_stop v w1) as Hn1.
  { destruct Hn as [Hn|Hn]; [left | right; by rewrite E].
    pose proof (wk_state _ _ K1) as S. rewrite Hn in S. by destruct S as [->|[? _]]. }
  set (o := if is_sta_ibss _ && _ then _ else _).
  assert (o = Ret w1) as ->.
  { unfold o. split_if; [|done]. apply andb_true_iff in E1 as [Et Ed]. destruct Hn1 as [Hs|Hd].
    - by rewrite stop_dev_restarting.
    - unfold wl12xx_dev_role_started in Ed. by rewrite Hd in Ed. }
  cbn [obind]. set (r := if negb (dummy_p2p _) then _ else _).
  assert (work_keeps w1 (snd r)) as K2.
  { unfold r. split_if; [|apply disable_dev_keeps, K1].
    pose proof (role_disable_keeps (role_id (vif_at w1 v)) w1 (wk_inv _ _ K1)) as K.
    destruct (wl12xx_cmd_role_disable _ w1) as [[r2 id] w2]. simpl. keeps_via K.
    apply upd_vif_keeps; [done | apply K]. }
  destruct r as [r2 w2]. simpl in K2. eexists. split; [done|]. keeps_via K1. keeps_via K2.
  split_if; [apply work_keeps_refl, K2 | apply elp_sleep_keeps, K2].
Qed.

Lemma deinit_ids_keeps v wl : work_inv wl -> work_keeps wl (deinit_ids v wl).
Proof.
  intros W. unfold deinit_ids. cbv zeta.
  set (w1 := upd_vif v _ wl). assert (work_keeps wl w1) as K1 by (by apply upd_vif_keeps).
  clearbody w1. keeps_via K1. pose proof (wk_inv _ _ K1) as W1. clear K1 W wl. split_if.
  - set (w2 := upd_vif v _ w1). assert (work_keeps w1 w2) as K2 by (by apply upd_vif_keeps).
    clearbody w2. keeps_via K2.
    pose proof (free_policy_keeps v sta_basic_rate_idx put_basic w2 ltac:(done) (wk_inv _ _ K2)) as K3. keeps_via K3.
    pose proof (free_policy_keeps v sta_ap_rate_idx put_ap _ ltac:(done) (wk_inv _ _ K3)) as K4. keeps_via K4.
    pose proof (free_policy_keeps v sta_p2p_rate_idx put_p2p _ ltac:(done) (wk_inv _ _ K4)) as K5. keeps_via K5.
    set (w5 := free_policy v sta_p2p_rate_idx _ _) in *. pose proof (wk_inv _ _ K5) as W5. clearbody w5.
    unfold wlcore_free_klv_template. split_if; [by apply upd_vif_keeps|].
    set (w6 := w5 <| klv_templates_map ::= _ |>). assert (work_keeps w5 w6) as K6 by (by apply view_keeps).
    keeps_via K6. apply upd_vif_keeps; [done | apply K6].
  - set (w2 := upd_vif v _ w1). assert (work_keeps w1 w2) as K2 by (by apply upd_vif_keeps).
    clearbody w2. keeps_via K2.
    pose proof (free_policy_keeps v ap_mgmt_rate_idx put_mgmt w2 ltac:(done) (wk_inv _ _ K2)) as K3. keeps_via K3.
    pose proof (free_policy_keeps v ap_bcast_rate_idx put_bcast _ ltac:(done) (wk_inv _ _ K3)) as K4. keeps_via K4.
    set (w4 := free_policy v ap_bcast_rate_idx _ _) in *. pose proof (wk_inv _ _ K4) as W4. clearbody w4.
    assert (work_keeps w4 (for_range CONF_TX_MAX_AC_COUNT
      (fun i => free_policy v (get_ucast i) (put_ucast i)) w4)) as K5
      by (apply for_keeps; [done|]; intros; by apply free_policy_keeps).
    keeps_via K5. apply upd_vif_keeps; [done | apply K5].
Qed.

(** ** Removing an interface *)

(** Invariant kept, no buffer lost or duplicated, no interface but [v] changed
    in kind. *)
Record keeps_but (v : nat) (wl wl' : wl1271) : Prop := {
  kb_inv : work_inv wl';
  kb_hw : hw wl' = hw wl;
  kb_copies s : s <> dummy_packet (hw wl) -> copies s wl' = copies s wl;
  kb_backlog : backlog wl' <= backlog wl;
  kb_kind x : x <> v -> vif_kind (vif_at wl' x) = vif_kind (vif_at wl x);
  kb_state : state_le (state wl) (state wl');
  kb_scan : scan_ok wl -> scan_ok wl';
  kb_scans : scans wl' = scans wl
}.

Lemma keeps_but_trans v a b c : keeps_but v a b -> keeps_but v b c -> keeps_but v a c.
Proof.
  intros [I1 H1 C1 B1 V1 S1 O1 N1] [I2 H2 C2 B2 V2 S2 O2 N2].
  split; [done | congruence | | lia | | by etrans | auto | congruence].
  - intros s Hs. rewrite C2 by congruence. by apply C1.
  - intros x Hx. by rewrite V2, V1.
Qed.

Lemma work_but v wl wl' : work_keeps wl wl' -> keeps_but v wl wl'.
Proof. intros [I H C B [_ V] S]. by split. Qed.

Lemma upd_vif_but v f wl : (forall w, vif_maps (f w) = vif_maps w) -> work_inv wl ->
  keeps_but v wl (upd_vif v f wl).
Proof.
  intros Hf W. destruct W as [[I1 I2 I3 I4 I5 I6] H2 H3 H4 H6 H7 H8 H9].
  split; try done; [|intros x Hx; unfold vif_at, upd_vif; simpl;
    by rewrite !lookup_total_alt, lookup_alter_ne].
  split; [split|..]; try done.
  - by apply (counts_off_frame _ wl).
  - by apply (queues_ok_frame wl).
  - by apply (ids_ok_frame wl).
  - apply (vifs_ok_frame wl); try done; [apply (vo_last _ I4) | |]; intros x; unfold vif_at, upd_vif; simpl.
    + rewrite lookup_alter. case_decide; [subst; by rewrite fmap_is_Some | done].
    + rewrite !lookup_total_alt, lookup_alter. case_decide; [subst|done].
      destruct (vifs wl !! x); simpl; [apply Hf | done].
Qed.

Lemma drop_pending_same v wl : vifs (drop_pending v wl) = vifs wl /\
  state (drop_pending v wl) = state wl /\ flags (drop_pending v wl) = flags wl.
Proof.
  unfold drop_pending, idle_scan, wl12xx_rearm_tx_watchdog_locked. cbv zeta.
  destruct (negb (scan_idle wl) && _), (tx_allocated_blocks wl =? 0); simpl;
    repeat case_bool_decide; done.
Qed.

(** The fields an interface loses for good. *)
Definition forget_vif (w : wl12xx_vif) : wl12xx_vif :=
  w <| ap_sta_hlid_map := 0 |> <| role_id := WL12XX_INVALID_ROLE_ID |>
    <| dev_role_id := WL12XX_INVALID_ROLE_ID |>.

Lemma unlisted_keeps v wl w2 : work_keeps wl w2 -> v ∈ wlvif_list wl ->
  (forall h, test_bit h (ap_sta_hlid_map (vif_at w2 v)) = false) ->
  let wl' := unlisted v forget_vif w2 in
  keeps_but v wl wl' /\ wlvif_list wl' = filter (fun x => x <> v) (wlvif_list wl) /\
  vif_kind (vif_at wl' v) = vif_kind (vif_at wl v) /\ exists w, vif_at wl' v = forget_vif w.
Proof.
  intros K Hin Hs. cbv zeta.
  assert (v ∈ wlvif_list w2) as Hin2 by (by rewrite (sm_list _ _ (wk_vifs _ _ K))).
  pose proof (vo_alloc _ (inv_vifs _ (wi_inv _ (wk_inv _ _ K))) v Hin2) as Hv.
  pose proof (unlisted_inv v forget_vif w2 (wk_inv _ _ K) Hin2 ltac:(done) Hs) as W3.
  assert (vif_at (unlisted v forget_vif w2) v = forget_vif (vif_at w2 v)) as Ev.
  { unfold unlisted. rewrite vif_at_upd, decide_True by (done || by destruct (bool_decide _)).
    by destruct (bool_decide _). }
  split_and!.
  - eapply keeps_but_trans; [apply work_but, K|].
    split; [exact W3 | by rewrite unlisted_eq | intros s _; by rewrite unlisted_eq |
            by rewrite unlisted_eq | intros x Hx; by rewrite unlisted_vif | by rewrite unlisted_eq |
            by rewrite unlisted_eq..].
  - rewrite unlisted_eq. simpl. by rewrite (sm_list _ _ (wk_vifs _ _ K)).
  - rewrite Ev. apply (sm_kind _ _ (wk_vifs _ _ K)).
  - by exists (vif_at w2 v).
Qed.

Lemma deinit_list_eq v wl : deinit_list v wl =
  unlisted v forget_vif (wl12xx_tx_reset_wlvif v (upd_vif v (fun w => w <| probereq := None |>) wl)).
Proof. reflexivity. Qed.

Lemma deinit_list_spec v wl : work_inv wl -> v ∈ wlvif_list wl ->
  let wl' := deinit_list v wl in
  keeps_but v wl wl' /\ wlvif_list wl' = filter (fun x => x <> v) (wlvif_list wl) /\
  vif_kind (vif_at wl' v) = vif_kind (vif_at wl v) /\ exists w, vif_at wl' v = forget_vif w.
Proof.
  intros W Hin. cbv zeta. rewrite deinit_list_eq.
  pose proof (upd_vif_keeps v (fun w => w <| probereq := None |>) wl ltac:(done) W) as K1.
  destruct (tx_reset_wlvif_spec v _ (wk_inv _ _ K1) Hin) as [K2 Hs].
  exact (unlisted_keeps v wl _ (work_keeps_trans _ _ _ K1 K2) Hin Hs).
Qed.

Lemma vif_flag_cleared i w : vif_flag (w <| vif_flags ::= clear_bit i |>) i = false.
Proof. unfold vif_flag. simpl. by rewrite test_clear_bit, Z.eqb_refl, andb_false_r. Qed.

Lemma removed_vif_keeps b v wl : work_inv wl ->
  work_keeps wl (removed_vif b v wl) /\ vifs (removed_vif b v wl) = vifs wl.
Proof.
  intros W. unfold removed_vif. cbv zeta.
  set (w1 := if b then _ else _).
  assert (work_keeps wl w1 /\ vifs w1 = vifs wl) as [K1 V1]
    by (unfold w1; destruct b; (split; [by apply view_keeps | done])).
  clearbody w1. pose proof (restore_sleep_auth_keeps b w1 (wk_inv _ _ K1)) as K2.
  pose proof (restore_sleep_auth_vifs b w1) as V2. set (w2 := restore_sleep_auth b w1) in *. clearbody w2.
  split; [|simpl; congruence]. keeps_via K1. keeps_via K2. apply emit_keeps; [done | apply K2].
Qed.

Lemma remove_interface_spec fuel c v wl : work_inv wl -> v ∈ wlvif_list wl ->
  vif_flag (vif_at wl v) WLVIF_FLAG_INITIALIZED = true -> state wl <> WLCORE_STATE_OFF ->
  flag wl WL1271_FLAG_RECOVERY_IN_PROGRESS = true \/ no_dev_stop v wl ->
  exists wl', __wl1271_op_remove_interface fuel c v wl = Ret wl' /\
    keeps_but v wl wl' /\ wlvif_list wl' = filter (fun x => x <> v) (wlvif_list wl) /\
    vif_flag (vif_at wl' v) WLVIF_FLAG_INITIALIZED = false /\
    exists w, vif_at wl' v = forget_vif w.
Proof.
  intros W Hin Hi Hs Hd. pose proof (vo_alloc _ (inv_vifs _ (wi_inv _ W)) v Hin) as Hv.
  unfold __wl1271_op_remove_interface. cbv zeta. rewrite Hi. cbn [negb].
  set (w1 := upd_vif v _ wl). assert (keeps_but v wl w1) as K1 by (by apply upd_vif_but).
  assert (wlvif_list w1 = wlvif_list wl /\ state w1 = state wl /\ flags w1 = flags wl) as (L1 & S1 & F1) by done.
  assert (vif_at w1 v = (vif_at wl v) <| vif_flags ::= clear_bit WLVIF_FLAG_INITIALIZED |>) as V1
    by (unfold w1; by rewrite vif_at_upd, decide_True).
  clearbody w1. rewrite bool_decide_eq_false_2 by (by rewrite S1).
  pose proof (drop_pending_keeps v w1 (kb_inv _ _ _ K1)) as K2.
  destruct (drop_pending_same v w1) as (V2 & S2 & F2).
  set (w2 := drop_pending v w1) in *. clearbody w2.
  assert (exists w3, (if flag w2 WL1271_FLAG_RECOVERY_IN_PROGRESS then Ret w2
    else disable_roles fuel c v w2) = Ret w3 /\ work_keeps w2 w3) as (w3 & -> & K3).
  { unfold flag. rewrite F2, F1. destruct Hd as [Hd|Hd].
    - unfold flag in Hd. rewrite Hd. exists w2. split; [done | apply work_keeps_refl, K2].
    - destruct (test_bit _ _); [exists w2; split; [done | apply work_keeps_refl, K2]|].
      apply disable_roles_keeps; [apply K2|]. destruct Hd as [Hd|Hd]; [left; congruence | right].
      unfold vif_at in *. by rewrite V2, V1. }
  cbn [obind]. pose proof (deinit_ids_keeps v w3 (wk_inv _ _ K3)) as K4.
  set (w4 := deinit_ids v w3) in *. clearbody w4.
  pose proof (work_keeps_trans _ _ _ K2 (work_keeps_trans _ _ _ K3 K4)) as K24.
  assert (v ∈ wlvif_list w4) as Hin4 by (by rewrite (sm_list _ _ (wk_vifs _ _ K24)), L1).
  destruct (deinit_list_spec v w4 (wk_inv _ _ K4) Hin4) as (K5 & L5 & V5 & G5).
  cbv zeta in K5, L5, V5, G5. set (w5 := deinit_list v w4) in *. clearbody w5.
  destruct (removed_vif_keeps (is_ap (vif_at wl v)) v w5 (kb_inv _ _ _ K5)) as [K6 V6].
  exists (removed_vif (is_ap (vif_at wl v)) v w5). split; [done|].
  set (w6 := removed_vif _ v w5) in *. clearbody w6.
  assert (vif_at w6 v = vif_at w5 v) as V8 by (unfold vif_at; by rewrite V6).
  split_and!.
  - eapply keeps_but_trans; [exact K1|]. eapply keeps_but_trans; [apply work_but, K24|].
    eapply keeps_but_trans; [exact K5 | apply work_but, K6].
  - rewrite (sm_list _ _ (wk_vifs _ _ K6)), L5, (sm_list _ _ (wk_vifs _ _ K24)), L1. done.
  - rewrite V8, (kind_flag _ _ V5), (kind_flag _ _ (sm_kind _ _ (wk_vifs _ _ K24) v)), V1.
    apply vif_flag_cleared.
  - by rewrite V8.
Qed.

End IfaceFacts.
