(* ===== verification/Recovery.v ===== *)
(** * Stopping the device and recovery: the device is as it was allocated *)

From S2P Require Import Prelude Ieee80211 WlState ChipOps Io Queues LinkQueues.
From S2P Require Import PowerSave TxPath TxAllocFacts TxSched TxInv SchedFacts TxMoves.
From S2P Require Import TxPrep TxWork TxDone TxDoneFacts FwStatus Rx RxFacts Event EventFacts.
From S2P Require Import Links Roles LinksFacts RolesFacts Init Iface IfaceFacts.

(** ** The fields set back *)

Lemma zero_pkts_view wl :
  let wl' := for_range NUM_TX_QUEUES zero_pkts wl in
  same_view wl wl' /\ skbs wl' = skbs wl /\ aggr_buf wl' = aggr_buf wl.
Proof.
  cbv zeta. apply (for_range_inv (fun w => same_view wl w /\ skbs w = skbs wl /\ aggr_buf w = aggr_buf wl));
    [done|]. intros w i _ (V & E1 & E2). split_and!; try done. etrans; [exact V | by split].
Qed.

Lemma debugfs_reset_view wl : same_view wl (wl1271_debugfs_reset wl) /\
  skbs (wl1271_debugfs_reset wl) = skbs wl /\ aggr_buf (wl1271_debugfs_reset wl) = aggr_buf wl.
Proof. unfold wl1271_debugfs_reset. split_if; (split_and!; [by split | done..]). Qed.

Lemma reset_books_keeps wl : work_inv wl -> wlvif_list wl = [] ->
  flag wl WL1271_FLAG_DUMMY_PACKET_PENDING = false ->
  (forall h q, is_link h -> is_queue q -> link_queue wl h q = []) ->
  work_keeps wl (reset_books wl).
Proof.
  intros W Hl Hd Hq. pose proof (inv_vifs _ (wi_inv _ W)) as V.
  set (w1 := relinked (set_bit WL12XX_SYSTEM_HLID 0) (vifs wl) 0 wl).
  assert (work_keeps wl w1) as K1.
  { eapply relink_keeps; [reflexivity | done | | | done].
    - split; try apply V; try done.
      + intros v h Hv. change (wlvif_list w1) with (wlvif_list wl) in Hv. rewrite Hl in Hv. by apply elem_of_nil in Hv.
      + change (system_hlid (hw w1)) with (system_hlid (hw wl)). by rewrite (vo_system _ V).
      + split; intros v **; exfalso;
          match goal with H : v ∈ wlvif_list w1 |- _ =>
            change (wlvif_list w1) with (wlvif_list wl) in H; rewrite Hl in H; by apply elem_of_nil in H end.
      + unfold stations. change (wlvif_list w1) with (wlvif_list wl). by rewrite Hl.
    - intros h q Hh Hq' _. by apply Hq. }
  eapply work_keeps_trans; [exact K1|]. apply view_keeps; [apply K1 | | done | done].
  split; try done. intros (R1 & R2 & R3 & R4 & R5). split_and!; done || apply R4 || apply R1.
Qed.

(** Everything a stopped device promises. *)
Record stopped (wl : wl1271) : Prop := {
  sp_state : state wl = WLCORE_STATE_OFF;
  sp_flags : flags wl = 0;
  sp_links : links_map wl = set_bit WL12XX_SYSTEM_HLID 0;
  sp_roles : roles_map wl = 0 /\ roc_map wl = 0 /\ active_sta_count wl = 0;
  sp_blocks : tx_blocks_available wl = 0 /\ tx_allocated_blocks wl = 0 /\ tx_blocks_freed wl = 0;
  sp_vifs : wlvif_list wl = [];
  sp_queues h q : is_link h -> is_queue q -> link_queue wl h q = [];
  sp_frames id : frame_at wl id = None;
  sp_deferred : deferred_tx_queue wl = [] /\ deferred_rx_queue wl = []
}.

(** What [reset_fields] does not touch. *)
Definition kept_fields (wl : wl1271) :=
  (wlvif_list wl, links wl, tx_frames wl, deferred_tx_queue wl, deferred_rx_queue wl, state wl).
(** What it sets. *)
Definition reset_values (wl : wl1271) :=
  (flags wl, links_map wl, (roles_map wl, roc_map wl, active_sta_count wl),
   (tx_blocks_available wl, tx_allocated_blocks wl, tx_blocks_freed wl)).

Lemma zero_pkts_fields wl :
  let wl' := for_range NUM_TX_QUEUES zero_pkts wl in
  kept_fields wl' = kept_fields wl /\ reset_values wl' = reset_values wl.
Proof.
  cbv zeta. apply (for_range_inv (fun w => kept_fields w = kept_fields wl /\ reset_values w = reset_values wl));
    [done|]. by intros w i _ [E1 E2].
Qed.

Lemma debugfs_reset_fields wl : kept_fields (wl1271_debugfs_reset wl) = kept_fields wl /\
  reset_values (wl1271_debugfs_reset wl) = reset_values wl.
Proof. unfold wl1271_debugfs_reset. by split_if. Qed.

Lemma reset_fields_spec wl : work_inv wl -> wlvif_list wl = [] ->
  flag wl WL1271_FLAG_DUMMY_PACKET_PENDING = false ->
  (forall h q, is_link h -> is_queue q -> link_queue wl h q = []) ->
  work_keeps wl (reset_fields wl) /\ kept_fields (reset_fields wl) = kept_fields wl /\
  reset_values (reset_fields wl) = (0, set_bit WL12XX_SYSTEM_HLID 0, (0, 0, 0), (0, 0, 0)).
Proof.
  intros W Hl Hd Hq. unfold reset_fields. pose proof (reset_books_keeps wl W Hl Hd Hq) as K1.
  assert (kept_fields (reset_books wl) = kept_fields wl /\
    reset_values (reset_books wl) = (0, set_bit WL12XX_SYSTEM_HLID 0, (0, 0, 0), (0, 0, 0))) as [F1 R1] by done.
  set (w1 := reset_books wl) in *. clearbody w1.
  destruct (zero_pkts_view w1) as (V2 & S2 & A2). destruct (zero_pkts_fields w1) as [F2 R2]. cbv zeta in *.
  set (w2 := for_range NUM_TX_QUEUES zero_pkts w1) in *. clearbody w2.
  destruct (debugfs_reset_view w2) as (V3 & S3 & A3). destruct (debugfs_reset_fields w2) as [F3 R3].
  set (w3 := wl1271_debugfs_reset w2) in *. clearbody w3. split_and!.
  - eapply work_keeps_trans; [exact K1|]. apply view_keeps; [apply K1 | | by rewrite <- S2, <- S3 | by rewrite <- A2, <- A3].
    etrans; [exact V2|]. etrans; [exact V3 | by split].
  - etrans; [|exact F1]. etrans; [|exact F2]. exact F3.
  - etrans; [|exact R1]. etrans; [|exact R2]. exact R3.
Qed.

(** ** Powering down *)

(** Taking the dummy packet out of the books and powering down commute. *)
Lemma power_off_undummied wl : wl1271_power_off (undummied wl) = undummied (wl1271_power_off wl).
Proof.
  unfold wl1271_power_off. unfold undummied at 1. rewrite flag_clear_other by done.
  destruct (flag wl WL1271_FLAG_GPIO_POWER); cbn [negb]; [|done].
  assert (bus_next (emit (EvPower false) (undummied wl))
    = (fst (bus_next (emit (EvPower false) wl)), undummied (snd (bus_next (emit (EvPower false) wl))))) as ->.
  { unfold bus_next. change (bus (emit (EvPower false) (undummied wl))) with (bus wl).
    change (bus (emit (EvPower false) wl)) with (bus wl). by destruct (bus wl) as [|[r d] rest]. }
  destruct (bus_next (emit (EvPower false) wl)) as [[r d] w]. simpl. split_if; [|done]. apply clear_flag_comm.
Qed.

Lemma balance_irq_undummied wl : balance_irq (undummied wl) = undummied (balance_irq wl).
Proof.
  unfold balance_irq. unfold undummied at 1. rewrite flag_clear_other by done.
  split_if; [|done]. unfold undummied. rewrite clear_flag_comm. done.
Qed.

Lemma reset_books_undummied wl : reset_books (undummied wl) = reset_books wl.
Proof. by destruct wl. Qed.

Lemma power_off_view wl : same_view wl (wl1271_power_off wl) /\ skbs (wl1271_power_off wl) = skbs wl /\
  aggr_buf (wl1271_power_off wl) = aggr_buf wl /\ kept_fields (wl1271_power_off wl) = kept_fields wl.
Proof.
  unfold wl1271_power_off, bus_next. split_if; [done|].
  assert (same_view wl (emit (EvPower false) wl)) as V1 by (by apply emit_view).
  change (bus (emit (EvPower false) wl)) with (bus wl). destruct (bus wl) as [|[r d] rest].
  - change (0 =? 0) with true. cbv iota. split_and!; try done. etrans; [exact V1 | by apply clear_flag_view].
  - assert (same_view wl (emit (EvPower false) wl <| bus := rest |>)) as V2 by (etrans; [exact V1 | by split]).
    split_if; (split_and!; try done). etrans; [exact V2 | by apply clear_flag_view].
Qed.

Lemma balance_irq_view wl : same_view wl (balance_irq wl) /\ skbs (balance_irq wl) = skbs wl /\
  aggr_buf (balance_irq wl) = aggr_buf wl /\ kept_fields (balance_irq wl) = kept_fields wl.
Proof.
  unfold balance_irq. split_if; [|done]. split_and!; try done.
  etrans; [by apply (clear_flag_view WL1271_FLAG_RECOVERY_IN_PROGRESS) | by apply emit_view].
Qed.

Lemma power_down_spec wl : work_inv wl -> wlvif_list wl = [] ->
  flag wl WL1271_FLAG_DUMMY_PACKET_PENDING = false ->
  (forall h q, is_link h -> is_queue q -> link_queue wl h q = []) ->
  let wl' := reset_fields (balance_irq (wl1271_power_off wl)) in
  work_keeps wl wl' /\ kept_fields wl' = kept_fields wl /\
  reset_values wl' = (0, set_bit WL12XX_SYSTEM_HLID 0, (0, 0, 0), (0, 0, 0)).
Proof.
  intros W Hl Hd Hq. cbv zeta. destruct (power_off_view wl) as (V1 & S1 & A1 & F1).
  set (w1 := wl1271_power_off wl) in *. clearbody w1. destruct (balance_irq_view w1) as (V2 & S2 & A2 & F2).
  set (w2 := balance_irq w1) in *. clearbody w2.
  assert (same_view wl w2) as V by (by etrans).
  assert (work_keeps wl w2) as K by (apply view_keeps; [done | done | congruence | congruence]).
  destruct (reset_fields_spec w2 (wk_inv _ _ K)) as (K3 & F3 & R3).
  - by rewrite (sv_vlist _ _ V).
  - by rewrite (sv_dummy _ _ V).
  - intros h q Hh Hq'. rewrite (same_view_queue _ _ _ _ V). by apply Hq.
  - split_and!; [by eapply work_keeps_trans | congruence | done].
Qed.

Lemma reset_fields_undummied wl : reset_fields (undummied wl) = reset_fields wl.
Proof. unfold reset_fields. by rewrite reset_books_undummied. Qed.


(** ** Stopping *)

(** Invariant kept and no buffer lost or duplicated, whatever else. *)
Record keeps_core (wl wl' : wl1271) : Prop := {
  kc_inv : work_inv wl';
  kc_hw : hw wl' = hw wl;
  kc_copies s : s <> dummy_packet (hw wl) -> copies s wl' = copies s wl;
  kc_scan : scan_ok wl -> scan_ok wl';
  kc_scans : scans wl' = scans wl
}.

#[export] Instance keeps_core_trans : Transitive keeps_core.
Proof.
  intros a b c [I1 H1 C1 S1 N1] [I2 H2 C2 S2 N2]. split; [done | congruence | | auto | congruence].
  intros s Hs. rewrite C2 by congruence. by apply C1.
Qed.

Lemma work_core wl wl' : work_keeps wl wl' -> keeps_core wl wl'.
Proof. intros [? ? ? ? [] ?]. by split. Qed.

Lemma but_core v wl wl' : keeps_but v wl wl' -> keeps_core wl wl'.
Proof. by intros []. Qed.

(** The device switched off, its work items cancelled, its frames given back. *)
Definition silenced (wl : wl1271) : wl1271 :=
  (wl1271_flush_deferred_work (emit EvDisableIrq (wl <| state := WLCORE_STATE_OFF |>)))
    <| elp_work_queued := false |> <| tx_watchdog_armed := false |>.

Lemma silenced_spec wl : work_inv wl ->
  keeps_core wl (silenced wl) /\ state (silenced wl) = WLCORE_STATE_OFF /\
  deferred_tx_queue (silenced wl) = [] /\ deferred_rx_queue (silenced wl) = [] /\
  wlvif_list (silenced wl) = wlvif_list wl.
Proof.
  intros W. unfold silenced.
  set (w1 := emit EvDisableIrq (wl <| state := WLCORE_STATE_OFF |>)).
  assert (keeps_core wl w1) as K1.
  { split; [|done..]. eapply (wk_inv (wl <| state := WLCORE_STATE_OFF |>)).
    apply emit_keeps; [done | by apply work_inv_state]. }
  assert (state w1 = WLCORE_STATE_OFF /\ wlvif_list w1 = wlvif_list wl) as [S1 L1] by done. clearbody w1.
  destruct (flush_deferred_keeps w1 (kc_inv _ _ K1)) as (K2 & D1 & D2). cbv zeta in K2, D1, D2.
  set (w2 := wl1271_flush_deferred_work w1) in *. clearbody w2.
  assert (work_keeps w2 (w2 <| elp_work_queued := false |> <| tx_watchdog_armed := false |>)) as K3
    by (apply view_keeps; done || apply K2).
  split_and!; try done.
  - etrans; [exact K1|]. etrans; [apply work_core, K2 | apply work_core, K3].
  - simpl. pose proof (wk_state _ _ K2) as S2. rewrite S1 in S2. by destruct S2 as [?|[? _]].
  - simpl. by rewrite (sm_list _ _ (wk_vifs _ _ K2)).
Qed.

Lemma op_stop_eq wl : state wl <> WLCORE_STATE_OFF ->
  wlcore_op_stop_locked wl =
    reset_fields (balance_irq (wl1271_power_off (undummied (wl12xx_tx_reset (silenced wl))))).
Proof.
  intros Hs. rewrite power_off_undummied, balance_irq_undummied, reset_fields_undummied.
  unfold wlcore_op_stop_locked. by rewrite bool_decide_eq_false_2.
Qed.

(** A reset defers no frame. *)
Definition deferred_of (wl : wl1271) := (deferred_tx_queue wl, deferred_rx_queue wl).

Lemma deferred_of_inj wl wl' : deferred_of wl = deferred_of wl' ->
  deferred_tx_queue wl = deferred_tx_queue wl' /\ deferred_rx_queue wl = deferred_rx_queue wl'.
Proof. by intros [= -> ->]. Qed.

Lemma low_watermark_deferred wl : deferred_of (wl1271_handle_tx_low_watermark wl) = deferred_of wl.
Proof. by destruct (low_watermark_frame wl) as (? & ? & ->). Qed.

Lemma drain_link_deferred h body wl : (forall s w, deferred_of (body s w) = deferred_of w) ->
  deferred_of (drain_link h body wl) = deferred_of wl.
Proof.
  intros Hb. unfold drain_link.
  set (r := for_range NUM_TX_QUEUES _ _).
  assert (deferred_of (snd r) = deferred_of wl) as E.
  { apply (for_range_inv (fun r : list Z * wl1271 => deferred_of (snd r) = deferred_of wl)); [done|].
    intros [t w] i _ Hw. simpl in Hw.
    assert (deferred_of (snd (drain_queue h i body w)) = deferred_of w) as Ed.
    { unfold drain_queue. apply (fold_left_inv (fun r : Z * wl1271 => deferred_of (snd r) = deferred_of w)); [done|].
      intros [n w'] skb _ Hn. simpl in *. rewrite Hb, <- Hn. unfold skb_dequeue. by destruct (link_queue w' h i). }
    destruct (drain_queue h i body w) as [n w']. simpl in *. congruence. }
  destruct r as [t w]. simpl in E. rewrite low_watermark_deferred, <- E.
  by apply (for_range_inv (fun w' => deferred_of w' = deferred_of w)).
Qed.

Lemma reset_frame_deferred i wl : deferred_of (tx_reset_frame i wl) = deferred_of wl.
Proof.
  unfold tx_reset_frame. destruct (zget None (tx_frames wl) i) as [skb|]; [|done].
  assert (deferred_of (wl1271_free_tx_id i wl) = deferred_of wl) as E
    by (unfold wl1271_free_tx_id; cbv zeta; split_if; [|done]; by split_if).
  cbv zeta. set (w := wl1271_free_tx_id i wl) in *. clearbody w. split_if; exact E.
Qed.

Lemma tx_reset_deferred wl : deferred_of (wl12xx_tx_reset wl) = deferred_of wl.
Proof.
  unfold wl12xx_tx_reset. cbv zeta. set (w1 := if negb _ then _ else wl).
  assert (deferred_of w1 = deferred_of wl) as E1.
  { unfold w1. split_if; [|done]. etrans.
    - apply (for_range_inv (fun w => deferred_of w = deferred_of (for_range WL12XX_MAX_LINKS wl1271_tx_reset_link_queues wl)));
        [done|]. by intros w i _ <-.
    - apply (for_range_inv (fun w => deferred_of w = deferred_of wl)); [done|]. intros w i _ <-.
      apply drain_link_deferred. intros x y. by split_if. }
  clearbody w1. etrans; [|exact E1]. rewrite <- (low_watermark_deferred w1).
  set (w2 := wl1271_handle_tx_low_watermark w1). clearbody w2.
  apply (for_range_inv (fun w => deferred_of w = deferred_of w2)); [done|]. intros w i _ <-.
  apply reset_frame_deferred.
Qed.

(** Nothing is left to do but to power down. *)
Record drained (wl : wl1271) : Prop := {
  dr_state : state wl = WLCORE_STATE_OFF;
  dr_vifs : wlvif_list wl = [];
  dr_dummy : flag wl WL1271_FLAG_DUMMY_PACKET_PENDING = false;
  dr_queues h q : is_link h -> is_queue q -> link_queue wl h q = [];
  dr_frames id : frame_at wl id = None;
  dr_deferred : deferred_tx_queue wl = [] /\ deferred_rx_queue wl = []
}.

Lemma reset_drained wl : work_inv wl -> state wl = WLCORE_STATE_OFF -> wlvif_list wl = [] ->
  deferred_tx_queue wl = [] -> deferred_rx_queue wl = [] -> drained (undummied (wl12xx_tx_reset wl)).
Proof.
  intros W Hs Hl D1 D2. destruct (tx_reset_spec wl W) as (K & Q & F & _). cbv zeta in K, Q, F.
  destruct (deferred_of_inj _ _ (tx_reset_deferred wl)) as [D3 D4]. rewrite D1 in D3. rewrite D2 in D4.
  revert K Q F D3 D4. generalize (wl12xx_tx_reset wl). intros w K Q F D3 D4. split; try done.
  - pose proof (wk_state _ _ K) as S. rewrite Hs in S. by destruct S as [?|[? _]].
  - by rewrite (sm_list _ _ (wk_vifs _ _ K)).
  - apply flag_clear_same.
Qed.

Lemma drained_stops wl : work_inv wl -> drained wl ->
  keeps_core wl (reset_fields (balance_irq (wl1271_power_off wl))) /\
  stopped (reset_fields (balance_irq (wl1271_power_off wl))).
Proof.
  intros W [Hs Hl Hd Hq Hf [D1 D2]].
  destruct (power_down_spec wl W Hl Hd Hq) as (K & F & R). cbv zeta in K, F, R.
  revert K F R. generalize (reset_fields (balance_irq (wl1271_power_off wl))). intros w K F R.
  split; [by apply work_core|].
  injection F as E1 E2 E3 E4 E5 E6. injection R as R1 R2 R4 R5 R6 R7 R8 R9.
  split; try congruence; try done.
  - intros h q Hh Hq'. unfold link_queue, link_at. rewrite E2. by apply Hq.
  - intros id. unfold frame_at. rewrite E3. apply Hf.
  - split; congruence.
Qed.

Lemma op_stop_spec wl : work_inv wl -> state wl <> WLCORE_STATE_OFF -> wlvif_list wl = [] ->
  keeps_core wl (wlcore_op_stop_locked wl) /\ stopped (wlcore_op_stop_locked wl).
Proof.
  intros W Hs Hl. rewrite op_stop_eq by done.
  destruct (silenced_spec wl W) as (K1 & S1 & D1 & D2 & L1). rewrite Hl in L1.
  pose proof (proj1 (tx_reset_spec _ (kc_inv _ _ K1))) as K2.
  destruct (drained_stops _ (wk_inv _ _ K2) (reset_drained _ (kc_inv _ _ K1) S1 L1 D1 D2)) as [K3 P].
  split; [|exact P]. exact (keeps_core_trans _ _ _ K1 (keeps_core_trans _ _ _ (work_core _ _ K2) K3)).
Qed.

(** ** Diagnostics *)

Lemma write32_then_io_frame a v (k : wl1271 -> Z * wl1271) wl :
  (forall w, io_frame w (snd (k w))) ->
  io_frame wl (snd (let '(ret, wl) := wlcore_raw_write32 a v wl in
                    if ret <? 0 then (ret, wl) else k wl)).
Proof.
  intros Hk. pose proof (raw_write32_io_frame a v wl) as F.
  destruct (wlcore_raw_write32 a v wl) as [r w]. simpl in F. split_if; [exact F|]. etrans; [exact F | apply Hk].
Qed.

Lemma set_partition_keeps part wl : work_inv wl ->
  work_keeps wl (snd (wlcore_set_partition part wl)).
Proof.
  intros W. unfold wlcore_set_partition. cbv zeta.
  set (w0 := wl <| curr_part := part |>). assert (work_keeps wl w0) as K0 by (by apply view_keeps).
  clearbody w0. keeps_via K0. apply io_keeps; [apply K0|].
  do 6 (apply (write32_then_io_frame _ _ (fun w => _)); intros ?w).
  apply raw_write32_io_frame.
Qed.

Lemma print_recovery_keeps wl : work_inv wl -> work_keeps wl (wlcore_print_recovery wl).
Proof.
  intros W. unfold wlcore_print_recovery. pose proof (set_partition_keeps (ptable_boot (hw wl)) wl W) as K1.
  destruct (wlcore_set_partition _ wl) as [r1 w1]. simpl in K1. split_if; [exact K1|]. keeps_via K1.
  pose proof (io_keeps _ _ (wk_inv _ _ K1) (read32_io_frame (rtable_pc_on_recovery (hw w1)) w1)) as K2.
  destruct (wlcore_read32 _ w1) as [[r2 x2] w2]. simpl in K2. split_if; [exact K2|]. keeps_via K2.
  pose proof (io_keeps _ _ (wk_inv _ _ K2) (read32_io_frame (rtable_interrupt_no_clear (hw w2)) w2)) as K3.
  destruct (wlcore_read32 _ w2) as [[r3 x3] w3]. simpl in K3. split_if; [exact K3|]. keeps_via K3.
  cbv zeta. set (w4 := w3 <| recovery_count ::= Z.succ |>).
  assert (work_keeps w3 w4) as K4 by (apply view_keeps; done || apply K3).
  clearbody w4. keeps_via K4. apply set_partition_keeps, K4.
Qed.

(** The walk over the firmware's log ends, and the log never outgrows its page. *)
Lemma fwlog_walk_spec fuel : forall offset end_of_log addr wl,
  work_inv wl -> 0 <= offset <= WL12XX_HW_BLOCK_SIZE -> PAGE_SIZE - zlen (fwlog wl) < Z.of_nat fuel ->
  exists wl', fwlog_walk fuel offset end_of_log addr wl = Ret wl' /\ work_keeps wl wl' /\
    exists l, fwlog wl' = fwlog wl ++ l.
Proof.
  induction fuel as [|fuel IH]; intros offset end_of_log addr wl W Ho Hf;
    pose proof (proj1 (inv_ring _ (wi_inv _ W))) as Hp; [lia|]. cbn [fwlog_walk].
  unfold wlcore_read_hwaddr. match goal with |- context [wlcore_raw_read ?a ?n wl] =>
    pose proof (raw_read_io_frame a n wl) as F; pose proof (raw_read_data a n wl ltac:(done)) as D;
    destruct (wlcore_raw_read a n wl) as [[ret block] w1] end. simpl in F.
  pose proof (io_keeps _ _ W F) as K1.
  assert (fwlog w1 = fwlog wl) as Ef by (destruct F as [(? & ? & ? & ? & ->) _ _ _]; done).
  destruct (Z.ltb_spec ret 0) as [|Hr].
  { exists w1. split_and!; [done | done | exists []; by rewrite app_nil_r]. }
  destruct D as [_ [Hl|[? _]]]; [|lia].
  destruct (copy_fwlog_spec (drop (Z.to_nat offset) block) (WL12XX_HW_BLOCK_SIZE - offset) w1)
    as (n & -> & Hn & Hz).
  { unfold zlen in *. rewrite length_drop. unfold WL12XX_HW_BLOCK_SIZE in *. lia. }
  { by rewrite Ef. }
  cbn [obind]. set (t := take (Z.to_nat n) _) in *.
  assert (zlen t = n) as Ht.
  { unfold t, zlen in *. rewrite length_take, length_drop. unfold WL12XX_HW_BLOCK_SIZE in *. lia. }
  set (w2 := w1 <| fwlog := _ |>).
  assert (work_keeps w1 w2) as K2.
  { apply view_keeps; try done; [apply K1|]. split; try done. intros (_ & R). split; [exact Hz | exact R]. }
  assert (fwlog w2 = fwlog wl ++ t) as E2 by (unfold w2; simpl; by rewrite Ef). clearbody w2.
  pose proof (work_keeps_trans _ _ _ K1 K2) as K.
  assert (work_keeps wl (emit EvWakeFwlog w2) /\ exists l, fwlog (emit EvWakeFwlog w2) = fwlog wl ++ l) as Out.
  { split; [keeps_via K; apply emit_keeps; [done | apply K] | by exists t]. }
  destruct (n =? 0) eqn:En; [by eexists|]. split_if; [by eexists|]. bool_to_prop.
  destruct (IH offset end_of_log (le32_at block 0) w2 (wk_inv _ _ K) Ho) as (w3 & -> & K3 & l & E3).
  - rewrite E2. unfold zlen in *. rewrite length_app. lia.
  - exists w3. split_and!; [done | by eapply work_keeps_trans |].
    exists (t ++ l). by rewrite E3, E2, app_assoc.
Qed.

(** ** Every buffer is back *)

Lemma zget_lookup {A} (d x : A) l i : l !! i = Some x -> zget d l (Z.of_nat i) = x.
Proof.
  intros Hx. unfold zget. rewrite (proj2 (Z.ltb_ge _ _)) by lia. rewrite Nat2Z.id. by apply nth_lookup_Some.
Qed.

Lemma zsum_zero {A} (f : A -> Z) l : (forall x, x ∈ l -> f x = 0) -> zsum (f <$> l) = 0.
Proof.
  induction l as [|x l IH]; intros Hf; [done|]. csimpl. unfold zsum in *. simpl.
  rewrite (Hf x) by (by left). rewrite IH by (intros y Hy; apply Hf; by right). done.
Qed.

Lemma stopped_released wl : counts_ok wl -> stopped wl -> forall s, copies s wl = released s (log wl).
Proof.
  intros C P s. unfold copies. rewrite (proj1 (sp_deferred _ P)). change (occ s []) with 0.
  rewrite (zsum_zero (link_copies s)), (zsum_zero (frame_copy s)); [lia| |].
  - intros o (i & Hi)%list_elem_of_lookup. pose proof (sp_frames _ P (Z.of_nat i)) as Hf.
    unfold frame_at in Hf. rewrite (zget_lookup _ _ _ _ Hi) in Hf. by subst o.
  - intros lnk (i & Hi)%list_elem_of_lookup. apply zsum_zero. intros l (j & Hj)%list_elem_of_lookup.
    assert (is_link (Z.of_nat i)) as Hl.
    { pose proof (co_links _ _ C) as E. apply lookup_lt_Some in Hi. unfold is_link, zlen in *. lia. }
    assert (is_queue (Z.of_nat j)) as Hq.
    { pose proof (link_queues_len _ _ _ C Hl) as E. unfold link_at in E. rewrite (zget_lookup _ _ _ _ Hi) in E.
      apply lookup_lt_Some in Hj. unfold is_queue, zlen in *. lia. }
    pose proof (sp_queues _ P _ _ Hl Hq) as E. unfold link_queue, link_at in E.
    rewrite (zget_lookup _ _ _ _ Hi), (zget_lookup _ _ _ _ Hj) in E. by subst l.
Qed.

Lemma wake_queues_clear r wl q : zlen (queue_stop_reasons wl) = NUM_TX_QUEUES -> is_queue q ->
  wlcore_is_queue_stopped_by_reason (wlcore_wake_queues r wl) q r = false.
Proof.
  intros Hl Hq. unfold wlcore_wake_queues.
  apply (for_range_ind (fun k w => zlen (queue_stop_reasons w) = NUM_TX_QUEUES /\
    forall i, 0 <= i < k -> wlcore_is_queue_stopped_by_reason w i r = false)); [done | split; [done | lia] | | done].
  intros w k Hk [Lw Hw]. split.
  - unfold wlcore_wake_queue, set_reasons. cbv zeta. split_if; simpl; by rewrite ?zlen_zset.
  - intros i Hi. rewrite wake_queue_bits by done.
    destruct (decide (i = k)) as [->|Hne]; [by rewrite !bool_decide_eq_true_2, andb_false_r|].
    rewrite Hw by lia. done.
Qed.

(** ** Removing every interface *)

Definition vifs_init (wl : wl1271) : Prop :=
  forall v, v ∈ wlvif_list wl -> vif_flag (vif_at wl v) WLVIF_FLAG_INITIALIZED = true.

Section Recovery.
Context `{laws : wlcore_ops_laws}.

Lemma read_fwlog_panic_spec c wl : work_inv wl ->
  exists wl', wl12xx_read_fwlog_panic c wl = Ret wl' /\ work_keeps wl wl'.
Proof.
  intros W. unfold wl12xx_read_fwlog_panic. split_if; [exists wl; split; [done | by apply work_keeps_refl]|].
  pose proof (elp_wakeup_keeps c wl W) as K1. destruct (wl1271_ps_elp_wakeup c wl) as [r1 w1]. simpl in K1.
  split_if; [by exists w1|]. cbv zeta. set (w2 := if _ && _ then _ else w1).
  assert (work_keeps wl w2) as K2
    by (unfold w2; split_if; [keeps_via K1; apply cmd_keeps, K1 | exact K1]). clearbody w2.
  pose proof (fw_status_keeps w2 (wk_inv _ _ K2)) as K3. destruct (wlcore_fw_status w2) as [[r3 st] w3].
  simpl in K3. pose proof (work_keeps_trans _ _ _ K2 K3) as K. split_if; [by exists w3|].
  split_if; [by exists w3|].
  assert (forall o e a, 0 <= o <= WL12XX_HW_BLOCK_SIZE -> exists wl',
    fwlog_walk (S (Z.to_nat PAGE_SIZE)) o e a w3 = Ret wl' /\ work_keeps wl wl') as Hw.
  { intros o e a Ho. destruct (fwlog_walk_spec (S (Z.to_nat PAGE_SIZE)) o e a w3 (wk_inv _ _ K) Ho)
      as (w4 & Ew & K4 & _).
    - pose proof (zlen_nonneg (fwlog w3)). rewrite Nat2Z.inj_succ, Z2Nat.id by done. lia.
    - exists w4. split; [exact Ew | by eapply work_keeps_trans]. }
  split_if; by apply Hw.
Qed.

(** With the device restarting, the loop takes one turn per interface. *)
Lemma remove_interfaces_spec turns fuel c : forall wl,
  work_inv wl -> state wl = WLCORE_STATE_RESTARTING -> vifs_init wl ->
  (length (wlvif_list wl) <= turns)%nat ->
  exists wl', remove_interfaces turns fuel c wl = Ret wl' /\
    keeps_core wl wl' /\ state wl' = WLCORE_STATE_RESTARTING /\ wlvif_list wl' = [].
Proof.
  induction turns as [|turns IH]; intros wl W Hs Hi Hn.
  { destruct (wlvif_list wl) as [|v l] eqn:E; [|simpl in Hn; lia].
    exists wl. simpl. rewrite E. split_and!; try done; by apply work_core, work_keeps_refl. }
  cbn [remove_interfaces]. destruct (wlvif_list wl) as [|v l] eqn:E.
  { exists wl. split_and!; try done; by apply work_core, work_keeps_refl. }
  assert (v ∈ wlvif_list wl) as Hin by (rewrite E; by left).
  destruct (remove_interface_spec fuel c v wl W Hin (Hi v Hin)) as (w1 & -> & K1 & L1 & _);
    [by rewrite Hs | right; by left |].
  assert (state w1 = WLCORE_STATE_RESTARTING) as S1.
  { pose proof (kb_state _ _ _ K1) as S. rewrite Hs in S. by destruct S as [?|[? _]]. }
  cbn [obind]. destruct (IH w1 (kb_inv _ _ _ K1) S1) as (w2 & -> & K2 & S2 & L2).
  - intros x Hx. rewrite L1 in Hx. apply list_elem_of_filter in Hx as [Hne Hx].
    rewrite (kind_flag _ _ (kb_kind _ _ _ K1 x Hne)). by apply Hi.
  - rewrite L1, E, filter_cons_False by (by intros []). simpl in Hn.
    pose proof (length_filter (fun x => x <> v) l). lia.
  - exists w2. split_and!; try done. etrans; [eapply but_core, K1 | exact K2].
Qed.

Lemma advance_seq_keeps wl : work_inv wl -> work_keeps wl (advance_seq wl).
Proof. intros W. apply each_keeps; [|done]. intros v w Ww. by apply upd_vif_keeps. Qed.

Lemma wake_stopped r wl : stopped wl -> stopped (wlcore_wake_queues r wl).
Proof. intros P. destruct (wake_queues_frame r wl) as (x & l & ->). by destruct P. Qed.

Lemma done_stopped wl : stopped wl -> stopped (recovery_done wl).
Proof.
  intros P. destruct P as [P1 P2 P3 P4 P5 P6 P7 P8 P9]. split; try done.
  unfold recovery_done, clear_flag. simpl. by rewrite P2.
Qed.

Lemma reboot_spec turns fuel c wl : work_inv wl -> state wl = WLCORE_STATE_RESTARTING -> vifs_init wl ->
  (length (wlvif_list wl) <= turns)%nat ->
  exists wl', reboot turns fuel c wl = Ret wl' /\ keeps_core wl wl' /\ stopped wl' /\
    (forall q, is_queue q ->
       wlcore_is_queue_stopped_by_reason wl' q WLCORE_QUEUE_STOP_REASON_FW_RESTART = false).
Proof.
  intros W Hs Hi Hn. unfold reboot. cbv zeta. pose proof (advance_seq_keeps wl W) as K1.
  set (w1 := advance_seq wl) in *. clearbody w1.
  pose proof (stop_queues_keeps WLCORE_QUEUE_STOP_REASON_FW_RESTART w1 (wk_inv _ _ K1)) as K2.
  set (w2 := wlcore_stop_queues _ w1) in *. clearbody w2. pose proof (work_keeps_trans _ _ _ K1 K2) as K.
  clear K1 K2 w1. destruct (wk_vifs _ _ K) as [Lv Kv Sv].
  destruct (remove_interfaces_spec turns fuel c w2 (wk_inv _ _ K)) as (w3 & -> & K3 & S3 & L3).
  - pose proof (wk_state _ _ K) as S. rewrite Hs in S. by destruct S as [?|[? _]].
  - intros v Hv. rewrite Lv in Hv. rewrite (kind_flag _ _ (Kv v)). by apply Hi.
  - by rewrite Lv.
  - cbn [obind]. destruct (op_stop_spec w3 (kc_inv _ _ K3) ltac:(by rewrite S3) L3) as [K4 P4].
    set (w4 := wlcore_op_stop_locked w3) in *. clearbody w4.
    pose proof (emit_keeps EvRestartHw w4 ltac:(done) (kc_inv _ _ K4)) as K5.
    assert (stopped (emit EvRestartHw w4)) as P5 by (by destruct P4).
    set (w5 := emit EvRestartHw w4) in *. clearbody w5.
    eexists. split; [done|]. split; [|split; [by apply wake_stopped|]].
    + etrans; [apply work_core, K|]. etrans; [exact K3|]. etrans; [exact K4|].
      etrans; [apply work_core, K5|]. apply work_core, wake_queues_keeps, K5.
    + intros q Hq. apply wake_queues_clear; [|done]. apply (inv_queues _ (wi_inv _ (wk_inv _ _ K5))).
Qed.

Lemma vifs_init_same wl wl' : same_vifs wl wl' -> vifs_init wl -> vifs_init wl'.
Proof. intros [L K] Hi v Hv. rewrite L in Hv. rewrite (kind_flag _ _ (K v)). by apply Hi. Qed.

Lemma recovery_done_keeps wl : work_inv wl -> work_keeps wl (recovery_done wl).
Proof.
  intros W. apply view_keeps; try done.
  etrans; [|by apply (clear_flag_view WL1271_FLAG_RECOVERY_IN_PROGRESS)]. by split.
Qed.

Lemma diagnostics_keeps c wl : work_inv wl -> exists wl',
  (if flag wl WL1271_FLAG_INTENDED_FW_RECOVERY then Ret wl
   else let* w := wl12xx_read_fwlog_panic c wl in Ret (wlcore_print_recovery w)) = Ret wl' /\
  work_keeps wl wl' /\
  (flag wl WL1271_FLAG_INTENDED_FW_RECOVERY = true -> wl' = wl).
Proof.
  intros W. destruct (flag wl WL1271_FLAG_INTENDED_FW_RECOVERY).
  - exists wl. split_and!; [done | by apply work_keeps_refl | done].
  - destruct (read_fwlog_panic_spec c wl W) as (w & -> & K). eexists. split_and!; [done | | done].
    keeps_via K. apply print_recovery_keeps, K.
Qed.

Lemma recovery_spec turns fuel c wl :
  work_inv wl -> state wl = WLCORE_STATE_RESTARTING -> plt wl = false -> vifs_init wl ->
  no_recovery (hw wl) = false ->
  bug_on_recovery (hw wl) = false \/ flag wl WL1271_FLAG_INTENDED_FW_RECOVERY = true ->
  (length (wlvif_list wl) <= turns)%nat ->
  exists wl', wl1271_recovery_work turns fuel c wl = Ret wl' /\
    keeps_core wl wl' /\ stopped wl' /\ watchdog_recovery wl' = false /\
    (forall q, is_queue q ->
       wlcore_is_queue_stopped_by_reason wl' q WLCORE_QUEUE_STOP_REASON_FW_RESTART = false).
Proof.
  intros W Hs Hp Hi Hnr Hb Hn. unfold wl1271_recovery_work. rewrite Hs, Hp.
  rewrite bool_decide_eq_false_2 by done. cbn [orb].
  destruct (diagnostics_keeps c wl W) as (w1 & -> & K1 & Hf). cbn [obind].
  assert (bug_on_recovery (hw w1) && negb (flag w1 WL1271_FLAG_INTENDED_FW_RECOVERY) = false) as ->.
  { destruct Hb as [Hb|Hb]; [by rewrite (wk_hw _ _ K1), Hb | by rewrite (Hf Hb), Hb, andb_false_r]. }
  rewrite (wk_hw _ _ K1), Hnr.
  destruct (reboot_spec turns fuel c w1 (wk_inv _ _ K1)) as (w2 & -> & K2 & P2 & Q2).
  - pose proof (wk_state _ _ K1) as S. rewrite Hs in S. by destruct S as [?|[? _]].
  - apply (vifs_init_same wl); [apply K1 | done].
  - by rewrite (sm_list _ _ (wk_vifs _ _ K1)).
  - cbn [obind]. exists (recovery_done w2). split_and!; try done; [|by apply done_stopped].
    etrans; [apply work_core, K1|]. etrans; [exact K2|]. apply work_core, recovery_done_keeps, K2.
Qed.

(** Whatever the module parameters, short of the one that asks for a crash. *)
Lemma recovery_keeps fuel c wl :
  work_inv wl -> vifs_init wl -> state wl <> WLCORE_STATE_ON -> bug_on_recovery (hw wl) = false ->
  exists wl', wl1271_recovery_work (length (wlvif_list wl)) fuel c wl = Ret wl' /\
    keeps_core wl wl' /\ vifs_init wl'.
Proof.
  intros W Hi Hs Hb.
  assert (forall w, work_keeps wl w -> exists wl', Ret (recovery_done w) = Ret wl' /\
    keeps_core wl wl' /\ vifs_init wl') as Done.
  { intros w K. exists (recovery_done w). pose proof (recovery_done_keeps w (wk_inv _ _ K)) as K2.
    pose proof (work_keeps_trans _ _ _ K K2) as K'. split_and!; [done | by apply work_core |].
    apply (vifs_init_same wl); [apply K' | done]. }
  destruct (bool_decide (state wl = WLCORE_STATE_OFF) || plt wl) eqn:E1.
  { unfold wl1271_recovery_work. rewrite E1. by apply Done, work_keeps_refl. }
  apply orb_false_iff in E1 as [E1 E2]. apply bool_decide_eq_false in E1.
  destruct (no_recovery (hw wl)) eqn:E3.
  - unfold wl1271_recovery_work. rewrite bool_decide_eq_false_2, E2 by done. cbn [orb].
    destruct (diagnostics_keeps c wl W) as (w1 & -> & K1 & _). cbn [obind].
    rewrite (wk_hw _ _ K1), Hb, E3. by apply Done.
  - destruct (recovery_spec (length (wlvif_list wl)) fuel c wl) as (wl' & -> & K & P & _); try done;
      [by destruct (state wl) | by left |].
    exists wl'. split_and!; [done..|]. intros v. by rewrite (sp_vifs _ P), elem_of_nil.
Qed.

Lemma need_fw_change_keeps k add wl : work_inv wl ->
  work_keeps wl (snd (wl12xx_need_fw_change k add wl)).
Proof.
  intros W. unfold wl12xx_need_fw_change. split_if; [by apply work_keeps_refl|].
  cbv zeta. repeat (split_if; [by apply view_keeps|]). by apply view_keeps.
Qed.

Lemma op_remove_interface_keeps fuel c k v wl : work_inv wl -> vifs_init wl -> no_dev_stop v wl ->
  exists wl', wl1271_op_remove_interface fuel c k v wl = Ret wl' /\ keeps_core wl wl' /\ vifs_init wl'.
Proof.
  intros W Hi Hd. unfold wl1271_op_remove_interface.
  destruct (bool_decide (state wl = WLCORE_STATE_OFF) || _) eqn:E1.
  { exists wl. split_and!; [done | by apply work_core, work_keeps_refl | done]. }
  apply orb_false_iff in E1 as [E1 E2]. apply bool_decide_eq_false in E1. apply negb_false_iff in E2.
  assert (exists w1, (if bool_decide (v ∈ wlvif_list wl)
    then __wl1271_op_remove_interface fuel c v wl else Ret wl) = Ret w1 /\ keeps_core wl w1 /\
    vifs_init w1) as (w1 & -> & K1 & I1).
  { case_bool_decide as Hin; [|exists wl; split_and!; [done | by apply work_core, work_keeps_refl | done]].
    destruct (remove_interface_spec fuel c v wl W Hin E2 E1 (or_intror Hd)) as (w & -> & K & L & _).
    exists w. split_and!; [done | by eapply but_core |]. intros x Hx. rewrite L in Hx.
    apply list_elem_of_filter in Hx as [Hne Hx]. rewrite (kind_flag _ _ (kb_kind _ _ _ K x Hne)). by apply Hi. }
  cbn [obind]. pose proof (need_fw_change_keeps k false w1 (kc_inv _ _ K1)) as K2.
  destruct (wl12xx_need_fw_change k false w1) as [change w2]. simpl in K2. eexists. split; [done|].
  assert (work_keeps w1 (if change then wl12xx_queue_recovery_work
    (set_flag WL1271_FLAG_INTENDED_FW_RECOVERY (wl12xx_force_active_psm w2)) else w2)) as K.
  { split_if; [|exact K2]. keeps_via K2. pose proof (force_active_psm_keeps w2 (wk_inv _ _ K2)) as K3.
    keeps_via K3. set (w3 := wl12xx_force_active_psm w2) in *. clearbody w3.
    assert (work_keeps w3 (set_flag WL1271_FLAG_INTENDED_FW_RECOVERY w3)) as K4
      by (apply view_keeps; try done; [apply K3 | by apply set_flag_view]).
    keeps_via K4. apply io_keeps; [apply K4 | apply queue_recovery_io_frame]. }
  split; [etrans; [exact K1 | by apply work_core] | apply (vifs_init_same w1); [apply K | done]].
Qed.

Lemma op_stop_keeps wl : work_inv wl -> wlvif_list wl = [] ->
  keeps_core wl (wlcore_op_stop_locked wl) /\ vifs_init (wlcore_op_stop_locked wl).
Proof.
  intros W Hl. destruct (decide (state wl = WLCORE_STATE_OFF)) as [Hs|Hs].
  - unfold wlcore_op_stop_locked. rewrite bool_decide_eq_true_2 by done.
    assert (work_keeps wl (balance_irq wl)) as K by (by apply view_keeps; [|apply balance_irq_view..]).
    split; [by apply work_core|]. intros v. by rewrite (sm_list _ _ (wk_vifs _ _ K)), Hl, elem_of_nil.
  - destruct (op_stop_spec wl W Hs Hl) as [K P]. split; [done|].
    intros v. by rewrite (sp_vifs _ P), elem_of_nil.
Qed.

End Recovery.
