(* ===== verification/VifData.v ===== *)
(** * The rate policies and templates of an interface

    [wl12xx_init_vif_data] takes the firmware's rate policies and templates an
    interface needs; its removal gives them back. *)

From S2P Require Import Prelude Ieee80211 WlState ChipOps Io Queues LinkQueues.
From S2P Require Import PowerSave TxPath TxAllocFacts TxSched TxInv SchedFacts TxMoves.
From S2P Require Import TxPrep TxWork TxDone TxDoneFacts FwStatus Rx Event Links Roles.
From S2P Require Import LinksFacts Iface.

(** A field of an interface that holds a rate policy: how it is read and set. *)
Record slot := Slot { s_get : wl12xx_vif -> Z; s_put : Z -> wl12xx_vif -> wl12xx_vif }.

Definition sta_slots : list slot :=
  [Slot sta_basic_rate_idx put_basic; Slot sta_ap_rate_idx put_ap; Slot sta_p2p_rate_idx put_p2p].
Definition ap_slots : list slot :=
  Slot ap_mgmt_rate_idx put_mgmt :: Slot ap_bcast_rate_idx put_bcast ::
  ((fun i => Slot (get_ucast i) (put_ucast i)) <$> zseq CONF_TX_MAX_AC_COUNT).

(** Those an interface of this type uses, and the policies they hold. *)
Definition slots (w : wl12xx_vif) : list slot := if is_sta_ibss w then sta_slots else ap_slots.
Definition policies (w : wl12xx_vif) : list Z := (fun s => s_get s w) <$> slots w.

Definition alloc_slots (v : nat) (l : list slot) (wl : wl1271) : wl1271 :=
  fold_left (fun wl s => alloc_policy v (s_get s) (s_put s) wl) l wl.
Definition free_slots (v : nat) (l : list slot) (wl : wl1271) : wl1271 :=
  fold_left (fun wl s => free_policy v (s_get s) (s_put s) wl) l wl.

(** Distinct slots are distinct fields. *)
Definition ucast_ok (w : wl12xx_vif) : Prop := zlen (ap_ucast_rate_idx w) = CONF_TX_MAX_AC_COUNT.

Record slots_ok (l : list slot) : Prop := {
  so_get i j s t x w : l !! i = Some s -> l !! j = Some t -> ucast_ok w ->
    s_get t (s_put s x w) = if decide (i = j) then x else s_get t w;
  so_wf i s x w : l !! i = Some s -> ucast_ok w -> ucast_ok (s_put s x w)
}.

Lemma sta_slots_ok : slots_ok sta_slots.
Proof.
  split.
  - intros [|[|[|i]]] [|[|[|j]]] s t x w Hi Hj _; simplify_eq/=; done.
  - intros [|[|[|i]]] s x w Hi; by simplify_eq/=.
Qed.

Lemma ap_slots_ok : slots_ok ap_slots.
Proof.
  split.
  - intros [|[|[|[|[|[|i]]]]]] [|[|[|[|[|[|j]]]]]] s t x w Hi Hj Hw; simplify_eq/=; try done;
      unfold ucast_ok, CONF_TX_MAX_AC_COUNT in Hw; unfold get_ucast; simpl;
      rewrite zget_zset by (rewrite Hw; lia); done.
  - intros [|[|[|[|[|[|i]]]]]] s x w Hi Hw; simplify_eq/=; try done;
      unfold ucast_ok; simpl; by rewrite zlen_zset.
Qed.

Lemma slots_of_ok w : slots_ok (slots w).
Proof. unfold slots. split_if; [apply sta_slots_ok | apply ap_slots_ok]. Qed.

(** ** Taking policies *)

(** The first [length vs] slots hold the policies [vs], taken from [m]. *)
Record taken (v : nat) (m : Z) (l : list slot) (vs : list Z) (wl : wl1271) : Prop := {
  tk_vif : is_Some (vifs wl !! v);
  tk_ucast : ucast_ok (vif_at wl v);
  tk_held k s : l !! k = Some s -> (k < length vs)%nat -> vs !! k = Some (s_get s (vif_at wl v));
  tk_range : Forall (fun p => 0 <= p < WL12XX_MAX_RATE_POLICIES /\ test_bit p m = false) vs;
  tk_nodup : NoDup vs;
  tk_map : rate_policies_map wl = foldr set_bit m vs
}.

Lemma test_foldr_set m vs p : Forall (fun p => 0 <= p) vs ->
  test_bit p (foldr set_bit m vs) = bool_decide (p ∈ vs) || test_bit p m.
Proof.
  induction 1 as [|x vs Hx _ IH]; [done|]. simpl. rewrite test_set_bit, IH, orb_assoc by done. f_equal.
  apply eq_true_iff_eq. rewrite orb_true_iff, Z.eqb_eq, !bool_decide_eq_true, elem_of_cons. naive_solver.
Qed.

Lemma weight_foldr m vs n : Forall (fun p => 0 <= p < n /\ test_bit p m = false) vs -> NoDup vs ->
  weight (foldr set_bit m vs) n = weight m n + Z.of_nat (length vs).
Proof.
  induction 1 as [|x vs [Hx Hm] Hvs IH]; [simpl; lia|]. intros [Hn Hnd]%NoDup_cons. simpl.
  rewrite weight_set, IH; [lia | done | done |].
  rewrite test_foldr_set by (eapply Forall_impl; [exact Hvs | simpl; lia]).
  by rewrite bool_decide_eq_false_2, Hm by done.
Qed.

Lemma foldr_set_snoc m vs p : Forall (fun p => 0 <= p) vs -> 0 <= p ->
  set_bit p (foldr set_bit m vs) = foldr set_bit m (vs ++ [p]).
Proof.
  intros Hvs Hp. apply Z.bits_inj. intros j.
  change (test_bit j (set_bit p (foldr set_bit m vs)) = test_bit j (foldr set_bit m (vs ++ [p]))).
  rewrite test_set_bit, !test_foldr_set by (done || by apply Forall_app; repeat constructor).
  rewrite orb_assoc. f_equal. apply eq_true_iff_eq.
  rewrite orb_true_iff, Z.eqb_eq, !bool_decide_eq_true, elem_of_app, list_elem_of_singleton. naive_solver.
Qed.

Lemma range_nonneg m n vs : Forall (fun p => 0 <= p < n /\ test_bit p m = false) vs ->
  Forall (fun p => 0 <= p) vs.
Proof. intros H. eapply Forall_impl; [exact H|]. simpl. lia. Qed.

(** While policies are free, the next slot gets one. *)
Lemma alloc_taken v m l vs s wl : slots_ok l -> taken v m l vs wl -> l !! length vs = Some s ->
  weight m WL12XX_MAX_RATE_POLICIES + Z.of_nat (length vs) < WL12XX_MAX_RATE_POLICIES ->
  exists p, taken v m l (vs ++ [p]) (alloc_policy v (s_get s) (s_put s) wl).
Proof.
  intros L [Tv Tu Th Tr Tn Tm] Hs Hw. pose proof (range_nonneg _ _ _ Tr) as Hnn.
  unfold alloc_policy, wl12xx_allocate_rate_policy.
  destruct (find_first_zero_bit_spec (rate_policies_map wl) WL12XX_MAX_RATE_POLICIES ltac:(done)) as (R1 & R2 & R3).
  set (p := find_first_zero_bit _ _) in *. clearbody p. cbv zeta in *.
  assert (p < WL12XX_MAX_RATE_POLICIES) as Hp.
  { destruct (Z.lt_ge_cases p WL12XX_MAX_RATE_POLICIES); [done|].
    pose proof (weight_full (rate_policies_map wl) WL12XX_MAX_RATE_POLICIES ltac:(done)
      (fun i Hi => R2 i ltac:(lia))) as F. rewrite Tm, weight_foldr in F by done. lia. }
  rewrite (proj2 (Z.leb_gt _ _)) by done. exists p. specialize (R3 Hp).
  rewrite Tm, test_foldr_set in R3 by done. apply orb_false_iff in R3 as [Rn Rm].
  apply bool_decide_eq_false in Rn.
  assert (vif_at (upd_vif v (s_put s p) (wl <| rate_policies_map ::= set_bit p |>)) v
    = s_put s p (vif_at wl v)) as E by (by rewrite vif_at_upd, decide_True by done).
  split; rewrite ?E.
  - by apply lookup_alter_is_Some.
  - by apply (so_wf _ L (length vs)).
  - intros k t Ht Hk. rewrite length_app in Hk. simpl in Hk. rewrite (so_get _ L _ _ _ _ _ _ Hs Ht) by done.
    case_decide as Ek; [subst k; by rewrite list_lookup_middle|].
    rewrite lookup_app_l by lia. apply Th; [done | lia].
  - apply Forall_app. split; [done|]. repeat constructor; try done; lia.
  - apply NoDup_app. split_and!; [done | intros x Hx ->%list_elem_of_singleton; done | apply NoDup_singleton].
  - change (set_bit p (rate_policies_map wl) = foldr set_bit m (vs ++ [p])). rewrite Tm.
    apply foldr_set_snoc; [done | lia].
Qed.

Lemma alloc_slots_taken v m l : slots_ok l -> forall todo vs wl,
  drop (length vs) l = todo -> taken v m l vs wl ->
  weight m WL12XX_MAX_RATE_POLICIES + Z.of_nat (length l) <= WL12XX_MAX_RATE_POLICIES ->
  exists vs', length vs' = Nat.max (length vs) (length l) /\ taken v m l vs' (alloc_slots v todo wl).
Proof.
  intros L. induction todo as [|s todo IH]; intros vs wl Hd T Hw.
  - exists vs. split; [|done]. apply (f_equal length) in Hd. rewrite length_drop in Hd. simpl in Hd. lia.
  - assert (l !! length vs = Some s) as Hs.
    { rewrite <- (Nat.add_0_r (length vs)), <- lookup_drop, Hd. done. }
    pose proof (lookup_lt_Some _ _ _ Hs) as Hlt.
    destruct (alloc_taken v m l vs s wl L T Hs) as (p & T'); [lia|].
    destruct (IH (vs ++ [p]) (alloc_policy v (s_get s) (s_put s) wl)) as (vs' & E & T2); try done.
    + rewrite length_app. simpl. rewrite <- drop_drop, Hd. done.
    + exists vs'. split; [|done]. rewrite E, length_app. simpl. lia.
Qed.

(** ** Giving them back *)

(** Slots [k] and up hold their policies still. *)
Record held (v : nat) (m : Z) (l : list slot) (vs : list Z) (k : nat) (wl : wl1271) : Prop := {
  hd_vif : is_Some (vifs wl !! v);
  hd_ucast : ucast_ok (vif_at wl v);
  hd_held j s : l !! j = Some s -> (k <= j)%nat -> vs !! j = Some (s_get s (vif_at wl v));
  hd_map : rate_policies_map wl = foldr set_bit m (drop k vs)
}.

Lemma taken_held v m l vs wl : length vs = length l -> taken v m l vs wl -> held v m l vs 0 wl.
Proof.
  intros E T. split; [apply T | apply T | | apply (tk_map _ _ _ _ _ T)].
  intros j s Hj _. apply (tk_held _ _ _ _ _ T); [done|]. rewrite E. by eapply lookup_lt_Some.
Qed.

Lemma free_held v m l vs k s wl : slots_ok l ->
  Forall (fun p => 0 <= p < WL12XX_MAX_RATE_POLICIES /\ test_bit p m = false) vs -> NoDup vs ->
  held v m l vs k wl -> l !! k = Some s -> held v m l vs (S k) (free_policy v (s_get s) (s_put s) wl).
Proof.
  intros L R N [Hv Hu Hh Hm] Hs. pose proof (Hh k s Hs (le_n k)) as Hp. unfold free_policy, wl12xx_free_rate_policy.
  set (p := s_get s (vif_at wl v)) in *.
  destruct (proj1 (Forall_lookup _ _) R k p Hp) as [Rp Rm]. rewrite (proj2 (Z.leb_gt _ _)) by lia.
  assert (vif_at (upd_vif v (s_put s WL12XX_MAX_RATE_POLICIES) (wl <| rate_policies_map ::= clear_bit p |>)) v
    = s_put s WL12XX_MAX_RATE_POLICIES (vif_at wl v)) as E by (by rewrite vif_at_upd, decide_True by done).
  split; rewrite ?E.
  - by apply lookup_alter_is_Some.
  - by apply (so_wf _ L k).
  - intros j t Ht Hj. rewrite (so_get _ L _ _ _ _ _ _ Hs Ht) by done.
    rewrite decide_False by lia. apply Hh; [done | lia].
  - change (clear_bit p (rate_policies_map wl) = foldr set_bit m (drop (S k) vs)).
    rewrite Hm, (drop_S vs p k Hp). apply clear_set_bit; [lia|].
    rewrite test_foldr_set by (eapply range_nonneg, Forall_drop, R).
    rewrite Rm, orb_false_r. apply bool_decide_eq_false. intros Hin.
    rewrite <- (take_drop k vs), (drop_S vs p k Hp) in N.
    apply NoDup_app in N as (_ & _ & [Hn _]%NoDup_cons). done.
Qed.

Lemma free_slots_held v m l vs : slots_ok l -> length vs = length l ->
  Forall (fun p => 0 <= p < WL12XX_MAX_RATE_POLICIES /\ test_bit p m = false) vs -> NoDup vs ->
  forall todo k wl, drop k l = todo -> held v m l vs k wl -> rate_policies_map (free_slots v todo wl) = m.
Proof.
  intros L El R N. induction todo as [|s todo IH]; intros k wl Hd H.
  - change (rate_policies_map wl = m). rewrite (hd_map _ _ _ _ _ _ H), drop_ge; [done|].
    apply (f_equal length) in Hd. rewrite length_drop in Hd. simpl in Hd. lia.
  - assert (l !! k = Some s) as Hs by (by rewrite <- (Nat.add_0_r k), <- lookup_drop, Hd).
    apply (IH (S k) (free_policy v (s_get s) (s_put s) wl)); [|by apply free_held].
    rewrite <- Nat.add_1_r, <- drop_drop, Hd. done.
Qed.

(** ** What else the slots leave alone *)

(** The type of the interface and its template. *)
Definition rest (w : wl12xx_vif) : bss_types * Z := (bss_type w, sta_klv_template_id w).

Lemma rest_type w u : rest w = rest u -> bss_type w = bss_type u.
Proof. intros E. exact (f_equal fst E). Qed.

Definition keeps_rest (v : nat) (wl wl' : wl1271) : Prop :=
  klv_templates_map wl' = klv_templates_map wl /\
  (is_Some (vifs wl !! v) -> is_Some (vifs wl' !! v) /\ rest (vif_at wl' v) = rest (vif_at wl v)).

#[export] Instance keeps_rest_refl v : Reflexive (keeps_rest v).
Proof. by split. Qed.

#[export] Instance keeps_rest_trans v : Transitive (keeps_rest v).
Proof.
  intros a b c [E1 R1] [E2 R2]. split; [congruence|]. intros H. destruct (R1 H) as [H1 <-]. by apply R2.
Qed.

Lemma upd_vif_rest v f wl : (forall w, rest (f w) = rest w) -> keeps_rest v wl (upd_vif v f wl).
Proof.
  intros Hf. split; [done|]. intros Hv. split; [by apply lookup_alter_is_Some|].
  by rewrite vif_at_upd, decide_True.
Qed.

Lemma map_rest v m wl : keeps_rest v wl (wl <| rate_policies_map ::= m |>).
Proof. by split. Qed.

Lemma slots_rest w s x u : s ∈ slots w -> rest (s_put s x u) = rest u.
Proof.
  unfold slots. split_if; intros Hs;
    repeat (apply elem_of_cons in Hs as [->|Hs]; [done|]); by apply elem_of_nil in Hs.
Qed.

Lemma alloc_slots_rest v l wl : (forall s x u, s ∈ l -> rest (s_put s x u) = rest u) ->
  keeps_rest v wl (alloc_slots v l wl).
Proof.
  intros Hl. unfold alloc_slots. apply (fold_left_inv (keeps_rest v wl)); [done|]. intros w s Hs K.
  etrans; [exact K|]. unfold alloc_policy, wl12xx_allocate_rate_policy.
  split_if; [|etrans; [apply (map_rest v)|]]; apply upd_vif_rest; intros; by apply Hl.
Qed.

Lemma free_slots_rest v l wl : (forall s x u, s ∈ l -> rest (s_put s x u) = rest u) ->
  keeps_rest v wl (free_slots v l wl).
Proof.
  intros Hl. unfold free_slots. apply (fold_left_inv (keeps_rest v wl)); [done|]. intros w s Hs K.
  etrans; [exact K|]. unfold free_policy, wl12xx_free_rate_policy.
  split_if; [|etrans; [apply (map_rest v)|]]; apply upd_vif_rest; intros; by apply Hl.
Qed.

(** ** The two halves of [wl12xx_init_vif_data] and their undoing *)

(** The interface holds as many policies as its type asks for, none of them
    taken before. *)
Definition holds (v : nat) (m : Z) (wl : wl1271) : Prop :=
  exists vs, length vs = length (slots (vif_at wl v)) /\ taken v m (slots (vif_at wl v)) vs wl.

Lemma slots_type w u : bss_type w = bss_type u -> slots w = slots u.
Proof. intros E. unfold slots, is_sta_ibss, is_sta. by rewrite E. Qed.

Lemma slots_rest_eq w u : rest w = rest u -> slots w = slots u.
Proof. intros E. apply slots_type. exact (f_equal fst E). Qed.

(** The fields that hold policies, and the type. *)
Definition policy_fields (w : wl12xx_vif) :=
  (bss_type w, (sta_basic_rate_idx w, sta_ap_rate_idx w, sta_p2p_rate_idx w),
   (ap_mgmt_rate_idx w, ap_bcast_rate_idx w, ap_ucast_rate_idx w)).

Lemma slot_fields w u s : policy_fields w = policy_fields u -> s ∈ slots w -> s_get s w = s_get s u.
Proof.
  unfold policy_fields. intros E Hs. simplify_eq. unfold slots in Hs. destruct (is_sta_ibss w);
    repeat (apply elem_of_cons in Hs as [->|Hs]; [simpl; unfold get_ucast; congruence|]);
    by apply elem_of_nil in Hs.
Qed.

(** Updates of other fields. *)
Lemma holds_same v m wl wl' : is_Some (vifs wl' !! v) ->
  policy_fields (vif_at wl' v) = policy_fields (vif_at wl v) ->
  rate_policies_map wl' = rate_policies_map wl -> holds v m wl -> holds v m wl'.
Proof.
  intros Hv' E Em (vs & El & [Tv Tu Th Tr Tn Tm]). exists vs.
  assert (bss_type (vif_at wl' v) = bss_type (vif_at wl v)) as Et by (by injection E).
  rewrite (slots_type _ _ Et). split; [done|]. split; try done; [| |congruence].
  - unfold ucast_ok. injection E as _ _ _ _ _ _ ->. exact Tu.
  - intros k s Hs Hk. rewrite (slot_fields _ (vif_at wl v)); [by apply Th | done |].
    rewrite (slots_type _ _ Et). by eapply list_elem_of_lookup_2.
Qed.

Lemma holds_upd v m f wl : (forall w, policy_fields (f w) = policy_fields w) ->
  holds v m wl -> holds v m (upd_vif v f wl).
Proof.
  intros Hf H. assert (is_Some (vifs wl !! v)) as Hv by (destruct H as (vs & _ & T); apply T).
  apply (holds_same v m wl); [by apply lookup_alter_is_Some | | done | done].
  by rewrite vif_at_upd, decide_True.
Qed.

Lemma alloc_slots_holds v wl : is_Some (vifs wl !! v) -> ucast_ok (vif_at wl v) ->
  weight (rate_policies_map wl) WL12XX_MAX_RATE_POLICIES + Z.of_nat (length (slots (vif_at wl v)))
    <= WL12XX_MAX_RATE_POLICIES ->
  let wl' := alloc_slots v (slots (vif_at wl v)) wl in
  holds v (rate_policies_map wl) wl' /\ keeps_rest v wl wl'.
Proof.
  intros Hv Hu Hw. cbv zeta. set (l := slots (vif_at wl v)) in *.
  assert (keeps_rest v wl (alloc_slots v l wl)) as R
    by (apply alloc_slots_rest; intros s x u; by apply slots_rest).
  split; [|done]. destruct (alloc_slots_taken v (rate_policies_map wl) l (slots_of_ok _) l [] wl) as (vs & El & T);
    [done | | done |].
  - split; try done; [|apply NoDup_nil_2]. intros k s _ Hk. simpl in Hk. lia.
  - destruct (proj2 R Hv) as [_ Er]. exists vs. rewrite (slots_rest_eq _ _ Er). by split.
Qed.

Lemma free_slots_holds v m wl : holds v m wl -> rate_policies_map (free_slots v (slots (vif_at wl v)) wl) = m.
Proof.
  intros (vs & El & T). apply (free_slots_held v m (slots (vif_at wl v)) vs (slots_of_ok _) El
    (tk_range _ _ _ _ _ T) (tk_nodup _ _ _ _ _ T) _ 0); [done | by apply taken_held].
Qed.

Lemma holds_policies v m wl : holds v m wl ->
  NoDup (policies (vif_at wl v)) /\
  Forall (fun p => 0 <= p < WL12XX_MAX_RATE_POLICIES /\ test_bit p m = false) (policies (vif_at wl v)) /\
  rate_policies_map wl = foldr set_bit m (policies (vif_at wl v)).
Proof.
  intros (vs & El & [Tv Tu Th Tr Tn Tm]).
  assert (policies (vif_at wl v) = vs) as ->; [|done].
  apply list_eq. intros k. unfold policies. rewrite list_lookup_fmap.
  destruct (slots (vif_at wl v) !! k) as [s|] eqn:Ek; simpl.
  - rewrite (Th k s Ek); [done|]. rewrite El. by eapply lookup_lt_Some.
  - symmetry. apply lookup_ge_None. rewrite El. by apply lookup_ge_None.
Qed.

(** ** The template *)

(** With [k] taken from [m], the interface has its template. *)
Definition templated (v : nat) (m k : Z) (wl : wl1271) : Prop :=
  klv_templates_map wl = set_bit k m /\ 0 <= k < WLCORE_MAX_KLV_TEMPLATES /\
  test_bit k m = false /\ sta_klv_template_id (vif_at wl v) = k.

Lemma alloc_klv v wl : is_Some (vifs wl !! v) ->
  weight (klv_templates_map wl) WLCORE_MAX_KLV_TEMPLATES < WLCORE_MAX_KLV_TEMPLATES ->
  let '(_, idx, wl') := wlcore_allocate_klv_template (sta_klv_template_id (vif_at wl v)) wl in
  templated v (klv_templates_map wl) idx
    (upd_vif v (fun w => w <| sta_klv_template_id := idx |>) wl') /\ vifs wl' = vifs wl /\
  rate_policies_map wl' = rate_policies_map wl.
Proof.
  intros Hv Hw. unfold wlcore_allocate_klv_template.
  destruct (find_first_zero_bit_spec (klv_templates_map wl) WLCORE_MAX_KLV_TEMPLATES ltac:(done)) as (R1 & R2 & R3).
  set (k := find_first_zero_bit _ _) in *. clearbody k. cbv zeta in *.
  destruct (Z.leb_spec WLCORE_MAX_KLV_TEMPLATES k) as [Hk|Hk].
  { pose proof (weight_full (klv_templates_map wl) WLCORE_MAX_KLV_TEMPLATES ltac:(done)
      (fun i Hi => R2 i ltac:(lia))) as F. lia. }
  split; [|done]. split_and!; try done; [lia | by apply R3 |].
  by rewrite vif_at_upd, decide_True by done.
Qed.

Lemma templated_rest v m k wl wl' : is_Some (vifs wl !! v) -> keeps_rest v wl wl' ->
  templated v m k wl -> templated v m k wl'.
Proof.
  intros Hv [E R] (T1 & T2 & T3 & T4). destruct (R Hv) as [_ Er]. unfold templated. rewrite E.
  split_and!; try done; try lia. rewrite <- T4. exact (f_equal snd Er).
Qed.

Lemma free_klv v m k wl : templated v m k wl ->
  klv_templates_map (snd (wlcore_free_klv_template (sta_klv_template_id (vif_at wl v)) wl)) = m.
Proof.
  intros (T1 & T2 & T3 & ->). unfold wlcore_free_klv_template. rewrite (proj2 (Z.leb_gt _ _)) by lia.
  simpl. rewrite T1. apply clear_set_bit; [lia | done].
Qed.

(** ** The whole of both *)

(** The fields [wl12xx_init_vif_data] sets before and after the policies. *)
Definition policy_need (type : nl80211_iftype) : Z :=
  match type with NL80211_IFTYPE_P2P_GO | NL80211_IFTYPE_AP => 6 | _ => 3 end.

Section SlotLoops.
Context {A : Type} (F : (wl12xx_vif -> Z) -> (Z -> wl12xx_vif -> wl12xx_vif) -> A -> A).

Lemma sta_slots_loop a :
  F sta_p2p_rate_idx put_p2p (F sta_ap_rate_idx put_ap (F sta_basic_rate_idx put_basic a))
  = fold_left (fun a s => F (s_get s) (s_put s) a) sta_slots a.
Proof. reflexivity. Qed.

Lemma ap_slots_loop a :
  for_range CONF_TX_MAX_AC_COUNT (fun i => F (get_ucast i) (put_ucast i))
    (F ap_bcast_rate_idx put_bcast (F ap_mgmt_rate_idx put_mgmt a))
  = fold_left (fun a s => F (s_get s) (s_put s) a) ap_slots a.
Proof. reflexivity. Qed.
End SlotLoops.

Lemma sta_slots_alloc v wl :
  alloc_policy v sta_p2p_rate_idx put_p2p
    (alloc_policy v sta_ap_rate_idx put_ap (alloc_policy v sta_basic_rate_idx put_basic wl))
  = alloc_slots v sta_slots wl.
Proof. exact (sta_slots_loop (alloc_policy v) wl). Qed.

Lemma sta_slots_free v wl :
  free_policy v sta_p2p_rate_idx put_p2p
    (free_policy v sta_ap_rate_idx put_ap (free_policy v sta_basic_rate_idx put_basic wl))
  = free_slots v sta_slots wl.
Proof. exact (sta_slots_loop (free_policy v) wl). Qed.

Lemma ap_slots_alloc v wl :
  for_range CONF_TX_MAX_AC_COUNT (fun i => alloc_policy v (get_ucast i) (put_ucast i))
    (alloc_policy v ap_bcast_rate_idx put_bcast (alloc_policy v ap_mgmt_rate_idx put_mgmt wl))
  = alloc_slots v ap_slots wl.
Proof. exact (ap_slots_loop (alloc_policy v) wl). Qed.

Lemma ap_slots_free v wl :
  for_range CONF_TX_MAX_AC_COUNT (fun i => free_policy v (get_ucast i) (put_ucast i))
    (free_policy v ap_bcast_rate_idx put_bcast (free_policy v ap_mgmt_rate_idx put_mgmt wl))
  = free_slots v ap_slots wl.
Proof. exact (ap_slots_loop (free_policy v) wl). Qed.

Lemma init_sta_spec v wl : is_Some (vifs wl !! v) -> ucast_ok (vif_at wl v) ->
  is_sta_ibss (vif_at wl v) = true ->
  weight (rate_policies_map wl) WL12XX_MAX_RATE_POLICIES + 3 <= WL12XX_MAX_RATE_POLICIES ->
  weight (klv_templates_map wl) WLCORE_MAX_KLV_TEMPLATES < WLCORE_MAX_KLV_TEMPLATES ->
  let wl' := init_sta_data v wl in
  holds v (rate_policies_map wl) wl' /\ is_sta_ibss (vif_at wl' v) = true /\
  exists k, templated v (klv_templates_map wl) k wl'.
Proof.
  intros Hv Hu Ht Hw Hk. cbv zeta. unfold init_sta_data. cbv zeta.
  set (w1 := upd_vif v _ wl).
  assert (vif_at w1 v = (vif_at wl v) <| sta_hlid := WL12XX_INVALID_LINK_ID |>) as E1
    by (unfold w1; by rewrite vif_at_upd, decide_True).
  assert (is_Some (vifs w1 !! v)) as Hv1 by (by apply lookup_alter_is_Some).
  rewrite sta_slots_alloc.
  assert (slots (vif_at w1 v) = sta_slots) as Es
    by (rewrite E1, (slots_type _ (vif_at wl v)) by done; unfold slots; by rewrite Ht).
  pose proof (alloc_slots_holds v w1 Hv1) as A. rewrite Es in A. rewrite E1 in A.
  destruct (A Hu Hw) as [H2 R2]. destruct R2 as [Ek R2]. destruct (R2 Hv1) as [Hv2 Er].
  rewrite E1 in Er. change (klv_templates_map w1) with (klv_templates_map wl) in Ek.
  change (rate_policies_map w1) with (rate_policies_map wl) in H2.
  set (w2 := alloc_slots v sta_slots w1) in *. clearbody w2. clear A E1 w1 Hv1 Es R2.
  assert (bss_type (vif_at w2 v) = bss_type (vif_at wl v)) as Et by exact (rest_type _ _ Er).
  pose proof (alloc_klv v w2 Hv2) as A. rewrite Ek in A. specialize (A Hk).
  destruct (wlcore_allocate_klv_template _ w2) as [[r idx] w3]. destruct A as (T3 & Ev & Em).
  assert (is_Some (vifs w3 !! v)) as Hv3 by (by rewrite Ev).
  assert (vif_at w3 v = vif_at w2 v) as E3 by (unfold vif_at; by rewrite Ev).
  assert (holds v (rate_policies_map wl) w3) as H3 by (apply (holds_same v _ w2); [done | by rewrite E3 | done | done]).
  split_and!.
  - do 2 (apply holds_upd; [done|]). done.
  - rewrite !vif_at_upd, !decide_True by (done || by apply lookup_alter_is_Some). rewrite E3.
    unfold is_sta_ibss, is_sta in *. simpl. by rewrite Et.
  - exists idx. eapply templated_rest; [| |exact T3]; [by apply lookup_alter_is_Some|].
    by apply upd_vif_rest.
Qed.

Lemma ap_slots_spec v wl : is_Some (vifs wl !! v) -> ucast_ok (vif_at wl v) ->
  is_sta_ibss (vif_at wl v) = false ->
  weight (rate_policies_map wl) WL12XX_MAX_RATE_POLICIES + 6 <= WL12XX_MAX_RATE_POLICIES ->
  let wl' := alloc_slots v ap_slots wl in
  holds v (rate_policies_map wl) wl' /\ bss_type (vif_at wl' v) = bss_type (vif_at wl v) /\
  klv_templates_map wl' = klv_templates_map wl.
Proof.
  intros Hv Hu Ht Hw. cbv zeta.
  assert (slots (vif_at wl v) = ap_slots) as Es by (unfold slots; by rewrite Ht).
  pose proof (alloc_slots_holds v wl Hv Hu) as A. rewrite Es in A.
  destruct (A Hw) as [H2 [Ek R2]]. destruct (R2 Hv) as [_ Er].
  split_and!; [exact H2 | exact (rest_type _ _ Er) | exact Ek].
Qed.

Lemma init_ap_eq v wl : init_ap_data v wl =
  upd_vif v (set_rates CONF_TX_AP_ENABLED_RATES) (alloc_slots v ap_slots
    (upd_vif v (fun w => w <| ap_bcast_hlid := WL12XX_INVALID_LINK_ID |>
                           <| ap_global_hlid := WL12XX_INVALID_LINK_ID |>) wl)).
Proof.
  unfold init_ap_data. cbv zeta.
  apply (f_equal (upd_vif v (set_rates CONF_TX_AP_ENABLED_RATES))), ap_slots_alloc.
Qed.

Lemma ap_wrap v r wl : is_Some (vifs wl !! v) -> ucast_ok (vif_at wl v) ->
  is_sta_ibss (vif_at wl v) = false ->
  weight (rate_policies_map wl) WL12XX_MAX_RATE_POLICIES + 6 <= WL12XX_MAX_RATE_POLICIES ->
  let wl' := upd_vif v (set_rates r) (alloc_slots v ap_slots wl) in
  holds v (rate_policies_map wl) wl' /\ is_sta_ibss (vif_at wl' v) = false /\
  klv_templates_map wl' = klv_templates_map wl.
Proof.
  intros Hv Hu Ht Hw. destruct (ap_slots_spec v wl Hv Hu Ht Hw) as (H2 & Et & Ek). cbv zeta.
  generalize dependent (alloc_slots v ap_slots wl). intros w2 H2 Et Ek.
  assert (is_Some (vifs w2 !! v)) as Hv2 by (destruct H2 as (? & _ & T); apply T).
  split; [|split; [|exact Ek]].
  - by apply holds_upd.
  - rewrite vif_at_upd, decide_True by done. unfold is_sta_ibss, is_sta in *. simpl. by rewrite Et.
Qed.

Lemma init_ap_spec v wl : is_Some (vifs wl !! v) -> ucast_ok (vif_at wl v) ->
  is_sta_ibss (vif_at wl v) = false ->
  weight (rate_policies_map wl) WL12XX_MAX_RATE_POLICIES + 6 <= WL12XX_MAX_RATE_POLICIES ->
  let wl' := init_ap_data v wl in
  holds v (rate_policies_map wl) wl' /\ is_sta_ibss (vif_at wl' v) = false /\
  klv_templates_map wl' = klv_templates_map wl.
Proof.
  intros Hv Hu Ht Hw. cbv zeta. rewrite init_ap_eq.
  match goal with |- context [alloc_slots v ap_slots ?x] => pose proof (ap_wrap v CONF_TX_AP_ENABLED_RATES x) as A;
    assert (vif_at x v = (vif_at wl v) <| ap_bcast_hlid := WL12XX_INVALID_LINK_ID |>
      <| ap_global_hlid := WL12XX_INVALID_LINK_ID |>) as E1 by (by rewrite vif_at_upd, decide_True) end.
  rewrite E1 in A. apply A; [by apply lookup_alter_is_Some | exact Hu | exact Ht | exact Hw].
Qed.

(** What is set before and after the policies, whatever the type. *)
Definition typed_vif (is_p2p : bool) (type : bss_types) (w : wl12xx_vif) : wl12xx_vif :=
  (clear_vif w) <| p2p := is_p2p |> <| bss_type := type |> <| role_id := WL12XX_INVALID_ROLE_ID |>
    <| dev_role_id := WL12XX_INVALID_ROLE_ID |> <| dev_hlid := WL12XX_INVALID_LINK_ID |>.

Definition common_vif (wl : wl1271) (w : wl12xx_vif) : wl12xx_vif :=
  w <| bitrate_masks := [conf_basic_rate (hw wl); conf_basic_rate_5 (hw wl)] |>
    <| beacon_int := WL1271_DEFAULT_BEACON_INT |> <| vif_band := wl_band wl |>
    <| vif_channel := wl_channel wl |> <| vif_power_level := wl_power_level wl |>
    <| vif_channel_type := wl_channel_type wl |>.

Definition kind_of (type : nl80211_iftype) : bool * bss_types :=
  match type with
  | NL80211_IFTYPE_P2P_CLIENT => (true, BSS_TYPE_STA_BSS)
  | NL80211_IFTYPE_STATION => (false, BSS_TYPE_STA_BSS)
  | NL80211_IFTYPE_ADHOC => (false, BSS_TYPE_IBSS)
  | NL80211_IFTYPE_P2P_GO => (true, BSS_TYPE_AP_BSS)
  | NL80211_IFTYPE_AP => (false, BSS_TYPE_AP_BSS)
  | NL80211_IFTYPE_OTHER => (false, MAX_BSS_TYPE)
  end.

Definition init_half (v : nat) (wl : wl1271) : wl1271 :=
  if is_sta_ibss (vif_at wl v) then init_sta_data v wl else init_ap_data v wl.

Lemma init_vif_data_eq v type wl : type <> NL80211_IFTYPE_OTHER ->
  exists w1, wl12xx_init_vif_data v type wl
    = (0, upd_vif v (common_vif (init_half v w1)) (init_half v w1)) /\
    vifs w1 = alter (typed_vif (fst (kind_of type)) (snd (kind_of type))) v (vifs wl) /\
    rate_policies_map w1 = rate_policies_map wl /\ klv_templates_map w1 = klv_templates_map wl.
Proof.
  intros Ht.
  exists (upd_vif v (fun w => w <| p2p := fst (kind_of type) |> <| bss_type := snd (kind_of type) |>
      <| role_id := WL12XX_INVALID_ROLE_ID |> <| dev_role_id := WL12XX_INVALID_ROLE_ID |>
      <| dev_hlid := WL12XX_INVALID_LINK_ID |>) (upd_vif v clear_vif wl)).
  split; [unfold wl12xx_init_vif_data, init_half; destruct type; [exact eq_refl..|done]|].
  split_and!; [|done..].
  apply alter_alter_eq.
Qed.

Lemma vif_data_spec v type wl : type <> NL80211_IFTYPE_OTHER -> is_Some (vifs wl !! v) ->
  weight (rate_policies_map wl) WL12XX_MAX_RATE_POLICIES + policy_need type <= WL12XX_MAX_RATE_POLICIES ->
  weight (klv_templates_map wl) WLCORE_MAX_KLV_TEMPLATES < WLCORE_MAX_KLV_TEMPLATES ->
  exists wl', wl12xx_init_vif_data v type wl = (0, wl') /\
    holds v (rate_policies_map wl) wl' /\
    if is_sta_ibss (vif_at wl' v) then exists k, templated v (klv_templates_map wl) k wl'
    else klv_templates_map wl' = klv_templates_map wl.
Proof.
  intros Ht Hv Hw Hk. destruct (init_vif_data_eq v type wl Ht) as (w1 & -> & Ev & Em & Ek).
  assert (is_Some (vifs w1 !! v)) as Hv1 by (rewrite Ev; by apply lookup_alter_is_Some).
  assert (vif_at w1 v = typed_vif (fst (kind_of type)) (snd (kind_of type)) (vif_at wl v)) as E1.
  { destruct Hv as [w Hw']. unfold vif_at. rewrite Ev, !lookup_total_alt, lookup_alter_eq, Hw'. done. }
  rewrite <- Em, <- Ek in *. clear Em Ek Ev Hv. eexists. split; [done|].
  assert (ucast_ok (vif_at w1 v)) as Hu by (by rewrite E1).
  assert (holds v (rate_policies_map w1) (init_half v w1) /\
    if is_sta_ibss (vif_at (init_half v w1) v) then exists k, templated v (klv_templates_map w1) k (init_half v w1)
    else klv_templates_map (init_half v w1) = klv_templates_map w1) as [H2 T2].
  { unfold init_half. destruct (is_sta_ibss (vif_at w1 v)) eqn:Es.
    - destruct (init_sta_spec v w1 Hv1 Hu Es) as (H & -> & k & T); [|done | by eauto].
      destruct type; simpl in Hw; lia || by rewrite E1 in Es.
    - destruct (init_ap_spec v w1 Hv1 Hu Es) as (H & -> & T); [|by split].
      destruct type; simpl in Hw; lia || by rewrite E1 in Es. }
  generalize dependent (init_half v w1). intros w2 H2 T2.
  assert (is_Some (vifs w2 !! v)) as Hv2 by (destruct H2 as (? & _ & T); apply T).
  assert (keeps_rest v w2 (upd_vif v (common_vif w2) w2)) as R by (by apply upd_vif_rest).
  split; [by apply holds_upd|]. destruct (proj2 R Hv2) as [_ Er].
  unfold is_sta_ibss, is_sta in *. rewrite (rest_type _ _ Er).
  split_if; [|by rewrite (proj1 R)]. destruct T2 as [k T2]. exists k. by eapply templated_rest.
Qed.

(** ** Giving everything back *)

Lemma free_slots_spec v m wl : holds v m wl ->
  let wl' := free_slots v (slots (vif_at wl v)) wl in rate_policies_map wl' = m /\ keeps_rest v wl wl'.
Proof.
  intros H. split; [by apply free_slots_holds|]. apply free_slots_rest. intros s x u. apply slots_rest.
Qed.

Lemma deinit_sta_eq v wl : is_sta_ibss (vif_at wl v) = true -> is_Some (vifs wl !! v) ->
  exists w1, keeps_rest v wl w1 /\ (forall m, holds v m wl -> holds v m w1) /\
    deinit_ids v wl =
      let w2 := free_slots v (slots (vif_at w1 v)) w1 in
      let '(idx, w3) := wlcore_free_klv_template (sta_klv_template_id (vif_at w2 v)) w2 in
      upd_vif v (fun w => w <| sta_klv_template_id := idx |>) w3.
Proof.
  intros Ht Hv. unfold deinit_ids. cbv zeta. set (w0 := upd_vif v _ wl).
  assert (keeps_rest v wl w0) as R0 by (by apply upd_vif_rest).
  assert (forall m, holds v m wl -> holds v m w0) as H0 by (intros m; by apply holds_upd).
  clearbody w0. destruct (proj2 R0 Hv) as [Hv0 Er].
  assert (is_sta_ibss (vif_at w0 v) = true) as ->.
  { unfold is_sta_ibss, is_sta in *. by rewrite (rest_type _ _ Er). }
  set (w1 := upd_vif v _ w0). exists w1.
  assert (keeps_rest v w0 w1) as R1 by (by apply upd_vif_rest). destruct (proj2 R1 Hv0) as [_ Er1].
  split; [by etrans|]. split; [intros m H; apply holds_upd; [done | by apply H0]|].
  rewrite sta_slots_free. assert (slots (vif_at w1 v) = sta_slots) as ->; [|done].
  rewrite (slots_rest_eq _ _ Er1), (slots_rest_eq _ _ Er). unfold slots. by rewrite Ht.
Qed.

Lemma deinit_ap_eq v wl : is_sta_ibss (vif_at wl v) = false -> is_Some (vifs wl !! v) ->
  exists w1, keeps_rest v wl w1 /\ (forall m, holds v m wl -> holds v m w1) /\
    deinit_ids v wl = wl1271_free_ap_keys v (free_slots v (slots (vif_at w1 v)) w1).
Proof.
  intros Ht Hv. unfold deinit_ids. cbv zeta. set (w0 := upd_vif v _ wl).
  assert (keeps_rest v wl w0) as R0 by (by apply upd_vif_rest).
  assert (forall m, holds v m wl -> holds v m w0) as H0 by (intros m; by apply holds_upd).
  clearbody w0. destruct (proj2 R0 Hv) as [Hv0 Er].
  assert (is_sta_ibss (vif_at w0 v) = false) as ->.
  { unfold is_sta_ibss, is_sta in *. by rewrite (rest_type _ _ Er). }
  set (w1 := upd_vif v _ w0). exists w1.
  assert (keeps_rest v w0 w1) as R1 by (by apply upd_vif_rest). destruct (proj2 R1 Hv0) as [_ Er1].
  split; [by etrans|]. split; [intros m H; apply holds_upd; [done | by apply H0]|].
  rewrite ap_slots_free. assert (slots (vif_at w1 v) = ap_slots) as ->; [|done].
  rewrite (slots_rest_eq _ _ Er1), (slots_rest_eq _ _ Er). unfold slots. by rewrite Ht.
Qed.

(** What an interface took is given back to the last bit. *)
Lemma deinit_spec v m mk wl : holds v m wl ->
  (if is_sta_ibss (vif_at wl v) then exists k, templated v mk k wl else klv_templates_map wl = mk) ->
  rate_policies_map (deinit_ids v wl) = m /\ klv_templates_map (deinit_ids v wl) = mk.
Proof.
  intros H T. assert (is_Some (vifs wl !! v)) as Hv by (destruct H as (? & _ & X); apply X).
  destruct (is_sta_ibss (vif_at wl v)) eqn:Ht.
  - destruct (deinit_sta_eq v wl Ht Hv) as (w1 & R1 & H1 & ->). destruct T as [k T].
    destruct (free_slots_spec v m w1 (H1 m H)) as [Em R2]. cbv zeta in *.
    generalize dependent (free_slots v (slots (vif_at w1 v)) w1). intros w2 Em R2.
    assert (templated v mk k w2) as T2 by (eapply templated_rest; [exact Hv | by etrans | exact T]).
    pose proof (free_klv v mk k w2 T2) as Ek. unfold wlcore_free_klv_template in *.
    split_if; by split.
  - destruct (deinit_ap_eq v wl Ht Hv) as (w1 & R1 & H1 & ->).
    destruct (free_slots_spec v m w1 (H1 m H)) as [Em R2]. cbv zeta in *.
    generalize dependent (free_slots v (slots (vif_at w1 v)) w1). intros w2 Em R2.
    split; [exact Em|]. change (klv_templates_map w2 = mk). by rewrite (proj1 R2), (proj1 R1).
Qed.
