(* ===== verification/Keys.v ===== *)
(** * Keys (wlcore/main.c, wlcore/cmd.c)

    Keys from mac80211.  Those of an access point that does not run yet are
    recorded and set when it starts; the others go to the firmware at once.
    A key that changes the spare blocks of a packet is set with the queues
    stopped and empty. *)

From S2P Require Import Prelude Ieee80211 WlState ChipOps Io Queues LinkQueues.
From S2P Require Import PowerSave TxPath TxAllocFacts TxSched TxInv SchedFacts TxMoves.
From S2P Require Import TxPrep TxWork TxDone TxDoneFacts FwStatus Rx Event Links Roles Iface.

Definition MAX_KEY_SIZE := 32.

(** [enum wl1271_cmd_key_action], [enum wl1271_cmd_lid_key_type] and
    [enum wl1271_cmd_key_type] *)
Definition KEY_ADD_OR_REPLACE := 1.
Definition KEY_REMOVE := 2.
Definition UNICAST_LID_TYPE := 0.
Definition BROADCAST_LID_TYPE := 1.
Definition WEP_DEFAULT_LID_TYPE := 2.
Definition KEY_NONE := 0.
Definition KEY_WEP := 1.
Definition KEY_TKIP := 2.
Definition KEY_AES := 3.
Definition KEY_GEM := 4.

Definition IEEE80211_KEY_FLAG_PUT_IV_SPACE := BIT 5.
Definition CMD_TEMPL_ARP_RSP := 15.
Definition WL1271_CMD_TEMPL_MAX_SIZE := 512.
Definition WL1271_EXTRA_SPACE_AES := 8.
Definition rfc1042_header : list Z := [0xaa; 0xaa; 0x03; 0; 0; 0].
Definition ETH_P_ARP_BE : list Z := [0x08; 0x06].
Definition ETH_P_IP_BE : list Z := [0x08; 0x00].

(** [enum set_key_cmd] *)
Inductive set_key_cmd := SET_KEY | DISABLE_KEY.

#[export] Instance set_key_cmd_eq_dec : EqDecision set_key_cmd.
Proof. solve_decision. Defined.

Definition WL1271_TX_SECURITY_LO16 (s : Z) : Z := u16 (Z.land s 0xffff).
Definition WL1271_TX_SECURITY_HI32 (s : Z) : Z := u32 (Z.land (Z.shiftr s 16) 0xffffffff).

Definition bcast_addr : list Z := [0xff; 0xff; 0xff; 0xff; 0xff; 0xff].
Definition is_zero_ether_addr (addr : list Z) : bool := bool_decide (addr = [0; 0; 0; 0; 0; 0]).
Definition is_broadcast_ether_addr (addr : list Z) : bool := bool_decide (addr = bcast_addr).

(** The [key] field of [struct wl1271_cmd_set_keys]: for TKIP the target
    expects the RX MIC before the TX MIC. *)
Definition cmd_key (key_type key_size : Z) (key : list Z) : list Z :=
  let bytes :=
    if key_type =? KEY_TKIP then take 16 key ++ take 8 (drop 24 key) ++ take 8 (drop 16 key)
    else take (Z.to_nat key_size) key in
  bytes ++ replicate (Z.to_nat MAX_KEY_SIZE - length bytes) 0.

(** ** Recorded keys *)

(** The first free entry, unless an entry before it has the same [id]. *)
Fixpoint free_key_entry (id i : Z) (keys : list (option wl1271_ap_key)) : option Z :=
  match keys with
  | [] => Some i
  | None :: _ => Some i
  | Some k :: keys => if ak_id k =? id then None else free_key_entry id (i + 1) keys
  end.

Definition wl1271_record_ap_key (v : nat) (id key_type key_size : Z) (key : list Z)
    (hlid tx_seq_32 tx_seq_16 : Z) (wl : wl1271) : Z * wl1271 :=
  if MAX_KEY_SIZE <? key_size then (- EINVAL, wl)
  else
    match free_key_entry id 0 (ap_recorded_keys (vif_at wl v)) with
    | None => (- EINVAL, wl)
    | Some i =>
        if i =? MAX_NUM_KEYS then (- EBUSY, wl)
        else
          let ap_key := {| ak_id := id; ak_key_type := key_type; ak_key_size := key_size;
                           ak_key := take (Z.to_nat key_size) key
                             ++ replicate (Z.to_nat MAX_KEY_SIZE - Z.to_nat key_size) 0;
                           ak_hlid := hlid; ak_tx_seq_32 := tx_seq_32;
                           ak_tx_seq_16 := tx_seq_16 |} in
          (0, upd_vif v (fun w => w <| ap_recorded_keys ::= fun l => zset l i (Some ap_key) |>) wl)
    end.

Section Keys.
Context `{ops : wlcore_ops}.

(** ** Commands *)

Definition wl12xx_cmd_set_default_wep_key (id hlid : Z) (wl : wl1271) : Z * wl1271 :=
  wl1271_cmd_send (CMD_SET_DEFAULT_WEP_KEY id hlid) wl.

Definition wl1271_cmd_set_sta_key (v : nat) (action id key_type key_size : Z) (key addr : list Z)
    (tx_seq_32 tx_seq_16 : Z) (wl : wl1271) : Z * wl1271 :=
  let w := vif_at wl v in
  if sta_hlid w =? WL12XX_INVALID_LINK_ID then (0, wl)
  else
    let lid_key_type :=
      if key_type =? KEY_WEP then WEP_DEFAULT_LID_TYPE
      else if is_broadcast_ether_addr addr then BROADCAST_LID_TYPE else UNICAST_LID_TYPE in
    wl1271_cmd_send (CMD_SET_KEYS (sta_hlid w) lid_key_type id action key_size key_type
                       (cmd_key key_type key_size key) tx_seq_16 tx_seq_32) wl.

Definition wl1271_cmd_set_ap_key (v : nat) (action id key_type key_size : Z) (key : list Z)
    (hlid tx_seq_32 tx_seq_16 : Z) (wl : wl1271) : Z * wl1271 :=
  let lid_type :=
    if hlid =? ap_bcast_hlid (vif_at wl v)
    then if key_type =? KEY_WEP then WEP_DEFAULT_LID_TYPE else BROADCAST_LID_TYPE
    else UNICAST_LID_TYPE in
  wl1271_cmd_send (CMD_SET_KEYS hlid lid_type id action key_size key_type
                     (cmd_key key_type key_size key) tx_seq_16 tx_seq_32) wl.

Definition wl1271_cmd_template_set (role_id template_id : Z) (buf : list Z) (index rates : Z)
    (wl : wl1271) : Z * wl1271 :=
  wl1271_cmd_send (CMD_SET_TEMPLATE role_id template_id rates index
    (tmpl_short_retry_limit (hw wl)) (tmpl_long_retry_limit (hw wl))
    (take (Z.to_nat WL1271_CMD_TEMPL_MAX_SIZE) buf)) wl.

(** [struct wl12xx_arp_rsp_template]: LLC and ARP headers, sender and (empty) target. *)
Definition arp_rsp_template (w : wl12xx_vif) : list Z :=
  rfc1042_header ++ ETH_P_ARP_BE
  ++ [0; 1] ++ ETH_P_IP_BE ++ [ETH_ALEN; 4] ++ [0; 2]
  ++ vif_addr w ++ ip_addr w ++ replicate 6 0 ++ replicate 4 0.

Definition arp_fc (w : wl12xx_vif) : Z :=
  Z.lor (Z.lor IEEE80211_FTYPE_DATA IEEE80211_FCTL_TODS)
    (Z.lor (if sta_qos w then IEEE80211_STYPE_QOS_DATA else 0)
       (if encryption_type w =? KEY_NONE then 0 else IEEE80211_FCTL_PROTECTED)).

(** The header, the QoS field and the space for the cipher, in front of it. *)
Definition arp_rsp_frame (extra : Z) (w : wl12xx_vif) : list Z :=
  le_bytes 2 (arp_fc w) ++ [0; 0] ++ vif_bssid w ++ vif_addr w ++ bcast_addr ++ [0; 0]
  ++ (if sta_qos w then [0; 0] else []) ++ replicate (Z.to_nat extra) 0 ++ arp_rsp_template w.

Definition wl1271_cmd_build_arp_rsp (v : nat) (wl : wl1271) : Z * wl1271 :=
  let w := vif_at wl v in
  let extra :=
    if encryption_type w =? KEY_TKIP
    then Some (if has_quirk wl WLCORE_QUIRK_TKIP_HEADER_SPACE then WL1271_EXTRA_SPACE_TKIP else 0)
    else if encryption_type w =? KEY_AES then Some WL1271_EXTRA_SPACE_AES
    else if (encryption_type w =? KEY_NONE) || (encryption_type w =? KEY_WEP)
            || (encryption_type w =? KEY_GEM) then Some 0
    else None in
  match extra with
  | None => (- EINVAL, wl)
  | Some extra =>
      wl1271_cmd_template_set (role_id w) CMD_TEMPL_ARP_RSP (arp_rsp_frame extra w) 0 (basic_rate w) wl
  end.

(** ** Setting the recorded keys *)

(** One key to its link; a key recorded without one is for the broadcast link. *)
Definition set_recorded_key (v : nat) (k : wl1271_ap_key) (wl : wl1271) : Z * wl1271 :=
  let hlid := if ak_hlid k =? WL12XX_INVALID_LINK_ID then ap_bcast_hlid (vif_at wl v) else ak_hlid k in
  wl1271_cmd_set_ap_key v KEY_ADD_OR_REPLACE (ak_id k) (ak_key_type k) (ak_key_size k) (ak_key k)
    hlid (ak_tx_seq_32 k) (ak_tx_seq_16 k) wl.

(** The loop of [wl1271_ap_init_hwenc], and whether it set a WEP key. *)
Fixpoint replay_keys (v : nat) (keys : list (option wl1271_ap_key)) (ret : Z) (wep_key_added : bool)
    (wl : wl1271) : Z * bool * wl1271 :=
  match keys with
  | [] | None :: _ => (ret, wep_key_added, wl)
  | Some k :: keys =>
      let '(ret, wl) := set_recorded_key v k wl in
      if ret <? 0 then (ret, wep_key_added, wl)
      else replay_keys v keys ret (wep_key_added || (ak_key_type k =? KEY_WEP)) wl
  end.

Definition wl1271_ap_init_hwenc (v : nat) (wl : wl1271) : Z * wl1271 :=
  let '(ret, wep_key_added, wl) := replay_keys v (ap_recorded_keys (vif_at wl v)) 0 false wl in
  let '(ret, wl) :=
    if ret <? 0 then (ret, wl)
    else if wep_key_added then
      wl12xx_cmd_set_default_wep_key (u8 (default_key (vif_at wl v))) (ap_bcast_hlid (vif_at wl v)) wl
    else (ret, wl) in
  (ret, wl1271_free_ap_keys v wl).

(** ** Setting a key *)

Definition wl1271_set_key (v : nat) (action id key_type key_size : Z) (key : list Z)
    (tx_seq_32 tx_seq_16 : Z) (sta : option ieee80211_sta) (wl : wl1271) : Z * wl1271 :=
  let w := vif_at wl v in
  if is_ap w then
    let hlid := match sta with Some s => wl_sta_hlid s | None => ap_bcast_hlid w end in
    if negb (vif_flag w WLVIF_FLAG_AP_STARTED) && negb (action =? KEY_ADD_OR_REPLACE) then (0, wl)
    else
      let '(ret, wl) :=
        if negb (vif_flag w WLVIF_FLAG_AP_STARTED)
        then wl1271_record_ap_key v id key_type key_size key hlid tx_seq_32 tx_seq_16 wl
        else wl1271_cmd_set_ap_key v action id key_type key_size key hlid tx_seq_32 tx_seq_16 wl in
      if ret <? 0 then (ret, wl) else (0, wl)
  else
    let addr := match sta with Some s => sta_addr s | None => bcast_addr end in
    if is_zero_ether_addr addr then (- EOPNOTSUPP, wl)
    else if (action =? KEY_REMOVE) && negb (is_broadcast_ether_addr addr) then (0, wl)
    else if (action =? KEY_REMOVE) && (sta_hlid w =? WL12XX_INVALID_LINK_ID) then (0, wl)
    else
      let '(ret, wl) :=
        wl1271_cmd_set_sta_key v action id key_type key_size key addr tx_seq_32 tx_seq_16 wl in
      if ret <? 0 then (ret, wl) else (0, wl).

(** The firmware's type of a cipher, what the driver writes into mac80211's key,
    and whether the key has a sequence number. *)
Definition key_of_cipher (k : key_conf) : option (Z * key_conf * bool) :=
  if (cipher k =? WLAN_CIPHER_SUITE_WEP40) || (cipher k =? WLAN_CIPHER_SUITE_WEP104)
  then Some (KEY_WEP, k <| hw_key_idx := u8 (keyidx k) |>, false)
  else if cipher k =? WLAN_CIPHER_SUITE_TKIP
  then Some (KEY_TKIP, k <| hw_key_idx := u8 (keyidx k) |>, true)
  else if cipher k =? WLAN_CIPHER_SUITE_CCMP
  then Some (KEY_AES, k <| key_flags ::= fun f => Z.lor f IEEE80211_KEY_FLAG_PUT_IV_SPACE |>, true)
  else if cipher k =? WL1271_CIPHER_SUITE_GEM then Some (KEY_GEM, k, true)
  else None.

(** "reconfiguring arp response if the unicast (or common) encryption key type
    was changed" *)
Definition rekey_arp (v : nat) (key_type : Z) (sta : option ieee80211_sta) (ret : Z) (wl : wl1271)
    : Z * wl1271 :=
  let w := vif_at wl v in
  if is_sta w && (bool_decide (is_Some sta) || (key_type =? KEY_WEP))
     && negb (encryption_type w =? key_type)
  then wl1271_cmd_build_arp_rsp v (upd_vif v (fun w => w <| encryption_type := key_type |>) wl)
  else (ret, wl).

Definition wlcore_set_key (cmd : set_key_cmd) (v : nat) (sta : option ieee80211_sta) (k : key_conf)
    (wl : wl1271) : Z * key_conf * wl1271 :=
  if dummy_p2p (vif_at wl v) then (0, k, wl)
  else
    match key_of_cipher k with
    | None => (- EOPNOTSUPP, k, wl)
    | Some (key_type, k, has_seq) =>
        let seq := tx_security_seq (vif_at wl v) in
        let tx_seq_32 := if has_seq then WL1271_TX_SECURITY_HI32 seq else 0 in
        let tx_seq_16 := if has_seq then WL1271_TX_SECURITY_LO16 seq else 0 in
        match cmd with
        | SET_KEY =>
            let '(ret, wl) := wl1271_set_key v KEY_ADD_OR_REPLACE (u8 (keyidx k)) key_type (keylen k)
                                (key_data k) tx_seq_32 tx_seq_16 sta wl in
            if ret <? 0 then (ret, k, wl)
            else let '(ret, wl) := rekey_arp v key_type sta ret wl in (ret, k, wl)
        | DISABLE_KEY =>
            let '(ret, wl) := wl1271_set_key v KEY_REMOVE (u8 (keyidx k)) key_type (keylen k)
                                (key_data k) 0 0 sta wl in
            (ret, k, wl)
        end
    end.

Definition wl1271_op_set_default_key_idx (completed : Z) (v : nat) (key_idx : Z) (wl : wl1271)
    : Z * wl1271 :=
  if dummy_p2p (vif_at wl v) then (0, wl)
  else if negb (bool_decide (state wl = WLCORE_STATE_ON)) then (- EAGAIN, wl)
  else
    let '(ret, wl) := wl1271_ps_elp_wakeup completed wl in
    if ret <? 0 then (ret, wl)
    else
      let wl := upd_vif v (fun w => w <| default_key := u32 key_idx |>) wl in
      let '(ret, wl) :=
        if encryption_type (vif_at wl v) =? KEY_WEP
        then wl12xx_cmd_set_default_wep_key (u8 key_idx) (sta_hlid (vif_at wl v)) wl
        else (ret, wl) in
      (ret, wl1271_ps_elp_sleep wl).

End Keys.

(** ** The chip family's hook *)

(** [wlcore_hw_set_key]: what a chip family does to set a key. *)
Class key_ops := { set_key : set_key_cmd -> nat -> option ieee80211_sta -> key_conf -> wl1271 ->
                             Z * key_conf * wl1271 }.

Section OpSetKey.
Context `{ops : wlcore_ops} `{kops : key_ops}.

Definition might_change_spare (k : key_conf) : bool :=
  (cipher k =? WL1271_CIPHER_SUITE_GEM) || (cipher k =? WLAN_CIPHER_SUITE_TKIP).

(** The part under [wl->mutex]. *)
Definition set_key_locked (completed : Z) (cmd : set_key_cmd) (v : nat) (sta : option ieee80211_sta)
    (k : key_conf) (wl : wl1271) : Z * key_conf * wl1271 :=
  if negb (bool_decide (state wl = WLCORE_STATE_ON)) then (- EAGAIN, k, wl)
  else
    let '(ret, wl) := wl1271_ps_elp_wakeup completed wl in
    if ret <? 0 then (ret, k, wl)
    else
      let '(ret, k, wl) := set_key cmd v sta k wl in
      (ret, k, wl1271_ps_elp_sleep wl).

(** [fuel] and [rounds] are those of [wl1271_tx_flush]. *)
Definition wlcore_op_set_key (fuel : nat) (rounds : list (Z * (wl1271 -> wl1271))) (completed : Z)
    (cmd : set_key_cmd) (v : nat) (sta : option ieee80211_sta) (k : key_conf) (wl : wl1271)
    : outcome (Z * key_conf * wl1271) :=
  let might := might_change_spare k in
  let* wl :=
    if might
    then wl1271_tx_flush fuel rounds (wlcore_stop_queues WLCORE_QUEUE_STOP_REASON_SPARE_BLK wl)
    else Ret wl in
  let '(ret, k, wl) := set_key_locked completed cmd v sta k wl in
  Ret (ret, k, if might then wlcore_wake_queues WLCORE_QUEUE_STOP_REASON_SPARE_BLK wl else wl).

End OpSetKey.
