(* ===== verification/KeysFacts.v ===== *)
(** * Setting keys keeps the invariant, and the record of keys is well formed *)

From S2P Require Import Prelude Ieee80211 WlState ChipOps Io Mailbox Queues LinkQueues.
From S2P Require Import PowerSave TxPath TxAllocFacts TxSched TxInv SchedFacts TxMoves.
From S2P Require Import TxPrep TxWork TxDone TxDoneFacts FwStatus Rx Event EventFacts Links.
From S2P Require Import Roles LinksFacts RolesFacts BaFacts Iface IfaceFacts Recovery Keys.

(** ** The record of keys *)

(** A recorded key is no longer than its field, which is that of the command. *)
Definition key_fits (k : wl1271_ap_key) : Prop :=
  ak_key_size k <= MAX_KEY_SIZE /\ length (ak_key k) = Z.to_nat MAX_KEY_SIZE.

(** The keys [ks] are recorded: without a gap, under distinct identifiers, none
    longer than the field of the command it will be sent in. *)
Record recorded (ks : list wl1271_ap_key) (w : wl12xx_vif) : Prop := {
  rc_entries : ap_recorded_keys w = (Some <$> ks) ++ replicate (Z.to_nat MAX_NUM_KEYS - length ks) None;
  rc_length : Z.of_nat (length ks) <= MAX_NUM_KEYS;
  rc_ids : NoDup (ak_id <$> ks);
  rc_sizes : Forall key_fits ks
}.

Lemma free_key_entry_spec id ks n : forall i,
  free_key_entry id i ((Some <$> ks) ++ replicate n None)
  = if bool_decide (id ∈ ak_id <$> ks) then None else Some (i + Z.of_nat (length ks)).
Proof.
  induction ks as [|k ks IH]; intros i.
  - rewrite bool_decide_eq_false_2 by apply not_elem_of_nil. simpl. rewrite Z.add_0_r. by destruct n.
  - rewrite !fmap_cons. simpl. destruct (Z.eqb_spec (ak_id k) id) as [E|E].
    + rewrite bool_decide_eq_true_2; [done|]. rewrite E. by left.
    + rewrite IH. destruct (decide (id ∈ ak_id <$> ks)) as [Hin|Hn].
      * rewrite !bool_decide_eq_true_2; [done | by right | done].
      * rewrite !bool_decide_eq_false_2; [f_equal; lia | | done].
        intros [?|?]%elem_of_cons; [congruence | done].
Qed.

(** Putting a key in the first free entry appends it. *)
Lemma record_entry ks (k : wl1271_ap_key) : Z.of_nat (length ks) < MAX_NUM_KEYS ->
  zset ((Some <$> ks) ++ replicate (Z.to_nat MAX_NUM_KEYS - length ks) None)
    (Z.of_nat (length ks)) (Some k)
  = (Some <$> (ks ++ [k])) ++ replicate (Z.to_nat MAX_NUM_KEYS - length (ks ++ [k])) None.
Proof.
  intros Hl. unfold zset. rewrite (proj2 (Z.ltb_ge _ _)), Nat2Z.id by lia.
  rewrite fmap_app, length_app. csimpl.
  replace (Z.to_nat MAX_NUM_KEYS - length ks)%nat
    with (S (Z.to_nat MAX_NUM_KEYS - (length ks + 1)))%nat by lia. csimpl.
  rewrite insert_app_r_alt by (by rewrite length_fmap). rewrite length_fmap, Nat.sub_diag.
  simpl. by rewrite <- app_assoc.
Qed.

(** What is recorded of a key: everything the command will need. *)
Record key_fields (id key_type key_size : Z) (key : list Z) (hlid s32 s16 : Z) (k : wl1271_ap_key) : Prop := {
  kf_id : ak_id k = id;
  kf_type : ak_key_type k = key_type;
  kf_size : ak_key_size k = key_size;
  kf_key : ak_key k = take (Z.to_nat key_size) key ++ replicate (Z.to_nat (MAX_KEY_SIZE - key_size)) 0;
  kf_hlid : ak_hlid k = hlid;
  kf_seq : ak_tx_seq_32 k = s32 /\ ak_tx_seq_16 k = s16
}.

(** Recording a key appends it, or says why not and changes nothing. *)
Lemma record_ap_key_spec v id key_type key_size key hlid s32 s16 wl ks :
  is_Some (vifs wl !! v) -> recorded ks (vif_at wl v) -> 0 <= key_size <= zlen key ->
  let '(ret, wl') := wl1271_record_ap_key v id key_type key_size key hlid s32 s16 wl in
  (ret = 0 /\ exists k, key_fields id key_type key_size key hlid s32 s16 k /\
     recorded (ks ++ [k]) (vif_at wl' v)) \/
  (wl' = wl /\ ret = - EINVAL /\ (MAX_KEY_SIZE < key_size \/ id ∈ ak_id <$> ks)) \/
  (wl' = wl /\ ret = - EBUSY /\ Z.of_nat (length ks) = MAX_NUM_KEYS).
Proof.
  intros Hv [E L N S] Hz. unfold wl1271_record_ap_key.
  destruct (Z.ltb_spec MAX_KEY_SIZE key_size) as [Hk|Hk]; [right; left; auto|].
  rewrite E, free_key_entry_spec. case_bool_decide as Hid; [right; left; auto|].
  rewrite Z.add_0_l. destruct (Z.eqb_spec (Z.of_nat (length ks)) MAX_NUM_KEYS) as [Hf|Hf]; [by right; right|].
  left. split; [done|]. cbv zeta. set (k := Build_wl1271_ap_key _ _ _ _ _ _ _). exists k.
  split.
  { split; try done. simpl. do 2 f_equal. unfold MAX_KEY_SIZE in *. lia. }
  rewrite vif_at_upd, decide_True by done. split; simpl.
  - rewrite E. apply record_entry. lia.
  - rewrite length_app. simpl. lia.
  - rewrite fmap_app. apply NoDup_app. split_and!; [done | | apply NoDup_singleton].
    intros x Hx ->%list_elem_of_singleton. done.
  - apply Forall_app. split; [done|]. constructor; [|constructor]. split; [done|]. simpl.
    rewrite length_app, length_take, length_replicate. unfold zlen, MAX_KEY_SIZE in *. lia.
Qed.

Lemma clear_entries (l : list (option wl1271_ap_key)) : zlen l = MAX_NUM_KEYS ->
  fold_left (fun l i => zset l i None) (zseq MAX_NUM_KEYS) l = replicate (Z.to_nat MAX_NUM_KEYS) None.
Proof.
  intros Hl. pose proof (for_range_ind (fun n l' => zlen l' = MAX_NUM_KEYS /\
    forall i, 0 <= i < n -> zget None l' i = (None : option wl1271_ap_key)) MAX_NUM_KEYS
    (fun i l => zset l i None) l ltac:(done)) as F.
  destruct F as [L Z]; [by split; [|lia] | |].
  - intros l' i Hi [L Z]. split; [by rewrite zlen_zset|]. intros j Hj. rewrite zget_zset by lia.
    destruct (Z.eqb_spec i j); [done | apply Z; lia].
  - unfold for_range in *. set (r := fold_left _ _ l) in *. clearbody r.
    apply list_eq. intros i. destruct (decide (i < Z.to_nat MAX_NUM_KEYS)%nat) as [Hi|Hi].
    + rewrite lookup_replicate_2 by done. specialize (Z (Z.of_nat i) ltac:(unfold MAX_NUM_KEYS in *; lia)).
      destruct (lookup_lt_is_Some_2 r i) as [x Hx]; [unfold zlen, MAX_NUM_KEYS in *; lia|].
      rewrite (zget_lookup _ _ _ _ Hx) in Z. by rewrite Hx, Z.
    + rewrite !lookup_ge_None_2; [done | rewrite length_replicate; lia | unfold zlen, MAX_NUM_KEYS in *; lia].
Qed.

Lemma recorded_len ks w : recorded ks w -> zlen (ap_recorded_keys w) = MAX_NUM_KEYS.
Proof.
  intros [-> L _ _]. unfold zlen. rewrite length_app, length_fmap, length_replicate. lia.
Qed.

(** Afterwards nothing is recorded. *)
Lemma free_ap_keys_spec v wl : is_Some (vifs wl !! v) ->
  zlen (ap_recorded_keys (vif_at wl v)) = MAX_NUM_KEYS ->
  recorded [] (vif_at (wl1271_free_ap_keys v wl) v).
Proof.
  intros Hv Hl. unfold wl1271_free_ap_keys. rewrite vif_at_upd, decide_True by done.
  split; simpl; [by apply clear_entries | done | apply NoDup_nil_2 | constructor].
Qed.

Section KeyFacts.
Context `{laws : wlcore_ops_laws}.

(** ** The recorded keys are all set, in order *)

Definition is_wep (k : wl1271_ap_key) : bool := ak_key_type k =? KEY_WEP.

(** The link a recorded key is for: the broadcast link if it has none. *)
Definition key_link (w : wl12xx_vif) (k : wl1271_ap_key) : Z :=
  if bool_decide (ak_hlid k = WL12XX_INVALID_LINK_ID) then ap_bcast_hlid w else ak_hlid k.

(** The firmware's kind of key: for one link, for all of them, or a WEP key for all. *)
Definition key_kind (w : wl12xx_vif) (k : wl1271_ap_key) : Z :=
  if negb (bool_decide (key_link w k = ap_bcast_hlid w)) then UNICAST_LID_TYPE
  else if is_wep k then WEP_DEFAULT_LID_TYPE else BROADCAST_LID_TYPE.

(** The bytes of the key for the firmware, which wants the two MIC halves of a
    TKIP key the other way round, in a field of 32 bytes. *)
Definition key_bytes (k : wl1271_ap_key) : list Z :=
  let used := if ak_key_type k =? KEY_TKIP
    then (fun i => zget 0 (ak_key k) (if i <? 16 then i else if i <? 24 then i + 8 else i - 8)) <$> zseq 32
    else take (Z.to_nat (ak_key_size k)) (ak_key k) in
  used ++ replicate (32 - length used) 0.

Definition key_command (w : wl12xx_vif) (k : wl1271_ap_key) : fw_cmd :=
  CMD_SET_KEYS (key_link w k) (key_kind w k) (ak_id k) KEY_ADD_OR_REPLACE (ak_key_size k) (ak_key_type k)
    (key_bytes k) (ak_tx_seq_16 k) (ak_tx_seq_32 k).

(** All that starting the encryption has to tell the firmware. *)
Definition key_commands (w : wl12xx_vif) (ks : list wl1271_ap_key) : list fw_cmd :=
  (key_command w <$> ks)
  ++ if existsb is_wep ks then [CMD_SET_DEFAULT_WEP_KEY (u8 (default_key w)) (ap_bcast_hlid w)] else [].

Lemma key_bytes_cmd k : key_fits k -> key_bytes k = cmd_key (ak_key_type k) (ak_key_size k) (ak_key k).
Proof.
  intros [_ L]. unfold key_bytes, cmd_key. change (Z.to_nat MAX_KEY_SIZE) with 32%nat in *. split_if; [|done].
  destruct k as [? ? ? l ? ? ?]. simpl in *. do 32 (destruct l as [|? l]; [discriminate L|]).
  destruct l; [done | discriminate L].
Qed.

Lemma set_recorded_key_cmd v k wl : key_fits k ->
  set_recorded_key v k wl = wl1271_cmd_send (key_command (vif_at wl v) k) wl.
Proof.
  intros F. unfold set_recorded_key, wl1271_cmd_set_ap_key, key_command, key_kind, key_link, is_wep.
  rewrite key_bytes_cmd by done. cbv zeta.
  assert (forall a b : Z, (a =? b) = bool_decide (a = b)) as Q
    by (intros a b; destruct (Z.eqb_spec a b); symmetry; [by apply bool_decide_eq_true_2 | by apply bool_decide_eq_false_2]).
  rewrite !(Q _ WL12XX_INVALID_LINK_ID), !(Q _ (ap_bcast_hlid _)). by destruct (bool_decide (_ = ap_bcast_hlid _)).
Qed.

Lemma set_recorded_key_io v k wl : io_frame wl (snd (set_recorded_key v k wl)).
Proof. apply cmd_send_io_frame. Qed.

Lemma replay_io v keys : forall ret wep wl, io_frame wl (snd (replay_keys v keys ret wep wl)).
Proof.
  induction keys as [|[k|] keys IH]; intros ret wep wl; simpl; try reflexivity.
  pose proof (set_recorded_key_io v k wl) as F. destruct (set_recorded_key v k wl) as [r w]. simpl in F.
  split_if; [exact F|]. etrans; [exact F | apply IH].
Qed.

(** The mailbox saw all of [cs], or some of them and then the one that failed. *)
Definition told (cs : list fw_cmd) (ret : Z) (wl wl' : wl1271) : Prop :=
  (0 <= ret -> sent wl' = twice cs ++ sent wl) /\
  (ret < 0 -> exists before c after n, cs = before ++ c :: after /\ (n <= 2)%nat /\
     sent wl' = replicate n c ++ twice before ++ sent wl).

Context `{!mailbox_laws ops}.

Lemma told_cons c cs r wl w ret wl' : wl1271_cmd_send c wl = (r, w) -> 0 <= r ->
  told cs ret w wl' -> told (c :: cs) ret wl wl'.
Proof.
  intros E Hr [S F]. pose proof (cmd_send_ok c r wl w E Hr) as S1. split.
  - intros Hp. rewrite (S Hp), S1, twice_cons, <- app_assoc. done.
  - intros Hn. destruct (F Hn) as (b & c' & a & n & -> & L & ->). exists (c :: b), c', a, n.
    split_and!; [done..|]. rewrite S1, twice_cons, <- !app_assoc. done.
Qed.

Lemma told_fails c cs r wl w : wl1271_cmd_send c wl = (r, w) -> r < 0 -> told (c :: cs) r wl w.
Proof.
  intros E Hr. destruct (cmd_send_sent c wl) as (n & L & S & _). rewrite E in S. simpl in S.
  split; [lia|]. intros _. by exists [], c, cs, n.
Qed.

(** The loop, the default WEP key and what the two tell the firmware. *)
Lemma replay_told v w n ks : forall ret wep wl, 0 <= ret -> vif_at wl v = w -> Forall key_fits ks ->
  let '(ret', wep', wl') := replay_keys v ((Some <$> ks) ++ replicate n None) ret wep wl in
  (0 <= ret' /\ wep' = wep || existsb is_wep ks /\ sent wl' = twice (key_command w <$> ks) ++ sent wl) \/
  (ret' < 0 /\ forall rest, told ((key_command w <$> ks) ++ rest) ret' wl wl').
Proof.
  induction ks as [|k ks IH]; intros ret wep wl Hr Ew Hk.
  - simpl. rewrite orb_false_r. destruct n; simpl; by left.
  - rewrite fmap_cons. cbn [app replay_keys]. apply Forall_cons in Hk as [Hk1 Hk].
    pose proof (set_recorded_key_io v k wl) as F. rewrite set_recorded_key_cmd in * by done. rewrite Ew in *.
    destruct (wl1271_cmd_send (key_command w k) wl) as [r w1] eqn:E. simpl in F.
    destruct (Z.ltb_spec r 0) as [Hn|Hp].
    + right. split; [done|]. intros rest. by eapply told_fails.
    + specialize (IH r (wep || (ak_key_type k =? KEY_WEP)) w1 Hp). rewrite (io_vif _ _ v F) in IH.
      specialize (IH Ew Hk). destruct (replay_keys v _ r _ w1) as [[r' wep'] wl'].
      destruct IH as [(A & -> & S)|(A & T)].
      * left. split_and!; [done | simpl; fold (is_wep k); by rewrite orb_assoc|].
        rewrite S, (cmd_send_ok _ _ _ _ E Hp), fmap_cons, twice_cons, <- app_assoc. done.
      * right. split; [done|]. intros rest. eapply told_cons; [exact E | done | apply T].
Qed.

(** Starting the encryption of an access point sets its recorded keys in order,
    the default WEP key after them if one of them is WEP, and forgets them,
    failed or not. *)
Lemma ap_init_hwenc_spec v wl ks : is_Some (vifs wl !! v) -> recorded ks (vif_at wl v) ->
  let '(ret, wl') := wl1271_ap_init_hwenc v wl in
  recorded [] (vif_at wl' v) /\ told (key_commands (vif_at wl v) ks) ret wl wl'.
Proof.
  intros Hv R. unfold wl1271_ap_init_hwenc.
  pose proof (replay_io v (ap_recorded_keys (vif_at wl v)) 0 false wl) as F.
  pose proof (replay_told v (vif_at wl v) (Z.to_nat MAX_NUM_KEYS - length ks) ks 0 false wl
    ltac:(done) eq_refl (rc_sizes _ _ R)) as S.
  rewrite <- (rc_entries _ _ R) in S. destruct (replay_keys v _ 0 false wl) as [[r wep] w1]. simpl in F.
  set (r2 := if r <? 0 then _ else _).
  assert (io_frame w1 (snd r2)) as F2.
  { unfold r2. destruct (r <? 0); [reflexivity|]. destruct wep; [apply cmd_send_io_frame | reflexivity]. }
  assert (io_frame wl (snd r2)) as F' by (by etrans).
  destruct r2 as [ret w2] eqn:E2. simpl in F', F2. unfold r2 in E2. clear r2. split.
  { apply free_ap_keys_spec; [by rewrite (proj1 (io_links _ _ F'))|].
    rewrite (io_vif _ _ v F'). by eapply recorded_len. }
  enough (told (key_commands (vif_at wl v) ks) ret wl w2) as T by exact T. unfold key_commands.
  destruct S as [(Hr & -> & S)|(Hr & T)].
  - rewrite (proj2 (Z.ltb_ge _ _)) in E2 by done. cbn [orb] in E2. rewrite (io_vif _ _ v F) in E2.
    destruct (existsb is_wep ks).
    + set (c := CMD_SET_DEFAULT_WEP_KEY _ _) in *. destruct (cmd_send_sent c w1) as (n & L & S2 & H2).
      unfold wl12xx_cmd_set_default_wep_key in E2. fold c in E2. rewrite E2 in S2, H2. cbn [fst snd] in *. split.
      * intros Hp. rewrite (H2 Hp), S in S2. by rewrite twice_snoc.
      * intros _. exists (key_command (vif_at wl v) <$> ks), c, [], n. by rewrite S2, S.
    + injection E2 as <- <-. rewrite app_nil_r. split; [done | lia].
  - rewrite (proj2 (Z.ltb_lt _ _)) in E2 by done. injection E2 as <- <-. apply T.
Qed.

(** ** Setting keys keeps the invariant *)

Lemma record_ap_key_keeps v id t n key h s32 s16 wl : work_inv wl ->
  work_keeps wl (snd (wl1271_record_ap_key v id t n key h s32 s16 wl)).
Proof.
  intros W. unfold wl1271_record_ap_key. split_if; [by apply work_keeps_refl|].
  destruct (free_key_entry _ _ _); [|by apply work_keeps_refl].
  split_if; [by apply work_keeps_refl | by apply upd_vif_keeps].
Qed.

Lemma ap_init_hwenc_keeps v wl : work_inv wl -> work_keeps wl (snd (wl1271_ap_init_hwenc v wl)).
Proof.
  intros W. unfold wl1271_ap_init_hwenc.
  pose proof (replay_io v (ap_recorded_keys (vif_at wl v)) 0 false wl) as F.
  destruct (replay_keys v _ 0 false wl) as [[r wep] w1]. simpl in F.
  pose proof (io_keeps _ _ W F) as K1. set (r2 := if r <? 0 then _ else _).
  assert (work_keeps w1 (snd r2)) as K2.
  { unfold r2. split_if; [apply work_keeps_refl, K1|]. destruct wep; [apply cmd_keeps, K1 | apply work_keeps_refl, K1]. }
  destruct r2 as [ret w2]. simpl in *. keeps_via K1. keeps_via K2. apply upd_vif_keeps; [done | apply K2].
Qed.

Lemma set_key_keeps v a id t n key s32 s16 sta wl : work_inv wl ->
  work_keeps wl (snd (wl1271_set_key v a id t n key s32 s16 sta wl)).
Proof.
  intros W. unfold wl1271_set_key. cbv zeta. split_if.
  - split_if; [by apply work_keeps_refl|]. set (r := if negb _ then _ else _).
    assert (work_keeps wl (snd r)) as K
      by (unfold r; split_if; [by apply record_ap_key_keeps | by apply cmd_keeps]).
    destruct r as [ret w]. simpl in K. by split_if.
  - repeat (split_if; [by apply work_keeps_refl|]). unfold wl1271_cmd_set_sta_key. cbv zeta.
    split_if; [by apply work_keeps_refl|].
    match goal with |- context [wl1271_cmd_send ?c wl] => pose proof (cmd_keeps c wl W) as K;
      destruct (wl1271_cmd_send c wl) as [ret w] end. simpl in K. by split_if.
Qed.

Lemma rekey_arp_keeps v t sta ret wl : work_inv wl -> work_keeps wl (snd (rekey_arp v t sta ret wl)).
Proof.
  intros W. unfold rekey_arp. cbv zeta. split_if; [|by apply work_keeps_refl].
  set (w := upd_vif v _ wl). assert (work_keeps wl w) as K by (by apply upd_vif_keeps). clearbody w.
  keeps_via K. unfold wl1271_cmd_build_arp_rsp. cbv zeta.
  case_match; [apply cmd_keeps, K | apply work_keeps_refl, K].
Qed.

Lemma wlcore_set_key_keeps cmd v sta k wl : work_inv wl ->
  work_keeps wl (snd (wlcore_set_key cmd v sta k wl)).
Proof.
  intros W. unfold wlcore_set_key. split_if; [by apply work_keeps_refl|].
  destruct (key_of_cipher k) as [[[t k'] seq]|]; [|by apply work_keeps_refl]. cbv zeta. destruct cmd.
  - match goal with |- context [wl1271_set_key v ?a ?i ?t ?n ?b ?x ?y sta wl] =>
      pose proof (set_key_keeps v a i t n b x y sta wl W) as K;
      destruct (wl1271_set_key v a i t n b x y sta wl) as [ret w] end. simpl in K. split_if; [exact K|].
    pose proof (rekey_arp_keeps v t sta ret w (wk_inv _ _ K)) as K2.
    destruct (rekey_arp v t sta ret w) as [ret2 w2]. by keeps_via K.
  - match goal with |- context [wl1271_set_key v ?a ?i ?t ?n ?b ?x ?y sta wl] =>
      pose proof (set_key_keeps v a i t n b x y sta wl W) as K;
      destruct (wl1271_set_key v a i t n b x y sta wl) as [ret w] end. exact K.
Qed.

Lemma default_key_keeps c v i wl : work_inv wl ->
  work_keeps wl (snd (wl1271_op_set_default_key_idx c v i wl)).
Proof.
  intros W. unfold wl1271_op_set_default_key_idx. repeat (split_if; [by apply work_keeps_refl|]).
  pose proof (elp_wakeup_keeps c wl W) as K1. destruct (wl1271_ps_elp_wakeup c wl) as [r1 w1]. simpl in K1.
  split_if; [exact K1|]. cbv zeta. set (w2 := upd_vif v _ w1).
  assert (work_keeps w1 w2) as K2 by (apply upd_vif_keeps; [done | apply K1]). clearbody w2.
  keeps_via K1. keeps_via K2. set (r := if _ =? KEY_WEP then _ else _).
  assert (work_keeps w2 (snd r)) as K3 by (unfold r; split_if; [apply cmd_keeps, K2 | apply work_keeps_refl, K2]).
  destruct r as [r3 w3]. simpl in *. keeps_via K3. apply elp_sleep_keeps, K3.
Qed.

End KeyFacts.

(** ** The entry point *)

(** What a chip family's way of setting a key promises. *)
Class key_laws (kops : key_ops) : Prop := {
  hw_set_key_keeps cmd v sta k wl : work_inv wl -> work_keeps wl (snd (set_key cmd v sta k wl))
}.

Section OpSetKeyFacts.
Context `{laws : wlcore_ops_laws} `{klaws : key_laws}.

Lemma set_key_locked_keeps c cmd v sta k wl : work_inv wl ->
  work_keeps wl (snd (set_key_locked c cmd v sta k wl)).
Proof.
  intros W. unfold set_key_locked. split_if; [by apply work_keeps_refl|].
  pose proof (elp_wakeup_keeps c wl W) as K1. destruct (wl1271_ps_elp_wakeup c wl) as [r1 w1]. simpl in K1.
  split_if; [exact K1|]. pose proof (hw_set_key_keeps cmd v sta k w1 (wk_inv _ _ K1)) as K2.
  destruct (set_key cmd v sta k w1) as [[r2 k2] w2]. simpl in *. keeps_via K1. keeps_via K2.
  apply elp_sleep_keeps, K2.
Qed.

(** The queues stopped for the spare blocks are free again at the end. *)
Lemma op_set_key_spec fuel rounds c cmd v sta k wl :
  work_inv wl -> Forall (fun r => env_ok (snd r)) rounds -> 2 * backlog wl + 1 < Z.of_nat fuel ->
  exists ret k' wl', wlcore_op_set_key fuel rounds c cmd v sta k wl = Ret (ret, k', wl') /\
    work_keeps wl wl' /\
    (might_change_spare k = true -> forall q, is_queue q ->
       wlcore_is_queue_stopped_by_reason wl' q WLCORE_QUEUE_STOP_REASON_SPARE_BLK = false).
Proof.
  intros W Hr Hf. unfold wlcore_op_set_key. cbv zeta. set (o := if might_change_spare k then _ else _).
  assert (exists w1, o = Ret w1 /\ work_keeps wl w1) as (w1 & -> & K1).
  { unfold o. split_if; [|exists wl; split; [done | by apply work_keeps_refl]].
    pose proof (stop_queues_keeps WLCORE_QUEUE_STOP_REASON_SPARE_BLK wl W) as K.
    destruct (tx_flush_spec fuel rounds _ (wk_inv _ _ K) Hr) as (w & -> & K2 & _);
      [pose proof (wk_backlog _ _ K); lia|]. exists w. split; [done | by keeps_via K]. }
  cbn [obind]. pose proof (set_key_locked_keeps c cmd v sta k w1 (wk_inv _ _ K1)) as K2.
  destruct (set_key_locked c cmd v sta k w1) as [[ret k'] w2]. simpl in K2.
  do 3 eexists. split; [done|]. split.
  - keeps_via K1. keeps_via K2. split_if; [apply wake_queues_keeps, K2 | apply work_keeps_refl, K2].
  - intros -> q Hq. apply wake_queues_clear; [|done]. apply (inv_queues _ (wi_inv _ (wk_inv _ _ K2))).
Qed.

End OpSetKeyFacts.
