(* ===== verification/Scan.v ===== *)
(** * Scanning (wlcore/scan.c, wlcore/main.c)

    A scan request becomes one firmware command with the channels of each band
    sorted into passive, radar and active ones, after the probe request of the
    active ones has been set as a template.  The end of a scan is reported to
    mac80211 by a work item, which the firmware's event queues at once and the
    start of the scan queues for the case that the event never comes. *)

From S2P Require Import Prelude Ieee80211 WlState ChipOps Io Queues LinkQueues.
From S2P Require Import PowerSave TxPath TxAllocFacts TxSched TxInv SchedFacts TxMoves.
From S2P Require Import TxPrep TxWork TxDone TxDoneFacts FwStatus Rx Event Links Roles Iface Keys.

Definition WL1271_MAX_CHANNELS := 64.
Definition WL1271_SCAN_TIMEOUT := 30000.
Definition WL1271_SCAN_DEFAULT_TAG := 1.
Definition MAX_CHANNELS_2GHZ := 14.
Definition MAX_CHANNELS_5GHZ := 24.
Definition SCAN_MAX_SHORT_INTERVALS := 14.
Definition SCHED_SCAN_MAX_SSIDS := 16.
Definition IEEE80211_MAX_SSID_LEN := 32.
Definition SCAN_CHANNEL_FLAGS_DFS := BIT 0.

Definition SCAN_TYPE_SEARCH := 0.
Definition SCAN_TYPE_PERIODIC := 1.
Definition SCAN_BSS_TYPE_ANY := 2.
Definition WLCORE_SCAN_RATE_6 := 2.
Definition SCAN_SSID_FILTER_ANY := 0.
Definition SCAN_SSID_FILTER_LIST := 2.
Definition SCAN_SSID_FILTER_DISABLED := 3.
Definition SCAN_SSID_TYPE_PUBLIC := 0.
Definition SCAN_SSID_TYPE_HIDDEN := 1.

Definition IEEE80211_CHAN_DISABLED := BIT 0.
Definition IEEE80211_CHAN_PASSIVE_SCAN := BIT 1.
Definition IEEE80211_CHAN_RADAR := BIT 3.

Definition WLCORE_QUIRK_DUAL_PROBE_TMPL := BIT 10.
Definition CMD_TEMPL_CFG_PROBE_REQ_2_4 := 2.
Definition CMD_TEMPL_CFG_PROBE_REQ_5 := 3.
Definition CMD_TEMPL_PROBE_REQ_2_4_PERIODIC := 19.
Definition CMD_TEMPL_PROBE_REQ_5_PERIODIC := 20.
Definition IEEE80211_STYPE_PROBE_REQ := 0x40.
Definition WLAN_EID_SSID := 0.

#[export] Instance ieee80211_band_eq_dec : EqDecision ieee80211_band.
Proof. solve_decision. Defined.

(** ** Requests *)

(** [struct ieee80211_channel]: the fields the driver reads. *)
Record ieee80211_channel := {
  ch_band : ieee80211_band;
  hw_value : Z;
  ch_flags : Z;
  max_power : Z
}.

(** [struct cfg80211_scan_request]: the fields the driver reads. *)
Record cfg80211_scan_request := {
  req_ssids : list (list Z);
  req_channels : list ieee80211_channel;
  req_ie : list Z;
  no_cck : bool
}.

(** [struct cfg80211_sched_scan_request] *)
Record cfg80211_sched_scan_request := {
  sched_ssids : list (list Z);
  sched_channels : list ieee80211_channel;
  long_interval : Z;
  short_interval : Z;
  n_short_intervals : Z;
  match_sets : list (list Z)
}.

(** ** The channels of a scan *)

Definition DIV_ROUND_UP (n d : Z) : Z := u32 (n + d - 1) / d.

(** Minimum and maximum active, passive and radar dwell times, in msec. *)
Definition dwell_times (c : conf_scan_settings) (s : conf_sched_scan_settings) (n_ssids : Z)
    (band : ieee80211_band) (scan_type : Z) : Z * Z * Z * Z :=
  let '(min, max, passive, dfs) :=
    if scan_type =? SCAN_TYPE_SEARCH then
      (min_dwell_time_active c, max_dwell_time_active c, scan_dwell_time_passive c, scan_dwell_time_dfs c)
    else
      let delta_per_probe :=
        if bool_decide (band = IEEE80211_BAND_5GHZ)
        then dwell_time_delta_per_probe_5 s else dwell_time_delta_per_probe s in
      let min := u32 (base_dwell_time s + n_ssids * sched_num_probe_reqs s * delta_per_probe) in
      (min, u32 (min + max_dwell_time_delta s), sched_dwell_time_passive s, sched_dwell_time_dfs s) in
  (DIV_ROUND_UP min 1000, DIV_ROUND_UP max 1000, DIV_ROUND_UP passive 1000, DIV_ROUND_UP dfs 1000).

(** Without an SSID to probe for, every channel is scanned passively. *)
Definition scan_flags (n_ssids : Z) (ch : ieee80211_channel) : Z :=
  if n_ssids =? 0 then Z.lor (ch_flags ch) IEEE80211_CHAN_PASSIVE_SCAN else ch_flags ch.

(** The condition of the loop of [wlcore_scan_get_channels]. *)
Definition chan_selected (n_ssids : Z) (band : ieee80211_band) (radar passive : bool)
    (ch : ieee80211_channel) : bool :=
  let flags := scan_flags n_ssids ch in
  bool_decide (ch_band ch = band) && negb (has flags IEEE80211_CHAN_DISABLED)
  && eqb (has flags IEEE80211_CHAN_RADAR) radar
  && (radar || eqb (has flags IEEE80211_CHAN_PASSIVE_SCAN) passive).

(** What the loop writes into the entry of a channel. *)
Definition chan_params (n_ssids : Z) (dwell : Z * Z * Z * Z) (ch : ieee80211_channel)
    (p : conn_scan_ch_params) : conn_scan_ch_params :=
  let '(min, max, passive, dfs) := dwell in
  let p :=
    if has (scan_flags n_ssids ch) IEEE80211_CHAN_RADAR
    then p <| ch_params_flags ::= fun f => Z.lor f SCAN_CHANNEL_FLAGS_DFS |>
           <| passive_duration := u16 dfs |>
    else p <| passive_duration := u16 passive |> in
  p <| min_duration := u16 min |> <| max_duration := u16 max |>
    <| tx_power_att := u8 (max_power ch) |> <| scan_channel := u8 (hw_value ch) |>.

Definition ch_params0 : conn_scan_ch_params := Build_conn_scan_ch_params 0 0 0 0 0 0.

Fixpoint scan_channels_loop (n_ssids : Z) (band : ieee80211_band) (radar passive : bool)
    (dwell : Z * Z * Z * Z) (max_channels j : Z) (chans : list ieee80211_channel)
    (channels : list conn_scan_ch_params) : Z * list conn_scan_ch_params :=
  match chans with
  | [] => (j, channels)
  | ch :: chans =>
      if j <? max_channels then
        if chan_selected n_ssids band radar passive ch
        then scan_channels_loop n_ssids band radar passive dwell max_channels (j + 1) chans
               (zset channels j (chan_params n_ssids dwell ch (zget ch_params0 channels j)))
        else scan_channels_loop n_ssids band radar passive dwell max_channels j chans channels
      else (j, channels)
  end.

Definition wlcore_scan_get_channels (wl : wl1271) (req_channels : list ieee80211_channel)
    (n_ssids : Z) (channels : list conn_scan_ch_params) (band : ieee80211_band) (radar passive : bool)
    (start max_channels scan_type : Z) : Z * list conn_scan_ch_params :=
  let dwell := dwell_times (conf_scan (hw wl)) (conf_sched_scan (hw wl)) n_ssids band scan_type in
  let '(j, channels) :=
    scan_channels_loop n_ssids band radar passive dwell max_channels start req_channels channels in
  (j - start, channels).

Definition wlcore_set_scan_chan_params (wl : wl1271) (cfg : wl1271_cmd_scan_params)
    (channels : list ieee80211_channel) (n_ssids scan_type : Z) : bool * wl1271_cmd_scan_params :=
  let get := wlcore_scan_get_channels wl channels n_ssids in
  let '(p0, ch2) := get (channels_2 cfg) IEEE80211_BAND_2GHZ false true 0 MAX_CHANNELS_2GHZ scan_type in
  let p0 := u8 p0 in
  let '(a0, ch2) := get ch2 IEEE80211_BAND_2GHZ false false p0 MAX_CHANNELS_2GHZ scan_type in
  let a0 := u8 a0 in
  let '(p1, ch5) := get (channels_5 cfg) IEEE80211_BAND_5GHZ false true 0 MAX_CHANNELS_5GHZ scan_type in
  let p1 := u8 p1 in
  let '(dfs, ch5) := get ch5 IEEE80211_BAND_5GHZ true true p1 MAX_CHANNELS_5GHZ scan_type in
  let dfs := u8 dfs in
  let '(a1, ch5) := get ch5 IEEE80211_BAND_5GHZ false false (p1 + dfs) MAX_CHANNELS_5GHZ scan_type in
  let a1 := u8 a1 in
  (negb (p0 =? 0) || negb (a0 =? 0) || negb (p1 =? 0) || negb (a1 =? 0) || negb (dfs =? 0),
   cfg <| channels_2 := ch2 |> <| channels_5 := ch5 |> <| scan_passive := [p0; p1; 0] |>
       <| scan_active := [a0; a1; 0] |> <| scan_dfs := dfs |> <| passive_active := 0 |>).

(** ** Probe requests *)

(** mac80211's probe request: broadcast, the SSID and the given elements. *)
Definition ieee80211_probereq_get (vif_addr ssid ie : list Z) : list Z :=
  le_bytes 2 (Z.lor IEEE80211_FTYPE_MGMT IEEE80211_STYPE_PROBE_REQ) ++ [0; 0]
  ++ bcast_addr ++ vif_addr ++ bcast_addr ++ [0; 0]
  ++ [WLAN_EID_SSID; u8 (zlen ssid)] ++ ssid ++ ie.

Definition band_rates (w : wl12xx_vif) (band : ieee80211_band) : Z :=
  zget 0 (bitrate_masks w) (match band with IEEE80211_BAND_2GHZ => 0 | IEEE80211_BAND_5GHZ => 1 end).

Definition scan_params0 : wl1271_cmd_scan_params :=
  Build_wl1271_cmd_scan_params 0 0 0 0 0 0 0 0 [0; 0; 0] [0; 0; 0] 0 0 0 0 0 0
    (replicate 14 ch_params0) (replicate 24 ch_params0) [] 0 0.

(** One SSID of the list of a periodic scan; the array has 16 entries. *)
Definition add_ssid (type : Z) (ssid : list Z) (l : list (Z * list Z)) : outcome (list (Z * list Z)) :=
  if zlen l <? SCHED_SCAN_MAX_SSIDS then Ret (l ++ [(type, ssid)]) else Oops.

Fixpoint add_ssids (f : list Z -> Z) (ssids : list (list Z)) (l : list (Z * list Z))
    : outcome (list (Z * list Z)) :=
  match ssids with
  | [] => Ret l
  | s :: ssids => let* l := add_ssid (f s) s l in add_ssids f ssids l
  end.

(** The first entry of that name is marked; none if there is no such entry. *)
Fixpoint mark_hidden (ssid : list Z) (l : list (Z * list Z)) : option (list (Z * list Z)) :=
  match l with
  | [] => None
  | (t, s) :: l => if bool_decide (s = ssid) then Some ((SCAN_SSID_TYPE_HIDDEN, s) :: l)
                   else cons (t, s) <$> mark_hidden ssid l
  end.

Fixpoint mark_all_hidden (ssids : list (list Z)) (l : list (Z * list Z)) : option (list (Z * list Z)) :=
  match ssids with
  | [] => Some l
  | s :: ssids => if zlen s =? 0 then mark_all_hidden ssids l
                  else match mark_hidden s l with None => None | Some l => mark_all_hidden ssids l end
  end.

(** Nothing, or only the broadcast SSID, to probe for. *)
Definition only_bcast (ssids : list (list Z)) : bool :=
  match ssids with [] => true | [s] => zlen s =? 0 | _ => false end.

(** The list of a request and the filter it makes: [None] when the firmware
    needs no list, [inl] an error. *)
Definition ssid_list (req : cfg80211_sched_scan_request)
    : outcome (Z + (Z * option (list (Z * list Z)))) :=
  let named := filter (fun s => 0 < zlen s) (match_sets req) in
  if bool_decide (named = []) then
    if only_bcast (sched_ssids req) then Ret (inr (SCAN_SSID_FILTER_ANY, None))
    else
      let* l := add_ssids (fun s => if zlen s =? 0 then SCAN_SSID_TYPE_PUBLIC else SCAN_SSID_TYPE_HIDDEN)
                  (sched_ssids req) [] in
      Ret (inr (SCAN_SSID_FILTER_DISABLED, Some l))
  else
    let* l := add_ssids (fun _ => SCAN_SSID_TYPE_PUBLIC) named [] in
    if only_bcast (sched_ssids req) then Ret (inr (SCAN_SSID_FILTER_LIST, Some l))
    else
      match mark_all_hidden (sched_ssids req) l with
      | None => Ret (inl (- EINVAL))
      | Some l => Ret (inr (SCAN_SSID_FILTER_LIST, Some l))
      end.

Section Scan.
Context `{ops : wlcore_ops}.

Definition wl12xx_cmd_build_probe_req (v : nat) (role_id : Z) (band : ieee80211_band)
    (ssid ie : list Z) (sched_scan : bool) (wl : wl1271) : Z * wl1271 :=
  let skb := ieee80211_probereq_get (vif_addr (vif_at wl v)) ssid ie in
  let dual := negb sched_scan && has_quirk wl WLCORE_QUIRK_DUAL_PROBE_TMPL in
  let template_id_2_4 := if dual then CMD_TEMPL_CFG_PROBE_REQ_2_4 else CMD_TEMPL_PROBE_REQ_2_4_PERIODIC in
  let template_id_5 := if dual then CMD_TEMPL_CFG_PROBE_REQ_5 else CMD_TEMPL_PROBE_REQ_5_PERIODIC in
  let rate := wl1271_tx_min_rate_get (band_rates (vif_at wl v) band) in
  wl1271_cmd_template_set role_id
    (if bool_decide (band = IEEE80211_BAND_2GHZ) then template_id_2_4 else template_id_5) skb 0 rate wl.

(** [skb] is the probe request the interface has; [ap_probereq] is what
    mac80211's [ieee80211_ap_probereq_get] gives when it has none. *)
Definition wl1271_cmd_build_ap_probe_req (v : nat) (skb ap_probereq : option (list Z)) (wl : wl1271)
    : option (list Z) * wl1271 :=
  let skb := match skb with Some b => Some b | None => ap_probereq end in
  match skb with
  | None => (None, wl)
  | Some buf =>
      let w := vif_at wl v in
      let rate := wl1271_tx_min_rate_get (band_rates w (vif_band w)) in
      let '(_, wl) :=
        wl1271_cmd_template_set (role_id w)
          (if bool_decide (vif_band w = IEEE80211_BAND_2GHZ)
           then CMD_TEMPL_CFG_PROBE_REQ_2_4 else CMD_TEMPL_CFG_PROBE_REQ_5) buf 0 rate wl in
      (skb, wl)
  end.

(** The template of a band with active channels; it reads [req->ssids[0]]. *)
Definition probe_active (v : nat) (role_id n_active : Z) (band : ieee80211_band)
    (ssids : list (list Z)) (ie : list Z) (sched_scan : bool) (wl : wl1271) : outcome (Z * wl1271) :=
  if n_active =? 0 then Ret (0, wl)
  else
    match ssids with
    | [] => Oops
    | ssid :: _ => Ret (wl12xx_cmd_build_probe_req v role_id band ssid ie sched_scan wl)
    end.

(** The templates of both bands, then the command. *)
Definition probe_and_scan (v : nat) (cmd : wl1271_cmd_scan_params) (ssids : list (list Z))
    (ie : ieee80211_band -> list Z) (sched_scan : bool) (wl : wl1271) : outcome (Z * wl1271) :=
  let* (ret, wl) := probe_active v (scan_role_id cmd) (zget 0 (scan_active cmd) 0) IEEE80211_BAND_2GHZ
                      ssids (ie IEEE80211_BAND_2GHZ) sched_scan wl in
  if ret <? 0 then Ret (ret, wl)
  else
    let* (ret, wl) := probe_active v (scan_role_id cmd) (zget 0 (scan_active cmd) 1) IEEE80211_BAND_5GHZ
                        ssids (ie IEEE80211_BAND_5GHZ) sched_scan wl in
    if ret <? 0 then Ret (ret, wl) else Ret (wl1271_cmd_send (CMD_SCAN cmd) wl).

(** The parameters of a scan on request. *)
Definition search_params (role : Z) (req : cfg80211_scan_request) (wl : wl1271)
    : wl1271_cmd_scan_params :=
  let cmd := scan_params0 <| scan_role_id := role |> <| scan_type := SCAN_TYPE_SEARCH |>
               <| rssi_threshold := -127 |> <| snr_threshold := 0 |>
               <| scan_bss_type := SCAN_BSS_TYPE_ANY |> <| ssid_from_list := 0 |> <| scan_filter := 0 |>
               <| n_probe_reqs := u8 (scan_num_probe_reqs (conf_scan (hw wl))) |> in
  let '(_, cmd) := wlcore_set_scan_chan_params wl cmd (req_channels req) (zlen (req_ssids req))
                     SCAN_TYPE_SEARCH in
  let cmd := cmd <| total_cycles := 1 |> in
  let cmd := if no_cck req then cmd <| scan_rate := WLCORE_SCAN_RATE_6 |> else cmd in
  let cmd := cmd <| scan_tag := WL1271_SCAN_DEFAULT_TAG |> in
  match req_ssids req with [] => cmd | ssid :: _ => cmd <| scan_cmd_ssid := ssid |> end.

Definition wl1271_scan_send (v : nat) (req : cfg80211_scan_request) (wl : wl1271)
    : outcome (Z * wl1271) :=
  let w := vif_at wl v in
  let role := if role_id w =? WL12XX_INVALID_ROLE_ID then dev_role_id w else role_id w in
  if role =? WL12XX_INVALID_ROLE_ID then Ret (- EINVAL, wl)
  else probe_and_scan v (search_params role req wl) (req_ssids req) (fun _ => req_ie req) false wl.

Definition wl1271_scan (v : nat) (ssid : option (list Z)) (req : cfg80211_scan_request) (wl : wl1271)
    : outcome (Z * wl1271) :=
  if WL1271_MAX_CHANNELS <? zlen (req_channels req) then Oops
  else if negb (scan_idle wl) then Ret (- EBUSY, wl)
  else
    let wl := wl <| scan_idle := false |> <| scan_ssid := default [] ssid |>
                 <| scan_vif := Some v |> <| scan_req := true |> <| scanned_ch := 0 |>
                 <| scan_failed := true |> in
    let wl := emit (EvQueueScanComplete WL1271_SCAN_TIMEOUT) wl in
    let* (_, wl) := wl1271_scan_send v req wl in
    Ret (0, wl).

(** The command carries only its header. *)
Definition wl1271_scan_stop (wl : wl1271) : Z * wl1271 :=
  if scan_idle wl then (- EINVAL, wl) else wl1271_cmd_send (CMD_STOP_SCAN None) wl.

(** [completed] answers the wait for the wake-up, [ap_probereq] is mac80211's. *)
Definition wl1271_scan_complete_work (completed : Z) (ap_probereq : option (list Z)) (wl : wl1271)
    : outcome wl1271 :=
  if negb (bool_decide (state wl = WLCORE_STATE_ON)) then Ret wl
  else if scan_idle wl then Ret wl
  else
    let vif := scan_vif wl in
    let wl := idle_scan wl in
    let '(ret, wl) := wl1271_ps_elp_wakeup completed wl in
    if ret <? 0 then Ret wl
    else
      match vif with
      | None => Oops
      | Some v =>
          let wl :=
            if vif_flag (vif_at wl v) WLVIF_FLAG_STA_ASSOCIATED
            then snd (wl1271_cmd_build_ap_probe_req v (probereq (vif_at wl v)) ap_probereq wl) else wl in
          let wl := wl1271_ps_elp_sleep wl in
          let wl := if scan_failed wl then wl12xx_queue_recovery_work wl else wl in
          Ret (emit (EvScanCompleted false) wl)
      end.

(** ** Periodic scans *)

(** The command's [role_id] is not set by the code: it stays zero. *)
Definition wl12xx_scan_set_ssid_list (req : cfg80211_sched_scan_request) (wl : wl1271)
    : outcome (Z * wl1271) :=
  let* r := ssid_list req in
  match r with
  | inl e => Ret (e, wl)
  | inr (type, None) => Ret (type, wl)
  | inr (type, Some l) =>
      let '(ret, wl) := wl1271_cmd_send (CMD_CONNECTION_SCAN_SSID_CFG 0 l) wl in
      Ret (if ret <? 0 then ret else type, wl)
  end.

(** The parameters of a periodic scan. *)
Definition periodic_params (role filter_type : Z) (req : cfg80211_sched_scan_request) (wl : wl1271)
    : wl1271_cmd_scan_params :=
  let c := conf_sched_scan (hw wl) in
  let cmd := scan_params0 <| scan_role_id := role |> <| scan_type := SCAN_TYPE_PERIODIC |>
               <| rssi_threshold := sched_rssi_threshold c |> <| snr_threshold := sched_snr_threshold c |>
               <| scan_bss_type := SCAN_BSS_TYPE_ANY |> <| ssid_from_list := 1 |>
               <| scan_filter := if filter_type =? SCAN_SSID_FILTER_LIST then 1 else 0 |>
               <| n_probe_reqs := sched_num_probe_reqs c |> in
  let '(_, cmd) := wlcore_set_scan_chan_params wl cmd (sched_channels req) (zlen (sched_ssids req))
                     SCAN_TYPE_PERIODIC in
  cmd <| short_cycles_sec := u16 (short_interval req) |> <| long_cycles_sec := u16 (long_interval req) |>
      <| short_cycles_count := n_short_intervals req |> <| total_cycles := 0 |>
      <| scan_tag := WL1271_SCAN_DEFAULT_TAG |>.

Definition wl1271_scan_sched_scan_config (v : nat) (req : cfg80211_sched_scan_request)
    (ies : ieee80211_band -> list Z) (wl : wl1271) : outcome (Z * wl1271) :=
  if SCAN_MAX_SHORT_INTERVALS <? n_short_intervals req then Ret (- EINVAL, wl)
  else
    let* (filter_type, wl) := wl12xx_scan_set_ssid_list req wl in
    if filter_type <? 0 then Ret (filter_type, wl)
    else
      let role := role_id (vif_at wl v) in
      if role =? WL12XX_INVALID_ROLE_ID then Ret (- EINVAL, wl)
      else probe_and_scan v (periodic_params role filter_type req wl) (sched_ssids req) ies true wl.

Definition wl1271_scan_sched_scan_stop (v : nat) (wl : wl1271) : wl1271 :=
  snd (wl1271_cmd_send (CMD_STOP_SCAN (Some (role_id (vif_at wl v), SCAN_TYPE_PERIODIC))) wl).

(** ** Entry points *)

Definition wl1271_op_hw_scan (completed : Z) (v : nat) (req : cfg80211_scan_request) (wl : wl1271)
    : outcome (Z * wl1271) :=
  if negb (bool_decide (state wl = WLCORE_STATE_ON)) then Ret (- EAGAIN, wl)
  else
    let '(ret, wl) := wl1271_ps_elp_wakeup completed wl in
    if ret <? 0 then Ret (ret, wl)
    else
      let* (ret, wl) :=
        if find_first_bit (roc_map wl) WL12XX_MAX_ROLES <? WL12XX_MAX_ROLES then Ret (- EBUSY, wl)
        else wl1271_scan v (head (req_ssids req)) req wl in
      Ret (ret, wl1271_ps_elp_sleep wl).

(** [scan.state] is only ever idle or active: nothing sets it to done.  The work
    item is cancelled whatever happened. *)
Definition wl1271_op_cancel_hw_scan (completed : Z) (wl : wl1271) : wl1271 :=
  emit EvCancelScanComplete
    (if negb (bool_decide (state wl = WLCORE_STATE_ON)) then wl
     else if scan_idle wl then wl
     else
       let '(ret, wl) := wl1271_ps_elp_wakeup completed wl in
       if ret <? 0 then wl
       else
         let '(ret, wl) := wl1271_scan_stop wl in
         if ret <? 0 then wl1271_ps_elp_sleep wl
         else wl1271_ps_elp_sleep (emit (EvScanCompleted true) (idle_scan wl))).

Definition wl1271_op_sched_scan_start (completed : Z) (v : nat) (req : cfg80211_sched_scan_request)
    (ies : ieee80211_band -> list Z) (wl : wl1271) : outcome (Z * wl1271) :=
  if dummy_p2p (vif_at wl v) then Ret (- EINVAL, wl)
  else if negb (bool_decide (state wl = WLCORE_STATE_ON)) then Ret (- EAGAIN, wl)
  else
    let '(ret, wl) := wl1271_ps_elp_wakeup completed wl in
    if ret <? 0 then Ret (ret, wl)
    else
      let* (ret, wl) := wl1271_scan_sched_scan_config v req ies wl in
      let wl := if ret <? 0 then wl else wl <| sched_vif := Some v |> in
      Ret (ret, wl1271_ps_elp_sleep wl).

Definition wl1271_op_sched_scan_stop (completed : Z) (v : nat) (wl : wl1271) : wl1271 :=
  if dummy_p2p (vif_at wl v) then wl
  else if negb (bool_decide (state wl = WLCORE_STATE_ON)) then wl
  else
    let '(ret, wl) := wl1271_ps_elp_wakeup completed wl in
    if ret <? 0 then wl else wl1271_ps_elp_sleep (wl1271_scan_sched_scan_stop v wl).

End Scan.
