(* ===== verification/ScanFacts.v ===== *)
(** * Scanning keeps the invariant, sorts the channels and ends every scan *)

From S2P Require Import Prelude Ieee80211 WlState ChipOps Io Queues LinkQueues.
From S2P Require Import PowerSave TxPath TxAllocFacts TxSched TxInv SchedFacts TxMoves.
From S2P Require Import TxPrep TxWork TxDone TxDoneFacts FwStatus Rx Event EventFacts Links.
From S2P Require Import Roles LinksFacts RolesFacts BaFacts Iface IfaceFacts Recovery Keys Scan.

(** ** The channels *)

(** The channels of a request that go to one region of the command, in order. *)
Definition chans_of (n_ssids : Z) (band : ieee80211_band) (radar passive : bool)
    (chans : list ieee80211_channel) : list ieee80211_channel :=
  filter (fun ch => chan_selected n_ssids band radar passive ch) chans.

Lemma zset_app_here {A} (l r : list A) (x y : A) : zset (l ++ x :: r) (zlen l) y = l ++ y :: r.
Proof.
  unfold zset. pose proof (zlen_nonneg l). rewrite (proj2 (Z.ltb_ge _ _)) by done.
  unfold zlen. by rewrite Nat2Z.id, insert_app_r_alt, Nat.sub_diag by done.
Qed.

Lemma zget_app_here {A} (d : A) (l r : list A) (x : A) : zget d (l ++ x :: r) (zlen l) = x.
Proof.
  apply zget_lookup with (i := length l). by rewrite lookup_app_r, Nat.sub_diag by done.
Qed.

(** The loop appends the entries of the selected channels, as far as they fit. *)
Lemma scan_loop_spec n band radar passive dwell max chans : forall filled m,
  zlen filled + Z.of_nat m = max ->
  let sel := take m (chans_of n band radar passive chans) in
  scan_channels_loop n band radar passive dwell max (zlen filled) chans (filled ++ replicate m ch_params0)
  = (zlen filled + zlen sel,
     (filled ++ ((fun ch => chan_params n dwell ch ch_params0) <$> sel))
       ++ replicate (m - length sel) ch_params0).
Proof.
  cbv zeta. induction chans as [|ch chans IH]; intros filled m Hm.
  { unfold chans_of. rewrite filter_nil, take_nil. simpl. rewrite app_nil_r, Nat.sub_0_r. f_equal.
    unfold zlen. simpl. lia. }
  cbn [scan_channels_loop]. destruct (Z.ltb_spec (zlen filled) max) as [Hlt|Hge].
  - unfold chans_of. rewrite filter_cons. fold (chans_of n band radar passive chans).
    destruct (chan_selected n band radar passive ch) eqn:E.
    + rewrite decide_True by done. destruct m as [|m]; [lia|]. cbn [replicate take].
      rewrite zget_app_here, zset_app_here. set (e := chan_params n dwell ch ch_params0).
      replace (filled ++ e :: replicate m ch_params0) with ((filled ++ [e]) ++ replicate m ch_params0)
        by (by rewrite <- app_assoc).
      replace (zlen filled + 1) with (zlen (filled ++ [e])) by (rewrite zlen_app; done).
      rewrite IH by (rewrite zlen_app; unfold zlen in *; simpl; lia).
      rewrite fmap_cons, <- !app_assoc. cbn [app length Nat.sub]. f_equal.
      rewrite zlen_app. unfold zlen. simpl. lia.
    + rewrite decide_False by (by intros []). by apply IH.
  - assert (m = 0%nat) as -> by lia. simpl. rewrite !app_nil_r. f_equal. unfold zlen. simpl. lia.
Qed.

Lemma get_channels_spec wl chans n band radar passive start max type filled m :
  zlen filled = start -> start + Z.of_nat m = max ->
  let sel := take m (chans_of n band radar passive chans) in
  let dwell := dwell_times (conf_scan (hw wl)) (conf_sched_scan (hw wl)) n band type in
  wlcore_scan_get_channels wl chans n (filled ++ replicate m ch_params0) band radar passive
    start max type
  = (zlen sel, (filled ++ ((fun ch => chan_params n dwell ch ch_params0) <$> sel))
       ++ replicate (m - length sel) ch_params0).
Proof.
  intros <- Hm. cbv zeta. unfold wlcore_scan_get_channels. rewrite scan_loop_spec by done. f_equal. lia.
Qed.

Lemma get_channels_start wl chans n band radar passive type m :
  let sel := take m (chans_of n band radar passive chans) in
  let dwell := dwell_times (conf_scan (hw wl)) (conf_sched_scan (hw wl)) n band type in
  wlcore_scan_get_channels wl chans n (replicate m ch_params0) band radar passive 0 (Z.of_nat m) type
  = (zlen sel, ((fun ch => chan_params n dwell ch ch_params0) <$> sel)
       ++ replicate (m - length sel) ch_params0).
Proof. exact (get_channels_spec wl chans n band radar passive 0 (Z.of_nat m) type [] m eq_refl eq_refl). Qed.

(** The regions of a scan command. *)
Record regions := { passive_2 : list ieee80211_channel; active_2 : list ieee80211_channel;
  passive_5 : list ieee80211_channel; dfs_5 : list ieee80211_channel; active_5 : list ieee80211_channel }.

(** Each region takes its channels as far as the band's array still has room. *)
Definition regions_of (n_ssids : Z) (chans : list ieee80211_channel) : regions :=
  let p2 := take 14 (chans_of n_ssids IEEE80211_BAND_2GHZ false true chans) in
  let p5 := take 24 (chans_of n_ssids IEEE80211_BAND_5GHZ false true chans) in
  let d5 := take (24 - length p5) (chans_of n_ssids IEEE80211_BAND_5GHZ true true chans) in
  {| passive_2 := p2;
     active_2 := take (14 - length p2) (chans_of n_ssids IEEE80211_BAND_2GHZ false false chans);
     passive_5 := p5; dfs_5 := d5;
     active_5 := take (24 - length p5 - length d5)
                   (chans_of n_ssids IEEE80211_BAND_5GHZ false false chans) |}.

Lemma regions_fit n chans : let r := regions_of n chans in
  (length (passive_2 r) + length (active_2 r) <= 14)%nat /\
  (length (passive_5 r) + length (dfs_5 r) + length (active_5 r) <= 24)%nat.
Proof. cbv zeta. unfold regions_of. simpl. rewrite !length_take. lia. Qed.

Definition entries (wl : wl1271) (n : Z) (band : ieee80211_band) (type : Z)
    (chans : list ieee80211_channel) : list conn_scan_ch_params :=
  let dwell := dwell_times (conf_scan (hw wl)) (conf_sched_scan (hw wl)) n band type in
  (fun ch => chan_params n dwell ch ch_params0) <$> chans.

Lemma u8_len (l : list ieee80211_channel) : (length l <= 24)%nat -> u8 (zlen l) = zlen l.
Proof. intros H. apply u8_id. unfold zlen. lia. Qed.

(** What the command says about its channels. *)
Lemma set_scan_chan_params_spec wl cfg chans n type :
  channels_2 cfg = replicate 14 ch_params0 -> channels_5 cfg = replicate 24 ch_params0 ->
  let r := regions_of n chans in
  let cfg' := snd (wlcore_set_scan_chan_params wl cfg chans n type) in
  scan_passive cfg' = [zlen (passive_2 r); zlen (passive_5 r); 0] /\
  scan_active cfg' = [zlen (active_2 r); zlen (active_5 r); 0] /\ scan_dfs cfg' = zlen (dfs_5 r) /\
  channels_2 cfg' = entries wl n IEEE80211_BAND_2GHZ type (passive_2 r ++ active_2 r)
    ++ replicate (14 - length (passive_2 r) - length (active_2 r)) ch_params0 /\
  channels_5 cfg' = entries wl n IEEE80211_BAND_5GHZ type (passive_5 r ++ dfs_5 r ++ active_5 r)
    ++ replicate (24 - length (passive_5 r) - length (dfs_5 r) - length (active_5 r)) ch_params0.
Proof.
  intros E2 E5. cbv zeta. destruct (regions_fit n chans) as [F2 F5]. cbv zeta in F2, F5.
  unfold wlcore_set_scan_chan_params. rewrite E2, E5. cbv zeta.
  change MAX_CHANNELS_2GHZ with (Z.of_nat 14). change MAX_CHANNELS_5GHZ with (Z.of_nat 24).
  rewrite !get_channels_start. cbv zeta.
  set (r := regions_of n chans) in *.
  change (take 14 (chans_of n IEEE80211_BAND_2GHZ false true chans)) with (passive_2 r).
  change (take 24 (chans_of n IEEE80211_BAND_5GHZ false true chans)) with (passive_5 r).
  fold (entries wl n IEEE80211_BAND_2GHZ type (passive_2 r)).
  fold (entries wl n IEEE80211_BAND_5GHZ type (passive_5 r)).
  rewrite !u8_len by lia.
  assert (forall b l, zlen (entries wl n b type l) = zlen l) as Le
    by (intros b l; unfold entries, zlen; by rewrite length_fmap).
  rewrite get_channels_spec by (rewrite ?Le; unfold zlen in *; lia).
  cbv zeta. change (take (14 - length (passive_2 r)) _) with (active_2 r).
  rewrite get_channels_spec by (rewrite ?Le; unfold zlen in *; lia).
  cbv zeta. change (take (24 - length (passive_5 r)) _) with (dfs_5 r).
  fold (entries wl n IEEE80211_BAND_5GHZ type (dfs_5 r)). rewrite !u8_len by lia.
  rewrite get_channels_spec by (rewrite ?zlen_app, ?Le; unfold zlen in *; lia).
  cbv zeta. change (take (24 - length (passive_5 r) - length (dfs_5 r)) _) with (active_5 r).
  rewrite !u8_len by lia. cbn [snd]. unfold entries. rewrite !fmap_app, <- !app_assoc. done.
Qed.

(** ** Every usable channel is scanned once *)

Definition usable (band : ieee80211_band) (ch : ieee80211_channel) : bool :=
  bool_decide (ch_band ch = band) && negb (has (ch_flags ch) IEEE80211_CHAN_DISABLED).

Definition radar (ch : ieee80211_channel) : bool := has (ch_flags ch) IEEE80211_CHAN_RADAR.

(** Probing is allowed, and there is something to probe for. *)
Definition probed (n_ssids : Z) (ch : ieee80211_channel) : bool :=
  negb (n_ssids =? 0) && negb (has (ch_flags ch) IEEE80211_CHAN_PASSIVE_SCAN).

Lemma has_lor m f g : has (Z.lor m f) g = has m g || has f g.
Proof.
  unfold has. rewrite Z.land_comm, Z.land_lor_distr_r, (Z.land_comm g m), (Z.land_comm g f).
  destruct (Z.eqb_spec (Z.land m g) 0) as [->|H1]; [by rewrite Z.lor_0_l|].
  destruct (Z.eqb_spec (Z.lor (Z.land m g) (Z.land f g)) 0) as [[? _]%Z.lor_eq_0_iff|]; done.
Qed.

Lemma scan_flags_has n ch f : has IEEE80211_CHAN_PASSIVE_SCAN f = false ->
  has (scan_flags n ch) f = has (ch_flags ch) f.
Proof. intros Hf. unfold scan_flags. split_if; [|done]. by rewrite has_lor, Hf, orb_false_r. Qed.

Lemma scan_flags_passive n ch :
  has (scan_flags n ch) IEEE80211_CHAN_PASSIVE_SCAN = negb (probed n ch).
Proof.
  unfold scan_flags, probed. destruct (n =? 0); simpl; [by rewrite has_lor, orb_true_r | by rewrite negb_involutive].
Qed.

(** The condition of the loop, case by case. *)
Definition watched (band : ieee80211_band) (ch : ieee80211_channel) : bool := usable band ch && radar ch.

Lemma selected_radar n band p ch : chan_selected n band true p ch = watched band ch.
Proof.
  unfold chan_selected, watched, usable, radar. rewrite !scan_flags_has by done. rewrite orb_true_l, andb_true_r.
  by destruct (has (ch_flags ch) IEEE80211_CHAN_RADAR).
Qed.

Definition plain (n : Z) (band : ieee80211_band) (p : bool) (ch : ieee80211_channel) : bool :=
  usable band ch && negb (radar ch) && eqb (negb (probed n ch)) p.

Lemma selected_plain n band p ch : chan_selected n band false p ch = plain n band p ch.
Proof.
  unfold chan_selected, plain, usable, radar. rewrite scan_flags_passive, !scan_flags_has by done.
  by destruct (has (ch_flags ch) IEEE80211_CHAN_RADAR).
Qed.

Lemma filter_partition {A} (P Q R S : A -> bool) l :
  (forall x, S x = P x || Q x || R x) ->
  (forall x, P x && Q x = false /\ P x && R x = false /\ Q x && R x = false) ->
  Permutation (filter P l ++ filter Q l ++ filter R l) (filter S l).
Proof.
  intros HS HD. induction l as [|x l IH]; [done|]. rewrite !filter_cons, HS.
  destruct (HD x) as (D1 & D2 & D3). destruct (P x), (Q x), (R x); simpl; try discriminate; try done.
  - by constructor.
  - rewrite <- Permutation_middle. by constructor.
  - rewrite app_assoc, <- Permutation_middle, <- app_assoc. by constructor.
Qed.

Lemma filter_none {A} (l : list A) : filter (fun _ => false) l = [].
Proof. induction l as [|x l IH]; [done|]. by rewrite filter_cons. Qed.

Lemma chans_of_ext n band r p (P : ieee80211_channel -> bool) chans :
  (forall ch, chan_selected n band r p ch = P ch) -> chans_of n band r p chans = filter P chans.
Proof. intros HP. apply list_filter_iff. intros ch. by rewrite HP. Qed.

(** The regions, by what the request's channels allow. *)
Lemma regions_exact n chans :
  regions_of n chans =
  (let p2 := take 14 (filter (plain n IEEE80211_BAND_2GHZ true) chans) in
   let p5 := take 24 (filter (plain n IEEE80211_BAND_5GHZ true) chans) in
   let d5 := take (24 - length p5) (filter (watched IEEE80211_BAND_5GHZ) chans) in
   {| passive_2 := p2; active_2 := take (14 - length p2) (filter (plain n IEEE80211_BAND_2GHZ false) chans);
      passive_5 := p5; dfs_5 := d5;
      active_5 := take (24 - length p5 - length d5) (filter (plain n IEEE80211_BAND_5GHZ false) chans) |}).
Proof.
  unfold regions_of. rewrite !(chans_of_ext _ _ _ _ _ _ (selected_plain n _ _)).
  by rewrite !(chans_of_ext _ _ _ _ _ _ (selected_radar n _ _)).
Qed.

(** The entry of a channel names it, its power limit and whether it has radar. *)
Definition entry_of (ch : ieee80211_channel) (p : conn_scan_ch_params) : Prop :=
  scan_channel p = u8 (hw_value ch) /\ tx_power_att p = u8 (max_power ch) /\
  ch_params_flags p = if radar ch then SCAN_CHANNEL_FLAGS_DFS else 0.

Lemma entries_of wl n band type chans rest :
  Forall2 entry_of chans (take (length chans) (entries wl n band type chans ++ rest)).
Proof.
  rewrite take_app_le, take_ge by (unfold entries; rewrite length_fmap; lia).
  unfold entries. apply Forall2_fmap_r, Forall_Forall2_diag, Forall_forall. intros ch _.
  unfold entry_of, chan_params. destruct (dwell_times _ _ _ _ _) as [[[? ?] ?] ?].
  unfold compose. cbn beta iota. rewrite scan_flags_has by done. unfold radar. by destruct (has _ _).
Qed.

(** The 2.4 GHz channels without radar, when the array holds them all. *)
Lemma regions_2 n chans :
  let all := filter (fun ch => usable IEEE80211_BAND_2GHZ ch && negb (radar ch)) chans in
  (length all <= 14)%nat ->
  Permutation (passive_2 (regions_of n chans) ++ active_2 (regions_of n chans)) all.
Proof.
  cbv zeta. intros Hl. unfold regions_of. cbn [passive_2 active_2].
  rewrite !(chans_of_ext _ _ _ _ _ _ (selected_plain n IEEE80211_BAND_2GHZ _)).
  set (P := plain n IEEE80211_BAND_2GHZ true). set (Q := plain n IEEE80211_BAND_2GHZ false).
  assert (Permutation (filter P chans ++ filter Q chans) (filter (fun ch => usable IEEE80211_BAND_2GHZ ch && negb (radar ch)) chans)) as Perm.
  { etrans; [|apply (filter_partition P Q (fun _ => false))].
    - by rewrite filter_none, app_nil_r.
    - intros ch. unfold P, Q, plain. by destruct (usable _ ch && _), (probed n ch).
    - intros ch. unfold P, Q, plain. by destruct (usable _ ch && _), (probed n ch). }
  pose proof (Permutation_length Perm) as L. rewrite length_app in L.
  rewrite (take_ge (filter P chans)), take_ge by lia. done.
Qed.

Lemma regions_5 n chans :
  let all := filter (fun ch => usable IEEE80211_BAND_5GHZ ch) chans in
  (length all <= 24)%nat ->
  Permutation (passive_5 (regions_of n chans) ++ dfs_5 (regions_of n chans)
               ++ active_5 (regions_of n chans)) all.
Proof.
  cbv zeta. intros Hl. unfold regions_of. cbn [passive_5 dfs_5 active_5].
  rewrite !(chans_of_ext _ _ _ _ _ _ (selected_plain n IEEE80211_BAND_5GHZ _)).
  rewrite !(chans_of_ext _ _ _ _ _ _ (selected_radar n IEEE80211_BAND_5GHZ _)).
  set (P := plain n IEEE80211_BAND_5GHZ true). set (Q := plain n IEEE80211_BAND_5GHZ false).
  set (R := watched IEEE80211_BAND_5GHZ).
  assert (Permutation (filter P chans ++ filter R chans ++ filter Q chans)
            (filter (fun ch => usable IEEE80211_BAND_5GHZ ch) chans)) as Perm.
  { apply filter_partition; intros ch; unfold P, Q, R, plain, watched;
      by destruct (usable _ ch), (radar ch), (probed n ch). }
  pose proof (Permutation_length Perm) as L. rewrite !length_app in L.
  rewrite (take_ge (filter P chans)), (take_ge (filter R chans)), take_ge by lia. done.
Qed.

(** Only channels that may be probed are scanned actively. *)
Lemma active_probed n chans :
  Forall (fun ch => probed n ch = true) (active_2 (regions_of n chans) ++ active_5 (regions_of n chans)).
Proof.
  unfold regions_of. cbn [active_2 active_5].
  rewrite !(chans_of_ext _ _ _ _ _ _ (selected_plain n _ _)).
  apply Forall_app. split; apply Forall_take, Forall_forall; intros ch [Hc _]%list_elem_of_filter;
    unfold plain in Hc; by destruct (probed n ch); [|rewrite andb_false_r in Hc].
Qed.

Lemma active_none chans : active_2 (regions_of 0 chans) = [] /\ active_5 (regions_of 0 chans) = [].
Proof.
  pose proof (active_probed 0 chans) as F. apply Forall_app in F as [F2 F5].
  split; [destruct (active_2 _) as [|ch l] | destruct (active_5 _) as [|ch l]]; [done| |done|];
    by apply Forall_cons in F2 || apply Forall_cons in F5; destruct_and?.
Qed.

(** ** The SSIDs of a periodic scan *)

Lemma add_ssids_spec f ssids : forall l, zlen l + zlen ssids <= SCHED_SCAN_MAX_SSIDS ->
  add_ssids f ssids l = Ret (l ++ ((fun s => (f s, s)) <$> ssids)).
Proof.
  induction ssids as [|s ssids IH]; intros l Hl; [simpl; by rewrite app_nil_r|].
  assert (zlen (s :: ssids) = zlen ssids + 1) as E by (unfold zlen; simpl; lia). rewrite E in Hl.
  cbn [add_ssids]. unfold add_ssid. pose proof (zlen_nonneg ssids).
  rewrite (proj2 (Z.ltb_lt _ _)) by lia. cbn [obind]. rewrite IH.
  - by rewrite <- app_assoc.
  - rewrite zlen_app. change (zlen [(f s, s)]) with 1. lia.
Qed.

(** The names of a filter, those of [ssids] marked as hidden: of a name the
    filter has several times, the first. *)
Fixpoint marked (seen ssids names : list (list Z)) : list (Z * list Z) :=
  match names with
  | [] => []
  | s :: names =>
      (if bool_decide (s ∈ ssids /\ s ∉ seen) then SCAN_SSID_TYPE_HIDDEN else SCAN_SSID_TYPE_PUBLIC, s)
        :: marked (s :: seen) ssids names
  end.

Lemma marked_ext M N names : forall seen, (forall s, s ∈ names -> s ∉ seen -> s ∈ M <-> s ∈ N) ->
  marked seen M names = marked seen N names.
Proof.
  induction names as [|x names IH]; intros seen H; [done|]. cbn [marked].
  rewrite (IH (x :: seen)).
  - erewrite bool_decide_ext; [done|]. specialize (H x ltac:(by left)). tauto.
  - intros s Hs Hn. apply H; [by right|]. intros ?. apply Hn. by right.
Qed.

Lemma marked_none names : forall seen, marked seen [] names = (fun s => (SCAN_SSID_TYPE_PUBLIC, s)) <$> names.
Proof.
  induction names as [|x names IH]; intros seen; [done|]. cbn [marked]. rewrite IH.
  rewrite bool_decide_eq_false_2 by (by intros [?%elem_of_nil _]). done.
Qed.

Lemma mark_hidden_spec s M names : forall seen, s ∉ seen ->
  mark_hidden s (marked seen M names)
  = if bool_decide (s ∈ names) then Some (marked seen (s :: M) names) else None.
Proof.
  induction names as [|x names IH]; intros seen Hs; [done|]. cbn [marked mark_hidden].
  destruct (bool_decide_reflect (x = s)) as [->|Hne].
  - rewrite (bool_decide_eq_true_2 (s ∈ s :: names)) by (by left).
    rewrite (bool_decide_eq_true_2 (s ∈ s :: M /\ s ∉ seen)) by (split; [by left | done]). do 2 f_equal.
    apply marked_ext. intros y Hy Hn. rewrite elem_of_cons. split; [by right|]. intros [->|?]; [|done].
    destruct Hn. by left.
  - rewrite IH by (rewrite elem_of_cons; naive_solver).
    assert (bool_decide (s ∈ x :: names) = bool_decide (s ∈ names)) as ->
      by (apply bool_decide_ext; rewrite elem_of_cons; split; [by intros [->|?] | by right]).
    assert (bool_decide (x ∈ s :: M /\ x ∉ seen) = bool_decide (x ∈ M /\ x ∉ seen)) as ->
      by (apply bool_decide_ext; rewrite elem_of_cons; naive_solver).
    by case_bool_decide.
Qed.

(** Every name to probe for has to be in the filter. *)
Lemma mark_all_spec names ssids : [] ∉ names -> forall M,
  mark_all_hidden ssids (marked [] M names)
  = if forallb (fun s => (zlen s =? 0) || bool_decide (s ∈ names)) ssids
    then Some (marked [] (ssids ++ M) names) else None.
Proof.
  intros Hn. induction ssids as [|s ssids IH]; intros M; [done|]. cbn [mark_all_hidden forallb].
  destruct (Z.eqb_spec (zlen s) 0) as [Hz|Hz]; cbn [orb andb].
  - assert (s = []) as -> by (destruct s; [done | unfold zlen in Hz; simpl in Hz; lia]).
    rewrite IH. split_if; [|done]. f_equal. apply marked_ext. intros y Hy _. simpl. rewrite elem_of_cons.
    split; [by right|]. intros [->|?]; done.
  - rewrite mark_hidden_spec by (by intros ?%elem_of_nil).
    destruct (bool_decide_reflect (s ∈ names)); [|done]. rewrite IH.
    split_if; [|done]. f_equal. apply marked_ext. intros y Hy _. simpl.
    rewrite !elem_of_app, !elem_of_cons, elem_of_app. tauto.
Qed.

Definition names_of (req : cfg80211_sched_scan_request) : list (list Z) :=
  filter (fun s => 0 < zlen s) (match_sets req).

(** What cfg80211 passes on: as many SSIDs and filters as the driver has
    registered for. *)
Record sched_req_ok (req : cfg80211_sched_scan_request) : Prop := {
  so_ssids : zlen (sched_ssids req) <= SCHED_SCAN_MAX_SSIDS;
  so_sets : zlen (match_sets req) <= SCHED_SCAN_MAX_SSIDS
}.

Lemma names_len req : sched_req_ok req -> zlen (names_of req) <= SCHED_SCAN_MAX_SSIDS.
Proof.
  intros [_ H]. etrans; [|exact H]. unfold names_of. apply inj_le, length_filter.
Qed.

(** The list is built without leaving the array. *)
Lemma ssid_list_returns req : sched_req_ok req -> exists r, ssid_list req = Ret r.
Proof.
  intros H. unfold ssid_list. cbv zeta. fold (names_of req). split_if.
  - split_if; [by eexists|]. rewrite add_ssids_spec by apply H. by eexists.
  - rewrite add_ssids_spec by (by apply names_len). cbn [obind]. split_if; [by eexists|].
    case_match; by eexists.
Qed.

Section ScanFacts.
Context `{laws : wlcore_ops_laws}.

(** ** Sending the command *)

Lemma build_ap_probe_io v skb p wl : io_frame wl (snd (wl1271_cmd_build_ap_probe_req v skb p wl)).
Proof.
  unfold wl1271_cmd_build_ap_probe_req. cbv zeta.
  destruct (match skb with Some b => Some b | None => p end); [|reflexivity].
  unfold wl1271_cmd_template_set.
  match goal with |- context [wl1271_cmd_send ?c wl] => pose proof (cmd_send_io_frame c wl) as F;
    destruct (wl1271_cmd_send c wl) as [ret w] end. exact F.
Qed.

(** An SSID is there to be read whenever a band has active channels. *)
Lemma probe_active_spec v role n band ssids ie sched wl : (n <> 0 -> ssids <> []) ->
  exists ret wl', probe_active v role n band ssids ie sched wl = Ret (ret, wl') /\ io_frame wl wl'.
Proof.
  intros Hn. unfold probe_active. destruct (Z.eqb_spec n 0) as [_|H]; [by exists 0, wl|].
  destruct ssids as [|s ssids]; [by destruct (Hn H)|].
  pose proof (cmd_send_io_frame) as F. unfold wl12xx_cmd_build_probe_req, wl1271_cmd_template_set. cbv zeta.
  match goal with |- context [wl1271_cmd_send ?c wl] => specialize (F c wl);
    destruct (wl1271_cmd_send c wl) as [ret w] end. by exists ret, w.
Qed.

Lemma probe_and_scan_spec v cmd ssids ie sched wl :
  (zget 0 (scan_active cmd) 0 <> 0 \/ zget 0 (scan_active cmd) 1 <> 0 -> ssids <> []) ->
  exists ret wl', probe_and_scan v cmd ssids ie sched wl = Ret (ret, wl') /\ io_frame wl wl'.
Proof.
  intros Hn. unfold probe_and_scan.
  destruct (probe_active_spec v (scan_role_id cmd) (zget 0 (scan_active cmd) 0) IEEE80211_BAND_2GHZ
    ssids (ie IEEE80211_BAND_2GHZ) sched wl ltac:(auto)) as (r1 & w1 & -> & F1). cbn [obind].
  split_if; [by exists r1, w1|].
  destruct (probe_active_spec v (scan_role_id cmd) (zget 0 (scan_active cmd) 1) IEEE80211_BAND_5GHZ
    ssids (ie IEEE80211_BAND_5GHZ) sched w1 ltac:(auto)) as (r2 & w2 & -> & F2). cbn [obind].
  split_if; [exists r2, w2; split; [done | by etrans]|].
  pose proof (cmd_send_io_frame (CMD_SCAN cmd) w2) as F3. destruct (wl1271_cmd_send _ w2) as [r3 w3].
  exists r3, w3. split; [done|]. etrans; [exact F1|]. by etrans.
Qed.

(** The active channels of a request, none without an SSID. *)
Lemma actives_of wl cfg chans (ssids : list (list Z)) type :
  channels_2 cfg = replicate 14 ch_params0 -> channels_5 cfg = replicate 24 ch_params0 ->
  let cfg' := snd (wlcore_set_scan_chan_params wl cfg chans (zlen ssids) type) in
  zget 0 (scan_active cfg') 0 <> 0 \/ zget 0 (scan_active cfg') 1 <> 0 -> ssids <> [].
Proof.
  intros E2 E5. cbv zeta. destruct (set_scan_chan_params_spec wl cfg chans (zlen ssids) type E2 E5) as (_ & -> & _).
  intros H ->. destruct (active_none chans) as [A2 A5]. change (zlen []) with 0 in H. rewrite A2, A5 in H.
  by destruct H.
Qed.

Lemma search_actives role req wl :
  let cmd := search_params role req wl in
  zget 0 (scan_active cmd) 0 <> 0 \/ zget 0 (scan_active cmd) 1 <> 0 -> req_ssids req <> [].
Proof.
  cbv zeta. unfold search_params. cbv zeta. set (cfg := scan_params0 <| scan_role_id := _ |> <| scan_type := _ |>
    <| rssi_threshold := _ |> <| snr_threshold := _ |> <| scan_bss_type := _ |> <| ssid_from_list := _ |>
    <| scan_filter := _ |> <| n_probe_reqs := _ |>).
  pose proof (actives_of wl cfg (req_channels req) (req_ssids req) SCAN_TYPE_SEARCH eq_refl eq_refl) as H.
  cbv zeta in H. destruct (wlcore_set_scan_chan_params _ _ _ _ _) as [b c]. simpl in H.
  intros Ha. apply H. clear H. by destruct (no_cck req), (req_ssids req).
Qed.

Lemma periodic_actives role type req wl :
  let cmd := periodic_params role type req wl in
  zget 0 (scan_active cmd) 0 <> 0 \/ zget 0 (scan_active cmd) 1 <> 0 -> sched_ssids req <> [].
Proof.
  cbv zeta. unfold periodic_params. cbv zeta. set (cfg := scan_params0 <| scan_role_id := _ |> <| scan_type := _ |>
    <| rssi_threshold := _ |> <| snr_threshold := _ |> <| scan_bss_type := _ |> <| ssid_from_list := _ |>
    <| scan_filter := _ |> <| n_probe_reqs := _ |>).
  pose proof (actives_of wl cfg (sched_channels req) (sched_ssids req) SCAN_TYPE_PERIODIC eq_refl eq_refl) as H.
  cbv zeta in H. destruct (wlcore_set_scan_chan_params _ _ _ _ _) as [b c]. simpl in H.
  intros Ha. by apply H.
Qed.

Lemma scan_send_spec v req wl :
  exists ret wl', wl1271_scan_send v req wl = Ret (ret, wl') /\ io_frame wl wl'.
Proof.
  unfold wl1271_scan_send. cbv zeta. set (role := if role_id _ =? _ then _ else _).
  destruct (role =? WL12XX_INVALID_ROLE_ID); [by exists (- EINVAL), wl|].
  apply probe_and_scan_spec, search_actives.
Qed.

(** ** The operations keep the invariant *)

(** As [work_keeps], with [d] scans more. *)
Record scan_keeps (d : Z) (wl wl' : wl1271) : Prop := {
  sk_inv : work_inv wl';
  sk_hw : hw wl' = hw wl;
  sk_copies s : s <> dummy_packet (hw wl) -> copies s wl' = copies s wl;
  sk_list : wlvif_list wl' = wlvif_list wl;
  sk_kind v : vif_kind (vif_at wl' v) = vif_kind (vif_at wl v);
  sk_ok : scan_ok wl -> scan_ok wl';
  sk_scans : scans wl' = scans wl + d
}.

Lemma scan_keeps_trans d1 d2 a b c : scan_keeps d1 a b -> scan_keeps d2 b c -> scan_keeps (d1 + d2) a c.
Proof.
  intros [I1 H1 C1 L1 K1 O1 N1] [I2 H2 C2 L2 K2 O2 N2].
  split; [done | congruence | | congruence | intros v; by rewrite K2 | auto | lia].
  intros s Hs. rewrite C2 by congruence. by apply C1.
Qed.

Lemma work_scan_keeps wl wl' : work_keeps wl wl' -> scan_keeps 0 wl wl'.
Proof. intros [? ? ? ? [] ?]. split; try done. lia. Qed.

Lemma scan_then_work d a b c : scan_keeps d a b -> work_keeps b c -> scan_keeps d a c.
Proof. intros A B. rewrite <- (Z.add_0_r d). eapply scan_keeps_trans; [exact A | by apply work_scan_keeps]. Qed.

Lemma work_then_scan d a b c : work_keeps a b -> scan_keeps d b c -> scan_keeps d a c.
Proof. intros A B. eapply (scan_keeps_trans 0 d); [by apply work_scan_keeps | exact B]. Qed.

(** The invariant does not depend on the scan. *)
Lemma work_inv_scan i v r c f s wl : work_inv wl ->
  work_inv (wl <| scan_idle := i |> <| scan_vif := v |> <| scan_req := r |> <| scanned_ch := c |>
               <| scan_failed := f |> <| scan_ssid := s |>).
Proof.
  intros [[I1 I2 I3 I4 I5 I6] H2 H3 H4 H6 H7 H8 H9]. split; [split|..]; try done.
  - by apply (counts_off_frame _ wl).
  - by apply (queues_ok_frame wl).
  - by apply (ids_ok_frame wl).
  - by apply (vifs_ok_frame wl); try apply (vo_last _ I4).
Qed.

(** A scan is marked as running. *)
Lemma start_scan_keeps v ssid wl : work_inv wl -> scan_idle wl = true ->
  scan_keeps 1 wl (emit (EvQueueScanComplete WL1271_SCAN_TIMEOUT)
    (wl <| scan_idle := false |> <| scan_ssid := ssid |> <| scan_vif := Some v |> <| scan_req := true |>
        <| scanned_ch := 0 |> <| scan_failed := true |>)).
Proof.
  intros W Hi. eapply scan_then_work; [|apply emit_keeps; [done|]]; cycle 1.
  - exact (work_inv_scan false (Some v) true 0 true ssid wl W).
  - split; try done.
    + exact (work_inv_scan false (Some v) true 0 true ssid wl W).
    + intros _ _. by eexists.
    + unfold scans. rewrite Hi. simpl. lia.
Qed.

Lemma idle_scan_keeps wl : work_inv wl -> scan_idle wl = false -> scan_keeps (-1) wl (idle_scan wl).
Proof.
  intros W Hi. pose proof (rearm_watchdog_keeps wl W) as K. eapply work_then_scan; [exact K|].
  assert (scan_idle (wl12xx_rearm_tx_watchdog_locked wl) = false) as Hw
    by (unfold wl12xx_rearm_tx_watchdog_locked; by split_if).
  unfold idle_scan. set (w := wl12xx_rearm_tx_watchdog_locked wl) in *. clearbody w.
  split; try done.
  - exact (work_inv_scan true None false 0 (scan_failed w) (scan_ssid w) w (wk_inv _ _ K)).
  - unfold scans. rewrite Hw. simpl. lia.
Qed.

Lemma scan_reported_keeps b wl : work_inv wl -> scan_keeps 1 wl (emit (EvScanCompleted b) wl).
Proof.
  intros [[I1 I2 I3 I4 I5 I6] H2 H3 H4 H6 H7 H8 H9]. split; try done.
  - split; [split|..]; try done.
    + by apply (counts_off_frame _ wl).
    + by apply (queues_ok_frame wl).
    + by apply (ids_ok_frame wl).
    + by apply (vifs_ok_frame wl); try apply (vo_last _ I4).
  - unfold scans. change (1 + completed_scans (log wl) + (if scan_idle wl then 0 else 1)
      = completed_scans (log wl) + (if scan_idle wl then 0 else 1) + 1). lia.
Qed.

(** ** Scans on request *)

Definition scan_of (wl : wl1271) := (scan_idle wl, scan_vif wl, scan_failed wl).

Lemma io_scan wl wl' : io_frame wl wl' -> scan_of wl' = scan_of wl.
Proof. by intros [(? & ? & ? & ? & ->) _ _ _]. Qed.

Lemma elp_sleep_scan wl : scan_of (wl1271_ps_elp_sleep wl) = scan_of wl.
Proof. unfold wl1271_ps_elp_sleep. cbv zeta. by repeat split_if. Qed.

Lemma elp_wakeup_scan c wl : scan_of (snd (wl1271_ps_elp_wakeup c wl)) = scan_of wl.
Proof.
  unfold wl1271_ps_elp_wakeup. cbv zeta. split_if; [done|]. split_if; [done|].
  match goal with |- context [wlcore_raw_write32 ?a ?b ?w] =>
    pose proof (io_scan _ _ (raw_write32_io_frame a b w)) as F; destruct (wlcore_raw_write32 a b w) as [r w1] end.
  simpl in F. assert (scan_of (wl12xx_queue_recovery_work w1) = scan_of w1) as Q
    by (apply io_scan, queue_recovery_io_frame).
  repeat split_if; simpl; rewrite ?Q; exact F.
Qed.

Lemma wl1271_scan_spec v ssid req wl : work_inv wl -> zlen (req_channels req) <= WL1271_MAX_CHANNELS ->
  exists ret wl', wl1271_scan v ssid req wl = Ret (ret, wl') /\
    ((scan_idle wl = true /\ ret = 0 /\ scan_keeps 1 wl wl' /\ scan_of wl' = (false, Some v, true)) \/
     (scan_idle wl = false /\ ret = - EBUSY /\ wl' = wl)).
Proof.
  intros W Hn. unfold wl1271_scan. rewrite (proj2 (Z.ltb_ge _ _)) by done.
  destruct (scan_idle wl) eqn:Hi; simpl negb; cbv iota; [|exists (- EBUSY), wl; auto]. cbv zeta.
  pose proof (start_scan_keeps v (default [] ssid) wl W Hi) as K.
  set (w1 := emit _ _) in *. assert (scan_of w1 = (false, Some v, true)) as S1 by done. clearbody w1.
  destruct (scan_send_spec v req w1) as (r & w2 & -> & F). cbn [obind].
  exists 0, w2. split; [done|]. left. split_and!; [done | done | | by rewrite (io_scan _ _ F)].
  eapply scan_then_work; [exact K | by apply io_keeps; [apply K|]].
Qed.

(** A request is accepted, or refused with a negative code and nothing changed. *)
Lemma op_hw_scan_spec c v req wl : work_inv wl -> zlen (req_channels req) <= WL1271_MAX_CHANNELS ->
  exists ret wl', wl1271_op_hw_scan c v req wl = Ret (ret, wl') /\
    ((ret = 0 /\ scan_idle wl = true /\ scan_keeps 1 wl wl' /\ scan_of wl' = (false, Some v, true)) \/
     (ret < 0 /\ work_keeps wl wl' /\ scan_of wl' = scan_of wl)).
Proof.
  intros W Hn. unfold wl1271_op_hw_scan.
  split_if; [exists (- EAGAIN), wl; split; [done|]; right; split_and!; [done | by apply work_keeps_refl | done]|].
  pose proof (elp_wakeup_keeps c wl W) as K1. pose proof (elp_wakeup_scan c wl) as S1.
  destruct (wl1271_ps_elp_wakeup c wl) as [r1 w1]. simpl in K1, S1.
  destruct (Z.ltb_spec r1 0) as [Hr|Hr]; [exists r1, w1; auto|].
  assert (forall r w, work_keeps wl w -> scan_of w = scan_of wl -> r < 0 -> exists ret wl',
    Ret (r, wl1271_ps_elp_sleep w) = Ret (ret, wl') /\
    ((ret = 0 /\ scan_idle wl = true /\ scan_keeps 1 wl wl' /\ scan_of wl' = (false, Some v, true)) \/
     (ret < 0 /\ work_keeps wl wl' /\ scan_of wl' = scan_of wl))) as Refused.
  { intros r w K S Hneg. exists r, (wl1271_ps_elp_sleep w). split; [done|]. right.
    split_and!; [done | keeps_via K; apply elp_sleep_keeps, K | by rewrite elp_sleep_scan]. }
  split_if; [cbn [obind]; by apply Refused|].
  destruct (wl1271_scan_spec v (head (req_ssids req)) req w1 (wk_inv _ _ K1) Hn)
    as (r2 & w2 & -> & [(Hi & -> & K2 & S2)|(Hi & -> & ->)]); cbn [obind]; [|by apply Refused].
  exists 0, (wl1271_ps_elp_sleep w2). split; [done|]. left. split_and!; [done | | | by rewrite elp_sleep_scan].
  - injection S1 as S1 _ _. congruence.
  - eapply work_then_scan; [exact K1|]. eapply scan_then_work; [exact K2 | apply elp_sleep_keeps, K2].
Qed.

(** ** The end of a scan *)

(** The work item gives up on a scan when the chip does not wake up. *)
Definition lost_scan (c : Z) (wl : wl1271) : Z :=
  if bool_decide (state wl = WLCORE_STATE_ON) && negb (scan_idle wl)
     && (fst (wl1271_ps_elp_wakeup c (idle_scan wl)) <? 0) then 1 else 0.

Lemma scan_complete_work_spec c p wl : work_inv wl -> scan_ok wl ->
  exists wl', wl1271_scan_complete_work c p wl = Ret wl' /\ scan_keeps (- lost_scan c wl) wl wl' /\
    (state wl = WLCORE_STATE_ON -> scan_idle wl' = true /\
       (scan_idle wl = false -> lost_scan c wl = 0 -> scan_failed wl = true ->
        state wl' <> WLCORE_STATE_ON)).
Proof.
  intros W Ho. unfold wl1271_scan_complete_work, lost_scan.
  destruct (bool_decide_reflect (state wl = WLCORE_STATE_ON)) as [Hs|Hs]; simpl negb; cbv iota; cbn [andb];
    [|exists wl; split_and!; [done | by apply work_scan_keeps, work_keeps_refl | done]].
  destruct (scan_idle wl) eqn:Hi; cbn [negb andb];
    [exists wl; split_and!; [done | by apply work_scan_keeps, work_keeps_refl | done]|].
  cbv zeta. pose proof (idle_scan_keeps wl W Hi) as K0.
  assert (scan_idle (idle_scan wl) = true /\ scan_failed (idle_scan wl) = scan_failed wl) as [I0 F0]
    by (unfold idle_scan, wl12xx_rearm_tx_watchdog_locked; by split_if). set (w0 := idle_scan wl) in *. clearbody w0.
  pose proof (elp_wakeup_keeps c w0 (sk_inv _ _ _ K0)) as K1. pose proof (elp_wakeup_scan c w0) as S1.
  destruct (wl1271_ps_elp_wakeup c w0) as [r1 w1]. cbn [fst snd] in *. injection S1 as S1 _ S1'.
  destruct (r1 <? 0).
  { exists w1. split_and!; [done | by eapply scan_then_work |]. split; [congruence | done]. }
  destruct (Ho Hi) as [v ->]. eexists. split; [done|].
  set (w2 := if vif_flag (vif_at w1 v) _ then _ else w1).
  assert (io_frame w1 w2) as F by (unfold w2; split_if; [apply build_ap_probe_io | reflexivity]). clearbody w2.
  pose proof (io_keeps _ _ (wk_inv _ _ K1) F) as K2. pose proof (elp_sleep_keeps w2 (wk_inv _ _ K2)) as K3.
  pose proof (elp_sleep_scan w2) as S3. set (w3 := wl1271_ps_elp_sleep w2) in *. clearbody w3.
  set (w4 := if scan_failed w3 then _ else w3).
  assert (io_frame w3 w4) as F4 by (unfold w4; split_if; [apply queue_recovery_io_frame | reflexivity]).
  assert (scan_failed w3 = true -> state w4 <> WLCORE_STATE_ON) as R4.
  { intros E. unfold w4. rewrite E. unfold wl12xx_queue_recovery_work. by destruct (state w3) eqn:Es; rewrite ?Es. }
  clearbody w4.
  pose proof (io_keeps _ _ (wk_inv _ _ K3) F4) as K4.
  split.
  - change (- 0) with (-1 + 1). eapply scan_keeps_trans; [|apply scan_reported_keeps, K4].
    eapply scan_then_work; [exact K0|]. keeps_via K1. keeps_via K2. by keeps_via K3.
  - intros _. pose proof (io_scan _ _ F) as E2. pose proof (io_scan _ _ F4) as E4. rewrite S3, E2 in E4.
    injection E4 as E4 _ _. split; [change (scan_idle w4 = true); congruence|]. intros _ _ Hf.
    apply R4. rewrite E2 in S3. injection S3 as _ _ S3. congruence.
Qed.

Lemma op_cancel_hw_scan_keeps c wl : work_inv wl -> work_keeps wl (wl1271_op_cancel_hw_scan c wl).
Proof.
  intros W. unfold wl1271_op_cancel_hw_scan. set (w := if negb _ then _ else _).
  assert (work_keeps wl w) as K; [|keeps_via K; apply emit_keeps; [done | apply K]].
  unfold w. clear w. repeat (split_if; [by apply work_keeps_refl|]).
  pose proof (elp_wakeup_keeps c wl W) as K1. pose proof (elp_wakeup_scan c wl) as S1.
  destruct (wl1271_ps_elp_wakeup c wl) as [r1 w1]. simpl in K1, S1. injection S1 as S1 _ _.
  split_if; [exact K1|]. unfold wl1271_scan_stop. rewrite S1, E0.
  pose proof (cmd_send_io_frame (CMD_STOP_SCAN None) w1) as F.
  destruct (wl1271_cmd_send (CMD_STOP_SCAN None) w1) as [r2 w2]. simpl in F.
  pose proof (io_keeps _ _ (wk_inv _ _ K1) F) as K2. pose proof (io_scan _ _ F) as S2. injection S2 as S2 _ _.
  keeps_via K1. keeps_via K2. split_if; [apply elp_sleep_keeps, K2|].
  pose proof (scan_ended_keeps true w2 (wk_inv _ _ K2) ltac:(congruence)) as K3.
  keeps_via K3. apply elp_sleep_keeps, K3.
Qed.

(** ** Periodic scans *)

Lemma sched_scan_config_spec v req ies wl : sched_req_ok req ->
  exists ret wl', wl1271_scan_sched_scan_config v req ies wl = Ret (ret, wl') /\ io_frame wl wl'.
Proof.
  intros H. unfold wl1271_scan_sched_scan_config. split_if; [by exists (- EINVAL), wl|].
  assert (exists t w, wl12xx_scan_set_ssid_list req wl = Ret (t, w) /\ io_frame wl w) as (t & w & -> & F).
  { unfold wl12xx_scan_set_ssid_list. destruct (ssid_list_returns req H) as [r ->]. cbn [obind].
    destruct r as [e|[type [l|]]]; [by exists e, wl | | by exists type, wl].
    pose proof (cmd_send_io_frame (CMD_CONNECTION_SCAN_SSID_CFG 0 l) wl) as F.
    destruct (wl1271_cmd_send _ wl) as [r w]. by eexists _, w. }
  cbn [obind]. split_if; [by exists t, w|]. cbv zeta. split_if; [by exists (- EINVAL), w|].
  destruct (probe_and_scan_spec v (periodic_params (role_id (vif_at w v)) t req w) (sched_ssids req) ies true w)
    as (ret & w' & -> & F'); [apply periodic_actives|]. exists ret, w'. split; [done | by etrans].
Qed.

Lemma op_sched_scan_start_keeps c v req ies wl : work_inv wl -> sched_req_ok req ->
  exists ret wl', wl1271_op_sched_scan_start c v req ies wl = Ret (ret, wl') /\ work_keeps wl wl'.
Proof.
  intros W H. unfold wl1271_op_sched_scan_start.
  split_if; [exists (- EINVAL), wl; split; [done | by apply work_keeps_refl]|].
  split_if; [exists (- EAGAIN), wl; split; [done | by apply work_keeps_refl]|].
  pose proof (elp_wakeup_keeps c wl W) as K1. destruct (wl1271_ps_elp_wakeup c wl) as [r1 w1]. simpl in K1.
  split_if; [by exists r1, w1|].
  destruct (sched_scan_config_spec v req ies w1 H) as (r2 & w2 & -> & F). cbn [obind]. cbv zeta.
  pose proof (io_keeps _ _ (wk_inv _ _ K1) F) as K2. eexists _, _. split; [done|].
  set (w3 := if r2 <? 0 then w2 else _).
  assert (work_keeps w2 w3) as K3 by (unfold w3; split_if; [apply work_keeps_refl, K2 | apply view_keeps; done || apply K2]).
  clearbody w3. keeps_via K1. keeps_via K2. keeps_via K3. apply elp_sleep_keeps, K3.
Qed.

Lemma op_sched_scan_stop_keeps c v wl : work_inv wl -> work_keeps wl (wl1271_op_sched_scan_stop c v wl).
Proof.
  intros W. unfold wl1271_op_sched_scan_stop. repeat (split_if; [by apply work_keeps_refl|]).
  pose proof (elp_wakeup_keeps c wl W) as K1. destruct (wl1271_ps_elp_wakeup c wl) as [r1 w1]. simpl in K1.
  split_if; [exact K1|]. keeps_via K1. unfold wl1271_scan_sched_scan_stop.
  match goal with |- context [wl1271_cmd_send ?x w1] => pose proof (cmd_keeps x w1 (wk_inv _ _ K1)) as K2;
    destruct (wl1271_cmd_send x w1) as [r2 w2] end. keeps_via K2. apply elp_sleep_keeps, K2.
Qed.

End ScanFacts.
