(* ===== verification/Boot.v ===== *)
(** * Booting the chip (wlcore/boot.c)

    The firmware image and the NVS file are uploaded in pieces through the
    partition windows, the embedded CPU is started and the version of the
    running firmware is checked; with the start of the path to it in main.c
    (power, chip wake-up, the files from user space, the MAC addresses).  What
    the two chip families do around it is in Boot12xx.v and Boot18xx.v.

    Files are byte lists.  A pointer into a file is the rest of the file
    ([wl->fw]) or an offset ([wl->nvs]); an access outside the file is [Oops]. *)

From S2P Require Import Prelude WlState ChipOps Io PowerSave Event Links Roles Iface.

Definition ENODEV := 19.
Definition EFAULT := 14.
Definition EILSEQ := 84.

Definition CHUNK_SIZE := 16384.
Definition FW_CHUNK_MAX := 300000.
Definition INIT_LOOP := 20000.
Definition ECPU_CONTROL_HALT := 0x101.
Definition WL1271_ACX_INTR_INIT_COMPLETE := BIT 1.
Definition WL1271_ACX_INTR_ALL := 0xFFFFFFFF.
Definition WLCORE_QUIRK_LEGACY_NVS := BIT 5.

(** [sizeof(struct event_mailbox)] is [MBOX_SIZE] (Event.v). *)

(** ** Sequences of register accesses *)

(** [if (ret < 0) goto out;] after an access. *)
Definition check (m : Z * wl1271) (k : wl1271 -> Z * wl1271) : Z * wl1271 :=
  let '(ret, wl) := m in if ret <? 0 then (ret, wl) else k wl.

Definition check_read {A B} (m : Z * A * wl1271) (err : Z -> wl1271 -> B) (k : A -> wl1271 -> B) : B :=
  let '(ret, x, wl) := m in if ret <? 0 then err ret wl else k x wl.

(** The same where a later step can fault. *)
Definition ocheck (m : outcome (Z * wl1271)) (k : wl1271 -> outcome (Z * wl1271))
    : outcome (Z * wl1271) :=
  let* (ret, wl) := m in if ret <? 0 then Ret (ret, wl) else k wl.

Declare Scope boot_scope.
Delimit Scope boot_scope with boot.
Notation "'let?' w := m 'in' k" := (check m (fun w => k))
  (at level 10, w name, m at level 100, k at level 200) : boot_scope.
Notation "'let?' x , w := m 'in' k" := (check_read m pair (fun x w => k))
  (at level 10, x name, w name, m at level 100, k at level 200) : boot_scope.
Notation "'let!' w := m 'in' k" := (ocheck m (fun w => k))
  (at level 10, w name, m at level 100, k at level 200) : boot_scope.
Open Scope boot_scope.

Definition upd_boot (f : wl_boot -> wl_boot) (wl : wl1271) : wl1271 := wl <| boot ::= f |>.
Definition upd_hw (f : wl_hw -> wl_hw) (wl : wl1271) : wl1271 := wl <| hw ::= f |>.

(** [wl->quirks |= q] *)
Definition add_quirk (q : Z) : wl1271 -> wl1271 :=
  upd_hw (fun h => h <| quirks ::= fun x => Z.lor x q |>).

(** [*wl->ops], the two hooks of the version check. *)
Class wlcore_boot_ops := {
  identify_fw : option (wl1271 -> Z * wl1271);
  handle_static_data : option (list Z -> wl1271 -> outcome (Z * wl1271))
}.

(** ** Bytes and C strings *)

(** [memcpy(_, p, n)] from a pointer into a buffer of which [p] is left. *)
Definition memcpy_from (p : list Z) (n : Z) : outcome (list Z) :=
  if zlen p <? n then Oops else Ret (take (Z.to_nat n) p).

Definition be32_to_cpup (p : list Z) : outcome Z :=
  match p with
  | b0 :: b1 :: b2 :: b3 :: _ =>
      Ret (Z.lor (Z.shiftl b0 24) (Z.lor (Z.shiftl b1 16) (Z.lor (Z.shiftl b2 8) b3)))
  | _ => Oops
  end.

Definition byte_of (l : list Z) (i : Z) : outcome Z :=
  if i <? 0 then Oops else
  match l !! Z.to_nat i with Some b => Ret b | None => Oops end.

(** [p[i] = b] *)
Definition poke (l : list Z) (i b : Z) : outcome (list Z) :=
  if (0 <=? i) && (i <? zlen l) then Ret (zset l i b) else Oops.

(** The characters before the terminating NUL. *)
Fixpoint c_string (l : list Z) : list Z :=
  match l with
  | [] => []
  | c :: l => if c =? 0 then [] else c :: c_string l
  end.

(** [strncpy(dst, src, n)]: at most [n] characters, padded with NULs.  It reads
    [src] up to its NUL. *)
Definition strncpy (src : list Z) (n : nat) : outcome (list Z) :=
  let s := c_string src in
  if bool_decide (length s = length src) && bool_decide (length src < n)%nat then Oops
  else Ret (take n (s ++ replicate n 0)).

Definition isdigit (c : Z) : bool := (48 <=? c) && (c <=? 57).
Definition isspace (c : Z) : bool := (c =? 32) || ((9 <=? c) && (c <=? 13)).

Fixpoint skip_spaces (s : list Z) : list Z :=
  match s with
  | c :: s' => if isspace c then skip_spaces s' else s
  | [] => []
  end.

Fixpoint simple_strtoull (acc : Z) (s : list Z) : Z * list Z :=
  match s with
  | c :: s' => if isdigit c then simple_strtoull (u64 (acc * 10 + (c - 48))) s' else (acc, s)
  | [] => (acc, [])
  end.

(** One [%u] conversion of [sscanf]. *)
Definition scan_unsigned (s : list Z) : option (Z * list Z) :=
  match skip_spaces s with
  | c :: s' => if isdigit c
               then let '(v, rest) := simple_strtoull 0 (c :: s') in Some (u32 v, rest)
               else None
  | [] => None
  end.

(** [n] conversions separated by dots, all of them or nothing. *)
Fixpoint scan_dotted (n : nat) (s : list Z) : option (list Z) :=
  match n with
  | O => Some []
  | S n' =>
      match scan_unsigned s with
      | None => None
      | Some (v, rest) =>
          match n' with
          | O => Some [v]
          | _ => match rest with
                 | c :: rest => if c =? 46 then option_map (cons v) (scan_dotted n' rest) else None
                 | [] => None
                 end
          end
      end
  end.

(** ** The version of the running firmware *)

Definition FW_VER_CHIP := 0.
Definition FW_VER_IF_TYPE := 1.
Definition FW_VER_MAJOR := 2.
Definition FW_VER_SUBTYPE := 3.
Definition FW_VER_MINOR := 4.
Definition NUM_FW_VER : nat := 5.
Definition ETHTOOL_BUSINFO_LEN : nat := 32.

(** Offset of [fw_version] and of [priv] in [struct wl1271_static_data]; the
    latter is its size. *)
Definition STATIC_DATA_FW_VERSION : nat := 8.
Definition STATIC_DATA_SIZE := 64.

Definition wl1271_boot_set_ecpu_ctrl (flag : Z) (wl : wl1271) : Z * wl1271 :=
  let? cpu_ctrl, wl := wlcore_read32 (rtable_ecpu_control (boot wl)) wl in
  wlcore_write32 (rtable_ecpu_control (boot wl)) (Z.lor cpu_ctrl flag) wl.

Section Ops.
Context `{bops : wlcore_boot_ops}.

Definition wlcore_identify_fw (wl : wl1271) : Z * wl1271 :=
  match identify_fw with Some f => f wl | None => (0, wl) end.

Definition wlcore_handle_static_data (data : list Z) (wl : wl1271) : outcome (Z * wl1271) :=
  match handle_static_data with Some f => f data wl | None => Ret (0, wl) end.

Definition wlcore_boot_parse_fw_ver (static_data : list Z) (wl : wl1271) : outcome (Z * wl1271) :=
  let* str := strncpy (drop STATIC_DATA_FW_VERSION static_data) ETHTOOL_BUSINFO_LEN in
  let str := zset str (Z.of_nat ETHTOOL_BUSINFO_LEN - 1) 0 in
  let wl := upd_boot (fun b => b <| fw_ver_str := str |>) wl in
  match scan_dotted NUM_FW_VER (c_string (drop 4 str)) with
  | None => Ret (- EINVAL, upd_boot (fun b => b <| fw_ver := replicate NUM_FW_VER 0 |>) wl)
  | Some v =>
      let '(ret, wl) := wlcore_identify_fw (upd_boot (fun b => b <| fw_ver := v |>) wl) in
      Ret (ret, wl)
  end.

Definition wlcore_validate_fw_ver (wl : wl1271) : Z :=
  let fw := zget 0 (fw_ver (boot wl)) in
  let min := zget 0 (min_fw_ver (boot wl)) in
  (* the chip must be exactly equal *)
  if negb (min FW_VER_CHIP =? fw FW_VER_CHIP) then - EINVAL
  (* always check the next digit if all previous ones are equal *)
  else if min FW_VER_IF_TYPE <? fw FW_VER_IF_TYPE then 0
  else if fw FW_VER_IF_TYPE <? min FW_VER_IF_TYPE then - EINVAL
  else if min FW_VER_MAJOR <? fw FW_VER_MAJOR then 0
  else if fw FW_VER_MAJOR <? min FW_VER_MAJOR then - EINVAL
  else if min FW_VER_SUBTYPE <? fw FW_VER_SUBTYPE then 0
  else if fw FW_VER_SUBTYPE <? min FW_VER_SUBTYPE then - EINVAL
  else if min FW_VER_MINOR <? fw FW_VER_MINOR then 0
  else if fw FW_VER_MINOR <? min FW_VER_MINOR then - EINVAL
  else 0.

Definition wlcore_boot_static_data (wl : wl1271) : outcome (Z * wl1271) :=
  let len := STATIC_DATA_SIZE + static_data_priv_len (boot wl) in
  check_read (wlcore_read (cmd_box_addr (hw wl)) len wl) (fun ret wl => Ret (ret, wl))
    (fun static_data wl =>
  let! wl := wlcore_boot_parse_fw_ver static_data wl in
  let ret := wlcore_validate_fw_ver wl in
  if ret <? 0 then Ret (ret, wl) else wlcore_handle_static_data static_data wl).

End Ops.

(** ** The firmware image *)

(** [struct wlcore_partition_set] with another [mem.start]. *)
Definition with_mem_start (p : wlcore_partition_set) (start : Z) : wlcore_partition_set :=
  Build_wlcore_partition_set (Build_wlcore_partition (part_size (part_mem p)) start)
    (part_reg p) (part_mem2 p) (part_mem3 p).

(** The loop over the whole chunks and the last one; [n] chunks are left,
    [chunk_num] are done. *)
Fixpoint upload_chunks (n : nat) (chunk_num partition_limit : Z)
    (partition : wlcore_partition_set) (buf : list Z) (fw_data_len dest : Z) (wl : wl1271)
    : outcome (Z * wl1271) :=
  let at_chunk i := s32 (u32 (dest + i * CHUNK_SIZE)) in
  let p := drop (Z.to_nat (chunk_num * CHUNK_SIZE)) buf in
  match n with
  | O =>
      (* 10.4 upload the last chunk *)
      let addr := at_chunk chunk_num in
      let* chunk := memcpy_from p (fw_data_len mod CHUNK_SIZE) in
      Ret (wlcore_write (u32 addr) chunk wl)
  | S n =>
      (* 10.2 update partition, if needed *)
      let size := part_size (part_mem (ptable_down (boot wl))) in
      let moved := partition_limit <? at_chunk (chunk_num + 2) in
      let partition_limit :=
        if moved then s32 (chunk_num * CHUNK_SIZE + size) else partition_limit in
      let partition :=
        if moved then with_mem_start partition (u32 (at_chunk chunk_num)) else partition in
      let '(ret, wl) := if moved then wlcore_set_partition partition wl else (0, wl) in
      if ret <? 0 then Ret (ret, wl) else
      (* 10.3 upload the chunk *)
      let addr := at_chunk chunk_num in
      let* chunk := memcpy_from p CHUNK_SIZE in
      let '(ret, wl) := wlcore_write (u32 addr) chunk wl in
      if ret <? 0 then Ret (ret, wl) else
      upload_chunks n (chunk_num + 1) partition_limit partition buf fw_data_len dest wl
  end.

Definition wl1271_boot_upload_firmware_chunk (buf : list Z) (fw_data_len dest : Z) (wl : wl1271)
    : outcome (Z * wl1271) :=
  if negb (fw_data_len mod 4 =? 0) then Ret (- EIO, wl)
  else
    let partition := with_mem_start (ptable_down (boot wl)) dest in
    let '(ret, wl) := wlcore_set_partition partition wl in
    if ret <? 0 then Ret (ret, wl) else
    (* 10.1 set partition limit and chunk num *)
    let partition_limit := s32 (part_size (part_mem (ptable_down (boot wl)))) in
    upload_chunks (Z.to_nat (fw_data_len / CHUNK_SIZE)) 0 partition_limit partition
      buf fw_data_len dest wl.

(** [while (chunks--)].  A round reads eight bytes of the image, so its length
    bounds the number of rounds ([upload_image_fuel]). *)
Fixpoint upload_image (fuel : nat) (chunks ret : Z) (fw : list Z) (wl : wl1271)
    : outcome (Z * wl1271) :=
  if chunks =? 0 then Ret (ret, wl)
  else
    match fuel with
    | O => OutOfFuel
    | S fuel =>
        let* addr := be32_to_cpup fw in
        let fw := drop 4 fw in
        let* len := be32_to_cpup fw in
        let fw := drop 4 fw in
        if FW_CHUNK_MAX <? len then Ret (- EINVAL, wl)
        else
          let* (ret, wl) := wl1271_boot_upload_firmware_chunk fw len addr wl in
          if negb (ret =? 0) then Ret (ret, wl)
          else upload_image fuel (chunks - 1) ret (drop (Z.to_nat len) fw) wl
    end.

Definition wlcore_boot_upload_firmware (wl : wl1271) : outcome (Z * wl1271) :=
  let image := fw (boot wl) in
  let* chunks := be32_to_cpup image in
  upload_image (S (length image)) chunks 0 (drop 4 image) wl.

(** ** The NVS file *)

Definition WL1271_INI_NVS_SECTION_SIZE := 468.
Definition WL1271_INI_LEGACY_NVS_FILE_SIZE := 800.

(** [sizeof(struct wl1271_nvs_file)], [sizeof(struct wl128x_nvs_file)] and the
    offset of [general_params.dual_mode_select] in each. *)
Definition WL1271_NVS_FILE_SIZE := 912.
Definition WL128X_NVS_FILE_SIZE := 1113.
Definition WL1271_NVS_DUAL_MODE_SELECT := 472.
Definition WL128X_NVS_DUAL_MODE_SELECT := 477.

(** [if (nvs->general_params.dual_mode_select) wl->enable_11a = true;] *)
Definition nvs_dual_mode (file : list Z) (offset : Z) (wl : wl1271) : outcome wl1271 :=
  let* b := byte_of file offset in
  Ret (if b =? 0 then wl else upd_boot (fun b => b <| enable_11a := true |>) wl).

Definition nvs_bad_size (wl : wl1271) : Z * wl1271 :=
  (- EILSEQ, upd_boot (fun b => b <| nvs := None |> <| nvs_len := 0 |>) wl).

(** The size of the file against the chip's format: [None] accepts it. *)
Definition nvs_check_size (file : list Z) (wl : wl1271) : outcome (option (Z * wl1271) * wl1271) :=
  let len := nvs_len (boot wl) in
  if has_quirk wl WLCORE_QUIRK_LEGACY_NVS then
    let known := (len =? WL1271_NVS_FILE_SIZE) || (len =? WL1271_INI_LEGACY_NVS_FILE_SIZE) in
    let* wl := if known then nvs_dual_mode file WL1271_NVS_DUAL_MODE_SELECT wl else Ret wl in
    if negb (len =? WL1271_NVS_FILE_SIZE)
       && (negb (len =? WL1271_INI_LEGACY_NVS_FILE_SIZE) || enable_11a (boot wl))
    then Ret (Some (nvs_bad_size wl), wl) else Ret (None, wl)
  else if len =? WL128X_NVS_FILE_SIZE then
    let* wl := nvs_dual_mode file WL128X_NVS_DUAL_MODE_SELECT wl in Ret (None, wl)
  else Ret (Some (nvs_bad_size wl), wl).

(** Where the six bytes of the MAC address are in the NVS section. *)
Definition nvs_mac_offsets : list Z := [11; 10; 6; 5; 4; 3].

Fixpoint nvs_put_mac (offsets mac : list Z) (file : list Z) : outcome (list Z) :=
  match offsets, mac with
  | o :: offsets, b :: mac => let* file := poke file o b in nvs_put_mac offsets mac file
  | _, _ => Ret file
  end.

(** How the parse of the register bursts goes on. *)
Inductive nvs_res :=
| NvsNext (ptr : Z) (wl : wl1271)
| NvsBad (wl : wl1271)
| NvsFail (ret : Z) (wl : wl1271).

(** The words of one burst, [n] of them left. *)
Fixpoint nvs_burst (n : nat) (file : list Z) (nvs_len ptr dest_addr : Z) (wl : wl1271)
    : outcome nvs_res :=
  match n with
  | O => Ret (NvsNext ptr wl)
  | S n =>
      if nvs_len <=? ptr + 3 then Ret (NvsBad wl)
      else
        let* b0 := byte_of file ptr in
        let* b1 := byte_of file (ptr + 1) in
        let* b2 := byte_of file (ptr + 2) in
        let* b3 := byte_of file (ptr + 3) in
        let val := u32 (Z.lor b0 (Z.lor (Z.shiftl b1 8) (Z.lor (Z.shiftl b2 16) (Z.shiftl b3 24)))) in
        let '(ret, wl) := wlcore_write32 dest_addr val wl in
        if ret <? 0 then Ret (NvsFail ret wl)
        else nvs_burst n file nvs_len (ptr + 4) (u32 (dest_addr + 4)) wl
  end.

(** [while (nvs_ptr[0])].  A burst takes at least seven bytes of the section, so
    its size bounds the number of rounds. *)
Fixpoint nvs_bursts (fuel : nat) (file : list Z) (nvs_len ptr : Z) (wl : wl1271)
    : outcome nvs_res :=
  let* burst_len := byte_of file ptr in
  if burst_len =? 0 then Ret (NvsNext ptr wl)
  else
    match fuel with
    | O => OutOfFuel
    | S fuel =>
        let* lo := byte_of file (ptr + 1) in
        let* hi := byte_of file (ptr + 2) in
        let dest_addr := Z.lor (Z.land lo 0xfe) (u32 (Z.shiftl hi 8)) in
        let dest_addr := u32 (dest_addr + part_start (part_reg (curr_part wl))) in
        let* r := nvs_burst (Z.to_nat burst_len) file nvs_len (ptr + 3) dest_addr wl in
        match r with
        | NvsNext ptr wl =>
            if nvs_len <=? ptr then Ret (NvsBad wl) else nvs_bursts fuel file nvs_len ptr wl
        | _ => Ret r
        end
    end.

(** The tables behind the bursts, to the command mailbox. *)
Definition nvs_upload_tables (file : list Z) (nvs_len ptr : Z) (wl : wl1271) : outcome (Z * wl1271) :=
  let ptr := ALIGN (ptr + 7) 4 in
  if nvs_len <=? ptr then Ret (- EILSEQ, wl)
  else
    let nvs_len := nvs_len - ptr in
    (* Now we must set the partition correctly *)
    let '(ret, wl) := wlcore_set_partition (ptable_work (hw wl)) wl in
    if ret <? 0 then Ret (ret, wl) else
    let* nvs_aligned := memcpy_from (drop (Z.to_nat ptr) file) nvs_len in
    Ret (wlcore_write (rtable_cmd_mbox_address (boot wl)) nvs_aligned wl).

Definition wlcore_boot_upload_nvs (wl : wl1271) : outcome (Z * wl1271) :=
  match nvs (boot wl) with
  | None => Ret (- ENODEV, wl)
  | Some file =>
      let* (bad, wl) := nvs_check_size file wl in
      match bad with
      | Some r => Ret r
      | None =>
          (* only the first part of the NVS needs to be uploaded *)
          let nvs_len := WL1271_INI_NVS_SECTION_SIZE in
          (* update current MAC address to NVS *)
          let* file := nvs_put_mac nvs_mac_offsets (zget [] (addresses (boot wl)) 0) file in
          let wl := upd_boot (fun b => b <| nvs := Some file |>) wl in
          let* r := nvs_bursts (Z.to_nat nvs_len) file nvs_len 0 wl in
          match r with
          | NvsNext ptr wl => nvs_upload_tables file nvs_len ptr wl
          | NvsBad wl => Ret (- EILSEQ, wl)
          | NvsFail ret wl => Ret (ret, wl)
          end
      end
  end.

(** ** Starting the firmware *)

(** Wait for init to complete; [loop] polls are left. *)
Fixpoint boot_wait_init (loop : nat) (wl : wl1271) : Z * wl1271 :=
  match loop with
  | O => (- EIO, wl)
  | S loop =>
      let? intr, wl := wlcore_read32 (rtable_interrupt_no_clear (hw wl)) wl in
      if intr =? 0xffffffff then (- EIO, wl)
      else if has intr WL1271_ACX_INTR_INIT_COMPLETE then
        let? wl := wlcore_write32 (rtable_interrupt_ack (hw wl)) WL1271_ACX_INTR_INIT_COMPLETE wl in
        (0, wl)
      else boot_wait_init loop wl
  end.

Definition PSPOLL_DELIVERY_FAILURE_EVENT_ID := BIT 14.
Definition PERIODIC_SCAN_REPORT_EVENT_ID := BIT 29.

(** The events the firmware may report. *)
Definition BOOT_EVENT_MASK : Z :=
  fold_right Z.lor 0
    [BSS_LOSE_EVENT_ID; REGAINED_BSS_EVENT_ID; SCAN_COMPLETE_EVENT_ID;
     ROLE_STOP_COMPLETE_EVENT_ID; RSSI_SNR_TRIGGER_0_EVENT_ID;
     PSPOLL_DELIVERY_FAILURE_EVENT_ID; SOFT_GEMINI_SENSE_EVENT_ID;
     PERIODIC_SCAN_REPORT_EVENT_ID; PERIODIC_SCAN_COMPLETE_EVENT_ID;
     DUMMY_PACKET_EVENT_ID; PEER_REMOVE_COMPLETE_EVENT_ID;
     BA_SESSION_RX_CONSTRAINT_EVENT_ID; REMAIN_ON_CHANNEL_COMPLETE_EVENT_ID;
     INACTIVE_STA_EVENT_ID; MAX_TX_RETRY_EVENT_ID; CHANNEL_SWITCH_COMPLETE_EVENT_ID].

Section Run.
Context `{ops : wlcore_ops} `{bops : wlcore_boot_ops}.

Definition wl1271_acx_event_mbox_mask (mask : Z) (wl : wl1271) : Z * wl1271 :=
  wl1271_cmd_send (CMD_EVENT_MBOX_MASK 0xffffffff (u32 mask)) wl.

Definition wl1271_event_unmask (wl : wl1271) : Z * wl1271 :=
  let? wl := wl1271_acx_event_mbox_mask (Z.lnot (event_mask (boot wl))) wl in (0, wl).

(** Make sure we have the boot partition, and run the CPU. *)
Definition boot_start_cpu (wl : wl1271) : Z * wl1271 :=
  let? wl := wlcore_set_partition (ptable_boot (hw wl)) wl in
  wl1271_boot_set_ecpu_ctrl ECPU_CONTROL_HALT wl.

(** Up to the mailboxes: the chip answers. *)
Definition boot_wait_ready (wl : wl1271) : Z * wl1271 :=
  let? id, wl := wlcore_read32 (rtable_chip_id_b (boot wl)) wl in
  if negb (id =? chip_id (hw wl)) then (- EIO, wl)
  else
    (* wait for init to complete *)
    let? wl := boot_wait_init (Z.to_nat INIT_LOOP) wl in
    (* get hardware config command mail box *)
    let? addr, wl := wlcore_read32 (rtable_command_mailbox_ptr (boot wl)) wl in
    let wl := upd_hw (fun h => h <| cmd_box_addr := addr |>) wl in
    (* get hardware config event mail box *)
    let? ptr, wl := wlcore_read32 (rtable_event_mailbox_ptr (boot wl)) wl in
    (0, upd_hw (fun h => h <| mbox_ptr := [ptr; u32 (ptr + MBOX_SIZE)] |>) wl).

Definition boot_unmask_events (wl : wl1271) : Z * wl1271 :=
  let wl := upd_boot (fun b => b <| event_mask := BOOT_EVENT_MASK |>) wl in
  let? wl := wl1271_event_unmask wl in
  (* set the working partition to its "running" mode offset *)
  wlcore_set_partition (ptable_work (hw wl)) wl.

Definition wlcore_boot_run_firmware (wl : wl1271) : outcome (Z * wl1271) :=
  let! wl := Ret (boot_start_cpu wl) in
  let! wl := Ret (boot_wait_ready wl) in
  let! wl := wlcore_boot_static_data wl in
  Ret (boot_unmask_events wl).

End Run.

(** ** Power, files and addresses (main.c) *)

Definition wl1271_power_on (wl : wl1271) : Z * wl1271 :=
  let '(ret, _, wl) := bus_next (emit (EvPower true) wl) in
  (ret, if ret =? 0 then set_flag WL1271_FLAG_GPIO_POWER wl else wl).

Definition wlcore_fw_wakeup (wl : wl1271) : Z * wl1271 :=
  wlcore_raw_write32 HW_ACCESS_ELP_CTRL_REG ELPCTRL_WAKE_UP wl.

(** The reset and initialization of the bus itself is the host controller's. *)
Definition wl12xx_set_power_on (wl : wl1271) : Z * wl1271 :=
  let? wl := wl1271_power_on wl in
  let '(ret, wl) :=
    let? wl := wlcore_set_partition (ptable_boot (hw wl)) wl in
    (* ELP module wake up *)
    wlcore_fw_wakeup wl in
  if ret <? 0 then (ret, wl1271_power_off wl) else (ret, wl).

Definition wl1271_setup (wl : wl1271) : Z * wl1271 :=
  (0, wl <| have_fw_status := true |> <| have_tx_res_if := true |>).

(** [request_firmware]: the file of each firmware type, or an error. *)
Definition fw_files := wl12xx_fw_type -> Z + list Z.

Definition wl12xx_fetch_firmware (request_firmware : fw_files) (plt : bool) (wl : wl1271)
    : Z * wl1271 :=
  let type :=
    if plt then WL12XX_FW_TYPE_PLT
    else if (1 <? last_vif_count wl) && mr_fw (hw wl) then WL12XX_FW_TYPE_MULTI
    else WL12XX_FW_TYPE_NORMAL in
  if bool_decide (fw_type wl = type) then (0, wl)
  else
    match request_firmware type with
    | inl err => (err, wl)
    | inr file =>
        if negb (zlen file mod 4 =? 0) then (- EILSEQ, wl)
        else (0, upd_boot (fun b => b <| fw := file |>) wl <| fw_type := type |>)
    end.

(** [set_block_size]: whether the bus supports block sizes. *)
Definition wl12xx_chip_wakeup (request_firmware : fw_files) (set_block_size plt : bool)
    (wl : wl1271) : Z * wl1271 :=
  let? wl := wl12xx_set_power_on wl in
  let wl :=
    if set_block_size then wl
    else upd_hw (fun h => h <| quirks ::= fun q => Z.ldiff q WLCORE_QUIRK_TX_BLOCKSIZE_ALIGN |>) wl in
  let? wl := wl1271_setup wl in
  wl12xx_fetch_firmware request_firmware plt wl.

Definition wl1271_fetch_nvs (request_firmware : Z + list Z) (wl : wl1271) : wl1271 :=
  match request_firmware with
  | inl _ => wl
  | inr file => upd_boot (fun b => b <| nvs := Some file |> <| nvs_len := zlen file |>) wl
  end.

Definition WLCORE_NUM_MAC_ADDRESSES := 3.

Definition mac_address (oui nic : Z) : list Z :=
  [u8 (Z.shiftr oui 16); u8 (Z.shiftr oui 8); u8 oui;
   u8 (Z.shiftr nic 16); u8 (Z.shiftr nic 8); u8 nic].

Definition wl12xx_derive_mac_addresses (oui nic : Z) (wl : wl1271) : wl1271 :=
  let n := num_mac_addr (boot wl) in
  let addrs := for_range n (fun i l => zset l i (mac_address oui (u32 (nic + i)))) (addresses (boot wl)) in
  let addrs :=
    if n <? WLCORE_NUM_MAC_ADDRESSES then
      let first := zget [] addrs 0 in
      (* LAA bit *)
      zset addrs (WLCORE_NUM_MAC_ADDRESSES - 1) (zset first 2 (Z.lor (zget 0 first 2) (BIT 1)))
    else addrs in
  upd_boot (fun b => b <| addresses := addrs |>) wl.

(** The MAC address in the NVS file, as the OUI and NIC parts. *)
Definition nvs_mac_parts (file : list Z) : outcome (Z * Z) :=
  let* b11 := byte_of file 11 in
  let* b10 := byte_of file 10 in
  let* b6 := byte_of file 6 in
  let* b5 := byte_of file 5 in
  let* b4 := byte_of file 4 in
  let* b3 := byte_of file 3 in
  Ret (u32 (Z.shiftl b11 16 + Z.shiftl b10 8 + b6), u32 (Z.shiftl b5 16 + Z.shiftl b4 8 + b3)).

(** [register]: the result of [ieee80211_register_hw]. *)
Definition wl1271_register_hw (request_firmware : Z + list Z) (register : Z) (wl : wl1271)
    : outcome (Z * wl1271) :=
  if mac80211_registered (boot wl) then Ret (0, wl)
  else
    let wl := wl1271_fetch_nvs request_firmware wl in
    let* (oui_addr, nic_addr) :=
      match nvs (boot wl) with Some file => nvs_mac_parts file | None => Ret (0, 0) end in
    (* if the MAC address is zeroed in the NVS derive from fuse *)
    let fuse := (oui_addr =? 0) && (nic_addr =? 0) in
    let oui_addr := if fuse then fuse_oui_addr (boot wl) else oui_addr in
    let nic_addr := if fuse then u32 (fuse_nic_addr (boot wl) + 1) else nic_addr in
    let wl := wl12xx_derive_mac_addresses oui_addr nic_addr wl in
    if register <? 0 then Ret (register, wl)
    else Ret (register, upd_boot (fun b => b <| mac80211_registered := true |>) wl).

(** [get_pg_ver] and [get_mac] are the lower driver's. *)
Definition wl12xx_get_hw_info (get_pg_ver : wl1271 -> Z * Z * wl1271)
    (get_mac : option (wl1271 -> Z * wl1271)) (wl : wl1271) : Z * wl1271 :=
  let '(ret, wl) :=
    let? wl := wl12xx_set_power_on wl in
    let? id, wl := wlcore_read32 (rtable_chip_id_b (boot wl)) wl in
    let wl := upd_hw (fun h => h <| chip_id := id |>) wl in
    let wl := upd_boot (fun b => b <| fuse_oui_addr := 0 |> <| fuse_nic_addr := 0 |>) wl in
    let? ver, wl := get_pg_ver wl in
    let wl := upd_boot (fun b => b <| hw_pg_ver := ver |>) wl in
    match get_mac with Some f => f wl | None => (0, wl) end in
  (ret, wl1271_power_off wl).
