(* ===== verification/Boot12xx.v ===== *)
(** * Booting the 127x and 128x chips (wl12xx/main.c)

    Clocks, reset, the version and fuse registers, and [wl12xx_boot]. *)

From S2P Require Import Prelude WlState ChipOps Io Irq Scan Boot.

(** ** Registers (wl12xx/reg.h) *)

Definition REGISTERS_BASE := 0x00300000.
Definition DRPW_BASE := 0x00310000.
Definition WL12XX_SLV_SOFT_RESET := REGISTERS_BASE.
Definition WL12XX_REG_INTERRUPT_MASK := REGISTERS_BASE + 0x04DC.
Definition WL12XX_REG_INTERRUPT_NO_CLEAR := REGISTERS_BASE + 0x04E8.
Definition WL12XX_REG_INTERRUPT_ACK := REGISTERS_BASE + 0x04F0.
Definition WL12XX_REG_INTERRUPT_TRIG := REGISTERS_BASE + 0x0474.
Definition WL12XX_REG_ECPU_CONTROL := REGISTERS_BASE + 0x0804.
Definition WL12XX_HI_CFG := REGISTERS_BASE + 0x0808.
Definition WL12XX_OCP_POR_CTR := REGISTERS_BASE + 0x09B4.
Definition WL12XX_OCP_DATA_WRITE := REGISTERS_BASE + 0x09B8.
Definition WL12XX_OCP_DATA_READ := REGISTERS_BASE + 0x09BC.
Definition WL12XX_OCP_CMD := REGISTERS_BASE + 0x09C0.
Definition WL12XX_CHIP_ID_B := REGISTERS_BASE + 0x5674.
Definition WL12XX_ENABLE := REGISTERS_BASE + 0x5450.
Definition WL12XX_SCR_PAD0 := REGISTERS_BASE + 0x5608.
Definition WL12XX_SCR_PAD1 := REGISTERS_BASE + 0x560C.
Definition WL12XX_SCR_PAD2 := REGISTERS_BASE + 0x5610.
Definition WL12XX_SCR_PAD4 := REGISTERS_BASE + 0x5618.
Definition WL12XX_SPARE_A2 := REGISTERS_BASE + 0x0998.
Definition WL12XX_PLL_PARAMETERS := REGISTERS_BASE + 0x6040.
Definition WL12XX_WU_COUNTER_PAUSE := REGISTERS_BASE + 0x6008.
Definition WL12XX_WELP_ARM_COMMAND := REGISTERS_BASE + 0x6100.
Definition WL12XX_DRPW_SCRATCH_START := DRPW_BASE + 0x002C.
Definition WL12XX_CMD_MBOX_ADDRESS := 0x407B4.
Definition WL12XX_EEPROMLESS_IND := WL12XX_SCR_PAD4.
Definition WL12XX_REG_FUSE_BD_ADDR_1 := 0x00310eb4.
Definition WL12XX_REG_FUSE_BD_ADDR_2 := 0x00310eb8.

Definition OCP_CMD_LOOP : nat := 32.
Definition OCP_CMD_WRITE := 1.
Definition OCP_CMD_READ := 2.
Definition OCP_READY_MASK := BIT 18.
Definition OCP_STATUS_MASK := Z.lor (BIT 16) (BIT 17).
Definition OCP_STATUS_OK := 0x10000.
Definition OCP_REG_POLARITY := 0x0064.
Definition OCP_REG_CLK_TYPE := 0x0448.
Definition OCP_REG_CLK_POLARITY := 0x0cb2.
Definition OCP_REG_CLK_PULL := 0x0cb4.
Definition POLARITY_LOW := BIT 1.
Definition NO_PULL := Z.lor (BIT 14) (BIT 15).
Definition FREF_CLK_TYPE_BITS := 0xfffffe7f.
Definition FREF_CLK_POLARITY_BITS := 0xfffff8ff.
Definition CLK_REQ_OUTN_SEL := 0x700.
Definition WU_COUNTER_PAUSE_VAL := 0x3FF.
Definition WELP_ARM_COMMAND_VAL := 0x4.
Definition SYS_CLK_CFG_REG := 0x2200.
Definition MCS_PLL_CLK_SEL_FREF := BIT 0.
Definition WL_CLK_REQ_TYPE_PG2 := Z.lor (BIT 3) (BIT 2).
Definition PRCM_CM_EN_MUX_WLAN_FREF := BIT 4.
Definition TCXO_CLK_DETECT_REG := 0x2266.
Definition TCXO_DET_FAILED := BIT 4.
Definition FREF_CLK_DETECT_REG := 0x2086.
Definition FREF_CLK_DETECT_FAIL := BIT 4.
Definition WL_SPARE_REG := 0x2320.
Definition MCS_PLL_CONFIG_REG := 0xD92.
Definition MCS_SEL_IN_FREQ_SHIFT := 4.
Definition MCS_PLL_CONFIG_REG_VAL := 0x73.
Definition MCS_PLL_ENABLE_HP := Z.lor (BIT 0) (BIT 1).
Definition MCS_PLL_M_REG := 0xD94.
Definition MCS_PLL_N_REG := 0xD96.
Definition MCS_PLL_M_REG_VAL := 0xC8.
Definition MCS_PLL_N_REG_VAL := 0x07.
Definition SDIO_IO_DS := 0xd14.
Definition HCI_IO_DS_6MA := 2.
Definition HI_CFG_DEF_VAL := 0x3C.
Definition WL127X_REG_FUSE_DATA_2_1 := 0x050a.
Definition WL128X_REG_FUSE_DATA_2_1 := 0x2152.
Definition PG_VER_MASK := 0x3c.
Definition PG_VER_OFFSET := 2.
Definition ACX_SLV_SOFT_RESET_BIT := BIT 1.

Definition WL12XX_REFCLOCK_38_XTAL := 4.
Definition WL12XX_REFCLOCK_26_XTAL := 5.
Definition WL12XX_TCXOCLOCK_16_368 := 4.
Definition WL12XX_TCXOCLOCK_32_736 := 5.
Definition WL12XX_TCXOCLOCK_16_8 := 6.
Definition WL12XX_TCXOCLOCK_33_6 := 7.
Definition CONF_REF_CLK_19_2_E := 0.
Definition CONF_REF_CLK_26_E := 1.
Definition CONF_REF_CLK_38_4_E := 2.
Definition CONF_REF_CLK_52_E := 3.
Definition CONF_REF_CLK_38_4_M_XTAL := 4.
Definition CONF_REF_CLK_26_M_XTAL := 5.

Definition CHIP_ID_1271_PG10 := 0x4030101.

Definition WL12XX_ACX_ALL_EVENTS_VECTOR : Z :=
  fold_right Z.lor 0
    [WL1271_ACX_INTR_WATCHDOG; WL1271_ACX_INTR_INIT_COMPLETE; WL1271_ACX_INTR_EVENT_A;
     WL1271_ACX_INTR_EVENT_B; WL1271_ACX_INTR_CMD_COMPLETE; WL1271_ACX_INTR_HW_AVAILABLE;
     WL1271_ACX_INTR_DATA].
Definition WL12XX_INTR_MASK : Z :=
  fold_right Z.lor 0
    [WL1271_ACX_INTR_WATCHDOG; WL1271_ACX_INTR_EVENT_A; WL1271_ACX_INTR_EVENT_B;
     WL1271_ACX_INTR_HW_AVAILABLE; WL1271_ACX_INTR_DATA].

(** [wl12xx_ptable] *)
Definition part (start size : Z) : wlcore_partition :=
  {| part_size := size; part_start := start |}.
Definition wl12xx_part_down : wlcore_partition_set :=
  Build_wlcore_partition_set (part 0 0x177c0) (part REGISTERS_BASE 0x8800) (part 0 0) (part 0 0).
Definition wl12xx_part_boot : wlcore_partition_set :=
  Build_wlcore_partition_set (part 0x40000 0x14fc0) (part REGISTERS_BASE 0x8800) (part 0 0) (part 0 0).
Definition wl12xx_part_work : wlcore_partition_set :=
  Build_wlcore_partition_set (part 0x40000 0x14fc0) (part REGISTERS_BASE 0xa000)
    (part 0x3004f8 4) (part 0x40404 0).
Definition wl12xx_part_drpw : wlcore_partition_set :=
  Build_wlcore_partition_set (part 0x40000 0x14fc0) (part DRPW_BASE 0x6000) (part 0 0) (part 0 0).

(** ** Identification *)

Definition wlcore_set_min_fw_ver (ver : list Z) : wl1271 -> wl1271 :=
  upd_boot (fun b => b <| min_fw_ver := ver |>).

(** The quirks and the minimal firmware of each chip; the names of the firmware
    files are those of [fw_files], the memory configuration is not modelled. *)
Definition wl12xx_identify_chip (wl : wl1271) : Z * wl1271 :=
  let id := chip_id (hw wl) in
  let common := Z.lor WLCORE_QUIRK_DUAL_PROBE_TMPL WLCORE_QUIRK_TKIP_HEADER_SPACE in
  if (id =? CHIP_ID_1271_PG10) || (id =? CHIP_ID_1271_PG20) then
    (0, wlcore_set_min_fw_ver [6; 3; 10; 2; 115]
          (add_quirk (Z.lor WLCORE_QUIRK_LEGACY_NVS common) wl))
  else if id =? CHIP_ID_1283_PG20 then
    (0, wlcore_set_min_fw_ver [7; 3; 10; 2; 115]
          (add_quirk (Z.lor WLCORE_QUIRK_TX_BLOCKSIZE_ALIGN common) wl))
  else (- ENODEV, wl).

Definition FW_VER_IF_TYPE_STA := 1.
Definition FW_VER_IF_TYPE_AP := 2.
Definition FW_VER_MINOR_FWLOG_STA_MIN := 70.

Definition wl12xx_identify_fw (wl : wl1271) : Z * wl1271 :=
  let ver := zget 0 (fw_ver (boot wl)) in
  (* Only new station firmwares support routing fw logs to the host *)
  let wl := if (ver FW_VER_IF_TYPE =? FW_VER_IF_TYPE_STA)
               && (ver FW_VER_MINOR <? FW_VER_MINOR_FWLOG_STA_MIN)
            then add_quirk WLCORE_QUIRK_FWLOG_NOT_IMPLEMENTED wl else wl in
  (* This feature is not yet supported for AP mode *)
  let wl := if ver FW_VER_IF_TYPE =? FW_VER_IF_TYPE_AP
            then add_quirk WLCORE_QUIRK_FWLOG_NOT_IMPLEMENTED wl else wl in
  (0, wl).

#[export] Instance wl12xx_boot_ops : wlcore_boot_ops := {|
  identify_fw := Some wl12xx_identify_fw;
  handle_static_data := None
|}.

(** ** The top registers, behind the OCP bridge *)

Definition wl12xx_top_reg_write (addr val : Z) (wl : wl1271) : Z * wl1271 :=
  (* write address >> 1 + 0x30000 to OCP_POR_CTR *)
  let? wl := wlcore_write32 WL12XX_OCP_POR_CTR (Z.shiftr addr 1 + 0x30000) wl in
  (* write value to OCP_POR_WDATA *)
  let? wl := wlcore_write32 WL12XX_OCP_DATA_WRITE (u16 val) wl in
  (* write 1 to OCP_CMD *)
  wlcore_write32 WL12XX_OCP_CMD OCP_CMD_WRITE wl.

(** [do ... while (!(val & OCP_READY_MASK) && --timeout)]: the last value and
    what is left of [timeout]. *)
Fixpoint ocp_poll (timeout : nat) (wl : wl1271) : Z * (Z * nat) * wl1271 :=
  match timeout with
  | O => (0, (0, O), wl)
  | S rest =>
      check_read (wlcore_read32 WL12XX_OCP_DATA_READ wl) (fun ret wl => (ret, (0, timeout), wl))
        (fun val wl =>
           if has val OCP_READY_MASK then (0, (val, timeout), wl)
           else match rest with
                | O => (0, (val, O), wl)
                | S _ => ocp_poll rest wl
                end)
  end.

Definition wl12xx_top_reg_read (addr : Z) (wl : wl1271) : Z * Z * wl1271 :=
  let fail ret wl := (ret, 0, wl) in
  let '(ret, wl) :=
    (* write address >> 1 + 0x30000 to OCP_POR_CTR *)
    let? wl := wlcore_write32 WL12XX_OCP_POR_CTR (Z.shiftr addr 1 + 0x30000) wl in
    (* write 2 to OCP_CMD *)
    wlcore_write32 WL12XX_OCP_CMD OCP_CMD_READ wl in
  if ret <? 0 then fail ret wl else
  (* poll for data ready *)
  check_read (ocp_poll OCP_CMD_LOOP wl) fail (fun '(val, timeout) wl =>
    if bool_decide (timeout = O) then fail (- ETIMEDOUT) wl
    (* check data status and return if OK *)
    else if negb (Z.land val OCP_STATUS_MASK =? OCP_STATUS_OK) then fail (- EIO) wl
    else (0, Z.land val 0xffff, wl)).

(** ** Clocks *)

Definition wl128x_switch_tcxo_to_fref (wl : wl1271) : Z * wl1271 :=
  (* Mask bits [2] & [8:4] in the sys_clk_cfg register *)
  let? spare_reg, wl := wl12xx_top_reg_read WL_SPARE_REG wl in
  if spare_reg =? 0xFFFF then (- EFAULT, wl)
  else
    let spare_reg := Z.lor spare_reg (Z.lor (BIT 3) (Z.lor (BIT 5) (BIT 6))) in
    let? wl := wl12xx_top_reg_write WL_SPARE_REG spare_reg wl in
    (* Enable FREF_CLK_REQ & mux MCS and coex PLLs to FREF *)
    let? wl := wl12xx_top_reg_write SYS_CLK_CFG_REG
                 (Z.lor WL_CLK_REQ_TYPE_PG2 MCS_PLL_CLK_SEL_FREF) wl in
    (0, wl).

Definition wl128x_is_tcxo_valid (wl : wl1271) : bool * wl1271 :=
  check_read (wl12xx_top_reg_read TCXO_CLK_DETECT_REG wl) (fun _ wl => (false, wl))
    (fun tcxo_detection wl => (negb (has tcxo_detection TCXO_DET_FAILED), wl)).

Definition wl128x_is_fref_valid (wl : wl1271) : bool * wl1271 :=
  check_read (wl12xx_top_reg_read FREF_CLK_DETECT_REG wl) (fun _ wl => (false, wl))
    (fun fref_detection wl => (negb (has fref_detection FREF_CLK_DETECT_FAIL), wl)).

Definition wl128x_manually_configure_mcs_pll (wl : wl1271) : Z * wl1271 :=
  let? wl := wl12xx_top_reg_write MCS_PLL_M_REG MCS_PLL_M_REG_VAL wl in
  let? wl := wl12xx_top_reg_write MCS_PLL_N_REG MCS_PLL_N_REG_VAL wl in
  wl12xx_top_reg_write MCS_PLL_CONFIG_REG MCS_PLL_CONFIG_REG_VAL wl.

Definition wl128x_configure_mcs_pll (clk : Z) (wl : wl1271) : Z * wl1271 :=
  (* Mask bits [3:1] in the sys_clk_cfg register *)
  let? spare_reg, wl := wl12xx_top_reg_read WL_SPARE_REG wl in
  if spare_reg =? 0xFFFF then (- EFAULT, wl)
  else
    let? wl := wl12xx_top_reg_write WL_SPARE_REG (Z.lor spare_reg (BIT 2)) wl in
    (* Handle special cases of the TCXO clock *)
    let tcxo := tcxo_clock (boot wl) in
    if (tcxo =? WL12XX_TCXOCLOCK_16_8) || (tcxo =? WL12XX_TCXOCLOCK_33_6)
    then wl128x_manually_configure_mcs_pll wl
    else
      (* Set the input frequency according to the selected clock source *)
      let input_freq := Z.land clk 1 + 1 in
      let? pll_config, wl := wl12xx_top_reg_read MCS_PLL_CONFIG_REG wl in
      if pll_config =? 0xFFFF then (- EFAULT, wl)
      else
        let pll_config := Z.lor (Z.lor pll_config (Z.shiftl input_freq MCS_SEL_IN_FREQ_SHIFT))
                            MCS_PLL_ENABLE_HP in
        wl12xx_top_reg_write MCS_PLL_CONFIG_REG pll_config wl.

(** The label [fref_clk:]. *)
Definition wl128x_use_fref (wl : wl1271) : Z * Z * wl1271 :=
  let '(valid, wl) := wl128x_is_fref_valid wl in
  if negb valid then (- EINVAL, -1, wl)
  else
    let clk := ref_clock (boot wl) in
    let '(ret, wl) := wl128x_configure_mcs_pll clk wl in (ret, clk, wl).

(** [if (!wl128x_switch_tcxo_to_fref(wl)) return -EINVAL; goto fref_clk;] *)
Definition wl128x_switch_then_fref (wl : wl1271) : Z * Z * wl1271 :=
  let '(ret, wl) := wl128x_switch_tcxo_to_fref wl in
  if ret =? 0 then (- EINVAL, -1, wl) else wl128x_use_fref wl.

(** The result and the selected clock (-1 while none is). *)
Definition wl128x_boot_clk (wl : wl1271) : Z * Z * wl1271 :=
  let ref := ref_clock (boot wl) in
  let tcxo := tcxo_clock (boot wl) in
  (* For XTAL-only modes, FREF will be used after switching from TCXO *)
  if (ref =? WL12XX_REFCLOCK_26_XTAL) || (ref =? WL12XX_REFCLOCK_38_XTAL)
  then wl128x_switch_then_fref wl
  else
    (* Query the HW, to determine which clock source we should use *)
    check_read (wl12xx_top_reg_read SYS_CLK_CFG_REG wl) (fun ret wl => (ret, -1, wl))
      (fun sys_clk_cfg wl =>
    if sys_clk_cfg =? 0xFFFF then (- EINVAL, -1, wl)
    else if has sys_clk_cfg PRCM_CM_EN_MUX_WLAN_FREF then wl128x_use_fref wl
    (* If TCXO is either 32.736MHz or 16.368MHz, switch to FREF *)
    else if (tcxo =? WL12XX_TCXOCLOCK_16_368) || (tcxo =? WL12XX_TCXOCLOCK_32_736)
    then wl128x_switch_then_fref wl
    else
      (* TCXO clock is selected *)
      let '(valid, wl) := wl128x_is_tcxo_valid wl in
      if negb valid then (- EINVAL, -1, wl)
      else let '(ret, wl) := wl128x_configure_mcs_pll tcxo wl in (ret, tcxo, wl)).

Definition WL127X_PG_GET_MAJOR (pg_ver : Z) : Z := Z.land pg_ver 0x3.
Definition WL127X_PG_GET_MINOR (pg_ver : Z) : Z := Z.shiftr (Z.land pg_ver 0xc) 2.
Definition WL128X_PG_GET_MAJOR (pg_ver : Z) : Z := Z.shiftr (Z.land pg_ver 0xc) 2.
Definition WL128X_PG_GET_MINOR (pg_ver : Z) : Z := Z.land pg_ver 0x3.

(** [clk] for the reference clock, or an unknown one. *)
Definition wl127x_ref_clk (ref : Z) : option Z :=
  (* ref clk: 19.2/38.4/38.4-XTAL *)
  if (ref =? CONF_REF_CLK_19_2_E) || (ref =? CONF_REF_CLK_38_4_E)
     || (ref =? CONF_REF_CLK_38_4_M_XTAL) then Some 0x3
  (* ref clk: 26/52 *)
  else if (ref =? CONF_REF_CLK_26_E) || (ref =? CONF_REF_CLK_26_M_XTAL)
          || (ref =? CONF_REF_CLK_52_E) then Some 0x5
  else None.

Definition wl127x_set_ref_clock (wl : wl1271) : Z * wl1271 :=
  if negb (ref_clock (boot wl) =? CONF_REF_CLK_19_2_E) then
    (* Set clock type (open drain) *)
    let? val, wl := wl12xx_top_reg_read OCP_REG_CLK_TYPE wl in
    let? wl := wl12xx_top_reg_write OCP_REG_CLK_TYPE (Z.land val FREF_CLK_TYPE_BITS) wl in
    (* Set clock pull mode (no pull) *)
    let? val, wl := wl12xx_top_reg_read OCP_REG_CLK_PULL wl in
    wl12xx_top_reg_write OCP_REG_CLK_PULL (Z.lor val NO_PULL) wl
  else
    (* Set clock polarity *)
    let? val, wl := wl12xx_top_reg_read OCP_REG_CLK_POLARITY wl in
    let val := Z.lor (Z.land val FREF_CLK_POLARITY_BITS) CLK_REQ_OUTN_SEL in
    wl12xx_top_reg_write OCP_REG_CLK_POLARITY val wl.

Definition wl127x_boot_clk (wl : wl1271) : Z * wl1271 :=
  let wl := if WL127X_PG_GET_MAJOR (hw_pg_ver (boot wl)) <? 3
            then add_quirk WLCORE_QUIRK_END_OF_TRANSACTION wl else wl in
  match wl127x_ref_clk (ref_clock (boot wl)) with
  | None => (- EINVAL, wl)
  | Some clk =>
      let? wl := wl127x_set_ref_clock wl in
      let? wl := wlcore_write32 WL12XX_PLL_PARAMETERS clk wl in
      let? pause, wl := wlcore_read32 WL12XX_PLL_PARAMETERS wl in
      let pause := Z.lor (Z.ldiff pause WU_COUNTER_PAUSE_VAL) WU_COUNTER_PAUSE_VAL in
      wlcore_write32 WL12XX_WU_COUNTER_PAUSE pause wl
  end.

(** ** Reset and upload *)

(** SOFT_RESET is self clearing; [polls] is how often it can be read again
    before the timeout. *)
Fixpoint soft_reset_poll (polls : nat) (wl : wl1271) : Z * wl1271 :=
  let? boot_data, wl := wlcore_read32 WL12XX_SLV_SOFT_RESET wl in
  if Z.land boot_data ACX_SLV_SOFT_RESET_BIT =? 0 then (0, wl)
  else match polls with O => (-1, wl) | S polls => soft_reset_poll polls wl end.

Section Boot.
Variable reset_polls : nat.

Definition wl1271_boot_soft_reset (wl : wl1271) : Z * wl1271 :=
  (* perform soft reset *)
  let? wl := wlcore_write32 WL12XX_SLV_SOFT_RESET ACX_SLV_SOFT_RESET_BIT wl in
  let? wl := soft_reset_poll reset_polls wl in
  (* disable Rx/Tx *)
  let? wl := wlcore_write32 WL12XX_ENABLE 0 wl in
  (* disable auto calibration on start*)
  wlcore_write32 WL12XX_SPARE_A2 0xffff wl.

Definition wl12xx_pre_boot (wl : wl1271) : Z * wl1271 :=
  let is_128x := chip_id (hw wl) =? CHIP_ID_1283_PG20 in
  let? selected_clock, wl :=
    if is_128x then wl128x_boot_clk wl
    else let '(ret, wl) := wl127x_boot_clk wl in (ret, -1, wl) in
  (* Continue the ELP wake up sequence *)
  let? wl := wlcore_write32 WL12XX_WELP_ARM_COMMAND WELP_ARM_COMMAND_VAL wl in
  let? wl := wlcore_set_partition (ptable_drpw (boot wl)) wl in
  (* Read-modify-write DRPW_SCRATCH_START register *)
  let? clk, wl := wlcore_read32 WL12XX_DRPW_SCRATCH_START wl in
  let src := if is_128x then Z.land selected_clock 0x3 else ref_clock (boot wl) in
  let clk := Z.lor clk (u32 (Z.shiftl (Z.shiftl src 1) 4)) in
  let? wl := wlcore_write32 WL12XX_DRPW_SCRATCH_START clk wl in
  let? wl := wlcore_set_partition (ptable_work (hw wl)) wl in
  (* Disable interrupts *)
  let? wl := wlcore_write32 (rtable_interrupt_mask (boot wl)) WL1271_ACX_INTR_ALL wl in
  wl1271_boot_soft_reset wl.

Definition wl12xx_pre_upload (wl : wl1271) : Z * wl1271 :=
  let? wl := wlcore_write32 WL12XX_EEPROMLESS_IND WL12XX_EEPROMLESS_IND wl in
  let? tmp, wl := wlcore_read32 (rtable_chip_id_b (boot wl)) wl in
  (* 6. read the EEPROM parameters *)
  let? tmp, wl := wlcore_read32 WL12XX_SCR_PAD2 wl in
  let? wl := if chip_id (hw wl) =? CHIP_ID_1283_PG20
             then wl12xx_top_reg_write SDIO_IO_DS HCI_IO_DS_6MA wl else (0, wl) in
  (* polarity must be set before the firmware is loaded *)
  let? polarity, wl := wl12xx_top_reg_read OCP_REG_POLARITY wl in
  (* We use HIGH polarity, so unset the LOW bit *)
  wl12xx_top_reg_write OCP_REG_POLARITY (Z.ldiff polarity POLARITY_LOW) wl.

Definition wl12xx_enable_interrupts (wl : wl1271) : Z * wl1271 :=
  let? wl := wlcore_write32 (rtable_interrupt_mask (boot wl)) WL12XX_ACX_ALL_EVENTS_VECTOR wl in
  let wl := emit EvEnableIrq wl in
  let '(ret, wl) :=
    let? wl := wlcore_write32 (rtable_interrupt_mask (boot wl))
                 (Z.ldiff WL1271_ACX_INTR_ALL WL12XX_INTR_MASK) wl in
    wlcore_write32 WL12XX_HI_CFG HI_CFG_DEF_VAL wl in
  if ret <? 0 then (ret, emit EvDisableIrq wl) else (ret, wl).

Definition wl12xx_boot `{ops : wlcore_ops} (wl : wl1271) : outcome (Z * wl1271) :=
  let! wl := Ret (wl12xx_pre_boot wl) in
  let! wl := wlcore_boot_upload_nvs wl in
  let! wl := Ret (wl12xx_pre_upload wl) in
  let! wl := wlcore_boot_upload_firmware wl in
  let! wl := wlcore_boot_run_firmware (bops := wl12xx_boot_ops) wl in
  Ret (wl12xx_enable_interrupts wl).

End Boot.

(** ** Fuses *)

Definition wl12xx_get_pg_ver (wl : wl1271) : Z * Z * wl1271 :=
  let reg := if chip_id (hw wl) =? CHIP_ID_1283_PG20
             then WL128X_REG_FUSE_DATA_2_1 else WL127X_REG_FUSE_DATA_2_1 in
  check_read (wl12xx_top_reg_read reg wl) (fun ret wl => (ret, hw_pg_ver (boot wl), wl))
    (fun die_info wl => (0, s8 (Z.shiftr (Z.land die_info PG_VER_MASK) PG_VER_OFFSET), wl)).

Definition wl12xx_mac_in_fuse (wl : wl1271) : bool :=
  let ver := hw_pg_ver (boot wl) in
  if chip_id (hw wl) =? CHIP_ID_1283_PG20 then
    (* in wl128x we have the MAC address if the PG is >= (2, 1) *)
    let major := WL128X_PG_GET_MAJOR ver in
    (2 <? major) || ((major =? 2) && (1 <=? WL128X_PG_GET_MINOR ver))
  else
    (* in wl127x we have the MAC address if the PG is >= (3, 1) *)
    (WL127X_PG_GET_MAJOR ver =? 3) && (1 <=? WL127X_PG_GET_MINOR ver).

(** The two parts of the BD_ADDR. *)
Definition set_fuse_mac (mac1 mac2 : Z) : wl1271 -> wl1271 :=
  upd_boot (fun b =>
    b <| fuse_oui_addr := Z.shiftl (Z.land mac2 0xffff) 8 + Z.shiftr (Z.land mac1 0xff000000) 24 |>
      <| fuse_nic_addr := Z.land mac1 0xffffff |>).

Definition wl12xx_get_fuse_mac (wl : wl1271) : Z * wl1271 :=
  let? wl := wlcore_set_partition (ptable_drpw (boot wl)) wl in
  let? mac1, wl := wlcore_read32 WL12XX_REG_FUSE_BD_ADDR_1 wl in
  let? mac2, wl := wlcore_read32 WL12XX_REG_FUSE_BD_ADDR_2 wl in
  wlcore_set_partition (ptable_down (boot wl)) (set_fuse_mac mac1 mac2 wl).

Definition wl12xx_get_mac (wl : wl1271) : Z * wl1271 :=
  if wl12xx_mac_in_fuse wl then wl12xx_get_fuse_mac wl else (0, wl).
