(* ===== verification/Boot18xx.v ===== *)
(** * Booting the 18xx chips (wl18xx/main.c, wl18xx/io.c)

    Clock setup from the clock table, the fuse registers and [wl18xx_boot]. *)

From S2P Require Import Prelude WlState ChipOps Io Irq Scan Boot Boot12xx.

(** ** Registers (wl18xx/reg.h) *)

Definition WL18XX_REGISTERS_BASE := 0x00800000.
Definition WL18XX_PHY_INIT_MEM_ADDR := 0x80926000.
Definition WL18XX_REG_ECPU_CONTROL := WL18XX_REGISTERS_BASE + 0x02004.
Definition WL18XX_REG_INTERRUPT_NO_CLEAR := WL18XX_REGISTERS_BASE + 0x050E8.
Definition WL18XX_REG_INTERRUPT_ACK := WL18XX_REGISTERS_BASE + 0x050F0.
Definition WL18XX_REG_INTERRUPT_MASK := WL18XX_REGISTERS_BASE + 0x0050DC.
Definition WL18XX_REG_CHIP_ID_B := WL18XX_REGISTERS_BASE + 0x01542C.
Definition WL18XX_SCR_PAD0 := WL18XX_REGISTERS_BASE + 0x0154EC.
Definition WL18XX_SCR_PAD1 := WL18XX_REGISTERS_BASE + 0x0154F0.
Definition WL18XX_SCR_PAD2 := WL18XX_REGISTERS_BASE + 0x0154F4.
Definition WL18XX_SCR_PAD4 := WL18XX_REGISTERS_BASE + 0x0154FC.
Definition WL18XX_SPARE_A2 := WL18XX_REGISTERS_BASE + 0x002198.
Definition WL18XX_EEPROMLESS_IND := WL18XX_SCR_PAD4.
Definition WL18XX_WELP_ARM_COMMAND := WL18XX_REGISTERS_BASE + 0x7100.
Definition WL18XX_ENABLE := WL18XX_REGISTERS_BASE + 0x01543C.
Definition WL18XX_CMD_MBOX_ADDRESS := 0xB007B4.
Definition PRIMARY_CLK_DETECT := 0xA020A6.
Definition PLLSH_WCS_PLL_N := 0xA02362.
Definition PLLSH_WCS_PLL_M := 0xA02360.
Definition PLLSH_WCS_PLL_Q_FACTOR_CFG_1 := 0xA02364.
Definition PLLSH_WCS_PLL_Q_FACTOR_CFG_2 := 0xA02366.
Definition PLLSH_WCS_PLL_P_FACTOR_CFG_1 := 0xA02368.
Definition PLLSH_WCS_PLL_P_FACTOR_CFG_2 := 0xA0236A.
Definition PLLSH_WCS_PLL_SWALLOW_EN := 0xA0236C.
Definition PLLSH_WCS_PLL_Q_FACTOR_CFG_1_MASK := 0xFFFF.
Definition PLLSH_WCS_PLL_Q_FACTOR_CFG_2_MASK := 0x007F.
Definition PLLSH_WCS_PLL_P_FACTOR_CFG_1_MASK := 0xFFFF.
Definition PLLSH_WCS_PLL_P_FACTOR_CFG_2_MASK := 0x000F.
Definition PLLSH_WCS_PLL_SWALLOW_EN_VAL2 := 0x12.
Definition WL18XX_REG_FUSE_DATA_1_3 := 0xA0260C.
Definition WL18XX_PG_VER_MASK := 0x70.
Definition WL18XX_PG_VER_OFFSET := 4.
Definition WL18XX_REG_FUSE_BD_ADDR_1 := 0xA02602.
Definition WL18XX_REG_FUSE_BD_ADDR_2 := 0xA02606.
Definition CHIP_ID_185x_PG20 := 0x06030111.
Definition WLCORE_QUIRK_NO_SCHED_SCAN_WHILE_CONN := BIT 9.

Definition WL18XX_ACX_EVENTS_VECTOR : Z := Z.lor WL12XX_ACX_ALL_EVENTS_VECTOR WL1271_ACX_SW_INTR_WATCHDOG.
Definition WL18XX_INTR_MASK : Z := Z.lor WL12XX_INTR_MASK WL1271_ACX_SW_INTR_WATCHDOG.

(** [wl18xx_ptable]; the size of the PHY window is that of the parameters. *)
Definition wl18xx_part_top : wlcore_partition_set :=
  Build_wlcore_partition_set (part 0xA02000 0x10000) (part 0x807000 0x5000) (part 0x800000 0xB000) (part 0 0).
Definition wl18xx_part_down : wlcore_partition_set :=
  Build_wlcore_partition_set (part 0 0x14000) (part 0x810000 0xBFFF) (part 0 0) (part 0 0).
Definition wl18xx_part_boot : wlcore_partition_set :=
  Build_wlcore_partition_set (part 0x700000 0x30c) (part 0x802000 0x14578) (part 0xB00404 0x1000)
    (part 0xC00000 0x400).
Definition wl18xx_part_work : wlcore_partition_set :=
  Build_wlcore_partition_set (part 0x800000 0x50FC) (part 0xB00404 0x1000) (part 0xC00000 0x400) (part 0 0).
Definition wl18xx_part_phy_init (params : list Z) : wlcore_partition_set :=
  Build_wlcore_partition_set (part WL18XX_PHY_INIT_MEM_ADDR (zlen params)) (part 0 0) (part 0 0) (part 0 0).

(** ** Identification *)

Definition wl18xx_identify_chip (wl : wl1271) : Z * wl1271 :=
  if chip_id (hw wl) =? CHIP_ID_185x_PG20 then
    (0, wlcore_set_min_fw_ver [8; 4; 0; 0; 8]
          (add_quirk
             (fold_right Z.lor 0
                [WLCORE_QUIRK_RX_BLOCKSIZE_ALIGN; WLCORE_QUIRK_TX_BLOCKSIZE_ALIGN;
                 WLCORE_QUIRK_NO_SCHED_SCAN_WHILE_CONN; WLCORE_QUIRK_TX_PAD_LAST_FRAME;
                 WLCORE_QUIRK_DUAL_PROBE_TMPL]) wl))
  else (- ENODEV, wl).

(** [phy_version] is the private part of the static data. *)
Definition wl18xx_handle_static_data (static_data : list Z) (wl : wl1271) : outcome (Z * wl1271) :=
  let* str := strncpy (drop (Z.to_nat STATIC_DATA_SIZE) static_data) ETHTOOL_BUSINFO_LEN in
  let str := zset str (Z.of_nat ETHTOOL_BUSINFO_LEN - 1) 0 in
  Ret (0, upd_boot (fun b => b <| phy_fw_ver_str := str |>) wl).

#[export] Instance wl18xx_boot_ops : wlcore_boot_ops := {|
  identify_fw := None;
  handle_static_data := Some wl18xx_handle_static_data
|}.

(** ** The top registers: 16-bit halves of 32-bit words (io.c) *)

Definition wl18xx_top_reg_write (addr val : Z) (wl : wl1271) : Z * wl1271 :=
  let val := u16 val in
  if negb (addr mod 2 =? 0) then (- EINVAL, wl)
  else if addr mod 4 =? 0 then
    let? tmp, wl := wlcore_read32 addr wl in
    wlcore_write32 addr (Z.lor (Z.land tmp 0xffff0000) val) wl
  else
    let? tmp, wl := wlcore_read32 (addr - 2) wl in
    wlcore_write32 (addr - 2) (Z.lor (Z.land tmp 0xffff) (u32 (Z.shiftl val 16))) wl.

Definition wl18xx_top_reg_read (addr : Z) (wl : wl1271) : Z * Z * wl1271 :=
  if negb (addr mod 2 =? 0) then (- EINVAL, 0, wl)
  else if addr mod 4 =? 0 then
    (* address is 4-bytes aligned *)
    let '(ret, val, wl) := wlcore_read32 addr wl in (ret, Z.land val 0xffff, wl)
  else
    let '(ret, val, wl) := wlcore_read32 (addr - 2) wl in
    (ret, Z.shiftr (Z.land val 0xffff0000) 16, wl).

(** ** Clocks *)

Record wl18xx_clk_cfg := { clk_n : Z; clk_m : Z; clk_p : Z; clk_q : Z; clk_swallow : bool }.

(** Entry 0 has no initializer. *)
Definition wl18xx_clk_table : list wl18xx_clk_cfg :=
  [Build_wl18xx_clk_cfg 0 0 0 0 false;
   Build_wl18xx_clk_cfg 7 104 801 4 true;
   Build_wl18xx_clk_cfg 9 132 3751 4 true;
   Build_wl18xx_clk_cfg 7 100 0 0 false;
   Build_wl18xx_clk_cfg 8 100 0 0 false;
   Build_wl18xx_clk_cfg 13 120 0 0 false;
   Build_wl18xx_clk_cfg 9 132 3751 4 true;
   Build_wl18xx_clk_cfg 7 100 0 0 false;
   Build_wl18xx_clk_cfg 8 100 0 0 false;
   Build_wl18xx_clk_cfg 13 120 0 0 false].

(** The writes for one clock configuration. *)
Definition wl18xx_set_pll (cfg : wl18xx_clk_cfg) (wl : wl1271) : Z * wl1271 :=
  let? wl := wl18xx_top_reg_write PLLSH_WCS_PLL_N (clk_n cfg) wl in
  let? wl := wl18xx_top_reg_write PLLSH_WCS_PLL_M (clk_m cfg) wl in
  if clk_swallow cfg then
    (* first the 16 lower bits *)
    let? wl := wl18xx_top_reg_write PLLSH_WCS_PLL_Q_FACTOR_CFG_1
                 (Z.land (clk_q cfg) PLLSH_WCS_PLL_Q_FACTOR_CFG_1_MASK) wl in
    (* then the 16 higher bits, masked out *)
    let? wl := wl18xx_top_reg_write PLLSH_WCS_PLL_Q_FACTOR_CFG_2
                 (Z.land (Z.shiftr (clk_q cfg) 16) PLLSH_WCS_PLL_Q_FACTOR_CFG_2_MASK) wl in
    (* first the 16 lower bits *)
    let? wl := wl18xx_top_reg_write PLLSH_WCS_PLL_P_FACTOR_CFG_1
                 (Z.land (clk_p cfg) PLLSH_WCS_PLL_P_FACTOR_CFG_1_MASK) wl in
    (* then the 16 higher bits, masked out *)
    wl18xx_top_reg_write PLLSH_WCS_PLL_P_FACTOR_CFG_2
      (Z.land (Z.shiftr (clk_p cfg) 16) PLLSH_WCS_PLL_P_FACTOR_CFG_2_MASK) wl
  else wl18xx_top_reg_write PLLSH_WCS_PLL_SWALLOW_EN PLLSH_WCS_PLL_SWALLOW_EN_VAL2 wl.

(** [wl18xx_clk_table[clk_freq]] is indexed by what the chip reports. *)
Definition wl18xx_set_clk (wl : wl1271) : outcome (Z * wl1271) :=
  let! wl := Ret (wlcore_set_partition (ptable_top_prcm_elp_soc (boot wl)) wl) in
  check_read (wl18xx_top_reg_read PRIMARY_CLK_DETECT wl) (fun ret wl => Ret (ret, wl))
    (fun clk_freq wl =>
       match wl18xx_clk_table !! Z.to_nat clk_freq with
       | None => Oops
       | Some cfg => Ret (wl18xx_set_pll cfg wl)
       end).

(** ** Reset and upload *)

Definition wl18xx_boot_soft_reset (wl : wl1271) : Z * wl1271 :=
  (* disable Rx/Tx *)
  let? wl := wlcore_write32 WL18XX_ENABLE 0 wl in
  (* disable auto calibration on start*)
  wlcore_write32 WL18XX_SPARE_A2 0xffff wl.

Definition wl18xx_pre_boot (wl : wl1271) : outcome (Z * wl1271) :=
  let! wl := wl18xx_set_clk wl in
  Ret (
    (* Continue the ELP wake up sequence *)
    let? wl := wlcore_write32 WL18XX_WELP_ARM_COMMAND WELP_ARM_COMMAND_VAL wl in
    let? wl := wlcore_set_partition (ptable_boot (hw wl)) wl in
    (* Disable interrupts *)
    let? wl := wlcore_write32 (rtable_interrupt_mask (boot wl)) WL1271_ACX_INTR_ALL wl in
    wl18xx_boot_soft_reset wl).

Definition wl18xx_pre_upload (wl : wl1271) : Z * wl1271 :=
  let? wl := wlcore_set_partition (ptable_boot (hw wl)) wl in
  let? wl := wlcore_write32 WL18XX_EEPROMLESS_IND WL18XX_EEPROMLESS_IND wl in
  let? tmp, wl := wlcore_read32 (rtable_chip_id_b (boot wl)) wl in
  let '(ret, _, wl) := wlcore_read32 WL18XX_SCR_PAD2 wl in
  (ret, wl).

Definition wl18xx_set_mac_and_phy (wl : wl1271) : Z * wl1271 :=
  let? wl := wlcore_set_partition (ptable_phy_init (boot wl)) wl in
  wlcore_write WL18XX_PHY_INIT_MEM_ADDR (phy_params (boot wl)) wl.

Definition wl18xx_enable_interrupts (wl : wl1271) : Z * wl1271 :=
  let? wl := wlcore_write32 (rtable_interrupt_mask (boot wl)) WL18XX_ACX_EVENTS_VECTOR wl in
  let wl := emit EvEnableIrq wl in
  let '(ret, wl) := wlcore_write32 (rtable_interrupt_mask (boot wl))
                      (Z.ldiff WL1271_ACX_INTR_ALL WL18XX_INTR_MASK) wl in
  if ret <? 0 then (ret, emit EvDisableIrq wl) else (ret, wl).

Definition wl18xx_boot `{ops : wlcore_ops} (wl : wl1271) : outcome (Z * wl1271) :=
  let! wl := wl18xx_pre_boot wl in
  let! wl := Ret (wl18xx_pre_upload wl) in
  let! wl := wlcore_boot_upload_firmware wl in
  let! wl := Ret (wl18xx_set_mac_and_phy wl) in
  let! wl := wlcore_boot_run_firmware (bops := wl18xx_boot_ops) wl in
  Ret (wl18xx_enable_interrupts wl).

(** ** Fuses *)

Definition wl18xx_get_pg_ver (wl : wl1271) : Z * Z * wl1271 :=
  let fail ret wl := (ret, hw_pg_ver (boot wl), wl) in
  let '(ret, wl) := wlcore_set_partition (ptable_top_prcm_elp_soc (boot wl)) wl in
  if ret <? 0 then fail ret wl else
  check_read (wlcore_read32 WL18XX_REG_FUSE_DATA_1_3 wl) fail (fun fuse wl =>
    let ver := s8 (Z.shiftr (Z.land fuse WL18XX_PG_VER_MASK) WL18XX_PG_VER_OFFSET) in
    let '(ret, wl) := wlcore_set_partition (ptable_boot (hw wl)) wl in (ret, ver, wl)).

Definition wl18xx_get_mac (wl : wl1271) : Z * wl1271 :=
  let? wl := wlcore_set_partition (ptable_top_prcm_elp_soc (boot wl)) wl in
  let? mac1, wl := wlcore_read32 WL18XX_REG_FUSE_BD_ADDR_1 wl in
  let? mac2, wl := wlcore_read32 WL18XX_REG_FUSE_BD_ADDR_2 wl in
  wlcore_set_partition (ptable_down (boot wl)) (set_fuse_mac mac1 mac2 wl).
