(* ===== verification/BootFacts.v ===== *)
(** * What the chip holds after an upload

    The chip behind the bus, as the comments of io.c describe it: four windows
    of its memory, one after the other, set by the partition registers.  The
    writes the driver records are replayed on it. *)

From S2P Require Import Prelude WlState ChipOps Io Boot.

(** ** The chip *)

Record chip := { chip_regs : gmap Z Z; chip_mem : gmap Z Z }.

Definition chip_reg (c : chip) (a : Z) : Z := default 0 (chip_regs c !! a).

(** The chip address behind bus address [a]. *)
Definition chip_addr (c : chip) (a : Z) : Z :=
  let size0 := chip_reg c HW_PART0_SIZE_ADDR in
  let size1 := chip_reg c HW_PART1_SIZE_ADDR in
  let size2 := chip_reg c HW_PART2_SIZE_ADDR in
  if a <? size0 then chip_reg c HW_PART0_START_ADDR + a
  else if a <? size0 + size1 then chip_reg c HW_PART1_START_ADDR + (a - size0)
  else if a <? size0 + size1 + size2 then chip_reg c HW_PART2_START_ADDR + (a - size0 - size1)
  else chip_reg c HW_PART3_START_ADDR + (a - size0 - size1 - size2).

Fixpoint chip_store (c : chip) (m : gmap Z Z) (a : Z) (bytes : list Z) : gmap Z Z :=
  match bytes with
  | [] => m
  | b :: bytes => chip_store c (<[chip_addr c a := b]> m) (a + 1) bytes
  end.

(** A write transfer: above [HW_PARTITION_REGISTERS_ADDR] are the partition
    registers, below it the windows. *)
Definition chip_write (a : Z) (bytes : list Z) (c : chip) : chip :=
  if HW_PARTITION_REGISTERS_ADDR <=? a
  then {| chip_regs := <[a := le_value bytes]> (chip_regs c); chip_mem := chip_mem c |}
  else {| chip_regs := chip_regs c; chip_mem := chip_store c (chip_mem c) a bytes |}.

Definition chip_event (e : event) (c : chip) : chip :=
  match e with EvWrite a bytes => chip_write a bytes c | _ => c end.

(** The chip after the events [l], the latest first. *)
Definition replay (l : list event) (c : chip) : chip := fold_right chip_event c l.

Lemma replay_app l l' c : replay (l ++ l') c = replay l (replay l' c).
Proof. apply foldr_app. Qed.

(** ** Memory contents *)

Fixpoint load_bytes (m : gmap Z Z) (a : Z) (bytes : list Z) : gmap Z Z :=
  match bytes with
  | [] => m
  | b :: bytes => load_bytes (<[a := b]> m) (a + 1) bytes
  end.

Lemma load_bytes_app m a l l' :
  load_bytes m a (l ++ l') = load_bytes (load_bytes m a l) (a + zlen l) l'.
Proof.
  revert m a. induction l as [|b l IH]; intros m a; cbn [app load_bytes].
  - unfold zlen. simpl. by rewrite Z.add_0_r.
  - rewrite IH. f_equal. unfold zlen. simpl length. lia.
Qed.

(** What was loaded can be read back. *)
Lemma load_bytes_below m a l k : k < a -> load_bytes m a l !! k = m !! k.
Proof.
  revert m a. induction l as [|b l IH]; intros m a H; [done|]. simpl.
  rewrite IH by lia. apply lookup_insert_ne. lia.
Qed.

Lemma load_bytes_lookup m a l (i : nat) b :
  l !! i = Some b -> load_bytes m a l !! (a + Z.of_nat i) = Some b.
Proof.
  revert m a i. induction l as [|x l IH]; intros m a i Hi; [done|].
  destruct i as [|i]; simpl in *.
  - injection Hi as <-. rewrite Z.add_0_r, load_bytes_below by lia. apply lookup_insert_eq.
  - replace (a + Z.of_nat (S i)) with (a + 1 + Z.of_nat i) by lia. by apply IH.
Qed.

(** ** The windows *)

(** The partition registers hold [p]. *)
Record windows (c : chip) (p : wlcore_partition_set) : Prop := {
  win_start : chip_reg c HW_PART0_START_ADDR = part_start (part_mem p);
  win_size : chip_reg c HW_PART0_SIZE_ADDR = part_size (part_mem p)
}.

Lemma chip_store_mem c p m a l : windows c p -> a + zlen l <= part_size (part_mem p) ->
  chip_store c m a l = load_bytes m (part_start (part_mem p) + a) l.
Proof.
  intros [S N]. revert m a. induction l as [|b l IH]; intros m a H; [done|].
  cbn [chip_store load_bytes]. unfold zlen in *. simpl length in H.
  rewrite IH by lia.
  assert (chip_addr c a = part_start (part_mem p) + a) as ->; [|by rewrite Z.add_assoc].
  unfold chip_addr. rewrite S, N.
  by rewrite (proj2 (Z.ltb_lt a (part_size (part_mem p)))) by lia.
Qed.

(** The writes of [wlcore_set_partition], the latest first. *)
Definition partition_writes (p : wlcore_partition_set) : list event :=
  let w a v := EvWrite a (le_bytes 4 (u32 v)) in
  [w HW_PART3_START_ADDR (part_start (part_mem3 p));
   w HW_PART2_SIZE_ADDR (part_size (part_mem2 p));
   w HW_PART2_START_ADDR (part_start (part_mem2 p));
   w HW_PART1_SIZE_ADDR (part_size (part_reg p));
   w HW_PART1_START_ADDR (part_start (part_reg p));
   w HW_PART0_SIZE_ADDR (part_size (part_mem p));
   w HW_PART0_START_ADDR (part_start (part_mem p))].

Lemma replay_partition_mem p c : chip_mem (replay (partition_writes p) c) = chip_mem c.
Proof. reflexivity. Qed.

Lemma le_value_u32 x : 0 <= x < 4294967296 -> le_value (le_bytes 4 (u32 x)) = x.
Proof. intros H. rewrite u32_id by done. apply le_value_bytes. lia. Qed.

Lemma chip_reg_insert_eq r m a v : chip_reg (Build_chip (<[a := v]> r) m) a = v.
Proof. unfold chip_reg. simpl. by rewrite lookup_insert_eq. Qed.

Lemma chip_reg_insert_ne r m a b v : a <> b ->
  chip_reg (Build_chip (<[a := v]> r) m) b = chip_reg (Build_chip r m) b.
Proof. intros H. unfold chip_reg. simpl. by rewrite lookup_insert_ne. Qed.

Lemma replay_partition p c :
  0 <= part_start (part_mem p) < 4294967296 -> 0 <= part_size (part_mem p) < 4294967296 ->
  windows (replay (partition_writes p) c) p.
Proof.
  intros Hs Hn. unfold partition_writes, replay. cbv zeta. cbn [fold_right chip_event chip_mem].
  unfold chip_write.
  repeat match goal with |- context [HW_PARTITION_REGISTERS_ADDR <=? ?a] =>
    change (HW_PARTITION_REGISTERS_ADDR <=? a) with true end.
  cbn [chip_regs chip_mem].
  split; repeat rewrite chip_reg_insert_ne by done; rewrite chip_reg_insert_eq; by apply le_value_u32.
Qed.

(** ** Transfers that succeed *)

(** A bus on which no transfer fails. *)
Definition bus_quiet (wl : wl1271) : Prop :=
  flag wl WL1271_FLAG_IO_FAILED = false /\ Forall (fun r => fst r = 0) (bus wl).

(** A bus whose transfers return zero or an error, as the host controllers do. *)
Definition nonpos (wl : wl1271) : Prop := Forall (fun r => fst r <= 0) (bus wl).

(** [m], from [wl], records the events [l] and leaves the partition [p] if it
    succeeds, and succeeds on a quiet bus. *)
Record sends (wl : wl1271) (m : Z * wl1271) (l : list event) (p : wlcore_partition_set) : Prop := {
  sends_quiet : bus_quiet wl -> fst m = 0 /\ bus_quiet (snd m);
  sends_nonpos : nonpos wl -> fst m <= 0 /\ nonpos (snd m);
  sends_log : 0 <= fst m -> log (snd m) = l ++ log wl;
  sends_part : 0 <= fst m -> curr_part (snd m) = p;
  sends_boot : boot (snd m) = boot wl;
  sends_hw : hw (snd m) = hw wl
}.

Lemma note_io_failure_fields ret wl :
  log (note_io_failure ret wl) = log wl /\ curr_part (note_io_failure ret wl) = curr_part wl
  /\ boot (note_io_failure ret wl) = boot wl /\ hw (note_io_failure ret wl) = hw wl
  /\ bus (note_io_failure ret wl) = bus wl.
Proof. unfold note_io_failure. by split_if. Qed.

Lemma raw_write_sends e wl : sends wl (raw_write_as e wl) [e] (curr_part wl).
Proof.
  unfold raw_write_as. destruct (flag wl WL1271_FLAG_IO_FAILED) eqn:F.
  { split; cbn [fst snd]; [by intros [Q _]; congruence | done | unfold EIO; lia.. | done | done]. }
  unfold bus_next. change (bus (emit e wl)) with (bus wl).
  destruct (bus wl) as [|[ret d] rest] eqn:B.
  - split; cbn [fst snd]; [intros Q; split; [done|exact Q] | intros N; split; [lia|exact N] | done..].
  - cbn zeta. destruct (note_io_failure_fields ret (emit e wl <| bus := rest |>)) as (L & P & T & H & U).
    split; cbn [fst snd]; rewrite ?L, ?P, ?T, ?H; try done.
    + intros [_ Q]. rewrite B in Q. apply Forall_cons in Q as [E Q]. simpl in E. subst ret.
      split; [done|]. split; [exact F | exact Q].
    + intros Q. unfold nonpos in Q. rewrite B in Q. apply Forall_cons in Q as [E Q].
      split; [exact E | exact (eq_rect_r _ Q U)].
Qed.

Lemma sends_check wl m k l l' p p' :
  sends wl m l p ->
  (forall w, boot w = boot wl -> hw w = hw wl -> curr_part w = p -> sends w (k w) l' p') ->
  sends wl (check m k) (l' ++ l) p'.
Proof.
  intros [Q N L P T H] K. unfold check. destruct m as [ret w]. cbn [fst snd] in *.
  destruct (Z.ltb_spec ret 0) as [Hn|Hn].
  - split; cbn [fst snd]; [intros X; destruct (Q X); lia | done | lia | lia | done | done].
  - destruct (K w T H (P Hn)) as [Q2 N2 L2 P2 T2 H2].
    split; [by intros X; apply Q2, Q | by intros X; apply N2, N | | by apply P2 | congruence | congruence].
    intros X. rewrite (L2 X), (L Hn), app_assoc. done.
Qed.

(** An update of a field the transfer does not use. *)
Lemma sends_part_only p0 wl m l p :
  sends (wl <| curr_part := p0 |>) m l p -> sends wl m l p.
Proof.
  intros [Q N L P T H]. split; [exact Q | exact N | exact L | exact P | exact T | exact H].
Qed.

Lemma set_partition_check p wl :
  wlcore_set_partition p wl =
    check (wlcore_raw_write32 HW_PART0_START_ADDR (part_start (part_mem p)) (wl <| curr_part := p |>)) (fun wl =>
    check (wlcore_raw_write32 HW_PART0_SIZE_ADDR (part_size (part_mem p)) wl) (fun wl =>
    check (wlcore_raw_write32 HW_PART1_START_ADDR (part_start (part_reg p)) wl) (fun wl =>
    check (wlcore_raw_write32 HW_PART1_SIZE_ADDR (part_size (part_reg p)) wl) (fun wl =>
    check (wlcore_raw_write32 HW_PART2_START_ADDR (part_start (part_mem2 p)) wl) (fun wl =>
    check (wlcore_raw_write32 HW_PART2_SIZE_ADDR (part_size (part_mem2 p)) wl) (fun wl =>
    wlcore_raw_write32 HW_PART3_START_ADDR (part_start (part_mem3 p)) wl)))))).
Proof. reflexivity. Qed.

Lemma raw_write32_sends a v p wl : curr_part wl = p ->
  sends wl (wlcore_raw_write32 a v wl) [EvWrite a (le_bytes 4 (u32 v))] p.
Proof. intros <-. apply raw_write_sends. Qed.

Lemma set_partition_sends p wl : sends wl (wlcore_set_partition p wl) (partition_writes p) p.
Proof.
  rewrite set_partition_check. apply (sends_part_only p).
  refine (_ : sends _ _ (((((([_] ++ [_]) ++ [_]) ++ [_]) ++ [_]) ++ [_]) ++ [_]) p).
  do 6 (eapply sends_check; [by apply raw_write32_sends | intros ????]).
  by apply raw_write32_sends.
Qed.

Lemma write_sends a buf p wl : curr_part wl = p ->
  sends wl (wlcore_write a buf wl) [EvWrite (wlcore_translate_addr wl a) buf] p.
Proof. intros <-. apply raw_write_sends. Qed.

(** [m], from [wl], succeeds on a quiet bus, and what it records when it
    succeeds satisfies [P]. *)
Record uploads (wl : wl1271) (m : Z * wl1271) (P : list event -> Prop) : Prop := {
  up_quiet : bus_quiet wl -> fst m = 0 /\ bus_quiet (snd m);
  up_nonpos : nonpos wl -> fst m <= 0 /\ nonpos (snd m);
  up_log : 0 <= fst m -> exists l, log (snd m) = l ++ log wl /\ P l;
  up_boot : boot (snd m) = boot wl;
  up_hw : hw (snd m) = hw wl
}.

Lemma sends_uploads wl m l p (P : list event -> Prop) : sends wl m l p -> P l -> uploads wl m P.
Proof. intros [Q N L _ T H] HP. split; eauto. Qed.

Lemma sends_fail wl ret w l p P : sends wl (ret, w) l p -> ret < 0 -> uploads wl (ret, w) P.
Proof.
  intros [Q N L _ T H] Hn. simpl in *. split; simpl; [|done|lia|done|done]. intros X. destruct (Q X). lia.
Qed.

Lemma sends_then wl ret w l p m P Q :
  sends wl (ret, w) l p -> 0 <= ret -> uploads w m P -> (forall l', P l' -> Q (l' ++ l)) ->
  uploads wl m Q.
Proof.
  intros [Q1 N1 L1 _ T1 H1] Hr [Q2 N2 L2 T2 H2] HQ. simpl in *.
  split; [intros X; by apply Q2, Q1 | intros X; by apply N2, N1 | | congruence | congruence].
  intros X. destruct (L2 X) as (l' & E & HP). exists (l' ++ l). rewrite E, (L1 Hr), app_assoc. auto.
Qed.

(** ** One piece of the image *)

(** The window for the upload holds two chunks and leaves the partition
    registers reachable. *)
Definition window_ok (p : wlcore_partition_set) : Prop :=
  2 * CHUNK_SIZE <= part_size (part_mem p) <= HW_PARTITION_REGISTERS_ADDR.

Lemma translate_mem wl a :
  let p := part_mem (curr_part wl) in
  0 <= part_start p -> part_start p + part_size p < 4294967296 -> part_start p <= a < part_start p + part_size p ->
  wlcore_translate_addr wl a = a - part_start p.
Proof.
  cbv zeta. intros H1 H2 H3. unfold wlcore_translate_addr, in_window.
  rewrite (u32_id (_ + _)) by lia.
  rewrite (proj2 (Z.leb_le _ _)), (proj2 (Z.ltb_lt _ _)) by lia. apply u32_id. lia.
Qed.

(** A write of [data] to chip address [a], inside the memory window. *)
Lemma window_write c p a data m :
  windows c p -> a + zlen data <= part_size (part_mem p) -> 0 <= a ->
  a < HW_PARTITION_REGISTERS_ADDR -> m = chip_mem c ->
  chip_mem (replay [EvWrite a data] c) = load_bytes m (part_start (part_mem p) + a) data.
Proof.
  intros W H Ha Hr ->. simpl. unfold chip_write.
  rewrite (proj2 (Z.leb_gt _ _)) by lia. by apply chip_store_mem.
Qed.

Lemma write_keeps_windows c p a data : windows c p -> a < HW_PARTITION_REGISTERS_ADDR ->
  windows (replay [EvWrite a data] c) p.
Proof.
  intros [S N] H. simpl. unfold chip_write. rewrite (proj2 (Z.leb_gt _ _)) by lia. by split.
Qed.

Lemma memcpy_ok p n : 0 <= n <= zlen p -> memcpy_from p n = Ret (take (Z.to_nat n) p).
Proof. intros H. unfold memcpy_from. by rewrite (proj2 (Z.ltb_ge _ _)) by lia. Qed.

Lemma zlen_drop (l : list Z) n : 0 <= n <= zlen l -> zlen (drop (Z.to_nat n) l) = zlen l - n.
Proof. unfold zlen. intros H. rewrite length_drop. lia. Qed.

Lemma zlen_take (l : list Z) n : 0 <= n <= zlen l -> zlen (take (Z.to_nat n) l) = n.
Proof. unfold zlen. intros H. rewrite length_take. lia. Qed.

Section Chunk.
Context (buf : list Z) (len dest : Z) (down : wlcore_partition_set).
Hypothesis Hw : window_ok down.
Hypothesis Hlen : 0 <= len <= zlen buf.
Hypothesis Hdest : 0 <= dest.
Hypothesis Htop : dest + len + 3 * CHUNK_SIZE + part_size (part_mem down) < 2147483648.

Let size := part_size (part_mem down).

(** The window while chunk [c] is written: it starts at chunk [c0] and reaches
    beyond chunk [c]. *)
Record chunk_window (c c0 limit : Z) (partition : wlcore_partition_set) (wl : wl1271) : Prop := {
  cw_down : ptable_down (boot wl) = down;
  cw_from : 0 <= c0 <= c;
  cw_reach : (c + 1 - c0) * CHUNK_SIZE <= size;
  cw_limit : limit = c0 * CHUNK_SIZE + size;
  cw_part : partition = with_mem_start down (dest + c0 * CHUNK_SIZE);
  cw_curr : curr_part wl = partition
}.

(** The rest of the piece, from chunk [c] on. *)
Definition loads_from (c : Z) (part : wlcore_partition_set) (l : list event) : Prop :=
  forall ch, windows ch part ->
    chip_mem (replay l ch)
    = load_bytes (chip_mem ch) (dest + c * CHUNK_SIZE)
        (take (Z.to_nat (len - c * CHUNK_SIZE)) (drop (Z.to_nat (c * CHUNK_SIZE)) buf)).

Lemma chunk_addr c : 0 <= c -> c * CHUNK_SIZE <= len + 2 * CHUNK_SIZE ->
  s32 (u32 (dest + c * CHUNK_SIZE)) = dest + c * CHUNK_SIZE
  /\ u32 (s32 (u32 (dest + c * CHUNK_SIZE))) = dest + c * CHUNK_SIZE.
Proof.
  unfold CHUNK_SIZE, size in *. destruct Hw as [W _]. unfold CHUNK_SIZE in W. intros H1 H2.
  rewrite u32_id by lia. rewrite s32_id by lia. by rewrite u32_id by lia.
Qed.

(** Writing [n] bytes of chunk [c], [n] at most a chunk. *)
Lemma chunk_write c c0 limit partition wl n :
  chunk_window c c0 limit partition wl -> 0 <= n <= CHUNK_SIZE -> c * CHUNK_SIZE + n <= len ->
  exists a, sends wl
      (wlcore_write (dest + c * CHUNK_SIZE) (take (Z.to_nat n) (drop (Z.to_nat (c * CHUNK_SIZE)) buf)) wl)
      [EvWrite a (take (Z.to_nat n) (drop (Z.to_nat (c * CHUNK_SIZE)) buf))] partition
    /\ a < HW_PARTITION_REGISTERS_ADDR
    /\ forall ch, windows ch partition ->
         chip_mem (replay [EvWrite a (take (Z.to_nat n) (drop (Z.to_nat (c * CHUNK_SIZE)) buf))] ch)
         = load_bytes (chip_mem ch) (dest + c * CHUNK_SIZE)
             (take (Z.to_nat n) (drop (Z.to_nat (c * CHUNK_SIZE)) buf)).
Proof.
  intros [D F R L P E] Hn Hc. set (data := take _ _).
  assert (zlen data = n) as Ed.
  { subst data. rewrite zlen_take; [done|]. unfold CHUNK_SIZE in *. rewrite zlen_drop; lia. }
  destruct Hw as [W1 W2]. unfold HW_PARTITION_REGISTERS_ADDR in *.
  assert (wlcore_translate_addr wl (dest + c * CHUNK_SIZE) = (c - c0) * CHUNK_SIZE) as Et.
  { rewrite translate_mem; rewrite E, P; simpl; unfold CHUNK_SIZE, size in *; lia. }
  exists ((c - c0) * CHUNK_SIZE). split; [|split].
  - rewrite <- Et. by apply write_sends.
  - unfold CHUNK_SIZE, size in *. lia.
  - intros ch Wc. rewrite (window_write ch partition _ _ (chip_mem ch) Wc);
      [ | rewrite Ed, P; simpl; unfold CHUNK_SIZE, size in *; lia | unfold CHUNK_SIZE; lia
        | unfold HW_PARTITION_REGISTERS_ADDR, CHUNK_SIZE, size in *; lia | done].
    f_equal. rewrite P. simpl. lia.
Qed.

(** The window after the check of 10.2. *)
Lemma chunk_move c c0 limit partition wl :
  chunk_window c c0 limit partition wl -> (c + 1) * CHUNK_SIZE <= len ->
  let moved := limit <? dest + (c + 2) * CHUNK_SIZE in
  let partition' := if moved then with_mem_start partition (dest + c * CHUNK_SIZE) else partition in
  exists l, sends wl (if moved then wlcore_set_partition partition' wl else (0, wl)) l partition'
    /\ (forall ch, windows ch partition ->
          windows (replay l ch) partition' /\ chip_mem (replay l ch) = chip_mem ch)
    /\ (forall w, boot w = boot wl -> curr_part w = partition' ->
          exists c0', chunk_window c c0' (if moved then c * CHUNK_SIZE + size else limit) partition' w
            /\ (c + 2 - c0') * CHUNK_SIZE <= size).
Proof.
  intros [D F R L P E] Hc. cbv zeta. destruct Hw as [W1 W2]. unfold HW_PARTITION_REGISTERS_ADDR in *.
  destruct (Z.ltb_spec limit (dest + (c + 2) * CHUNK_SIZE)) as [M|M].
  - assert (with_mem_start partition (dest + c * CHUNK_SIZE)
            = with_mem_start down (dest + c * CHUNK_SIZE)) as -> by (by rewrite P).
    eexists. split; [apply set_partition_sends|]. split.
    + intros ch _. split; [|apply replay_partition_mem].
      apply replay_partition; simpl; unfold CHUNK_SIZE, size in *; lia.
    + intros w Bw Cw. exists c. split; [split; try done|]; rewrite ?Bw; unfold CHUNK_SIZE, size in *; try lia; done.
  - exists []. split; [by split|]. split; [done|].
    intros w Bw Cw. exists c0. split; [split; try done; by rewrite Bw|].
    unfold CHUNK_SIZE, size in *. lia.
Qed.

Lemma loads_step c part a l : 0 <= c -> (c + 1) * CHUNK_SIZE <= len ->
  a < HW_PARTITION_REGISTERS_ADDR ->
  let chunk := take (Z.to_nat CHUNK_SIZE) (drop (Z.to_nat (c * CHUNK_SIZE)) buf) in
  (forall ch, windows ch part ->
     chip_mem (replay [EvWrite a chunk] ch) = load_bytes (chip_mem ch) (dest + c * CHUNK_SIZE) chunk) ->
  loads_from (c + 1) part l -> loads_from c part (l ++ [EvWrite a chunk]).
Proof.
  intros H0 Hc Ha chunk Hch Hl ch W. rewrite replay_app, Hl by (by apply write_keeps_windows).
  rewrite (Hch ch W).
  assert (zlen chunk = CHUNK_SIZE) as Ec.
  { subst chunk. rewrite zlen_take; [done|]. rewrite zlen_drop; unfold CHUNK_SIZE in *; lia. }
  replace (dest + (c + 1) * CHUNK_SIZE) with (dest + c * CHUNK_SIZE + zlen chunk) by lia.
  rewrite <- load_bytes_app. f_equal. subst chunk.
  replace (Z.to_nat ((c + 1) * CHUNK_SIZE)) with (Z.to_nat (c * CHUNK_SIZE) + Z.to_nat CHUNK_SIZE)%nat
    by (unfold CHUNK_SIZE in *; lia).
  rewrite <- drop_drop, take_take_drop. f_equal. unfold CHUNK_SIZE in *. lia.
Qed.

Lemma upload_chunks_spec n c c0 limit partition wl :
  chunk_window c c0 limit partition wl -> c + Z.of_nat n = len / CHUNK_SIZE ->
  exists m, upload_chunks n c limit partition buf len dest wl = Ret m
    /\ uploads wl m (loads_from c partition).
Proof.
  revert c c0 limit partition wl. induction n as [|n IH]; intros c c0 limit partition wl W Hn;
    cbn [upload_chunks]; pose proof (Z_div_mod_eq_full len CHUNK_SIZE) as Dm;
    pose proof (Z.mod_pos_bound len CHUNK_SIZE eq_refl) as Mb; pose proof (cw_from _ _ _ _ _ W) as Fr.
  - assert (len mod CHUNK_SIZE = len - c * CHUNK_SIZE) as Er by lia.
    destruct (chunk_addr c) as [_ ->]; [lia..|].
    rewrite memcpy_ok by (rewrite zlen_drop; unfold CHUNK_SIZE in *; lia). cbn [obind].
    destruct (chunk_write c c0 limit partition wl (len mod CHUNK_SIZE) W) as (a & S & _ & L); [lia..|].
    eexists. split; [reflexivity|]. eapply sends_uploads; [exact S|]. unfold loads_from. by rewrite <- Er.
  - assert ((c + 1) * CHUNK_SIZE <= len) as Hc.
    { assert (c + 1 <= len / CHUNK_SIZE) by lia. nia. }
    rewrite (proj1 (chunk_addr (c + 2) ltac:(lia) ltac:(lia))).
    rewrite (proj2 (chunk_addr c ltac:(lia) ltac:(lia))). rewrite (cw_down _ _ _ _ _ W). fold size.
    rewrite (s32_id (c * CHUNK_SIZE + size))
      by (destruct Hw as [W1 _]; unfold CHUNK_SIZE, size in *; lia).
    destruct (chunk_move c c0 limit partition wl W Hc) as (l1 & S1 & M1 & N1). cbv zeta in S1, M1, N1.
    set (moved := limit <? dest + (c + 2) * CHUNK_SIZE) in *. set (part' := if moved then _ else partition) in *.
    set (limit' := if moved then c * CHUNK_SIZE + size else limit) in *.
    destruct (if moved then wlcore_set_partition part' wl else (0, wl)) as [r1 w1].
    destruct (Z.ltb_spec r1 0) as [Hr1|Hr1]; [eexists; split; [done|]; by eapply sends_fail|].
    destruct (N1 w1 (sends_boot _ _ _ _ S1) (sends_part _ _ _ _ S1 Hr1)) as (c0' & W1 & R1).
    rewrite memcpy_ok by (rewrite zlen_drop; unfold CHUNK_SIZE in *; lia). cbn [obind].
    destruct (chunk_write c c0' limit' part' w1 CHUNK_SIZE W1) as (a & S2 & A2 & L2);
      [unfold CHUNK_SIZE; lia | unfold CHUNK_SIZE in *; lia|].
    destruct (wlcore_write _ _ w1) as [r2 w2].
    destruct (Z.ltb_spec r2 0) as [Hr2|Hr2].
    { eexists. split; [done|]. eapply (sends_then _ _ _ _ _ _ (fun _ => False));
        [exact S1 | done | by eapply sends_fail | done]. }
    destruct W1 as [D1 F1 _ E1 P1 _].
    destruct (IH (c + 1) c0' limit' part' w2) as (m & -> & U); [|lia|].
    { split; [|lia| unfold CHUNK_SIZE in *; lia|done|done|exact (sends_part _ _ _ _ S2 Hr2)].
      pose proof (sends_boot _ _ _ _ S2) as B2. simpl in B2. by rewrite B2. }
    exists m. split; [done|]. eapply sends_then; [exact S1|done| |].
    { eapply sends_then; [exact S2|done|exact U|]. intros l' Hl'.
      exact (loads_step c part' a l' ltac:(lia) Hc A2 L2 Hl'). }
    intros l' Hl' ch Wch. destruct (M1 ch Wch) as [Wch' <-]. rewrite replay_app. by apply Hl'.
Qed.

End Chunk.

Lemma firmware_chunk_spec buf len dest wl :
  window_ok (ptable_down (boot wl)) -> 0 <= len <= zlen buf -> len mod 4 = 0 -> 0 <= dest ->
  dest + len + 3 * CHUNK_SIZE + part_size (part_mem (ptable_down (boot wl))) < 2147483648 ->
  exists m, wl1271_boot_upload_firmware_chunk buf len dest wl = Ret m
    /\ uploads wl m (fun l => forall ch,
         chip_mem (replay l ch) = load_bytes (chip_mem ch) dest (take (Z.to_nat len) buf)).
Proof.
  intros W Hl H4 Hd Ht. unfold wl1271_boot_upload_firmware_chunk. rewrite H4. simpl negb. cbv iota.
  pose proof (set_partition_sends (with_mem_start (ptable_down (boot wl)) dest) wl) as S1.
  destruct (wlcore_set_partition _ wl) as [r1 w1].
  destruct (Z.ltb_spec r1 0) as [Hr|Hr]; [eexists; split; [done|]; by eapply sends_fail|].
  pose proof (sends_boot _ _ _ _ S1) as B1. simpl in B1.
  destruct W as [W1 W2]. unfold HW_PARTITION_REGISTERS_ADDR in W2.
  assert (0 <= len / CHUNK_SIZE) by (apply Z.div_pos; unfold CHUNK_SIZE; lia).
  destruct (upload_chunks_spec buf len dest (ptable_down (boot wl)) (conj W1 W2) Hl Hd Ht
              (Z.to_nat (len / CHUNK_SIZE)) 0 0
              (s32 (part_size (part_mem (ptable_down (boot w1)))))
              (with_mem_start (ptable_down (boot wl)) dest) w1) as (m & -> & U).
  { split; [by rewrite B1|lia|unfold CHUNK_SIZE in *; lia| | |exact (sends_part _ _ _ _ S1 Hr)].
    - rewrite B1, s32_id by (unfold CHUNK_SIZE in *; lia). lia.
    - f_equal. lia. }
  { lia. }
  exists m. split; [done|]. eapply sends_then; [exact S1|done|exact U|].
  intros l Hload ch. rewrite replay_app, Hload.
  - rewrite replay_partition_mem, Z.mul_0_l, Z.add_0_r, Z.sub_0_r. by rewrite drop_0.
  - apply replay_partition; simpl; unfold CHUNK_SIZE in *; lia.
Qed.

(** ** The whole image *)

Definition be_bytes (x : Z) : list Z := rev (le_bytes 4 x).

(** The file format: the number of pieces; of each, its address, its length and
    its bytes. *)
Definition fw_segment (s : Z * list Z) : list Z := be_bytes (fst s) ++ be_bytes (zlen (snd s)) ++ snd s.
Definition fw_image (segs : list (Z * list Z)) : list Z := be_bytes (zlen segs) ++ concat (fw_segment <$> segs).

(** What the chip's memory holds once it is loaded. *)
Definition load_image (segs : list (Z * list Z)) (m : gmap Z Z) : gmap Z Z :=
  fold_left (fun m s => load_bytes m (fst s) (snd s)) segs m.

(** A piece the driver accepts, for a window of [size] bytes. *)
Definition segment_ok (size : Z) (s : Z * list Z) : Prop :=
  0 <= fst s /\ fst s + zlen (snd s) + 3 * CHUNK_SIZE + size < 2147483648
  /\ zlen (snd s) mod 4 = 0 /\ zlen (snd s) <= FW_CHUNK_MAX.

Lemma lor_shiftl_add a b k : 0 <= k -> 0 <= b < 2 ^ k -> Z.lor (Z.shiftl a k) b = a * 2 ^ k + b.
Proof.
  intros Hk Hb. rewrite <- Z.shiftl_mul_pow2 by done.
  assert (Z.land (Z.shiftl a k) b = 0) as E.
  { apply Z.bits_inj'. intros i Hi. rewrite Z.land_spec, Z.bits_0.
    destruct (Z.lt_ge_cases i k); [by rewrite Z.shiftl_spec_low|].
    rewrite <- (Z.mod_small b (2 ^ k)) by done. rewrite Z.mod_pow2_bits_high by lia. apply andb_false_r. }
  rewrite <- Z.lxor_lor by done. symmetry. by apply Z.add_nocarry_lxor.
Qed.

Lemma be32_bytes x rest : 0 <= x < 4294967296 -> be32_to_cpup (be_bytes x ++ rest) = Ret x.
Proof.
  intros H. unfold be_bytes. cbn [le_bytes rev app be32_to_cpup]. f_equal.
  assert (0 <= x mod 256 < 256) by (apply Z.mod_pos_bound; lia).
  set (y := x / 256). assert (0 <= y mod 256 < 256) by (apply Z.mod_pos_bound; lia).
  set (z := y / 256). assert (0 <= z mod 256 < 256) by (apply Z.mod_pos_bound; lia).
  set (t := z / 256). assert (0 <= t mod 256 < 256) by (apply Z.mod_pos_bound; lia).
  rewrite (lor_shiftl_add _ (x mod 256)) by (change (2 ^ 8) with 256; lia).
  change (2 ^ 8) with 256.
  rewrite (lor_shiftl_add _ (_ + x mod 256)) by (change (2 ^ 16) with 65536; lia).
  change (2 ^ 16) with 65536.
  rewrite lor_shiftl_add by (change (2 ^ 24) with 16777216; lia).
  change (2 ^ 24) with 16777216.
  assert (0 <= t < 256) as Ht.
  { subst t z y. split; [repeat (apply Z.div_pos; try lia)|]. rewrite !Z.div_div by lia.
    apply Z.div_lt_upper_bound; lia. }
  rewrite (Z.mod_small t) by done. subst t z y.
  pose proof (Z_div_mod_eq_full x 256). pose proof (Z_div_mod_eq_full (x / 256) 256).
  pose proof (Z_div_mod_eq_full (x / 256 / 256) 256). lia.
Qed.

Lemma length_be_bytes x : length (be_bytes x) = 4%nat.
Proof. reflexivity. Qed.

Lemma drop_be_bytes x rest : drop 4 (be_bytes x ++ rest) = rest.
Proof. reflexivity. Qed.

(** [m] returns zero exactly when the whole work is done. *)
Record finishes (wl : wl1271) (m : Z * wl1271) (P : list event -> Prop) : Prop := {
  cp_quiet : bus_quiet wl -> fst m = 0 /\ bus_quiet (snd m);
  cp_nonpos : nonpos wl -> fst m <= 0 /\ nonpos (snd m);
  cp_log : fst m = 0 -> exists l, log (snd m) = l ++ log wl /\ P l;
  cp_boot : boot (snd m) = boot wl;
  cp_hw : hw (snd m) = hw wl
}.

Lemma upload_image_spec segs rest wl fuel :
  window_ok (ptable_down (boot wl)) ->
  Forall (segment_ok (part_size (part_mem (ptable_down (boot wl))))) segs ->
  (length segs <= fuel)%nat ->
  exists m, upload_image fuel (zlen segs) 0 (concat (fw_segment <$> segs) ++ rest) wl = Ret m
    /\ finishes wl m (fun l => forall ch, chip_mem (replay l ch) = load_image segs (chip_mem ch)).
Proof.
  revert wl fuel. induction segs as [|[a d] segs IH]; intros wl fuel W Hs Hf; destruct fuel as [|fuel];
    try (simpl in Hf; lia).
  1, 2: eexists; split; [reflexivity|]; split; try done; intros X; solve [by exists [] | split; [simpl; lia|exact X]].
  apply Forall_cons in Hs as [(Ha & Ht & H4 & Hm) Hs]. cbn [fst snd] in *.
  pose proof (zlen_nonneg d) as Hd. destruct W as [W1 W2].
  cbn [upload_image fmap list_fmap concat]. 
  change (fw_segment (a, d)) with (be_bytes a ++ be_bytes (zlen d) ++ d).
  rewrite (proj2 (Z.eqb_neq _ _)) by (unfold zlen; simpl; lia).
  rewrite <- !app_assoc.
  assert (0 <= a < 4294967296) as Ha' by (unfold CHUNK_SIZE in *; lia).
  assert (0 <= zlen d < 4294967296) as Hd' by (unfold FW_CHUNK_MAX in *; lia).
  rewrite (be32_bytes a) by done. cbn [obind]. rewrite drop_be_bytes.
  rewrite (be32_bytes (zlen d)) by done. cbn [obind]. rewrite drop_be_bytes.
  rewrite (proj2 (Z.ltb_ge _ _)) by done.
  destruct (firmware_chunk_spec (d ++ concat (fw_segment <$> segs) ++ rest) (zlen d) a wl (conj W1 W2))
    as ([r w] & -> & U); [|done|done|done|].
  { unfold zlen. rewrite length_app. lia. }
  cbn [obind]. destruct (Z.eqb_spec r 0) as [->|Hr]; cbn [negb].
  - pose proof (up_boot _ _ _ U) as B. pose proof (up_hw _ _ _ U) as Hh. simpl in B, Hh.
    replace (zlen ((a, d) :: segs) - 1) with (zlen segs) by (unfold zlen; simpl; lia).
    assert (drop (Z.to_nat (zlen d)) (d ++ concat (fw_segment <$> segs) ++ rest)
            = concat (fw_segment <$> segs) ++ rest) as ->.
    { unfold zlen. rewrite Nat2Z.id. by rewrite drop_app_length. }
    destruct (IH w fuel) as (m & -> & C); [by rewrite B | by rewrite B | simpl in Hf; lia|].
    exists m. split; [done|]. destruct U as [Q1 N1 L1 _ _], C as [Q2 N2 L2 B2 H2].
    split; [intros X; by apply Q2, Q1 | intros X; by apply N2, N1 | | congruence | congruence].
    intros X. destruct (L2 X) as (l2 & E2 & P2). destruct (L1 ltac:(simpl; lia)) as (l1 & E1 & P1).
    simpl in E1. exists (l2 ++ l1). split; [by rewrite E2, E1, app_assoc|].
    intros ch. rewrite replay_app, P2, P1. unfold load_image. cbn [fold_left fst snd]. f_equal. f_equal.
    unfold zlen. rewrite Nat2Z.id. by rewrite take_app_length.
  - eexists. split; [reflexivity|]. destruct U as [Q1 N1 _ B1 H1]. cbn [fst snd] in *.
    split; cbn [fst snd]; [intros X; destruct (Q1 X); done | done | done | done | done].
Qed.

(** ** The bound on the rounds *)

Lemma be32_length p x : be32_to_cpup p = Ret x -> (4 <= length p)%nat.
Proof. destruct p as [|? [|? [|? [|? p]]]]; simpl; try done. intros _. lia. Qed.

(** More rounds than the image has bytes change nothing: the loop ends by
    itself. *)
Lemma upload_image_fuel fuel fuel' chunks ret image wl :
  (length image < fuel <= fuel')%nat ->
  upload_image fuel' chunks ret image wl = upload_image fuel chunks ret image wl.
Proof.
  revert fuel' chunks ret image wl.
  induction fuel as [|fuel IH]; intros fuel' chunks ret image wl [H1 H2]; [lia|].
  destruct fuel' as [|fuel']; [lia|]. cbn [upload_image]. split_if; [done|].
  destruct (be32_to_cpup image) as [addr| |] eqn:E1; [|done|done]. cbn [obind].
  destruct (be32_to_cpup (drop 4 image)) as [len| |] eqn:E2; [|done|done]. cbn [obind].
  split_if; [done|].
  destruct (wl1271_boot_upload_firmware_chunk _ _ _ _) as [[r w]| |]; [|done|done]. cbn [obind].
  split_if; [done|]. apply IH. apply be32_length in E1. rewrite !length_drop. lia.
Qed.

(** An image the driver accepts, for the upload window [down]. *)
Record image_ok (down : wlcore_partition_set) (segs : list (Z * list Z)) : Prop := {
  img_window : window_ok down;
  img_segs : Forall (segment_ok (part_size (part_mem down))) segs;
  img_count : zlen segs < 4294967296
}.

Lemma length_image segs rest : (length segs <= length (fw_image segs ++ rest))%nat.
Proof.
  unfold fw_image. rewrite !length_app, length_be_bytes.
  assert (length segs <= length (concat (fw_segment <$> segs)))%nat; [|lia].
  induction segs as [|s segs IH]; [done|]. cbn [fmap list_fmap concat length]. rewrite length_app.
  assert (4 <= length (fw_segment s))%nat; [|lia].
  unfold fw_segment. rewrite length_app, length_be_bytes. lia.
Qed.

Lemma upload_firmware_spec segs rest wl :
  fw (boot wl) = fw_image segs ++ rest -> image_ok (ptable_down (boot wl)) segs ->
  exists m, wlcore_boot_upload_firmware wl = Ret m
    /\ finishes wl m (fun l => forall ch, chip_mem (replay l ch) = load_image segs (chip_mem ch)).
Proof.
  intros E [W S N]. unfold wlcore_boot_upload_firmware. rewrite E. cbv zeta.
  pose proof (zlen_nonneg segs) as H0. pose proof (length_image segs rest) as Hl.
  unfold fw_image in *. rewrite <- app_assoc in *. rewrite be32_bytes by lia. cbn [obind].
  rewrite drop_be_bytes. apply upload_image_spec; [done|done|lia].
Qed.
