(* ===== verification/NvsFacts.v ===== *)
(** * The NVS upload

    The register bursts are parsed within the file and in finitely many rounds,
    and what is uploaded is what the format says. *)

From S2P Require Import Prelude WlState ChipOps Io Boot BootFacts.

Lemma byte_of_ok (l : list Z) i : 0 <= i < zlen l -> byte_of l i = Ret (zget 0 l i).
Proof.
  intros H. unfold byte_of, zget. rewrite (proj2 (Z.ltb_ge _ _)) by lia.
  destruct (l !! Z.to_nat i) eqn:E.
  - by rewrite (nth_lookup_Some _ _ _ _ E).
  - apply lookup_ge_None in E. unfold zlen in H. lia.
Qed.

Lemma poke_ok l i b : 0 <= i < zlen l -> poke l i b = Ret (zset l i b).
Proof. intros H. unfold poke. by rewrite (proj2 (Z.leb_le _ _)), (proj2 (Z.ltb_lt _ _)) by lia. Qed.

(** ** Totality *)

(** Where a parse step ends, from offset [ptr] of a section of [len] bytes. *)
Definition nvs_ends (r : nvs_res) (Q : Z -> wl1271 -> Prop) : Prop :=
  match r with
  | NvsNext ptr wl => Q ptr wl
  | NvsBad _ => True
  | NvsFail ret _ => ret < 0
  end.

Lemma nvs_burst_total n file len ptr dest wl : 0 <= ptr -> len <= zlen file ->
  exists r, nvs_burst n file len ptr dest wl = Ret r
    /\ nvs_ends r (fun p _ => p = ptr + 4 * Z.of_nat n).
Proof.
  revert ptr dest wl. induction n as [|n IH]; intros ptr dest wl Hp Hl; cbn [nvs_burst].
  - eexists. split; [reflexivity|]. simpl. lia.
  - destruct (Z.leb_spec len (ptr + 3)); [by eexists|].
    rewrite !byte_of_ok by lia. cbn [obind].
    destruct (wlcore_write32 _ _ wl) as [ret w].
    destruct (Z.ltb_spec ret 0); [by eexists|].
    destruct (IH (ptr + 4) (u32 (dest + 4)) w) as (r & -> & E); [lia|done|].
    exists r. split; [done|]. destruct r; simpl in *; try done. lia.
Qed.

Lemma nvs_bursts_total fuel file len ptr wl :
  0 <= ptr < len -> len + 2 <= zlen file -> len - ptr <= Z.of_nat fuel ->
  exists r, nvs_bursts fuel file len ptr wl = Ret r /\ nvs_ends r (fun p _ => ptr <= p < len).
Proof.
  revert ptr wl. induction fuel as [|fuel IH]; intros ptr wl Hp Hl Hf; [lia|].
  cbn [nvs_bursts]. rewrite !byte_of_ok by lia. cbn [obind].
  split_if; [eexists; split; [reflexivity|]; simpl; lia|].
  destruct (nvs_burst_total (Z.to_nat (zget 0 file ptr)) file len (ptr + 3)
              (u32 (Z.lor (Z.land (zget 0 file (ptr + 1)) 254) (u32 (Z.shiftl (zget 0 file (ptr + 2)) 8))
                    + part_start (part_reg (curr_part wl)))) wl) as (r & -> & En); [lia|lia|].
  cbn [obind]. destruct r as [p w|w|ret w]; simpl in En; [|by eexists|by eexists].
  destruct (Z.leb_spec len p); [by eexists|].
  destruct (IH p w) as (r & -> & E2); [lia|done|lia|]. exists r. split; [done|].
  destruct r; simpl in *; try done. lia.
Qed.

Lemma ALIGN_4 x : 0 <= x < 1000 -> x <= ALIGN x 4 < x + 4.
Proof. intros H. pose proof (ALIGN_spec 2 x) as A. change (2 ^ 2) with 4 in A. lia. Qed.

Lemma nvs_upload_tables_total file len ptr wl : 0 <= ptr < len -> len <= 900 -> len <= zlen file ->
  exists m, nvs_upload_tables file len ptr wl = Ret m /\ boot (snd m) = boot wl.
Proof.
  intros Hp Hl Hf. unfold nvs_upload_tables. pose proof (ALIGN_4 (ptr + 7)) as A.
  cbv zeta. destruct (Z.leb_spec len (ALIGN (ptr + 7) 4)); [by eexists|].
  pose proof (set_partition_sends (ptable_work (hw wl)) wl) as S1.
  destruct (wlcore_set_partition _ wl) as [ret w]. pose proof (sends_boot _ _ _ _ S1) as B. simpl in B.
  split_if; [by eexists|].
  rewrite memcpy_ok by (rewrite zlen_drop; lia). cbn [obind]. eexists. split; [reflexivity|].
  by rewrite (sends_boot _ _ _ _ (write_sends _ _ _ w eq_refl)).
Qed.

(** The parse changes nothing but the bus. *)
Definition nvs_res_wl (r : nvs_res) : wl1271 :=
  match r with NvsNext _ wl => wl | NvsBad wl => wl | NvsFail _ wl => wl end.

Section Frame.
Context (R : wl1271 -> wl1271 -> Prop) `{!PreOrder R}.
Hypothesis R_write : forall a v w, R w (snd (wlcore_write32 a v w)).

Lemma nvs_burst_frame n file len ptr dest wl r :
  nvs_burst n file len ptr dest wl = Ret r -> R wl (nvs_res_wl r).
Proof.
  revert ptr dest wl. induction n as [|n IH]; intros ptr dest wl; cbn [nvs_burst].
  { by intros [= <-]. }
  split_if; [by intros [= <-]|].
  destruct (byte_of file ptr) as [b0| |]; [|done|done]. cbn [obind].
  destruct (byte_of file (ptr + 1)) as [b1| |]; [|done|done]. cbn [obind].
  destruct (byte_of file (ptr + 2)) as [b2| |]; [|done|done]. cbn [obind].
  destruct (byte_of file (ptr + 3)) as [b3| |]; [|done|done]. cbn [obind].
  set (v := u32 _). pose proof (R_write dest v wl) as B.
  destruct (wlcore_write32 dest v wl) as [ret w]. simpl in B.
  split_if; [by intros [= <-]|]. intros H. etrans; [exact B | by apply (IH _ _ _ H)].
Qed.

Lemma nvs_bursts_frame fuel file len ptr wl r :
  nvs_bursts fuel file len ptr wl = Ret r -> R wl (nvs_res_wl r).
Proof.
  revert ptr wl. induction fuel as [|fuel IH]; intros ptr wl; cbn [nvs_bursts];
    (destruct (byte_of file ptr) as [b0| |]; [|done|done]); cbn [obind]; split_if; try done;
    try (by intros [= <-]).
  destruct (byte_of file (ptr + 1)) as [b1| |]; [|done|done]. cbn [obind].
  destruct (byte_of file (ptr + 2)) as [b2| |]; [|done|done]. cbn [obind].
  destruct (nvs_burst _ file len _ _ wl) as [q| |] eqn:Q; [|done|done]. cbn [obind].
  apply nvs_burst_frame in Q. destruct q as [p w|w|ret w]; cbn [nvs_res_wl] in Q;
    [|by intros [= <-]..].
  split_if; [by intros [= <-]|]. intros H. etrans; [exact Q | by apply (IH _ _ H)].
Qed.

End Frame.

Lemma nvs_bursts_boot fuel file len ptr wl r :
  nvs_bursts fuel file len ptr wl = Ret r -> boot (nvs_res_wl r) = boot wl.
Proof.
  assert (PreOrder (fun w w' : wl1271 => boot w' = boot w)).
  { split; [by intros ? | intros a b c E F; by rewrite F]. }
  apply (nvs_bursts_frame (fun w w' => boot w' = boot w)).
  intros a v w. exact (sends_boot _ _ _ _ (raw_write32_sends _ _ _ w eq_refl)).
Qed.

(** ** The size check and the MAC address *)

(** The files the chip's driver takes. *)
Definition nvs_accepted (file : list Z) (wl : wl1271) : bool :=
  if has_quirk wl WLCORE_QUIRK_LEGACY_NVS then
    (zlen file =? WL1271_NVS_FILE_SIZE)
    || ((zlen file =? WL1271_INI_LEGACY_NVS_FILE_SIZE)
        && (zget 0 file WL1271_NVS_DUAL_MODE_SELECT =? 0) && negb (enable_11a (boot wl)))
  else zlen file =? WL128X_NVS_FILE_SIZE.

(** [wl'] is [wl] but for [enable_11a]. *)
Definition only_11a (wl wl' : wl1271) : Prop :=
  exists a, wl' = upd_boot (fun b => b <| enable_11a := a |>) wl.

Lemma upd_boot_id f wl : f (boot wl) = boot wl -> upd_boot f wl = wl.
Proof.
  intros E. change (upd_boot f wl) with (wl <| boot := f (boot wl) |>). rewrite E. by destruct wl.
Qed.

Lemma nvs_dual_mode_ok file i wl : 0 <= i < zlen file ->
  nvs_dual_mode file i wl
  = Ret (upd_boot (fun b => b <| enable_11a := negb (zget 0 file i =? 0) || enable_11a (boot wl) |>) wl).
Proof.
  intros H. unfold nvs_dual_mode. rewrite byte_of_ok by done. cbn [obind]. f_equal.
  split_if; [|done]. symmetry. apply upd_boot_id. by destruct (boot wl).
Qed.

Lemma nvs_check_size_ok file wl : nvs_len (boot wl) = zlen file ->
  exists w, only_11a wl w
    /\ nvs_check_size file wl
       = Ret (if nvs_accepted file wl then None else Some (nvs_bad_size w), w).
Proof.
  intros E. unfold nvs_check_size, nvs_accepted. rewrite E. cbv zeta.
  assert (only_11a wl wl) as Same.
  { exists (enable_11a (boot wl)). symmetry. apply upd_boot_id. by destruct (boot wl). }
  destruct (has_quirk wl _).
  - destruct (Z.eqb_spec (zlen file) WL1271_NVS_FILE_SIZE) as [F|F]; cbn [orb negb andb].
    { rewrite nvs_dual_mode_ok by (rewrite F; done). cbn [obind]. eexists. split; [by eexists|done]. }
    destruct (Z.eqb_spec (zlen file) WL1271_INI_LEGACY_NVS_FILE_SIZE) as [L|L]; cbn [orb negb andb].
    + rewrite nvs_dual_mode_ok by (rewrite L; done). cbn [obind].
      set (a := _ || enable_11a (boot wl)). exists (upd_boot (fun b => b <| enable_11a := a |>) wl).
      split; [by eexists|]. change (enable_11a (boot (upd_boot _ wl))) with a. subst a.
      by destruct (zget 0 file WL1271_NVS_DUAL_MODE_SELECT =? 0), (enable_11a (boot wl)).
    + cbn [obind]. by eexists.
  - destruct (Z.eqb_spec (zlen file) WL128X_NVS_FILE_SIZE) as [F|F]; [|by eexists].
    rewrite nvs_dual_mode_ok by (rewrite F; done). cbn [obind]. eexists. split; [by eexists|done].
Qed.

Lemma nvs_put_mac_ok file mac : 12 <= zlen file ->
  exists file', nvs_put_mac nvs_mac_offsets mac file = Ret file' /\ zlen file' = zlen file.
Proof.
  unfold nvs_mac_offsets. intros H.
  do 6 (destruct mac as [|? mac]; [eexists; split; [done|]; by rewrite ?zlen_zset|]; cbn [nvs_put_mac];
        rewrite poke_ok by (rewrite ?zlen_zset; lia); cbn [obind]).
  eexists. split; [by destruct mac|]. by rewrite !zlen_zset.
Qed.

Lemma nvs_accepted_size file wl : nvs_accepted file wl = true -> 800 <= zlen file <= 1113.
Proof.
  unfold nvs_accepted, WL1271_NVS_FILE_SIZE, WL1271_INI_LEGACY_NVS_FILE_SIZE, WL128X_NVS_FILE_SIZE.
  destruct (has_quirk wl _), (Z.eqb_spec (zlen file) 912), (Z.eqb_spec (zlen file) 800),
    (Z.eqb_spec (zlen file) 1113); simpl; intros; try discriminate; lia.
Qed.

(** ** The whole upload *)

(** What the upload does with a file, whatever it holds and however the bus
    behaves. *)
Lemma nvs_upload_total wl file :
  nvs (boot wl) = Some file -> nvs_len (boot wl) = zlen file ->
  exists ret wl', wlcore_boot_upload_nvs wl = Ret (ret, wl')
    /\ if nvs_accepted file wl
       then exists file', nvs_put_mac nvs_mac_offsets (zget [] (addresses (boot wl)) 0) file = Ret file'
              /\ nvs (boot wl') = Some file' /\ zlen file' = zlen file
       else ret = - EILSEQ /\ nvs (boot wl') = None /\ nvs_len (boot wl') = 0 /\ log wl' = log wl.
Proof.
  intros N L. unfold wlcore_boot_upload_nvs. rewrite N.
  destruct (nvs_check_size_ok file wl L) as (w & [a ->] & ->). cbn [obind].
  destruct (nvs_accepted file wl) eqn:A; [|by do 2 eexists].
  apply nvs_accepted_size in A. set (w := upd_boot _ wl).
  change (addresses (boot w)) with (addresses (boot wl)).
  destruct (nvs_put_mac_ok file (zget [] (addresses (boot wl)) 0)) as (file' & E & Z'); [lia|].
  rewrite E. cbn [obind]. cbv zeta. set (w1 := upd_boot _ w).
  destruct (nvs_bursts_total (Z.to_nat WL1271_INI_NVS_SECTION_SIZE) file' WL1271_INI_NVS_SECTION_SIZE 0 w1)
    as (r & R & Rp); [done | unfold WL1271_INI_NVS_SECTION_SIZE; lia | done|].
  rewrite R. cbn [obind]. pose proof (nvs_bursts_boot _ _ _ _ _ _ R) as B.
  assert (nvs (boot w1) = Some file') as N1 by done.
  destruct r as [p w2|w2|ret w2]; cbn [nvs_res_wl nvs_ends] in *.
  - unfold WL1271_INI_NVS_SECTION_SIZE in *.
    destruct (nvs_upload_tables_total file' 468 p w2) as ([ret w3] & -> & B3); [lia|lia|lia|].
    do 2 eexists. split; [done|]. exists file'. split; [done|]. split; [|done]. simpl in B3. by rewrite B3, B.
  - do 2 eexists. split; [done|]. exists file'. split; [done|]. split; [|done]. by rewrite B.
  - do 2 eexists. split; [done|]. exists file'. split; [done|]. split; [|done]. by rewrite B.
Qed.

(** ** The format *)

(** A register burst: the 16-bit address it is stored under and the words for
    that register and those behind it.  The lowest bit of the address is not part
    of it (the files that come with the driver have it set). *)
Definition nvs_burst_bytes (b : Z * list Z) : list Z :=
  [zlen (snd b); Z.land (fst b) 255; Z.shiftr (fst b) 8] ++ concat (le_bytes 4 <$> snd b).

Definition nvs_burst_ok (b : Z * list Z) : Prop :=
  0 <= fst b < 65536 /\ 0 < zlen (snd b) < 256
  /\ Forall (fun w => 0 <= w < 4294967296) (snd b).

(** The writes of a burst to registers from [reg] on, the latest first. *)
Definition word_writes (wl : wl1271) (reg : Z) (words : list Z) : list event :=
  rev (imap (fun i w => EvWrite (wlcore_translate_addr wl (reg + 4 * Z.of_nat i)) (le_bytes 4 w)) words).

Definition burst_writes (wl : wl1271) (b : Z * list Z) : list event :=
  word_writes wl (part_start (part_reg (curr_part wl)) + 2 * (fst b / 2)) (snd b).

(** Of a list of bursts. *)
Definition bursts_writes (wl : wl1271) (bs : list (Z * list Z)) : list event :=
  concat (rev (burst_writes wl <$> bs)).

Lemma word_writes_cons wl reg w words :
  word_writes wl reg (w :: words)
  = word_writes wl (reg + 4) words ++ [EvWrite (wlcore_translate_addr wl reg) (le_bytes 4 w)].
Proof.
  unfold word_writes. cbn [imap rev]. rewrite Z.add_0_r. f_equal. f_equal. apply imap_ext.
  intros i x _. simpl. f_equal. f_equal. lia.
Qed.

(** The state after a successful part of the parse: nothing but the log. *)
Record bursts_done (wl : wl1271) (l : list event) (wl' : wl1271) : Prop := {
  bd_log : log wl' = l ++ log wl;
  bd_part : curr_part wl' = curr_part wl;
  bd_boot : boot wl' = boot wl;
  bd_hw : hw wl' = hw wl;
  bd_quiet : bus_quiet wl -> bus_quiet wl'
}.

Lemma bursts_done_trans wl l w l' w' :
  bursts_done wl l w -> bursts_done w l' w' -> bursts_done wl (l' ++ l) w'.
Proof.
  intros [L P B H Q] [L' P' B' H' Q']. split; try congruence; [|auto].
  by rewrite L', L, app_assoc.
Qed.

Lemma translate_part wl wl' a : curr_part wl' = curr_part wl ->
  wlcore_translate_addr wl' a = wlcore_translate_addr wl a.
Proof. intros E. unfold wlcore_translate_addr. by rewrite E. Qed.

(** How the parse of well-formed bytes goes on: to the next offset with the
    writes done, or a transfer failed. *)
Definition parsed (wl : wl1271) (r : nvs_res) (ptr : Z) (l : list event) : Prop :=
  (exists w, r = NvsNext ptr w /\ bursts_done wl l w)
  \/ (exists ret w, r = NvsFail ret w /\ ret < 0 /\ ~ bus_quiet wl).

Lemma word_bytes_value w : 0 <= w < 4294967296 -> exists b0 b1 b2 b3, le_bytes 4 w = [b0; b1; b2; b3]
  /\ u32 (Z.lor b0 (Z.lor (Z.shiftl b1 8) (Z.lor (Z.shiftl b2 16) (Z.shiftl b3 24)))) = w.
Proof.
  intros H. do 4 eexists. split; [reflexivity|].
  pose proof (be32_bytes w [] H) as E. unfold be_bytes in E. cbn [le_bytes rev app be32_to_cpup] in E.
  injection E as E.
  match type of E with Z.lor (Z.shiftl ?b3 24) (Z.lor (Z.shiftl ?b2 16) (Z.lor (Z.shiftl ?b1 8) ?b0)) = _ =>
    transitivity (u32 (Z.lor (Z.shiftl b3 24) (Z.lor (Z.shiftl b2 16) (Z.lor (Z.shiftl b1 8) b0)))) end.
  - f_equal. apply Z.bits_inj'. intros i _. rewrite !Z.lor_spec.
    repeat match goal with |- context [Z.testbit ?x i] => destruct (Z.testbit x i) end; reflexivity.
  - rewrite E. by apply u32_id.
Qed.

Lemma zget_app_r (l l' : list Z) i : 0 <= i -> zget 0 (l ++ l') (zlen l + i) = zget 0 l' i.
Proof.
  intros H. unfold zget, zlen. rewrite !(proj2 (Z.ltb_ge _ _)) by lia.
  rewrite app_nth2 by lia. f_equal. lia.
Qed.

Lemma byte_of_app l l' i b : 0 <= i -> l' !! Z.to_nat i = Some b -> byte_of (l ++ l') (zlen l + i) = Ret b.
Proof.
  intros H E. apply lookup_lt_Some in E as Hl.
  rewrite byte_of_ok by (unfold zlen in *; rewrite length_app; lia).
  rewrite zget_app_r by done. unfold zget. rewrite (proj2 (Z.ltb_ge _ _)) by lia.
  by rewrite (nth_lookup_Some _ _ _ _ E).
Qed.

Lemma byte_of_app0 l b l' : byte_of (l ++ b :: l') (zlen l) = Ret b.
Proof. rewrite <- (Z.add_0_r (zlen l)). by apply byte_of_app. Qed.

Lemma nvs_burst_parsed words pre post len dest wl :
  Forall (fun w => 0 <= w < 4294967296) words ->
  zlen pre + 4 * zlen words <= len -> 0 <= dest -> dest + 4 * zlen words < 4294967296 ->
  exists r, nvs_burst (length words) (pre ++ concat (le_bytes 4 <$> words) ++ post) len (zlen pre) dest wl
            = Ret r
    /\ parsed wl r (zlen pre + 4 * zlen words) (word_writes wl dest words).
Proof.
  revert pre dest wl. induction words as [|w words IH]; intros pre dest wl Hw Hl Hd Ht; cbn [length nvs_burst].
  { eexists. split; [reflexivity|]. left. exists wl. split; [f_equal; unfold zlen; simpl; lia|]. by split. }
  apply Forall_cons in Hw as [Hw Hws].
  assert (zlen (w :: words) = zlen words + 1) as Ez by (unfold zlen; simpl; lia). rewrite Ez in *.
  pose proof (zlen_nonneg words) as Hn. pose proof (zlen_nonneg pre) as Hp.
  rewrite (proj2 (Z.leb_gt _ _)) by lia.
  destruct (word_bytes_value w Hw) as (b0 & b1 & b2 & b3 & Eb & Ev).
  cbn [fmap list_fmap concat]. rewrite Eb. cbn [app].
  rewrite byte_of_app0. cbn [obind]. rewrite (byte_of_app pre _ 1 b1) by done. cbn [obind].
  rewrite (byte_of_app pre _ 2 b2) by done. cbn [obind].
  rewrite (byte_of_app pre _ 3 b3) by done. cbn [obind]. rewrite Ev.
  pose proof (raw_write32_sends (wlcore_translate_addr wl dest) w _ wl eq_refl) as S1.
  unfold wlcore_write32. destruct (wlcore_raw_write32 _ w wl) as [ret w1].
  destruct (Z.ltb_spec ret 0) as [Hr|Hr].
  { eexists. split; [done|]. right. do 2 eexists. split; [done|]. split; [done|].
    intros Q. destruct (sends_quiet _ _ _ _ S1 Q). simpl in *. lia. }
  rewrite u32_id by lia.
  destruct (IH (pre ++ [b0; b1; b2; b3]) (dest + 4) w1 Hws) as (r & R & P).
  1, 2, 3: unfold zlen in *; rewrite ?length_app; simpl; lia.
  assert (zlen (pre ++ [b0; b1; b2; b3]) = zlen pre + 4) as Ep.
  { unfold zlen. rewrite length_app. simpl. lia. }
  rewrite Ep in R, P. rewrite <- app_assoc in R. cbn [app] in R. rewrite R. exists r. split; [done|].
  assert (bursts_done wl [EvWrite (wlcore_translate_addr wl dest) (le_bytes 4 w)] w1) as D1.
  { destruct S1 as [Q _ L Pt B H]. simpl in *. rewrite u32_id in L by done.
    split; [by apply L | by apply Pt | done | done | by intros X; apply Q]. }
  destruct P as [(w2 & -> & D2)|(ret' & w2 & -> & Hr' & Q)].
  - left. exists w2. split; [f_equal; lia|]. rewrite word_writes_cons.
    eapply bursts_done_trans; [exact D1|].
    assert (word_writes w1 (dest + 4) words = word_writes wl (dest + 4) words) as <-; [|exact D2].
    unfold word_writes. f_equal. apply imap_ext. intros i x _. f_equal.
    apply translate_part. apply D1.
  - right. do 2 eexists. split; [done|]. split; [done|]. intros X. by apply Q, D1.
Qed.

Lemma burst_addr a : 0 <= a < 65536 ->
  Z.lor (Z.land (Z.land a 255) 0xfe) (u32 (Z.shiftl (Z.shiftr a 8) 8)) = 2 * (a / 2).
Proof.
  intros H. rewrite u32_id.
  2: { rewrite Z.shiftr_div_pow2, Z.shiftl_mul_pow2 by lia.
       change (2 ^ 8) with 256. pose proof (Z_div_mod_eq_full a 256).
       pose proof (Z.mod_pos_bound a 256 eq_refl).
       assert (0 <= a / 256) by (apply Z.div_pos; lia). lia. }
  replace (2 * (a / 2)) with (Z.shiftl (Z.shiftr a 1) 1)
    by (rewrite Z.shiftr_div_pow2, Z.shiftl_mul_pow2 by lia; change (2 ^ 1) with 2; lia).
  apply Z.bits_inj'. intros i Hi. rewrite Z.lor_spec, !Z.land_spec.
  assert (Z.testbit (Z.shiftl (Z.shiftr a 1) 1) i = negb (i =? 0) && Z.testbit a i) as ->.
  { destruct (Z.eqb_spec i 0) as [->|]; [by rewrite Z.shiftl_spec_low|].
    rewrite Z.shiftl_spec, Z.shiftr_spec by lia. simpl. f_equal. lia. }
  destruct (Z.lt_ge_cases i 8) as [L|L].
  - rewrite Z.shiftl_spec_low by done. rewrite orb_false_r.
    assert (i = 0 \/ i = 1 \/ i = 2 \/ i = 3 \/ i = 4 \/ i = 5 \/ i = 6 \/ i = 7) as C by lia.
    decompose [or] C; subst i; cbn; by rewrite ?andb_true_r, ?andb_false_r.
  - rewrite Z.shiftl_spec, Z.shiftr_spec by lia. replace (i - 8 + 8) with i by lia.
    rewrite (Z.bits_above_log2 255 i) by (simpl; lia). rewrite andb_false_r.
    by rewrite (proj2 (Z.eqb_neq i 0)) by lia.
Qed.

Lemma zlen_words ws : zlen (concat (le_bytes 4 <$> ws)) = 4 * zlen ws.
Proof.
  induction ws as [|w ws IH]; [done|]. cbn [fmap list_fmap concat]. rewrite zlen_app, IH.
  unfold zlen. rewrite length_le_bytes. simpl length. lia.
Qed.

Lemma zlen_burst b : zlen (nvs_burst_bytes b) = 3 + 4 * zlen (snd b).
Proof. unfold nvs_burst_bytes. by rewrite zlen_app, zlen_words. Qed.

(** One burst of the list: its words, then on behind it. *)
Lemma nvs_bursts_cons fuel pre a ws tail len wl :
  nvs_burst_ok (a, ws) -> 0 <= part_start (part_reg (curr_part wl)) ->
  part_start (part_reg (curr_part wl)) + 0x20000 < 4294967296 ->
  zlen (pre ++ nvs_burst_bytes (a, ws)) < len ->
  exists r, parsed wl r (zlen (pre ++ nvs_burst_bytes (a, ws))) (burst_writes wl (a, ws))
    /\ nvs_bursts (S fuel) (pre ++ nvs_burst_bytes (a, ws) ++ tail) len (zlen pre) wl
       = match r with
         | NvsNext p w => nvs_bursts fuel (pre ++ nvs_burst_bytes (a, ws) ++ tail) len p w
         | _ => Ret r
         end.
Proof.
  intros (Ha & Hn & Hw) Hr1 Hr2 Hl. cbn [fst snd] in *. cbn [nvs_bursts].
  assert (0 <= 2 * (a / 2) <= a) as H2 by (pose proof (Z_div_mod_eq_full a 2); pose proof (Z.mod_pos_bound a 2 eq_refl); lia).
  rewrite zlen_app, zlen_burst in *. cbn [snd] in *.
  set (pre3 := pre ++ [zlen ws; Z.land a 255; Z.shiftr a 8]).
  assert (zlen pre3 = zlen pre + 3) as Z3 by (unfold pre3; by rewrite zlen_app).
  assert (pre ++ nvs_burst_bytes (a, ws) ++ tail = pre3 ++ concat (le_bytes 4 <$> ws) ++ tail) as E3
    by (unfold pre3, nvs_burst_bytes; rewrite <- !app_assoc; done).
  set (reg := part_start (part_reg (curr_part wl))) in *.
  destruct (nvs_burst_parsed ws pre3 tail len (reg + 2 * (a / 2)) wl Hw) as (r & R & P); [lia..|].
  exists r. split; [by rewrite Z3 in P; rewrite Z.add_assoc|].
  change (pre ++ nvs_burst_bytes (a, ws) ++ tail)
    with (pre ++ zlen ws :: Z.land a 255 :: Z.shiftr a 8 :: concat (le_bytes 4 <$> ws) ++ tail) at 1 2 3.
  rewrite byte_of_app0. cbn [obind]. rewrite (proj2 (Z.eqb_neq _ _)) by lia.
  rewrite (byte_of_app pre _ 1 (Z.land a 255)) by done. cbn [obind].
  rewrite (byte_of_app pre _ 2 (Z.shiftr a 8)) by done. cbn [obind].
  rewrite burst_addr by done. rewrite (u32_id (_ + reg)) by lia. rewrite (Z.add_comm _ reg).
  replace (Z.to_nat (zlen ws)) with (length ws) by (unfold zlen; lia).
  rewrite E3, <- Z3, R. cbn [obind]. destruct r as [p w| |]; [|done|done].
  destruct P as [(w1 & [= -> ->] & D1)|(? & ? & ? & _)]; [|done].
  by rewrite (proj2 (Z.leb_gt _ _)) by lia.
Qed.

Lemma bursts_writes_part wl wl' bs : curr_part wl' = curr_part wl ->
  bursts_writes wl' bs = bursts_writes wl bs.
Proof.
  intros E. unfold bursts_writes. f_equal. f_equal. apply list_fmap_ext. intros _ b _.
  unfold burst_writes, word_writes. rewrite E. f_equal. apply imap_ext.
  intros i x _. f_equal. by apply translate_part.
Qed.

Lemma nvs_bursts_parsed bs pre post len wl fuel :
  Forall nvs_burst_ok bs -> zlen pre + zlen (concat (nvs_burst_bytes <$> bs)) < len ->
  0 <= part_start (part_reg (curr_part wl)) ->
  part_start (part_reg (curr_part wl)) + 0x20000 < 4294967296 ->
  (length bs < fuel)%nat ->
  exists r, nvs_bursts fuel (pre ++ concat (nvs_burst_bytes <$> bs) ++ 0 :: post) len (zlen pre) wl = Ret r
    /\ parsed wl r (zlen pre + zlen (concat (nvs_burst_bytes <$> bs))) (bursts_writes wl bs).
Proof.
  revert pre wl fuel. induction bs as [|[a ws] bs IH]; intros pre wl fuel Hb Hl Hr1 Hr2 Hf;
    destruct fuel as [|fuel]; try (simpl in Hf; lia); cbn [fmap list_fmap concat app] in *.
  { cbn [nvs_bursts]. rewrite byte_of_app0. cbn [obind]. eexists. split; [reflexivity|]. left. exists wl.
    split; [f_equal; unfold zlen; simpl; lia | by split]. }
  apply Forall_cons in Hb as [Hb1 Hb]. rewrite <- app_assoc, zlen_app, Z.add_assoc, <- zlen_app in *.
  pose proof (zlen_nonneg (concat (nvs_burst_bytes <$> bs))).
  destruct (nvs_bursts_cons fuel pre a ws (concat (nvs_burst_bytes <$> bs) ++ 0 :: post) len wl Hb1 Hr1 Hr2)
    as (r & P & ->); [lia|].
  destruct P as [(w1 & -> & D1)|(ret & w1 & -> & Hret & Q)].
  2: { eexists. split; [done|]. right. by do 2 eexists. }
  rewrite app_assoc. destruct (IH (pre ++ nvs_burst_bytes (a, ws)) w1 fuel Hb) as (r & -> & P);
    [lia | by rewrite (bd_part _ _ _ D1) | by rewrite (bd_part _ _ _ D1) | simpl in Hf; lia|].
  exists r. split; [done|].
  destruct P as [(w2 & -> & D2)|(ret' & w2 & -> & Hr' & Q)].
  - left. exists w2. split; [done|]. unfold bursts_writes. cbn [fmap list_fmap rev].
    rewrite concat_app. cbn [concat]. rewrite app_nil_r. eapply bursts_done_trans; [exact D1|].
    pose proof (bursts_writes_part wl w1 bs (bd_part _ _ _ D1)) as E. by rewrite E in D2.
  - right. do 2 eexists. split; [done|]. split; [done|]. intros X. by apply Q, D1.
Qed.

(** ** The upload of a well-formed file *)

(** The tables behind the bursts [bs] of [file]. *)
Definition nvs_tables_offset (bs : list (Z * list Z)) : Z :=
  ALIGN (zlen (concat (nvs_burst_bytes <$> bs)) + 7) 4.
Definition nvs_tables (file : list Z) (bs : list (Z * list Z)) : list Z :=
  take (Z.to_nat (WL1271_INI_NVS_SECTION_SIZE - nvs_tables_offset bs))
    (drop (Z.to_nat (nvs_tables_offset bs)) file).

(** Everything the upload writes, the latest first. *)
Definition nvs_writes (wl : wl1271) (file : list Z) (bs : list (Z * list Z)) : list event :=
  let work := wl <| curr_part := ptable_work (hw wl) |> in
  [EvWrite (wlcore_translate_addr work (rtable_cmd_mbox_address (boot wl))) (nvs_tables file bs)]
  ++ partition_writes (ptable_work (hw wl)) ++ bursts_writes wl bs.

Lemma nvs_tables_sends file bs wl p : p = zlen (concat (nvs_burst_bytes <$> bs)) ->
  nvs_tables_offset bs < WL1271_INI_NVS_SECTION_SIZE <= zlen file -> 
  let work := wl <| curr_part := ptable_work (hw wl) |> in
  exists m, nvs_upload_tables file WL1271_INI_NVS_SECTION_SIZE p wl = Ret m
    /\ sends wl m
         ([EvWrite (wlcore_translate_addr work (rtable_cmd_mbox_address (boot wl))) (nvs_tables file bs)]
          ++ partition_writes (ptable_work (hw wl))) (ptable_work (hw wl)).
Proof.
  intros -> Ho. cbv zeta. unfold nvs_upload_tables. cbv zeta. fold (nvs_tables_offset bs).
  rewrite (proj2 (Z.leb_gt _ _)) by lia.
  pose proof (set_partition_sends (ptable_work (hw wl)) wl) as S1.
  assert (0 <= nvs_tables_offset bs) as H0.
  { unfold nvs_tables_offset, ALIGN. apply Z.land_nonneg. left. apply u32_range. }
  rewrite memcpy_ok by (rewrite zlen_drop; lia). cbn [obind]. fold (nvs_tables file bs).
  destruct (wlcore_set_partition _ wl) as [ret w]. eexists (check (ret, w) _). split.
  - unfold check. split_if; [reflexivity|]. instantiate (1 := fun w => wlcore_write _ _ w). reflexivity.
  - eapply sends_check; [exact S1|]. intros w' B H P. rewrite B.
    rewrite <- (translate_part _ w'); [by apply write_sends|]. by rewrite P.
Qed.

Lemma bursts_count bs : Forall nvs_burst_ok bs -> zlen bs <= zlen (concat (nvs_burst_bytes <$> bs)).
Proof.
  induction 1 as [|b bs Hb _ IH]; [done|]. cbn [fmap list_fmap concat]. rewrite zlen_app, zlen_burst.
  pose proof (zlen_nonneg (snd b)). unfold zlen in *. simpl length. lia.
Qed.

Lemma nvs_upload_writes wl file file' bs post :
  nvs (boot wl) = Some file -> nvs_len (boot wl) = zlen file -> nvs_accepted file wl = true ->
  nvs_put_mac nvs_mac_offsets (zget [] (addresses (boot wl)) 0) file = Ret file' ->
  file' = concat (nvs_burst_bytes <$> bs) ++ 0 :: post -> Forall nvs_burst_ok bs ->
  nvs_tables_offset bs < WL1271_INI_NVS_SECTION_SIZE ->
  0 <= part_start (part_reg (curr_part wl)) ->
  part_start (part_reg (curr_part wl)) + 0x20000 < 4294967296 ->
  exists ret wl', wlcore_boot_upload_nvs wl = Ret (ret, wl')
    /\ (bus_quiet wl -> ret = 0) /\ (0 <= ret -> log wl' = nvs_writes wl file' bs ++ log wl).
Proof.
  intros N L A M F B O R1 R2. unfold wlcore_boot_upload_nvs. rewrite N.
  destruct (nvs_check_size_ok file wl L) as (w & [a ->] & ->). rewrite A. cbn [obind].
  set (w := upd_boot _ wl). change (addresses (boot w)) with (addresses (boot wl)).
  apply nvs_accepted_size in A. destruct (nvs_put_mac_ok file (zget [] (addresses (boot wl)) 0)) as (f & E & Z'); [lia|].
  rewrite M in E. injection E as <-. rewrite M. cbn [obind]. cbv zeta. set (w1 := upd_boot _ w).
  assert (zlen (concat (nvs_burst_bytes <$> bs)) < WL1271_INI_NVS_SECTION_SIZE - 7) as Hc.
  { unfold nvs_tables_offset, WL1271_INI_NVS_SECTION_SIZE in *.
    pose proof (zlen_nonneg (concat (nvs_burst_bytes <$> bs))) as H0.
    destruct (Z.lt_ge_cases (zlen (concat (nvs_burst_bytes <$> bs)) + 7) 468); [lia|].
    assert (zlen (concat (nvs_burst_bytes <$> bs)) + 7 < 5000).
    { rewrite F, zlen_app in Z'. pose proof (zlen_nonneg (0 :: post)). lia. }
    pose proof (ALIGN_spec 2 (zlen (concat (nvs_burst_bytes <$> bs)) + 7)) as S. change (2 ^ 2) with 4 in S. lia. }
  pose proof (bursts_count bs B) as Hn.
  destruct (nvs_bursts_parsed bs [] post WL1271_INI_NVS_SECTION_SIZE w1 (Z.to_nat WL1271_INI_NVS_SECTION_SIZE) B)
    as (r & R & P); [change (zlen []) with 0; lia | done | done | unfold zlen in *; lia|].
  cbn [app] in R. change (zlen []) with 0 in R, P. rewrite <- F in R. rewrite R. cbn [obind].
  destruct P as [(w2 & -> & D)|(ret & w2 & -> & Hret & Q)].
  - rewrite Z.add_0_l. destruct (nvs_tables_sends file' bs w2 _ eq_refl) as ([ret w3] & -> & S);
      [unfold WL1271_INI_NVS_SECTION_SIZE in *; lia|].
    do 2 eexists. split; [done|]. destruct D as [Dl Dp Db Dh Dq]. destruct S as [Sq _ Sl _ _ _].
    cbn [fst snd] in *.
    split; [intros X; by apply Sq, Dq|]. intros Hr. rewrite (Sl Hr), Dl. unfold nvs_writes. cbv zeta.
    rewrite Db, Dh. change (log w1) with (log wl).
    by rewrite <- !app_assoc.
  - do 2 eexists. split; [done|]. split; [intros X; by destruct Q | lia].
Qed.
