(* ===== verification/BootOrder.v ===== *)
(** * The order of the boot

    What the steps of the boot leave alone, and that the embedded CPU is
    started on a chip that holds the whole image. *)

From S2P Require Import Prelude WlState ChipOps Io Irq Scan Boot Boot12xx Boot18xx BootFacts NvsFacts.

(** ** Steps before the upload *)

(** What the upload and the start of the CPU depend on. *)
Definition boot_image (wl : wl1271) :=
  (fw (boot wl), ptable_down (boot wl), ptable_phy_init (boot wl), phy_params (boot wl),
   rtable_ecpu_control (boot wl), ptable_boot (hw wl)).

(** A step that only records events and keeps the image and its tables. *)
Record grows (wl wl' : wl1271) : Prop := {
  gr_log : exists l, log wl' = l ++ log wl;
  gr_nonpos : nonpos wl -> nonpos wl';
  gr_image : boot_image wl' = boot_image wl
}.

#[export] Instance grows_refl : Reflexive grows.
Proof. intros wl. split; [by exists [] | done | done]. Qed.

#[export] Instance grows_trans : Transitive grows.
Proof.
  intros a b c [[l L] N I] [[l' L'] N' I']. split; [|auto|congruence].
  exists (l' ++ l). by rewrite L', L, app_assoc.
Qed.

#[export] Instance grows_preorder : PreOrder grows.
Proof. split; apply _. Qed.

Create HintDb grow discriminated.
#[export] Hint Extern 0 (grows ?x ?x) => reflexivity : grow.

Lemma grows_step w0 w w' : grows w0 w -> grows w w' -> grows w0 w'.
Proof. apply transitivity. Qed.

Lemma grows_same wl wl' : log wl' = log wl -> bus wl' = bus wl -> boot_image wl' = boot_image wl ->
  grows wl wl'.
Proof. intros L B I. split; [by exists [] | unfold nonpos; by rewrite B | done]. Qed.

Lemma grows_bus e wl :
  let r := bus_next (emit e wl) in grows wl (note_io_failure (fst (fst r)) (snd r)).
Proof.
  cbv zeta. unfold bus_next. change (bus (emit e wl)) with (bus wl).
  destruct (bus wl) as [|[ret d] rest] eqn:B; cbn [fst snd];
    match goal with |- grows _ (note_io_failure ?r ?w) =>
      destruct (note_io_failure_fields r w) as (L & P & T & H & U) end;
    (split; [exists [e]; by rewrite L | | unfold boot_image; by rewrite T, H]);
    unfold nonpos; rewrite U, B; cbn; [by rewrite B|]. intros Q. by apply Forall_cons in Q as [_ Q].
Qed.

Lemma grows_raw_write w0 e wl : grows w0 wl -> grows w0 (snd (raw_write_as e wl)).
Proof.
  intros G. etrans; [exact G|]. unfold raw_write_as. split_if; [reflexivity|].
  pose proof (grows_bus e wl) as B. by destruct (bus_next _) as [[ret d] w].
Qed.

Lemma grows_raw_read w0 a n wl : grows w0 wl -> grows w0 (snd (wlcore_raw_read a n wl)).
Proof.
  intros G. etrans; [exact G|]. unfold wlcore_raw_read. split_if; [reflexivity|].
  pose proof (grows_bus (EvRead a n) wl) as B. by destruct (bus_next _) as [[ret d] w].
Qed.

Lemma grows_write32 w0 a v wl : grows w0 wl -> grows w0 (snd (wlcore_write32 a v wl)).
Proof. apply grows_raw_write. Qed.

Lemma grows_write w0 a v wl : grows w0 wl -> grows w0 (snd (wlcore_write a v wl)).
Proof. apply grows_raw_write. Qed.

Lemma grows_read32 w0 a wl : grows w0 wl -> grows w0 (snd (wlcore_read32 a wl)).
Proof.
  intros G. unfold wlcore_read32, wlcore_raw_read32.
  pose proof (grows_raw_read w0 (wlcore_translate_addr wl a) 4 wl G) as B.
  destruct (wlcore_raw_read _ 4 wl) as [[ret d] w]. by split_if.
Qed.

Lemma grows_check w0 m k : grows w0 (snd m) -> (forall w, grows w0 w -> grows w0 (snd (k w))) ->
  grows w0 (snd (check m k)).
Proof. intros M K. unfold check. destruct m as [ret w]. split_if; [done | by apply K]. Qed.

Lemma grows_check_read {A B} w0 (m : Z * A * wl1271) (err : Z -> wl1271 -> B * wl1271) k :
  grows w0 (snd m) -> (forall r w, grows w0 w -> grows w0 (snd (err r w))) ->
  (forall x w, grows w0 w -> grows w0 (snd (k x w))) -> grows w0 (snd (check_read m err k)).
Proof. intros M E K. unfold check_read. destruct m as [[ret x] w]. split_if; auto. Qed.

Lemma grows_set_partition w0 p wl : grows w0 wl -> grows w0 (snd (wlcore_set_partition p wl)).
Proof.
  intros G. rewrite set_partition_check.
  repeat (apply grows_check; [|intros ? ?]); (apply grows_raw_write; try done).
  etrans; [exact G|]. by apply grows_same.
Qed.

Lemma grows_add_quirk w0 q wl : grows w0 wl -> grows w0 (add_quirk q wl).
Proof. intros G. etrans; [exact G|]. by apply grows_same. Qed.

Lemma grows_emit w0 e wl : grows w0 wl -> grows w0 (emit e wl).
Proof. intros [[l L] N I]. split; [|done|done]. exists (e :: l). simpl. by rewrite L. Qed.

Lemma grows_if w0 (b : bool) w w' : grows w0 w -> grows w0 w' -> grows w0 (if b then w else w').
Proof. by destruct b. Qed.

#[export] Hint Resolve grows_if grows_emit grows_write32 grows_write grows_read32 grows_set_partition grows_add_quirk : grow.

(** Go through a sequence of accesses. *)
Ltac grow :=
  repeat match goal with
  | |- grows _ (snd (check _ _)) => apply grows_check; [|intros ? ?]
  | |- grows _ (snd (check_read _ _ _)) => apply grows_check_read; [|intros ? ? ?|intros ? ? ?]
  | |- grows _ (snd (_, _)) => cbn [snd]
  | |- grows _ (if ?b then _ else _) => destruct b
  | |- grows _ (snd (if ?b then _ else _)) => destruct b
  | |- grows _ (snd (match ?o with Some _ => _ | None => _ end)) => destruct o
  | |- grows ?w0 (snd (let '(_, _) := ?m in _)) =>
      let H := fresh "G" in
      assert (grows w0 (snd m)) as H; [|destruct m; cbn [snd] in H]
  | _ => cbv zeta; solve [auto with grow]
  | _ => progress cbv zeta
  end.

(** ** The 12xx steps *)

Lemma grows_top_write w0 a v wl : grows w0 wl -> grows w0 (snd (wl12xx_top_reg_write a v wl)).
Proof. intros G. unfold wl12xx_top_reg_write. grow. Qed.

Lemma grows_ocp_poll w0 n wl : grows w0 wl -> grows w0 (snd (ocp_poll n wl)).
Proof.
  revert wl. induction n as [|n IH]; intros wl G; cbn [ocp_poll]; grow.
Qed.
#[export] Hint Resolve grows_top_write grows_ocp_poll : grow.

Lemma grows_top_read w0 a wl : grows w0 wl -> grows w0 (snd (wl12xx_top_reg_read a wl)).
Proof. intros G. unfold wl12xx_top_reg_read. grow. destruct x as [v t]. grow. Qed.
#[export] Hint Resolve grows_top_read : grow.

Lemma grows_configure_pll w0 c wl : grows w0 wl -> grows w0 (snd (wl128x_configure_mcs_pll c wl)).
Proof. intros G. unfold wl128x_configure_mcs_pll, wl128x_manually_configure_mcs_pll. grow. Qed.
#[export] Hint Resolve grows_configure_pll : grow.

Lemma grows_use_fref w0 wl : grows w0 wl -> grows w0 (snd (wl128x_use_fref wl)).
Proof. intros G. unfold wl128x_use_fref, wl128x_is_fref_valid. grow. Qed.
#[export] Hint Resolve grows_use_fref : grow.

Lemma grows_switch_fref w0 wl : grows w0 wl -> grows w0 (snd (wl128x_switch_then_fref wl)).
Proof. intros G. unfold wl128x_switch_then_fref, wl128x_switch_tcxo_to_fref. grow. Qed.
#[export] Hint Resolve grows_switch_fref : grow.

Lemma grows_boot_clk w0 wl : grows w0 wl -> grows w0 (snd (wl128x_boot_clk wl)).
Proof. intros G. unfold wl128x_boot_clk, wl128x_is_tcxo_valid. grow. Qed.

Lemma grows_boot_clk_127x w0 wl : grows w0 wl -> grows w0 (snd (wl127x_boot_clk wl)).
Proof. intros G. unfold wl127x_boot_clk, wl127x_set_ref_clock. grow. Qed.

Lemma grows_soft_reset_poll w0 n wl : grows w0 wl -> grows w0 (snd (soft_reset_poll n wl)).
Proof. revert wl. induction n as [|n IH]; intros wl G; cbn [soft_reset_poll]; grow. Qed.
#[export] Hint Resolve grows_boot_clk grows_boot_clk_127x grows_soft_reset_poll : grow.

Lemma grows_pre_boot w0 n wl : grows w0 wl -> grows w0 (snd (wl12xx_pre_boot n wl)).
Proof. intros G. unfold wl12xx_pre_boot, wl1271_boot_soft_reset. grow. Qed.

Lemma grows_pre_upload w0 wl : grows w0 wl -> grows w0 (snd (wl12xx_pre_upload wl)).
Proof. intros G. unfold wl12xx_pre_upload. grow. Qed.

(** ** The NVS upload *)

Lemma grows_nvs_check file wl bad w : nvs_check_size file wl = Ret (bad, w) ->
  grows wl w /\ (forall m, bad = Some m -> grows wl (snd m)).
Proof.
  assert (forall i w', nvs_dual_mode file i wl = Ret w' -> grows wl w') as D.
  { intros i w'. unfold nvs_dual_mode. destruct (byte_of file i) as [b| |]; [|done|done]. cbn [obind].
    intros [= <-]. split_if; [reflexivity | by apply grows_same]. }
  assert (forall w', grows wl w' -> grows wl (snd (nvs_bad_size w'))) as B.
  { intros w' G. etrans; [exact G|]. by apply grows_same. }
  unfold nvs_check_size. cbv zeta. destruct (has_quirk wl _).
  - destruct (_ || _).
    + destruct (nvs_dual_mode _ _ wl) as [w'| |] eqn:N; [|done|done]. cbn [obind]. apply D in N.
      split_if; intros [= <- <-]; (split; [done|]); intros m; [intros [= <-]; by apply B | done].
    + cbn [obind]. split_if; intros [= <- <-]; (split; [reflexivity|]); intros m; [intros [= <-]; by apply B | done].
  - split_if.
    + destruct (nvs_dual_mode _ _ wl) as [w'| |] eqn:N; [|done|done]. cbn [obind].
      intros [= <- <-]. split; [by apply D in N | done].
    + intros [= <- <-]. split; [reflexivity|]. intros m [= <-]. by apply B.
Qed.

Lemma grows_upload_nvs wl m : wlcore_boot_upload_nvs wl = Ret m -> grows wl (snd m).
Proof.
  unfold wlcore_boot_upload_nvs. destruct (nvs (boot wl)) as [file|]; [|by intros [= <-]].
  destruct (nvs_check_size file wl) as [[bad w]| |] eqn:C; [|done|done]. cbn [obind].
  apply grows_nvs_check in C as [C B]. destruct bad as [m'|]; [intros [= <-]; by apply B|].
  destruct (nvs_put_mac _ _ file) as [file'| |]; [|done|done]. cbn [obind]. cbv zeta.
  set (w1 := upd_boot _ w). assert (grows wl w1) as C1 by (etrans; [exact C | by apply grows_same]).
  destruct (nvs_bursts _ file' _ 0 w1) as [r| |] eqn:R; [|done|done]. cbn [obind].
  assert (grows wl (nvs_res_wl r)) as C2.
  { etrans; [exact C1|]. eapply (nvs_bursts_frame grows); [|exact R].
    intros a v w'. by apply grows_write32. }
  destruct r as [p w2|w2|ret w2]; cbn [nvs_res_wl] in C2; [|by intros [= <-]..].
  unfold nvs_upload_tables. cbv zeta. split_if; [by intros [= <-]|].
  pose proof (grows_set_partition wl (ptable_work (hw w2)) w2 C2) as C3.
  destruct (wlcore_set_partition _ w2) as [ret w3]. cbn [snd] in C3.
  split_if; [by intros [= <-]|]. destruct (memcpy_from _ _) as [d| |]; [|done|done]. cbn [obind].
  intros [= <-]. by apply grows_write.
Qed.

(** ** The 18xx steps *)

Lemma grows_18xx_top_write w0 a v wl : grows w0 wl -> grows w0 (snd (wl18xx_top_reg_write a v wl)).
Proof. intros G. unfold wl18xx_top_reg_write. grow. Qed.
#[export] Hint Resolve grows_18xx_top_write : grow.

Lemma grows_18xx_top_read w0 a wl : grows w0 wl -> grows w0 (snd (wl18xx_top_reg_read a wl)).
Proof.
  intros G. unfold wl18xx_top_reg_read. repeat split_if; [exact G|..];
    (match goal with |- context [wlcore_read32 ?b wl] => pose proof (grows_read32 w0 b wl G) as H;
       destruct (wlcore_read32 b wl) as [[r x] w] end); exact H.
Qed.

Lemma grows_18xx_pll w0 c wl : grows w0 wl -> grows w0 (snd (wl18xx_set_pll c wl)).
Proof. intros G. unfold wl18xx_set_pll. grow. Qed.

(** A step that can fault. *)
Lemma ocheck_ret m k r : ocheck m k = Ret r -> 0 <= fst r ->
  exists ret w, m = Ret (ret, w) /\ 0 <= ret /\ k w = Ret r.
Proof.
  unfold ocheck. destruct m as [[ret w]| |]; [|done|done]. cbn [obind].
  destruct (Z.ltb_spec ret 0) as [H|H]; [intros [= <-] X; simpl in X; lia|]. intros E _. eauto.
Qed.

Lemma grows_18xx_pre_boot wl m : wl18xx_pre_boot wl = Ret m -> 0 <= fst m -> grows wl (snd m).
Proof.
  intros E H. apply ocheck_ret in E as (r1 & w1 & E1 & H1 & [= <-]); [|done].
  assert (grows wl w1) as G1.
  { unfold wl18xx_set_clk in E1. apply ocheck_ret in E1 as (r0 & w0 & [= E0] & H0 & E1); [|done].
    assert (grows wl w0) as G0.
    { pose proof (grows_set_partition wl (ptable_top_prcm_elp_soc (boot wl)) wl) as G. rewrite E0 in G. by apply G. }
    pose proof (grows_18xx_top_read wl PRIMARY_CLK_DETECT w0 G0) as G.
    unfold check_read in E1. destruct (wl18xx_top_reg_read _ w0) as [[r x] w]. cbn [snd] in G.
    destruct (r <? 0); [injection E1 as <- <-; done|].
    destruct (wl18xx_clk_table !! _) as [c|]; [|done]. injection E1 as E1.
    pose proof (grows_18xx_pll wl c w G) as G'. by rewrite E1 in G'. }
  clear E1. unfold wl18xx_boot_soft_reset. grow.
Qed.

Lemma grows_18xx_pre_upload w0 wl : grows w0 wl -> grows w0 (snd (wl18xx_pre_upload wl)).
Proof.
  intros G. unfold wl18xx_pre_upload. repeat (apply grows_check; [auto with grow|intros ? ?]).
  apply grows_check_read; [auto with grow|by intros|]. intros x w' G'.
  pose proof (grows_read32 w0 WL18XX_SCR_PAD2 w' G') as R.
  by destruct (wlcore_read32 _ w') as [[r y] w2].
Qed.

(** ** Starting the CPU *)

(** More events, the latest first. *)
Definition extends (wl wl' : wl1271) : Prop := exists l, log wl' = l ++ log wl.

#[export] Instance extends_refl : Reflexive extends.
Proof. intros wl. by exists []. Qed.

#[export] Instance extends_trans : Transitive extends.
Proof. intros a b c [l L] [l' L']. exists (l' ++ l). by rewrite L', L, app_assoc. Qed.

Lemma grows_extends wl wl' : grows wl wl' -> extends wl wl'.
Proof. by intros [? _ _]. Qed.

Lemma io_extends wl wl' : io_frame wl wl' -> extends wl wl'.
Proof. intros [_ _ (l & L & _) _]. by exists l. Qed.

(** What the lower driver's hooks may do. *)
Class wlcore_boot_laws (bops : wlcore_boot_ops) : Prop := {
  identify_fw_extends f wl : identify_fw = Some f -> extends wl (snd (f wl));
  handle_static_data_extends f d wl m :
    handle_static_data = Some f -> f d wl = Ret m -> extends wl (snd m)
}.

#[export] Instance wl12xx_boot_laws : wlcore_boot_laws wl12xx_boot_ops.
Proof.
  split; [|done]. intros f wl [= <-]. apply grows_extends. unfold wl12xx_identify_fw. cbv zeta. cbn [snd].
  auto with grow.
Qed.

#[export] Instance wl18xx_boot_laws : wlcore_boot_laws wl18xx_boot_ops.
Proof.
  split; [done|]. intros f d wl m [= <-]. unfold wl18xx_handle_static_data.
  destruct (strncpy _ _) as [s| |]; [|done|done]. cbn [obind]. intros [= <-]. by exists [].
Qed.

(** The bus address of the CPU control register, in the boot partition. *)
Definition ecpu_addr (wl : wl1271) : Z :=
  wlcore_translate_addr (wl <| curr_part := ptable_boot (hw wl) |>) (rtable_ecpu_control (boot wl)).

Lemma check_ret m k : 0 <= fst (check m k) ->
  exists ret w, m = (ret, w) /\ 0 <= ret /\ check m k = k w.
Proof.
  unfold check. destruct m as [ret w]. destruct (Z.ltb_spec ret 0); [simpl; lia|]. eauto.
Qed.

Lemma check_read_ret {A} (m : Z * A * wl1271) k : 0 <= fst (check_read m pair k) ->
  exists ret x w, m = (ret, x, w) /\ 0 <= ret /\ check_read m pair k = k x w.
Proof.
  unfold check_read. destruct m as [[ret x] w]. destruct (Z.ltb_spec ret 0); [simpl; lia|]. eauto 6.
Qed.

Lemma grows_wait_init w0 n wl : grows w0 wl -> grows w0 (snd (boot_wait_init n wl)).
Proof. revert wl. induction n as [|n IH]; intros wl G; cbn [boot_wait_init]; grow. Qed.

Lemma read32_log a wl ret x w : wlcore_read32 a wl = (ret, x, w) -> 0 <= ret ->
  exists n b, log w = EvRead b n :: log wl.
Proof.
  unfold wlcore_read32, wlcore_raw_read32, wlcore_raw_read. destruct (flag wl _).
  { cbn. intros [= <- <- <-]. unfold EIO. lia. }
  set (b := wlcore_translate_addr wl a). unfold bus_next. change (bus (emit _ wl)) with (bus wl).
  destruct (bus wl) as [|[r d] rest]; cbv zeta; cbn [fst snd].
  - intros [= <- <- <-] _. by exists 4, b.
  - split_if; intros [= <- <- <-] H; [lia|]. exists 4, b.
    exact (proj1 (note_io_failure_fields r (emit (EvRead b 4) wl <| bus := rest |>))).
Qed.

(** The start of the CPU: the boot partition is set and the control register
    read and written. *)
Lemma start_cpu_writes wl ret w : boot_start_cpu wl = (ret, w) -> 0 <= ret ->
  exists x l1, log w
      = EvWrite (ecpu_addr wl) (le_bytes 4 (u32 (Z.lor x ECPU_CONTROL_HALT))) :: l1 ++ log wl
    /\ forall ch, chip_mem (replay l1 ch) = chip_mem ch.
Proof.
  intros E H. unfold boot_start_cpu in E.
  pose proof (set_partition_sends (ptable_boot (hw wl)) wl) as S1.
  assert (0 <= fst (ret, w)) as H' by done. rewrite <- E in H'.
  destruct (check_ret _ _ H') as (r1 & w1 & E1 & H1 & K1). rewrite E1 in S1. rewrite K1 in *. clear K1.
  unfold wl1271_boot_set_ecpu_ctrl in *.
  destruct (check_read_ret _ _ H') as (r3 & x & w3 & E3 & H3 & K3). rewrite E in K3.
  pose proof (read32_io_frame (rtable_ecpu_control (boot w1)) w1) as F. rewrite E3 in F. cbn [snd] in F.
  destruct (read32_log _ _ _ _ _ E3 H3) as (n & b & L3).
  pose proof (raw_write32_sends (wlcore_translate_addr w3 (rtable_ecpu_control (boot w3)))
    (Z.lor x ECPU_CONTROL_HALT) _ w3 eq_refl) as S4.
  unfold wlcore_write32 in K3. rewrite <- K3 in S4.
  pose proof (sends_log _ _ _ _ S4 H) as L4. pose proof (sends_log _ _ _ _ S1 H1) as L1.
  pose proof (sends_part _ _ _ _ S1 H1) as P1. pose proof (sends_boot _ _ _ _ S1) as B1. cbn [snd] in *.
  exists x, (EvRead b n :: partition_writes (ptable_boot (hw wl))).
  split; [|intros ch; cbn [replay fold_right chip_event]; apply replay_partition_mem].
  rewrite L4, L3, L1. unfold ecpu_addr.
  assert (boot w3 = boot wl) as -> by (io_field F boot; exact B1).
  assert (curr_part w3 = ptable_boot (hw wl)) as P3 by (io_field F curr_part; exact P1).
  by rewrite (translate_part (wl <| curr_part := ptable_boot (hw wl) |>) w3) by done.
Qed.

Lemma wait_ready_extends wl : extends wl (snd (boot_wait_ready wl)).
Proof.
  apply grows_extends. unfold boot_wait_ready.
  assert (forall w f, boot_image (upd_hw f w) = boot_image w -> grows wl w -> grows wl (upd_hw f w)) as U.
  { intros w f I G. etrans; [exact G|]. by apply grows_same. }
  pose proof (grows_wait_init wl). grow.
Qed.

Section Run.
Context `{laws : wlcore_ops_laws} `{blaws : wlcore_boot_laws}.

Lemma static_data_extends wl m : wlcore_boot_static_data wl = Ret m -> extends wl (snd m).
Proof.
  unfold wlcore_boot_static_data. cbv zeta. unfold check_read.
  pose proof (io_extends _ _ (read_io_frame (cmd_box_addr (hw wl))
    (STATIC_DATA_SIZE + static_data_priv_len (boot wl)) wl)) as X.
  destruct (wlcore_read _ _ wl) as [[ret d] w]. cbn [snd] in X. split_if; [by intros [= <-]|].
  unfold ocheck, wlcore_boot_parse_fw_ver. destruct (strncpy _ _) as [s| |]; [|done|done]. cbn [obind]. cbv zeta.
  destruct (scan_dotted _ _) as [v|]; [|intros [= <-]; etrans; [exact X|by exists []]].
  unfold wlcore_identify_fw. set (w1 := upd_boot _ (upd_boot _ w)).
  assert (extends wl w1) as X1 by (etrans; [exact X|by exists []]).
  assert (extends wl (snd (match identify_fw with Some f => f w1 | None => (0, w1) end))) as X2.
  { destruct identify_fw as [f|] eqn:I; [|done]. etrans; [exact X1|]. by apply identify_fw_extends. }
  destruct (match identify_fw with Some f => f w1 | None => (0, w1) end) as [r2 w2]. cbn [snd obind] in *.
  split_if; [by intros [= <-]|]. split_if; [by intros [= <-]|].
  unfold wlcore_handle_static_data. destruct handle_static_data as [f|] eqn:I; [|by intros [= <-]].
  intros R. etrans; [exact X2|]. eapply handle_static_data_extends; [exact I | exact R].
Qed.

Lemma unmask_extends wl : extends wl (snd (boot_unmask_events wl)).
Proof.
  unfold boot_unmask_events. cbv zeta. set (w := upd_boot _ wl). assert (extends wl w) as X by (by exists []).
  unfold wl1271_event_unmask, wl1271_acx_event_mbox_mask.
  pose proof (cmd_send_io_frame (CMD_EVENT_MBOX_MASK 0xffffffff (u32 (Z.lnot (event_mask (boot w))))) w) as F.
  apply io_extends in F. destruct (wl1271_cmd_send _ w) as [r1 w1]. cbn [snd] in F.
  assert (extends wl w1) as X1 by (by etrans). etrans; [exact X1|].
  apply grows_extends. grow.
Qed.

Lemma run_firmware_writes wl m : wlcore_boot_run_firmware wl = Ret m -> 0 <= fst m ->
  exists l2 x l1, log (snd m)
      = l2 ++ EvWrite (ecpu_addr wl) (le_bytes 4 (u32 (Z.lor x ECPU_CONTROL_HALT))) :: l1 ++ log wl
    /\ forall ch, chip_mem (replay l1 ch) = chip_mem ch.
Proof.
  unfold wlcore_boot_run_firmware. intros E H.
  apply ocheck_ret in E as (r1 & w1 & [= E1] & H1 & E); [|done].
  apply ocheck_ret in E as (r2 & w2 & [= E2] & H2 & E); [|done].
  apply ocheck_ret in E as (r3 & w3 & E3 & H3 & [= <-]); [|done].
  destruct (start_cpu_writes wl r1 w1 E1 H1) as (x & l1 & L1 & M).
  assert (extends w1 (snd (boot_unmask_events w3))) as [l2 L2].
  { etrans; [|apply unmask_extends]. apply static_data_extends in E3. cbn [snd] in E3.
    etrans; [|exact E3]. pose proof (wait_ready_extends w1) as X. by rewrite E2 in X. }
  exists l2, x, l1. split; [by rewrite L2, L1 | done].
Qed.

End Run.

(** ** The whole boot *)

(** The events of a boot: the image is in place when the CPU is started. *)
Definition started_loaded (wl wl' : wl1271) (loaded : gmap Z Z -> gmap Z Z) : Prop :=
  exists l2 x l1, log wl'
      = l2 ++ EvWrite (ecpu_addr wl) (le_bytes 4 (u32 (Z.lor x ECPU_CONTROL_HALT))) :: l1 ++ log wl
    /\ forall ch, exists m, chip_mem (replay l1 ch) = loaded m.

(** An upload, a step and the start of the CPU, in this order. *)
Lemma started_loaded_intro wl w3 w4 w5 w6 (P : gmap Z Z -> gmap Z Z) (Q : gmap Z Z -> gmap Z Z) l4 l5 :
  grows wl w3 -> log w4 = l4 ++ log w3 -> log w5 = l5 ++ log w4 ->
  (forall ch, chip_mem (replay l4 ch) = P (chip_mem ch)) ->
  (forall ch, chip_mem (replay l5 ch) = Q (chip_mem ch)) ->
  boot_image w5 = boot_image w3 ->
  (exists l2 x l1, log w6
      = l2 ++ EvWrite (ecpu_addr w5) (le_bytes 4 (u32 (Z.lor x ECPU_CONTROL_HALT))) :: l1 ++ log w5
    /\ forall ch, chip_mem (replay l1 ch) = chip_mem ch) ->
  forall w7, extends w6 w7 -> started_loaded wl w7 (fun m => Q (P m)).
Proof.
  intros [[l3 L3] _ I3] L4 L5 HP HQ I5 (l2 & x & l1 & L6 & M1) w7 [l7 L7].
  unfold started_loaded. assert (ecpu_addr w5 = ecpu_addr wl) as <-.
  { rewrite I3 in I5. unfold boot_image in I5. injection I5 as _ _ _ _ E1 E2. unfold ecpu_addr.
    rewrite E1, E2. by apply translate_part. }
  exists (l7 ++ l2), x, (l1 ++ l5 ++ l4 ++ l3). split.
  - rewrite L7, L6, L5, L4, L3. by rewrite <- !app_assoc.
  - intros ch. exists (chip_mem (replay l3 ch)). by rewrite !replay_app, M1, HQ, HP.
Qed.

Lemma image_of_boot wl wl' segs rest : boot_image wl' = boot_image wl ->
  fw (boot wl) = fw_image segs ++ rest -> image_ok (ptable_down (boot wl)) segs ->
  fw (boot wl') = fw_image segs ++ rest /\ image_ok (ptable_down (boot wl')) segs.
Proof. unfold boot_image. by intros [= -> -> _ _ _ _]. Qed.

(** The PHY parameters, written through their own window. *)
Lemma phy_sends wl : ptable_phy_init (boot wl) = wl18xx_part_phy_init (phy_params (boot wl)) ->
  0 < zlen (phy_params (boot wl)) <= HW_PARTITION_REGISTERS_ADDR ->
  let l := [EvWrite 0 (phy_params (boot wl))] ++ partition_writes (ptable_phy_init (boot wl)) in
  sends wl (wl18xx_set_mac_and_phy wl) l (ptable_phy_init (boot wl))
  /\ forall ch, chip_mem (replay l ch)
       = load_bytes (chip_mem ch) WL18XX_PHY_INIT_MEM_ADDR (phy_params (boot wl)).
Proof.
  intros E H. unfold HW_PARTITION_REGISTERS_ADDR in H. cbv zeta. split.
  - eapply sends_check; [apply set_partition_sends|]. intros w B Hh P. rewrite B.
    assert (wlcore_translate_addr w WL18XX_PHY_INIT_MEM_ADDR = 0) as <-; [|by apply write_sends].
    rewrite translate_mem; rewrite P, E; simpl; unfold WL18XX_PHY_INIT_MEM_ADDR; lia.
  - intros ch. rewrite replay_app.
    assert (windows (replay (partition_writes (ptable_phy_init (boot wl))) ch) (ptable_phy_init (boot wl))) as W
      by (apply replay_partition; rewrite E; simpl; unfold WL18XX_PHY_INIT_MEM_ADDR; lia).
    rewrite (window_write _ _ 0 _ (chip_mem ch) W); [|rewrite E; simpl; lia | lia | done |
      symmetry; apply replay_partition_mem].
    by rewrite E.
Qed.

Section Boot.
Context `{laws : wlcore_ops_laws} (segs : list (Z * list Z)) (rest : list Z) (wl : wl1271).
Hypothesis Hfw : fw (boot wl) = fw_image segs ++ rest.
Hypothesis Hok : image_ok (ptable_down (boot wl)) segs.
Hypothesis Hbus : nonpos wl.

(** The firmware upload inside a boot: done, whenever the boot goes on. *)
Lemma upload_in_boot w3 ret w4 : grows wl w3 -> wlcore_boot_upload_firmware w3 = Ret (ret, w4) ->
  0 <= ret -> exists l, log w4 = l ++ log w3 /\ boot w4 = boot w3 /\ hw w4 = hw w3
    /\ forall ch, chip_mem (replay l ch) = load_image segs (chip_mem ch).
Proof.
  intros G E H. destruct (image_of_boot wl w3 segs rest (gr_image _ _ G) Hfw Hok) as [Ef Ei].
  destruct (upload_firmware_spec segs rest w3 Ef Ei) as (m & E' & [_ N L B H4]).
  rewrite E in E'. injection E' as <-. destruct (N (gr_nonpos _ _ G Hbus)) as [R _]. cbn [fst snd] in *.
  destruct L as (l & L & M); [lia|]. by exists l.
Qed.

Lemma boot12_loaded polls m : wl12xx_boot polls wl = Ret m -> 0 <= fst m ->
  started_loaded wl (snd m) (load_image segs).
Proof.
  unfold wl12xx_boot. intros E H.
  apply ocheck_ret in E as (r1 & w1 & [= E1] & H1 & E); [|done].
  apply ocheck_ret in E as (r2 & w2 & E2 & H2 & E); [|done].
  apply ocheck_ret in E as (r3 & w3 & [= E3] & H3 & E); [|done].
  apply ocheck_ret in E as (r4 & w4 & E4 & H4 & E); [|done].
  apply ocheck_ret in E as (r5 & w5 & E5 & H5 & [= <-]); [|done].
  pose proof (grows_pre_boot wl polls wl) as G1. rewrite E1 in G1. specialize (G1 (reflexivity _)).
  apply grows_upload_nvs in E2. cbn [snd] in *. assert (grows wl w2) as G2 by (by etrans).
  pose proof (grows_pre_upload wl w2 G2) as G3. rewrite E3 in G3. cbn [snd] in G3.
  destruct (upload_in_boot w3 r4 w4 G3 E4 H4) as (l4 & L4 & B4 & W4 & M4).
  eapply (started_loaded_intro wl w3 w4 w4 w5 _ id l4 []); [exact G3 | exact L4 | done | exact M4 | done | | |].
  - unfold boot_image. by rewrite B4, W4.
  - by apply run_firmware_writes in E5.
  - apply grows_extends. unfold wl12xx_enable_interrupts.
    grow.
Qed.

Lemma boot18_loaded m : wl18xx_boot wl = Ret m -> 0 <= fst m ->
  ptable_phy_init (boot wl) = wl18xx_part_phy_init (phy_params (boot wl)) ->
  0 < zlen (phy_params (boot wl)) <= HW_PARTITION_REGISTERS_ADDR ->
  started_loaded wl (snd m)
    (fun mem => load_bytes (load_image segs mem) WL18XX_PHY_INIT_MEM_ADDR (phy_params (boot wl))).
Proof.
  unfold wl18xx_boot. intros E H Hp Hs.
  apply ocheck_ret in E as (r2 & w2 & E2 & H2 & E); [|done].
  apply ocheck_ret in E as (r3 & w3 & [= E3] & H3 & E); [|done].
  apply ocheck_ret in E as (r4 & w4 & E4 & H4 & E); [|done].
  apply ocheck_ret in E as (r5 & w5 & [= E5] & H5 & E); [|done].
  apply ocheck_ret in E as (r6 & w6 & E6 & H6 & [= <-]); [|done].
  apply grows_18xx_pre_boot in E2 as G2; [|done]. cbn [snd] in G2.
  pose proof (grows_18xx_pre_upload wl w2 G2) as G3. rewrite E3 in G3. cbn [snd] in G3.
  destruct (upload_in_boot w3 r4 w4 G3 E4 H4) as (l4 & L4 & B4 & W4 & M4).
  assert (ptable_phy_init (boot w4) = ptable_phy_init (boot wl) /\ phy_params (boot w4) = phy_params (boot wl))
    as [Ep Ey].
  { pose proof (gr_image _ _ G3) as I. unfold boot_image in I. rewrite B4. by injection I as _ _ -> -> _ _. }
  destruct (phy_sends w4) as [S5 M5]; [by rewrite Ep, Ey | by rewrite Ey |].
  rewrite E5 in S5. pose proof (sends_log _ _ _ _ S5 H5) as L5. cbn [snd] in L5. rewrite Ey in M5, L5.
  eapply (started_loaded_intro wl w3 w4 w5 w6 (load_image segs)
    (fun mem => load_bytes mem WL18XX_PHY_INIT_MEM_ADDR (phy_params (boot wl))) l4 _ G3 L4 L5 M4 M5).
  - unfold boot_image. by rewrite (sends_boot _ _ _ _ S5 : boot w5 = _), (sends_hw _ _ _ _ S5 : hw w5 = _), B4, W4.
  - by apply run_firmware_writes in E6.
  - apply grows_extends. unfold wl18xx_enable_interrupts.
    grow.
Qed.

End Boot.
