(* ===== verification/VersionFacts.v ===== *)
(** * Version strings and MAC addresses

    The version the firmware reports as text, and the MAC address in the NVS
    file. *)

From S2P Require Import Prelude WlState ChipOps Io Boot BootFacts NvsFacts.

(** ** Decimal numbers *)

Fixpoint dec_digits (fuel : nat) (x : Z) : list Z :=
  match fuel with
  | O => []
  | S fuel => (if x <? 10 then [] else dec_digits fuel (x / 10)) ++ [48 + x mod 10]
  end.

(** [printf("%u", x)]; ten digits are enough for 32 bits. *)
Definition dec (x : Z) : list Z := dec_digits 10 x.

Lemma dec_digits_ok fuel x c : c ∈ dec_digits fuel x -> isdigit c = true.
Proof.
  revert x. induction fuel as [|fuel IH]; intros x; cbn [dec_digits]; [by intros H%elem_of_nil|].
  rewrite elem_of_app, list_elem_of_singleton. intros [H| ->].
  - destruct (x <? 10); [by apply elem_of_nil in H | by apply (IH _ H)].
  - unfold isdigit. pose proof (Z.mod_pos_bound x 10 eq_refl).
    by rewrite !(proj2 (Z.leb_le _ _)) by lia.
Qed.

Lemma strtoull_app acc ds s :
  (forall c, c ∈ ds -> isdigit c = true) ->
  simple_strtoull acc (ds ++ s) = simple_strtoull (fold_left (fun a c => u64 (a * 10 + (c - 48))) ds acc) s.
Proof.
  revert acc. induction ds as [|d ds IH]; intros acc H; [done|]. cbn [app simple_strtoull fold_left].
  rewrite (H d) by (by left). apply IH. intros c Hc. apply H. by right.
Qed.

Lemma dec_value fuel x : 0 <= x < 10 ^ Z.of_nat fuel -> x < 18446744073709551616 -> (0 < fuel)%nat ->
  fold_left (fun a c => u64 (a * 10 + (c - 48))) (dec_digits fuel x) 0 = x.
Proof.
  revert x. induction fuel as [|fuel IH]; intros x Hx Hb Hf; [lia|]. cbn [dec_digits].
  rewrite fold_left_app. cbn [fold_left].
  assert (fold_left (fun a c => u64 (a * 10 + (c - 48)))
            (if x <? 10 then [] else dec_digits fuel (x / 10)) 0 = x / 10) as ->.
  { destruct (Z.ltb_spec x 10) as [L|L]; [simpl; symmetry; apply Z.div_small; lia|].
    assert (0 <= x / 10 < 10 ^ Z.of_nat fuel).
    { split; [apply Z.div_pos; lia|]. apply Z.div_lt_upper_bound; [lia|].
      rewrite Nat2Z.inj_succ, Z.pow_succ_r in Hx by lia. lia. }
    apply IH; [done| |].
    - assert (x / 10 <= x) by (apply Z.div_le_upper_bound; lia). lia.
    - destruct fuel; [|lia]. simpl in *. lia. }
  unfold u64, wrap. change (2 ^ 64) with 18446744073709551616.
  pose proof (Z_div_mod_eq_full x 10). rewrite Z.mod_small; lia.
Qed.

Definition ends_number (s : list Z) : Prop :=
  match s with c :: _ => isdigit c = false | [] => True end.

Lemma dec_cons x : exists d ds, dec x = d :: ds /\ isdigit d = true.
Proof.
  assert (dec x <> []) as N by (intros [_ H]%app_eq_nil; done).
  destruct (dec x) as [|d ds] eqn:E; [done|]. exists d, ds. split; [done|].
  apply (dec_digits_ok 10 x). unfold dec in E. rewrite E. by left.
Qed.

Lemma scan_dec x s : 0 <= x < 4294967296 -> ends_number s -> scan_unsigned (dec x ++ s) = Some (x, s).
Proof.
  intros Hx Hs. unfold scan_unsigned. destruct (dec_cons x) as (d & ds & E & Hd).
  assert (skip_spaces (dec x ++ s) = dec x ++ s) as ->.
  { rewrite E. cbn [app skip_spaces]. assert (isspace d = false) as ->; [|done].
    unfold isdigit, isspace in *. bool_to_prop. lia. }
  assert (simple_strtoull 0 (dec x ++ s) = (x, s)) as Es.
  { rewrite strtoull_app by (intros c; apply dec_digits_ok).
    unfold dec. rewrite dec_value by (simpl; lia). destruct s as [|c s]; [done|]. simpl in *. by rewrite Hs. }
  rewrite E in *. cbn [app] in *. by rewrite Hd, Es, u32_id.
Qed.

(** ** Versions *)

(** [printf("%u.%u...", ...)] *)
Fixpoint dotted (ver : list Z) : list Z :=
  match ver with
  | [] => []
  | [x] => dec x
  | x :: ver => dec x ++ 46 :: dotted ver
  end.

Lemma scan_dotted_dotted ver : ver <> [] -> Forall (fun x => 0 <= x < 4294967296) ver ->
  scan_dotted (length ver) (dotted ver) = Some ver.
Proof.
  intros N. induction ver as [|x ver IH]; [done|]. intros [Hx Hv]%Forall_cons.
  destruct ver as [|y ver]; cbn [length scan_dotted dotted].
  - rewrite <- (app_nil_r (dec x)). by rewrite scan_dec.
  - rewrite scan_dec by done. rewrite Z.eqb_refl. cbn [length scan_dotted dotted] in IH.
    by rewrite IH.
Qed.

Lemma dotted_ok ver c : c ∈ dotted ver -> isdigit c = true \/ c = 46.
Proof.
  induction ver as [|x ver IH]; [by intros H%elem_of_nil|].
  destruct ver as [|y ver]; cbn [dotted].
  - intros H. left. by apply dec_digits_ok in H.
  - rewrite elem_of_app, elem_of_cons. intros [H|[->|H]]; [left; by apply dec_digits_ok in H | by right | by apply IH].
Qed.

Lemma c_string_app l rest : (forall c, c ∈ l -> c <> 0) -> c_string (l ++ 0 :: rest) = l.
Proof.
  induction l as [|c l IH]; intros H; [done|]. cbn [app c_string].
  rewrite (proj2 (Z.eqb_neq _ _)) by (apply H; by left). f_equal. apply IH. intros x Hx. apply H. by right.
Qed.

Lemma dotted_no_nul ver c : c ∈ dotted ver -> c <> 0.
Proof. intros [H| ->]%dotted_ok; [|done]. intros ->. done. Qed.

(** The copy of a string that fits, as [strncpy] and the terminator leave it. *)
Lemma version_str s n : (length s < n)%nat ->
  zset (take n (s ++ replicate n 0)) (Z.of_nat n - 1) 0 = s ++ replicate (n - length s) 0.
Proof.
  intros H. rewrite take_app_ge, take_replicate by lia.
  rewrite (Nat.min_l (n - length s) n) by lia. unfold zset. rewrite (proj2 (Z.ltb_ge _ _)) by lia.
  rewrite insert_app_r_alt by lia. f_equal. apply insert_replicate.
Qed.

(** The version order of the check: the same chip, and the rest at least, the
    leftmost number deciding. *)
Fixpoint lex_le (min ver : list Z) : Prop :=
  match min, ver with
  | m :: min, v :: ver => m < v \/ (m = v /\ lex_le min ver)
  | _, _ => True
  end.

Definition version_accepted (min ver : list Z) : Prop :=
  match min, ver with
  | m :: min, v :: ver => m = v /\ lex_le min ver
  | _, _ => False
  end.

Lemma validate_spec wl m0 m1 m2 m3 m4 v0 v1 v2 v3 v4 :
  min_fw_ver (boot wl) = [m0; m1; m2; m3; m4] -> fw_ver (boot wl) = [v0; v1; v2; v3; v4] ->
  (wlcore_validate_fw_ver wl = 0 \/ wlcore_validate_fw_ver wl = - EINVAL)
  /\ (wlcore_validate_fw_ver wl = 0 <-> version_accepted [m0; m1; m2; m3; m4] [v0; v1; v2; v3; v4]).
Proof.
  intros M V. unfold wlcore_validate_fw_ver. rewrite M, V. cbv zeta.
  cbn [zget Z.ltb Z.to_nat nth FW_VER_CHIP FW_VER_IF_TYPE FW_VER_MAJOR FW_VER_SUBTYPE FW_VER_MINOR
       version_accepted lex_le].
  unfold zget, FW_VER_CHIP, FW_VER_IF_TYPE, FW_VER_MAJOR, FW_VER_SUBTYPE, FW_VER_MINOR. simpl.
  unfold EINVAL.
  repeat match goal with
  | |- context [if negb (?a =? ?b) then _ else _] => destruct (Z.eqb_spec a b); cbn [negb]
  | |- context [if ?a <? ?b then _ else _] => destruct (Z.ltb_spec a b)
  end; lia.
Qed.

(** ** The MAC address *)

Lemma mac_parts oui nic : 0 <= oui < 16777216 -> 0 <= nic < 16777216 ->
  let part x := Z.shiftl (u8 (Z.shiftr x 16)) 16 + Z.shiftl (u8 (Z.shiftr x 8)) 8 + u8 x in
  part oui = oui /\ part nic = nic.
Proof.
  intros Ho Hn. cbv zeta.
  assert (forall x, 0 <= x < 16777216 ->
    Z.shiftl (u8 (Z.shiftr x 16)) 16 + Z.shiftl (u8 (Z.shiftr x 8)) 8 + u8 x = x) as P; [|split; by apply P].
  intros x Hx. rewrite !Z.shiftr_div_pow2, !Z.shiftl_mul_pow2 by lia.
  change (2 ^ 16) with 65536. change (2 ^ 8) with 256.
  unfold u8, wrap. change (2 ^ 8) with 256.
  pose proof (Z_div_mod_eq_full x 256). pose proof (Z_div_mod_eq_full (x / 256) 256).
  assert (x / 256 / 256 = x / 65536) by (rewrite Z.div_div by lia; done).
  assert (0 <= x / 65536 < 256) by (split; [apply Z.div_pos; lia | apply Z.div_lt_upper_bound; lia]).
  rewrite (Z.mod_small (x / 65536)) by done. lia.
Qed.

Lemma byte_of_zset_eq l i b : 0 <= i < zlen l -> byte_of (zset l i b) i = Ret b.
Proof. intros H. rewrite byte_of_ok by (by rewrite zlen_zset). by rewrite zget_zset_eq. Qed.

Lemma byte_of_zset_ne l i j b : i <> j -> 0 <= j < zlen l -> byte_of (zset l i b) j = byte_of l j.
Proof. intros H Hj. rewrite !byte_of_ok by (by rewrite ?zlen_zset). by rewrite zget_zset_ne. Qed.

(** What is stored is what [wl1271_register_hw] reads back. *)
Lemma mac_nvs_stored oui nic file file' : 0 <= oui < 16777216 -> 0 <= nic < 16777216 -> 12 <= zlen file ->
  nvs_put_mac nvs_mac_offsets (mac_address oui nic) file = Ret file' ->
  nvs_mac_parts file' = Ret (oui, nic).
Proof.
  intros Ho Hn Hl. unfold nvs_mac_offsets, mac_address. cbn [nvs_put_mac].
  do 6 (rewrite poke_ok by (rewrite ?zlen_zset; lia); cbn [obind]). intros [= <-].
  destruct (mac_parts oui nic Ho Hn) as [Po Pn]. unfold nvs_mac_parts.
  repeat (match goal with
  | |- context [byte_of (zset ?l ?i ?b) ?i] => rewrite (byte_of_zset_eq l i b) by (rewrite ?zlen_zset; lia)
  | |- context [byte_of (zset ?l ?i ?b) ?j] =>
      rewrite (byte_of_zset_ne l i j b) by (rewrite ?zlen_zset; lia)
  end; cbn [obind]).
  rewrite Po, Pn. rewrite !u32_id by lia. done.
Qed.
