(* ===== verification/Driver.v ===== *)
(** * The driver as a reactive system

    What reaches the driver from outside: frames, station changes and the end
    of interfaces from mac80211, interrupts, and its own work items, recovery
    included.  Each request runs one entry
    point to its end (they take [wl->mutex], or [wl->wl_lock] for
    [wl1271_op_tx]), so a history of the driver is a sequence of requests.
    [reachable] collects the states such histories lead to, with the list of
    the buffers mac80211 has handed over. *)

From S2P Require Import Prelude Ieee80211 WlState ChipOps Io Queues LinkQueues.
From S2P Require Import PowerSave TxPath TxAllocFacts TxSched TxInv SchedFacts TxMoves.
From S2P Require Import TxPrep TxWork TxDone TxDoneFacts FwStatus Rx RxFacts Event.
From S2P Require Import EventFacts Irq Links LinksFacts BaFacts Iface IfaceFacts Recovery.
From S2P Require Import Keys KeysFacts Scan ScanFacts.

(** ** Accepting a frame, whole invariant *)

(** What [wl1271_op_tx] does: give the frame back, or queue it and tell others. *)
Lemma op_tx_cases skb wl :
  let hlid := wl12xx_tx_get_hlid wl (control_vif (skb_cb (skb_at wl skb))) skb
                (control_sta (skb_cb (skb_at wl skb))) in
  wl1271_op_tx skb wl = emit (EvFreeTxskb skb) wl \/
  exists r l, wl1271_op_tx skb wl
    = (enqueued hlid skb wl) <| queue_stop_reasons := r |> <| log := l |> /\
    completed_scans l = completed_scans (log wl).
Proof.
  cbv zeta. unfold wl1271_op_tx. cbv zeta. fold (ac_of wl skb).
  set (hlid := wl12xx_tx_get_hlid wl _ skb _). split_if; [by left|]. right.
  change (add_queue_count _ 1 _) with (enqueued hlid skb wl).
  change (log wl) with (log (enqueued hlid skb wl)). generalize (enqueued hlid skb wl). intros w.
  set (w2 := if _ && _ then wlcore_stop_queue_locked _ _ w else w).
  assert (exists r l, w2 = w <| queue_stop_reasons := r |> <| log := l |> /\
    completed_scans l = completed_scans (log w)) as (r & l & -> & C).
  { unfold w2. split_if; [|exists (queue_stop_reasons w), (log w); by destruct w].
    match goal with |- context [wlcore_stop_queue_locked ?q ?r w] =>
      pose proof (stop_queue_count ev_completes q r w completes_deaf) as C;
      destruct (stop_queue_frame q r w) as (x & l & F) end.
    rewrite F in *. by exists x, l. }
  split_if; [by exists r, (EvQueueTxWork :: l) | by exists r, l].
Qed.

Lemma enqueued_member hlid skb wl h q s : counts_ok wl -> is_link hlid ->
  s ∈ link_queue (enqueued hlid skb wl) h q -> s = skb \/ s ∈ link_queue wl h q.
Proof.
  intros C Hh. unfold enqueued, skb_queue_tail.
  change (link_queue (add_queue_count ?a 1 ?w)) with (link_queue w).
  rewrite (link_queue_set _ _ _ _ _ _ _ C Hh); [|apply get_queue_range].
  split_if; [|by right]. bool_to_prop. subst.
  intros [Hs|Hs]%elem_of_app; [by right|]. apply list_elem_of_singleton in Hs. by left.
Qed.

Lemma enqueued_backlog hlid skb wl : counts_ok wl ->
  backlog (enqueued hlid skb wl) = backlog wl + 1.
Proof.
  intros C. apply (backlog_shift _ _ (ac_of wl skb)); [apply get_queue_range|].
  intros q Hq. unfold enqueued, add_queue_count. simpl.
  rewrite zget_zset by (rewrite (co_counts _ _ C); apply get_queue_range).
  rewrite (Z.eqb_sym q). destruct (Z.eqb_spec (ac_of wl skb) q) as [<-|]; lia.
Qed.

Lemma op_tx_work skb wl :
  work_inv wl -> skb <> dummy_packet (hw wl) -> frame_fits wl skb -> from_listed wl skb ->
  copies skb wl = 0 ->
  let wl' := wl1271_op_tx skb wl in
  work_inv wl' /\ hw wl' = hw wl /\ backlog wl' <= backlog wl + 1 /\
  (forall s, s <> dummy_packet (hw wl) -> copies s wl' = copies s wl + is_skb s skb).
Proof.
  intros W Hnd Fit Hl C0. cbv zeta. pose proof (wi_inv _ W) as I.
  destruct (op_tx_spec skb wl I Hnd Hl) as (I' & Eh & Cp & Place).
  pose proof (op_tx_cases skb wl) as Cases. cbv zeta in *.
  set (hlid := wl12xx_tx_get_hlid wl _ skb _) in *.
  assert (skbs (wl1271_op_tx skb wl) = skbs wl /\ aggr_buf (wl1271_op_tx skb wl) = aggr_buf wl /\
    tx_frames (wl1271_op_tx skb wl) = tx_frames wl /\ state (wl1271_op_tx skb wl) = state wl /\
    backlog (wl1271_op_tx skb wl) <= backlog wl + 1 /\
    (forall h q s, s ∈ link_queue (wl1271_op_tx skb wl) h q -> s = skb \/ s ∈ link_queue wl h q))
    as (Es & Eb & Ef & Et & B & Q).
  { destruct Cases as [->|(r & l & E & _)].
    - split_and!; try done; [|by right]. change (backlog wl <= backlog wl + 1). lia.
    - destruct Place as [[_ Hh]|E2].
      + rewrite E. split_and!; try done.
        * change (backlog (enqueued hlid skb wl) <= backlog wl + 1). rewrite enqueued_backlog by apply I. lia.
        * intros h q s Hs. apply (enqueued_member hlid skb); [apply I | done | exact Hs].
      + rewrite E2. split_and!; try done; [|by right]. change (backlog wl <= backlog wl + 1). lia. }
  set (w := wl1271_op_tx skb wl) in *. clearbody w. split_and!; try done.
  destruct W as [_ H2 H3 H4 H6 H7 H8 H9].
  split; rewrite ?Eh, ?Et, ?Eb; try done.
  - intros s Hs. rewrite Cp by done. unfold is_skb. case_bool_decide; [subst; lia|].
    specialize (H2 s Hs). lia.
  - by apply (fits_skbs wl).
  - intros h q s Hh Hq [->|Hin]%Q; apply (fits_skbs wl); try done. by eapply H4.
  - by apply (fw_vifs_same wl).
Qed.

Lemma op_tx_vifs skb wl : same_vifs wl (wl1271_op_tx skb wl).
Proof.
  pose proof (op_tx_cases skb wl) as Cases. cbv zeta in Cases.
  destruct Cases as [->|(r & l & -> & C)]; [by split|]. split; try done.
  unfold scans. simpl. by rewrite C.
Qed.

(** ** Requests *)

Section Driver.
Context `{ops : wlcore_ops} `{kops : key_ops}.

(** [completed] answers the wait for the chip's wake-up, as in PowerSave.v. *)
Inductive request :=
| OpTx (skb : nat)
| TxWork (completed : Z)
| Interrupt (completed : Z)
| NetstackWork
| TxWatchdog
| ElpWork
| OpStaState (wlvif : nat) (sta : ieee80211_sta) (old new : ieee80211_sta_state) (completed : Z)
| OpAmpduAction (wlvif : nat) (action : ieee80211_ampdu_mlme_action)
    (peer_hlid tid ssn completed : Z)
| RxStreamingEnable (wlvif : nat) (completed : Z)
| RxStreamingDisable (wlvif : nat) (completed : Z)
| TxFlush (rounds : list (Z * bool))
| OpRemoveInterface (wlvif : nat) (vifs : vif_counter_data) (completed : Z)
| OpStop
| RecoveryWork (completed : Z)
| OpSetKey (cmd : set_key_cmd) (wlvif : nat) (sta : option ieee80211_sta) (key : key_conf)
    (rounds : list (Z * bool)) (completed : Z)
| OpSetDefaultKeyIdx (wlvif : nat) (key_idx completed : Z)
| OpHwScan (wlvif : nat) (req : cfg80211_scan_request) (completed : Z)
| OpCancelHwScan (completed : Z)
| ScanCompleteWork (ap_probereq : option (list Z)) (completed : Z)
| OpSchedScanStart (wlvif : nat) (req : cfg80211_sched_scan_request) (ies : ieee80211_band -> list Z)
    (completed : Z)
| OpSchedScanStop (wlvif : nat) (completed : Z)
| StopQueues (reason : wlcore_queue_stop_reason)
| WakeQueues (reason : wlcore_queue_stop_reason).

(** More than the steps any loop can take: each pass of the transmit loop sends
    a frame or leaves, and an interrupt queues the dummy packet at most twice in
    each of its 256 passes. *)
Definition fuel_for (wl : wl1271) : nat := Z.to_nat (2 * (backlog wl + 512) + 2).

(** One flushing pass: whether the network stack's work item ran meanwhile. *)
Definition flush_round (r : Z * bool) : Z * (wl1271 -> wl1271) :=
  (fst r, if snd r then wl1271_netstack_work else fun wl => wl).

Definition serve (r : request) (wl : wl1271) : outcome wl1271 :=
  let fuel := fuel_for wl in
  match r with
  | OpTx skb => Ret (wl1271_op_tx skb wl)
  | TxWork completed => wl1271_tx_work fuel completed wl
  | Interrupt completed => wlcore_irq fuel completed wl
  | NetstackWork => Ret (wl1271_netstack_work wl)
  | TxWatchdog => Ret (wl12xx_tx_watchdog_work wl)
  | ElpWork => Ret (wl1271_elp_work wl)
  | OpStaState v sta old new c => Ret (snd (wl12xx_op_sta_state v sta old new c wl))
  | OpAmpduAction v a peer tid ssn c => Ret (snd (wl1271_op_ampdu_action v a peer tid ssn c wl))
  | RxStreamingEnable v c => Ret (wl1271_rx_streaming_enable_work v c wl)
  | RxStreamingDisable v c => Ret (wl1271_rx_streaming_disable_work v c wl)
  | TxFlush rounds => wl1271_tx_flush fuel (flush_round <$> rounds) wl
  | OpRemoveInterface v k c => wl1271_op_remove_interface fuel c k v wl
  | OpStop => Ret (wlcore_op_stop_locked wl)
  | RecoveryWork c => wl1271_recovery_work (length (wlvif_list wl)) fuel c wl
  | OpSetKey cmd v sta k rounds c =>
      let* (_, wl) := wlcore_op_set_key fuel (flush_round <$> rounds) c cmd v sta k wl in Ret wl
  | OpSetDefaultKeyIdx v i c => Ret (snd (wl1271_op_set_default_key_idx c v i wl))
  | OpHwScan v req c => let* (_, wl) := wl1271_op_hw_scan c v req wl in Ret wl
  | OpCancelHwScan c => Ret (wl1271_op_cancel_hw_scan c wl)
  | ScanCompleteWork p c => wl1271_scan_complete_work c p wl
  | OpSchedScanStart v req ies c => let* (_, wl) := wl1271_op_sched_scan_start c v req ies wl in Ret wl
  | OpSchedScanStop v c => Ret (wl1271_op_sched_scan_stop c v wl)
  | StopQueues reason => Ret (wlcore_stop_queues reason wl)
  | WakeQueues reason => Ret (wlcore_wake_queues reason wl)
  end.

(** What mac80211 and the kernel guarantee of a request: a frame is handed over
    once, belongs to a registered interface and fits the aggregation buffer;
    interface pointers are registered ones; an interface is not removed in the
    middle of a remain-on-channel; the device is stopped once its interfaces
    are gone; the recovery work only runs when it was queued, which is when the
    device left its running state; a scan has no more channels, SSIDs and filters
    than the driver has registered for. *)
Definition admissible (r : request) (wl : wl1271) : Prop :=
  match r with
  | OpTx skb => skb <> dummy_packet (hw wl) /\ frame_fits wl skb /\ from_listed wl skb /\
      copies skb wl = 0
  | OpStaState v _ _ _ _ => v ∈ wlvif_list wl
  | OpRemoveInterface v _ _ => no_dev_stop v wl
  | OpStop => wlvif_list wl = []
  | RecoveryWork _ => state wl <> WLCORE_STATE_ON /\ bug_on_recovery (hw wl) = false
  | OpHwScan _ req _ => zlen (req_channels req) <= WL1271_MAX_CHANNELS
  | OpSchedScanStart _ req _ _ => sched_req_ok req
  | _ => True
  end.

(** The buffers a request hands to the driver. *)
Definition handed (r : request) : list nat := match r with OpTx skb => [skb] | _ => [] end.

(** Whether a request starts a scan, and whether it drops one. *)
Definition accepts (r : request) (wl : wl1271) : Z :=
  match r with
  | OpHwScan v req c => match wl1271_op_hw_scan c v req wl with Ret (0, _) => 1 | _ => 0 end
  | _ => 0
  end.

Definition drops (r : request) (wl : wl1271) : Z :=
  match r with ScanCompleteWork _ c => lost_scan c wl | _ => 0 end.

(** What a history has asked of the driver: the buffers handed over, the scans
    it accepted and those it dropped. *)
Record ledger := { given : list nat; accepted : Z; dropped : Z }.

Definition account (r : request) (wl : wl1271) (g : ledger) : ledger :=
  {| given := handed r ++ given g; accepted := accepted g + accepts r wl;
     dropped := dropped g + drops r wl |}.

Inductive reachable (wl0 : wl1271) : ledger -> wl1271 -> Prop :=
| reach_start : reachable wl0 {| given := []; accepted := 0; dropped := 0 |} wl0
| reach_step g wl r wl' :
    reachable wl0 g wl -> admissible r wl -> serve r wl = Ret wl' ->
    reachable wl0 (account r wl g) wl'.

End Driver.

(** ** Every request keeps the invariant and returns *)

Lemma netstack_keeps wl : work_inv wl -> work_keeps wl (wl1271_netstack_work wl).
Proof.
  intros W. unfold wl1271_netstack_work. cbv zeta.
  destruct (flush_deferred_keeps wl W) as (K & _ & ->). exact K.
Qed.

Lemma tx_watchdog_keeps wl : work_inv wl -> work_keeps wl (wl12xx_tx_watchdog_work wl).
Proof.
  intros W. unfold wl12xx_tx_watchdog_work. cbv zeta. set (w := wl <| tx_watchdog_armed := false |>).
  assert (work_keeps wl w) as K by (by apply view_keeps). clearbody w.
  pose proof (work_keeps_trans _ _ _ K (rearm_watchdog_keeps w (wk_inv _ _ K))) as Kr.
  repeat (split_if; [done|]).
  eapply work_keeps_trans; [exact K | apply io_keeps; [apply K | apply queue_recovery_io_frame]].
Qed.

Lemma elp_work_keeps wl : work_inv wl -> work_keeps wl (wl1271_elp_work wl).
Proof.
  intros W. unfold wl1271_elp_work. cbv zeta. set (w := wl <| elp_work_queued := false |>).
  assert (work_keeps wl w) as K by (by apply view_keeps). clearbody w.
  repeat (split_if; [done|]).
  pose proof (raw_write32_io_frame HW_ACCESS_ELP_CTRL_REG ELPCTRL_SLEEP w) as F.
  destruct (wlcore_raw_write32 _ _ w) as [ret w2]. simpl in F.
  pose proof (work_keeps_trans _ _ _ K (io_keeps _ _ (wk_inv _ _ K) F)) as K2. split_if.
  - eapply work_keeps_trans; [exact K2 | apply io_keeps; [apply K2 | apply queue_recovery_io_frame]].
  - eapply work_keeps_trans; [exact K2 | apply view_keeps; try done; [apply K2 | by apply set_flag_view]].
Qed.

Section DriverFacts.
Context `{laws : wlcore_ops_laws} `{!tx_compl_laws ops} `{klaws : key_laws}.

Lemma fuel_for_enough wl : work_inv wl -> 2 * (backlog wl + 512) + 1 < Z.of_nat (fuel_for wl).
Proof.
  intros W. pose proof (backlog_nonneg wl (inv_counts _ (wi_inv _ W))). unfold fuel_for. lia.
Qed.

Lemma flush_rounds_ok rounds : Forall (fun r => env_ok (snd r)) (flush_round <$> rounds).
Proof.
  apply Forall_fmap, Forall_true. intros [c b] w W. simpl.
  destruct b; [by apply netstack_keeps | by apply view_keeps].
Qed.

(** What every state of the driver satisfies: the invariant of the transmit
    path, that the interfaces of the list are initialised, and that a running
    scan has its interface. *)
Definition driver_inv (wl : wl1271) : Prop := work_inv wl /\ vifs_init wl /\ scan_ok wl.

(** A request has been served: the invariant holds, each buffer gained the
    holders it was handed to, each scan is accounted for. *)
Record served (r : request) (wl wl' : wl1271) : Prop := {
  sd_inv : driver_inv wl';
  sd_hw : hw wl' = hw wl;
  sd_copies s : s <> dummy_packet (hw wl) -> copies s wl' = copies s wl + occ s (handed r);
  sd_scans : scans wl' = scans wl + accepts r wl - drops r wl
}.

(** Most requests are handed no buffer, and neither start nor drop a scan. *)
Definition quiet (r : request) (wl : wl1271) : Prop :=
  handed r = [] /\ accepts r wl = 0 /\ drops r wl = 0.

Lemma core_served r wl wl' : scan_ok wl -> quiet r wl -> keeps_core wl wl' -> vifs_init wl' ->
  served r wl wl'.
Proof.
  intros O (H1 & H2 & H3) [K1 K2 K3 K4 K5] Hi. split; [split_and!; auto | done | | lia].
  intros s Hs. rewrite H1. change (occ s []) with 0. rewrite K3 by done. lia.
Qed.

Lemma scan_served r wl wl' d : driver_inv wl -> handed r = [] -> accepts r wl - drops r wl = d ->
  scan_keeps d wl wl' -> served r wl wl'.
Proof.
  intros (W & Hi & O) Hh Hd [K1 K2 K3 K4 K5 K6 K7]. split; [split_and!; auto | done | | lia].
  - intros v Hv. rewrite K4 in Hv. rewrite (kind_flag _ _ (K5 v)). by apply Hi.
  - intros s Hs. rewrite Hh. change (occ s []) with 0. rewrite K3 by done. lia.
Qed.

Lemma quiet_serve r wl : driver_inv wl -> admissible r wl -> quiet r wl ->
  match r with OpHwScan _ _ _ | ScanCompleteWork _ _ => False | _ => True end ->
  exists wl', serve r wl = Ret wl' /\ keeps_core wl wl' /\ vifs_init wl'.
Proof.
  intros (W & Hi & _) A (Hr & _) Hk. pose proof (fuel_for_enough wl W) as Hf.
  assert (forall n w, keeps_plus n wl w -> exists wl', Ret w = Ret wl' /\ keeps_core wl wl' /\ vifs_init wl') as P0.
  { intros n w [K1 K2 K3 _ K5]. exists w. split; [done|]. split; [by destruct K5|].
    by apply (vifs_init_same wl). }
  assert (forall w, work_keeps wl w -> exists wl', Ret w = Ret wl' /\ keeps_core wl wl' /\ vifs_init wl') as P
    by (intros w K; by eapply P0, work_plus).
  destruct r; unfold serve; cbv zeta; simpl in A; try done.
  - destruct (tx_work_keeps (fuel_for wl) completed wl W) as (w & -> & K); [lia | by apply P].
  - destruct (irq_keeps (fuel_for wl) completed wl W Hf) as (w & -> & K). by eapply P0.
  - by apply P, netstack_keeps.
  - by apply P, tx_watchdog_keeps.
  - by apply P, elp_work_keeps.
  - by apply P, op_sta_state_keeps.
  - by apply P, op_ampdu_keeps.
  - by apply P, rx_streaming_enable_keeps.
  - by apply P, rx_streaming_disable_keeps.
  - destruct (tx_flush_spec (fuel_for wl) (flush_round <$> rounds) wl W (flush_rounds_ok rounds))
      as (w & -> & K & _); [lia | by apply P].
  - by apply op_remove_interface_keeps.
  - eexists. split; [done|]. by apply op_stop_keeps.
  - destruct A. by apply recovery_keeps.
  - destruct (op_set_key_spec (fuel_for wl) (flush_round <$> rounds) completed cmd wlvif sta key wl W
      (flush_rounds_ok rounds)) as (ret & k' & w & -> & K & _); [lia | by apply P].
  - by apply P, default_key_keeps.
  - by apply P, op_cancel_hw_scan_keeps.
  - destruct (op_sched_scan_start_keeps completed wlvif req ies wl W A) as (ret & w & -> & K). by apply P.
  - by apply P, op_sched_scan_stop_keeps.
  - by apply P, stop_queues_keeps.
  - by apply P, wake_queues_keeps.
Qed.

Lemma hw_scan_served v req c wl : driver_inv wl -> zlen (req_channels req) <= WL1271_MAX_CHANNELS ->
  exists wl', serve (OpHwScan v req c) wl = Ret wl' /\ served (OpHwScan v req c) wl wl'.
Proof.
  intros D A. destruct (op_hw_scan_spec c v req wl (proj1 D) A) as (ret & w & E & H).
  exists w. split; [unfold serve; by rewrite E|].
  destruct H as [(-> & _ & K & _)|(Hr & K & _)].
  - apply (scan_served _ _ _ 1); [done | done | | done]. cbn [accepts drops]. by rewrite E.
  - apply (scan_served _ _ _ 0); [done | done | | by apply work_scan_keeps].
    cbn [accepts drops]. rewrite E. by destruct ret.
Qed.

(** An admissible request is served to its end. *)
Lemma serve_spec r wl : driver_inv wl -> admissible r wl ->
  exists wl', serve r wl = Ret wl' /\ served r wl wl'.
Proof.
  intros D A. pose proof D as (W & Hi & O).
  assert (quiet r wl -> match r with OpHwScan _ _ _ | ScanCompleteWork _ _ => False | _ => True end ->
    exists wl', serve r wl = Ret wl' /\ served r wl wl') as Q.
  { intros Hq Hk. destruct (quiet_serve r wl D A Hq Hk) as (w & E & K & I). exists w. split; [done|].
    by apply core_served. }
  destruct r; try (apply Q; [by split_and! | done]); clear Q.
  - destruct A as (A1 & A2 & A3 & A4). destruct (op_tx_work skb wl W A1 A2 A3 A4) as (W' & Eh & _ & C).
    pose proof (op_tx_vifs skb wl) as V. eexists. split; [done|]. split; [split_and!| done | |].
    + done.
    + by apply (vifs_init_same wl).
    + by apply V.
    + intros s Hs. rewrite C by done. simpl handed. rewrite occ_cons. change (occ s []) with 0. lia.
    + rewrite (sm_scans _ _ V). simpl. lia.
  - by apply hw_scan_served.
  - destruct (scan_complete_work_spec completed ap_probereq wl W O) as (w & E & K & _).
    exists w. split; [done|]. by apply (scan_served _ _ _ (- lost_scan completed wl)).
Qed.

Lemma reachable_spec wl0 g wl :
  driver_inv wl0 -> (forall s, s <> dummy_packet (hw wl0) -> copies s wl0 = 0) ->
  reachable wl0 g wl ->
  driver_inv wl /\ hw wl = hw wl0 /\
  (forall s, s <> dummy_packet (hw wl0) -> copies s wl = occ s (given g)) /\
  scans wl + dropped g = scans wl0 + accepted g.
Proof.
  intros W0 C0. induction 1 as [|g wl r wl' _ (W & Eh & C & N) A E].
  - split_and!; [done | done | intros s Hs; by rewrite C0 | simpl; lia].
  - destruct (serve_spec r wl W A) as (w & E' & [W' Eh' C' N']). rewrite E in E'. injection E' as <-.
    split_and!; [done | congruence | | simpl; lia]. intros s Hs. simpl. rewrite C', C, occ_app by congruence. lia.
Qed.

End DriverFacts.
