(* ===== verification/Wl12xx.v ===== *)
(** * The wl12xx lower driver (wl12xx/main.c)

    The data-path operations of the 127x/128x family and their instance of the
    lower-driver interface, with the laws wlcore relies on. *)

From S2P Require Import Prelude Ieee80211 WlState ChipOps Io Mailbox Queues LinkQueues.
From S2P Require Import PowerSave TxPath TxSched TxInv TxWork TxDone TxDoneFacts Irq Links Keys KeysFacts.

Definition WL12XX_INTR_TRIG_CMD := BIT 0.
Definition WL12XX_INTR_TRIG_EVENT_ACK := BIT 1.
Definition WL12XX_TX_HW_BLOCK_SIZE := 252.
Definition WL12XX_TX_HW_BLOCK_SPARE_DEFAULT := 1.
Definition WL12XX_TX_HW_BLOCK_GEM_SPARE := 2.
Definition WL1271_SLV_REG_DATA := 0x00300000 + 0x0008.
Definition RX_MEM_BLOCK_MASK := 0xFF.
Definition RX_BUF_UNALIGNED_PAYLOAD := BIT 20.

Module Wl12xx.

Definition wl12xx_trigger_cmd (cmd_box_addr : Z) (c : fw_cmd) (wl : wl1271) : Z * wl1271 :=
  let '(ret, wl) := wlcore_write_cmd cmd_box_addr c wl in
  if ret <? 0 then (ret, wl)
  else wlcore_write32 (rtable_interrupt_trig (hw wl)) WL12XX_INTR_TRIG_CMD wl.

Definition wl12xx_ack_event (wl : wl1271) : Z * wl1271 :=
  wlcore_write32 (rtable_interrupt_trig (hw wl)) WL12XX_INTR_TRIG_EVENT_ACK wl.

Definition wl12xx_calc_tx_blocks (wl : wl1271) (len spare_blks : Z) : Z :=
  let blk_size := WL12XX_TX_HW_BLOCK_SIZE in
  let align_len := wlcore_calc_packet_alignment wl len in
  u32 (u32 (align_len + blk_size - 1) / blk_size + spare_blks).

Definition wl12xx_set_tx_desc_blocks (wl : wl1271) (desc : tx_hw_descr) (blks spare_blks : Z)
    : tx_hw_descr :=
  if chip_id (hw wl) =? CHIP_ID_1283_PG20
  then desc <| d_mem0 := u8 blks |>
  else desc <| d_mem0 := u8 spare_blks |> <| d_mem1 := u8 blks |>.

Definition wl12xx_set_tx_desc_data_len (wl : wl1271) (desc : tx_hw_descr) (skb : sk_buff)
    : tx_hw_descr :=
  let aligned_len := wlcore_calc_packet_alignment wl (skb_len skb) in
  if chip_id (hw wl) =? CHIP_ID_1283_PG20
  then desc <| d_mem1 := u8 (aligned_len - skb_len skb) |>
            <| d_length := u16 (Z.shiftr aligned_len 2) |>
  else
    let pad := aligned_len - skb_len skb in
    desc <| d_tx_attr ::= fun a => Z.lor a (u16 (Z.shiftl pad TX_HW_ATTR_OFST_LAST_WORD_PAD)) |>
         <| d_length := u16 (Z.shiftr aligned_len 2) |>.

Definition wl12xx_set_tx_desc_csum (wl : wl1271) (desc : tx_hw_descr) (skb : sk_buff)
    : tx_hw_descr := desc <| d_csum := 0 |>.

Definition wl12xx_get_spare_blocks (wl : wl1271) (is_gem : bool) : Z :=
  if is_gem then WL12XX_TX_HW_BLOCK_GEM_SPARE else WL12XX_TX_HW_BLOCK_SPARE_DEFAULT.

Definition wl12xx_get_rx_buf_align (wl : wl1271) (rx_desc : Z) : wl_rx_buf_align :=
  if has rx_desc RX_BUF_UNALIGNED_PAYLOAD then WLCORE_RX_BUF_UNALIGNED
  else WLCORE_RX_BUF_ALIGNED.

Definition wl12xx_get_rx_packet_len (wl : wl1271) (rx_data : list Z) (data_len : Z) : Z :=
  if (data_len <? RX_DESC_SIZE) || (data_len <? RX_DESC_SIZE + rx_desc_pad_len rx_data) then 0
  else data_len - RX_DESC_SIZE - rx_desc_pad_len rx_data.

Definition wl127x_prepare_read (wl : wl1271) (rx_desc len : Z) : Z * wl1271 :=
  if chip_id (hw wl) =? CHIP_ID_1283_PG20 then (0, wl)
  else
    let mem_block := Z.land rx_desc RX_MEM_BLOCK_MASK in
    let addr := u32 (Z.shiftl mem_block 8 + packet_memory_pool_start (hw wl)) in
    let addr_extra := u32 (addr + 4) in
    let '(ret, wl) := wlcore_write WL1271_SLV_REG_DATA
                        (le_bytes 4 addr ++ le_bytes 4 addr_extra) wl in
    if ret <? 0 then (ret, wl) else (0, wl).

Definition wl12xx_tx_delayed_compl (tx_results_counter : Z) (wl : wl1271)
    : outcome (Z * wl1271) :=
  if tx_results_counter =? Z.land (tx_results_count wl) 0xff then Ret (0, wl)
  else match wlcore_tx_complete wl with Some r => Ret r | None => Oops end.

Definition wl12xx_sta_get_ap_rate_mask (wl : wl1271) (w : wl12xx_vif) : Z := rate_set w.

#[export] Instance wl12xx_ops : wlcore_ops := {|
  trigger_cmd := wl12xx_trigger_cmd;
  ack_event := wl12xx_ack_event;
  calc_tx_blocks := wl12xx_calc_tx_blocks;
  set_tx_desc_blocks := wl12xx_set_tx_desc_blocks;
  set_tx_desc_data_len := wl12xx_set_tx_desc_data_len;
  set_tx_desc_csum := wl12xx_set_tx_desc_csum;
  get_spare_blocks := wl12xx_get_spare_blocks;
  pre_pkt_send := None;
  get_rx_buf_align := wl12xx_get_rx_buf_align;
  prepare_read := Some wl127x_prepare_read;
  get_rx_packet_len := wl12xx_get_rx_packet_len;
  set_rx_csum := fun _ => None;
  tx_delayed_compl := Some wl12xx_tx_delayed_compl;
  tx_immediate_compl := None;
  sta_get_ap_rate_mask := wl12xx_sta_get_ap_rate_mask;
  ap_get_mimo_wide_rate_mask := None
|}.

(** ** Laws *)

Lemma calc_tx_blocks_eq wl len spare : 0 <= len <= 65536 -> 0 <= spare <= 256 ->
  wl12xx_calc_tx_blocks wl len spare
  = (wlcore_calc_packet_alignment wl len + 251) / 252 + spare.
Proof.
  intros Hl Hs. unfold wl12xx_calc_tx_blocks, WL12XX_TX_HW_BLOCK_SIZE. cbv zeta.
  destruct (calc_packet_alignment_spec wl len) as [B _]; [lia|].
  rewrite (u32_id (_ - 1)) by lia.
  replace (wlcore_calc_packet_alignment wl len + 252 - 1)
    with (wlcore_calc_packet_alignment wl len + 251) by lia.
  apply u32_id.
  assert (0 <= (wlcore_calc_packet_alignment wl len + 251) / 252 <= 1000); [|lia].
  split; [apply Z.div_pos; lia | apply Z.div_le_upper_bound; lia].
Qed.

#[export] Instance wl12xx_laws : wlcore_ops_laws wl12xx_ops.
Proof.
  split; cbn [trigger_cmd ack_event calc_tx_blocks set_tx_desc_blocks set_tx_desc_data_len
    set_tx_desc_csum get_spare_blocks pre_pkt_send prepare_read get_rx_packet_len
    get_rx_buf_align set_rx_csum wl12xx_ops].
  - intros addr c wl. unfold wl12xx_trigger_cmd.
    pose proof (write_cmd_io_frame addr c wl) as F.
    destruct (wlcore_write_cmd addr c wl) as [ret w]. simpl in F.
    split_if; [exact F | etrans; [exact F | apply write32_io_frame]].
  - intros wl. apply write32_io_frame.
  - intros wl len spare Hl Hs. rewrite calc_tx_blocks_eq by lia.
    destruct (calc_packet_alignment_spec wl len) as [B _]; [lia|].
    pose proof (Z.div_le_mono 252 (wlcore_calc_packet_alignment wl len + 251) 252).
    change (252 / 252) with 1 in *. lia.
  - intros wl wl' len spare E. unfold wl12xx_calc_tx_blocks, wlcore_calc_packet_alignment, has_quirk.
    by rewrite E.
  - intros wl gem. unfold wl12xx_get_spare_blocks, WL12XX_TX_HW_BLOCK_GEM_SPARE,
      WL12XX_TX_HW_BLOCK_SPARE_DEFAULT. split_if; lia.
  - intros wl d b s. unfold wl12xx_set_tx_desc_blocks. split_if; by destruct d.
  - intros wl d skb. unfold wl12xx_set_tx_desc_data_len. cbv zeta. split_if; by destruct d.
  - intros wl d skb. by destruct d.
  - done.
  - intros f wl des len [= <-]. unfold wl127x_prepare_read. split_if; [reflexivity|]. cbv zeta.
    pose proof (write_io_frame WL1271_SLV_REG_DATA) as F. 
    match goal with |- context [wlcore_write _ ?b wl] => specialize (F b wl) end.
    destruct (wlcore_write _ _ wl) as [ret w]. by split_if.
  - intros wl data len Hl. unfold wl12xx_get_rx_packet_len, RX_DESC_SIZE.
    assert (0 <= rx_desc_pad_len data) by (apply byte_at_range).
    split_if; bool_to_prop; lia.
  - done.
  - done.
  - done.
Qed.

#[export] Instance wl12xx_mailbox_laws : mailbox_laws wl12xx_ops.
Proof.
  intros addr c wl. change (trigger_cmd addr c wl) with (wl12xx_trigger_cmd addr c wl). unfold wl12xx_trigger_cmd.
  destruct (write_cmd_sent addr c wl) as (n & L & S & H). exists n. split; [done|].
  destruct (wlcore_write_cmd addr c wl) as [ret w]. cbn [fst snd] in *. split_if; bool_to_prop; [by split; [|simpl; lia]|].
  split; [unfold wlcore_write32, wlcore_raw_write32; by rewrite raw_write_sent | intros _; by apply H].
Qed.

#[export] Instance wl12xx_compl_laws : tx_compl_laws wl12xx_ops.
Proof.
  split; [|done]. intros f c wl [= <-] W. unfold wl12xx_tx_delayed_compl.
  split_if; [exists 0, wl; split; [done | by apply view_keeps]|].
  destruct (tx_complete_keeps wl W) as (ret & wl' & -> & K). by exists ret, wl'.
Qed.

(** ** Keys *)

Definition wl12xx_set_key (cmd : set_key_cmd) (v : nat) (sta : option ieee80211_sta) (k : key_conf)
    (wl : wl1271) : Z * key_conf * wl1271 :=
  wlcore_set_key cmd v sta k wl.

#[export] Instance wl12xx_key_ops : key_ops := {| set_key := wl12xx_set_key |}.

#[export] Instance wl12xx_key_laws : key_laws wl12xx_key_ops.
Proof. split. intros. by apply wlcore_set_key_keeps. Qed.

(** ** The length the firmware recovers *)

Lemma shiftr2_words n : (4 | n) -> 0 <= n < 262144 -> 4 * u16 (Z.shiftr n 2) = n.
Proof.
  intros [k ->] Hn. rewrite Z.shiftr_div_pow2 by lia. change (2 ^ 2) with 4.
  rewrite Z.div_mul by lia. rewrite u16_id by lia. lia.
Qed.

(** 128x: words minus extra bytes is the frame length. *)
Definition fw_len_128x (d : tx_hw_descr) : Z := 4 * d_length d - d_mem1 d.

(** 127x: words minus the two padding bits of the attributes. *)
Definition fw_len_127x (d : tx_hw_descr) : Z :=
  4 * d_length d - Z.land (Z.shiftr (d_tx_attr d) TX_HW_ATTR_OFST_LAST_WORD_PAD) 3.

Lemma data_len_128x wl d skb :
  chip_id (hw wl) = CHIP_ID_1283_PG20 -> skb_len skb <= 65536 ->
  fw_len_128x (wl12xx_set_tx_desc_data_len wl d skb) = skb_len skb.
Proof.
  intros Hc Hl. assert (0 <= skb_len skb) as Hn by apply zlen_nonneg.
  destruct (calc_packet_alignment_spec wl (skb_len skb)) as [B D]; [lia|].
  unfold fw_len_128x, wl12xx_set_tx_desc_data_len. rewrite Hc, Z.eqb_refl. simpl.
  rewrite shiftr2_words by (done || lia). rewrite u8_id by lia. lia.
Qed.

Lemma data_len_127x wl d skb :
  chip_id (hw wl) <> CHIP_ID_1283_PG20 -> skb_len skb <= 65536 ->
  tx_alignment wl = WL1271_TX_ALIGN_TO ->
  Z.land (Z.shiftr (d_tx_attr d) TX_HW_ATTR_OFST_LAST_WORD_PAD) 3 = 0 ->
  fw_len_127x (wl12xx_set_tx_desc_data_len wl d skb) = skb_len skb.
Proof.
  intros Hc Hl Ha Hz. assert (0 <= skb_len skb) as Hn by apply zlen_nonneg.
  destruct (calc_packet_alignment_spec wl (skb_len skb)) as [B D]; [lia|].
  destruct (calc_packet_alignment_divide wl (skb_len skb)) as [B' _]; [lia|].
  rewrite Ha in B'. unfold WL1271_TX_ALIGN_TO in B'.
  unfold fw_len_127x, wl12xx_set_tx_desc_data_len.
  rewrite (proj2 (Z.eqb_neq _ _) Hc). simpl. rewrite shiftr2_words by (done || lia).
  set (n := wlcore_calc_packet_alignment wl (skb_len skb)) in *.
  set (pad := n - skb_len skb). assert (0 <= pad < 4) as Hp by (unfold pad; lia).
  assert (Z.land (Z.shiftr (Z.lor (d_tx_attr d)
    (u16 (Z.shiftl pad TX_HW_ATTR_OFST_LAST_WORD_PAD))) TX_HW_ATTR_OFST_LAST_WORD_PAD) 3 = pad) as ->;
    [|unfold pad; lia].
  rewrite Z.shiftr_lor, Z.land_lor_distr_l, Hz, Z.lor_0_l.
  assert (pad = 0 \/ pad = 1 \/ pad = 2 \/ pad = 3) as [-> | [-> | [-> | ->]]] by lia; reflexivity.
Qed.

End Wl12xx.
