(* ===== verification/Wl18xx.v ===== *)
(** * The wl18xx lower driver (wl18xx/main.c, wl18xx/tx.c)

    The data-path operations of the 18xx family, immediate transmit completion
    included, and their instance of the lower-driver interface with its laws. *)

From S2P Require Import Prelude Ieee80211 WlState ChipOps Io Mailbox Queues LinkQueues.
From S2P Require Import PowerSave TxPath TxAllocFacts TxSched TxInv SchedFacts TxMoves.
From S2P Require Import TxPrep TxWork TxDone TxDoneFacts Event EventFacts Irq Links LinksFacts IfaceFacts Keys KeysFacts.

Definition WL18XX_INTR_TRIG_EVENT_ACK := BIT 29.
Definition WL18XX_TX_HW_BLOCK_SIZE := 268.
Definition WL18XX_TX_HW_BLOCK_SPARE := 1.
Definition WL18XX_TX_HW_EXTRA_BLOCK_SPARE := 2.
Definition WL18XX_TX_CTRL_NOT_PADDED := BIT 7.
Definition WL18XX_TX_STATUS_DESC_ID_MASK := 0x7F.
Definition WL18XX_TX_STATUS_STAT_BIT_IDX := 7.
Definition RX_BUF_PADDED_PAYLOAD := BIT 30.
(** [sizeof(struct wl1271_rx_descriptor)], the descriptor of both families *)
Definition WL18XX_RX_DESC_SIZE := 16.

Module Wl18xx.

Definition wl18xx_trigger_cmd (cmd_box_addr : Z) (c : fw_cmd) (wl : wl1271) : Z * wl1271 :=
  wlcore_write_cmd cmd_box_addr c wl.

Definition wl18xx_ack_event (wl : wl1271) : Z * wl1271 :=
  wlcore_write32 (rtable_interrupt_trig (hw wl)) WL18XX_INTR_TRIG_EVENT_ACK wl.

Definition wl18xx_calc_tx_blocks (wl : wl1271) (len spare_blks : Z) : Z :=
  let blk_size := WL18XX_TX_HW_BLOCK_SIZE in
  u32 (u32 (len + blk_size - 1) / blk_size + spare_blks).

Definition wl18xx_set_tx_desc_blocks (wl : wl1271) (desc : tx_hw_descr) (blks spare_blks : Z)
    : tx_hw_descr := desc <| d_mem0 := u8 blks |>.

Definition wl18xx_set_tx_desc_data_len (wl : wl1271) (desc : tx_hw_descr) (skb : sk_buff)
    : tx_hw_descr :=
  desc <| d_length := u16 (skb_len skb) |>
       <| d_mem1 := if has_quirk wl WLCORE_QUIRK_TX_PAD_LAST_FRAME
                    then WL18XX_TX_CTRL_NOT_PADDED else 0 |>.

(** Offset of [protocol] in [struct iphdr]. *)
Definition IPHDR_PROTOCOL := 9.

Definition wl18xx_set_tx_desc_csum (wl : wl1271) (desc : tx_hw_descr) (skb : sk_buff)
    : tx_hw_descr :=
  if negb (checksum_param (hw wl)) then desc <| d_csum := 0 |>
  else if negb (skb_csum_partial skb) then desc <| d_csum := 0 |>
  else
    let ip_hdr_offset := u32 (skb_network_offset skb - skb_mac_offset skb) in
    if 128 <=? ip_hdr_offset then desc <| d_csum := 0 |>
    else
      let protocol := byte_at (skb_data skb) (skb_network_offset skb + IPHDR_PROTOCOL) in
      desc <| d_csum := Z.lor (u8 (Z.shiftl ip_hdr_offset 1)) (Z.land protocol 1) |>.

Definition wl18xx_get_spare_blocks (wl : wl1271) (is_gem : bool) : Z :=
  if negb (extra_spare_vif_count wl =? 0) then WL18XX_TX_HW_EXTRA_BLOCK_SPARE
  else WL18XX_TX_HW_BLOCK_SPARE.

(** The control byte of the descriptor at [buf_offset - last_len]. *)
Definition wl18xx_pre_pkt_send (wl : wl1271) (buf_offset last_len : Z) : Z * wl1271 :=
  if has_quirk wl WLCORE_QUIRK_TX_PAD_LAST_FRAME then
    let ctrl := buf_offset - last_len + 3 in
    (ALIGN buf_offset WL12XX_BUS_BLOCK_SIZE,
     wl <| aggr_buf ::= fun b =>
       zset b ctrl (Z.land (zget 0 b ctrl) (u8 (Z.lnot WL18XX_TX_CTRL_NOT_PADDED))) |>)
  else (buf_offset, wl).

Definition wl18xx_get_rx_buf_align (wl : wl1271) (rx_desc : Z) : wl_rx_buf_align :=
  if has rx_desc RX_BUF_PADDED_PAYLOAD then WLCORE_RX_BUF_PADDED else WLCORE_RX_BUF_ALIGNED.

Definition wl18xx_get_rx_packet_len (wl : wl1271) (rx_data : list Z) (data_len : Z) : Z :=
  if data_len <? WL18XX_RX_DESC_SIZE then 0 else data_len - WL18XX_RX_DESC_SIZE.

(** ** Immediate completion (wl18xx/tx.c) *)

Definition wl18xx_tx_complete_packet (tx_stat_byte : Z) (wl : wl1271) : wl1271 :=
  let id := Z.land tx_stat_byte WL18XX_TX_STATUS_DESC_ID_MASK in
  if num_tx_desc (hw wl) <=? id then wl
  else
    match zget None (tx_frames wl) id with
    | None => wl
    | Some skb =>
        let tx_success := negb (has tx_stat_byte (BIT WL18XX_TX_STATUS_STAT_BIT_IDX)) in
        if wl12xx_is_dummy_packet wl skb then wl1271_free_tx_id id wl
        else
          let wl := upd_skb skb (fun s => s <| skb_cb ::= fun i =>
            i <| info_flags ::= fun f =>
                   if tx_success && negb (has f IEEE80211_TX_CTL_NO_ACK)
                   then Z.lor f IEEE80211_TX_STAT_ACK else f |>
              <| status_rate_idx := -1 |> <| status_rate_count := 0 |>
              <| status_rate_flags := 0 |> <| status_ack_signal := -1 |> |>) wl in
          let wl := if negb tx_success then wl <| retry_count ::= fun n => u32 (n + 1) |> else wl in
          return_frame id skb (upd_skb skb (remove_private_header wl) wl)
    end.

(** The ring walk from [i] to [fw_release_idx]; [None] when it has not got
    there within [fuel] steps. *)
Fixpoint wl18xx_release_loop (fuel : nat) (released : list Z) (fw_release_idx i : Z)
    (wl : wl1271) : option wl1271 :=
  if i =? fw_release_idx then Some wl
  else
    match fuel with
    | O => None
    | S fuel =>
        let wl := wl18xx_tx_complete_packet (byte_at released i) wl in
        wl18xx_release_loop fuel released fw_release_idx
          ((i + 1) mod WL18XX_FW_MAX_TX_STATUS_DESC)
          (wl <| tx_results_count ::= fun n => u32 (n + 1) |>)
    end.

(** [priv] is [struct wl18xx_fw_status_priv]: the release index, then the ring.
    [None] is a walk that never ends. *)
Definition wl18xx_tx_immediate_complete (priv : list Z) (wl : wl1271) : option wl1271 :=
  let fw_release_idx := byte_at priv 0 in
  if last_fw_rls_idx wl =? fw_release_idx then Some wl
  else if WL18XX_FW_MAX_TX_STATUS_DESC <=? fw_release_idx then Some wl
  else
    match wl18xx_release_loop 33 (tail priv) fw_release_idx (last_fw_rls_idx wl) wl with
    | None => None
    | Some wl => Some (wl <| last_fw_rls_idx := fw_release_idx |>)
    end.

Definition wl18xx_tx_immediate_completion (priv : list Z) (wl : wl1271) : outcome wl1271 :=
  match wl18xx_tx_immediate_complete priv wl with Some wl => Ret wl | None => OutOfFuel end.

Definition WL18XX_RX_CHECKSUM_MASK := 0x40.

Definition wl18xx_set_rx_csum (desc : list Z) (skb : rx_skb) : rx_skb :=
  if has (rx_desc_status desc) WL18XX_RX_CHECKSUM_MASK then skb <| rx_csum_ok := true |> else skb.

Definition CONF_TX_RATE_USE_WIDE_CHAN := BIT 31.

Definition wl18xx_is_mimo_supported (wl : wl1271) : bool :=
  2 <=? number_of_assembled_ant2_4 (hw wl).

Definition is_wide_chan (channel_type : Z) : bool :=
  (channel_type =? NL80211_CHAN_HT40MINUS) || (channel_type =? NL80211_CHAN_HT40PLUS).

Definition wl18xx_sta_get_ap_rate_mask (wl : wl1271) (w : wl12xx_vif) : Z :=
  let hw_rate_set := rate_set w in
  if is_wide_chan (vif_channel_type w) then
    Z.ldiff (Z.lor hw_rate_set CONF_TX_RATE_USE_WIDE_CHAN) CONF_TX_MIMO_RATES
  else if wl18xx_is_mimo_supported wl then Z.lor hw_rate_set CONF_TX_MIMO_RATES
  else hw_rate_set.

Definition wl18xx_ap_get_mimo_wide_rate_mask (wl : wl1271) (w : wl12xx_vif) : Z :=
  match vif_band w with
  | IEEE80211_BAND_5GHZ =>
      if is_wide_chan (vif_channel_type w) then CONF_TX_RATE_USE_WIDE_CHAN else 0
  | IEEE80211_BAND_2GHZ =>
      if is_wide_chan (vif_channel_type w) then 0
      else if wl18xx_is_mimo_supported wl then CONF_TX_MIMO_RATES else 0
  end.

#[export] Instance wl18xx_ops : wlcore_ops := {|
  trigger_cmd := wl18xx_trigger_cmd;
  ack_event := wl18xx_ack_event;
  calc_tx_blocks := wl18xx_calc_tx_blocks;
  set_tx_desc_blocks := wl18xx_set_tx_desc_blocks;
  set_tx_desc_data_len := wl18xx_set_tx_desc_data_len;
  set_tx_desc_csum := wl18xx_set_tx_desc_csum;
  get_spare_blocks := wl18xx_get_spare_blocks;
  pre_pkt_send := Some wl18xx_pre_pkt_send;
  get_rx_buf_align := wl18xx_get_rx_buf_align;
  prepare_read := None;
  get_rx_packet_len := wl18xx_get_rx_packet_len;
  (* wl18xx_setup clears the hook when checksum offload is off *)
  set_rx_csum := fun wl => if checksum_param (hw wl) then Some wl18xx_set_rx_csum else None;
  tx_delayed_compl := None;
  tx_immediate_compl := Some wl18xx_tx_immediate_completion;
  sta_get_ap_rate_mask := wl18xx_sta_get_ap_rate_mask;
  ap_get_mimo_wide_rate_mask := Some wl18xx_ap_get_mimo_wide_rate_mask
|}.

(** ** Laws *)

#[export] Instance wl18xx_laws : wlcore_ops_laws wl18xx_ops.
Proof.
  split; cbn [trigger_cmd ack_event calc_tx_blocks set_tx_desc_blocks set_tx_desc_data_len
    set_tx_desc_csum get_spare_blocks pre_pkt_send prepare_read get_rx_packet_len
    get_rx_buf_align set_rx_csum wl18xx_ops].
  - intros addr c wl. apply write_cmd_io_frame.
  - intros wl. apply write32_io_frame.
  - intros wl len spare Hl Hs. unfold wl18xx_calc_tx_blocks, WL18XX_TX_HW_BLOCK_SIZE. cbv zeta.
    rewrite (u32_id (_ - 1)) by lia.
    assert (1 <= (len + 268 - 1) / 268 <= 1000).
    { split; [apply Z.div_le_lower_bound; lia | apply Z.div_le_upper_bound; lia]. }
    rewrite u32_id by lia. lia.
  - done.
  - intros wl gem. unfold wl18xx_get_spare_blocks, WL18XX_TX_HW_BLOCK_SPARE,
      WL18XX_TX_HW_EXTRA_BLOCK_SPARE. split_if; lia.
  - intros wl d b s. by destruct d.
  - intros wl d skb. by destruct d.
  - intros wl d skb. unfold wl18xx_set_tx_desc_csum. cbv zeta. repeat split_if; by destruct d.
  - intros f wl off last [= <-] Hoff. unfold wl18xx_pre_pkt_send. split_if.
    + simpl. destruct (ALIGN_spec 8 off) as [B D]; [lia..|]. change (2 ^ 8) with 256 in *.
      unfold WL12XX_BUS_BLOCK_SIZE. split_and!; [by destruct wl | by rewrite zlen_zset | lia | lia | by right].
    + unfold WL12XX_BUS_BLOCK_SIZE. split_and!; [by destruct wl | done | lia | lia | by left].
  - done.
  - intros wl data len Hl. unfold wl18xx_get_rx_packet_len, WL18XX_RX_DESC_SIZE, RX_DESC_SIZE.
    split_if; bool_to_prop; lia.
  - done.
  - done.
  - intros wl wl' E. by rewrite E.
Qed.


(** ** Immediate completion: totality and conservation *)

Lemma complete_packet_keeps_18xx b wl :
  work_inv wl -> work_keeps wl (wl18xx_tx_complete_packet b wl).
Proof.
  intros W. unfold wl18xx_tx_complete_packet. cbv zeta.
  set (id := Z.land b WL18XX_TX_STATUS_DESC_ID_MASK). split_if; [by apply view_keeps|].
  destruct (zget None (tx_frames wl) id) as [skb|] eqn:Ef; [|by apply view_keeps].
  unfold wl12xx_is_dummy_packet. destruct (Nat.eqb_spec (dummy_packet (hw wl)) skb) as [Ed|Ed].
  { apply free_dummy_keeps; [done|]. unfold frame_at. by rewrite Ef, Ed. }
  match goal with |- context [upd_skb skb ?f wl] => set (w1 := upd_skb skb f wl) end.
  assert (work_keeps wl w1) as K1.
  { apply upd_skb_keeps; [done | by intros x | by apply not_eq_sym |].
    intros h q Hh Hq. by apply (in_firmware_not_queued wl id). }
  match goal with |- context [if negb ?c then ?x else w1] => set (w2 := if negb c then x else w1) end.
  assert (work_keeps wl w2 /\ frame_at w2 id = Some skb) as [K2 F2].
  { unfold w2. split_if; [|done]. split; [|done]. eapply work_keeps_trans; [exact K1|].
    apply view_keeps; [apply K1 | by split | done | done]. }
  clearbody w2. pose proof (wk_hw _ _ K2) as Eh.
  assert (work_keeps wl (upd_skb skb (remove_private_header w2) w2)) as K3.
  { eapply work_keeps_trans; [exact K2|].
    apply upd_skb_keeps; [apply K2 | apply remove_private_route | rewrite Eh; by apply not_eq_sym |].
    intros h q Hh Hq. apply (in_firmware_not_queued w2 id); try done. apply K2. }
  eapply work_keeps_trans; [exact K3|].
  apply return_frame_keeps; [apply K3 | exact F2 | rewrite (wk_hw _ _ K3); by apply not_eq_sym].
Qed.

(** A status byte completes the identifier in its lower bits. *)
Lemma complete_packet_ids_18xx b wl : work_inv wl ->
  let wl' := wl18xx_tx_complete_packet b wl in
  tx_results_count wl' = tx_results_count wl /\
  completes_ids [Z.land b WL18XX_TX_STATUS_DESC_ID_MASK] wl wl'.
Proof.
  intros W. pose proof (inv_ids _ (wi_inv _ W)) as Hi. cbv zeta. unfold wl18xx_tx_complete_packet. cbv zeta.
  set (id := Z.land b WL18XX_TX_STATUS_DESC_ID_MASK). split_if; bool_to_prop.
  { split; [done | by apply completes_absent, frame_at_high; [|lia]]. }
  destruct (zget None (tx_frames wl) id) as [skb|] eqn:Ef; [|split; [done | by apply completes_absent]].
  unfold wl12xx_is_dummy_packet. destruct (Nat.eqb_spec (dummy_packet (hw wl)) skb) as [Ed|Ed].
  { split; [by destruct (free_tx_id_frame id wl) as (? & ? & ? & ? & -> & _)|].
    apply (completes_freed _ skb _ wl); try done. by rewrite bool_decide_eq_true_2, app_nil_r. }
  match goal with |- context [if negb ?c then ?x else ?y] => set (w2 := if negb c then x else y) end.
  assert (tx_results_count w2 = tx_results_count wl /\ tx_frames w2 = tx_frames wl /\
    deferred_tx_queue w2 = deferred_tx_queue wl /\ hw w2 = hw wl /\ tx_frames_map w2 = tx_frames_map wl /\
    tx_frames_cnt w2 = tx_frames_cnt wl) as (E2 & F2 & D2 & H2 & M2 & C2) by (unfold w2; by split_if).
  clearbody w2. unfold return_frame. set (w3 := emit EvQueueNetstackWork _). split.
  - by destruct (free_tx_id_frame id w3) as (? & ? & ? & ? & -> & _).
  - apply (completes_freed _ skb _ w3); try done.
    + apply (ids_ok_frame wl); try done; simpl; congruence.
    + unfold w3. simpl. rewrite D2, bool_decide_eq_false_2 by congruence. done.
Qed.

(** The number of steps from [i] to [j] around the ring. *)
Definition ring_dist (i j : Z) : Z := (j - i) mod WL18XX_FW_MAX_TX_STATUS_DESC.

Lemma ring_dist_step i j : 0 <= i < 33 -> 0 <= j < 33 -> i <> j ->
  ring_dist ((i + 1) mod 33) j = ring_dist i j - 1.
Proof.
  unfold ring_dist, WL18XX_FW_MAX_TX_STATUS_DESC. intros Hi Hj Hne.
  rewrite Zminus_mod_idemp_r.
  replace (j - (i + 1)) with (j - i - 1) by lia.
  destruct (Z.lt_ge_cases i j).
  - rewrite !Z.mod_small by lia. lia.
  - rewrite <- (Z.mod_add (j - i - 1) 1 33), <- (Z.mod_add (j - i) 1 33) by lia.
    rewrite !Z.mod_small by lia. lia.
Qed.

Lemma ring_dist_range i j : 0 <= ring_dist i j < 33.
Proof. apply Z.mod_pos_bound. unfold WL18XX_FW_MAX_TX_STATUS_DESC. lia. Qed.

(** The identifiers in [n] entries of the release ring, from entry [i] on. *)
Definition released_ids (released : list Z) (i n : Z) : list Z :=
  (fun k => Z.land (byte_at released ((i + k) mod WL18XX_FW_MAX_TX_STATUS_DESC)) WL18XX_TX_STATUS_DESC_ID_MASK)
    <$> zseq n.

Lemma released_ids_succ released i n : 0 <= i < 33 -> 0 < n -> released_ids released i n
  = Z.land (byte_at released i) WL18XX_TX_STATUS_DESC_ID_MASK :: released_ids released ((i + 1) mod 33) (n - 1).
Proof.
  intros Hi Hn. unfold released_ids, WL18XX_FW_MAX_TX_STATUS_DESC.
  rewrite zseq_cons by done. cbn [fmap list_fmap]. f_equal.
  - by rewrite Z.add_0_r, Z.mod_small by lia.
  - rewrite <- list_fmap_compose. apply list_fmap_ext. intros _ k _. simpl.
    rewrite Zplus_mod_idemp_l. do 3 f_equal. lia.
Qed.

Lemma release_loop_total released j fuel : forall i wl,
  work_inv wl -> 0 <= i < 33 -> 0 <= j < 33 -> ring_dist i j < Z.of_nat fuel ->
  exists wl', wl18xx_release_loop fuel released j i wl = Some wl' /\ work_keeps wl wl' /\
    tx_results_count wl' = u32 (tx_results_count wl + ring_dist i j) /\
    completes_ids (released_ids released i (ring_dist i j)) wl wl'.
Proof.
  induction fuel as [|fuel IH]; intros i wl W Hi Hj Hf.
  { pose proof (ring_dist_range i j). lia. }
  cbn [wl18xx_release_loop]. destruct (i =? j) eqn:E; bool_to_prop.
  { subst. assert (ring_dist j j = 0) as -> by (unfold ring_dist; by rewrite Z.sub_diag).
    exists wl. split_and!; [done | by apply view_keeps | | apply completes_none].
    rewrite Z.add_0_r, u32_id; [done | by apply results_range]. }
  pose proof (complete_packet_keeps_18xx (byte_at released i) wl W) as K.
  destruct (complete_packet_ids_18xx (byte_at released i) wl W) as [C D].
  set (w1 := wl18xx_tx_complete_packet _ wl) in *.
  set (w2 := w1 <| tx_results_count ::= fun n => u32 (n + 1) |>).
  assert (work_keeps wl w2) as K2.
  { eapply work_keeps_trans; [exact K|]. apply view_keeps; [apply K | apply results_incr_view | done | done]. }
  pose proof (ring_dist_step i j Hi Hj E) as Ds. pose proof (ring_dist_range ((i + 1) mod 33) j).
  change WL18XX_FW_MAX_TX_STATUS_DESC with 33.
  assert (tx_results_count w2 = u32 (tx_results_count wl + 1)) as C2 by (simpl; by rewrite C).
  destruct (IH ((i + 1) mod 33) w2 (wk_inv _ _ K2)) as (w3 & E3 & K3 & C3 & D3);
    [apply Z.mod_pos_bound; lia | done | lia |].
  exists w3. split_and!; [done | by eapply work_keeps_trans | |].
  - rewrite C3, C2, Ds. unfold u32. rewrite wrap_add_l. f_equal. lia.
  - rewrite released_ids_succ by lia. rewrite <- Ds. apply (completes_cons _ _ _ w2);
      [apply (wk_hw _ _ K2) | destruct D as [Q F]; by split | exact D3].
Qed.

Lemma immediate_complete_total priv wl :
  work_inv wl ->
  exists wl', wl18xx_tx_immediate_complete priv wl = Some wl' /\ work_keeps wl wl' /\
    (WL18XX_FW_MAX_TX_STATUS_DESC <= byte_at priv 0 -> wl' = wl) /\
    (byte_at priv 0 < WL18XX_FW_MAX_TX_STATUS_DESC ->
     let n := ring_dist (last_fw_rls_idx wl) (byte_at priv 0) in
     last_fw_rls_idx wl' = byte_at priv 0 /\ tx_results_count wl' = u32 (tx_results_count wl + n) /\
     completes_ids (released_ids (tail priv) (last_fw_rls_idx wl) n) wl wl').
Proof.
  intros W. pose proof (byte_at_range priv 0) as Hb. pose proof (results_range wl W) as Hr.
  destruct (inv_ring _ (wi_inv _ W)) as (_ & _ & _ & Hl & _).
  unfold wl18xx_tx_immediate_complete, WL18XX_FW_MAX_TX_STATUS_DESC in *. cbv zeta. split_if; bool_to_prop.
  { exists wl. split_and!; [done | by apply view_keeps | done |]. intros _.
    assert (ring_dist (last_fw_rls_idx wl) (byte_at priv 0) = 0) as ->
      by (unfold ring_dist; by rewrite E, Z.sub_diag).
    split_and!; [done | by rewrite Z.add_0_r, u32_id | apply completes_none]. }
  split_if; bool_to_prop.
  { exists wl. split_and!; [done | by apply view_keeps | done | lia]. }
  destruct (release_loop_total (tail priv) (byte_at priv 0) 33 (last_fw_rls_idx wl) wl)
    as (w1 & -> & K & C & D); [done | done | lia |
      pose proof (ring_dist_range (last_fw_rls_idx wl) (byte_at priv 0)); lia |].
  eexists. split; [reflexivity|]. split_and!; [| lia | intros _; split_and!; [done | done |]].
  - eapply work_keeps_trans; [exact K|]. apply view_keeps; [apply K | | done | done].
    split; try done. intros (? & ? & ? & _ & ?). unfold ring_ok, WL18XX_FW_MAX_TX_STATUS_DESC. simpl.
    repeat split; try done; lia.
  - destruct D as [Q F]. by split.
Qed.

#[export] Instance wl18xx_mailbox_laws : mailbox_laws wl18xx_ops.
Proof. intros addr c wl. apply write_cmd_sent. Qed.

#[export] Instance wl18xx_compl_laws : tx_compl_laws wl18xx_ops.
Proof.
  split; [done|]. intros f priv wl [= <-] W. unfold wl18xx_tx_immediate_completion.
  destruct (immediate_complete_total priv wl W) as (wl' & -> & K & _). by exists wl'.
Qed.

(** ** The checksum byte *)

Definition IPPROTO_TCP := 6.
Definition IPPROTO_UDP := 17.

Lemma csum_byte wl d skb :
  checksum_param (hw wl) = true -> skb_csum_partial skb = true ->
  let off := skb_network_offset skb - skb_mac_offset skb in
  0 <= off < 128 ->
  let b := d_csum (wl18xx_set_tx_desc_csum wl d skb) in
  Z.shiftr b 1 = off /\
  Z.land b 1 = Z.land (byte_at (skb_data skb) (skb_network_offset skb + IPHDR_PROTOCOL)) 1.
Proof.
  intros Hc Hp off Ho. cbv zeta. unfold wl18xx_set_tx_desc_csum. rewrite Hc, Hp. simpl negb. cbv iota zeta.
  fold off. rewrite u32_id by lia. destruct (128 <=? off) eqn:E; bool_to_prop; [lia|]. simpl d_csum.
  set (p := byte_at _ _). rewrite Z.shiftl_mul_pow2 by lia. change (2 ^ 1) with 2.
  rewrite u8_id by lia.
  assert (Z.land p 1 = 0 \/ Z.land p 1 = 1) as Hl.
  { pose proof (Z.land_ones p 1) as L. change (Z.ones 1) with 1 in L. rewrite L by lia.
    change (2 ^ 1) with 2. pose proof (Z.mod_pos_bound p 2). lia. }
  split.
  - rewrite Z.shiftr_lor, Z.shiftr_div_pow2 by lia. change (2 ^ 1) with 2.
    rewrite Z.div_mul by lia. destruct Hl as [-> | ->]; simpl; apply Z.lor_0_r.
  - rewrite Z.land_lor_distr_l, <- Z.land_assoc. change (Z.land 1 1) with 1.
    assert (Z.land (off * 2) 1 = 0) as ->; [|apply Z.lor_0_l].
    pose proof (Z.land_ones (off * 2) 1) as L. change (Z.ones 1) with 1 in L. rewrite L by lia.
    apply Z.mod_mul. lia.
Qed.

(** ** Keys *)

Definition HOST_IF_CFG_RX_FIFO_ENABLE := BIT 0.
Definition HOST_IF_CFG_TX_PAD_TO_SDIO_BLK := BIT 3.
Definition HOST_IF_CFG_RX_PAD_TO_SDIO_BLK := BIT 4.
Definition HOST_IF_CFG_ADD_RX_ALIGNMENT := BIT 6.
Definition WL18XX_HOST_IF_LEN_SIZE_FIELD := 15.

Definition wl18xx_acx_host_if_cfg_bitmap (host_cfg_bitmap sdio_blk_size extra_mem_blks len_field_size : Z)
    (wl : wl1271) : Z * wl1271 :=
  wl1271_cmd_send (CMD_HOST_IF_CFG_BITMAP host_cfg_bitmap sdio_blk_size extra_mem_blks len_field_size) wl.

Definition wl18xx_set_host_cfg_bitmap (extra_mem_blk : Z) (wl : wl1271) : Z * wl1271 :=
  let tx := has_quirk wl WLCORE_QUIRK_TX_BLOCKSIZE_ALIGN in
  let rx := has_quirk wl WLCORE_QUIRK_RX_BLOCKSIZE_ALIGN in
  let host_cfg_bitmap :=
    Z.lor (Z.lor HOST_IF_CFG_RX_FIFO_ENABLE HOST_IF_CFG_ADD_RX_ALIGNMENT)
      (Z.lor (if tx then HOST_IF_CFG_TX_PAD_TO_SDIO_BLK else 0)
         (if rx then HOST_IF_CFG_RX_PAD_TO_SDIO_BLK else 0)) in
  let sdio_align_size := if tx || rx then WL12XX_BUS_BLOCK_SIZE else 0 in
  let '(ret, wl) := wl18xx_acx_host_if_cfg_bitmap host_cfg_bitmap sdio_align_size extra_mem_blk
                      WL18XX_HOST_IF_LEN_SIZE_FIELD wl in
  if ret <? 0 then (ret, wl) else (0, wl).

(** "when adding the first or removing the last GEM/TKIP interface, we have to
    adjust the number of spare blocks" *)
Definition change_spare (cmd : set_key_cmd) (k : key_conf) (wl : wl1271) : bool :=
  ((cipher k =? WL1271_CIPHER_SUITE_GEM) || (cipher k =? WLAN_CIPHER_SUITE_TKIP))
  && match cmd with
     | SET_KEY => extra_spare_vif_count wl =? 0
     | DISABLE_KEY => extra_spare_vif_count wl =? 1
     end.

Definition wl18xx_set_key (cmd : set_key_cmd) (v : nat) (sta : option ieee80211_sta) (k : key_conf)
    (wl : wl1271) : Z * key_conf * wl1271 :=
  if negb (change_spare cmd k wl) then wlcore_set_key cmd v sta k wl
  else
    let '(ret, k, wl) := wlcore_set_key cmd v sta k wl in
    if ret <? 0 then (ret, k, wl)
    else
      match cmd with
      | SET_KEY =>
          let '(ret, wl) := wl18xx_set_host_cfg_bitmap WL18XX_TX_HW_EXTRA_BLOCK_SPARE wl in
          if ret <? 0 then (ret, k, wl)
          else (ret, k, wl <| extra_spare_vif_count ::= Z.succ |>)
      | DISABLE_KEY =>
          let '(ret, wl) := wl18xx_set_host_cfg_bitmap WL18XX_TX_HW_BLOCK_SPARE wl in
          if ret <? 0 then (ret, k, wl)
          else (ret, k, wl <| extra_spare_vif_count ::= Z.pred |>)
      end.

#[export] Instance wl18xx_key_ops : key_ops := {| set_key := wl18xx_set_key |}.

Lemma host_cfg_keeps n wl : work_inv wl -> work_keeps wl (snd (wl18xx_set_host_cfg_bitmap n wl)).
Proof.
  intros W. unfold wl18xx_set_host_cfg_bitmap, wl18xx_acx_host_if_cfg_bitmap. cbv zeta.
  match goal with |- context [wl1271_cmd_send ?c wl] => pose proof (cmd_keeps c wl W) as K;
    destruct (wl1271_cmd_send c wl) as [ret w] end. simpl in K. by split_if.
Qed.

#[export] Instance wl18xx_key_laws : key_laws wl18xx_key_ops.
Proof.
  split. intros cmd v sta k wl W. change (set_key cmd v sta k wl) with (wl18xx_set_key cmd v sta k wl).
  unfold wl18xx_set_key. pose proof (wlcore_set_key_keeps cmd v sta k wl W) as K.
  split_if; [exact K|]. destruct (wlcore_set_key cmd v sta k wl) as [[ret k'] w]. simpl in K.
  split_if; [exact K|]. destruct cmd;
    (match goal with |- context [wl18xx_set_host_cfg_bitmap ?n w] =>
       pose proof (host_cfg_keeps n w (wk_inv _ _ K)) as K2;
       destruct (wl18xx_set_host_cfg_bitmap n w) as [ret2 w2] end;
     simpl in K2; pose proof (work_keeps_trans _ _ _ K K2) as K3; split_if; [exact K3|];
     eapply work_keeps_trans; [exact K3 | by apply view_keeps; [apply K3|..]]).
Qed.

(** *** The count of keys that need a spare block *)

(** The spare blocks per packet the firmware was last told of. *)
Definition spare_of (c : fw_cmd) : option Z :=
  match c with CMD_HOST_IF_CFG_BITMAP _ _ n _ => Some n | _ => None end.

Definition fw_spare (wl : wl1271) : option Z := head (omap spare_of (sent wl)).

(** Neither the count of keys nor the firmware's number changes. *)
Definition spare_kept (wl wl' : wl1271) : Prop :=
  extra_spare_vif_count wl' = extra_spare_vif_count wl /\ fw_spare wl' = fw_spare wl.

#[local] Instance spare_kept_trans : Transitive spare_kept.
Proof. intros a b c [? ?] [? ?]. split; congruence. Qed.

Lemma io_spare wl wl' : io_frame wl wl' -> extra_spare_vif_count wl' = extra_spare_vif_count wl.
Proof. by intros [(? & ? & ? & ? & ->) _ _ _]. Qed.

Lemma omap_replicate_none {A B} (f : A -> option B) n x l :
  f x = None -> omap f (replicate n x ++ l) = omap f l.
Proof. intros Hf. induction n as [|n IH]; [done|]. csimpl. by rewrite Hf. Qed.

Lemma cmd_spare c wl : spare_of c = None -> spare_kept wl (snd (wl1271_cmd_send c wl)).
Proof.
  intros Hc. split; [apply io_spare, cmd_send_io_frame|]. destruct (cmd_send_sent c wl) as (n & _ & S & _).
  unfold fw_spare. rewrite S. by rewrite omap_replicate_none.
Qed.

Lemma wl1271_set_key_spare v a id t n key s32 s16 sta wl :
  spare_kept wl (snd (wl1271_set_key v a id t n key s32 s16 sta wl)).
Proof.
  unfold wl1271_set_key. cbv zeta. split_if.
  - split_if; [done|]. set (r := if negb _ then _ else _).
    assert (spare_kept wl (snd r)) as K.
    { unfold r. split_if; [|by apply cmd_spare]. unfold wl1271_record_ap_key.
      split_if; [done|]. destruct (free_key_entry _ _ _) as [i|]; [by split_if | done]. }
    destruct r as [ret w]. simpl in K. by split_if.
  - repeat (split_if; [done|]). unfold wl1271_cmd_set_sta_key. cbv zeta. split_if; [done|].
    match goal with |- context [wl1271_cmd_send ?c wl] => pose proof (cmd_spare c wl eq_refl) as K;
      destruct (wl1271_cmd_send c wl) as [ret w] end. simpl in K. by split_if.
Qed.

Lemma rekey_spare v t sta ret wl : spare_kept wl (snd (rekey_arp v t sta ret wl)).
Proof.
  unfold rekey_arp. cbv zeta. split_if; [|done]. unfold wl1271_cmd_build_arp_rsp. cbv zeta.
  case_match; [|done]. etrans; [|by apply cmd_spare]. done.
Qed.

Lemma wlcore_set_key_spare cmd v sta k wl : spare_kept wl (snd (wlcore_set_key cmd v sta k wl)).
Proof.
  unfold wlcore_set_key. split_if; [done|].
  destruct (key_of_cipher k) as [[[t k'] seq]|]; [|done]. cbv zeta.
  destruct cmd; match goal with |- context [wl1271_set_key v ?a ?i ?t ?n ?b ?x ?y sta wl] =>
      pose proof (wl1271_set_key_spare v a i t n b x y sta wl) as K;
      destruct (wl1271_set_key v a i t n b x y sta wl) as [ret w] end; simpl in K; [|exact K].
  split_if; [exact K|]. pose proof (rekey_spare v t sta ret w) as K2.
  destruct (rekey_arp v t sta ret w) as [ret2 w2]. simpl in *. by etrans.
Qed.

Lemma host_cfg_spare n wl :
  let '(ret, wl') := wl18xx_set_host_cfg_bitmap n wl in
  extra_spare_vif_count wl' = extra_spare_vif_count wl /\ (0 <= ret -> fw_spare wl' = Some n).
Proof.
  unfold wl18xx_set_host_cfg_bitmap, wl18xx_acx_host_if_cfg_bitmap. cbv zeta.
  match goal with |- context [wl1271_cmd_send ?c wl] => pose proof (io_spare _ _ (cmd_send_io_frame c wl)) as K;
    pose proof (cmd_send_ok c (fst (wl1271_cmd_send c wl)) wl (snd (wl1271_cmd_send c wl))) as S;
    destruct (wl1271_cmd_send c wl) as [ret w] end. cbn [fst snd] in *.
  split_if; bool_to_prop; (split; [done|]); [lia|]. intros _. unfold fw_spare. by rewrite S.
Qed.

(** A key that needs a spare block, set or removed: the count changes only
    between none and one, and the firmware is told when it does. *)
Lemma wl18xx_set_key_spare cmd v sta k wl : might_change_spare k = true ->
  let '(ret, _, wl') := wl18xx_set_key cmd v sta k wl in
  let changed n m := extra_spare_vif_count wl' = n /\ fw_spare wl' = Some m in
  0 <= ret ->
  match cmd with
  | SET_KEY => if extra_spare_vif_count wl =? 0 then changed 1 WL18XX_TX_HW_EXTRA_BLOCK_SPARE
               else spare_kept wl wl'
  | DISABLE_KEY => if extra_spare_vif_count wl =? 1 then changed 0 WL18XX_TX_HW_BLOCK_SPARE
                   else spare_kept wl wl'
  end.
Proof.
  intros Hk. unfold wl18xx_set_key, change_spare. unfold might_change_spare in Hk. rewrite Hk. cbn [andb].
  pose proof (wlcore_set_key_spare cmd v sta k wl) as K.
  destruct (wlcore_set_key cmd v sta k wl) as [[ret k'] w]. simpl in K. destruct cmd.
  - destruct (Z.eqb_spec (extra_spare_vif_count wl) 0) as [E|E]; cbn [negb]; [|done].
    split_if; bool_to_prop; [lia|]. pose proof (host_cfg_spare WL18XX_TX_HW_EXTRA_BLOCK_SPARE w) as K2.
    destruct (wl18xx_set_host_cfg_bitmap _ w) as [r2 w2]. destruct K as [K _], K2 as [C S].
    split_if; bool_to_prop; [lia|]. intros _. split; [simpl; lia | by apply S].
  - destruct (Z.eqb_spec (extra_spare_vif_count wl) 1) as [E|E]; cbn [negb]; [|done].
    split_if; bool_to_prop; [lia|]. pose proof (host_cfg_spare WL18XX_TX_HW_BLOCK_SPARE w) as K2.
    destruct (wl18xx_set_host_cfg_bitmap _ w) as [r2 w2]. destruct K as [K _], K2 as [C S].
    split_if; bool_to_prop; [lia|]. intros _. split; [simpl; lia | by apply S].
Qed.

End Wl18xx.
