(* ===== verification/Examples.v ===== *)
(** * A concrete device

    A 128x device with a station interface (1) and an access point (2), each
    with its links, and one data frame of each: the states on which the
    theorems are instantiated. *)

From S2P Require Import Prelude Ieee80211 WlState ChipOps Io Queues LinkQueues.
From S2P Require Import PowerSave TxPath TxAllocFacts TxSched TxInv SchedFacts TxMoves.
From S2P Require Import TxPrep TxWork TxDone TxDoneFacts FwStatus Rx Event Irq Links.
From S2P Require Import LinksFacts Init Iface IfaceFacts Recovery Driver.

Definition hw_ex : wl_hw := {|
  quirks := 0;
  chip_id := CHIP_ID_1283_PG20;
  num_tx_desc := 16;
  num_rx_desc := 8;
  aggr_buf_size := 4096;
  system_hlid := 0;
  dummy_packet := 0;
  hw_tx_rate_tbl_size := 0;
  hw_min_ht_rate := 8;
  band_rate_to_idx := fun _ => [];
  rx_streaming_interval := 0;
  rx_streaming_always := false;
  rx_streaming_queues := 0;
  packet_memory_pool_start := 0;
  tx_result_addr := 0;
  rtable_slv_mem_data := 0;
  rtable_raw_fw_status := 0;
  rtable_interrupt_no_clear := 0;
  rtable_interrupt_ack := 0;
  rtable_interrupt_trig := 0;
  cmd_box_addr := 0;
  mbox_ptr := [0; 64];
  edge_irq := false;
  checksum_param := true;
  fw_status_priv_len := 0;
  aggr_pkts_reason_num := 32;
  cmd_polls := 1;
  event_polls := 1;
  bitrates := fun _ => [1; 2];
  fwlog_mem_blocks := 2;
  fwlog_dbg_pins := false;
  fwlog_continuous := false;
  bug_on_recovery := false;
  no_recovery := false;
  sta_sleep_auth := WL1271_PSM_ILLEGAL;
  conf_basic_rate := 1;
  conf_basic_rate_5 := 64;
  ap_aging_period := 300;
  mr_fw := false;
  have_fw_stats := true;
  ptable_boot := partition0;
  ptable_work := partition0;
  rtable_pc_on_recovery := 0;
  number_of_assembled_ant2_4 := 1;
  conf_scan := Build_conf_scan_settings 7500 30000 100000 150000 2;
  conf_sched_scan := Build_conf_sched_scan_settings 7500 22500 2000 350 100000 150000 2 (-90) 0;
  tmpl_short_retry_limit := 10;
  tmpl_long_retry_limit := 10;
  dynamic_ps_timeout := 1500;
  wake_up_event := 1;
  listen_interval := 1;
  bet_enable := true;
  bet_max_consecutive := 50;
  find_sta := fun _ _ => true;
  rx_alloc := fun _ => true
|}.

Lemma hw_ex_ok : hw_ok hw_ex.
Proof. split; try done. by exists 16. Qed.

Definition vif_sta_ex : wl12xx_vif :=
  vif0 <| vif_flags := BIT WLVIF_FLAG_INITIALIZED |>
       <| bss_type := BSS_TYPE_STA_BSS |> <| sta_hlid := 1 |> <| ba_support := true |>
       <| ba_allowed := true |>.
Definition vif_ap_ex : wl12xx_vif :=
  vif0 <| vif_flags := BIT WLVIF_FLAG_INITIALIZED |>
       <| bss_type := BSS_TYPE_AP_BSS |> <| ap_global_hlid := 2 |> <| ap_bcast_hlid := 3 |>.

(** A 30-byte QoS data frame of the station interface. *)
Definition frame_ex (v : nat) : sk_buff :=
  sk_buff0 <| skb_data := [136; 1] ++ replicate 28 0 |>
           <| skb_headroom := replicate 24 0 |>
           <| skb_cb := tx_info0 <| control_vif := Some v |> |>.

Definition device_ex : wl1271 := powered_on (wlcore_alloc_hw hw_ex).

Definition linked_ex : wl1271 :=
  grant 2 3 (grant 2 2 (grant 1 1 (register 2 vif_ap_ex (register 1 vif_sta_ex device_ex)))).

(** The device with two frames mac80211 has not handed over yet, and 100 blocks
    of firmware memory. *)
Definition wl_ex : wl1271 :=
  (create_skb 6 (frame_ex 2) (create_skb 5 (frame_ex 1) linked_ex))
    <| tx_blocks_available := 100 |>.

Lemma linked_ex_inv : work_inv linked_ex.
Proof.
  assert (work_inv (register 2 vif_ap_ex (register 1 vif_sta_ex device_ex))) as W.
  { apply register_inv; [apply register_inv; [apply work_inv_state, alloc_inv, hw_ex_ok | | done]| | done];
      apply (bool_decide_unpack _); vm_compute; exact I. }
  assert (work_inv (grant 1 1 (register 2 vif_ap_ex (register 1 vif_sta_ex device_ex)))) as W1
    by (apply grant_keeps; [exact W | by repeat constructor | done | done]).
  assert (work_inv (grant 2 2 (grant 1 1 (register 2 vif_ap_ex (register 1 vif_sta_ex device_ex))))) as W2
    by (apply grant_keeps; [exact W1 | by repeat constructor | done | done]).
  apply grant_keeps; [exact W2 | by repeat constructor | done | done].
Qed.

Lemma blocks_inv n wl : work_inv wl -> work_inv (wl <| tx_blocks_available := n |>).
Proof. intros W. apply (wk_inv wl). by apply view_keeps. Qed.

Lemma wl_ex_inv : work_inv wl_ex.
Proof.
  assert (work_inv (create_skb 5 (frame_ex 1) linked_ex)) as W
    by (apply create_skb_inv; [apply linked_ex_inv | reflexivity | done]).
  assert (work_inv (create_skb 6 (frame_ex 2) (create_skb 5 (frame_ex 1) linked_ex))) as W2
    by (apply create_skb_inv; [exact W | reflexivity | done]).
  apply blocks_inv, W2.
Qed.

Lemma wl_ex_driver_inv : driver_inv wl_ex.
Proof.
  split; [apply wl_ex_inv|]. split; [|discriminate]. intros v Hv. change (v ∈ [2%nat; 1%nat]) in Hv.
  apply elem_of_cons in Hv as [->|Hv%list_elem_of_singleton]; [|subst]; reflexivity.
Qed.

Lemma wl_ex_copies s : copies s wl_ex = 0.
Proof. reflexivity. Qed.

Lemma frame_ex_fits : frame_fits wl_ex 5.
Proof. split_and!; [by eexists | by vm_compute | by eexists]. Qed.

Lemma frame_ex_listed : from_listed wl_ex 5.
Proof. intros v E. vm_compute in E. injection E as <-. by repeat constructor. Qed.

Lemma bus_inv b wl : work_inv wl -> work_inv (wl <| bus := b |>).
Proof. intros W. apply (wk_inv wl). by apply view_keeps. Qed.

(** One frame queued on the station's link. *)
Definition queued_ex : wl1271 := wl1271_op_tx 5 wl_ex.

Lemma queued_ex_inv : work_inv queued_ex.
Proof.
  apply (op_tx_work 5 wl_ex wl_ex_inv); [discriminate | apply frame_ex_fits
    | apply frame_ex_listed | apply wl_ex_copies].
Qed.

(** The transfers of a command the firmware of a 12xx completes: the command
    (twice, as the trigger writes it again), the trigger, the interrupt register, the status word, the acknowledgement. *)
Definition cmd_done_ex : list (Z * list Z) :=
  [(0, []); (0, []); (0, []); (0, [16; 0; 0; 0]); (0, [0; 0; 1; 0]); (0, [])].

Definition serving_ex : wl1271 := wl_ex <| bus := cmd_done_ex ++ cmd_done_ex |>.

Lemma serving_ex_inv : work_inv serving_ex.
Proof. apply bus_inv, wl_ex_inv. Qed.
