(* ===== verification/DriverTheorems.v ===== *)
(** * Theorems about the whole driver

    What holds in every state the driver can reach, for both chip families,
    and the flow-control contract with mac80211. *)

From S2P Require Import Prelude Ieee80211 WlState ChipOps Io Queues LinkQueues.
From S2P Require Import PowerSave TxPath TxAllocFacts TxSched TxInv SchedFacts TxMoves.
From S2P Require Import TxPrep TxWork TxDone TxDoneFacts FwStatus MemPool Rx Event Irq Links.
From S2P Require Import LinksFacts BaFacts Init Iface IfaceFacts Recovery Keys KeysFacts Scan ScanFacts.
From S2P Require Import Driver Wl12xx Wl18xx Examples.

(** ** Histories *)

Lemma occ_not_in s l : s ∉ l -> occ s l = 0.
Proof.
  induction l as [|x l IH]; intros Hn; [done|]. rewrite occ_cons, IH by set_solver.
  unfold is_skb. rewrite bool_decide_eq_false_2 by set_solver. lia.
Qed.

(** C1.  No buffer is lost or duplicated, whatever happens and in whatever
    order, the removal of interfaces, the stopping of the device and its
    recovery from a firmware failure included: in every state reached by
    admissible requests the invariant of the driver holds, each buffer mac80211
    has handed over is in exactly one place (one link queue, one firmware
    descriptor, the deferred queue, or given back exactly once), and a buffer
    that was not handed over is in none. *)
Theorem driver_conserves `{laws : wlcore_ops_laws} `{!tx_compl_laws ops} `{klaws : key_laws} wl0 g wl :
  driver_inv wl0 -> (forall s, s <> dummy_packet (hw wl0) -> copies s wl0 = 0) ->
  reachable wl0 g wl ->
  driver_inv wl /\
  forall s, s <> dummy_packet (hw wl0) ->
    (s ∈ given g -> copies s wl = 1) /\ (s ∉ given g -> copies s wl = 0).
Proof.
  intros W0 C0 R. destruct (reachable_spec wl0 g wl W0 C0 R) as (W & Eh & C & _).
  split; [done|]. intros s Hs. rewrite C by done. split; [|apply occ_not_in].
  intros Hin%occ_pos. pose proof (wi_unique _ (proj1 W) s) as U. rewrite Eh, C in U by done.
  specialize (U Hs). lia.
Qed.

Definition ledger_ex : ledger := {| given := [5%nat]; accepted := 0; dropped := 0 |}.

Lemma reach_ex : @reachable Wl12xx.wl12xx_ops Wl12xx.wl12xx_key_ops wl_ex ledger_ex (wl1271_op_tx 5 wl_ex).
Proof.
  apply (reach_step wl_ex {| given := []; accepted := 0; dropped := 0 |} wl_ex (OpTx 5));
    [constructor | | reflexivity].
  split_and!; [done | apply frame_ex_fits | apply frame_ex_listed | reflexivity].
Qed.

Lemma driver_conserves_witness :
  driver_inv (wl1271_op_tx 5 wl_ex) /\ copies 5 (wl1271_op_tx 5 wl_ex) = 1.
Proof.
  destruct (@driver_conserves Wl12xx.wl12xx_ops Wl12xx.wl12xx_laws Wl12xx.wl12xx_compl_laws Wl12xx.wl12xx_key_ops Wl12xx.wl12xx_key_laws wl_ex ledger_ex (wl1271_op_tx 5 wl_ex))
    as [W C]; [apply wl_ex_driver_inv | intros s _; apply wl_ex_copies | apply reach_ex |].
  split; [exact W|]. apply (C 5%nat ltac:(discriminate)). by left.
Defined.

(** C2.  Every request is served: from a reachable state an admissible request
    runs to its end, with no NULL dereference and no loop that does not
    terminate, for either chip family. *)
Theorem driver_serves `{laws : wlcore_ops_laws} `{!tx_compl_laws ops} `{klaws : key_laws} wl0 g wl r :
  driver_inv wl0 -> (forall s, s <> dummy_packet (hw wl0) -> copies s wl0 = 0) ->
  reachable wl0 g wl -> admissible r wl ->
  exists wl', serve r wl = Ret wl' /\ reachable wl0 (account r wl g) wl'.
Proof.
  intros W0 C0 R A. destruct (reachable_spec wl0 g wl W0 C0 R) as (W & _).
  destruct (serve_spec r wl W A) as (wl' & E & _). exists wl'. split; [done|].
  by eapply reach_step.
Qed.

Lemma driver_serves_witness : exists wl',
  @serve Wl12xx.wl12xx_ops Wl12xx.wl12xx_key_ops (Interrupt 1) (wl1271_op_tx 5 wl_ex) = Ret wl' /\
  @reachable Wl12xx.wl12xx_ops Wl12xx.wl12xx_key_ops wl_ex ledger_ex wl'.
Proof.
  apply (@driver_serves Wl12xx.wl12xx_ops Wl12xx.wl12xx_laws Wl12xx.wl12xx_compl_laws Wl12xx.wl12xx_key_ops Wl12xx.wl12xx_key_laws wl_ex ledger_ex (wl1271_op_tx 5 wl_ex) (Interrupt 1));
    [apply wl_ex_driver_inv | intros s _; apply wl_ex_copies | apply reach_ex | exact I].
Defined.

(** ** Allocation *)



(** ** Flow control *)

(** Requests to stop and wake queues, in any order. *)
Inductive flow_op :=
| Stop (q : Z) (r : wlcore_queue_stop_reason)
| Wake (q : Z) (r : wlcore_queue_stop_reason)
| StopAll (r : wlcore_queue_stop_reason)
| WakeAll (r : wlcore_queue_stop_reason)
| LowWatermark
| ResetStopped.

Definition flow_step (wl : wl1271) (op : flow_op) : wl1271 :=
  match op with
  | Stop q r => wlcore_stop_queue q r wl
  | Wake q r => wlcore_wake_queue q r wl
  | StopAll r => wlcore_stop_queues r wl
  | WakeAll r => wlcore_wake_queues r wl
  | LowWatermark => wl1271_handle_tx_low_watermark wl
  | ResetStopped => wlcore_reset_stopped_queues wl
  end.

Definition flow_valid (op : flow_op) : Prop :=
  match op with Stop q _ | Wake q _ => is_queue q | _ => True end.

Lemma flow_step_ok op wl : flow_valid op -> queues_ok wl -> queues_ok (flow_step wl op).
Proof.
  intros Hv Q. destruct op; simpl in *.
  - by apply stop_queue_ok.
  - by apply wake_queue_ok.
  - by apply stop_queues_ok.
  - by apply wake_queues_ok.
  - by apply low_watermark_ok.
  - by apply reset_stopped_queues_ok.
Qed.

(** C4.  The queues mac80211 believes stopped are those with a stop reason:
    after any sequence of stop and wake requests the last word mac80211 heard of
    a queue is [stop] exactly when the driver still has a reason to stop it, so
    a wake for one reason never restarts a queue stopped for another. *)
Theorem flow_control_refines ops wl q :
  queues_ok wl -> Forall flow_valid ops -> is_queue q ->
  mac_stopped (wl1271_tx_get_mac80211_queue q) (log (fold_left flow_step ops wl))
  = wlcore_is_queue_stopped (fold_left flow_step ops wl) q.
Proof.
  intros Q V Hq. apply queue_ok; [|done]. revert wl Q.
  induction V as [|op ops Hop _ IH]; intros wl Q; [done|]. apply IH. by apply flow_step_ok.
Qed.

Definition flow_ex : list flow_op :=
  [Stop 0 WLCORE_QUEUE_STOP_REASON_WATERMARK; StopAll WLCORE_QUEUE_STOP_REASON_FLUSH;
   Wake 0 WLCORE_QUEUE_STOP_REASON_WATERMARK].

Lemma flow_control_refines_witness :
  mac_stopped 2 (log (fold_left flow_step flow_ex device_ex)) = true.
Proof.
  change 2 with (wl1271_tx_get_mac80211_queue 0).
  rewrite (flow_control_refines flow_ex device_ex 0); [reflexivity | | | done].
  - apply (inv_queues _ (wi_inv _ (work_inv_state WLCORE_STATE_ON _ (alloc_inv hw_ex hw_ex_ok)))).
  - repeat constructor; done.
Defined.
