(* ===== verification/TxTheorems.v ===== *)
(** * Theorems about the transmit path *)

From S2P Require Import Prelude Ieee80211 WlState ChipOps Io Queues LinkQueues.
From S2P Require Import PowerSave TxPath TxAllocFacts TxSched TxInv SchedFacts TxMoves.
From S2P Require Import TxPrep TxWork TxDone TxDoneFacts FwStatus MemPool TxExact Irq.
From S2P Require Import LinksFacts Init Driver Wl12xx Wl18xx Examples.

(** ** Queueing *)

(** C5.  Accepting a frame of a registered interface.  If its link is valid and
    the interface's own, and its queue is not stopped or the watermark is among
    the reasons (the guard of the code, which also lets a frame through when
    another reason holds beside the watermark), the frame is put at the tail of
    the queue of its link and access category, the count of that category goes
    up by one, reaching the high watermark stops the queue and tells mac80211 if
    it was running, the transmit work is asked for unless it is due, and the
    rest of the state, all other queues included, is as it was.  Otherwise the
    frame is given back to mac80211 and nothing else happens.  Either way the
    invariant holds and the frame has one more holder. *)
Theorem op_tx_queues skb wl :
  tx_inv wl -> skb <> dummy_packet (hw wl) -> from_listed wl skb ->
  let wl' := wl1271_op_tx skb wl in
  tx_inv wl' /\
  (forall s, s <> dummy_packet (hw wl) -> copies s wl' = copies s wl + is_skb s skb) /\
  (admits wl skb -> is_link (link_of wl skb) /\ tx_accepted skb wl wl') /\
  (~ admits wl skb -> wl' = emit (EvFreeTxskb skb) wl).
Proof.
  intros I Hnd Hl. destruct (op_tx_spec skb wl I Hnd Hl) as (? & _ & ? & _). split_and!; [done | done | |].
  - intros A. destruct (admits_owned skb wl I Hl A) as [Hh _]. split; [done | by apply op_tx_accepts].
  - apply op_tx_refuses.
Qed.

Lemma admits_ex : admits wl_ex 5.
Proof. split; [discriminate | intros v [= <-]; reflexivity | left; reflexivity]. Qed.

Lemma op_tx_queues_witness : tx_inv (wl1271_op_tx 5 wl_ex) /\ link_queue (wl1271_op_tx 5 wl_ex) 1 3 = [5%nat].
Proof.
  destruct (op_tx_queues 5 wl_ex (wi_inv _ wl_ex_inv) ltac:(discriminate) frame_ex_listed) as (I & _ & A & _).
  split; [exact I|]. destruct (A admits_ex) as [_ [Q _ _ _ _]]. rewrite Q by done. reflexivity.
Defined.



(** C7.  Work conservation: the scheduler returns nothing only when every
    registered interface's links and the system link are empty and no dummy
    packet is due; otherwise it takes one frame out of a queue (and only that
    frame), which is the dummy packet on the system link or a queued frame. *)
Theorem dequeue_work_conserving wl :
  counts_ok wl -> vifs_ok wl -> pkts_bounded wl ->
  match wl1271_skb_dequeue wl with
  | (None, wl') => tx_idle wl /\ same_view wl wl'
  | (Some (skb, hlid), wl') => dequeued skb hlid wl wl'
  end.
Proof.
  intros C V P. pose proof (skb_dequeue_cases wl C V) as D.
  destruct (wl1271_skb_dequeue wl) as [[[skb hlid]|] wl']; [done|].
  destruct D as (Vw & _ & I). split; [by apply I | done].
Qed.

Lemma dequeue_work_conserving_witness : exists wl',
  wl1271_skb_dequeue queued_ex = (Some (5%nat, 1), wl') /\ dequeued 5 1 queued_ex wl'.
Proof.
  destruct (op_tx_spec 5 wl_ex (wi_inv _ wl_ex_inv) ltac:(discriminate) frame_ex_listed) as ([C _ _ V _ _] & _).
  pose proof (dequeue_work_conserving queued_ex C V) as D.
  assert (exists wl', wl1271_skb_dequeue queued_ex = (Some (5%nat, 1), wl')) as [wl' E]
    by (eexists; vm_compute; reflexivity).
  exists wl'. split; [exact E|]. rewrite E in D. apply D.
  intros q Hq. by apply is_queue_cases in Hq as [-> | [-> | [-> | ->]]].
Defined.

(** C8.  A frame the firmware cannot take now goes back where it came from:
    putting it at the head of its link's queue undoes the dequeue for every
    queue and count, and the next scan of the interface starts at that link. *)
Theorem requeue_undoes_dequeue v skb h wl w1 w2 :
  counts_ok wl -> is_link h -> is_Some (vifs wl !! v) ->
  wl12xx_lnk_skb_dequeue h wl = (Some skb, w1) ->
  wl1271_skb_queue_head (Some v) skb h w1 = Some w2 ->
  (forall i q, is_queue q -> link_queue w2 i q = link_queue wl i q) /\
  (forall q, is_queue q -> zget 0 (tx_queue_count w2) q = zget 0 (tx_queue_count wl) q) /\
  head (scan_order (last_tx_hlid (vif_at w2 v))) = Some h.
Proof.
  intros C Hh Hv E1 E2. pose proof (lnk_dequeue_spec h wl C Hh) as D. rewrite E1 in D.
  destruct D as (T & Hnd & q & rest & Hq & El & Ew & _).
  assert (ac_of wl skb = q) as Eq by (eapply (co_placed _ _ C h q skb); [done | rewrite El; by left]).
  unfold wl1271_skb_queue_head in E2.
  assert (wl12xx_is_dummy_packet w1 skb = false) as Ed
    by (unfold wl12xx_is_dummy_packet; rewrite Ew; simpl; apply Nat.eqb_neq; congruence).
  rewrite Ed in E2. change (wl1271_tx_get_queue (skb_queue_mapping (skb_at w1 skb))) with (ac_of w1 skb) in E2.
  assert (ac_of w1 skb = q) as Eq1 by (rewrite Ew; exact Eq). rewrite Eq1 in E2. injection E2 as <-.
  pose proof (tk_counts _ _ _ T) as C1.
  assert (forall i q', link_queue w1 i q' = if (h =? i) && (q =? q') then rest else link_queue wl i q') as L1.
  { intros i q'. rewrite Ew. change (link_queue (add_queue_count ?a ?b ?w)) with (link_queue w).
    by apply (link_queue_set _ _ _ _ _ _ _ C). }
  split_and!.
  - intros i q' Hq'. change (link_queue (skb_queue_head h q skb w1) i q' = link_queue wl i q').
    unfold skb_queue_head. rewrite (link_queue_set _ _ _ _ _ _ _ C1 Hh Hq), !L1, !Z.eqb_refl. simpl.
    destruct ((h =? i) && (q =? q')) eqn:Eb; [|done]. bool_to_prop. subst. by rewrite El.
  - intros q' Hq'.
    change (tx_queue_count (add_queue_count q 1 (upd_vif v _ (skb_queue_head h q skb w1))))
      with (tx_queue_count (add_queue_count q 1 w1)).
    rewrite add_queue_count_at by (done || apply (co_counts _ _ C1)). rewrite Ew.
    rewrite add_queue_count_at by (done || apply (co_counts _ _ C)).
    change (tx_queue_count (set_link_queue h q rest wl)) with (tx_queue_count wl). split_if; lia.
  - change (vif_at (add_queue_count q 1 ?w) v) with (vif_at w v).
    rewrite vif_at_upd by (rewrite Ew; exact Hv). rewrite decide_True by done.
    unfold scan_order, is_link, WL12XX_MAX_LINKS in *. simpl. f_equal.
    rewrite Z.add_0_r, Z.mod_mod, Zplus_mod_idemp_l by lia.
    replace (h + 12 - 1 + 1) with (h + 1 * 12) by lia. rewrite Z.mod_add by lia. by apply Z.mod_small.
Qed.

Lemma requeue_undoes_dequeue_witness : exists w1 w2,
  wl12xx_lnk_skb_dequeue 1 queued_ex = (Some 5%nat, w1) /\
  wl1271_skb_queue_head (Some 1%nat) 5 1 w1 = Some w2 /\ link_queue w2 1 3 = [5%nat].
Proof.
  assert (exists w1, wl12xx_lnk_skb_dequeue 1 queued_ex = (Some 5%nat, w1)) as [w1 E1]
    by (eexists; vm_compute; reflexivity).
  assert (exists w2, wl1271_skb_queue_head (Some 1%nat) 5 1 (snd (wl12xx_lnk_skb_dequeue 1 queued_ex)) = Some w2)
    as [w2 E2] by (eexists; vm_compute; reflexivity).
  rewrite E1 in E2. exists w1, w2. split_and!; [exact E1 | exact E2 |].
  destruct (op_tx_spec 5 wl_ex (wi_inv _ wl_ex_inv) ltac:(discriminate) frame_ex_listed) as ([C _ _ _ _ _] & _).
  destruct (requeue_undoes_dequeue 1 5 1 queued_ex w1 w2) as [Q _];
    [exact C | done | by eexists | exact E1 | exact E2 |].
  rewrite Q by done. reflexivity.
Defined.

(** ** Preparing a frame *)

(** C9.  A prepared frame lies whole inside the aggregation buffer: at its
    offset comes a descriptor, which names the identifier the frame is
    registered under and its link, then every byte of the frame, its header
    apart from the rest by the space for the TKIP header if its key needs one,
    then zeroes up to the bus alignment; no other byte of the buffer changes,
    and the next frame starts aligned and inside the buffer. *)
Theorem prepare_fits `{laws : wlcore_ops_laws} wlvif skb off hlid wl ret wl' :
  tx_inv wl -> is_Some (skbs wl !! skb) -> skb_len (skb_at wl skb) <= 65536 ->
  (tx_extra wl (control_hw_key (skb_cb (skb_at wl skb))) = 0 \/
   ieee80211_hdrlen (frame_control (skb_data (skb_at wl skb))) <= skb_len (skb_at wl skb)) ->
  0 <= off -> off + 2 ^ 17 <= 2 ^ 32 ->
  (tx_alignment wl | off) -> (tx_alignment wl | aggr_buf_size (hw wl)) ->
  wl1271_prepare_tx_frame wlvif skb off hlid wl = Some (ret, wl') -> 0 <= ret ->
  off + ret <= aggr_buf_size (hw wl) /\ (tx_alignment wl | ret) /\
  exists id desc gap, placed skb off hlid ret wl wl' id desc gap.
Proof. apply prepare_placed. Qed.

Definition prepared_ex : option (Z * wl1271) :=
  @wl1271_prepare_tx_frame Wl12xx.wl12xx_ops (Some 1%nat) 5 0 1 wl_ex.

Lemma prepare_fits_witness : exists wl' id desc,
  prepared_ex = Some (48, wl') /\ placed 5 0 1 48 wl_ex wl' id desc [].
Proof.
  assert (exists wl', prepared_ex = Some (48, wl')) as [wl' E] by (eexists; vm_compute; reflexivity).
  destruct (@prepare_fits Wl12xx.wl12xx_ops Wl12xx.wl12xx_laws (Some 1%nat) 5 0 1 wl_ex 48 wl')
    as (_ & _ & id & desc & gap & P);
    [apply wl_ex_inv | by eexists | by vm_compute | left; reflexivity | done | done | by exists 0 | by exists 1024
    | exact E | done |].
  assert (gap = []) as -> by (pose proof (pl_gap _ _ _ _ _ _ _ _ _ P) as L; by destruct gap).
  exists wl', id, desc. split; [exact E | exact P].
Defined.

(** C10.  Round trip of the private header: taking the descriptor, the TKIP
    space and the padding off a frame that went to the firmware gives back
    exactly the bytes mac80211 handed over. *)
Theorem private_header_roundtrip `{laws : wlcore_ops_laws} wlvif skb off hlid wl ret wl' :
  tx_inv wl -> is_Some (skbs wl !! skb) -> wl12xx_is_dummy_packet wl skb = false ->
  skb_len (skb_at wl skb) <= 65536 ->
  ieee80211_hdrlen (frame_control (skb_data (skb_at wl skb))) <= skb_len (skb_at wl skb) ->
  wl1271_prepare_tx_frame wlvif skb off hlid wl = Some (ret, wl') -> 0 <= ret ->
  skb_data (remove_private_header wl' (skb_at wl' skb)) = skb_data (skb_at wl skb).
Proof. apply prepare_strip. Qed.

Lemma private_header_roundtrip_witness : exists wl', prepared_ex = Some (48, wl') /\
  skb_data (remove_private_header wl' (skb_at wl' 5)) = skb_data (frame_ex 1).
Proof.
  assert (exists wl', prepared_ex = Some (48, wl')) as [wl' E] by (eexists; vm_compute; reflexivity).
  exists wl'. split; [exact E|].
  apply (@private_header_roundtrip Wl12xx.wl12xx_ops Wl12xx.wl12xx_laws (Some 1%nat) 5 0 1 wl_ex 48 wl');
    [apply wl_ex_inv | by eexists | done | by vm_compute | by vm_compute | exact E | done].
Defined.

(** Transmit identifiers: a successful allocation takes a free identifier
    below [num_tx_desc] and registers the frame under it, failure means all are
    in use, and freeing the identifier restores the tables. *)
Theorem tx_id_roundtrip skb wl id wl' :
  ids_ok wl -> wl1271_alloc_tx_id skb wl = (id, wl') ->
  ids_ok wl' /\
  ((id = - EBUSY /\ wl' = wl /\ tx_frames_cnt wl = num_tx_desc (hw wl)) \/
   (0 <= id < num_tx_desc (hw wl) /\ frame_at wl id = None /\ frame_at wl' id = Some skb /\
    exists f, wl1271_free_tx_id id wl' = wl <| flags := f |> /\
      forall i, i <> WL1271_FLAG_FW_TX_BUSY -> test_bit i f = flag wl i)).
Proof.
  intros H E. pose proof (alloc_tx_id_spec skb wl H) as A. rewrite E in A.
  destruct A as [(-> & -> & C)|(R & F & B & -> & H')]; [split; [done | by left]|].
  split; [done|]. right. split_and!; [lia | lia | done | |].
  - unfold frame_at, alloc_state. simpl. apply zget_zset_eq. rewrite (ids_len _ H).
    pose proof (ids_num _ H). lia.
  - by apply free_alloc_restores.
Qed.

Lemma tx_id_roundtrip_witness : exists wl', wl1271_alloc_tx_id 5 wl_ex = (0, wl') /\ frame_at wl' 0 = Some 5%nat.
Proof.
  assert (exists wl', wl1271_alloc_tx_id 5 wl_ex = (0, wl')) as [wl' E] by (eexists; reflexivity).
  exists wl'. split; [exact E|].
  destruct (tx_id_roundtrip 5 wl_ex 0 wl' (inv_ids _ (wi_inv _ wl_ex_inv)) E) as [_ [(E0 & _)|(_ & _ & F & _)]];
    [discriminate E0 | exact F].
Defined.

(** ** Firmware memory *)

(** C12.  Block accounting, charging side: with [T] blocks in the firmware, [A]
    handed out so far and [R] given back, allocating for a frame charges exactly
    the [n] blocks the chip family computes for its length with descriptor and
    spare blocks, moves [A] up by [n] and registers the frame under a free
    identifier; it fails with [-EAGAIN], nothing changed, when the frame does
    not fit behind the offset, and with [-EBUSY] when no identifier is free or
    fewer than [n] blocks are available, nothing changed but the busy flag. *)
Theorem allocate_accounts `{laws : wlcore_ops_laws} T A R wlvif skb extra off hlid gem wl :
  ids_ok wl -> pool_ok T A R wl -> 0 <= extra <= 4 -> skb_len (skb_at wl skb) <= 60000 ->
  let total_len := skb_len (skb_at wl skb) + TX_DESC_SIZE + extra in
  let n := calc_tx_blocks wl total_len (get_spare_blocks wl gem) in
  let '(ret, wl') := wl1271_tx_allocate wlvif skb extra off hlid gem wl in
  (ret = - EAGAIN /\ wl' = wl /\ aggr_buf_size (hw wl) < u32 (off + total_len)) \/
  (ret = - EBUSY /\ u32 (off + total_len) <= aggr_buf_size (hw wl) /\
   (tx_frames_cnt wl = num_tx_desc (hw wl) \/ tx_blocks_available wl < n) /\
   exists f, wl' = wl <| flags := f |> /\
     forall i, i <> WL1271_FLAG_FW_TX_BUSY -> test_bit i f = flag wl i) \/
  (ret = 0 /\ u32 (off + total_len) <= aggr_buf_size (hw wl) /\ 0 < n <= tx_blocks_available wl /\
   pool_ok T (A + n) R wl' /\
   exists id, 0 <= id < num_tx_desc (hw wl) /\ frame_at wl id = None /\ frame_at wl' id = Some skb).
Proof. apply tx_allocate_pool. Qed.

Lemma pool_ex : pool_ok 100 0 0 wl_ex.
Proof. split; try done; lia. Qed.

Lemma allocate_accounts_witness : exists wl',
  @wl1271_tx_allocate Wl12xx.wl12xx_ops (Some 1%nat) 5 0 0 1 false wl_ex = (0, wl') /\
  pool_ok 100 (0 + Wl12xx.wl12xx_calc_tx_blocks wl_ex 46 1) 0 wl'.
Proof.
  pose proof (@allocate_accounts Wl12xx.wl12xx_ops Wl12xx.wl12xx_laws 100 0 0 (Some 1%nat) 5 0 0 1 false wl_ex
    (inv_ids _ (wi_inv _ wl_ex_inv)) pool_ex ltac:(lia) ltac:(by vm_compute)) as P.
  assert (exists wl', @wl1271_tx_allocate Wl12xx.wl12xx_ops (Some 1%nat) 5 0 0 1 false wl_ex = (0, wl'))
    as [wl' E] by (eexists; vm_compute; reflexivity).
  rewrite E in P. destruct P as [(H & _)|[(H & _)|(_ & _ & _ & P & _)]]; [discriminate H | discriminate H|].
  exists wl'. split; [exact E | exact P].
Defined.

(** C13.  Block accounting, settling side: a firmware status whose 32-bit
    release counter stands at [R'] and whose 8-bit packet counters stand at
    [r'] leaves exactly [A - R'] blocks and [a - r'] packets outstanding, across
    wrap-around of the counters, wakes the transmit path if anything was
    released, and keeps every buffer. *)
Theorem status_settles T A R R' a r r' status wl :
  work_inv wl -> pool_ok T A R wl -> pkts_ok a r wl -> status_reports T R' r' status ->
  R <= R' <= A -> (forall i, is_queue i -> r i <= r' i <= a i /\ r' i - r i < 256) ->
  let wl' := process_status status wl in
  work_keeps wl wl' /\ pool_ok T A R' wl' /\ pkts_ok a r' wl' /\
  (R < R' -> flag wl' WL1271_FLAG_FW_TX_BUSY = false).
Proof. apply process_status_settles. Qed.

(** Three blocks and a voice packet outstanding, all reported back. *)
Definition charged_ex : wl1271 :=
  wl_ex <| tx_blocks_available := 97 |> <| tx_allocated_blocks := 3 |>
        <| tx_watchdog_armed := true |> <| tx_allocated_pkts := [0; 0; 0; 1] |>.

Definition status_ex : wl_fw_status :=
  Build_wl_fw_status 0 0 0 0 [] 0 0 0 3 100 [0; 0; 0; 1] [] 0 [].

Lemma charged_inv wl a b c d : work_inv wl -> work_inv
  (wl <| tx_blocks_available := a |> <| tx_allocated_blocks := b |>
      <| tx_watchdog_armed := c |> <| tx_allocated_pkts := d |>).
Proof. intros W. apply (wk_inv wl). by apply view_keeps. Qed.

Lemma status_settles_witness :
  pool_ok 100 3 3 (process_status status_ex charged_ex).
Proof.
  refine (proj1 (proj2 (status_settles 100 3 0 3 (fun i => if i =? 3 then 1 else 0) (fun _ => 0)
    (fun i => if i =? 3 then 1 else 0) status_ex charged_ex _ _ _ _ _ _))).
  - apply charged_inv, wl_ex_inv.
  - split; try done; lia.
  - split; try done; intros i Hi; apply is_queue_cases in Hi as [-> | [-> | [-> | ->]]]; try done; simpl; lia.
  - split; try done. intros i Hi; by apply is_queue_cases in Hi as [-> | [-> | [-> | ->]]].
  - lia.
  - intros i Hi; apply is_queue_cases in Hi as [-> | [-> | [-> | ->]]]; simpl; lia.
Defined.

(** ** Completions *)

(** C14.  Completion on the 12xx.  The result structure is read and its counter
    written back; a failed transfer ends it there with its error.  Otherwise the
    results between the driver's counter and the firmware's are taken in turn
    around the ring, across the 32-bit wrap: each frame whose identifier they
    name goes to the end of the queue back to mac80211, once and in that order
    (the dummy packet does not), and is registered no longer; identifiers that
    name no frame are ignored, every other frame stays registered, and the
    driver's counter is the firmware's. *)
Theorem tx_complete_catches_up wl ret0 data w1 ret w2 :
  let fc := u32 (le_value (take 4 data)) in
  work_inv wl ->
  wlcore_read (tx_result_addr (hw wl)) TX_RES_IF_SIZE wl = (ret0, data, w1) ->
  wlcore_write32 (tx_result_addr (hw wl) + 4) fc w1 = (ret, w2) ->
  (ret0 < 0 -> wlcore_tx_complete wl = Some (ret0, w1) /\ work_keeps wl w1) /\
  (0 <= ret0 -> ret < 0 -> wlcore_tx_complete wl = Some (ret, w2) /\ work_keeps wl w2) /\
  (0 <= ret0 -> 0 <= ret -> exists wl', wlcore_tx_complete wl = Some (ret, wl') /\ work_keeps wl wl' /\
     tx_results_count wl' = fc /\
     completes_ids (result_ids data (tx_results_count wl) (u32 (fc - tx_results_count wl))) wl wl').
Proof. apply tx_complete_spec. Qed.

(** The device with one frame in the firmware, under identifier 0. *)
Definition sent_ex : wl1271 :=
  match @wl1271_tx_work Wl12xx.wl12xx_ops 4 0 queued_ex with Ret wl => wl | _ => queued_ex end.

Lemma sent_ex_inv : work_inv sent_ex.
Proof.
  unfold sent_ex. destruct (@tx_work_keeps Wl12xx.wl12xx_ops Wl12xx.wl12xx_laws 4 0 queued_ex queued_ex_inv)
    as (w & -> & K); [by vm_compute | apply K].
Qed.

(** The answer of the results ring: one new result, for identifier 0. *)
Definition ring_ex : list Z := [1; 0; 0; 0] ++ replicate 260 0.
Definition results_ex (wl : wl1271) : wl1271 := wl <| bus := [(0, ring_ex)] |>.

Lemma tx_complete_catches_up_witness : exists wl',
  wlcore_tx_complete (results_ex sent_ex) = Some (0, wl') /\ tx_results_count wl' = 1 /\
  deferred_tx_queue wl' = [5%nat] /\ frame_at wl' 0 = None.
Proof.
  set (wl := results_ex sent_ex). set (read := wlcore_read (tx_result_addr (hw wl)) TX_RES_IF_SIZE wl).
  assert (read.1 = (0, ring_ex) /\
    (wlcore_write32 (tx_result_addr (hw wl) + 4) (u32 (le_value (take 4 ring_ex))) read.2).1 = 0) as [R1 R2]
    by (split; vm_compute; reflexivity).
  destruct read as [[r0 d] w1] eqn:E1. cbn [fst snd] in R1, R2. injection R1 as -> ->.
  destruct (wlcore_write32 _ _ w1) as [r w2] eqn:E2. cbn [fst] in R2. subst r.
  destruct (tx_complete_catches_up wl 0 ring_ex w1 0 w2 (bus_inv _ _ sent_ex_inv) E1 E2) as (_ & _ & C).
  destruct C as (wl' & E & _ & N & [Q F]); [done | done |].
  exists wl'. split_and!; [exact E | exact N | rewrite Q; vm_compute; reflexivity | rewrite F; reflexivity].
Defined.

(** C15.  Completion on the 18xx: for any status bytes the release loop ends; an
    invalid index of the firmware changes nothing, and with a valid one the
    entries of the release ring from the driver's index up to it are taken in
    turn, around the ring: each frame they name goes to the end of the queue
    back to mac80211, once and in that order (the dummy packet does not), and is
    registered no longer, every other frame stays, and the driver's index meets
    the firmware's. *)
Theorem immediate_completion_catches_up priv wl :
  work_inv wl ->
  exists wl', Wl18xx.wl18xx_tx_immediate_complete priv wl = Some wl' /\ work_keeps wl wl' /\
    (WL18XX_FW_MAX_TX_STATUS_DESC <= byte_at priv 0 -> wl' = wl) /\
    (byte_at priv 0 < WL18XX_FW_MAX_TX_STATUS_DESC ->
     let n := Wl18xx.ring_dist (last_fw_rls_idx wl) (byte_at priv 0) in
     last_fw_rls_idx wl' = byte_at priv 0 /\ tx_results_count wl' = u32 (tx_results_count wl + n) /\
     completes_ids (Wl18xx.released_ids (tail priv) (last_fw_rls_idx wl) n) wl wl').
Proof. apply Wl18xx.immediate_complete_total. Qed.

Lemma immediate_completion_catches_up_witness : exists wl',
  Wl18xx.wl18xx_tx_immediate_complete [2; 0x80; 0x81] sent_ex = Some wl' /\ last_fw_rls_idx wl' = 2 /\
  deferred_tx_queue wl' = [5%nat].
Proof.
  destruct (immediate_completion_catches_up [2; 0x80; 0x81] sent_ex sent_ex_inv) as (wl' & E & _ & _ & C).
  exists wl'. destruct C as (L & _ & [Q _]); [reflexivity|].
  split_and!; [exact E | exact L | rewrite Q; vm_compute; reflexivity].
Defined.

(** ** Reset and flush *)

(** C17.  Flushing ends and empties the queues.  While the flusher sleeps the
    other contexts may take any steps that keep the invariant, lose no frame and
    leave at most [B] frames queued ([open_step]): new frames may be handed over
    and interfaces come and go between the rounds.  The flush returns, every
    link queue is then empty, the invariant holds and no frame was lost. *)
Theorem tx_flush_empties `{laws : wlcore_ops_laws} B fuel rounds wl :
  work_inv wl -> backlog wl <= B -> 2 * B + 1 < Z.of_nat fuel ->
  interludes (open_step B) fuel rounds (wlcore_stop_queues WLCORE_QUEUE_STOP_REASON_FLUSH wl) ->
  exists wl', wl1271_tx_flush fuel rounds wl = Ret wl' /\ open_step B wl wl' /\
    (forall h q, is_link h -> is_queue q -> link_queue wl' h q = []).
Proof. apply tx_flush_open. Qed.

(** Handing a frame over is such a step. *)
Lemma op_tx_open B skb wl :
  work_inv wl -> skb <> dummy_packet (hw wl) -> frame_fits wl skb -> from_listed wl skb ->
  copies skb wl = 0 -> backlog wl < B -> open_step B wl (wl1271_op_tx skb wl).
Proof.
  intros W Hnd Hf Hl C0 Hb. destruct (op_tx_work skb wl W Hnd Hf Hl C0) as (W' & Eh & B' & C).
  split; [done | done | | lia]. intros s Hs. rewrite C by done. unfold is_skb. case_bool_decide; lia.
Qed.

(** The station's frame is being flushed: the queues stopped, a pass done. *)
Definition stopped_ex : wl1271 := wlcore_stop_queues WLCORE_QUEUE_STOP_REASON_FLUSH queued_ex.

Definition flushing_ex : wl1271 :=
  match @flush_pass Wl12xx.wl12xx_ops 6 0 stopped_ex with Ret wl => wl | _ => stopped_ex end.

Lemma flushing_ex_keeps : work_keeps queued_ex flushing_ex.
Proof.
  pose proof (stop_queues_keeps WLCORE_QUEUE_STOP_REASON_FLUSH queued_ex queued_ex_inv) as K0. fold stopped_ex in K0.
  eapply work_keeps_trans; [exact K0|]. unfold flushing_ex, flush_pass.
  split_if; [|apply view_keeps; [apply K0 | done..]].
  destruct (@tx_work_keeps Wl12xx.wl12xx_ops Wl12xx.wl12xx_laws 6 0 stopped_ex (wk_inv _ _ K0)) as (w & -> & K);
    [pose proof (wk_backlog _ _ K0); change (backlog queued_ex) with 1 in *; lia | exact K].
Qed.

(** A frame of the access point arrives meanwhile. *)
Lemma flushing_ex_open : open_step 2 flushing_ex (wl1271_op_tx 6 flushing_ex).
Proof.
  pose proof flushing_ex_keeps as K.
  assert (control_vif (skb_cb (skb_at flushing_ex 6)) = Some 2%nat) as Ev by (vm_compute; reflexivity).
  apply op_tx_open; [apply K | by rewrite (wk_hw _ _ K) | | | by rewrite (wk_copies _ _ K) | ].
  - unfold frame_fits. rewrite Ev, bool_decide_eq_false_2 by (by rewrite (wk_hw _ _ K)).
    split_and!; apply (bool_decide_unpack _); vm_compute; exact I.
  - intros v. rewrite Ev. intros [= <-]. apply (bool_decide_unpack _). vm_compute. exact I.
  - pose proof (wk_backlog _ _ K). change (backlog queued_ex) with 1 in *. lia.
Qed.

Lemma tx_flush_empties_witness : exists wl',
  @wl1271_tx_flush Wl12xx.wl12xx_ops 6 [(0, wl1271_op_tx 6)] queued_ex = Ret wl' /\
  link_queue wl' 1 3 = [] /\ link_queue wl' 2 3 = [].
Proof.
  destruct (@tx_flush_empties Wl12xx.wl12xx_ops Wl12xx.wl12xx_laws 2 6 [(0, wl1271_op_tx 6)] queued_ex queued_ex_inv)
    as (wl' & E & _ & Q); [by vm_compute | by vm_compute | |].
  - cbn [interludes]. fold stopped_ex. intros w E. split; [|exact I].
    assert (flushing_ex = w) as <- by (unfold flushing_ex; rewrite E; reflexivity). exact flushing_ex_open.
  - exists wl'. split_and!; [exact E | apply Q; split; by vm_compute | apply Q; split; by vm_compute].
Defined.

(** ** Descriptors *)

Definition desc_ex : tx_hw_descr := Build_tx_hw_descr 300 2 1 70000 8000 0x4020 3 5 1 0.

Definition wl_127x_ex : wl1271 :=
  wlcore_alloc_hw (hw_ex <| quirks := 0 |> <| chip_id := CHIP_ID_1271_PG20 |>).

(** C19.  The 12xx descriptor is exact: the memory estimate is the number of
    252-byte blocks the aligned packet spans plus the spare blocks, with no
    wrap of its 32-bit arithmetic, and the firmware recovers the length of the
    buffer, on the 128x from the words less the extra bytes, on the 127x from
    the words less the padding count kept in the attributes. *)
Theorem desc_12xx_exact wl d skb spare : skb_len skb <= 65536 -> 0 <= spare <= 256 ->
  Wl12xx.wl12xx_calc_tx_blocks wl (skb_len skb) spare
    = (wlcore_calc_packet_alignment wl (skb_len skb) + 251) / 252 + spare /\
  (chip_id (hw wl) = CHIP_ID_1283_PG20 ->
     Wl12xx.fw_len_128x (Wl12xx.wl12xx_set_tx_desc_data_len wl d skb) = skb_len skb) /\
  (chip_id (hw wl) <> CHIP_ID_1283_PG20 -> tx_alignment wl = WL1271_TX_ALIGN_TO ->
     Z.land (Z.shiftr (d_tx_attr d) TX_HW_ATTR_OFST_LAST_WORD_PAD) 3 = 0 ->
     Wl12xx.fw_len_127x (Wl12xx.wl12xx_set_tx_desc_data_len wl d skb) = skb_len skb).
Proof.
  intros Hl Hs. split_and!.
  - apply Wl12xx.calc_tx_blocks_eq; [|done]. split; [apply zlen_nonneg | done].
  - intros Hc. by apply Wl12xx.data_len_128x.
  - intros Hc Ha Hz. by apply Wl12xx.data_len_127x.
Qed.

Lemma desc_12xx_exact_witness :
  Wl12xx.wl12xx_calc_tx_blocks wl_ex 30 1 = 1 + 1 /\
  Wl12xx.fw_len_128x (Wl12xx.wl12xx_set_tx_desc_data_len wl_ex desc_ex (frame_ex 1)) = 30 /\
  Wl12xx.fw_len_127x (Wl12xx.wl12xx_set_tx_desc_data_len wl_127x_ex (desc_ex <| d_tx_attr := 0 |>) (frame_ex 1)) = 30.
Proof.
  split_and!.
  - apply (desc_12xx_exact wl_ex desc_ex (frame_ex 1) 1); [by vm_compute | lia].
  - apply (desc_12xx_exact wl_ex desc_ex (frame_ex 1) 1); [by vm_compute | lia | reflexivity].
  - apply (desc_12xx_exact wl_127x_ex (desc_ex <| d_tx_attr := 0 |>) (frame_ex 1) 1);
      [by vm_compute | lia | discriminate | reflexivity | reflexivity].
Defined.

(** The 18xx checksum byte: for an IP packet the upper seven bits hold the
    offset of the IP header from the MAC header and bit 0 the lowest bit of the
    protocol number.  UDP (17) therefore sets the bit and TCP (6) clears it,
    the opposite of the comment in tx.h. *)
Theorem checksum_byte wl d skb :
  checksum_param (hw wl) = true -> skb_csum_partial skb = true ->
  let off := skb_network_offset skb - skb_mac_offset skb in
  0 <= off < 128 ->
  let b := d_csum (Wl18xx.wl18xx_set_tx_desc_csum wl d skb) in
  Z.shiftr b 1 = off /\
  Z.land b 1 = Z.land (byte_at (skb_data skb) (skb_network_offset skb + Wl18xx.IPHDR_PROTOCOL)) 1.
Proof. apply Wl18xx.csum_byte. Qed.

(** A packet whose IP header, 26 bytes in, carries the protocol [p]. *)
Definition ip_ex (p : Z) : sk_buff :=
  (frame_ex 1) <| skb_csum_partial := true |> <| skb_network_offset := 26 |>
    <| skb_data := replicate 35 0 ++ [p] ++ replicate 20 0 |>.

Lemma checksum_byte_witness :
  Z.land (d_csum (Wl18xx.wl18xx_set_tx_desc_csum wl_ex desc_ex (ip_ex Wl18xx.IPPROTO_UDP))) 1 = 1 /\
  Z.land (d_csum (Wl18xx.wl18xx_set_tx_desc_csum wl_ex desc_ex (ip_ex Wl18xx.IPPROTO_TCP))) 1 = 0.
Proof.
  split.
  - apply (checksum_byte wl_ex desc_ex (ip_ex Wl18xx.IPPROTO_UDP)); [reflexivity | reflexivity | by vm_compute].
  - apply (checksum_byte wl_ex desc_ex (ip_ex Wl18xx.IPPROTO_TCP)); [reflexivity | reflexivity | by vm_compute].
Defined.

(** ** A frame without interface *)

(** A frame of no interface that the firmware or the aggregation buffer
    cannot take now is fatal: the loop requeues it through the interface pointer,
    which is NULL, so the transmit work ends in a NULL dereference whatever else
    is queued. *)
Theorem requeue_without_vif_oopses `{ops : wlcore_ops} fuel skb hlid ret wl w1 w2 :
  state wl = WLCORE_STATE_ON ->
  wl1271_skb_dequeue wl = (Some (skb, hlid), w1) ->
  wl12xx_is_dummy_packet w1 skb = false -> control_vif (skb_cb (skb_at w1 skb)) = None ->
  wl1271_prepare_tx_frame None skb 0 (system_hlid (hw w1)) w1 = Some (ret, w2) ->
  ret = - EAGAIN \/ ret = - EBUSY -> wl12xx_is_dummy_packet w2 skb = false ->
  wlcore_tx_work_locked (S fuel) wl = Oops.
Proof.
  intros Hon Ed Hn1 Hv Ep Hr Hn2. unfold wlcore_tx_work_locked.
  rewrite bool_decide_eq_true_2 by done. cbn [negb tx_work_loop]. rewrite Ed, Hn1, Hv. cbv zeta.
  change (buf_offset tx_locals0) with 0. rewrite Ep. unfold wl1271_skb_queue_head. rewrite Hn2.
  by destruct Hr as [-> | ->].
Qed.

(** A frame with no interface, and no firmware memory. *)
Definition vifless_ex : wl1271 :=
  wl1271_op_tx 7 ((create_skb 7 ((frame_ex 1) <| skb_cb ::= fun c => c <| control_vif := None |> |>) linked_ex)
    <| tx_blocks_available := 0 |>).

Lemma requeue_without_vif_oopses_witness :
  @wlcore_tx_work_locked Wl12xx.wl12xx_ops 4 vifless_ex = Oops.
Proof.
  destruct (wl1271_skb_dequeue vifless_ex) as [o w1] eqn:E1.
  assert (o = Some (7%nat, 0)) as -> by (apply (f_equal fst) in E1; vm_compute in E1; congruence).
  assert (w1 = snd (wl1271_skb_dequeue vifless_ex)) as Ew by (by rewrite E1).
  assert (wl12xx_is_dummy_packet w1 7 = false) as E2 by (rewrite Ew; vm_compute; reflexivity).
  assert (control_vif (skb_cb (skb_at w1 7)) = None) as E3 by (rewrite Ew; vm_compute; reflexivity).
  assert ((fun r => (fst r, wl12xx_is_dummy_packet (snd r) 7)) <$>
    @wl1271_prepare_tx_frame Wl12xx.wl12xx_ops None 7 0 (system_hlid (hw w1)) w1 = Some (- EBUSY, false)) as E4
    by (rewrite Ew; vm_compute; reflexivity).
  destruct (wl1271_prepare_tx_frame None 7 0 _ w1) as [[ret w2]|] eqn:E5; [|discriminate E4].
  injection E4 as -> E6.
  apply (@requeue_without_vif_oopses Wl12xx.wl12xx_ops 3 7 0 (- EBUSY) vifless_ex w1 w2); try assumption.
  - vm_compute. reflexivity.
  - right. reflexivity.
Defined.
