(* ===== verification/RxTheorems.v ===== *)
(** * Theorems about reception, the bus and commands *)

From S2P Require Import Prelude Ieee80211 WlState ChipOps Io Queues LinkQueues.
From S2P Require Import PowerSave TxPath TxAllocFacts TxSched TxInv SchedFacts TxMoves.
From S2P Require Import TxPrep TxWork TxDone TxDoneFacts FwStatus Rx RxFacts.
From S2P Require Import LinksFacts Init Wl12xx Wl18xx Examples.

(** ** The receive ring *)

(** C23.  Reception always ends and never runs outside the aggregation buffer,
    whatever words the firmware's ring holds; it takes at most the pending
    packets, and when the bus works and every pending packet is non-empty and
    fits the buffer it takes all of them, after which the driver's position in
    the ring is the firmware's. *)
Theorem rx_catches_up `{laws : wlcore_ops_laws} status wl :
  work_inv wl -> (num_rx_desc (hw wl) | 2 ^ 32) ->
  let N := num_rx_desc (hw wl) in
  let pending := (fw_rx_counter status - rx_counter wl) mod N in
  exists ret wl' k, wlcore_rx status wl = Ret (ret, wl') /\ work_keeps wl wl' /\
    0 <= k <= pending /\ rx_counter wl' = u32 (rx_counter wl + k) /\
    (0 <= ret -> rx_sane wl status ->
     k = pending /\ rx_counter wl' mod N = fw_rx_counter status mod N).
Proof.
  intros W D. cbv zeta. set (N := num_rx_desc (hw wl)).
  destruct (inv_ring _ (wi_inv _ W)) as (_ & _ & _ & _ & HN).
  assert (rx_pending wl (rx_counter wl mod N) (fw_rx_counter status mod N)
          = (fw_rx_counter status - rx_counter wl) mod N) as Ep
    by (unfold rx_pending; fold N; by rewrite <- Zminus_mod).
  destruct (rx_spec status wl W) as (ret & wl' & k & E & [K _ C _] & Hk & All). fold N in Hk, All.
  rewrite Ep in Hk, All. exists ret, wl', k. split_and!; try done; try lia.
  intros Hr Sane. specialize (All Hr Sane). split; [done|].
  rewrite C, All, <- Ep. unfold N. rewrite rx_caught_up by done. by rewrite Z.mod_mod by lia.
Qed.

(** Two packets of 40 bytes in the ring of the device. *)
Definition rx_status_ex : wl_fw_status :=
  Build_wl_fw_status 0 2 0 0 (replicate 8 (40 * 64)) 0 0 0 0 100 [0; 0; 0; 0] [] 0 [].

Lemma rx_sane_ex : rx_sane wl_ex rx_status_ex.
Proof.
  intros i Hi. change (num_rx_desc (hw wl_ex)) with 8 in Hi.
  assert (rx_desc_at rx_status_ex i = 40 * 64) as ->.
  { assert (i = 0 \/ i = 1 \/ i = 2 \/ i = 3 \/ i = 4 \/ i = 5 \/ i = 6 \/ i = 7) as Hc by lia.
    by destruct Hc as [-> | [-> | [-> | [-> | [-> | [-> | [-> | ->]]]]]]]. }
  by vm_compute.
Qed.

Lemma rx_catches_up_witness : exists wl',
  @wlcore_rx Wl12xx.wl12xx_ops rx_status_ex wl_ex = Ret (0, wl') /\ rx_counter wl' = 2.
Proof.
  destruct (@rx_catches_up Wl12xx.wl12xx_ops Wl12xx.wl12xx_laws rx_status_ex wl_ex wl_ex_inv)
    as (ret & wl' & k & E & _ & _ & C & A); [by exists 536870912|].
  assert (ret = 0) as ->.
  { apply (f_equal (fun o => match o with Ret (r, _) => Some r | _ => None end)) in E.
    vm_compute in E. congruence. }
  exists wl'. split; [exact E|]. destruct (A ltac:(lia) rx_sane_ex) as [-> _]. rewrite C. reflexivity.
Defined.



(** One transfer covers the longest run of pending packets that fits the
    aggregation buffer: its size is that of the first [m] pending packets, within
    the buffer, and either nothing more is pending or the next packet would not
    fit. *)
Theorem rx_batch_maximal `{laws : wlcore_ops_laws} status fw_rx drv wl :
  work_inv wl -> 0 <= fw_rx < num_rx_desc (hw wl) -> 0 <= drv < num_rx_desc (hw wl) ->
  let pending := rx_pending wl drv fw_rx in
  exists m,
    rx_batch_size (Z.to_nat (num_rx_desc (hw wl))) status fw_rx drv 0 wl
    = Ret (rx_off wl status drv m) /\
    0 <= m <= pending /\ rx_off wl status drv m <= aggr_buf_size (hw wl) /\
    (m = pending \/ aggr_buf_size (hw wl) < rx_off wl status drv (m + 1)).
Proof.
  intros W Hf Hd. cbv zeta. pose proof (wi_buf _ W) as Hb. pose proof (wi_size _ W) as Hs.
  pose proof (Z.mod_pos_bound (fw_rx - drv) (num_rx_desc (hw wl)) ltac:(lia)) as Hp.
  fold (rx_pending wl drv fw_rx) in Hp.
  destruct (batch_spec status fw_rx drv wl (Z.to_nat (num_rx_desc (hw wl))) 0)
    as (m & E & Hm & R); try done; try lia. { rewrite rx_off_0. lia. }
  rewrite Z.add_0_r, (Z.mod_small drv), rx_off_0 in E by done. by exists m.
Qed.

Lemma rx_batch_maximal_witness : exists m,
  rx_batch_size 8 rx_status_ex 2 0 0 wl_ex = Ret (rx_off wl_ex rx_status_ex 0 m) /\ 0 <= m <= 2.
Proof.
  destruct (@rx_batch_maximal Wl12xx.wl12xx_ops Wl12xx.wl12xx_laws rx_status_ex 2 0 wl_ex wl_ex_inv)
    as (m & E & Hm & _); [by vm_compute | by vm_compute |].
  exists m. split; [exact E | exact Hm].
Defined.

(** C26.  The firmware log never overruns its page: any log packet is parsed to
    an end, what is copied is a prefix of it, and the log stays within one
    page. *)
Theorem fwlog_bounded mem maxlen wl :
  0 <= maxlen <= zlen mem -> zlen (fwlog wl) <= PAGE_SIZE ->
  exists n, wl12xx_copy_fwlog mem maxlen wl
    = Ret (n, wl <| fwlog := fwlog wl ++ take (Z.to_nat n) mem |>) /\
    0 <= n <= maxlen /\ zlen (fwlog wl ++ take (Z.to_nat n) mem) <= PAGE_SIZE.
Proof. apply copy_fwlog_spec. Qed.

Lemma fwlog_bounded_witness : exists n,
  wl12xx_copy_fwlog [2; 7; 7; 9; 1] 5 wl_ex
    = Ret (n, wl_ex <| fwlog := fwlog wl_ex ++ take (Z.to_nat n) [2; 7; 7; 9; 1] |>) /\ 0 <= n <= 5.
Proof.
  destruct (fwlog_bounded [2; 7; 7; 9; 1] 5 wl_ex) as (n & E & Hn & _); [by vm_compute | by vm_compute |].
  exists n. by split.
Defined.

(** ** Commands *)

(** C27.  A failed command is not survived silently: the device goes into
    recovery, and there every later command is refused at once with [-EIO],
    without touching the bus. *)
Theorem failed_command_recovers `{laws : wlcore_ops_laws} c wl :
  state wl <> WLCORE_STATE_OFF ->
  let '(ret, wl') := wl1271_cmd_send c wl in
  ret < 0 -> state wl' = WLCORE_STATE_RESTARTING /\
             forall c', wl1271_cmd_send c' wl' = (- EIO, wl').
Proof.
  intros Hs. pose proof (cmd_send_fails c wl Hs) as F. destruct (wl1271_cmd_send c wl) as [ret wl'].
  intros Hr. specialize (F Hr). split; [done|]. intros c'. by apply cmd_send_restarting.
Qed.

Lemma failed_command_recovers_witness : exists wl',
  @wl1271_cmd_send Wl12xx.wl12xx_ops (CMD_REMOVE_PEER 4) (wl_ex <| bus := [(- EIO, [])] |>) = (- EIO, wl') /\
  state wl' = WLCORE_STATE_RESTARTING.
Proof.
  assert (exists w, @wl1271_cmd_send Wl12xx.wl12xx_ops (CMD_REMOVE_PEER 4) (wl_ex <| bus := [(- EIO, [])] |>) = (- EIO, w))
    as [w E] by (eexists; vm_compute; reflexivity).
  pose proof (@failed_command_recovers Wl12xx.wl12xx_ops Wl12xx.wl12xx_laws (CMD_REMOVE_PEER 4)
    (wl_ex <| bus := [(- EIO, [])] |>)) as F.
  rewrite E in F. specialize (F ltac:(vm_compute; discriminate)). exists w. split; [exact E | by apply F].
Defined.
