(* ===== verification/LinkTheorems.v ===== *)
(** * Theorems about links, stations and block-ack sessions *)

From S2P Require Import Prelude Ieee80211 WlState ChipOps Io Queues LinkQueues.
From S2P Require Import PowerSave TxPath TxAllocFacts TxSched TxInv SchedFacts TxMoves.
From S2P Require Import TxPrep TxWork TxDone TxDoneFacts FwStatus Rx Event EventFacts.
From S2P Require Import Irq Links LinksFacts BaFacts Init Driver Wl12xx Wl18xx.
From S2P Require Import Examples.

(** ** Links *)

(** C28.  A new link is the lowest free one, belongs to no other registered interface and
    starts with empty queues; [-EBUSY] is returned, with nothing changed, exactly
    when every link is taken. *)
Theorem allocate_link_fresh v h0 wl :
  work_inv wl -> v ∈ wlvif_list wl ->
  let '(ret, h, wl') := wl12xx_allocate_link v h0 wl in
  (ret = - EBUSY /\ h = h0 /\ wl' = wl /\
     (forall i, is_link i -> test_bit i (links_map wl) = true)) \/
  (ret = 0 /\ is_link h /\ test_bit h (links_map wl) = false /\
     (forall i, 0 <= i < h -> test_bit i (links_map wl) = true) /\
     test_bit h (links_map wl') = true /\ test_bit h (vif_links_map (vif_at wl' v)) = true /\
     (forall x, x ∈ wlvif_list wl -> x <> v -> test_bit h (vif_links_map (vif_at wl' x)) = false) /\
     (forall q, is_queue q -> link_queue wl' h q = []) /\ work_keeps wl wl').
Proof.
  intros W Hin. pose proof (allocate_link_spec v h0 wl W Hin) as S.
  assert (is_Some (vifs wl !! v)) as Hv by (by apply (vo_alloc _ (inv_vifs _ (wi_inv _ W)))).
  destruct (find_first_zero_bit_spec (links_map wl) WL12XX_MAX_LINKS ltac:(done)) as (_ & Low & _).
  unfold wl12xx_allocate_link in *. cbv zeta in *. set (h := find_first_zero_bit _ _) in *.
  split_if; [destruct S as [S|(? & _)]; [by left | done]|]. right.
  destruct S as [[? _]|(_ & Hh & Hb & _ & K & Q)]; [done|]. pose proof (proj1 Hh) as H0.
  split_and!; try done.
  - change (test_bit h (set_bit h (links_map wl)) = true). by rewrite test_set_bit, Z.eqb_refl.
  - rewrite vif_at_upd by done. rewrite decide_True by done.
    change (test_bit h (set_bit h (vif_links_map (vif_at wl v))) = true).
    by rewrite test_set_bit, Z.eqb_refl.
  - intros x Lx Hx. rewrite vif_at_upd by done. rewrite decide_False by done.
    by apply (free_unowned wl h x (inv_vifs _ (wi_inv _ W))).
Qed.

Lemma allocate_link_fresh_witness : exists wl',
  wl12xx_allocate_link 2 WL12XX_INVALID_LINK_ID wl_ex = (0, 4, wl') /\ work_keeps wl_ex wl'.
Proof.
  pose proof (allocate_link_fresh 2 WL12XX_INVALID_LINK_ID wl_ex wl_ex_inv ltac:(by repeat constructor)) as S.
  destruct (wl12xx_allocate_link 2 WL12XX_INVALID_LINK_ID wl_ex) as [[ret h] wl'] eqn:E.
  assert (ret = 0 /\ h = 4) as [-> ->].
  { apply (f_equal fst) in E. vm_compute in E. by injection E. }
  exists wl'. split; [reflexivity|]. destruct S as [[? _]|S]; [done | apply S].
Defined.

(** Freeing a link gives back its frames: afterwards the link is free, is
    in no registered interface's set and its queues are empty, while the queues of every
    other link are as before; each frame it held was given back exactly once. *)
Theorem free_link_clears v h wl :
  work_inv wl -> v ∈ wlvif_list wl ->
  test_bit h (vif_links_map (vif_at wl v)) = true ->
  test_bit h (ap_sta_hlid_map (vif_at wl v)) = false ->
  let '(h', wl') := wl12xx_free_link v h wl in
  h' = WL12XX_INVALID_LINK_ID /\ work_keeps wl wl' /\
  test_bit h (links_map wl') = false /\
  (forall x, x ∈ wlvif_list wl' -> test_bit h (vif_links_map (vif_at wl' x)) = false) /\
  (forall i q, is_queue q -> link_queue wl' i q = if h =? i then [] else link_queue wl i q).
Proof.
  intros W Hv Hb Hs. pose proof (free_link_spec v h wl W Hv Hb Hs) as S.
  destruct (wl12xx_free_link v h wl) as [h' wl']. destruct S as (-> & -> & K & Q).
  assert (test_bit h (links_map (revoke v h (wl1271_tx_reset_link_queues h wl))) = false) as Hm.
  { change (test_bit h (clear_bit h (links_map (wl1271_tx_reset_link_queues h wl))) = false).
    by rewrite test_clear_bit, Z.eqb_refl, andb_false_r. }
  split_and!; try done. intros x Lx. by apply (free_unowned _ _ x (inv_vifs _ (wi_inv _ (wk_inv _ _ K)))).
Qed.

Lemma free_link_clears_witness :
  link_queue queued_ex 1 3 = [5%nat] /\
  link_queue (snd (wl12xx_free_link 1 1 queued_ex)) 1 3 = [].
Proof.
  split; [reflexivity|].
  pose proof (free_link_clears 1 1 queued_ex queued_ex_inv ltac:(by repeat constructor)
    ltac:(reflexivity) ltac:(reflexivity)) as S.
  destruct (wl12xx_free_link 1 1 queued_ex) as [h' wl'].
  destruct S as (_ & _ & _ & _ & Q). rewrite Q; [reflexivity | by vm_compute].
Defined.

(** ** Stations *)

(** C30.  Adding a station to an access point is all or nothing: on success it owns a fresh link
    with its address and empty queues and the count of stations grows by one; on
    any failure, that of the firmware command after the link was taken included,
    every link map and count is as before. *)
Theorem sta_add_atomic `{laws : wlcore_ops_laws} v sta wl :
  work_inv wl -> v ∈ wlvif_list wl -> is_ap (vif_at wl v) = true ->
  let '(ret, h, wl') := wl12xx_sta_add v sta wl in
  work_keeps wl wl' /\
  (0 <= ret -> is_link h /\ test_bit h (links_map wl) = false /\
     links_map wl' = set_bit h (links_map wl) /\
     test_bit h (ap_sta_hlid_map (vif_at wl' v)) = true /\
     active_sta_count wl' = active_sta_count wl + 1 /\
     link_addr (link_at wl' h) = sta_addr sta /\
     (forall q, is_queue q -> link_queue wl' h q = [])) /\
  (ret < 0 -> links_map wl' = links_map wl /\ active_sta_count wl' = active_sta_count wl /\
     forall x, vif_own (vif_at wl' x) = vif_own (vif_at wl x)).
Proof. apply sta_add_spec. Qed.

Definition sta_ex (hlid : Z) : ieee80211_sta :=
  Build_ieee80211_sta (fun _ => 0xf) [2; 0; 0; 0; 0; 7] 1 (Build_ieee80211_sta_ht_cap 0 false 0 0 [])
    true 0 0 hlid.

(** The station added while the bus fails the command: rolled back. *)
Lemma sta_add_atomic_witness :
  fst (fst (@wl12xx_sta_add Wl12xx.wl12xx_ops 2 (sta_ex 0) (wl_ex <| bus := [(- EIO, [])] |>))) = - EIO /\
  links_map (snd (@wl12xx_sta_add Wl12xx.wl12xx_ops 2 (sta_ex 0) (wl_ex <| bus := [(- EIO, [])] |>)))
  = links_map wl_ex.
Proof.
  assert (fst (fst (@wl12xx_sta_add Wl12xx.wl12xx_ops 2 (sta_ex 0) (wl_ex <| bus := [(- EIO, [])] |>))) = - EIO)
    as E by (vm_compute; reflexivity).
  split; [exact E|].
  assert (work_inv (wl_ex <| bus := [(- EIO, [])] |>)) as W
    by (apply bus_inv, wl_ex_inv).
  pose proof (@sta_add_atomic Wl12xx.wl12xx_ops Wl12xx.wl12xx_laws 2 (sta_ex 0)
    (wl_ex <| bus := [(- EIO, [])] |>) W ltac:(by left) ltac:(reflexivity)) as S.
  destruct (wl12xx_sta_add _ _ _) as [[ret h] wl']. simpl in E. subst ret.
  destruct S as (_ & _ & F). destruct F as (F & _); [reflexivity | exact F].
Defined.

(** ** Block-ack sessions *)

(** C32.  The driver's count of receiving block-ack sessions is the number of
    bits set in the bitmaps of its interfaces and links, and at most three: every
    request of mac80211 for one of the eight data TIDs keeps it so. *)
Theorem ampdu_counts `{laws : wlcore_ops_laws} v a peer tid ssn c wl :
  work_inv wl -> ba_ok wl -> v ∈ wlvif_list wl -> is_link (ba_hlid v peer wl) -> 0 <= tid < 8 ->
  let '(ret, wl') := wl1271_op_ampdu_action v a peer tid ssn c wl in
  work_keeps wl wl' /\ ba_ok wl'.
Proof. apply op_ampdu_spec. Qed.

Lemma link_at_default h wl : Forall (fun l => ba_bitmap l = 0) (links wl) -> ba_bitmap (link_at wl h) = 0.
Proof.
  intros F. unfold link_at, zget. split_if; [done|].
  generalize (Z.to_nat h). induction F as [|l ls Hl _ IH]; intros [|n]; simpl; auto.
Qed.

Lemma vif_ba_default v wl : map_Forall (fun _ w => sta_ba_rx_bitmap w = 0) (vifs wl) ->
  sta_ba_rx_bitmap (vif_at wl v) = 0.
Proof.
  intros F. unfold vif_at, lookup_total, map_lookup_total.
  destruct (vifs wl !! v) as [w|] eqn:E; [by apply (F v) | reflexivity].
Qed.

Lemma serving_ex_ba : ba_ok serving_ex.
Proof.
  split; [by vm_compute | by vm_compute | |].
  - intros v. rewrite vif_ba_default; [lia|]. apply map_Forall_to_list. vm_compute. repeat constructor.
  - intros h. rewrite link_at_default; [lia|]. repeat constructor.
Qed.

Lemma ampdu_counts_witness : exists wl',
  @wl1271_op_ampdu_action Wl12xx.wl12xx_ops 1 IEEE80211_AMPDU_RX_START 0 5 0 1 serving_ex = (0, wl') /\
  ba_rx_session_count wl' = 1 /\ ba_ok wl'.
Proof.
  assert (exists w, @wl1271_op_ampdu_action Wl12xx.wl12xx_ops 1 IEEE80211_AMPDU_RX_START 0 5 0 1 serving_ex = (0, w)
    /\ ba_rx_session_count w = 1) as (w & E & C) by (eexists; vm_compute; split; reflexivity).
  pose proof (@ampdu_counts Wl12xx.wl12xx_ops Wl12xx.wl12xx_laws 1 IEEE80211_AMPDU_RX_START 0 5 0 1 serving_ex
    serving_ex_inv serving_ex_ba ltac:(right; by left) ltac:(by vm_compute) ltac:(lia)) as S.
  rewrite E in S. exists w. split_and!; [exact E | exact C | apply S].
Defined.

(** C34.  A session for a TID of 8 to 15, which mac80211 can ask for, is counted
    but not recorded, because the bitmap is one byte: a successful start raises
    the count and leaves the bitmap as it was, and the stop of that very session
    then does nothing at all, so that the count stays one above the sessions
    recorded.  Whatever other requests follow, none lowers that excess; and once
    it has reached three, every further session is refused. *)
Theorem ba_high_tid_leaks `{laws : wlcore_ops_laws} v h tid ssn wl :
  work_inv wl -> ba_bytes wl -> v ∈ wlvif_list wl -> is_link h -> 8 <= tid < 16 ->
  let '(ret, wl') := ampdu_rx_start v h tid ssn wl in
  ret = 0 ->
  get_ba v h wl' = get_ba v h wl /\ ba_rx_session_count wl' = ba_rx_session_count wl + 1 /\
  leaked wl' = leaked wl + 1 /\ ampdu_rx_stop v h tid wl' = (0, wl') /\
  (forall wl2, ampdu_requests wl' wl2 ->
     leaked wl + 1 <= leaked wl2 /\
     (RX_BA_MAX_SESSIONS <= leaked wl2 -> forall v2 h2 tid2 ssn2, fst (ampdu_rx_start v2 h2 tid2 ssn2 wl2) < 0)).
Proof.
  intros W B Hv Hh Ht. pose proof (rx_start_leaks v h tid ssn wl W B Hv Hh ltac:(lia)) as S.
  pose proof (rx_start_keeps v h tid ssn wl W) as K. destruct (ampdu_rx_start v h tid ssn wl) as [ret wl'].
  destruct S as (B' & _ & L & G). intros ->. destruct (G eq_refl (proj1 Ht)) as [G1 G2].
  rewrite (proj2 (Z.leb_le _ _)) in L by lia. split_and!; try done.
  - unfold ampdu_rx_stop. rewrite has_bit by lia.
    by rewrite (proj2 (proj1 (u8_bits _) (bytes_get_ba v h wl' B')) tid (proj1 Ht)).
  - intros wl2 R. destruct (ampdu_requests_leak _ _ R (wk_inv _ _ K) B') as [_ L2]. simpl in L.
    split; [lia|]. intros H3 v2 h2 tid2 ssn2. by apply leaked_blocks.
Qed.

(** The session is asked for, and stopped. *)
Definition ba_leak_ex : wl1271 := snd (@ampdu_rx_start Wl12xx.wl12xx_ops 1 1 9 0 serving_ex).

Lemma ba_high_tid_leaks_witness :
  fst (@ampdu_rx_start Wl12xx.wl12xx_ops 1 1 9 0 serving_ex) = 0 /\
  @ampdu_rx_stop Wl12xx.wl12xx_ops 1 1 9 ba_leak_ex = (0, ba_leak_ex) /\ ba_rx_session_count ba_leak_ex = 1 /\
  1 <= leaked (snd (@wl1271_op_ampdu_action Wl12xx.wl12xx_ops 1 IEEE80211_AMPDU_RX_STOP 0 9 0 1 ba_leak_ex)).
Proof.
  assert (fst (@ampdu_rx_start Wl12xx.wl12xx_ops 1 1 9 0 serving_ex) = 0) as E by (vm_compute; reflexivity).
  split; [exact E|].
  pose proof (@ba_high_tid_leaks Wl12xx.wl12xx_ops Wl12xx.wl12xx_laws 1 1 9 0 serving_ex
    serving_ex_inv (proj1 (ba_ok_bytes _ serving_ex_ba)) ltac:(right; by left) ltac:(by vm_compute) ltac:(lia)) as T.
  unfold ba_leak_ex. destruct (ampdu_rx_start 1 1 9 0 serving_ex) as [ret wl'] eqn:S. cbn [fst snd] in *.
  destruct (T E) as (_ & C & _ & St & R).
  split; [exact St|]. split; [rewrite C; vm_compute; reflexivity|].
  destruct (ba_ok_bytes _ serving_ex_ba) as [_ L0]. rewrite L0 in R. refine (proj1 (R _ _)).
  apply (ampdu_one 1 IEEE80211_AMPDU_RX_STOP 0 9 0 1); [| | lia | apply ampdu_none];
    assert (wl' = snd (@ampdu_rx_start Wl12xx.wl12xx_ops 1 1 9 0 serving_ex)) as -> by (by rewrite S).
  - right. by left.
  - vm_compute. split; congruence.
Defined.
