(* ===== verification/IfaceTheorems.v ===== *)
(** * Theorems about interfaces, roles and recovery *)

From S2P Require Import Prelude Ieee80211 WlState ChipOps Io Mailbox Queues LinkQueues.
From S2P Require Import PowerSave TxPath TxAllocFacts TxSched TxInv SchedFacts TxMoves.
From S2P Require Import TxPrep TxWork TxDone TxDoneFacts FwStatus Rx Event EventFacts Irq Links.
From S2P Require Import LinksFacts Roles RolesFacts Init BaFacts Iface IfaceFacts Recovery VifData.
From S2P Require Import Driver Wl12xx Wl18xx Examples.

(** C36.  Recovery brings the device to a clean stop: unless a module parameter
    forbids it, the work ends whatever the bus answers, with every interface
    removed, every queue, descriptor, link, role and block count empty, the
    device off and the queues no longer stopped for the restart; and every
    buffer the driver held has been given back, exactly once. *)
Theorem recovery_resets `{laws : wlcore_ops_laws} turns fuel c wl :
  work_inv wl -> state wl = WLCORE_STATE_RESTARTING -> plt wl = false -> vifs_init wl ->
  no_recovery (hw wl) = false ->
  bug_on_recovery (hw wl) = false \/ flag wl WL1271_FLAG_INTENDED_FW_RECOVERY = true ->
  (length (wlvif_list wl) <= turns)%nat ->
  exists wl', wl1271_recovery_work turns fuel c wl = Ret wl' /\
    work_inv wl' /\ stopped wl' /\ watchdog_recovery wl' = false /\
    (forall q, is_queue q ->
       wlcore_is_queue_stopped_by_reason wl' q WLCORE_QUEUE_STOP_REASON_FW_RESTART = false) /\
    (forall s, s <> dummy_packet (hw wl) -> released s (log wl') = copies s wl).
Proof.
  intros W Hs Hp Hi Hn Hb Hl.
  destruct (recovery_spec turns fuel c wl W Hs Hp Hi Hn Hb Hl) as (wl' & E & K & P & Wd & Q).
  exists wl'. split_and!; try done; [apply K|]. intros s Hd.
  rewrite <- (stopped_released wl') by (done || apply (inv_counts _ (wi_inv _ (kc_inv _ _ K)))).
  by apply K.
Qed.

Definition failed_ex : wl1271 := queued_ex <| state := WLCORE_STATE_RESTARTING |>.

Lemma failed_ex_inv : work_inv failed_ex.
Proof. apply work_inv_state, queued_ex_inv. Qed.

Lemma failed_ex_init : vifs_init failed_ex.
Proof.
  intros v Hv. change (v ∈ [2%nat; 1%nat]) in Hv.
  apply elem_of_cons in Hv as [->|Hv%list_elem_of_singleton]; [|subst]; reflexivity.
Qed.

Lemma recovery_resets_witness : exists wl',
  @wl1271_recovery_work Wl12xx.wl12xx_ops 2 1 1 failed_ex = Ret wl' /\ stopped wl' /\
  released 5 (log wl') = 1.
Proof.
  destruct (@recovery_resets Wl12xx.wl12xx_ops Wl12xx.wl12xx_laws 2 1 1 failed_ex failed_ex_inv
    ltac:(reflexivity) ltac:(reflexivity) failed_ex_init ltac:(reflexivity)
    ltac:(left; reflexivity) ltac:(apply le_n)) as (wl' & E & _ & P & _ & _ & R).
  exists wl'. split; [exact E|]. split; [exact P|]. exact (R 5%nat ltac:(discriminate)).
Defined.



(** C38.  Starting an access point is all or nothing: with the firmware's
    agreement it owns two distinct fresh links, for unicast and for broadcast;
    on any failure (no SSID, no link left, the command refused) the link map,
    the interface and the queues are as before. *)
Theorem ap_start_atomic `{laws : wlcore_ops_laws} v wl : work_inv wl -> v ∈ wlvif_list wl ->
  ap_global_hlid (vif_at wl v) = WL12XX_INVALID_LINK_ID ->
  ap_bcast_hlid (vif_at wl v) = WL12XX_INVALID_LINK_ID ->
  let '(ret, wl') := wl12xx_cmd_role_start_ap v wl in
  work_keeps wl wl' /\
  ((ret < 0 /\ links_now v (links_map wl) (vif_at wl v) (link_queue wl) wl') \/
   (ret = 0 /\ exists g b, is_link g /\ is_link b /\ g <> b /\
      test_bit g (links_map wl) = false /\ test_bit b (links_map wl) = false /\
      links_now v (set_bit b (set_bit g (links_map wl)))
        (role_granted ApBcast b (role_granted ApGlobal g (vif_at wl v))) (link_queue wl) wl')).
Proof. apply start_ap_spec. Qed.

Definition new_ap_ex : wl12xx_vif :=
  vif0 <| vif_flags := BIT WLVIF_FLAG_INITIALIZED |> <| bss_type := BSS_TYPE_AP_BSS |>
       <| ap_global_hlid := WL12XX_INVALID_LINK_ID |> <| ap_bcast_hlid := WL12XX_INVALID_LINK_ID |>
       <| vif_ssid := [97; 112] |>.
Definition two_aps_ex : wl1271 := (register 3 new_ap_ex wl_ex) <| bus := cmd_done_ex |>.

Lemma two_aps_ex_inv : work_inv two_aps_ex.
Proof.
  apply bus_inv, register_inv; [apply wl_ex_inv | | done].
  apply (bool_decide_unpack _); vm_compute; exact I.
Qed.

Lemma ap_start_atomic_witness :
  fst (@wl12xx_cmd_role_start_ap Wl12xx.wl12xx_ops 3 two_aps_ex) = 0 /\
  exists g b, g <> b /\
    links_map (snd (@wl12xx_cmd_role_start_ap Wl12xx.wl12xx_ops 3 two_aps_ex))
    = set_bit b (set_bit g (links_map two_aps_ex)).
Proof.
  assert (fst (@wl12xx_cmd_role_start_ap Wl12xx.wl12xx_ops 3 two_aps_ex) = 0) as E by (vm_compute; reflexivity).
  split; [exact E|].
  pose proof (@ap_start_atomic Wl12xx.wl12xx_ops Wl12xx.wl12xx_laws 3 two_aps_ex two_aps_ex_inv
    ltac:(by repeat constructor) ltac:(reflexivity) ltac:(reflexivity)) as A.
  destruct (wl12xx_cmd_role_start_ap _ _) as [ret wl']. simpl in E. subst ret.
  destruct A as [_ [[Hr _]|(_ & g & b & _ & _ & Hgb & _ & _ & L)]]; [by discriminate Hr|].
  exists g, b. split; [exact Hgb | exact (ln_map _ _ _ _ _ L)].
Defined.

(** C39.  Reading the log of a crashed firmware ends and stays within its page,
    whatever the memory blocks it left behind contain (a chain of blocks may
    well be circular): the walk takes at most a turn per byte of the page and
    one, and only appends to the log. *)
Theorem fwlog_panic_ends `{laws : wlcore_ops_laws} c wl : work_inv wl ->
  (exists wl', wl12xx_read_fwlog_panic c wl = Ret wl' /\ work_keeps wl wl' /\
     zlen (fwlog wl') <= PAGE_SIZE) /\
  (forall offset end_of_log addr, 0 <= offset <= WL12XX_HW_BLOCK_SIZE ->
     exists wl' l, fwlog_walk (S (Z.to_nat PAGE_SIZE)) offset end_of_log addr wl = Ret wl' /\
       fwlog wl' = fwlog wl ++ l /\ zlen (fwlog wl') <= PAGE_SIZE).
Proof.
  intros W. split.
  - destruct (read_fwlog_panic_spec c wl W) as (wl' & E & K). exists wl'. split_and!; [done..|].
    apply (inv_ring _ (wi_inv _ (wk_inv _ _ K))).
  - intros offset e addr Ho. pose proof (zlen_nonneg (fwlog wl)).
    destruct (fwlog_walk_spec (S (Z.to_nat PAGE_SIZE)) offset e addr wl W Ho) as (wl' & E & K & l & El);
      [rewrite Nat2Z.inj_succ, Z2Nat.id by done; lia|].
    exists wl', l. split_and!; [done..|]. apply (inv_ring _ (wi_inv _ (wk_inv _ _ K))).
Qed.

Lemma fwlog_panic_ends_witness : exists wl',
  @wl12xx_read_fwlog_panic Wl12xx.wl12xx_ops 1 failed_ex = Ret wl' /\ zlen (fwlog wl') <= PAGE_SIZE.
Proof.
  destruct (@fwlog_panic_ends Wl12xx.wl12xx_ops Wl12xx.wl12xx_laws 1 failed_ex failed_ex_inv)
    as [(wl' & E & _ & B) _].
  exists wl'. split; [exact E | exact B].
Defined.

(** C40.  Rate policies and templates are taken and given back in balance: with
    enough of them free, setting an interface up gives it as many distinct
    policies as its type needs, none held by anyone before, and a template if
    it is a station; taking its identifiers away leaves both maps as they were
    to the last bit. *)
Theorem vif_data_roundtrip v type wl : type <> NL80211_IFTYPE_OTHER -> is_Some (vifs wl !! v) ->
  weight (rate_policies_map wl) WL12XX_MAX_RATE_POLICIES + policy_need type <= WL12XX_MAX_RATE_POLICIES ->
  weight (klv_templates_map wl) WLCORE_MAX_KLV_TEMPLATES < WLCORE_MAX_KLV_TEMPLATES ->
  exists wl', wl12xx_init_vif_data v type wl = (0, wl') /\
    NoDup (policies (vif_at wl' v)) /\
    Forall (fun p => 0 <= p < WL12XX_MAX_RATE_POLICIES /\ test_bit p (rate_policies_map wl) = false)
      (policies (vif_at wl' v)) /\
    rate_policies_map wl' = foldr set_bit (rate_policies_map wl) (policies (vif_at wl' v)) /\
    rate_policies_map (deinit_ids v wl') = rate_policies_map wl /\
    klv_templates_map (deinit_ids v wl') = klv_templates_map wl.
Proof.
  intros Ht Hv Hw Hk. destruct (vif_data_spec v type wl Ht Hv Hw Hk) as (wl' & E & H & T).
  exists wl'. destruct (holds_policies v _ wl' H) as (H1 & H2 & H3).
  destruct (deinit_spec v _ _ wl' H T) as [D1 D2]. done.
Qed.

Lemma vif_data_roundtrip_witness : exists wl',
  wl12xx_init_vif_data 1 NL80211_IFTYPE_STATION wl_ex = (0, wl') /\
  NoDup (policies (vif_at wl' 1)) /\ rate_policies_map (deinit_ids 1 wl') = rate_policies_map wl_ex.
Proof.
  destruct (vif_data_roundtrip 1 NL80211_IFTYPE_STATION wl_ex ltac:(discriminate)
    ltac:(by eexists) ltac:(vm_compute; discriminate) ltac:(vm_compute; reflexivity))
    as (wl' & E & N & _ & _ & R & _).
  exists wl'. split; [exact E|]. split; [exact N | exact R].
Defined.

(** ** Two observations *)

(** In the state recovery runs in, the command that stops the firmware's logger
    is refused before it reaches the bus. *)
Lemma stop_fwlog_never_sent `{ops : wlcore_ops} wl : state wl = WLCORE_STATE_RESTARTING ->
  wl12xx_cmd_stop_fwlog wl = (- EIO, wl).
Proof. apply cmd_send_restarting. Qed.

Definition roc_ex : wl1271 := snd (@wl12xx_start_dev Wl12xx.wl12xx_ops 1 IEEE80211_BAND_5GHZ 36
  (wl_ex <| bus := cmd_done_ex ++ cmd_done_ex ++ cmd_done_ex |>)).

(** From an interface on 2.4 GHz, a device role is started on a channel of 5 GHz
    and then asked to stay on the channel of that number in 2.4 GHz. *)
Lemma roc_ignores_band :
  (exists role hlid session, CMD_ROLE_START_DEV role WLCORE_BAND_5GHZ 36 hlid session ∈ sent roc_ex) /\
  exists role, CMD_REMAIN_ON_CHANNEL role 36 WLCORE_BAND_2_4GHZ ∈ sent roc_ex.
Proof. vm_compute. split; repeat eexists; repeat (apply list_elem_of_here || apply list_elem_of_further). Qed.
