(* ===== verification/KeyTheorems.v ===== *)
(** * Theorems about keys *)

From S2P Require Import Prelude Ieee80211 WlState ChipOps Io Mailbox Queues LinkQueues.
From S2P Require Import PowerSave TxPath TxAllocFacts TxSched TxInv SchedFacts TxMoves.
From S2P Require Import TxPrep TxWork TxDone TxDoneFacts FwStatus Rx Event EventFacts Irq Links.
From S2P Require Import LinksFacts Roles RolesFacts Init BaFacts Iface IfaceFacts Recovery.
From S2P Require Import Keys KeysFacts Driver Wl12xx Wl18xx Examples.

(** C20.  The record of an access point's keys is well formed -- without a gap,
    under distinct identifiers, each short enough for the command -- and stays
    so: recording a key appends it, with its size, bytes, link and sequence
    counters, or fails for one of three reasons, nothing changed.  When the
    access point starts, the firmware gets exactly one command for each recorded
    key, in order, for the key's link or, if it has none, for the broadcast link,
    and last the default WEP key if one of them is WEP (each command stands twice
    in the mailbox's history, as the driver writes it); if one fails the firmware
    got those before it and no later one.  Afterwards none is recorded any more,
    whatever the firmware answered. *)
Theorem ap_keys_recorded `{laws : wlcore_ops_laws} `{!mailbox_laws ops} v wl ks :
  is_Some (vifs wl !! v) -> recorded ks (vif_at wl v) ->
  (forall id key_type key_size key hlid s32 s16, 0 <= key_size <= zlen key ->
     let '(ret, wl') := wl1271_record_ap_key v id key_type key_size key hlid s32 s16 wl in
     (ret = 0 /\ exists k, key_fields id key_type key_size key hlid s32 s16 k /\
        recorded (ks ++ [k]) (vif_at wl' v)) \/
     (wl' = wl /\ ret = - EINVAL /\ (MAX_KEY_SIZE < key_size \/ id ∈ ak_id <$> ks)) \/
     (wl' = wl /\ ret = - EBUSY /\ Z.of_nat (length ks) = MAX_NUM_KEYS)) /\
  (let '(ret, wl') := wl1271_ap_init_hwenc v wl in
   recorded [] (vif_at wl' v) /\
   (0 <= ret -> sent wl' = twice (key_commands (vif_at wl v) ks) ++ sent wl) /\
   (ret < 0 -> exists before c after n, key_commands (vif_at wl v) ks = before ++ c :: after /\
      (n <= 2)%nat /\ sent wl' = replicate n c ++ twice before ++ sent wl)).
Proof.
  intros Hv R. split; [intros; by apply record_ap_key_spec | by apply ap_init_hwenc_spec].
Qed.

(** Two keys recorded for the access point of the example: one for all stations
    and one for a link. *)
Definition keyed_ex : wl1271 :=
  snd (wl1271_record_ap_key 2 2 KEY_AES 16 (replicate 16 9) 5 3 4
    (snd (wl1271_record_ap_key 2 1 KEY_WEP 5 (replicate 5 7) WL12XX_INVALID_LINK_ID 1 2
      (wl_ex <| bus := cmd_done_ex ++ cmd_done_ex ++ cmd_done_ex |>)))).

Definition keys_ex : list wl1271_ap_key :=
  [{| ak_id := 1; ak_key_type := KEY_WEP; ak_key_size := 5; ak_key := replicate 5 7 ++ replicate 27 0;
      ak_hlid := WL12XX_INVALID_LINK_ID; ak_tx_seq_32 := 1; ak_tx_seq_16 := 2 |};
   {| ak_id := 2; ak_key_type := KEY_AES; ak_key_size := 16; ak_key := replicate 16 9 ++ replicate 16 0;
      ak_hlid := 5; ak_tx_seq_32 := 3; ak_tx_seq_16 := 4 |}].

Lemma keyed_ex_recorded : recorded keys_ex (vif_at keyed_ex 2).
Proof.
  split; [reflexivity | done | |].
  - apply (bool_decide_unpack _). vm_compute. exact I.
  - repeat constructor; done.
Qed.

Lemma ap_keys_recorded_witness :
  let wl' := snd (@wl1271_ap_init_hwenc Wl12xx.wl12xx_ops 2 keyed_ex) in
  fst (@wl1271_ap_init_hwenc Wl12xx.wl12xx_ops 2 keyed_ex) = 0 /\ recorded [] (vif_at wl' 2) /\
  sent wl' = twice (key_commands (vif_at keyed_ex 2) keys_ex) ++ sent keyed_ex /\
  key_link (vif_at keyed_ex 2) <$> keys_ex = [ap_bcast_hlid (vif_at keyed_ex 2); 5].
Proof.
  cbv zeta. assert (fst (@wl1271_ap_init_hwenc Wl12xx.wl12xx_ops 2 keyed_ex) = 0) as R by (vm_compute; reflexivity).
  destruct (@ap_keys_recorded Wl12xx.wl12xx_ops Wl12xx.wl12xx_laws Wl12xx.wl12xx_mailbox_laws 2%nat keyed_ex keys_ex
    ltac:(by eexists) keyed_ex_recorded) as [_ B].
  destruct (wl1271_ap_init_hwenc 2 keyed_ex) as [ret wl']. cbn [fst snd] in *. subst ret. destruct B as (N & S & _).
  split; [reflexivity|]. split; [exact N|]. split; [apply S; lia | vm_compute; reflexivity].
Defined.

(** C21.  On the 18xx the count of keys that need a spare block does not count:
    it only moves between none and one.  After two such keys are set and one is
    removed, the driver goes back to the smaller number of spare blocks per
    packet in its own accounting, and tells the firmware to, although a key that
    needs the larger one remains. *)
Theorem spare_block_forgotten v sta1 sta2 k1 k2 wl :
  might_change_spare k1 = true -> might_change_spare k2 = true -> extra_spare_vif_count wl = 0 ->
  let '(r1, _, w1) := Wl18xx.wl18xx_set_key SET_KEY v sta1 k1 wl in
  let '(r2, _, w2) := Wl18xx.wl18xx_set_key SET_KEY v sta2 k2 w1 in
  let '(r3, _, w3) := Wl18xx.wl18xx_set_key DISABLE_KEY v sta1 k1 w2 in
  0 <= r1 -> 0 <= r2 -> 0 <= r3 ->
  (forall gem, Wl18xx.wl18xx_get_spare_blocks w2 gem = Wl18xx.WL18XX_TX_HW_EXTRA_BLOCK_SPARE /\
     Wl18xx.wl18xx_get_spare_blocks w3 gem = Wl18xx.WL18XX_TX_HW_BLOCK_SPARE) /\
  Wl18xx.fw_spare w2 = Some Wl18xx.WL18XX_TX_HW_EXTRA_BLOCK_SPARE /\
  Wl18xx.fw_spare w3 = Some Wl18xx.WL18XX_TX_HW_BLOCK_SPARE.
Proof.
  intros H1 H2 Hc. pose proof (Wl18xx.wl18xx_set_key_spare SET_KEY v sta1 k1 wl H1) as S1.
  destruct (Wl18xx.wl18xx_set_key SET_KEY v sta1 k1 wl) as [[r1 ?] w1].
  pose proof (Wl18xx.wl18xx_set_key_spare SET_KEY v sta2 k2 w1 H2) as S2.
  destruct (Wl18xx.wl18xx_set_key SET_KEY v sta2 k2 w1) as [[r2 ?] w2].
  pose proof (Wl18xx.wl18xx_set_key_spare DISABLE_KEY v sta1 k1 w2 H1) as S3.
  destruct (Wl18xx.wl18xx_set_key DISABLE_KEY v sta1 k1 w2) as [[r3 ?] w3].
  cbv zeta in *. rewrite Hc in S1. simpl in S1. intros R1 R2 R3.
  destruct (S1 R1) as [C1 F1]. rewrite C1 in S2. destruct (S2 R2) as [C2 F2].
  rewrite C2, C1 in S3. destruct (S3 R3) as [C3 F3].
  split; [intros gem; unfold Wl18xx.wl18xx_get_spare_blocks; by rewrite C3, C2, C1|]. by rewrite F2.
Qed.

(** Two TKIP keys for the access point of the example, which does not run yet. *)
Definition tkip_ex (i : Z) : key_conf :=
  Build_key_conf WLAN_CIPHER_SUITE_TKIP 0 0 i 32 (replicate 32 0).

(** The transfers of a command of the 18xx. *)
Definition cmd_done_18xx_ex : list (Z * list Z) :=
  [(0, []); (0, []); (0, [16; 0; 0; 0]); (0, [0; 0; 1; 0]); (0, [])].

Definition spare_ex (n : nat) : Z * key_conf * wl1271 :=
  let '(r1, k1, w1) := Wl18xx.wl18xx_set_key SET_KEY 2 None (tkip_ex 1)
    (wl_ex <| bus := cmd_done_18xx_ex ++ cmd_done_18xx_ex |>) in
  let '(r2, k2, w2) := Wl18xx.wl18xx_set_key SET_KEY 2 None (tkip_ex 2) w1 in
  match n with
  | 1%nat => (r1, k1, w1)
  | 2%nat => (r2, k2, w2)
  | _ => Wl18xx.wl18xx_set_key DISABLE_KEY 2 None (tkip_ex 1) w2
  end.

Lemma spare_block_forgotten_witness :
  fst (fst (spare_ex 1)) = 0 /\ fst (fst (spare_ex 2)) = 0 /\ fst (fst (spare_ex 3)) = 0 /\
  Wl18xx.wl18xx_get_spare_blocks (snd (spare_ex 3)) false = Wl18xx.WL18XX_TX_HW_BLOCK_SPARE /\
  Wl18xx.fw_spare (snd (spare_ex 3)) = Some Wl18xx.WL18XX_TX_HW_BLOCK_SPARE.
Proof.
  assert (fst (fst (spare_ex 1)) = 0 /\ fst (fst (spare_ex 2)) = 0 /\ fst (fst (spare_ex 3)) = 0) as R
    by (vm_compute; done).
  pose proof (spare_block_forgotten 2 None None (tkip_ex 1) (tkip_ex 2)
    (wl_ex <| bus := cmd_done_18xx_ex ++ cmd_done_18xx_ex |>) ltac:(reflexivity) ltac:(reflexivity)
    ltac:(reflexivity)) as T.
  split; [apply R|]. split; [apply R|]. split; [apply R|]. unfold spare_ex in *.
  destruct (Wl18xx.wl18xx_set_key SET_KEY 2 None (tkip_ex 1) _) as [[r1 ?] w1].
  destruct (Wl18xx.wl18xx_set_key SET_KEY 2 None (tkip_ex 2) w1) as [[r2 ?] w2].
  destruct (Wl18xx.wl18xx_set_key DISABLE_KEY 2 None (tkip_ex 1) w2) as [[r3 ?] w3].
  simpl in *. destruct R as (-> & -> & ->).
  destruct T as (A & _ & B); [lia..|]. split; [apply (A false) | exact B].
Defined.
