(* ===== verification/ScanTheorems.v ===== *)
(** * Theorems about scanning *)

From S2P Require Import Prelude Ieee80211 WlState ChipOps Io Queues LinkQueues.
From S2P Require Import PowerSave TxPath TxAllocFacts TxSched TxInv SchedFacts TxMoves.
From S2P Require Import TxPrep TxWork TxDone TxDoneFacts FwStatus Rx Event EventFacts Irq Links.
From S2P Require Import LinksFacts Roles RolesFacts Init BaFacts Iface IfaceFacts Recovery Keys KeysFacts.
From S2P Require Import Scan ScanFacts Driver Wl12xx Wl18xx Examples.

(** C16.  No scan is lost or reported twice: in every state the driver reaches
    from one without a scan, the scans it has accepted are those whose end was
    reported to mac80211, the one that is running, and those the completion
    work dropped because the chip did not wake up -- whatever came in between,
    cancellation, the removal of interfaces and recovery included. *)
Theorem scans_accounted `{laws : wlcore_ops_laws} `{!tx_compl_laws ops} `{klaws : key_laws} wl0 g wl :
  driver_inv wl0 -> (forall s, s <> dummy_packet (hw wl0) -> copies s wl0 = 0) ->
  scan_idle wl0 = true -> completed_scans (log wl0) = 0 -> reachable wl0 g wl ->
  accepted g = completed_scans (log wl) + (if scan_idle wl then 0 else 1) + dropped g.
Proof.
  intros W0 C0 Hi Hl R. destruct (reachable_spec wl0 g wl W0 C0 R) as (_ & _ & _ & N).
  unfold scans in N. rewrite Hi, Hl in N. lia.
Qed.

Definition channels_ex : list ieee80211_channel :=
  [Build_ieee80211_channel IEEE80211_BAND_2GHZ 1 0 20;
   Build_ieee80211_channel IEEE80211_BAND_5GHZ 52 (IEEE80211_CHAN_RADAR + IEEE80211_CHAN_PASSIVE_SCAN) 20;
   Build_ieee80211_channel IEEE80211_BAND_2GHZ 12 IEEE80211_CHAN_PASSIVE_SCAN 20;
   Build_ieee80211_channel IEEE80211_BAND_5GHZ 36 0 17;
   Build_ieee80211_channel IEEE80211_BAND_2GHZ 14 IEEE80211_CHAN_DISABLED 20].

Definition scan_ex : cfg80211_scan_request :=
  {| req_ssids := [[97; 98]]; req_channels := channels_ex; req_ie := [1; 2]; no_cck := false |}.

Lemma scans_accounted_witness : exists wl',
  @serve Wl12xx.wl12xx_ops Wl12xx.wl12xx_key_ops (OpHwScan 1 scan_ex 1) wl_ex = Ret wl' /\
  1 = completed_scans (log wl') + (if scan_idle wl' then 0 else 1) + 0.
Proof.
  assert (zlen (req_channels scan_ex) <= WL1271_MAX_CHANNELS) as A by (by vm_compute).
  destruct (@hw_scan_served Wl12xx.wl12xx_ops Wl12xx.wl12xx_laws Wl12xx.wl12xx_key_ops
    1 scan_ex 1 wl_ex wl_ex_driver_inv A) as (wl' & E & _).
  exists wl'. split; [exact E|].
  refine (@scans_accounted Wl12xx.wl12xx_ops Wl12xx.wl12xx_laws Wl12xx.wl12xx_compl_laws Wl12xx.wl12xx_key_ops
    Wl12xx.wl12xx_key_laws wl_ex {| given := []; accepted := 1; dropped := 0 |} wl'
    wl_ex_driver_inv (fun s _ => wl_ex_copies s) eq_refl eq_refl _).
  exact (reach_step wl_ex {| given := []; accepted := 0; dropped := 0 |} wl_ex (OpHwScan 1 scan_ex 1) wl'
    (reach_start wl_ex) A E).
Defined.

(** C31.  A scan ends: when the completion work runs on a device that is on and
    whose chip wakes up, the scan is over, with exactly one report to mac80211;
    and if the firmware never said that it was done, the device leaves its
    running state for recovery. *)
Theorem scan_ends `{laws : wlcore_ops_laws} c p wl :
  work_inv wl -> scan_ok wl -> state wl = WLCORE_STATE_ON -> scan_idle wl = false ->
  0 <= fst (wl1271_ps_elp_wakeup c (idle_scan wl)) ->
  exists wl', wl1271_scan_complete_work c p wl = Ret wl' /\ work_inv wl' /\ scan_idle wl' = true /\
    completed_scans (log wl') = completed_scans (log wl) + 1 /\
    (scan_failed wl = true -> state wl' <> WLCORE_STATE_ON).
Proof.
  intros W O Hs Hi Hw. destruct (scan_complete_work_spec c p wl W O) as (wl' & E & K & H).
  assert (lost_scan c wl = 0) as L.
  { unfold lost_scan. rewrite (proj2 (Z.ltb_ge _ _)) by done. by rewrite andb_false_r. }
  destruct (H Hs) as [Hi' Hf]. exists wl'. split_and!; [done | apply K | done | | auto].
  pose proof (sk_scans _ _ _ K) as N. unfold scans in N. rewrite L, Hi, Hi' in N. lia.
Qed.

(** A scan the firmware does not answer. *)
Definition scanning_ex : wl1271 :=
  wl_ex <| scan_idle := false |> <| scan_vif := Some 1%nat |> <| scan_req := true |> <| scanned_ch := 0 |>
        <| scan_failed := true |> <| scan_ssid := [97; 98] |>.

Lemma scanning_ex_inv : work_inv scanning_ex.
Proof. apply work_inv_scan, wl_ex_inv. Qed.

Lemma scan_ends_witness : exists wl',
  @wl1271_scan_complete_work Wl12xx.wl12xx_ops 1 None scanning_ex = Ret wl' /\
  completed_scans (log wl') = 1 /\ state wl' <> WLCORE_STATE_ON.
Proof.
  destruct (@scan_ends Wl12xx.wl12xx_ops Wl12xx.wl12xx_laws 1 None scanning_ex scanning_ex_inv
    ltac:(intros _; by eexists) eq_refl eq_refl ltac:(by vm_compute)) as (wl' & E & _ & _ & C & S).
  exists wl'. split; [exact E|]. split; [exact C | exact (S eq_refl)].
Defined.

(** C33.  The channels of a scan: with [p2], [a2], [p5], [d5], [a5] the request's
    channels, in its order, to listen on and to probe in 2.4 GHz, and to listen
    on, with radar and to probe in 5 GHz -- cut where the array of the band is
    full -- each array holds the parts one after the other and then empty
    entries, each entry with its channel's number, power limit and radar flag,
    and the counts say where each part ends.  To probe is: usable, free
    of radar, with probing allowed on the channel and an SSID to probe for.  The
    arrays are never overrun, and when they have room every usable channel (of
    2.4 GHz, every one without radar) is in exactly one part. *)
Theorem scan_channels_sorted wl cfg chans n type :
  channels_2 cfg = replicate 14 ch_params0 -> channels_5 cfg = replicate 24 ch_params0 ->
  let cfg' := snd (wlcore_set_scan_chan_params wl cfg chans n type) in
  let p2 := take 14 (filter (plain n IEEE80211_BAND_2GHZ true) chans) in
  let a2 := take (14 - length p2) (filter (plain n IEEE80211_BAND_2GHZ false) chans) in
  let p5 := take 24 (filter (plain n IEEE80211_BAND_5GHZ true) chans) in
  let d5 := take (24 - length p5) (filter (watched IEEE80211_BAND_5GHZ) chans) in
  let a5 := take (24 - length p5 - length d5) (filter (plain n IEEE80211_BAND_5GHZ false) chans) in
  scan_passive cfg' = [zlen p2; zlen p5; 0] /\ scan_active cfg' = [zlen a2; zlen a5; 0] /\
  scan_dfs cfg' = zlen d5 /\
  channels_2 cfg' = entries wl n IEEE80211_BAND_2GHZ type (p2 ++ a2)
    ++ replicate (14 - length p2 - length a2) ch_params0 /\
  channels_5 cfg' = entries wl n IEEE80211_BAND_5GHZ type (p5 ++ d5 ++ a5)
    ++ replicate (24 - length p5 - length d5 - length a5) ch_params0 /\
  Forall2 entry_of (p2 ++ a2) (take (length (p2 ++ a2)) (channels_2 cfg')) /\
  Forall2 entry_of (p5 ++ d5 ++ a5) (take (length (p5 ++ d5 ++ a5)) (channels_5 cfg')) /\
  zlen (channels_2 cfg') = MAX_CHANNELS_2GHZ /\ zlen (channels_5 cfg') = MAX_CHANNELS_5GHZ /\
  (let all := filter (fun ch => usable IEEE80211_BAND_2GHZ ch && negb (radar ch)) chans in
   (length all <= 14)%nat -> Permutation (p2 ++ a2) all) /\
  (let all := filter (fun ch => usable IEEE80211_BAND_5GHZ ch) chans in
   (length all <= 24)%nat -> Permutation (p5 ++ d5 ++ a5) all).
Proof.
  intros E2 E5. cbv zeta.
  destruct (set_scan_chan_params_spec wl cfg chans n type E2 E5) as (P & A & D & C2 & C5).
  pose proof (regions_2 n chans) as R2. pose proof (regions_5 n chans) as R5.
  cbv zeta in P, A, D, C2, C5, R2, R5. destruct (regions_fit n chans) as [F2 F5]. cbv zeta in F2, F5.
  rewrite regions_exact in *. cbn [passive_2 active_2 passive_5 dfs_5 active_5] in *. rewrite C2, C5.
  split_and!; try done; try apply entries_of.
  - unfold entries, zlen, MAX_CHANNELS_2GHZ. rewrite length_app, length_fmap, length_app, length_replicate. lia.
  - unfold entries, zlen, MAX_CHANNELS_5GHZ.
    rewrite length_app, length_fmap, !length_app, length_replicate. lia.
Qed.

Lemma scan_channels_sorted_witness :
  let cfg := snd (wlcore_set_scan_chan_params wl_ex scan_params0 channels_ex 1 SCAN_TYPE_SEARCH) in
  scan_channel <$> take 2 (channels_2 cfg) = [12; 1] /\ zlen (channels_2 cfg) = 14.
Proof.
  cbv zeta. split; [vm_compute; reflexivity|].
  destruct (scan_channels_sorted wl_ex scan_params0 channels_ex 1 SCAN_TYPE_SEARCH eq_refl eq_refl)
    as (_ & _ & _ & _ & _ & _ & _ & L & _). exact L.
Defined.

(** What the firmware should get for the SSIDs and the filters of a request:
    no list at all, the SSIDs themselves, or the names of the filters, in their
    order and as often as they are given, each name to probe for marked where it
    stands first -- if all of those are filtered for. *)
Definition ssid_list_ref (req : cfg80211_sched_scan_request) : Z + (Z * option (list (Z * list Z))) :=
  let ssids := sched_ssids req in
  if bool_decide (names_of req = []) then
    if only_bcast ssids then inr (SCAN_SSID_FILTER_ANY, None)
    else inr (SCAN_SSID_FILTER_DISABLED,
              Some ((fun s => (if zlen s =? 0 then SCAN_SSID_TYPE_PUBLIC else SCAN_SSID_TYPE_HIDDEN, s)) <$> ssids))
  else if forallb (fun s => (zlen s =? 0) || bool_decide (s ∈ names_of req)) ssids
       then inr (SCAN_SSID_FILTER_LIST, Some (marked [] ssids (names_of req)))
       else inl (- EINVAL).

(** C18.  The SSID list of a periodic scan: for a request within the limits the
    driver registers with mac80211 (at most 16 SSIDs and 16 match sets), the
    list, built entry by entry and marked in place, never leaves its 16 entries
    and is what the filters and SSIDs of the request call for: with filters, an
    SSID that is not among them is an error, and a name the filters repeat is
    marked in its first entry only. *)
Theorem sched_ssids_filtered req : sched_req_ok req ->
  ssid_list req = Ret (ssid_list_ref req).
Proof.
  intros H. unfold ssid_list, ssid_list_ref. cbv zeta. fold (names_of req).
  assert ([] ∉ names_of req) as Hn.
  { intros [Hz _]%list_elem_of_filter. change (0 < 0) in Hz. lia. }
  split_if.
  - split_if; [done|]. by rewrite add_ssids_spec by apply H.
  - rewrite add_ssids_spec by (by apply names_len). cbn [obind app].
    rewrite <- (marked_none (names_of req) []).
    assert (only_bcast (sched_ssids req) = true ->
      forallb (fun s => (zlen s =? 0) || bool_decide (s ∈ names_of req)) (sched_ssids req) = true /\
      marked [] [] (names_of req) = marked [] (sched_ssids req) (names_of req)) as Hb.
    { destruct (sched_ssids req) as [|s [|? ?]]; [done | | done]. simpl. intros Hz. rewrite Hz. split; [done|].
      apply marked_ext. intros y Hy _. rewrite list_elem_of_singleton, elem_of_nil. split; [done|]. intros ->.
      destruct s; [done | unfold zlen in Hz; simpl in Hz; lia]. }
    destruct (only_bcast (sched_ssids req)).
    + destruct (Hb eq_refl) as [-> ->]. done.
    + rewrite mark_all_spec by done. split_if; [by rewrite app_nil_r | done].
Qed.

Definition sched_ex : cfg80211_sched_scan_request :=
  {| sched_ssids := [[97; 98]]; sched_channels := channels_ex; long_interval := 60; short_interval := 10;
     n_short_intervals := 3; match_sets := [[99]; []; [97; 98]; [97; 98]] |}.

Lemma sched_ssids_filtered_witness :
  ssid_list sched_ex = Ret (inr (SCAN_SSID_FILTER_LIST,
    Some [(SCAN_SSID_TYPE_PUBLIC, [99]); (SCAN_SSID_TYPE_HIDDEN, [97; 98]); (SCAN_SSID_TYPE_PUBLIC, [97; 98])])).
Proof.
  rewrite (sched_ssids_filtered sched_ex); [reflexivity | by split].
Defined.
