(* ===== verification/BootTheorems.v ===== *)
(** * Theorems about the boot

    The properties of boot.c and of the boot functions of the two chip
    families, each with an instance on a concrete device. *)

From S2P Require Import Prelude WlState ChipOps Io Init Boot Boot12xx Boot18xx.
From S2P Require Import BootFacts NvsFacts BootOrder VersionFacts Wl12xx Wl18xx Examples.

(** ** A device that has not been booted *)

(** Two pieces of firmware. *)
Definition segs_ex : list (Z * list Z) := [(0x20000, [1; 2; 3; 4; 5; 6; 7; 8]); (0x40000, [9; 9; 9; 9])].

(** An NVS section: the two bursts of the MAC address, under the addresses the
    files that come with the driver store them under, and tables. *)
Definition bursts_ex : list (Z * list Z) := [(0x546d, [0x28000102]); (0x5471, [0x0800])].
Definition nvs_post_ex : list Z := replicate 450 5 ++ replicate 648 0.
Definition nvs_ex : list Z := concat (nvs_burst_bytes <$> bursts_ex) ++ 0 :: nvs_post_ex.

Definition off_ex : wl1271 :=
  upd_boot (fun b =>
    b <| fw := fw_image segs_ex |>
      <| nvs := Some nvs_ex |> <| nvs_len := zlen nvs_ex |>
      <| min_fw_ver := [7; 3; 10; 2; 115] |>
      <| num_mac_addr := 2 |>
      <| addresses := [mac_address 0x080028 0x000102; replicate 6 0; replicate 6 0] |>
      <| ptable_down := wl12xx_part_down |> <| ptable_drpw := wl12xx_part_drpw |>)
    (wlcore_alloc_hw (hw_ex <| ptable_boot := wl12xx_part_boot |> <| ptable_work := wl12xx_part_work |>))
    <| curr_part := wl12xx_part_work |>.

Lemma image_ex_ok down : down = wl12xx_part_down \/ down = wl18xx_part_down -> image_ok down segs_ex.
Proof.
  intros H. split; [| |done].
  - by destruct H as [-> | ->].
  - repeat constructor; destruct H as [-> | ->]; done.
Qed.

(** ** The firmware image *)

(** C11.  Loading the firmware: for an image file that is well formed (pieces of
    at most 300000 bytes and a multiple of four, addresses below the 2 GB limit)
    and a download window of at least two chunks, [wlcore_boot_upload_firmware]
    never reads outside the file; it returns zero if no transfer fails; and
    whenever it returns zero, the writes it made, replayed on the chip through
    the partition windows as they were set, leave in the chip's memory exactly
    the bytes of every piece at its address and nothing else changed. *)
Theorem firmware_loaded segs rest wl :
  fw (boot wl) = fw_image segs ++ rest -> image_ok (ptable_down (boot wl)) segs ->
  exists ret wl', wlcore_boot_upload_firmware wl = Ret (ret, wl')
    /\ (bus_quiet wl -> ret = 0)
    /\ (ret = 0 -> exists l, log wl' = l ++ log wl
          /\ forall ch, chip_mem (replay l ch) = load_image segs (chip_mem ch)).
Proof.
  intros E I. destruct (upload_firmware_spec segs rest wl E I) as ([ret w] & R & [Q _ L _ _]).
  exists ret, w. split; [done|]. split; [intros X; by apply Q | exact L].
Qed.

Lemma firmware_loaded_witness :
  exists wl' l, wlcore_boot_upload_firmware off_ex = Ret (0, wl') /\ log wl' = l
    /\ chip_mem (replay l (Build_chip ∅ ∅)) !! 0x20003 = Some 4.
Proof.
  destruct (firmware_loaded segs_ex [] off_ex eq_refl (image_ex_ok _ (or_introl eq_refl)))
    as (ret & wl' & E & Q & L).
  assert (ret = 0) as -> by (apply Q; split; [done | constructor]).
  destruct (L eq_refl) as (l & El & M). exists wl', l. split; [exact E|].
  split; [by rewrite El, app_nil_r | rewrite M; reflexivity].
Defined.

(** ** The NVS file *)

(** C25.  Uploading the NVS file is safe for every file content and every
    behaviour of the bus: the parse of the register bursts ends and reads only
    bytes of the file; a file whose size (or whose 11a setting, for the legacy
    format) is not one the chip's driver takes is refused with [-EILSEQ], given
    up, and nothing is sent; an accepted file is kept, with the MAC address
    stored in it where [wl1271_register_hw] reads it back. *)
Theorem nvs_upload_safe wl :
  (forall file, nvs (boot wl) = Some file -> nvs_len (boot wl) = zlen file) ->
  exists ret wl', wlcore_boot_upload_nvs wl = Ret (ret, wl')
    /\ match nvs (boot wl) with
       | None => ret = - ENODEV /\ wl' = wl
       | Some file =>
           if nvs_accepted file wl
           then exists file', nvs_put_mac nvs_mac_offsets (zget [] (addresses (boot wl)) 0) file = Ret file'
                  /\ nvs (boot wl') = Some file' /\ zlen file' = zlen file
                  /\ forall oui nic, 0 <= oui < 16777216 -> 0 <= nic < 16777216 ->
                       zget [] (addresses (boot wl)) 0 = mac_address oui nic ->
                       nvs_mac_parts file' = Ret (oui, nic)
           else ret = - EILSEQ /\ nvs (boot wl') = None /\ nvs_len (boot wl') = 0 /\ log wl' = log wl
       end.
Proof.
  intros H. destruct (nvs (boot wl)) as [file|] eqn:N.
  - destruct (nvs_upload_total wl file N (H file eq_refl)) as (ret & wl' & E & C). exists ret, wl'.
    split; [done|]. destruct (nvs_accepted file wl) eqn:A; [|done]. apply nvs_accepted_size in A.
    destruct C as (file' & P & F & Z'). exists file'. do 3 (split; [done|]). intros oui nic Ho Hn M.
    rewrite M in P. apply (mac_nvs_stored oui nic file); [done|done|lia|done].
  - exists (- ENODEV), wl. unfold wlcore_boot_upload_nvs. by rewrite N.
Qed.

Lemma nvs_upload_safe_witness :
  exists ret wl', wlcore_boot_upload_nvs off_ex = Ret (ret, wl')
    /\ exists file', nvs (boot wl') = Some file' /\ nvs_mac_parts file' = Ret (0x080028, 0x000102).
Proof.
  destruct (nvs_upload_safe off_ex) as (ret & wl' & E & H); [by intros file [= <-]|].
  exists ret, wl'. split; [exact E|].
  change (nvs (boot off_ex)) with (Some nvs_ex) in H. cbv iota beta in H.
  assert (nvs_accepted nvs_ex off_ex = true) as A by (vm_compute; reflexivity). rewrite A in H.
  destruct H as (file' & _ & N & _ & M). exists file'. split; [exact N|].
  apply M; [lia | lia | reflexivity].
Defined.

(** C29.  The NVS file as its format describes it: for a file that, with the MAC
    address in place, holds the register bursts [bs] and then the zero length,
    the upload succeeds when no transfer fails, and whenever it succeeds it has
    written every word of every burst, in order, to the register it is for (the
    burst's address with its lowest bit cleared: the files that come with the
    driver have that bit set), then set the working partition and written the tables (from the aligned offset
    behind the bursts to the end of the section) to the command mailbox, and
    nothing else. *)
Theorem nvs_uploaded wl file file' bs post :
  nvs (boot wl) = Some file -> nvs_len (boot wl) = zlen file -> nvs_accepted file wl = true ->
  nvs_put_mac nvs_mac_offsets (zget [] (addresses (boot wl)) 0) file = Ret file' ->
  file' = concat (nvs_burst_bytes <$> bs) ++ 0 :: post -> Forall nvs_burst_ok bs ->
  nvs_tables_offset bs < WL1271_INI_NVS_SECTION_SIZE ->
  0 <= part_start (part_reg (curr_part wl)) ->
  part_start (part_reg (curr_part wl)) + 0x20000 < 4294967296 ->
  exists ret wl', wlcore_boot_upload_nvs wl = Ret (ret, wl')
    /\ (bus_quiet wl -> ret = 0) /\ (0 <= ret -> log wl' = nvs_writes wl file' bs ++ log wl).
Proof. apply nvs_upload_writes. Qed.

Lemma nvs_uploaded_witness :
  exists wl', wlcore_boot_upload_nvs off_ex = Ret (0, wl')
    /\ log wl' = nvs_writes off_ex nvs_ex bursts_ex ++ log off_ex.
Proof.
  destruct (nvs_uploaded off_ex nvs_ex nvs_ex bursts_ex nvs_post_ex) as (ret & wl' & E & Q & L);
    [reflexivity | reflexivity | vm_compute; reflexivity | vm_compute; reflexivity | reflexivity
    | | vm_compute; reflexivity | vm_compute; discriminate | vm_compute; reflexivity |].
  { repeat constructor; vm_compute; congruence. }
  assert (ret = 0) as -> by (apply Q; split; [reflexivity | constructor]).
  exists wl'. split; [exact E | apply L; lia].
Defined.

(** ** The version of the firmware *)

(** C22.  The version check: static data in which the firmware reports the
    version [ver] as text, after the four characters of its prefix, is parsed
    back to exactly these five numbers (as [wlcore_identify_fw] sees them), and
    the check then accepts the firmware exactly when its chip number is the
    required one and the other four are at least the required ones in
    lexicographic order; any other firmware gets [-EINVAL]. *)
Theorem version_checked `{bops : wlcore_boot_ops} wl pre prefix ver post m0 m1 m2 m3 m4 :
  length pre = STATIC_DATA_FW_VERSION -> length prefix = 4%nat -> (forall c, c ∈ prefix -> c <> 0) ->
  length ver = NUM_FW_VER -> Forall (fun x => 0 <= x < 4294967296) ver ->
  (length (dotted ver) + 4 < ETHTOOL_BUSINFO_LEN)%nat ->
  min_fw_ver (boot wl) = [m0; m1; m2; m3; m4] ->
  exists wl1, fw_ver (boot wl1) = ver
    /\ wlcore_boot_parse_fw_ver (pre ++ prefix ++ dotted ver ++ 0 :: post) wl = Ret (wlcore_identify_fw wl1)
    /\ (wlcore_validate_fw_ver wl1 = 0 \/ wlcore_validate_fw_ver wl1 = - EINVAL)
    /\ (wlcore_validate_fw_ver wl1 = 0 <-> version_accepted [m0; m1; m2; m3; m4] ver).
Proof.
  intros Hpre Hp Np Hv Uv Hl M. unfold wlcore_boot_parse_fw_ver.
  rewrite <- Hpre, drop_app_length, app_assoc.
  assert (forall c, c ∈ prefix ++ dotted ver -> c <> 0) as Nz.
  { intros c [H|H]%elem_of_app; [by apply Np | by apply dotted_no_nul in H]. }
  pose proof (c_string_app _ post Nz) as Ec. set (s := prefix ++ dotted ver) in *.
  assert (length s < ETHTOOL_BUSINFO_LEN)%nat as Hs by (unfold s; rewrite length_app; lia).
  unfold strncpy. cbv zeta. rewrite Ec.
  rewrite bool_decide_eq_false_2 by (rewrite length_app; simpl; lia). cbn [andb obind].
  set (str := zset _ _ 0).
  assert (str = s ++ replicate (ETHTOOL_BUSINFO_LEN - length s) 0) as Es by (by apply version_str).
  assert (scan_dotted NUM_FW_VER (c_string (drop 4 str)) = Some ver) as ->.
  { rewrite Es. unfold s. rewrite <- Hp, <- app_assoc, drop_app_length.
    rewrite <- Hv, <- (scan_dotted_dotted ver) by (by destruct ver). f_equal.
    destruct (ETHTOOL_BUSINFO_LEN - length (prefix ++ dotted ver))%nat as [|k] eqn:K; [unfold s in Hs; lia|].
    apply c_string_app. intros c. apply dotted_no_nul. }
  cbn [obind]. match goal with |- context [wlcore_identify_fw ?w] => exists w end.
  split; [reflexivity|]. split; [by destruct (wlcore_identify_fw _)|].
  do 6 (destruct ver as [|? ver]; try discriminate Hv). by apply validate_spec.
Qed.

(** The static data of a firmware of version 7.3.10.2.116. *)
Definition static_ex : list Z :=
  replicate 8 0 ++ [82; 101; 118; 32] ++ dotted [7; 3; 10; 2; 116] ++ 0 :: replicate 39 0.

Lemma version_checked_witness :
  exists wl1, fw_ver (boot wl1) = [7; 3; 10; 2; 116]
    /\ wlcore_boot_parse_fw_ver (bops := wl12xx_boot_ops) static_ex off_ex
       = Ret (wlcore_identify_fw (bops := wl12xx_boot_ops) wl1)
    /\ wlcore_validate_fw_ver wl1 = 0.
Proof.
  destruct (version_checked (bops := wl12xx_boot_ops) off_ex (replicate 8 0) [82; 101; 118; 32]
              [7; 3; 10; 2; 116] (replicate 39 0) 7 3 10 2 115) as (wl1 & V & E & _ & A);
    [reflexivity | reflexivity | | reflexivity | | vm_compute; lia | reflexivity |].
  { intros c Hc -> . repeat (apply elem_of_cons in Hc as [Hc|Hc]; [discriminate Hc|]).
    by apply elem_of_nil in Hc. }
  { repeat constructor; lia. }
  exists wl1. split; [exact V|]. split; [exact E|]. apply A. vm_compute. intuition congruence.
Defined.

(** ** The order of the boot *)

(** C35.  The embedded CPU never runs a partly loaded firmware: whenever the boot
    function of either chip family reports success, the events it recorded
    contain the write that starts the CPU (the control register, through the boot
    partition, with the run bits set), and the chip on which everything before
    that write is replayed holds the whole image (on the 18xx, then the PHY
    parameters over it), whatever its memory held at first. *)
Theorem boot_starts_loaded `{laws : wlcore_ops_laws} segs rest wl :
  fw (boot wl) = fw_image segs ++ rest -> image_ok (ptable_down (boot wl)) segs -> nonpos wl ->
  (forall polls ret wl', wl12xx_boot polls wl = Ret (ret, wl') -> 0 <= ret ->
     started_loaded wl wl' (load_image segs))
  /\ (forall ret wl', wl18xx_boot wl = Ret (ret, wl') -> 0 <= ret ->
        ptable_phy_init (boot wl) = wl18xx_part_phy_init (phy_params (boot wl)) ->
        0 < zlen (phy_params (boot wl)) <= HW_PARTITION_REGISTERS_ADDR ->
        started_loaded wl wl'
          (fun mem => load_bytes (load_image segs mem) WL18XX_PHY_INIT_MEM_ADDR (phy_params (boot wl)))).
Proof.
  intros E I N. split.
  - intros polls ret wl' R H. exact (boot12_loaded segs rest wl E I N polls (ret, wl') R H).
  - intros ret wl' R H P Z'. exact (boot18_loaded segs rest wl E I N (ret, wl') R H P Z').
Qed.

(** The static data of an 18xx firmware, version 8.4.0.0.9. *)
Definition static18_ex : list Z :=
  let ver := [82; 101; 118; 32] ++ dotted [8; 4; 0; 0; 9] in
  replicate 8 0 ++ ver ++ replicate (76 - length ver) 0.

(** An 18xx device, and what the bus answers when it boots: after 68 transfers
    the chip's identifier, the interrupt of its initialization, the mailboxes,
    the static data, and the completion of the command that unmasks events. *)
Definition off18_ex : wl1271 :=
  upd_boot (fun b =>
    b <| fw := fw_image segs_ex |> <| phy_params := [1; 2; 3] |>
      <| min_fw_ver := [8; 4; 0; 0; 8] |> <| static_data_priv_len := 20 |>
      <| ptable_down := wl18xx_part_down |> <| ptable_top_prcm_elp_soc := wl18xx_part_top |>
      <| ptable_phy_init := wl18xx_part_phy_init [1; 2; 3] |>
      <| rtable_ecpu_control := WL18XX_REG_ECPU_CONTROL |> <| rtable_chip_id_b := WL18XX_REG_CHIP_ID_B |>)
    (wlcore_alloc_hw (hw_ex <| chip_id := CHIP_ID_185x_PG20 |>
       <| ptable_boot := wl18xx_part_boot |> <| ptable_work := wl18xx_part_work |>))
    <| bus := replicate 68 (0, []) ++
         [(0, [0x11; 1; 3; 6]); (0, [2]); (0, []); (0, []); (0, []); (0, static18_ex);
          (0, []); (0, []); (0, [16]); (0, [0; 0; 1; 0])] |>.

Lemma boot_starts_loaded_witness :
  exists wl', wl18xx_boot (ops := Wl18xx.wl18xx_ops) off18_ex = Ret (0, wl')
    /\ started_loaded off18_ex wl'
         (fun mem => load_bytes (load_image segs_ex mem) WL18XX_PHY_INIT_MEM_ADDR [1; 2; 3]).
Proof.
  destruct (wl18xx_boot (ops := Wl18xx.wl18xx_ops) off18_ex) as [[ret wl']| |] eqn:E;
    [|vm_compute in E; discriminate E..].
  assert (ret = 0) as ->.
  { apply (f_equal (fun m => match m with Ret (r, _) => r | _ => 0 end)) in E. rewrite <- E.
    vm_compute. reflexivity. }
  exists wl'. split; [reflexivity|].
  assert (fw (boot off18_ex) = fw_image segs_ex ++ []) as Hf by (vm_compute; reflexivity).
  assert (ptable_down (boot off18_ex) = wl18xx_part_down) as Hd by (vm_compute; reflexivity).
  assert (phy_params (boot off18_ex) = [1; 2; 3]) as Hp by (vm_compute; reflexivity).
  assert (ptable_phy_init (boot off18_ex) = wl18xx_part_phy_init [1; 2; 3]) as Hw by (vm_compute; reflexivity).
  assert (nonpos off18_ex) as Hn by (apply (bool_decide_unpack _); vm_compute; exact I).
  destruct (boot_starts_loaded (laws := Wl18xx.wl18xx_laws) segs_ex [] off18_ex Hf
              (image_ex_ok _ (or_intror Hd)) Hn) as [_ B].
  rewrite Hp in B. apply (B 0 wl' E); [lia | exact Hw | vm_compute; split; congruence].
Defined.

(** ** Where the code goes wrong *)

(** The last address is meant to be the first one with the locally administered
    bit, but the bit is set in the third byte: it is then the first address
    again when the manufacturer's part has that bit. *)
Lemma laa_address_collides oui nic wl :
  num_mac_addr (boot wl) = 2 -> zlen (addresses (boot wl)) = 3 -> Z.testbit (u8 oui) 1 = true ->
  let addrs := addresses (boot (wl12xx_derive_mac_addresses oui nic wl)) in
  zget [] addrs 2 = zget [] addrs 0.
Proof.
  intros N L B. cbv zeta. unfold wl12xx_derive_mac_addresses. cbv zeta. rewrite N.
  destruct (addresses (boot wl)) as [|a0 [|a1 [|a2 [|]]]] eqn:E; try (unfold zlen in L; simpl in L; lia).
  change (for_range 2 (fun i l => zset l i (mac_address oui (u32 (nic + i)))) [a0; a1; a2])
    with [mac_address oui (u32 (nic + 0)); mac_address oui (u32 (nic + 1)); a2].
  assert (Z.lor (u8 oui) (BIT 1) = u8 oui) as Eo.
  { apply Z.bits_inj'. intros i Hi. rewrite Z.lor_spec. unfold BIT. rewrite Z.shiftl_1_l.
    destruct (Z.eq_dec i 1) as [->|Hne]; [by rewrite B|].
    by rewrite Z.pow2_bits_false, orb_false_r by lia. }
  change (zset (mac_address oui (u32 (nic + 0))) 2 (Z.lor (u8 oui) (BIT 1)) = mac_address oui (u32 (nic + 0))).
  by rewrite Eo.
Qed.

(** A 128x with a crystal is refused because the switch to it succeeded: the
    result of [wl128x_switch_tcxo_to_fref] is tested the wrong way round. *)
Lemma xtal_switch_refused wl w :
  ref_clock (boot wl) = WL12XX_REFCLOCK_26_XTAL \/ ref_clock (boot wl) = WL12XX_REFCLOCK_38_XTAL ->
  wl128x_switch_tcxo_to_fref wl = (0, w) -> wl128x_boot_clk wl = (- EINVAL, -1, w).
Proof.
  intros R E. unfold wl128x_boot_clk, wl128x_switch_then_fref. cbv zeta.
  by destruct R as [-> | ->]; rewrite E.
Qed.

(** The clock the 18xx reports is not checked against the table. *)
Lemma clk_table_overrun wl w x w' :
  wlcore_set_partition (ptable_top_prcm_elp_soc (boot wl)) wl = (0, w) ->
  wl18xx_top_reg_read PRIMARY_CLK_DETECT w = (0, x, w') -> 10 <= x -> wl18xx_set_clk wl = Oops.
Proof.
  intros E1 E2 H. unfold wl18xx_set_clk, ocheck. rewrite E1. cbn [obind]. simpl Z.ltb. cbv iota.
  rewrite E2. cbn. rewrite lookup_ge_None_2; [done|]. simpl. lia.
Qed.

(** A file of one piece of eight bytes, cut off after four of them: the length in
    the header is not checked against the file. *)
Lemma truncated_image_overrun :
  wlcore_boot_upload_firmware
    (upd_boot (fun b => b <| fw := be_bytes 1 ++ be_bytes 0x20000 ++ be_bytes 8 ++ [1; 2; 3; 4] |>) off_ex) = Oops.
Proof. vm_compute. reflexivity. Qed.

(** An NVS file of fewer than twelve bytes is read beyond its end at probe,
    before its size is checked. *)
Lemma short_nvs_overrun file r wl : mac80211_registered (boot wl) = false -> zlen file < 12 ->
  wl1271_register_hw (inr file) r wl = Oops.
Proof.
  intros M H. unfold wl1271_register_hw. rewrite M. cbn. unfold nvs_mac_parts, byte_of. simpl Z.ltb. cbv iota.
  rewrite lookup_ge_None_2; [done|]. unfold zlen in H. lia.
Qed.

(** A PHY version without a NUL in its twenty bytes is copied from beyond the
    static data. *)
Lemma phy_version_overrun data wl : (length data <= 84)%nat -> (forall c, c ∈ data -> c <> 0) ->
  wl18xx_handle_static_data data wl = Oops.
Proof.
  intros L N. unfold wl18xx_handle_static_data, strncpy. cbv zeta.
  assert (forall l, (forall c, c ∈ l -> c <> 0) -> c_string l = l) as C.
  { induction l as [|c l IH]; intros H; [done|]. cbn [c_string].
    rewrite (proj2 (Z.eqb_neq _ _)) by (apply H; by left). f_equal. apply IH. intros x Hx. apply H. by right. }
  rewrite C.
  2: { intros c Hc. apply N. rewrite <- (take_drop (Z.to_nat STATIC_DATA_SIZE) data).
       apply elem_of_app. by right. }
  rewrite !bool_decide_eq_true_2; [done| |done].
  rewrite length_drop. unfold ETHTOOL_BUSINFO_LEN. change (Z.to_nat STATIC_DATA_SIZE) with 64%nat. lia.
Qed.
